(* ===== verification/_CoqProject ===== *)
-Q . S2P
Prelude.v
JsString.v
JsValue.v
JsonParse.v
Encoding.v
Dates.v
Numbers.v
Host.v
Html.v
Transport.v
NodeSdk.v
BrowserSdk.v
EventTypes.v
Session.v
HttpApi.v
ApiContract.v
Wallboard.v
Queries.v
QueryPage.v
Studio.v
Tv.v
Shell.v
Overview.v
Events.v
TimeRange.v
Anomalies.v
Sessions.v
ApiKeys.v
People.v
NumText.v
Monitors.v
Notifications.v
Home.v
Insights.v
Profiles.v
Ui.v
Chart.v
Routes.v
Worker.v
Loop.v
Pairing.v
Tab.v
MockApp.v
Correlation.v
