(* ===== verification/Prelude.v ===== *)
(** * BatAudit: the TypeScript SDKs and the dashboard, modelled

    BatAudit collects audit events.  Applications send them with the Node SDK
    (src/sdks/node) or the browser SDK (src/sdks/browser) to a writer service, and
    people read them in a dashboard (src/frontend) that talks to a reader service.
    The services are Go programs; this development models the TypeScript and
    JavaScript: both SDKs; of the dashboard the session, all the calls to the server,
    the queries and mutations, every page, the frame around the pages, the components
    they are made of, the routes with their guards and the service worker; and the mock
    application (src/mock-app), a server with the Node SDK and the scripts that call it.

    ** How the code is represented

    - Values that cross the network or the storage are [JsValue.jsval], with
      JSON text, its parser and their round trip in [JsonParse].  A number is [NaN]
      or a decimal; rounding of binary floating point is not modelled, and the
      prototype chain of objects only where a key from outside is looked up on it
      ([Chart], [MockApp]).  A string is the bytes of its UTF-8 form.
    - Asynchronous code is a [Host.prog]: a finite tree of host operations (fetch,
      timers, the clock, random identifiers, localStorage, navigation) that ends
      with a value or an exception.  [Host.run] executes a program alone, against
      any network ([Host.net] may answer every request in any way that depends on
      the history, or fail); [try_catch] and [try_finally] are the statements of the
      language.
    - Code whose runs overlap is a step relation: [Transport.pool_step] for the
      deliveries of an SDK client, [NodeSdk.system_step] and [NodeSdk.wrap_invoke]
      for the Lambda wrapper, [Studio.step] for the studio with its queries in
      flight, [ApiKeys.page_step] for the page of API keys with the keys being made.
      [Loop.advance] runs a program up to its next request, which makes a call in flight
      what is left of its program: [Pairing.step] is the television with its polls,
      renewals and activations in flight, [Tab.step] a tab of the dashboard with its
      session, calls, handlers that make one call after another ([Tab.handler_prog]), cached
      answers, logins and logouts; answers arrive in any order, or never.  The steps have
      no conditions but those of the code: the studio opens any report, with any layout
      or none.  Invariants are proved by induction on the steps, over every interleaving.
    - A React component is a record of its state, an inductive type of what the user
      can do, the update each handler makes, and the tree it returns ([Html], with
      messages in the place of the closures; the fixed class names are in [Ui] and
      [Chart], whose components [Ui.expand] puts in the trees of the pages).
      Updates that happen when an answer arrives are functions of the state of that
      time, not of the state of the call.
    - Third-party code is a parameter (the URL parser of the platform, locale
      formats, what Express and Fastify hold at a hook, what a browser answers to
      the push calls), a class with the documented behaviour the code relies on and
      an instance of it ([TimeRange.DateFns], a time zone whose distance from UTC changes,
      with those of UTC and of New York; [BrowserSdk.WebPlatform], which refuses and guards
      headers; [Insights.Zod], [Ui.Styles], [Routes.Router], [MockApp.Express]), or an input of the
      step relation (the layouts [react-grid-layout] reports).  Of React Query only the
      documented comparison of keys is used.

    ** The files

    - Foundations: [Prelude] (automation), [JsString], [JsValue], [JsonParse]
      (JSON.parse and its round trips), [Encoding] (percent and form encoding,
      URLSearchParams, base64, atob, with their round trips), [Dates] (toISOString
      and the date parser, with their round trip), [Numbers] (Number(), Math.round,
      toFixed), [NumText] (the text of a number and back), [Host], [Html].
    - [Transport]: the interface between an SDK and the delivery of its events.  The
      class [Transport.Transport] asks that a delivery is a [retries] (post, wait the
      next delay, post again while the event is not taken); the theorems about
      histories, termination and flush are proved against it.
    - [NodeSdk]: sdks/node/src: the client (client.ts), the Express and Fastify
      integrations (middleware), the Lambda wrapper (lambda.ts).  [BrowserSdk]:
      sdks/browser/src: the client, the fetch and XMLHttpRequest interceptors, init.
      Both are instances of [Transport].
    - [Session]: lib/auth.ts, lib/api.ts, lib/theme.ts, http/auth/login.ts, the login
      page and the guard of the application.  [HttpApi]: the calls of
      frontend/src/http; [ApiContract]: what each of them means to the server, with a
      server that parses the request ([server_reads]).  [Wallboard]:
      http/wallboard.ts.  [Queries]: frontend/src/queries.
    - [QueryPage]: applyVars of http/studio.ts and routes/app/_layout/query.tsx.
      [Studio]: routes/app/_layout/studio.tsx.  [Tv]: routes/tv.tsx.  [Shell]: the
      header, sidebar, pagination, theme button and contexts.  [Overview]: the
      filters, the export and the sorting of routes/app/_layout/index.tsx; [Home]: the
      whole of that page, its messages and its tree, over [Overview], [Events],
      [TimeRange] and the pagination of [Shell].
    - [EventTypes]: sdks/node/src/types.ts and sdks/browser/src/types.ts, the interfaces
      of the events as data and a checker of objects against them.
    - [Events]: routes/app/components (event card, detail dialog, health indicator).
      [TimeRange]: components/time-range-picker.tsx.  [Anomalies], [Sessions],
      [Insights] (with settings/retention.tsx): the pages of those names.  Under
      routes/app/_layout/settings: [ApiKeys] (api-keys.tsx), [People] (members.tsx and
      users.tsx, and routes/invite.$token.tsx), [Monitors] (healthcheck.tsx),
      [Notifications] (notifications.tsx), [Profiles] (wallboard.tsx).
    - [Ui]: components/ui but for the charts, and lib/utils.ts; [Chart]:
      components/ui/chart.tsx.  [Routes]: routeTree.gen.ts, the options of every route
      file, the guard of settings.tsx, __root.tsx and main.tsx.  [Worker]: public/sw.js.
    - [Loop]: the event loop: how a program advances to its next request, and what each
      call of [ApiContract] does before and after it.  [Pairing]: http/wallboard.ts and
      routes/tv.tsx over it; [Tab]: the session, the calls, the cache, login.tsx and the
      logout of header.tsx over it.
    - [Correlation]: a page with [BrowserSdk] and a server with [NodeSdk], and the orphans
      the reader reports (internal/audit/repository.go).  [MockApp]: mock-app/server.js over
      [NodeSdk], and mock-app/scenarios.

    ** What is proved

    - Delivery: every event is posted one to four times, as the same request, with
      the waits 100, 200, 400 ms in that order and nothing after it was taken; flush
      ends; a delivery run alone is the reference; the Lambda wrapper ends as its
      handler does once its event was delivered or given up, which takes a bounded number
      of steps in every run.
    - Events: what the integrations record of a request, on every branch, that no
      body leaks when capture is off, when exactly an event is of its declared type, and
      that it then is after JSON; the interceptors are transparent to the application but
      for the header they set, keep every request as it is, and which requests they
      record.
    - Session: what is stored is what is read back, expiry, the guard, sign-in and
      logout, what a 401 does to every call.
    - Calls: each makes one request, which the server reads as what was meant,
      whatever characters the arguments hold; which answers are failures; the key
      of a query determines its request, but for what two hooks leave out of it; mutations refresh the lists they change.
    - Pages: the template substitution and the CSV export against reference
      readers; the studio never shows a result of another query, but when two reports have
      one key; no edit leaves a widget without a grid item; it saves what it shows; the wallboard's mount and renewal, its
      carousel; the pagination stays within the pages; the export of the overview
      page selects what its list shows, but for the filters it leaves out; the
      overview's button that clears the filters is shown exactly when one narrows the
      list, a click on an hour lists that hour (through the picker too), the
      page renders for every URL, and a row of the insights opens its
      events; the time range picker applies what it was opened on, but for the hour that comes
      twice when daylight saving ends; the window of the
      events an alert shows; a secret key leaves the page when it is dismissed or
      another project is opened, but for one answered late; the monitor form sends
      the integers that were typed, within the limits of its inputs, and one form is open at a time; nobody is removed
      with one click; invitations, push subscriptions and VAPID keys; the profiles of
      the wallboard.
    - Components and routes: what can be clicked, typed and submitted in the document is
      what the trees of the pages say; one page of the pagination is marked; the style
      sheet of a chart has the colours its configuration asks for; every route of the application is behind the guard and every link leads into
      the tree; what a push shows and a click on it opens.
    - Calls in flight: every request carries a credential the tab or the device knows,
      in its header or its body; a tab that is signed out sends nothing, but what a handler
      that was running still asks for, without a credential; after Disconnect a television renews nothing,
      and sends nothing if nothing was in flight; what a late answer can still do.
    - The two SDKs together: a request made with the patched fetch, but in the mode no-cors,
      is recorded by the page and by the server under one identifier, so that it is an orphan exactly when no event
      of a server is stored; and when an XMLHttpRequest is not.
    - The mock application: one anonymous event for every request that is parsed, what
      the scenarios show, when the load scenario ends.

    The statements also record where the code does less than it means to; each such
    case is a theorem or a clause of one (a token in the URL alphabet of base64, a
    listener added twice, a save that binds another report, and so on).

    ** Fuel and bounds

    [_sendWithRetry] recurses on fuel, one more than the number of delays; the
    reference theorem holds for any such fuel and the program never reaches the end
    of it.  [JsonParse.json_parse] takes twice the length of its text plus two, and the
    round trips show that it is enough for every text [JSON.stringify] makes.  [QueryPage.replace_from] takes the
    length of the text: each round reads at least one character.  [Routes.chain] climbs
    the four levels of the tree, which the theorems evaluate.  [MockApp.load_batches] ends
    with fuel for one round more than the total when the concurrency is positive, and with
    no fuel when it is not.  All other recursion is structural.

    ** What is not modelled

    The layout of the charts (a chart is its points with what a click on them sends) and
    the other third-party components, which are elements of the trees; the router beyond
    the guards, the paths and the links; React Query beyond its keys and its cache; what
    the scripts print; the Go services; the documentation site and the build files, which
    are configuration. *)

From stdpp Require Export base option list strings gmap.
From Stdlib Require Export Ascii ZArith Lia.

(** stdpp blocks [String.append]; the string lemmas here compute with it. *)
#[global] Arguments String.append !_ _ /.

(** ** Automation *)

Create HintDb bat discriminated.

(** The rewrite base that pushes [run] through the combinators of [Host]. *)
Create Rewrite HintDb run.

(** Break a boolean conjunction, a [Some]-equation or a pair in the context. *)
Ltac bat_simpl :=
  repeat match goal with
  | H : _ && _ = true |- _ => apply andb_true_iff in H; destruct H
  | H : _ || _ = false |- _ => apply orb_false_iff in H; destruct H
  | H : negb _ = true |- _ => apply negb_true_iff in H
  | H : negb _ = false |- _ => apply negb_false_iff in H
  | H : Ascii.eqb _ _ = true |- _ => apply Ascii.eqb_eq in H
  | H : Ascii.eqb _ _ = false |- _ => apply Ascii.eqb_neq in H
  | H : String.eqb _ _ = true |- _ => apply String.eqb_eq in H
  | H : String.eqb _ _ = false |- _ => apply String.eqb_neq in H
  | H : Some _ = Some _ |- _ => injection H as H
  | H : (_, _) = (_, _) |- _ => injection H as ? ?
  end; simplify_eq.

(** Case analysis on the scrutinee of the first [match] or [if] of the goal. *)
Ltac bat_case :=
  match goal with
  | |- context [match ?x with _ => _ end] => destruct x eqn:?
  end.

(** ** Lists *)

Section lists.
Context {A B : Type}.

Lemma lookup_nth_lt (l : list A) (i : nat) (d : A) :
  (i < length l)%nat -> l !! i = Some (nth i l d).
Proof. rewrite nth_lookup. intros [x Hx]%lookup_lt_is_Some_2. by rewrite Hx. Qed.
End lists.

(** ** Tables keyed by strings

    An object whose members have one type, in insertion order. *)

Section tables.
Context {A : Type}.
Implicit Types (o a b : list (string * A)).

(** [o[k]] *)
Fixpoint assoc (k : string) o : option A :=
  match o with
  | [] => None
  | (k', v) :: o' => if String.eqb k' k then Some v else assoc k o'
  end.

Fixpoint put (k : string) (v : A) o : list (string * A) :=
  match o with
  | [] => [(k, v)]
  | (k', v') :: o' => if String.eqb k' k then (k, v) :: o' else (k', v') :: put k v o'
  end.

(** [{ ...a, ...b }] *)
Definition merge a b : list (string * A) := fold_left (fun acc kv => put kv.1 kv.2 acc) b a.

Lemma assoc_in k o v : assoc k o = Some v -> In (k, v) o.
Proof.
  induction o as [|[k' v'] o IH]; cbn; [done |].
  destruct (String.eqb_spec k' k) as [->|]; intros Ho; [left; congruence | right; by apply IH].
Qed.

Lemma assoc_put k k' v o : assoc k (put k' v o) = if String.eqb k' k then Some v else assoc k o.
Proof.
  induction o as [|[k'' v''] o IH]; cbn; [done |].
  destruct (String.eqb_spec k'' k') as [->|Hne]; cbn; [by destruct (String.eqb k' k) |].
  rewrite IH. destruct (String.eqb_spec k'' k), (String.eqb_spec k' k); congruence.
Qed.

Lemma assoc_not_in k o : ~ In k (List.map fst o) -> assoc k o = None.
Proof.
  induction o as [|[k' v'] o IH]; cbn; [done |]. intros Hk.
  destruct (String.eqb_spec k' k) as [->|]; [tauto | apply IH; tauto].
Qed.

Lemma assoc_merge k a b :
  NoDup (List.map fst b) ->
  assoc k (merge a b) = match assoc k b with Some v => Some v | None => assoc k a end.
Proof.
  revert a. unfold merge. induction b as [|[k' v'] b IH]; intros a; [done |].
  cbn [List.map fold_left fst]. intros [Hk Hb]%NoDup_cons. rewrite IH by done. cbn. rewrite assoc_put.
  destruct (String.eqb_spec k' k) as [->|]; [| done].
  rewrite assoc_not_in; [done |]. by rewrite <- list_elem_of_In.
Qed.
End tables.
