(* ===== verification/JsString.v ===== *)
(** * The string operations of ECMAScript the code uses

    A string is a sequence of bytes (the UTF-8 form of the JavaScript string).
    The operations below are the ones the sources call: [startsWith],
    [endsWith], [split] on one character, [join], [trim], the ASCII case maps
    and the decimal form of an integer. *)

From Stdlib Require Import DecimalString DecimalZ.
From S2P Require Import Prelude.

Local Open Scope string_scope.

(** ** [startsWith], [endsWith], [includes] of one character *)

Fixpoint prefix_of (p s : string) : bool :=
  match p, s with
  | "", _ => true
  | String a p', String b s' => Ascii.eqb a b && prefix_of p' s'
  | _, _ => false
  end.

(** [s.startsWith(p)] *)
Definition starts_with (s p : string) : bool := prefix_of p s.

Fixpoint ends_with (s p : string) : bool :=
  String.eqb s p || match s with "" => false | String _ s' => ends_with s' p end.

Fixpoint has_char (c : ascii) (s : string) : bool :=
  match s with
  | "" => false
  | String a s' => Ascii.eqb a c || has_char c s'
  end.

Fixpoint all_chars (f : ascii -> bool) (s : string) : bool :=
  match s with
  | "" => true
  | String a s' => f a && all_chars f s'
  end.

Fixpoint map_string (f : ascii -> ascii) (s : string) : string :=
  match s with
  | "" => ""
  | String a s' => String (f a) (map_string f s')
  end.

Fixpoint concat_map (f : ascii -> string) (s : string) : string :=
  match s with
  | "" => ""
  | String a s' => f a +:+ concat_map f s'
  end.

(** ** [s.split(c)] and [l.join(sep)] *)

Fixpoint split_on (c : ascii) (s : string) : list string :=
  match s with
  | "" => [""]
  | String a s' =>
      if Ascii.eqb a c then "" :: split_on c s'
      else match split_on c s' with
           | h :: t => String a h :: t
           | [] => [String a ""]
           end
  end.

(** [s.split(c)[0]]. *)
Definition before (c : ascii) (s : string) : string := hd "" (split_on c s).

Fixpoint join (sep : string) (l : list string) : string :=
  match l with
  | [] => ""
  | [x] => x
  | x :: l' => x +:+ sep +:+ join sep l'
  end.

(** ** ASCII case maps and [trim] *)

Definition ascii_in (lo hi : N) (a : ascii) : bool :=
  (lo <=? N_of_ascii a)%N && (N_of_ascii a <=? hi)%N.

Definition to_upper_char (a : ascii) : ascii :=
  if ascii_in 97 122 a then ascii_of_N (N_of_ascii a - 32) else a.
Definition to_lower_char (a : ascii) : ascii :=
  if ascii_in 65 90 a then ascii_of_N (N_of_ascii a + 32) else a.

Definition to_upper : string -> string := map_string to_upper_char.
Definition to_lower : string -> string := map_string to_lower_char.

(** White space: tab, LF, VT, FF, CR and the space. *)
Definition is_ws (a : ascii) : bool := ascii_in 9 13 a || Ascii.eqb a " ".

Fixpoint trim_left (s : string) : string :=
  match s with
  | String a s' => if is_ws a then trim_left s' else s
  | "" => ""
  end.

Fixpoint trim_right (s : string) : string :=
  match s with
  | "" => ""
  | String a s' =>
      match trim_right s' with
      | "" => if is_ws a then "" else String a ""
      | r => String a r
      end
  end.

Definition trim (s : string) : string := trim_right (trim_left s).

(** [s.length]: the UTF-16 code units of the text whose UTF-8 bytes are [s]. *)
Fixpoint js_length (s : string) : nat :=
  match s with
  | "" => 0%nat
  | String a s' =>
      let n := N_of_ascii a in
      ((if (n <? 128)%N then 1 else if (n <? 192)%N then 0 else if (n <? 240)%N then 1 else 2) +
       js_length s')%nat
  end.

Fixpoint repeat_string (s : string) (n : nat) : string :=
  match n with
  | O => ""
  | S n' => s +:+ repeat_string s n'
  end.

(** [s.replace(/a/g, b)] for single characters. *)
Definition replace_char (a b : ascii) : string -> string :=
  map_string (fun c => if Ascii.eqb c a then b else c).

(** ** The decimal form of an integer, and reading it back *)

Definition string_of_Z (z : Z) : string := NilZero.string_of_int (Z.to_int z).
Definition Z_of_string (s : string) : option Z := Z.of_int <$> NilZero.int_of_string s.

(** ** Lemmas *)

Lemma app_nil_r_s s : s +:+ "" = s.
Proof. induction s; simpl; congruence. Qed.

Lemma app_assoc_s s1 s2 s3 : s1 +:+ (s2 +:+ s3) = (s1 +:+ s2) +:+ s3.
Proof. induction s1; simpl; congruence. Qed.

Lemma length_app_s s1 s2 : String.length (s1 +:+ s2) = String.length s1 + String.length s2.
Proof. induction s1; simpl; congruence. Qed.

Lemma starts_with_spec s p : starts_with s p = true <-> exists t, s = p +:+ t.
Proof.
  unfold starts_with. revert s. induction p as [|a p IH]; intros s; simpl.
  - split; eauto.
  - destruct s as [|b s]; [by split; [| intros [? ?]] |].
    rewrite andb_true_iff, Ascii.eqb_eq, IH.
    split; [intros [-> [t ->]]; eauto | intros [t [= -> ->]]; eauto].
Qed.

Lemma starts_with_app p t : starts_with (p +:+ t) p = true.
Proof. apply starts_with_spec. eauto. Qed.

Lemma has_char_app c s1 s2 : has_char c (s1 +:+ s2) = has_char c s1 || has_char c s2.
Proof. induction s1; simpl; [done |]. by rewrite IHs1, orb_assoc. Qed.

Lemma all_chars_app f s1 s2 : all_chars f (s1 +:+ s2) = all_chars f s1 && all_chars f s2.
Proof. induction s1; simpl; [done |]. by rewrite IHs1, andb_assoc. Qed.

Lemma all_chars_impl (f g : ascii -> bool) s :
  (forall a, f a = true -> g a = true) -> all_chars f s = true -> all_chars g s = true.
Proof. intros Hfg. induction s; simpl; [done |]. intros. bat_simpl. rewrite Hfg; auto. Qed.

Lemma all_chars_no_char f c s : f c = false -> all_chars f s = true -> has_char c s = false.
Proof.
  intros Hc. induction s as [|a s IH]; simpl; [done |]. intros. bat_simpl.
  rewrite IH by done. destruct (Ascii.eqb a c) eqn:E; bat_simpl; [congruence | done].
Qed.

Lemma split_on_ne c s : split_on c s <> [].
Proof. destruct s; simpl; [done |]. repeat bat_case; done. Qed.

(** Without the separator, [split] returns the string itself. *)
Lemma split_on_no_char c s : has_char c s = false -> split_on c s = [s].
Proof.
  induction s as [|a s IH]; simpl; [done |]. intros. bat_simpl.
  destruct (Ascii.eqb_spec a c); [done |]. by rewrite IH.
Qed.

(** The separator after a piece that does not hold it ends that piece. *)
Lemma split_on_app c s t :
  has_char c s = false -> split_on c (s +:+ String c t) = s :: split_on c t.
Proof.
  induction s as [|a s IH]; simpl; intros.
  - by rewrite Ascii.eqb_refl.
  - bat_simpl. destruct (Ascii.eqb_spec a c); [done |]. by rewrite IH.
Qed.

(** [split] undoes [join] on pieces without the separator. *)
Lemma split_join c l :
  l <> [] -> Forall (fun s => has_char c s = false) l ->
  split_on c (join (String c "") l) = l.
Proof.
  intros Hne Hl. induction Hl as [|x l Hx Hl IH]; [done |].
  destruct l as [|y l]; simpl.
  - by apply split_on_no_char.
  - rewrite split_on_app by done. f_equal. by apply IH.
Qed.

Lemma split_on_pieces c s : Forall (fun p => has_char c p = false) (split_on c s).
Proof.
  induction s as [|a s IH]; simpl; [by constructor |].
  destruct (Ascii.eqb a c) eqn:E; [by constructor |].
  destruct (split_on c s); inversion IH; subst; constructor; simpl; try done.
  - by rewrite E.
  - by rewrite E.
Qed.

Lemma before_no_char c s : has_char c (before c s) = false.
Proof.
  unfold before. pose proof (split_on_pieces c s) as H.
  destruct (split_on c s); simpl; [done |]. by inversion H.
Qed.

Lemma before_prefix c s : starts_with s (before c s) = true.
Proof.
  unfold before. induction s as [|a s IH]; simpl; [done |].
  destruct (Ascii.eqb a c); [done |].
  destruct (split_on c s) eqn:E; simpl in *.
  - by destruct (split_on_ne c s).
  - unfold starts_with in *. simpl. by rewrite Ascii.eqb_refl.
Qed.

Lemma before_app c s t : has_char c s = false -> before c (s +:+ String c t) = s.
Proof. intros. unfold before. by rewrite split_on_app. Qed.

Lemma before_id c s : has_char c s = false -> before c s = s.
Proof. intros. unfold before. by rewrite split_on_no_char. Qed.

Lemma string_of_Z_roundtrip z : Z_of_string (string_of_Z z) = Some z.
Proof.
  unfold Z_of_string, string_of_Z.
  assert (Z.to_int z <> Decimal.Pos Decimal.Nil /\ Z.to_int z <> Decimal.Neg Decimal.Nil) as [H1 H2].
  { destruct z as [|p|p]; split; try done; simpl; intros [= H];
      by apply DecimalPos.Unsigned.to_uint_nonnil in H. }
  rewrite NilZero.isi by done. simpl. by rewrite DecimalZ.of_to.
Qed.

Lemma string_of_Z_inj z1 z2 : string_of_Z z1 = string_of_Z z2 -> z1 = z2.
Proof.
  intros H. apply (f_equal Z_of_string) in H. rewrite !string_of_Z_roundtrip in H. congruence.
Qed.

#[export] Hint Resolve starts_with_app before_no_char before_prefix split_on_ne : bat.

Lemma app_inj_r s : forall a b, a +:+ s = b +:+ s -> a = b.
Proof.
  induction a as [|c a IH]; intros [|d b]; simpl; intros H; [done | | |].
  - apply (f_equal String.length) in H. simpl in H. rewrite length_app_s in H. lia.
  - apply (f_equal String.length) in H. simpl in H. rewrite length_app_s in H. lia.
  - injection H as -> H. f_equal. auto.
Qed.
