(* ===== verification/JsValue.v ===== *)
(** * JavaScript values, property access and the JSON codec

    [jsval] is the type of the untyped values that cross the network and the
    storage.  Objects keep their members in insertion order.  A number is
    [NaN] or a decimal [Num m e], standing for [m * 10^-e]; rounding of binary
    floating point is not modelled.  [stringify] is [JSON.stringify] with one
    argument, [json_parse] is [JSON.parse]. *)

From Stdlib Require Import DecimalString DecimalZ DecimalPos DecimalN DecimalFacts.
From S2P Require Import Prelude JsString.

Local Open Scope string_scope.
Local Open Scope Z_scope.
Local Set Warnings "-register-all".

Inductive num : Type :=
| NaN
| Num (m : Z) (e : nat).

Inductive jsval : Type :=
| JUndef
| JNull
| JBool (b : bool)
| JNum (n : num)
| JStr (s : string)
| JArr (l : list jsval)
| JObj (o : list (string * jsval)).

Abbreviation JInt z := (JNum (Num z 0)).

(** A JavaScript object literal; [undefined] members are [JUndef]. *)
Definition obj : Type := list (string * jsval).

(** Induction through the nested lists. *)
Section jsval_rect.
Context (P : jsval -> Prop).
Context (Hundef : P JUndef) (Hnull : P JNull) (Hbool : forall b, P (JBool b))
  (Hnum : forall n, P (JNum n)) (Hstr : forall s, P (JStr s))
  (Harr : forall l, Forall P l -> P (JArr l))
  (Hobj : forall o, Forall (fun kv => P kv.2) o -> P (JObj o)).

Fixpoint jsval_nested_ind (v : jsval) : P v :=
  match v with
  | JUndef => Hundef
  | JNull => Hnull
  | JBool b => Hbool b
  | JNum n => Hnum n
  | JStr s => Hstr s
  | JArr l =>
      Harr l ((fix go (l : list jsval) : Forall P l :=
        match l with
        | [] => Forall_nil_2 _
        | x :: l' => Forall_cons_2 _ _ _ (jsval_nested_ind x) (go l')
        end) l)
  | JObj o =>
      Hobj o ((fix go (o : list (string * jsval)) : Forall (fun kv => P kv.2) o :=
        match o with
        | [] => Forall_nil_2 _
        | kv :: o' => Forall_cons_2 _ _ _ (jsval_nested_ind kv.2) (go o')
        end) o)
  end.
End jsval_rect.

(** ** Truthiness and nullish values *)

Definition num_truthy (n : num) : bool :=
  match n with NaN => false | Num m _ => negb (m =? 0) end.

Definition str_truthy (s : string) : bool := negb (String.eqb s "").

Definition truthy (v : jsval) : bool :=
  match v with
  | JUndef | JNull => false
  | JBool b => b
  | JNum n => num_truthy n
  | JStr s => str_truthy s
  | JArr _ | JObj _ => true
  end.

Definition nullish (v : jsval) : bool :=
  match v with JUndef | JNull => true | _ => false end.

(** [v ?? d] *)
Definition coalesce (v d : jsval) : jsval := if nullish v then d else v.

(** [v || d] *)
Definition js_or (v d : jsval) : jsval := if truthy v then v else d.

(** An optional property of a record: [undefined] when absent. *)
Definition jopt {A} (f : A -> jsval) (o : option A) : jsval :=
  match o with Some x => f x | None => JUndef end.

(** ** Objects *)

Fixpoint obj_get (k : string) (o : list (string * jsval)) : jsval :=
  match o with
  | [] => JUndef
  | (k', v) :: o' => if String.eqb k' k then v else obj_get k o'
  end.

Fixpoint obj_set (k : string) (v : jsval) (o : list (string * jsval)) : list (string * jsval) :=
  match o with
  | [] => [(k, v)]
  | (k', v') :: o' => if String.eqb k' k then (k, v) :: o' else (k', v') :: obj_set k v o'
  end.

(** [{ ...a, ...b }] *)
Definition spread (a b : list (string * jsval)) : list (string * jsval) :=
  fold_left (fun acc kv => obj_set kv.1 kv.2 acc) b a.

(** [v.k]; [None] is the TypeError on [null] and [undefined].  A primitive and
    an array have none of the properties the sources read. *)
Definition get_prop (v : jsval) (k : string) : option jsval :=
  match v with
  | JUndef | JNull => None
  | JObj o => Some (obj_get k o)
  | _ => Some JUndef
  end.

(** What an object has of [Object.prototype]. *)
Definition object_prototype : list string :=
  ["constructor"; "__defineGetter__"; "__defineSetter__"; "hasOwnProperty"; "__lookupGetter__";
   "__lookupSetter__"; "isPrototypeOf"; "propertyIsEnumerable"; "toString"; "valueOf"; "__proto__";
   "toLocaleString"].

(** ** [JSON.stringify] *)

Definition dquote : ascii := "034"%char.

Definition hex_digit (n : N) : ascii :=
  if (n <? 10)%N then ascii_of_N (48 + n) else ascii_of_N (87 + n).

Definition esc_char (a : ascii) : string :=
  if Ascii.eqb a dquote then String "\" (String dquote "")
  else if Ascii.eqb a "\" then "\\"
  else if (32 <=? N_of_ascii a)%N then String a ""
  else match N_of_ascii a with
       | 8%N => "\b" | 9%N => "\t" | 10%N => "\n" | 12%N => "\f" | 13%N => "\r"
       | n => "\u00" +:+ String (hex_digit (n / 16)) (String (hex_digit (n mod 16)) "")
       end.

Definition quote (s : string) : string :=
  String dquote (concat_map esc_char s +:+ String dquote "").

(** [n] digits of [z], most significant first. *)
Fixpoint digits_pad (n : nat) (z : Z) : string :=
  match n with
  | O => ""
  | S n' => digits_pad n' (z / 10) +:+ String (ascii_of_N (48 + Z.to_N (z mod 10))) ""
  end.

(** [String(n)] for a number. *)
Definition string_of_num (n : num) : string :=
  match n with
  | NaN => "NaN"
  | Num m O => string_of_Z m
  | Num m e =>
      (if m <? 0 then "-" else "") +:+ string_of_Z (Z.abs m / 10 ^ Z.of_nat e) +:+
      "." +:+ digits_pad e (Z.abs m mod 10 ^ Z.of_nat e)
  end.

Definition json_num (n : num) : string :=
  match n with NaN => "null" | _ => string_of_num n end.

Fixpoint stringify (v : jsval) : option string :=
  match v with
  | JUndef => None
  | JNull => Some "null"
  | JBool b => Some (if b then "true" else "false")
  | JNum n => Some (json_num n)
  | JStr s => Some (quote s)
  | JArr l =>
      Some ("[" +:+ join "," (List.map (fun x => default "null" (stringify x)) l) +:+ "]")
  | JObj o =>
      Some ("{" +:+ join "," (flat_map (fun kv =>
              match kv with
              | (k, x) => match stringify x with
                          | Some t => [quote k +:+ ":" +:+ t]
                          | None => []
                          end
              end) o) +:+ "}")
  end.

(** The text of a value that is not [undefined]. *)
Definition json_text (v : jsval) : string := default "undefined" (stringify v).

(** ** [String(v)] *)

Fixpoint js_string (v : jsval) : string :=
  match v with
  | JUndef => "undefined"
  | JNull => "null"
  | JBool b => if b then "true" else "false"
  | JNum n => string_of_num n
  | JStr s => s
  | JArr l => join "," (List.map (fun x => if nullish x then "" else js_string x) l)
  | JObj _ => "[object Object]"
  end.

(** ** Reading what was written *)

Lemma obj_get_set k v o : obj_get k (obj_set k v o) = v.
Proof.
  induction o as [|[k' v'] o IH]; cbn; [by rewrite String.eqb_refl |].
  destruct (String.eqb k' k) eqn:E; cbn; by rewrite ?String.eqb_refl, ?E.
Qed.

Lemma obj_get_set_ne k k' v o : k <> k' -> obj_get k (obj_set k' v o) = obj_get k o.
Proof.
  intros Hne. induction o as [|[k'' v'] o IH]; cbn.
  - by destruct (String.eqb_spec k' k); [congruence |].
  - destruct (String.eqb_spec k'' k') as [->|]; cbn.
    + by destruct (String.eqb_spec k' k); [congruence |].
    + by rewrite IH.
Qed.
