(* ===== verification/JsonParse.v ===== *)
(** * [JSON.parse], and that it inverts [JSON.stringify]

    A recursive-descent parser over the text, with fuel.  [json_parse] gives it
    twice the length of the text plus two, which is enough because each nested
    call after at most one more consumes a character
    ([json_parse_stringify]). *)

From Stdlib Require Import DecimalString DecimalZ DecimalPos DecimalN DecimalFacts.
From S2P Require Import Prelude JsString JsValue.

Local Open Scope string_scope.
Local Open Scope Z_scope.

(** ** Numbers *)

Definition is_digit (a : ascii) : bool := ascii_in 48 57 a.

Definition num_char (a : ascii) : bool :=
  is_digit a || Ascii.eqb a "-" || Ascii.eqb a "+" || Ascii.eqb a "."
  || Ascii.eqb a "e" || Ascii.eqb a "E".

Fixpoint span_s (f : ascii -> bool) (s : string) : string * string :=
  match s with
  | "" => ("", "")
  | String a s' => if f a then let '(x, y) := span_s f s' in (String a x, y) else ("", s)
  end.

(** JSON forbids a leading zero before another digit. *)
Definition leading_zero (s : string) : bool :=
  match s with
  | String "0" (String _ _) | String "-" (String "0" (String _ _)) => true
  | _ => false
  end.

Definition parse_int (s : string) : option Z :=
  if leading_zero s then None
  else match s with
       | String a _ => if is_digit a || Ascii.eqb a "-" then Z_of_string s else None
       | "" => None
       end.

(** A run of digits, as a natural number. *)
Definition parse_digits (s : string) : option Z :=
  match s with
  | String _ _ => if all_chars is_digit s then Z_of_string s else None
  | "" => None
  end.

Fixpoint norm_num (m : Z) (e : nat) : num :=
  match e with
  | O => Num m 0
  | S e' => if m mod 10 =? 0 then norm_num (m / 10) e' else Num m e
  end.

(** [mant * 10^(exp - frac)] in the [num] form. *)
Definition scale_num (m : Z) (frac : nat) (exp : Z) : num :=
  let d := exp - Z.of_nat frac in
  if 0 <=? d then Num (m * 10 ^ d) 0 else norm_num m (Z.to_nat (- d)).

Definition parse_exp (s : string) : option Z :=
  match s with
  | String "+" s' => parse_digits s'
  | String "-" s' => Z.opp <$> parse_digits s'
  | _ => parse_digits s
  end.

Definition parse_mant (s : string) (exp : Z) : option num :=
  match split_on "." s with
  | [i] => z ← parse_int i; Some (scale_num z 0 exp)
  | [i; f] =>
      z ← parse_int i;
      q ← parse_digits f;
      let n := String.length f in
      let neg := starts_with i "-" in
      let m := Z.abs z * 10 ^ Z.of_nat n + q in
      Some (scale_num (if neg then - m else m) n exp)
  | _ => None
  end.

Definition parse_num (s : string) : option num :=
  match split_on "e" (replace_char "E" "e" s) with
  | [m] => parse_mant m 0
  | [m; x] => exp ← parse_exp x; parse_mant m exp
  | _ => None
  end.

(** ** Strings *)

Definition unhex (a : ascii) : option N :=
  let n := N_of_ascii a in
  if ascii_in 48 57 a then Some (n - 48)%N
  else if ascii_in 97 102 a then Some (n - 87)%N
  else if ascii_in 65 70 a then Some (n - 55)%N
  else None.

Definition unhex4 (a b c d : ascii) : option N :=
  match unhex a, unhex b, unhex c, unhex d with
  | Some a, Some b, Some c, Some d => Some (((a * 16 + b) * 16 + c) * 16 + d)%N
  | _, _, _, _ => None
  end.

(** The UTF-8 bytes of a code unit below 65536. *)
Definition utf8 (n : N) : string :=
  if (n <? 128)%N then String (ascii_of_N n) ""
  else if (n <? 2048)%N then
    String (ascii_of_N (192 + n / 64)) (String (ascii_of_N (128 + n mod 64)) "")
  else String (ascii_of_N (224 + n / 4096))
         (String (ascii_of_N (128 + n / 64 mod 64)) (String (ascii_of_N (128 + n mod 64)) "")).

Definition unesc (a : ascii) : option ascii :=
  if Ascii.eqb a dquote then Some dquote
  else if Ascii.eqb a "\" then Some "\"%char
  else if Ascii.eqb a "/" then Some "/"%char
  else if Ascii.eqb a "b" then Some (ascii_of_N 8)
  else if Ascii.eqb a "t" then Some (ascii_of_N 9)
  else if Ascii.eqb a "n" then Some (ascii_of_N 10)
  else if Ascii.eqb a "f" then Some (ascii_of_N 12)
  else if Ascii.eqb a "r" then Some (ascii_of_N 13)
  else None.

Definition prepend (p : string) (r : option (string * string)) : option (string * string) :=
  match r with Some (x, y) => Some (p +:+ x, y) | None => None end.

(** The contents of a string literal after its opening quote, and the rest. *)
Fixpoint parse_str (s : string) : option (string * string) :=
  match s with
  | "" => None
  | String a s1 =>
      if Ascii.eqb a dquote then Some ("", s1)
      else if Ascii.eqb a "\" then
        match s1 with
        | String b s2 =>
            if Ascii.eqb b "u" then
              match s2 with
              | String c (String d (String e (String f s3))) =>
                  match unhex4 c d e f with
                  | Some n => prepend (utf8 n) (parse_str s3)
                  | None => None
                  end
              | _ => None
              end
            else match unesc b with
                 | Some c => prepend (String c "") (parse_str s2)
                 | None => None
                 end
        | "" => None
        end
      else if (N_of_ascii a <? 32)%N then None
      else prepend (String a "") (parse_str s1)
  end.

(** ** Values *)

Definition json_ws (a : ascii) : bool :=
  Ascii.eqb a " " || Ascii.eqb a "009" || Ascii.eqb a "010" || Ascii.eqb a "013".

Fixpoint skip_ws (s : string) : string :=
  match s with
  | String a s' => if json_ws a then skip_ws s' else s
  | "" => ""
  end.

Fixpoint strip_prefix (p s : string) : option string :=
  match p, s with
  | "", _ => Some s
  | String a p', String b s' => if Ascii.eqb a b then strip_prefix p' s' else None
  | _, _ => None
  end.

Lemma strip_prefix_app p s : strip_prefix p (p +:+ s) = Some s.
Proof. induction p as [|a p IH]; cbn; [done |]. by rewrite Ascii.eqb_refl. Qed.

Definition parse_atom (s : string) : option (jsval * string) :=
  match s with
  | String a s' =>
      if Ascii.eqb a dquote then '(x, r) ← parse_str s'; Some (JStr x, r)
      else if Ascii.eqb a "n" then r ← strip_prefix "null" s; Some (JNull, r)
      else if Ascii.eqb a "t" then r ← strip_prefix "true" s; Some (JBool true, r)
      else if Ascii.eqb a "f" then r ← strip_prefix "false" s; Some (JBool false, r)
      else let '(t, r) := span_s num_char s in n ← parse_num t; Some (JNum n, r)
  | "" => None
  end.

(** The next character that is not white space, and what follows it. *)
Definition next (s : string) : option (ascii * string) :=
  match skip_ws s with String a r => Some (a, r) | "" => None end.

Fixpoint parse_value (fuel : nat) (s : string) : option (jsval * string) :=
  match fuel with
  | O => None
  | S fuel =>
      '(a, s1) ← next s;
      if Ascii.eqb a "[" then
        '(b, r) ← next s1;
        if Ascii.eqb b "]" then Some (JArr [], r)
        else '(l, r) ← parse_elems fuel s1; Some (JArr l, r)
      else if Ascii.eqb a "{" then
        '(b, r) ← next s1;
        if Ascii.eqb b "}" then Some (JObj [], r)
        else '(o, r) ← parse_members fuel s1; Some (JObj (spread [] o), r)
      else parse_atom (String a s1)
  end
with parse_elems (fuel : nat) (s : string) : option (list jsval * string) :=
  match fuel with
  | O => None
  | S fuel =>
      '(v, r) ← parse_value fuel s;
      '(a, r1) ← next r;
      if Ascii.eqb a "," then '(l, r2) ← parse_elems fuel r1; Some (v :: l, r2)
      else if Ascii.eqb a "]" then Some ([v], r1)
      else None
  end
with parse_members (fuel : nat) (s : string) : option (list (string * jsval) * string) :=
  match fuel with
  | O => None
  | S fuel =>
      '(a, s1) ← next s;
      if Ascii.eqb a dquote then
        '(k, r) ← parse_str s1;
        '(b, r1) ← next r;
        if Ascii.eqb b ":" then
          '(v, r2) ← parse_value fuel r1;
          '(c, r3) ← next r2;
          if Ascii.eqb c "," then '(o, r4) ← parse_members fuel r3; Some ((k, v) :: o, r4)
          else if Ascii.eqb c "}" then Some ([(k, v)], r3)
          else None
        else None
      else None
  end.

(** [JSON.parse(s)]; [None] is the SyntaxError. *)
Definition json_parse (s : string) : option jsval :=
  match parse_value (2 * String.length s + 2) s with
  | Some (v, r) => if String.eqb (skip_ws r) "" then Some v else None
  | None => None
  end.

(** ** The round trip *)

(** The values [JSON.stringify] keeps: no [undefined], integer numbers, and
    objects with distinct keys. *)
Fixpoint keys_nodup (o : list (string * jsval)) : bool :=
  match o with
  | [] => true
  | (k, _) :: o' => negb (existsb (fun kv => String.eqb kv.1 k) o') && keys_nodup o'
  end.

Fixpoint json_ok (v : jsval) : bool :=
  match v with
  | JUndef => false
  | JNum (Num _ O) => true
  | JNum _ => false
  | JArr l => forallb json_ok l
  | JObj o => keys_nodup o && forallb (fun kv => json_ok kv.2) o
  | _ => true
  end.

(** What may follow a value in the text: nothing that extends a number. *)
Definition num_stop (r : string) : bool :=
  match r with String a _ => negb (num_char a) | "" => true end.

Section numbers.
Definition int_char (a : ascii) : bool := is_digit a || Ascii.eqb a "-".

Lemma string_of_uint_digits d : all_chars is_digit (NilEmpty.string_of_uint d) = true.
Proof. induction d; simpl; try done; by rewrite IHd. Qed.

Lemma string_of_uint_digits_zero d : all_chars is_digit (NilZero.string_of_uint d) = true.
Proof. destruct d; try done; apply (string_of_uint_digits (_ _)). Qed.

Lemma string_of_Z_chars z : all_chars int_char (string_of_Z z) = true.
Proof.
  assert (forall s, all_chars is_digit s = true -> all_chars int_char s = true) as Himp.
  { intros s. apply all_chars_impl. unfold int_char. intros a ->. done. }
  unfold string_of_Z. destruct (Z.to_int z) as [d|d]; simpl; apply Himp, string_of_uint_digits_zero.
Qed.

Lemma to_uint_no_leading p d : Pos.to_uint p <> Decimal.D0 d.
Proof.
  intros H. pose proof (DecimalPos.Unsigned.to_of (Pos.to_uint p)) as Ho.
  rewrite DecimalPos.Unsigned.of_to in Ho. simpl in Ho. rewrite H in Ho.
  assert (Decimal.unorm (Decimal.D0 d) = Decimal.D0 d) as Hu by done.
  unfold Decimal.unorm in Hu. simpl in Hu.
  destruct (Decimal.nzhead d) eqn:E; try done.
  - injection Hu as <-. by apply (DecimalPos.Unsigned.to_uint_nonzero p).
  - by eapply nzhead_nonzero in E.
Qed.

Lemma string_of_Z_no_leading z : leading_zero (string_of_Z z) = false.
Proof.
  destruct z as [|p|p]; [done | |]; unfold string_of_Z; simpl;
    pose proof (to_uint_no_leading p) as Hl; destruct (Pos.to_uint p) eqn:E; try done;
    by destruct (Hl u).
Qed.

Lemma string_of_Z_ne z : string_of_Z z <> "".
Proof. intros H. pose proof (string_of_Z_roundtrip z) as Hr. by rewrite H in Hr. Qed.

Lemma parse_int_string_of_Z z : parse_int (string_of_Z z) = Some z.
Proof.
  unfold parse_int. rewrite string_of_Z_no_leading.
  pose proof (string_of_Z_chars z) as Hc. pose proof (string_of_Z_roundtrip z) as Hr.
  destruct (string_of_Z z) as [|a s] eqn:E; [by destruct (string_of_Z_ne z) |].
  simpl in Hc. bat_simpl. by replace (is_digit a || Ascii.eqb a "-") with true.
Qed.

Lemma replace_char_id a b s : has_char a s = false -> replace_char a b s = s.
Proof.
  unfold replace_char. induction s as [|c s IH]; simpl; [done |]. intros H. bat_simpl.
  destruct (Ascii.eqb_spec c a); [done |]. by rewrite IH.
Qed.

Lemma parse_num_string_of_Z z : parse_num (string_of_Z z) = Some (Num z 0).
Proof.
  pose proof (string_of_Z_chars z) as Hc.
  assert (forall c, int_char c = false -> has_char c (string_of_Z z) = false) as Hn.
  { intros c Hi. by eapply all_chars_no_char. }
  unfold parse_num. rewrite replace_char_id by by apply Hn.
  rewrite split_on_no_char by by apply Hn.
  unfold parse_mant. rewrite split_on_no_char by by apply Hn.
  rewrite parse_int_string_of_Z. simpl. unfold scale_num. simpl. f_equal. f_equal. lia.
Qed.

Lemma span_s_app f s r :
  all_chars f s = true -> match r with String a _ => f a = false | "" => True end ->
  span_s f (s +:+ r) = (s, r).
Proof.
  induction s as [|a s IH]; simpl.
  - destruct r as [|a r]; simpl; [done |]. by intros _ ->.
  - intros. bat_simpl. by rewrite IH, H.
Qed.
End numbers.

Lemma parse_str_esc a s : parse_str (esc_char a +:+ s) = prepend (String a "") (parse_str s).
Proof. destruct a as [[] [] [] [] [] [] [] []]; reflexivity. Qed.

Lemma parse_str_concat s r : parse_str (concat_map esc_char s +:+ String dquote r) = Some (s, r).
Proof.
  induction s as [|a s IH]; simpl; [done |].
  by rewrite <- app_assoc_s, parse_str_esc, IH.
Qed.

Lemma quote_app s r : quote s +:+ r = String dquote (concat_map esc_char s +:+ String dquote r).
Proof. unfold quote. simpl. by rewrite <- app_assoc_s. Qed.

(** The text of a value starts with a character that is neither white space
    nor a closing bracket. *)
Definition val_start (t : string) : Prop :=
  exists a s, t = String a s /\ json_ws a = false /\ Ascii.eqb a "]" = false.

(** [t] is text that [parse_value] reads back as [v], whatever follows. *)
Definition reads (v : jsval) (t : string) : Prop :=
  val_start t /\
  forall fuel r, (2 * String.length t <= fuel)%nat -> num_stop r = true ->
    parse_value fuel (t +:+ r) = Some (v, r).

Lemma int_char_cases (f : ascii -> bool) a :
  int_char a = true ->
  forallb f ["0"; "1"; "2"; "3"; "4"; "5"; "6"; "7"; "8"; "9"; "-"]%char = true -> f a = true.
Proof.
  intros Ha Hf. simpl in Hf. bat_simpl.
  destruct a as [[] [] [] [] [] [] [] []]; try discriminate Ha; done.
Qed.

Lemma parse_atom_number z r :
  num_stop r = true ->
  parse_atom (string_of_Z z +:+ r) = Some (JInt z, r) /\ val_start (string_of_Z z) /\
  exists a s, string_of_Z z = String a s /\ Ascii.eqb a "[" = false /\ Ascii.eqb a "{" = false.
Proof.
  intros Hr. pose proof (string_of_Z_chars z) as Hc.
  assert (span_s num_char (string_of_Z z +:+ r) = (string_of_Z z, r)) as Hs.
  { apply span_s_app.
    - eapply all_chars_impl, Hc. intros a Ha. by apply int_char_cases.
    - destruct r; [done |]. by apply negb_true_iff. }
  pose proof (parse_num_string_of_Z z) as Hp.
  destruct (string_of_Z z) as [|a s] eqn:E; [by destruct (string_of_Z_ne z) |].
  simpl in Hc. bat_simpl.
  assert (forall c, forallb (fun x => negb (Ascii.eqb x c))
            ["0"; "1"; "2"; "3"; "4"; "5"; "6"; "7"; "8"; "9"; "-"]%char = true ->
            Ascii.eqb a c = false) as Hne.
  { intros c Hx. apply negb_true_iff. by apply (int_char_cases (fun x => negb (Ascii.eqb x c))). }
  split_and!.
  - cbn [parse_atom String.append] in *. rewrite !Hne by done.
    by rewrite Hs; simpl; rewrite Hp.
  - exists a, s. split_and!; [done | | by apply Hne].
    unfold json_ws. by rewrite !Hne.
  - exists a, s. split_and!; [done | |]; by apply Hne.
Qed.

Lemma next_nows a s : json_ws a = false -> next (String a s) = Some (a, s).
Proof. intros H. unfold next. simpl. by rewrite H. Qed.

Lemma reads_number z : reads (JInt z) (string_of_Z z).
Proof.
  pose proof (parse_atom_number z "" eq_refl) as (_ & Hs & _).
  split; [done |]. intros fuel r Hf Hr.
  destruct (parse_atom_number z r Hr) as (Ha & _ & a & s & E & H1 & H2).
  destruct Hs as (a' & s' & E' & Hw & _). rewrite E in *. simplify_eq.
  destruct fuel as [|fuel]; simpl in Hf; [lia |].
  cbn [parse_value String.append]. rewrite next_nows by done. simpl. by rewrite H1, H2.
Qed.

Lemma reads_string s : reads (JStr s) (quote s).
Proof.
  split; [eexists _, _; split_and!; [reflexivity | done..] |]. intros fuel r Hf Hr.
  rewrite quote_app. destruct fuel as [|fuel]; simpl in Hf; [lia |].
  cbn [parse_value]. rewrite next_nows by done. simpl. by rewrite parse_str_concat.
Qed.

Lemma reads_length v t : reads v t -> (1 <= String.length t)%nat.
Proof. intros [(a & s & -> & _) _]. simpl. lia. Qed.

(** Consume the head character of a literal text. *)
Ltac next_step := cbn [mbind option_bind]; rewrite next_nows by done; cbn [mbind option_bind].

Lemma reads_elems l ts fuel r :
  l <> [] -> Forall2 reads l ts ->
  (2 * String.length (join "," ts) + 1 <= fuel)%nat ->
  parse_elems fuel (join "," ts +:+ String "]" r) = Some (l, r).
Proof.
  intros Hne Hl. revert fuel. induction Hl as [|v t l ts Hv Hl IH]; intros fuel Hf; [done |].
  pose proof (reads_length _ _ Hv). destruct Hv as [_ Hv].
  destruct fuel as [|fuel]; [lia |]. destruct Hl as [|v2 t2 l ts Hv2 Hl].
  - cbn [join parse_elems] in *. rewrite Hv by (done || lia). by next_step.
  - change (join "," (t :: t2 :: ts)) with (t +:+ String "," (join "," (t2 :: ts))) in *.
    rewrite length_app_s in Hf. cbn [String.length] in Hf.
    cbn [parse_elems]. rewrite <- app_assoc_s. cbn [String.append].
    rewrite Hv by (done || lia). next_step. cbn [Ascii.eqb Bool.eqb].
    rewrite IH by (done || lia). done.
Qed.

Lemma reads_start v t r : reads v t ->
  exists a s, t +:+ r = String a s /\ next (t +:+ r) = Some (a, s) /\ Ascii.eqb a "]" = false.
Proof.
  intros [(a & s & -> & Hw & Hb) _]. exists a, (s +:+ r). split_and!; [done | | done].
  by apply next_nows.
Qed.

Lemma reads_array l ts : Forall2 reads l ts -> reads (JArr l) ("[" +:+ join "," ts +:+ "]").
Proof.
  intros Hl. split; [eexists _, _; split_and!; [reflexivity | done..] |].
  intros fuel r Hf Hr. cbn [String.append String.length] in *.
  rewrite length_app_s in Hf. cbn [String.length] in Hf.
  destruct fuel as [|fuel]; [lia |]. cbn [parse_value]. next_step. cbn [Ascii.eqb Bool.eqb].
  rewrite <- app_assoc_s. cbn [String.append]. destruct Hl as [|v t l ts Hv Hl]; [done |].
  assert (exists rest, join "," (t :: ts) +:+ String "]" r = t +:+ rest) as [rest Hrest].
  { destruct ts; simpl; [eauto |]. rewrite <- app_assoc_s. eauto. }
  destruct (reads_start _ _ rest Hv) as (a & s & _ & Hn & Hb).
  rewrite Hrest, Hn. cbn [mbind option_bind]. rewrite Hb, <- Hrest.
  rewrite (reads_elems (v :: l)) by (done || lia || by constructor). done.
Qed.

(** The text of a member of an object. *)
Definition member_text (k t : string) : string := quote k +:+ ":" +:+ t.

Lemma reads_members o ts fuel r :
  o <> [] -> Forall2 (fun kv t => exists u, reads kv.2 u /\ t = member_text kv.1 u) o ts ->
  (2 * String.length (join "," ts) + 1 <= fuel)%nat ->
  parse_members fuel (join "," ts +:+ String "}" r) = Some (o, r).
Proof.
  intros Hne Ho. revert fuel.
  induction Ho as [|[k v] t o ts (u & Hu & ->) Ho IH]; intros fuel Hf; [done |].
  pose proof (reads_length _ _ Hu). destruct Hu as [_ Hu]. simpl in Hu.
  destruct fuel as [|fuel]; [lia |].
  assert (forall x, member_text k u +:+ x =
            String dquote (concat_map esc_char k +:+ String dquote (String ":" (u +:+ x)))) as Hm.
  { intros x. unfold member_text. by rewrite <- app_assoc_s, quote_app. }
  assert (String.length u + 2 <= String.length (member_text k u))%nat.
  { unfold member_text, quote. rewrite !length_app_s. simpl. lia. }
  destruct Ho as [|[k2 v2] t2 o ts Hv2 Ho].
  - cbn [join parse_members fst snd] in *. rewrite Hm. next_step. cbn [Ascii.eqb Bool.eqb dquote].
    rewrite parse_str_concat. next_step. cbn [Ascii.eqb Bool.eqb].
    rewrite Hu by (done || lia). by next_step.
  - set (ts' := t2 :: ts) in *.
    change (join "," (member_text (k, v).1 u :: ts'))
      with (member_text k u +:+ String "," (join "," ts')) in *.
    rewrite length_app_s in Hf. cbn [String.length] in Hf.
    cbn [parse_members]. rewrite <- app_assoc_s, Hm. next_step. cbn [Ascii.eqb Bool.eqb dquote].
    rewrite parse_str_concat. next_step. cbn [Ascii.eqb Bool.eqb String.append].
    rewrite Hu by (done || lia). next_step. cbn [Ascii.eqb Bool.eqb].
    rewrite IH by (done || lia). done.
Qed.

Lemma obj_set_fresh k v o :
  existsb (fun kv => String.eqb kv.1 k) o = false -> obj_set k v o = (o ++ [(k, v)])%list.
Proof.
  induction o as [|[k' v'] o IH]; simpl; [done |]. intros. bat_simpl.
  destruct (String.eqb_spec k' k); [done |]. by rewrite IH.
Qed.

Lemma spread_nodup acc o :
  keys_nodup o = true ->
  (forall kv, In kv o -> existsb (fun x => String.eqb x.1 kv.1) acc = false) ->
  spread acc o = (acc ++ o)%list.
Proof.
  unfold spread. revert acc. induction o as [|[k v] o IH]; intros acc; simpl.
  - by rewrite app_nil_r.
  - intros Hn Hacc. bat_simpl. rewrite obj_set_fresh by (apply (Hacc (k, v)); auto).
    rewrite IH; [by rewrite <- app_assoc | done |].
    intros kv Hkv. rewrite existsb_app, Hacc by auto. simpl. rewrite orb_false_r.
    apply String.eqb_neq. intros E. cbn in E. subst.
    assert (existsb (fun x => String.eqb x.1 kv.1) o = true) as Hx.
    { apply existsb_exists. exists kv. by rewrite String.eqb_refl. }
    by rewrite Hx in *.
Qed.

Lemma spread_nil_nodup o : keys_nodup o = true -> spread [] o = o.
Proof. intros H. by rewrite spread_nodup. Qed.

Lemma reads_object o ts :
  keys_nodup o = true ->
  Forall2 (fun kv t => exists u, reads kv.2 u /\ t = member_text kv.1 u) o ts ->
  reads (JObj o) ("{" +:+ join "," ts +:+ "}").
Proof.
  intros Hn Ho. split; [eexists _, _; split_and!; [reflexivity | done..] |].
  intros fuel r Hf Hr. cbn [String.append String.length] in *.
  rewrite length_app_s in Hf. cbn [String.length] in Hf.
  destruct fuel as [|fuel]; [lia |]. cbn [parse_value]. next_step. cbn [Ascii.eqb Bool.eqb].
  rewrite <- app_assoc_s. cbn [String.append].
  destruct Ho as [|[k v] t o ts (u & Hu & ->) Ho]; [done |].
  set (o' := (k, v) :: o) in *. set (ts' := member_text (k, v).1 u :: ts) in *.
  assert (parse_members fuel (join "," ts' +:+ String "}" r) = Some (o', r)) as Hp.
  { apply reads_members; [done | constructor; eauto | lia]. }
  assert (exists rest, join "," ts' +:+ String "}" r = String dquote rest) as [rest Hrest].
  { unfold ts', member_text, quote. destruct ts; simpl; eauto. }
  rewrite Hp, Hrest. next_step. cbn [Ascii.eqb Bool.eqb dquote].
  by rewrite spread_nil_nodup.
Qed.

Lemma json_ok_text v : json_ok v = true -> stringify v = Some (json_text v).
Proof. unfold json_text. by destruct v. Qed.

Lemma reads_text v : json_ok v = true -> reads v (json_text v).
Proof.
  induction v as [| |b|n|s|l IH|o IH] using jsval_nested_ind; intros Hok; try done.
  - split; [eexists _, _; split_and!; [reflexivity | done..] |]. intros [|fuel] r Hf _;
      [simpl in Hf; lia |]. reflexivity.
  - split; [destruct b; eexists _, _; split_and!; (reflexivity || done) |].
    intros [|fuel] r Hf _; [destruct b; simpl in Hf; lia |]. destruct b; reflexivity.
  - destruct n as [|m [|e]]; try done. apply reads_number.
  - apply reads_string.
  - apply reads_array. simpl in Hok. induction IH as [|v l Hv IH IHl]; [constructor |].
    simpl in Hok. bat_simpl. constructor; [| by apply IHl].
    rewrite json_ok_text by done. cbn [default]. by apply Hv.
  - simpl in Hok. bat_simpl. apply reads_object; [done |].
    clear H. induction IH as [|[k v] o Hv IH IHo]; [constructor |].
    simpl in *. bat_simpl. rewrite json_ok_text by done.
    constructor; [| by apply IHo]. exists (json_text v). split; [by apply Hv | done].
Qed.

Lemma json_parse_stringify v : json_ok v = true -> json_parse (json_text v) = Some v.
Proof.
  intros Hok. destruct (reads_text v Hok) as [_ Hr].
  specialize (Hr (2 * String.length (json_text v) + 2)%nat "" ltac:(lia) eq_refl).
  rewrite app_nil_r_s in Hr. unfold json_parse. by rewrite Hr.
Qed.

(** ** What a value becomes on the wire *)

(** [JSON.parse(JSON.stringify(v))]: members that are [undefined] disappear,
    [undefined] elements and [NaN] become [null]. *)
Fixpoint wire (v : jsval) : jsval :=
  match v with
  | JNum NaN => JNull
  | JArr l => JArr (List.map (fun x => match wire x with JUndef => JNull | y => y end) l)
  | JObj o => JObj (flat_map (fun kv => match kv with
                | (k, x) => match wire x with JUndef => [] | y => [(k, y)] end
                end) o)
  | _ => v
  end.

Lemma wire_undef v : wire v = JUndef <-> v = JUndef.
Proof. destruct v as [| | |[]| | |]; done. Qed.

Lemma wire_elem v :
  default "null" (stringify (match wire v with JUndef => JNull | y => y end)) =
  default "null" (stringify (wire v)).
Proof. by destruct (wire v). Qed.

Lemma stringify_some v : v <> JUndef -> stringify v = Some (json_text v).
Proof. unfold json_text. by destruct v. Qed.

Lemma stringify_wire v : stringify (wire v) = stringify v.
Proof.
  induction v as [| |b|n|s|l IH|o IH] using jsval_nested_ind; try done.
  - by destruct n.
  - cbn. do 2 f_equal. f_equal. f_equal. rewrite List.map_map.
    induction IH as [|v l Hv IH IHl]; [done |]. cbn [List.map].
    by rewrite IHl, wire_elem, Hv.
  - cbn. do 2 f_equal. f_equal. f_equal.
    induction IH as [|[k v] o Hv IH IHo]; [done |]. cbn [flat_map]. cbn [snd] in Hv.
    rewrite flat_map_app, IHo, <- Hv. f_equal. by destruct (wire v).
Qed.

Lemma json_text_wire v : json_text (wire v) = json_text v.
Proof. unfold json_text. by rewrite stringify_wire. Qed.

(** The receiver reads what was meant. *)
Lemma json_parse_wire v : json_ok (wire v) = true -> json_parse (json_text v) = Some (wire v).
Proof. intros H. rewrite <- json_text_wire. by apply json_parse_stringify. Qed.

(** A value without [undefined] and without fractions is its own wire form. *)
Lemma wire_ok v : json_ok v = true -> wire v = v.
Proof.
  induction v as [| |b|n|s|l IH|o IH] using jsval_nested_ind; intros Hok; try done.
  - by destruct n.
  - cbn in *. f_equal. induction IH as [|v l Hv IH IHl]; [done |]. cbn in *. bat_simpl.
    rewrite IHl, Hv by done. by destruct v.
  - cbn in *. bat_simpl. f_equal. clear H. induction IH as [|[k v] o Hv IH IHo]; [done |].
    cbn in *. bat_simpl. rewrite Hv by done. destruct v; try done; cbn; by rewrite IHo.
Qed.

#[export] Hint Resolve json_parse_stringify json_parse_wire : bat.

(** ** Objects whose keys are distinct *)

(** Spreading reads from the right-hand object where it has the key. *)
Lemma obj_get_spread k a b :
  keys_nodup b = true ->
  obj_get k (spread a b) =
  if existsb (fun kv => String.eqb kv.1 k) b then obj_get k b else obj_get k a.
Proof.
  unfold spread. revert a. induction b as [|[k' v] b IH]; intros a Hn; [done |].
  cbn in Hn |- *. apply andb_true_iff in Hn as [H1 H2]. rewrite IH by done.
  destruct (String.eqb_spec k' k) as [->|Hne]; cbn.
  - apply negb_true_iff in H1. by rewrite H1, obj_get_set.
  - by rewrite obj_get_set_ne by congruence.
Qed.

Lemma obj_get_in k v (o : obj) : keys_nodup o = true -> In (k, v) o -> obj_get k o = v.
Proof.
  induction o as [|[k' v'] o IH]; intros Hn Hin; [done |]. cbn in Hn |- *.
  apply andb_true_iff in Hn as [H1 H2]. destruct Hin as [[= -> ->]|Hin].
  - by rewrite String.eqb_refl.
  - destruct (String.eqb_spec k' k) as [->|]; [| by apply IH].
    apply negb_true_iff, not_true_iff_false in H1. destruct H1. apply existsb_exists.
    exists (k, v). by rewrite String.eqb_refl.
Qed.
