(* ===== verification/Encoding.v ===== *)
(** * Percent encoding, query strings and base64

    [encode_uri_component], the [URLSearchParams] operations the code uses, and
    [atob].  Each encoder is paired with the decoder of its standard, so that
    what a server reads from an URL can be stated. *)

From Stdlib Require Import ZifyN.
From S2P Require Import Prelude JsString JsValue JsonParse.

Local Open Scope string_scope.

(** ** Percent encoding *)

Definition upper_hex (n : N) : ascii :=
  if (n <? 10)%N then ascii_of_N (48 + n) else ascii_of_N (55 + n).

Definition pct (a : ascii) : string :=
  String "%" (String (upper_hex (N_of_ascii a / 16)) (String (upper_hex (N_of_ascii a mod 16)) "")).

Definition is_alnum (a : ascii) : bool :=
  ascii_in 48 57 a || ascii_in 65 90 a || ascii_in 97 122 a.

Definition one_of (l : list ascii) (a : ascii) : bool := existsb (Ascii.eqb a) l.

Definition uri_unreserved (a : ascii) : bool :=
  is_alnum a || one_of ["-"; "_"; "."; "!"; "~"; "*"; "'"; "("; ")"]%char a.

(** [encodeURIComponent(s)] *)
Definition encode_uri_component : string -> string :=
  concat_map (fun a => if uri_unreserved a then String a "" else pct a).

(** [decodeURIComponent(s)], on the byte level; [None] is the URIError. *)
Fixpoint pct_decode (s : string) : option string :=
  match s with
  | "" => Some ""
  | String a s1 =>
      if Ascii.eqb a "%" then
        match s1 with
        | String h (String l s2) =>
            match unhex h, unhex l with
            | Some x, Some y => String (ascii_of_N (x * 16 + y)) <$> pct_decode s2
            | _, _ => None
            end
        | _ => None
        end
      else String a <$> pct_decode s1
  end.

(** ** [URLSearchParams] *)

Definition params := list (string * string).

Fixpoint params_set (k v : string) (ps : params) : params :=
  match ps with
  | [] => [(k, v)]
  | (k', v') :: ps' =>
      if String.eqb k' k then (k, v) :: List.filter (fun kv => negb (String.eqb kv.1 k)) ps'
      else (k', v') :: params_set k v ps'
  end.

Definition form_safe (a : ascii) : bool := is_alnum a || one_of ["*"; "-"; "."; "_"]%char a.

Definition form_char (a : ascii) : string :=
  if Ascii.eqb a " " then "+" else if form_safe a then String a "" else pct a.

Definition form_encode : string -> string := concat_map form_char.

(** [params.toString()] *)
Definition params_to_string (ps : params) : string :=
  join "&" (List.map (fun kv => form_encode kv.1 +:+ "=" +:+ form_encode kv.2) ps).

(** The [application/x-www-form-urlencoded] parser. *)
Definition form_decode (s : string) : option string := pct_decode (replace_char "+" " " s).

Fixpoint break_on (c : ascii) (s : string) : string * string :=
  match s with
  | "" => ("", "")
  | String a s' =>
      if Ascii.eqb a c then ("", s') else let '(x, y) := break_on c s' in (String a x, y)
  end.

Definition parse_pair (s : string) : option (string * string) :=
  let '(k, v) := break_on "=" s in
  k' ← form_decode k; v' ← form_decode v; Some (k', v').

Definition params_parse (s : string) : option params :=
  mapM parse_pair (List.filter str_truthy (split_on "&" s)).

(** ** base64 *)

Definition b64_char (url : bool) (n : N) : ascii :=
  if (n <? 26)%N then ascii_of_N (65 + n)
  else if (n <? 52)%N then ascii_of_N (71 + n)
  else if (n <? 62)%N then ascii_of_N (n - 4)
  else if (n =? 62)%N then (if url then "-" else "+")
  else (if url then "_" else "/").

Definition b64_val (a : ascii) : option N :=
  let n := N_of_ascii a in
  if ascii_in 65 90 a then Some (n - 65)%N
  else if ascii_in 97 122 a then Some (n - 71)%N
  else if ascii_in 48 57 a then Some (n + 4)%N
  else if Ascii.eqb a "+" then Some 62%N
  else if Ascii.eqb a "/" then Some 63%N
  else None.

(** The encoder, without padding: three bytes at a time. *)
Fixpoint b64_encode (url : bool) (l : list N) : string :=
  match l with
  | x :: y :: z :: l' =>
      String (b64_char url (x / 4)) (String (b64_char url (x mod 4 * 16 + y / 16))
        (String (b64_char url (y mod 16 * 4 + z / 64)) (String (b64_char url (z mod 64))
          (b64_encode url l'))))
  | [x; y] =>
      String (b64_char url (x / 4)) (String (b64_char url (x mod 4 * 16 + y / 16))
        (String (b64_char url (y mod 16 * 4)) ""))
  | [x] => String (b64_char url (x / 4)) (String (b64_char url (x mod 4 * 16)) "")
  | [] => ""
  end.

(** Sextets to bytes; the trailing bits of an incomplete group are dropped. *)
Fixpoint b64_decode (s : string) : option (list N) :=
  match s with
  | String a (String b (String c (String d s'))) =>
      p ← b64_val a; q ← b64_val b; r ← b64_val c; t ← b64_val d;
      l ← b64_decode s';
      Some ((p * 4 + q / 16) :: (q mod 16 * 16 + r / 4) :: (r mod 4 * 64 + t) :: l)%N
  | String a (String b (String c "")) =>
      p ← b64_val a; q ← b64_val b; r ← b64_val c;
      Some [(p * 4 + q / 16); (q mod 16 * 16 + r / 4)]%N
  | String a (String b "") =>
      p ← b64_val a; q ← b64_val b; Some [(p * 4 + q / 16)]%N
  | "" => Some []
  | _ => None
  end.

Definition strip_eq (s : string) : string :=
  if ends_with s "==" then String.substring 0 (String.length s - 2) s
  else if ends_with s "=" then String.substring 0 (String.length s - 1) s
  else s.

Fixpoint remove_ws (s : string) : string :=
  match s with
  | "" => ""
  | String a s' => if is_ws a then remove_ws s' else String a (remove_ws s')
  end.

(** [atob(s)]: the code units of the result, [None] for InvalidCharacterError. *)
Definition atob (s : string) : option (list N) :=
  let s1 := remove_ws s in
  let s2 := if (String.length s1 mod 4 =? 0)%nat then strip_eq s1 else s1 in
  b64_decode s2.

(** The text whose code units, all below 256, are [l]. *)
Definition latin1 (l : list N) : string := fold_right (fun n s => utf8 n +:+ s) "" l.

(** ** Lemmas *)

Lemma pct_decode_char (f : ascii -> bool) a s :
  f "%"%char = false ->
  pct_decode ((if f a then String a "" else pct a) +:+ s) = String a <$> pct_decode s.
Proof.
  intros Hf. destruct (f a) eqn:E.
  - simpl. destruct (Ascii.eqb_spec a "%"); [congruence | done].
  - clear. destruct a as [[] [] [] [] [] [] [] []]; reflexivity.
Qed.

(** Decoding an encoded component gives it back. *)
Lemma decode_encode_uri s : pct_decode (encode_uri_component s) = Some s.
Proof.
  induction s as [|a s IH]; [done |]. unfold encode_uri_component in *. cbn [concat_map].
  rewrite pct_decode_char by done. by rewrite IH.
Qed.

Lemma concat_map_no_char c f s :
  (forall a, has_char c (f a) = false) -> has_char c (concat_map f s) = false.
Proof. intros Hf. induction s; simpl; [done |]. by rewrite has_char_app, Hf, IHs. Qed.

Lemma map_string_app f s t : map_string f (s +:+ t) = map_string f s +:+ map_string f t.
Proof. induction s; simpl; congruence. Qed.

Lemma form_decode_encode s : form_decode (form_encode s) = Some s.
Proof.
  unfold form_decode, form_encode, replace_char.
  induction s as [|a s IH]; [done |]. cbn [concat_map]. rewrite map_string_app.
  transitivity (String a <$> pct_decode (map_string (fun c => if Ascii.eqb c "+" then " "%char else c)
                  (concat_map form_char s))); [| by rewrite IH].
  destruct a as [[] [] [] [] [] [] [] []]; reflexivity.
Qed.

Lemma form_encode_no_char c s :
  forallb (fun a => negb (has_char c (form_char a)))
    (List.map ascii_of_nat (seq 0 256)) = true ->
  has_char c (form_encode s) = false.
Proof.
  intros H. apply concat_map_no_char. intros a. rewrite forallb_forall in H.
  apply negb_true_iff, H. apply in_map_iff. exists (nat_of_ascii a).
  split; [apply ascii_nat_embedding |]. apply in_seq. pose proof (nat_ascii_bounded a). lia.
Qed.

Lemma break_on_app c s t : has_char c s = false -> break_on c (s +:+ String c t) = (s, t).
Proof.
  induction s as [|a s IH]; simpl; intros.
  - by rewrite Ascii.eqb_refl.
  - bat_simpl. destruct (Ascii.eqb_spec a c); [done |]. by rewrite IH.
Qed.

Definition enc_pair (kv : string * string) : string :=
  form_encode kv.1 +:+ "=" +:+ form_encode kv.2.

Lemma parse_pair_enc kv : parse_pair (enc_pair kv) = Some kv.
Proof.
  destruct kv as [k v]. unfold parse_pair, enc_pair. cbn [String.append fst snd].
  rewrite break_on_app by by apply form_encode_no_char.
  by rewrite !form_decode_encode.
Qed.

Lemma filter_truthy_enc ps :
  List.filter str_truthy (List.map enc_pair ps) = List.map enc_pair ps.
Proof.
  induction ps as [|[k v] ps IH]; [done |]. cbn [List.map List.filter].
  assert (str_truthy (enc_pair (k, v)) = true) as ->.
  { unfold enc_pair, str_truthy. simpl. by destruct (form_encode k). }
  by rewrite IH.
Qed.

Lemma mapM_parse_enc ps : mapM parse_pair (List.map enc_pair ps) = Some ps.
Proof.
  induction ps as [|kv ps IH]; [done |]. cbn [List.map mapM]. rewrite parse_pair_enc.
  cbn [mbind option_bind]. by rewrite IH.
Qed.

(** A server reads from the query string exactly the parameters that were set. *)
Lemma params_parse_to_string ps : params_parse (params_to_string ps) = Some ps.
Proof.
  unfold params_parse, params_to_string. change (fun kv : string * string => _) with enc_pair.
  destruct ps as [|kv ps]; [done |]. rewrite split_join.
  - by rewrite filter_truthy_enc, mapM_parse_enc.
  - done.
  - apply List.Forall_forall. intros x (y & <- & _)%in_map_iff. unfold enc_pair.
    cbn [String.append]. rewrite has_char_app. simpl. by rewrite !form_encode_no_char.
Qed.

Lemma params_to_string_nil ps : params_to_string ps = "" <-> ps = [].
Proof.
  split; [| by intros ->]. intros H. pose proof (params_parse_to_string ps) as Hp.
  rewrite H in Hp. vm_compute in Hp. congruence.
Qed.

#[export] Hint Resolve decode_encode_uri form_decode_encode params_parse_to_string : bat.

(** *** base64 *)

(** Code units below 256. *)
Definition bytes (l : list N) : Prop := Forall (fun n => (n < 256)%N) l.

Lemma b64_val_char n : (n < 64)%N -> b64_val (b64_char false n) = Some n.
Proof.
  intros H.
  assert (Hall : forallb (fun k => bool_decide (b64_val (b64_char false (N.of_nat k)) = Some (N.of_nat k)))
            (seq 0 64) = true) by by vm_compute.
  rewrite forallb_forall in Hall. specialize (Hall (N.to_nat n)).
  rewrite N2Nat.id in Hall. apply (bool_decide_unpack _), Is_true_true, Hall, in_seq. lia.
Qed.

(** Induction three elements at a time. *)
Lemma list_ind3 {A} (P : list A -> Prop) :
  P [] -> (forall x, P [x]) -> (forall x y, P [x; y]) ->
  (forall x y z l, P l -> P (x :: y :: z :: l)) -> forall l, P l.
Proof.
  intros H0 H1 H2 H3. fix IH 1.
  intros [|x [|y [|z l]]]; [exact H0 | apply H1 | apply H2 | apply H3, IH].
Qed.

Ltac b64_arith := zify; Z.to_euclidean_division_equations; lia.

Lemma b64_decode_encode l : bytes l -> b64_decode (b64_encode false l) = Some l.
Proof.
  unfold bytes. induction l as [|x|x y|x y z l IH] using list_ind3; intros H;
    repeat match goal with H : Forall _ (_ :: _) |- _ => inversion H; clear H; subst end.
  - done.
  - cbn. rewrite !b64_val_char by b64_arith. cbn. do 2 f_equal. b64_arith.
  - cbn. rewrite !b64_val_char by b64_arith. cbn. repeat f_equal; b64_arith.
  - cbn. rewrite !b64_val_char by b64_arith. cbn. rewrite IH by done. cbn.
    repeat f_equal; b64_arith.
Qed.

Lemma b64_length l : String.length (b64_encode true l) mod 4 <> 1.
Proof.
  induction l as [|x|x y|x y z l IH] using list_ind3; try (cbn; lia).
  cbn [b64_encode String.length]. revert IH. generalize (String.length (b64_encode true l)).
  intros n IH. replace (S (S (S (S n)))) with (n + 1 * 4) by lia. by rewrite Nat.Div0.mod_add.
Qed.

(** No base64 digit is white space, the padding or the separator of a token. *)
Definition b64_clean (a : ascii) : bool :=
  negb (is_ws a) && negb (Ascii.eqb a "=") && negb (Ascii.eqb a ".").

Lemma b64_char_clean url n : (n < 64)%N -> b64_clean (b64_char url n) = true.
Proof.
  intros H.
  assert (Hall : forallb (fun k => b64_clean (b64_char url (N.of_nat k))) (seq 0 64) = true)
    by by destruct url; vm_compute.
  rewrite forallb_forall in Hall. specialize (Hall (N.to_nat n)).
  rewrite N2Nat.id in Hall. apply Hall, in_seq. lia.
Qed.

Lemma b64_encode_clean url l : bytes l -> all_chars b64_clean (b64_encode url l) = true.
Proof.
  unfold bytes. induction l as [|x|x y|x y z l IH] using list_ind3; intros H;
    repeat match goal with H : Forall _ (_ :: _) |- _ => inversion H; clear H; subst end;
    cbn; rewrite ?b64_char_clean by b64_arith; auto.
Qed.

Lemma remove_ws_id s : all_chars b64_clean s = true -> remove_ws s = s.
Proof.
  induction s as [|a s IH]; simpl; [done |]. unfold b64_clean. intros. bat_simpl.
  rewrite IH by done. by destruct (is_ws a).
Qed.

Lemma ends_with_eq s p : all_chars b64_clean s = true -> ends_with s (p +:+ "=") = false.
Proof.
  induction s as [|a s IH]; intros H.
  - by destruct p.
  - cbn [ends_with]. rewrite IH by by simpl in H; bat_simpl.
    rewrite orb_false_r. apply String.eqb_neq. intros E. rewrite E, all_chars_app in H.
    simpl in H. by rewrite andb_false_r in H.
Qed.

(** [atob] needs no padding. *)
Lemma atob_encode l : bytes l -> atob (b64_encode false l) = Some l.
Proof.
  intros H. unfold atob, strip_eq. pose proof (b64_encode_clean false l H) as Hc.
  rewrite remove_ws_id by done.
  rewrite (ends_with_eq _ "=") , (ends_with_eq _ "") by done.
  case_match; by apply b64_decode_encode.
Qed.

(** *** Characters that base64 does not know *)

Lemma b64_decode_bad c s : b64_val c = None -> has_char c s = true -> b64_decode s = None.
Proof.
  intros Hc. remember (String.length s) as n eqn:Hn. revert s Hn.
  induction n as [n IH] using lt_wf_ind. intros s -> Hs.
  assert (Hv : forall a, Ascii.eqb a c = true -> b64_val a = None) by (intros; bat_simpl; done).
  assert (Hbad : forall a h, Ascii.eqb a c || h = true -> b64_val a = None \/ h = true).
  { intros a h [H|H]%orb_true_iff; auto. }
  destruct s as [|a [|b [|d [|e s]]]]; cbn in *; try done.
  - apply Hbad in Hs as [->|Hs]; [done |]. apply Hbad in Hs as [->|?]; [| done].
    by destruct (b64_val a).
  - apply Hbad in Hs as [->|Hs]; [done |]. apply Hbad in Hs as [->|Hs]; [by destruct (b64_val a) |].
    apply Hbad in Hs as [->|?]; [| done]. by destruct (b64_val a), (b64_val b).
  - apply Hbad in Hs as [->|Hs]; [done |]. apply Hbad in Hs as [->|Hs]; [by destruct (b64_val a) |].
    apply Hbad in Hs as [->|Hs]; [by destruct (b64_val a), (b64_val b) |].
    apply Hbad in Hs as [->|Hs]; [by destruct (b64_val a), (b64_val b), (b64_val d) |].
    rewrite (IH (String.length s)) by (done || lia).
    by destruct (b64_val a), (b64_val b), (b64_val d), (b64_val e).
Qed.

Lemma has_char_remove_ws c s : is_ws c = false -> has_char c (remove_ws s) = has_char c s.
Proof.
  intros Hc. induction s as [|a s IH]; cbn; [done |]. destruct (is_ws a) eqn:E; cbn; rewrite IH.
  - destruct (Ascii.eqb a c) eqn:Ea; [| done]. bat_simpl. congruence.
  - done.
Qed.

Lemma ends_with_split s p :
  ends_with s p = true -> s = String.substring 0 (String.length s - String.length p) s +:+ p.
Proof.
  induction s as [|a s IH]; cbn [ends_with]; intros H.
  - rewrite orb_false_r in H. bat_simpl. done.
  - apply orb_true_iff in H as [H|H].
    + bat_simpl. by rewrite Nat.sub_diag.
    + specialize (IH H).
      assert (String.length p <= String.length s)%nat as Hl.
      { rewrite IH, length_app_s. lia. }
      cbn [String.length].
      replace (S (String.length s) - String.length p)%nat
        with (S (String.length s - String.length p)) by lia.
      cbn. by rewrite <- IH.
Qed.

Lemma has_char_strip_eq c s : Ascii.eqb "=" c = false -> has_char c (strip_eq s) = has_char c s.
Proof.
  intros Hc. unfold strip_eq.
  destruct (ends_with s "==") eqn:E2; [| destruct (ends_with s "=") eqn:E1; [| done]].
  - apply ends_with_split, (f_equal (has_char c)) in E2. rewrite has_char_app in E2. cbn [has_char] in E2.
    by rewrite Hc, !orb_false_r in E2.
  - apply ends_with_split, (f_equal (has_char c)) in E1. rewrite has_char_app in E1. cbn [has_char] in E1.
    by rewrite Hc, !orb_false_r in E1.
Qed.

(** [atob] rejects the two characters of the URL alphabet. *)
Lemma atob_url_char s : has_char "-" s || has_char "_" s = true -> atob s = None.
Proof.
  intros H. apply orb_true_iff in H.
  assert (Hgen : forall c, b64_val c = None -> is_ws c = false -> Ascii.eqb "=" c = false ->
            has_char c s = true -> atob s = None).
  { intros c Hv Hw He Hs. unfold atob. apply (b64_decode_bad c); [done |].
    case_match; rewrite ?has_char_strip_eq by done; by rewrite has_char_remove_ws. }
  destruct H as [H|H]; [by apply (Hgen "-"%char) | by apply (Hgen "_"%char)].
Qed.

(** *** Text as code units *)

Fixpoint codes (s : string) : list N :=
  match s with "" => [] | String a s' => N_of_ascii a :: codes s' end.

Lemma codes_bytes s : bytes (codes s).
Proof.
  unfold bytes. induction s as [|a s IH]; cbn; constructor; [apply N_ascii_bounded | done].
Qed.

(** ASCII text is its own latin-1 reading. *)
Lemma latin1_codes s : all_chars (ascii_in 0 127) s = true -> latin1 (codes s) = s.
Proof.
  induction s as [|a s IH]; [done |]. cbn [codes latin1 fold_right all_chars]. intros. bat_simpl.
  fold (latin1 (codes s)). rewrite IH by done. revert H.
  destruct a as [[] [] [] [] [] [] [] []]; done.
Qed.
