(* ===== verification/Dates.v ===== *)
(** * Dates

    A [Date] is its number of milliseconds since the epoch.  The calendar is the
    proleptic Gregorian one of ECMAScript, in UTC; [toISOString] is defined for
    every time, the RangeError beyond 8.64e15 ms is not modelled. *)

From S2P Require Import Prelude JsString JsValue.

Local Open Scope string_scope.
Local Open Scope Z_scope.

Definition ms_per_day : Z := 86400000.

(** Year, month (1..12) and day (1..31) of a day number. *)
Definition civil_from_days (days : Z) : Z * Z * Z :=
  let z := days + 719468 in
  let era := z / 146097 in
  let doe := z mod 146097 in
  let yoe := (doe - doe / 1460 + doe / 36524 - doe / 146096) / 365 in
  let doy := doe - (365 * yoe + yoe / 4 - yoe / 100) in
  let mp := (5 * doy + 2) / 153 in
  let d := doy - (153 * mp + 2) / 5 + 1 in
  let m := if mp <? 10 then mp + 3 else mp - 9 in
  (yoe + era * 400 + (if m <=? 2 then 1 else 0), m, d).

Definition iso_year (y : Z) : string :=
  if (0 <=? y) && (y <=? 9999) then digits_pad 4 y
  else (if y <? 0 then "-" else "+") +:+ digits_pad 6 (Z.abs y).

(** [new Date(ms).toISOString()] *)
Definition to_iso_string (ms : Z) : string :=
  let '(y, m, d) := civil_from_days (ms / ms_per_day) in
  let t := ms mod ms_per_day in
  iso_year y +:+ "-" +:+ digits_pad 2 m +:+ "-" +:+ digits_pad 2 d +:+ "T" +:+
  digits_pad 2 (t / 3600000) +:+ ":" +:+ digits_pad 2 (t / 60000 mod 60) +:+ ":" +:+
  digits_pad 2 (t / 1000 mod 60) +:+ "." +:+ digits_pad 3 (t mod 1000) +:+ "Z".

Example iso_epoch : to_iso_string 0 = "1970-01-01T00:00:00.000Z".
Proof. reflexivity. Qed.

Example iso_2024 : to_iso_string 1709210096789 = "2024-02-29T12:34:56.789Z".
Proof. reflexivity. Qed.

(** ** Reading a date: [new Date(s).getTime()] *)

(** The value of a run of digits, leading zeros allowed. *)
Fixpoint digits_from (acc : Z) (s : string) : option Z :=
  match s with
  | "" => Some acc
  | String a s' =>
      if ascii_in 48 57 a then digits_from (acc * 10 + (Z.of_N (N_of_ascii a) - 48)) s' else None
  end.

(** Exactly [n] digits. *)
Definition digits_exact (n : nat) (s : string) : option Z :=
  if (String.length s =? n)%nat then digits_from 0 s else None.

(** Exactly [n] digits whose value is in a range. *)
Definition digits_in (n : nat) (lo hi : Z) (s : string) : option Z :=
  z ← digits_exact n s; if (lo <=? z) && (z <=? hi) then Some z else None.

(** The day number of a date. *)
Definition days_from_civil (y m d : Z) : Z :=
  let y := if m <=? 2 then y - 1 else y in
  let era := y / 400 in
  let yoe := y - era * 400 in
  let mp := if 2 <? m then m - 3 else m + 9 in
  let doy := (153 * mp + 2) / 5 + d - 1 in
  era * 146097 + (yoe * 365 + yoe / 4 - yoe / 100 + doy) - 719468.

Definition parse_day (s : string) : option Z :=
  match split_on "-" s with
  | [y; m; d] =>
      y ← digits_in 4 0 9999 y; m ← digits_in 2 1 12 m; d ← digits_in 2 1 31 d;
      Some (days_from_civil y m d)
  | _ => None
  end.

(** The milliseconds of the digits after the point: the first three. *)
Definition parse_fraction (f : string) : option Z :=
  match f with
  | "" => None
  | _ => digits_from 0 f ≫= fun _ => digits_from 0 (String.substring 0 3 (f +:+ "00"))
  end.

Definition parse_seconds (s : string) : option Z :=
  match split_on "." s with
  | [ss] => (fun x => x * 1000) <$> digits_in 2 0 59 ss
  | [ss; f] => x ← digits_in 2 0 59 ss; q ← parse_fraction f; Some (x * 1000 + q)
  | _ => None
  end.

Definition parse_clock (s : string) : option Z :=
  match split_on ":" s with
  | [h; m] => h ← digits_in 2 0 23 h; m ← digits_in 2 0 59 m; Some (h * 3600000 + m * 60000)
  | [h; m; s] =>
      h ← digits_in 2 0 23 h; m ← digits_in 2 0 59 m; s ← parse_seconds s;
      Some (h * 3600000 + m * 60000 + s)
  | _ => None
  end.

(** The time of day and its distance from UTC, [tz] when none is written. *)
Definition parse_time (tz : Z) (s : string) : option Z :=
  match split_on "Z" s, split_on "+" s, split_on "-" s with
  | [t; ""], _, _ => parse_clock t
  | _, [t; z], _ => t ← parse_clock t; z ← parse_clock z; Some (t - z)
  | _, _, [t; z] => t ← parse_clock t; z ← parse_clock z; Some (t + z)
  | [t], _, _ => t ← parse_clock t; Some (t - tz)
  | _, _, _ => None
  end.

(** The date-time strings of ECMAScript with a four-digit year, in a local time
    zone that is [tz] milliseconds ahead of UTC; [None] is [NaN], and so is here
    every other form a browser may accept. *)
Definition parse_date (tz : Z) (s : string) : option Z :=
  match split_on "T" s with
  | [d] => d ← parse_day d; Some (d * ms_per_day)
  | [d; t] => d ← parse_day d; t ← parse_time tz t; Some (d * ms_per_day + t)
  | _ => None
  end.

Example parse_examples :
  List.map (parse_date 3600000)
    ["2024-02-29T12:34:56.789Z"; "2024-02-29T12:34:56.789123+02:00"; "1970-01-02"; "1970-01-01T01:00";
     "soon"; ""] =
  [Some 1709210096789; Some 1709202896789; Some 86400000; Some 0; None; None].
Proof. reflexivity. Qed.

(** *** Round trip *)

Lemma length_digits_pad n : forall z, String.length (digits_pad n z) = n.
Proof. induction n as [|n IH]; intros z; simpl; [done |]. rewrite length_app_s, IH. simpl. lia. Qed.

Lemma digit_code z : 0 <= z < 10 -> Z.of_N (N_of_ascii (ascii_of_N (48 + Z.to_N z))) = 48 + z.
Proof. intros. rewrite N_ascii_embedding; lia. Qed.

Lemma digit_char z : 0 <= z < 10 -> ascii_in 48 57 (ascii_of_N (48 + Z.to_N z)) = true.
Proof.
  intros. unfold ascii_in. rewrite N_ascii_embedding by lia.
  apply andb_true_iff. split; apply N.leb_le; lia.
Qed.

Lemma all_digits_pad n : forall z, all_chars (ascii_in 48 57) (digits_pad n z) = true.
Proof.
  induction n as [|n IH]; intros z; simpl; [done |]. rewrite all_chars_app, IH. simpl.
  rewrite digit_char by (apply Z.mod_pos_bound; lia). done.
Qed.

Lemma digits_from_app s : forall acc t,
  digits_from acc (s +:+ t) = digits_from acc s ≫= fun z => digits_from z t.
Proof. induction s as [|a s IH]; intros acc t; simpl; [done |]. destruct (ascii_in 48 57 a); auto. Qed.

Lemma digits_from_pad n : forall z acc,
  digits_from acc (digits_pad n z) = Some (acc * 10 ^ Z.of_nat n + z mod 10 ^ Z.of_nat n).
Proof.
  induction n as [|n IH]; intros z acc.
  - cbn [digits_pad digits_from]. f_equal. rewrite Z.mod_1_r. lia.
  - cbn [digits_pad]. rewrite digits_from_app, IH. cbn [mbind option_bind digits_from].
    assert (Hd : 0 <= z mod 10 < 10) by (apply Z.mod_pos_bound; lia).
    rewrite digit_char, digit_code by done. f_equal.
    replace (Z.of_nat (S n)) with (Z.of_nat n + 1) by lia. rewrite Z.pow_add_r by lia.
    change (10 ^ 1) with 10. rewrite (Z.mul_comm (10 ^ Z.of_nat n) 10), Z.rem_mul_r by lia. lia.
Qed.

Lemma digits_in_pad n lo hi z :
  0 <= z < 10 ^ Z.of_nat n -> lo <= z <= hi -> digits_in n lo hi (digits_pad n z) = Some z.
Proof.
  intros Hz Hr. unfold digits_in, digits_exact. rewrite length_digits_pad, Nat.eqb_refl.
  rewrite digits_from_pad. cbn [mbind option_bind]. rewrite Z.mod_small by done.
  replace (0 * 10 ^ Z.of_nat n + z) with z by lia.
  by rewrite (proj2 (Z.leb_le _ _) (proj1 Hr)), (proj2 (Z.leb_le _ _) (proj2 Hr)).
Qed.

Lemma pad_no_char c n z : ascii_in 48 57 c = false -> has_char c (digits_pad n z) = false.
Proof. intros. eapply all_chars_no_char; [done | apply all_digits_pad]. Qed.

(** The year of the 400-year cycle and the day of that year, March first. *)
Lemma day_of_year doe :
  0 <= doe < 146097 ->
  let yoe := (doe - doe / 1460 + doe / 36524 - doe / 146096) / 365 in
  0 <= yoe < 400 /\ 0 <= doe - (365 * yoe + yoe / 4 - yoe / 100) <= 365.
Proof.
  intros H. cbn zeta.
  assert (H0 : doe / 146096 = 0 \/ doe = 146096) by (Z.to_euclidean_division_equations; lia).
  destruct H0 as [H0 | ->]; [rewrite H0 | by vm_compute].
  assert (Hb : doe / 36524 = 0 \/ doe / 36524 = 1 \/ doe / 36524 = 2 \/ doe / 36524 = 3 \/
    doe / 36524 = 4) by (Z.to_euclidean_division_equations; lia).
  assert (Hy : 0 <= (doe - doe / 1460 + doe / 36524 - 0) / 365 < 400)
    by (Z.to_euclidean_division_equations; lia).
  split; [exact Hy |].
  assert (exists yoe, yoe = (doe - doe / 1460 + doe / 36524 - 0) / 365) as [yoe Hc] by eauto.
  rewrite <- Hc in *.
  assert (He : yoe / 100 = 0 \/ yoe / 100 = 1 \/ yoe / 100 = 2 \/ yoe / 100 = 3)
    by (Z.to_euclidean_division_equations; lia).
  destruct Hb as [Hb | [Hb | [Hb | [Hb | Hb]]]]; rewrite Hb in *;
    destruct He as [He | [He | [He | He]]]; rewrite He in *;
    Z.to_euclidean_division_equations; lia.
Qed.

(** The calendar and its inverse. *)
Lemma civil_range days y m d :
  civil_from_days days = (y, m, d) -> 1 <= m <= 12 /\ 1 <= d <= 31 /\ days_from_civil y m d = days.
Proof.
  unfold civil_from_days. set (z := days + 719468).
  assert (Hdoe : 0 <= z mod 146097 < 146097) by (apply Z.mod_pos_bound; lia).
  pose proof (day_of_year (z mod 146097) Hdoe) as [Hyoe Hdoy]. cbn zeta in *.
  set (yoe := (_ - _ + _ - _) / 365) in *. clearbody yoe.
  set (doy := z mod 146097 - (365 * yoe + yoe / 4 - yoe / 100)) in *.
  assert (Hz : z = z / 146097 * 146097 + (365 * yoe + yoe / 4 - yoe / 100 + doy)).
  { unfold doy. pose proof (Z.div_mod z 146097 ltac:(done)). lia. }
  clearbody doy. set (era := z / 146097) in *. clearbody era.
  assert (Hmp : 0 <= (5 * doy + 2) / 153 <= 11) by (Z.to_euclidean_division_equations; lia).
  assert (Hd : 1 <= doy - (153 * ((5 * doy + 2) / 153) + 2) / 5 + 1 <= 31)
    by (Z.to_euclidean_division_equations; lia).
  set (mp := (5 * doy + 2) / 153) in *. clearbody mp.
  intros [= <- <- <-]. split; [| split; [exact Hd |]].
  - destruct (Z.ltb_spec mp 10); lia.
  - unfold days_from_civil.
    assert (E1 : (if (if mp <? 10 then mp + 3 else mp - 9) <=? 2
                  then yoe + era * 400 + (if (if mp <? 10 then mp + 3 else mp - 9) <=? 2 then 1 else 0) - 1
                  else yoe + era * 400 + (if (if mp <? 10 then mp + 3 else mp - 9) <=? 2 then 1 else 0)) =
                 yoe + era * 400) by (destruct (_ <=? 2); lia).
    assert (E2 : (if 2 <? (if mp <? 10 then mp + 3 else mp - 9)
                  then (if mp <? 10 then mp + 3 else mp - 9) - 3
                  else (if mp <? 10 then mp + 3 else mp - 9) + 9) = mp).
    { destruct (Z.ltb_spec mp 10).
      - rewrite (proj2 (Z.ltb_lt _ _)) by lia. lia.
      - rewrite (proj2 (Z.ltb_ge _ _)) by lia. lia. }
    rewrite E1, E2, Z.div_add, Z.div_small by lia.
    replace (yoe + era * 400 - (0 + era) * 400) with yoe by lia. unfold z in Hz. lia.
Qed.

Lemma civil_year y m d :
  1 <= m <= 12 -> 1 <= d <= 31 -> -719528 <= days_from_civil y m d < 2932897 -> 0 <= y <= 9999.
Proof.
  intros Hm Hd. unfold days_from_civil.
  destruct (Z.leb_spec m 2), (Z.ltb_spec 2 m); try lia;
    Z.to_euclidean_division_equations; lia.
Qed.

Lemma parse_day_iso y m d :
  0 <= y <= 9999 -> 1 <= m <= 12 -> 1 <= d <= 31 ->
  parse_day (iso_year y +:+ "-" +:+ digits_pad 2 m +:+ "-" +:+ digits_pad 2 d) =
  Some (days_from_civil y m d).
Proof.
  intros Hy Hm Hd. unfold parse_day, iso_year.
  rewrite (proj2 (Z.leb_le _ _) (proj1 Hy)), (proj2 (Z.leb_le _ _) (proj2 Hy)).
  cbn [andb String.append].
  rewrite !split_on_app, split_on_no_char by (by apply pad_no_char).
  by rewrite !digits_in_pad by (cbn; lia).
Qed.

Lemma parse_fraction_pad z : 0 <= z < 1000 -> parse_fraction (digits_pad 3 z) = Some z.
Proof.
  intros Hz. pose proof (length_digits_pad 3 z) as Hl. pose proof (digits_from_pad 3 z 0) as Hd.
  rewrite Z.mod_small in Hd by done.
  destruct (digits_pad 3 z) as [|a [|b [|c [|]]]]; try done.
  unfold parse_fraction. rewrite Hd. cbn [mbind option_bind].
  change (String.substring 0 3 (String a (String b (String c "")) +:+ "00"))
    with (String a (String b (String c ""))).
  rewrite Hd. f_equal; lia.
Qed.

Lemma parse_time_iso tz t :
  0 <= t < ms_per_day ->
  parse_time tz (digits_pad 2 (t / 3600000) +:+ ":" +:+ digits_pad 2 (t / 60000 mod 60) +:+ ":" +:+
    digits_pad 2 (t / 1000 mod 60) +:+ "." +:+ digits_pad 3 (t mod 1000) +:+ "Z") = Some t.
Proof.
  intros Ht. unfold ms_per_day in Ht.
  assert (Hc : parse_clock (digits_pad 2 (t / 3600000) +:+ ":" +:+ digits_pad 2 (t / 60000 mod 60) +:+
    ":" +:+ digits_pad 2 (t / 1000 mod 60) +:+ "." +:+ digits_pad 3 (t mod 1000)) = Some t).
  { unfold parse_clock. cbn [String.append].
    rewrite !split_on_app, split_on_no_char
      by (try (by apply pad_no_char); rewrite has_char_app; cbn [has_char];
          by rewrite !pad_no_char by done).
    rewrite !digits_in_pad by (cbn; Z.to_euclidean_division_equations; lia).
    unfold parse_seconds. rewrite split_on_app, split_on_no_char by (by apply pad_no_char).
    rewrite digits_in_pad by (cbn; Z.to_euclidean_division_equations; lia).
    change (parse_fraction (digits_pad 3 (t mod 1000)))
      with (parse_fraction (digits_pad 3 (t mod 1000))).
    rewrite parse_fraction_pad by (apply Z.mod_pos_bound; lia). cbn [mbind option_bind]. f_equal.
    Z.to_euclidean_division_equations; lia. }
  unfold parse_time.
  replace (digits_pad 2 (t / 3600000) +:+ ":" +:+ digits_pad 2 (t / 60000 mod 60) +:+ ":" +:+
    digits_pad 2 (t / 1000 mod 60) +:+ "." +:+ digits_pad 3 (t mod 1000) +:+ "Z")
    with ((digits_pad 2 (t / 3600000) +:+ ":" +:+ digits_pad 2 (t / 60000 mod 60) +:+ ":" +:+
    digits_pad 2 (t / 1000 mod 60) +:+ "." +:+ digits_pad 3 (t mod 1000)) +:+ String "Z" "")
    by (by rewrite <- !app_assoc_s).
  rewrite (split_on_app "Z"); [exact Hc |].
  rewrite !has_char_app. cbn [has_char]. by rewrite !pad_no_char.
Qed.

(** [toISOString] read back, for the years 0 to 9999. *)
Lemma parse_date_iso tz ms :
  -62167219200000 <= ms < 253402300800000 -> parse_date tz (to_iso_string ms) = Some ms.
Proof.
  intros Hms. unfold to_iso_string.
  destruct (civil_from_days (ms / ms_per_day)) as [[y m] d] eqn:E.
  pose proof (civil_range _ _ _ _ E) as (Hm & Hd & Hdays).
  assert (Hy : 0 <= y <= 9999) 
    by (eapply (civil_year y m d); [done | done | rewrite Hdays; unfold ms_per_day;
        Z.to_euclidean_division_equations; lia]).
  unfold parse_date.
  set (t := ms mod ms_per_day). set (clock := digits_pad 2 (t / 3600000) +:+ _).
  replace (iso_year y +:+ "-" +:+ digits_pad 2 m +:+ "-" +:+ digits_pad 2 d +:+ "T" +:+ clock)
    with ((iso_year y +:+ "-" +:+ digits_pad 2 m +:+ "-" +:+ digits_pad 2 d) +:+ String "T" clock)
    by (by rewrite <- !app_assoc_s).
  assert (Hno : has_char "T" (iso_year y) = false).
  { unfold iso_year. rewrite (proj2 (Z.leb_le _ _) (proj1 Hy)), (proj2 (Z.leb_le _ _) (proj2 Hy)).
    by apply pad_no_char. }
  rewrite split_on_app by (rewrite !has_char_app, Hno; cbn [has_char]; by rewrite !pad_no_char).
  rewrite split_on_no_char by (unfold clock; rewrite !has_char_app; cbn [has_char]; by rewrite !pad_no_char).
  rewrite parse_day_iso by done. cbn [mbind option_bind]. unfold clock.
  rewrite parse_time_iso by (apply Z.mod_pos_bound; done). cbn [mbind option_bind].
  rewrite Hdays. f_equal. unfold t, ms_per_day. pose proof (Z.div_mod ms 86400000 ltac:(done)). lia.
Qed.

Lemma iso_has_Z t : has_char "Z" (to_iso_string t) = true.
Proof.
  unfold to_iso_string. destruct (civil_from_days _) as [[y m] d].
  rewrite !has_char_app. cbn. by rewrite !orb_true_r.
Qed.

Lemma iso_truthy t : str_truthy (to_iso_string t) = true.
Proof. pose proof (iso_has_Z t). by destruct (to_iso_string t). Qed.
