(* ===== verification/Numbers.v ===== *)
(** * Number coercions and arithmetic of ECMAScript

    [Number(v)] and the operators [*] and [<] on the decimals of [JsValue].
    Of the numeric literals inside strings the decimal ones are read; the forms
    [Infinity], [0x], [0o] and [0b] are taken as [NaN]. *)

From S2P Require Import Prelude JsString JsValue JsonParse.

Local Open Scope string_scope.
Local Open Scope Z_scope.

Definition digits_opt (s : string) : option Z :=
  if String.eqb s "" then Some 0 else parse_digits s.

(** The digits of a mantissa and how many of them follow the point. *)
Definition read_mantissa (s : string) : option (Z * nat) :=
  match split_on "." s with
  | [i] => z ← parse_digits i; Some (z, 0%nat)
  | [i; f] =>
      if String.eqb i "" && String.eqb f "" then None
      else z ← digits_opt i; q ← digits_opt f;
           Some (z * 10 ^ Z.of_nat (String.length f) + q, String.length f)
  | _ => None
  end.

Definition read_unsigned (s : string) : option num :=
  match split_on "e" (replace_char "E" "e" s) with
  | [m] => '(z, f) ← read_mantissa m; Some (scale_num z f 0)
  | [m; x] => '(z, f) ← read_mantissa m; e ← parse_exp x; Some (scale_num z f e)
  | _ => None
  end.

Definition num_opp (n : num) : num :=
  match n with NaN => NaN | Num m e => Num (- m) e end.

(** [Number(s)] *)
Definition string_to_number (s : string) : num :=
  match trim s with
  | "" => Num 0 0
  | String "-" r => default NaN (num_opp <$> read_unsigned r)
  | String "+" r => default NaN (read_unsigned r)
  | r => default NaN (read_unsigned r)
  end.

(** [Number(v)]; an array is converted through its string form. *)
Fixpoint to_number (v : jsval) : num :=
  match v with
  | JUndef => NaN
  | JNull => Num 0 0
  | JBool b => Num (if b then 1 else 0) 0
  | JNum n => n
  | JStr s => string_to_number s
  | JArr [] => Num 0 0
  | JArr [JUndef] | JArr [JNull] => Num 0 0
  | JArr [JBool _] => NaN
  | JArr [x] => to_number x
  | JArr _ => NaN
  | JObj _ => NaN
  end.

Definition num_mul (a b : num) : num :=
  match a, b with
  | Num m1 e1, Num m2 e2 => norm_num (m1 * m2) (e1 + e2)
  | _, _ => NaN
  end.

Definition num_add (a b : num) : num :=
  match a, b with
  | Num m1 e1, Num m2 e2 =>
      norm_num (m1 * 10 ^ Z.of_nat e2 + m2 * 10 ^ Z.of_nat e1) (e1 + e2)
  | _, _ => NaN
  end.

Definition num_sub (a b : num) : num := num_add a (num_opp b).

(** [a < b]: false when either is [NaN]. *)
Definition num_lt (a b : num) : bool :=
  match a, b with
  | Num m1 e1, Num m2 e2 => m1 * 10 ^ Z.of_nat e2 <? m2 * 10 ^ Z.of_nat e1
  | _, _ => false
  end.

(** [a >= b] and [a > b]. *)
Definition num_ge (a b : num) : bool :=
  match a, b with NaN, _ | _, NaN => false | _, _ => negb (num_lt a b) end.
Definition num_gt (a b : num) : bool := num_lt b a.

(** [Math.round] and [Math.floor]. *)
Definition math_round (n : num) : num :=
  match n with
  | NaN => NaN
  | Num m e => Num ((2 * m + 10 ^ Z.of_nat e) / (2 * 10 ^ Z.of_nat e)) 0
  end.

Definition math_floor (n : num) : num :=
  match n with NaN => NaN | Num m e => Num (m / 10 ^ Z.of_nat e) 0 end.

(** [x.toFixed(0)] *)
Definition to_fixed0 (n : num) : string :=
  match n with
  | NaN => "NaN"
  | Num m e =>
      let r := (2 * Z.abs m + 10 ^ Z.of_nat e) / (2 * 10 ^ Z.of_nat e) in
      (if m <? 0 then "-" else "") +:+ string_of_Z r
  end.

(** [x.toFixed(d)], for numbers whose decimal form has no exponent. *)
Definition to_fixed (d : nat) (n : num) : string :=
  match n with
  | NaN => "NaN"
  | Num m e =>
      let r := (2 * Z.abs m * 10 ^ Z.of_nat d + 10 ^ Z.of_nat e) / (2 * 10 ^ Z.of_nat e) in
      (if m <? 0 then "-" else "") +:+ string_of_Z (r / 10 ^ Z.of_nat d) +:+
      (if (d =? 0)%nat then "" else "." +:+ digits_pad d (r mod 10 ^ Z.of_nat d))
  end.

(** [Number.isInteger(n)] *)
Definition is_integer (n : num) : bool :=
  match n with NaN => false | Num m e => m mod 10 ^ Z.of_nat e =? 0 end.

(** [Math.floor(n / k)] and [n % k] for an integer [k > 0]; the remainder has the
    sign of [n]. *)
Definition floor_div (n : num) (k : Z) : num :=
  match n with NaN => NaN | Num m e => Num (m / (k * 10 ^ Z.of_nat e)) 0 end.

Definition num_rem (n : num) (k : Z) : num :=
  match n with NaN => NaN | Num m e => norm_num (Z.rem m (k * 10 ^ Z.of_nat e)) e end.

(** [a / b] for [b <> 0], cut after twenty decimals. *)
Definition num_div (a b : num) : num :=
  match a, b with
  | Num m1 e1, Num m2 e2 =>
      if m2 =? 0 then NaN
      else norm_num (m1 * 10 ^ Z.of_nat (e2 + 20) / (m2 * 10 ^ Z.of_nat e1)) 20
  | _, _ => NaN
  end.

(** The time value of [new Date(n)]: whole milliseconds, at most 8.64e15 from the
    epoch; [None] is the invalid date. *)
Definition time_clip (n : num) : option Z :=
  match n with
  | NaN => None
  | Num m e =>
      if Z.abs m <=? 8640000000000000 * 10 ^ Z.of_nat e then Some (Z.quot m (10 ^ Z.of_nat e))
      else None
  end.

(** [date.getTime()] as a number. *)
Definition get_time (t : option Z) : num := match t with Some t => Num t 0 | None => NaN end.

Example number_examples :
  List.map string_to_number ["42"; " -1.50 "; "1e3"; ""; "x"; "007"; "2.5e-1"] =
  [Num 42 0; Num (-15) 1; Num 1000 0; Num 0 0; NaN; Num 7 0; Num 25 2].
Proof. reflexivity. Qed.

Lemma num_lt_int a b : num_lt (Num a 0) (Num b 0) = (a <? b).
Proof. cbn. by rewrite !Z.mul_1_r. Qed.

Lemma num_mul_int a b : num_mul (Num a 0) (Num b 0) = Num (a * b) 0.
Proof. done. Qed.

Lemma trim_id s : all_chars (fun a => negb (is_ws a)) s = true -> trim s = s.
Proof.
  unfold trim. intros H.
  assert (trim_left s = s) as ->.
  { destruct s as [|a s]; [done |]. simpl in *. bat_simpl. by destruct (is_ws a). }
  induction s as [|a s IH]; [done |]. simpl in *. bat_simpl. rewrite IH by done.
  destruct s; [by destruct (is_ws a) | done].
Qed.

Lemma string_of_Z_digits z : 0 <= z -> all_chars is_digit (string_of_Z z) = true.
Proof.
  intros Hz. unfold string_of_Z. destruct z as [|p|p]; [done | | lia].
  apply string_of_uint_digits_zero.
Qed.

(** [Number(String(n))] for a natural number. *)
Lemma string_to_number_string_of_Z z : 0 <= z -> string_to_number (string_of_Z z) = Num z 0.
Proof.
  intros Hz. pose proof (string_of_Z_digits z Hz) as Hd. pose proof (string_of_Z_ne z) as Hne.
  unfold string_to_number. rewrite trim_id.
  2:{ eapply all_chars_impl; [| exact Hd]. intros [[] [] [] [] [] [] [] []]; done. }
  assert (Hr : read_unsigned (string_of_Z z) = Some (Num z 0)).
  { assert (Hno : forall c, is_digit c = false -> has_char c (string_of_Z z) = false).
    { intros c Hc. by eapply all_chars_no_char. }
    unfold read_unsigned, read_mantissa. rewrite replace_char_id by by apply Hno.
    rewrite split_on_no_char, split_on_no_char by by apply Hno.
    unfold parse_digits. destruct (string_of_Z z) as [|a s] eqn:E; [done |].
    rewrite Hd, <- E, string_of_Z_roundtrip. cbn [mbind option_bind]. unfold scale_num.
    cbn. by rewrite Z.mul_1_r. }
  destruct (string_of_Z z) as [|a s]; [done |].
  destruct a as [[] [] [] [] [] [] [] []]; try (simpl in Hd; discriminate Hd); by rewrite Hr.
Qed.
