(* ===== verification/Host.v ===== *)
(** * The host: promises, the network, the clock, the storage

    Asynchronous TypeScript is written here in the monad [prog]: a finite tree
    of host operations whose leaves are the value an [async] function returns
    or what it throws.  [Fetch] and [Sleep] are the two places where the
    sources suspend; the other operations are synchronous.  [run] executes a
    program alone, against a network that may answer every request in any way
    the history of the run allows; interleavings of several programs are the
    step relation of [Transport]. *)

From S2P Require Import Prelude JsString JsValue JsonParse.

Local Open Scope string_scope.
Local Open Scope Z_scope.

(** ** Requests, responses, thrown values *)

Record request := Request {
  rq_url : string;
  rq_method : string;
  rq_headers : list (string * string);
  rq_body : option string
}.

Record response := Response { rs_status : Z; rs_body : string }.

(** [res.ok] *)
Definition rs_ok (r : response) : bool := (200 <=? rs_status r) && (rs_status r <=? 299).

(** What a [throw] or a rejection carries: an [Error] object or another value. *)
Inductive thrown : Type :=
| JSError (name message : string)
| JSValue (v : jsval).

(** [new Error(msg)] *)
Definition new_error (msg : string) : thrown := JSError "Error" msg.
Definition type_error (msg : string) : thrown := JSError "TypeError" msg.
Definition syntax_error : thrown := JSError "SyntaxError" "JSON.parse".
Definition network_error : thrown := type_error "Failed to fetch".

(** [if (e)]: an object is truthy. *)
Definition thrown_truthy (e : thrown) : bool :=
  match e with JSError _ _ => true | JSValue v => truthy v end.

(** How an [async] call ends. *)
Inductive outcome (A : Type) : Type :=
| Ok (a : A)
| Err (e : thrown).
Arguments Ok {A} a.
Arguments Err {A} e.

(** ** Programs *)

Inductive prog (A : Type) : Type :=
| Ret (a : A)
| Throw (e : thrown)
| Fetch (rq : request) (k : option response -> prog A)
| Sleep (ms : Z) (k : prog A)
| Now (k : Z -> prog A)
| Uuid (k : string -> prog A)
| GetItem (key : string) (k : option string -> prog A)
| SetItem (key v : string) (k : prog A)
| RemoveItem (key : string) (k : prog A)
| Navigate (url : string) (k : prog A).
Arguments Ret {A} a.
Arguments Throw {A} e.
Arguments Fetch {A} rq k.
Arguments Sleep {A} ms k.
Arguments Now {A} k.
Arguments Uuid {A} k.
Arguments GetItem {A} key k.
Arguments SetItem {A} key v k.
Arguments RemoveItem {A} key k.
Arguments Navigate {A} url k.

(** Replace the leaves of a program. *)
Fixpoint fold_leaves {A B} (p : prog A) (f : outcome A -> prog B) : prog B :=
  match p with
  | Ret a => f (Ok a)
  | Throw e => f (Err e)
  | Fetch rq k => Fetch rq (fun r => fold_leaves (k r) f)
  | Sleep ms k => Sleep ms (fold_leaves k f)
  | Now k => Now (fun t => fold_leaves (k t) f)
  | Uuid k => Uuid (fun u => fold_leaves (k u) f)
  | GetItem key k => GetItem key (fun r => fold_leaves (k r) f)
  | SetItem key v k => SetItem key v (fold_leaves k f)
  | RemoveItem key k => RemoveItem key (fold_leaves k f)
  | Navigate url k => Navigate url (fold_leaves k f)
  end.

Definition of_outcome {A} (o : outcome A) : prog A :=
  match o with Ok a => Ret a | Err e => Throw e end.

#[export] Instance prog_ret : MRet prog := @Ret.
#[export] Instance prog_bind : MBind prog := fun A B f p =>
  fold_leaves p (fun o => match o with Ok a => f a | Err e => Throw e end).

(** [try { p } catch (e) { h(e) }] *)
Definition try_catch {A} (p : prog A) (h : thrown -> prog A) : prog A :=
  fold_leaves p (fun o => match o with Ok a => Ret a | Err e => h e end).

(** [try { p } finally { f }] where [f] sees how [p] ended; an exception of
    [f] replaces the outcome. *)
Definition try_finally {A} (p : prog A) (f : outcome A -> prog unit) : prog A :=
  fold_leaves p (fun o => f o ≫= fun _ => of_outcome o).

(** The operations as programs. *)
Definition fetch (rq : request) : prog response :=
  Fetch rq (fun r => match r with Some x => Ret x | None => Throw network_error end).
Definition sleep_ms (ms : Z) : prog unit := Sleep ms (Ret tt).
Definition date_now : prog Z := Now Ret.
Definition random_uuid : prog string := Uuid Ret.
Definition get_item (k : string) : prog (option string) := GetItem k Ret.
Definition set_item (k v : string) : prog unit := SetItem k v (Ret tt).
Definition remove_item (k : string) : prog unit := RemoveItem k (Ret tt).
Definition navigate (url : string) : prog unit := Navigate url (Ret tt).

(** [await res.json()] *)
Definition res_json (r : response) : prog jsval :=
  match json_parse (rs_body r) with Some v => Ret v | None => Throw syntax_error end.

(** [v.k], a TypeError on [null] and [undefined]. *)
Definition js_prop (v : jsval) (k : string) : prog jsval :=
  match get_prop v k with Some x => Ret x | None => Throw (type_error k) end.

(** ** Running a program *)

Inductive event : Type :=
| EvFetch (rq : request)
| EvSleep (ms : Z)
| EvNavigate (url : string).

Record world := World {
  storage : gmap string string;   (** [localStorage] *)
  clock : Z;                      (** [Date.now()] *)
  drawn : nat;                    (** UUIDs drawn so far *)
  trace : list event              (** what the program did, oldest first *)
}.

(** What the browser or Node gives to the program.  [net] sees everything the
    program has done; [None] is a rejected [fetch]. *)
Class Host := {
  net : list event -> request -> option response;
  uuid_at : nat -> string;
  latency : list event -> Z
}.

Definition log (e : event) (w : world) : world :=
  World (storage w) (clock w) (drawn w) (trace w ++ [e]).
Definition tick (ms : Z) (w : world) : world :=
  World (storage w) (clock w + ms) (drawn w) (trace w).
Definition draw (w : world) : world :=
  World (storage w) (clock w) (S (drawn w)) (trace w).
Definition with_storage (f : gmap string string -> gmap string string) (w : world) : world :=
  World (f (storage w)) (clock w) (drawn w) (trace w).

Section run.
Context `{Host}.

(** A [fetch]: the request is sent, the answer takes its time. *)
Definition do_fetch (rq : request) (w : world) : option response * world :=
  (net (trace w) rq, tick (latency (trace w)) (log (EvFetch rq) w)).

Fixpoint run {A} (p : prog A) (w : world) : outcome A * world :=
  match p with
  | Ret a => (Ok a, w)
  | Throw e => (Err e, w)
  | Fetch rq k => let '(r, w') := do_fetch rq w in run (k r) w'
  | Sleep ms k => run k (tick ms (log (EvSleep ms) w))
  | Now k => run (k (clock w)) w
  | Uuid k => run (k (uuid_at (drawn w))) (draw w)
  | GetItem key k => run (k (storage w !! key)) w
  | SetItem key v k => run k (with_storage <[key := v]> w)
  | RemoveItem key k => run k (with_storage (delete key) w)
  | Navigate url k => run k (log (EvNavigate url) w)
  end.

(** *** Laws *)

Lemma run_fold_leaves {A B} (p : prog A) (f : outcome A -> prog B) w :
  run (fold_leaves p f) w = let '(o, w') := run p w in run (f o) w'.
Proof. revert w. induction p; intros w; cbn; try done; auto. Qed.

Lemma run_bind {A B} (p : prog A) (f : A -> prog B) w :
  run (p ≫= f) w =
  match run p w with (Ok a, w') => run (f a) w' | (Err e, w') => (Err e, w') end.
Proof.
  unfold mbind, prog_bind. rewrite run_fold_leaves. by destruct (run p w) as [[a|e] w'].
Qed.

Lemma run_try_catch {A} (p : prog A) h w :
  run (try_catch p h) w =
  match run p w with (Ok a, w') => (Ok a, w') | (Err e, w') => run (h e) w' end.
Proof. unfold try_catch. rewrite run_fold_leaves. by destruct (run p w) as [[a|e] w']. Qed.

Lemma run_of_outcome {A} (o : outcome A) w : run (of_outcome o) w = (o, w).
Proof. by destruct o. Qed.

Lemma run_try_finally {A} (p : prog A) f w :
  run (try_finally p f) w =
  let '(o, w1) := run p w in
  match run (f o) w1 with (Ok _, w2) => (o, w2) | (Err e, w2) => (Err e, w2) end.
Proof.
  unfold try_finally. rewrite run_fold_leaves. destruct (run p w) as [o w1].
  rewrite run_bind. destruct (run (f o) w1) as [[[]|e] w2]; [apply run_of_outcome | done].
Qed.

Lemma run_trace_grows {A} (p : prog A) w : exists l, trace (run p w).2 = (trace w ++ l)%list.
Proof.
  assert (Hend : forall w : world, exists l, trace w = (trace w ++ l)%list).
  { intros w'. exists []. by rewrite app_nil_r. }
  revert w. induction p; intros w; cbn; try done; eauto.
  - destruct (H0 (net (trace w) rq) (tick (latency (trace w)) (log (EvFetch rq) w))) as [l ->].
    cbn. eexists. by rewrite <- app_assoc.
  - destruct (IHp (tick ms (log (EvSleep ms) w))) as [l ->]. cbn.
    eexists. by rewrite <- app_assoc.
  - destruct (H0 (uuid_at (drawn w)) (draw w)) as [l ->]. by exists l.
  - destruct (IHp (with_storage <[key := v]> w)) as [l ->]. by exists l.
  - destruct (IHp (with_storage (delete key) w)) as [l ->]. by exists l.
  - destruct (IHp (log (EvNavigate url) w)) as [l ->]. cbn.
    eexists. by rewrite <- app_assoc.
Qed.
End run.

#[export] Hint Rewrite @run_bind @run_try_catch @run_try_finally @run_of_outcome : run.

(** Push [run] through the combinators. *)
Ltac run_simpl := repeat (autorewrite with run; cbn [run do_fetch fst snd]).
