(* ===== verification/Html.v ===== *)
(** * What a component renders

    The tree a component returns, with the messages its handlers send in the
    place of the closures.  Text, elements, the attributes that depend on the
    state or that behave (values, [disabled], handlers) are kept; the fixed
    [className] strings are not. *)

From S2P Require Import Prelude JsString.

Local Open Scope string_scope.
Local Set Warnings "-register-all".

Inductive attr (Msg : Type) : Type :=
| Attr (name value : string)
| Flag (name : string) (on : bool)
| On (event : string) (m : Msg)
| OnText (event : string) (f : string -> Msg).
Arguments Attr {Msg} name value.
Arguments Flag {Msg} name on.
Arguments On {Msg} event m.
Arguments OnText {Msg} event f.

Inductive html (Msg : Type) : Type :=
| Text (s : string)
| Elem (tag : string) (attrs : list (attr Msg)) (children : list (html Msg))
| Nothing.
Arguments Text {Msg} s.
Arguments Elem {Msg} tag attrs children.
Arguments Nothing {Msg}.

(** [c && x] *)
Definition show {Msg} (c : bool) (x : html Msg) : html Msg := if c then x else Nothing.

Definition div {Msg} (children : list (html Msg)) : html Msg := Elem "div" [] children.
Definition span {Msg} (children : list (html Msg)) : html Msg := Elem "span" [] children.

(** The tree of a child, its messages wrapped as the parent receives them. *)
Definition map_attr {A B} (f : A -> B) (a : attr A) : attr B :=
  match a with
  | Attr n v => Attr n v
  | Flag n b => Flag n b
  | On e m => On e (f m)
  | OnText e g => OnText e (fun s => f (g s))
  end.

Fixpoint map_html {A B} (f : A -> B) (h : html A) : html B :=
  match h with
  | Text s => Text s
  | Elem tag attrs cs => Elem tag (List.map (map_attr f) attrs) (List.map (map_html f) cs)
  | Nothing => Nothing
  end.

(** All the text shown. *)
Fixpoint texts {Msg} (h : html Msg) : list string :=
  match h with
  | Text s => [s]
  | Elem _ _ cs => flat_map texts cs
  | Nothing => []
  end.

(** The elements of a tree, outermost first. *)
Fixpoint elements {Msg} (h : html Msg) : list (string * list (attr Msg)) :=
  match h with
  | Elem tag attrs cs => (tag, attrs) :: flat_map elements cs
  | _ => []
  end.

(** The messages a user can send: those of the handlers of elements that are
    not disabled. *)
Definition disabled {Msg} (attrs : list (attr Msg)) : bool :=
  existsb (fun a => match a with Flag n b => String.eqb n "disabled" && b | _ => false end) attrs.

Definition clicks {Msg} (h : html Msg) : list Msg :=
  flat_map (fun '(_, attrs) =>
    if disabled attrs then []
    else omap (fun a => match a with On _ m => Some m | _ => None end) attrs) (elements h).

(** The messages of one element. *)
Definition own_clicks {Msg} (attrs : list (attr Msg)) : list Msg :=
  if disabled attrs then [] else omap (fun a => match a with On _ m => Some m | _ => None end) attrs.

(** Induction through the children. *)
Section html_ind.
Context {Msg : Type} (P : html Msg -> Prop).
Context (Htext : forall s, P (Text s)) (Hnothing : P Nothing)
  (Helem : forall tag attrs cs, Forall P cs -> P (Elem tag attrs cs)).

Fixpoint html_nested_ind (h : html Msg) : P h :=
  match h with
  | Text s => Htext s
  | Nothing => Hnothing
  | Elem tag attrs cs =>
      Helem tag attrs cs ((fix go (l : list (html Msg)) : Forall P l :=
        match l with
        | [] => Forall_nil_2 _
        | x :: l' => Forall_cons_2 _ _ _ (html_nested_ind x) (go l')
        end) cs)
  end.
End html_ind.

Lemma flat_map_flat_map {A B C} (f : A -> list B) (g : B -> list C) l :
  flat_map g (flat_map f l) = flat_map (fun x => flat_map g (f x)) l.
Proof. induction l as [|x l IH]; cbn; [done |]. by rewrite flat_map_app, IH. Qed.

Lemma clicks_elem {Msg} tag (attrs : list (attr Msg)) cs :
  clicks (Elem tag attrs cs) = (own_clicks attrs ++ flat_map clicks cs)%list.
Proof.
  unfold clicks, own_clicks. cbn [elements flat_map]. f_equal. apply flat_map_flat_map.
Qed.
