(* ===== verification/Transport.v ===== *)
(** * The delivery of audit events: retries, the pending set, [flush]

    Both SDKs deliver events with the same machinery, once for Node and once for
    the browser.  This file holds what they share: the specification of a
    delivery ([retries]), the interface [Transport] through which a client is
    known here, the set of pending deliveries with its interleavings, and the
    theorems about them.  [NodeSdk] and [BrowserSdk] translate the two clients
    and discharge the interface. *)

From stdpp Require Import relations.
From S2P Require Import Prelude JsString JsValue Host.

Local Open Scope string_scope.
Local Open Scope Z_scope.
Local Set Warnings "-register-all".

(** ** A delivery *)

(** The writer took the event: [fetch] did not reject and [res.ok]. *)
Definition delivered (r : option response) : bool :=
  match r with Some x => rs_ok x | None => false end.

(** [retries rq ds p]: [p] posts [rq]; when the writer does not take it, [p]
    waits for the first delay of [ds] and starts over with the others, and
    gives up quietly when there is no delay left. *)
Inductive retries (rq : request) : list Z -> prog unit -> Prop :=
| retries_last k : (forall r, k r = Ret tt) -> retries rq [] (Fetch rq k)
| retries_more d ds k :
    (forall r, delivered r = true -> k r = Ret tt) ->
    (forall r, delivered r = false -> exists p, k r = Sleep d p /\ retries rq ds p) ->
    retries rq (d :: ds) (Fetch rq k).

(** What the clients promise to the rest of the development. *)
Class Transport (C : Type) := {
  audit_request : C -> obj -> request;
  deliver : C -> obj -> prog unit;
  deliver_retries : forall c ev, retries (audit_request c ev) [100; 200; 400] (deliver c ev)
}.

(** ** The pending set *)

(** What can be seen of a delivery: requests, answers, timers. *)
Inductive pevent : Type :=
| PFetch (rq : request)
| PReply (r : option response)
| PSleep (ms : Z).

(** The operation a program suspends on. *)
Definition issue (p : prog unit) : list pevent :=
  match p with
  | Fetch rq _ => [PFetch rq]
  | Sleep ms _ => [PSleep ms]
  | _ => []
  end.

Definition settled (p : prog unit) : bool :=
  match p with Ret _ | Throw _ => true | _ => false end.

(** [pending] maps the identity of a promise of the set to what is left of the
    delivery it stands for; [plog] is the history, newest last. *)
Record pool := Pool {
  next_id : nat;
  pending : gmap nat (prog unit);
  plog : list (nat * pevent)
}.

Definition empty_pool : pool := Pool 0 ∅ [].

Definition tag (i : nat) (l : list pevent) : list (nat * pevent) := List.map (pair i) l.

(** [p = this._sendWithRetry(event).catch(..).finally(() => this.pending.delete(p));
    this.pending.add(p)]: the delivery runs up to its first suspension. *)
Definition spawn (p : prog unit) (s : pool) : pool :=
  Pool (S (next_id s)) (<[next_id s := p]> (pending s))
    (plog s ++ tag (next_id s) (issue p)).

Definition resume (i : nat) (obs : list pevent) (p : prog unit) (s : pool) : pool :=
  Pool (next_id s) (<[i := p]> (pending s)) (plog s ++ tag i (obs ++ issue p)).

(** The event loop picks any delivery that can go on. *)
Inductive pool_step : pool -> pool -> Prop :=
| step_reply s i rq k r :
    pending s !! i = Some (Fetch rq k) -> pool_step s (resume i [PReply r] (k r) s)
| step_timer s i ms k :
    pending s !! i = Some (Sleep ms k) -> pool_step s (resume i [] k s)
| step_settle s i p :
    pending s !! i = Some p -> settled p = true ->
    pool_step s (Pool (next_id s) (delete i (pending s)) (plog s)).

(** The promises [flush] waits for, and when they have all settled. *)
Definition flush_waits (s : pool) : gset nat := dom (pending s).
Definition flush_done (waits : gset nat) (s : pool) : Prop := waits ## dom (pending s).

(** What the history says of one delivery. *)
Definition log_of (i : nat) (s : pool) : list pevent :=
  omap (fun e : nat * pevent => if Nat.eqb e.1 i then Some e.2 else None) (plog s).

Definition is_post (e : pevent) : bool := match e with PFetch _ => true | _ => false end.
Definition sleep_of (e : pevent) : option Z := match e with PSleep ms => Some ms | _ => None end.

(** ** The life of one delivery *)

(** [progress rq ds l p]: a delivery of [rq] with the delays [ds] has done [l]
    and [p] is left. *)
Inductive progress (rq : request) : list Z -> list pevent -> prog unit -> Prop :=
| progress_posted ds p : retries rq ds p -> progress rq ds [PFetch rq] p
| progress_done ds r :
    delivered r = true \/ ds = [] -> progress rq ds [PFetch rq; PReply r] (Ret tt)
| progress_waiting d ds r p :
    delivered r = false -> retries rq ds p ->
    progress rq (d :: ds) [PFetch rq; PReply r; PSleep d] (Sleep d p)
| progress_again d ds r l p :
    delivered r = false -> progress rq ds l p ->
    progress rq (d :: ds) (PFetch rq :: PReply r :: PSleep d :: l) p.

Lemma retries_issue rq ds p : retries rq ds p -> issue p = [PFetch rq].
Proof. by inversion 1. Qed.

Lemma progress_reply rq ds l rq' k r :
  progress rq ds l (Fetch rq' k) -> progress rq ds (l ++ PReply r :: issue (k r)) (k r).
Proof.
  intros H. remember (Fetch rq' k) as p eqn:E. induction H as [ds p Hp| | |d ds r' l p Hr Hp IH];
    simplify_eq.
  - inversion Hp as [k' Hk | d ds' k' Hok Hko]; simplify_eq; cbn.
    + rewrite Hk. constructor. by right.
    + destruct (delivered r) eqn:Er.
      * rewrite Hok by done. constructor. by left.
      * destruct (Hko r Er) as (q & Hq & Hret). rewrite Hq. by constructor.
  - cbn. constructor; auto.
Qed.

Lemma progress_timer rq ds l ms k :
  progress rq ds l (Sleep ms k) -> progress rq ds (l ++ issue k) k.
Proof.
  intros H. remember (Sleep ms k) as p eqn:E. induction H as [ds p Hp| |d ds r p Hr Hp|d ds r' l p Hr Hp IH];
    simplify_eq.
  - inversion Hp.
  - cbn. erewrite retries_issue by done. by repeat constructor.
  - cbn. constructor; auto.
Qed.

(** The waits of a delivery are the first delays, in order. *)
Lemma progress_sleeps rq ds l p : progress rq ds l p -> omap sleep_of l `prefix_of` ds.
Proof.
  induction 1; cbn; try apply prefix_nil.
  - apply prefix_cons, prefix_nil.
  - by apply prefix_cons.
Qed.

(** Every post of a delivery is the same request, sent at most once per delay
    and once more. *)
Lemma progress_posts rq ds l p :
  progress rq ds l p -> (1 <= length (List.filter is_post l) <= S (length ds))%nat.
Proof. induction 1; cbn in *; lia. Qed.

Lemma progress_requests rq ds l p rq' : progress rq ds l p -> In (PFetch rq') l -> rq' = rq.
Proof.
  induction 1; cbn; intros Hin; repeat (destruct Hin as [Hin|Hin]; [congruence || auto |]);
    (done || auto).
Qed.

(** Once the writer has taken the event, nothing follows. *)
Lemma progress_delivered rq ds l p r l1 l2 :
  progress rq ds l p -> l = (l1 ++ PReply r :: l2)%list -> delivered r = true ->
  l2 = [] /\ p = Ret tt.
Proof.
  intros H. revert l1. induction H as [ds p Hp|ds r' Hr'|d ds r' p Hr' Hp|d ds r' l p Hr' Hp IH];
    intros l1 Hl Hr.
  - by destruct l1 as [|? []].
  - destruct l1 as [|? [|? []]]; by simplify_eq/=.
  - destruct l1 as [|? [|? [|? []]]]; simplify_eq/=; congruence.
  - destruct l1 as [|e1 [|e2 [|e3 l1]]]; simplify_eq/=; [congruence |]. by eapply IH.
Qed.

(** A delivery that is over ended with an answer: the writer took the event, or
    it was the last attempt. *)
Lemma progress_settled rq ds l p :
  progress rq ds l p -> settled p = true ->
  exists l1 r, l = (l1 ++ [PReply r])%list /\
    (delivered r = true \/ length (List.filter is_post l) = S (length ds)).
Proof.
  induction 1 as [ds p Hp|ds r Hr|d ds r p Hr Hp|d ds r l p Hr Hp IH]; intros Hs.
  - by inversion Hp; subst.
  - exists [PFetch rq], r. split; [done |]. destruct Hr as [| ->]; auto.
  - done.
  - destruct (IH Hs) as (l1 & r1 & -> & Hend).
    exists (PFetch rq :: PReply r :: PSleep d :: l1), r1. split; [done |].
    destruct Hend as [|Hn]; [by left | right; cbn; by rewrite Hn].
Qed.

(** Steps a delivery can still take: answers and timers until it settles. *)
Fixpoint weight (p : prog unit) : nat :=
  match p with
  | Fetch _ k => S (weight (k None))
  | Sleep _ k => S (weight k)
  | _ => 0
  end.

Lemma retries_weight rq ds p : retries rq ds p -> weight p = S (2 * length ds).
Proof.
  revert p. induction ds as [|d ds IH]; intros p Hp; inversion Hp as [k Hk|d' ds' k Hok Hko];
    subst; cbn [weight length].
  - by rewrite Hk.
  - destruct (Hko None eq_refl) as (q & -> & Hq). cbn. rewrite (IH q Hq). lia.
Qed.

Lemma progress_weight rq ds l p : progress rq ds l p -> (weight p <= S (2 * length ds))%nat.
Proof.
  induction 1 as [ds p Hp| |d ds r p Hr Hp|]; cbn [length]; try (cbn; lia).
  - by rewrite (retries_weight _ _ _ Hp).
  - cbn. rewrite (retries_weight _ _ _ Hp). lia.
Qed.

(** The longest way on is the one where the network fails. *)
Lemma progress_weight_reply rq ds l rq' k r :
  progress rq ds l (Fetch rq' k) -> (weight (k r) <= weight (k None))%nat.
Proof.
  intros H. remember (Fetch rq' k) as p eqn:E. induction H as [ds p Hp| | |]; simplify_eq; auto.
  inversion Hp as [k' Hk | d ds' k' Hok Hko]; simplify_eq.
  - by rewrite !Hk.
  - destruct (Hko None eq_refl) as (q & -> & Hq). destruct (delivered r) eqn:Er.
    + rewrite Hok by done. cbn. lia.
    + destruct (Hko r Er) as (q' & -> & Hq'). cbn.
      by rewrite (retries_weight _ _ _ Hq), (retries_weight _ _ _ Hq').
Qed.

Lemma progress_not_stuck rq ds l p :
  progress rq ds l p ->
  settled p = true \/ (exists rq' k, p = Fetch rq' k) \/ (exists ms k, p = Sleep ms k).
Proof.
  induction 1 as [ds p Hp| | |]; [inversion Hp| | |]; eauto.
Qed.

Definition pool_weight (s : pool) : nat :=
  map_fold (fun _ p n => (S (weight p) + n)%nat) 0%nat (pending s).

Lemma weight_delete (m : gmap nat (prog unit)) i p :
  m !! i = Some p ->
  map_fold (fun _ p n => (S (weight p) + n)%nat) 0%nat m =
  (S (weight p) + map_fold (fun _ p n => (S (weight p) + n)%nat) 0%nat (delete i m))%nat.
Proof.
  intros H. apply (map_fold_delete_L (fun _ p n => (S (weight p) + n)%nat) 0%nat i p m); [| done].
  intros. lia.
Qed.

Lemma weight_insert (m : gmap nat (prog unit)) i p :
  map_fold (fun _ p n => (S (weight p) + n)%nat) 0%nat (<[i := p]> m) =
  (S (weight p) + map_fold (fun _ p n => (S (weight p) + n)%nat) 0%nat (delete i m))%nat.
Proof.
  rewrite (weight_delete _ i p) by apply lookup_insert_eq. by rewrite delete_insert_eq.
Qed.

(** ** A delivery alone: the reference *)

Section reference.
Context `{Host}.

(** Post; when the writer does not take it, wait and start over. *)
Fixpoint attempts (rq : request) (ds : list Z) (w : world) : world :=
  let '(r, w1) := do_fetch rq w in
  if delivered r then w1
  else match ds with
       | [] => w1
       | d :: ds' => attempts rq ds' (tick d (log (EvSleep d) w1))
       end.

Lemma run_retries rq ds : forall p w, retries rq ds p -> run p w = (Ok tt, attempts rq ds w).
Proof.
  induction ds as [|d ds IH]; intros p w Hp; inversion Hp as [k Hk|d' ds' k Hok Hko]; subst;
    cbn [run attempts do_fetch].
  - rewrite Hk. cbn. by destruct (delivered _).
  - destruct (delivered _) eqn:Hr; [by rewrite Hok |].
    destruct (Hko _ Hr) as (q & -> & Hq). cbn [run]. by apply IH.
Qed.
End reference.

(** ** The invariant of the pending set *)

Section transport.
Context {C : Type} `{Transport C} (c : C).

(** [client.send(event)] *)
Definition send (ev : obj) : pool -> pool := spawn (deliver c ev).

(** The application sends, or the event loop takes a step. *)
Inductive system_step : pool -> pool -> Prop :=
| sys_send s ev : system_step s (send ev s)
| sys_step s s' : pool_step s s' -> system_step s s'.

Definition reachable (s : pool) : Prop := rtc system_step empty_pool s.

(** Every delivery that was started is at some point of the life of an event;
    those that are over are no longer pending. *)
Definition pool_inv (s : pool) : Prop :=
  (forall i, (next_id s <= i)%nat -> pending s !! i = None /\ log_of i s = []) /\
  (forall i, (i < next_id s)%nat -> exists ev p,
     progress (audit_request c ev) [100; 200; 400] (log_of i s) p /\
     (pending s !! i = Some p \/ pending s !! i = None /\ settled p = true)).

Lemma log_of_app i l s m j q :
  log_of j (Pool m q (plog s ++ tag i l)) = (log_of j s ++ if Nat.eqb i j then l else [])%list.
Proof.
  unfold log_of, tag. cbn [plog]. rewrite omap_app. f_equal.
  induction l as [|e l IH]; cbn; [by destruct (Nat.eqb i j) |].
  rewrite IH. by destruct (Nat.eqb i j).
Qed.

Lemma inv_empty : pool_inv empty_pool.
Proof. split; [done |]. cbn. lia. Qed.

Lemma inv_send s ev : pool_inv s -> pool_inv (send ev s).
Proof.
  intros [Hfresh Hlive]. unfold send, spawn. split; cbn [next_id pending]; intros i Hi;
    rewrite log_of_app.
  - destruct (Hfresh i) as [Hp Hl]; [lia |]. rewrite lookup_insert_ne, Hl by lia.
    by destruct (Nat.eqb_spec (next_id s) i); [lia |].
  - destruct (Nat.eqb_spec (next_id s) i) as [<-|Hne].
    + exists ev, (deliver c ev). rewrite lookup_insert_eq. split; [|by left].
      destruct (Hfresh (next_id s)) as [_ ->]; [lia |].
      pose proof (deliver_retries c ev) as Hr.
      cbn. rewrite (retries_issue _ _ _ Hr). by constructor.
    + destruct (Hlive i) as (ev' & p & Hp); [lia |]. exists ev', p.
      by rewrite lookup_insert_ne, app_nil_r by done.
Qed.

(** A step of delivery [i] from [p] to [p'] keeps the invariant. *)
Lemma inv_resume s i p obs p' :
  pool_inv s -> pending s !! i = Some p ->
  (forall ev l, progress (audit_request c ev) [100; 200; 400] l p ->
     progress (audit_request c ev) [100; 200; 400] (l ++ obs ++ issue p') p') ->
  pool_inv (resume i obs p' s).
Proof.
  intros [Hfresh Hlive] Hi Hstep. unfold resume. split; cbn [next_id pending]; intros j Hj;
    rewrite log_of_app.
  - destruct (Hfresh j Hj) as [Hp ->].
    destruct (Nat.eqb_spec i j) as [->|]; [congruence |]. by rewrite lookup_insert_ne.
  - destruct (Hlive j Hj) as (ev & q & Hq & Hpend). exists ev.
    destruct (Nat.eqb_spec i j) as [->|Hne].
    + exists p'. rewrite lookup_insert_eq. split; [| by left]. apply Hstep.
      destruct Hpend as [|[]]; congruence.
    + exists q. by rewrite lookup_insert_ne, app_nil_r by done.
Qed.

Lemma inv_pool_step s s' : pool_inv s -> pool_step s s' -> pool_inv s'.
Proof.
  intros Hinv Hstep. destruct Hstep as [s i rq k r Hi|s i ms k Hi|s i p Hi Hp].
  - eapply inv_resume; eauto. intros ev l Hl. by apply (progress_reply _ _ _ rq).
  - eapply inv_resume; eauto. intros ev l Hl. by eapply progress_timer.
  - destruct Hinv as [Hfresh Hlive]. split; cbn [next_id pending]; intros j Hj.
    + destruct (Hfresh j Hj) as [Hn Hl]. split; [| done]. by rewrite lookup_delete_None; right.
    + destruct (Hlive j Hj) as (ev & q & Hq & Hpend). exists ev, q. split; [done |].
      destruct (decide (i = j)) as [->|Hne].
      * right. rewrite lookup_delete_eq. split; [done |]. destruct Hpend as [|[]]; congruence.
      * by rewrite lookup_delete_ne.
Qed.

Lemma reachable_inv s : reachable s -> pool_inv s.
Proof.
  apply (rtc_ind_r pool_inv); [apply inv_empty |]. intros s1 s2 _ Hstep Hinv.
  destruct Hstep; [by apply inv_send | by eapply inv_pool_step].
Qed.

(** *** Consequences *)

(** What the network has seen of the [i]-th event that was sent. *)
Lemma delivery_history s i :
  reachable s -> (i < next_id s)%nat ->
  exists ev, let l := log_of i s in
    (1 <= length (List.filter is_post l) <= 4)%nat /\
    (forall rq, In (PFetch rq) l -> rq = audit_request c ev) /\
    omap sleep_of l `prefix_of` [100; 200; 400] /\
    (forall l1 r l2, l = (l1 ++ PReply r :: l2)%list -> delivered r = true -> l2 = []).
Proof.
  intros Hs Hi. destruct (reachable_inv s Hs) as [_ Hlive].
  destruct (Hlive i Hi) as (ev & p & Hp & _). exists ev. cbn zeta. repeat split.
  - by apply (progress_posts _ _ _ _ Hp).
  - by apply (progress_posts _ _ _ _ Hp).
  - intros rq Hin. by eapply progress_requests.
  - by eapply progress_sleeps.
  - intros l1 r l2 Hl Hr. by eapply (progress_delivered _ _ _ _ _ _ _ Hp Hl Hr).
Qed.

Lemma inv_lookup s i p :
  pool_inv s -> pending s !! i = Some p ->
  exists ev l, progress (audit_request c ev) [100; 200; 400] l p.
Proof.
  intros [Hfresh Hlive] Hi. destruct (decide (i < next_id s)%nat) as [Hlt|Hge].
  - destruct (Hlive i Hlt) as (ev & q & Hq & [Hp|[Hp _]]); [|congruence].
    simplify_eq. eauto.
  - destruct (Hfresh i); [lia |]. congruence.
Qed.

Lemma step_weight s s' : pool_inv s -> pool_step s s' -> (pool_weight s' < pool_weight s)%nat.
Proof.
  intros Hinv Hstep. unfold pool_weight.
  destruct Hstep as [s i rq k r Hi|s i ms k Hi|s i p Hi Hp]; cbn [pending resume];
    rewrite ?weight_insert, (weight_delete (pending s) i _ Hi); cbn [weight]; try lia.
  destruct (inv_lookup s i _ Hinv Hi) as (ev & l & Hl).
  pose proof (progress_weight_reply _ _ _ _ _ r Hl). lia.
Qed.

(** Without new events the event loop takes at most eight steps for each
    pending delivery: four answers, three timers, one settlement. *)
Lemma pool_weight_bound s : pool_inv s -> (pool_weight s <= 8 * size (pending s))%nat.
Proof.
  intros Hinv.
  assert (Hb : forall i p, pending s !! i = Some p -> (weight p <= 7)%nat).
  { intros i p Hi. destruct (inv_lookup s i p Hinv Hi) as (ev & l & Hl).
    by apply progress_weight in Hl. }
  unfold pool_weight. revert Hb. generalize (pending s). clear Hinv.
  intros m. induction m as [|i p m Hi IH] using map_ind; intros Hb.
  - by rewrite map_fold_empty.
  - rewrite weight_insert, delete_id, map_size_insert_None by done.
    pose proof (Hb i p (lookup_insert_eq _ _ _)).
    assert ((map_fold (fun _ p n => S (weight p) + n) 0 m <= 8 * size m)%nat); [| lia].
    apply IH. intros j q Hj. apply (Hb j). rewrite lookup_insert_ne; [done |]. congruence.
Qed.

Lemma steps_bounded n s s' :
  pool_inv s -> nsteps pool_step n s s' -> (n + pool_weight s' <= pool_weight s)%nat.
Proof.
  intros Hinv Hn. induction Hn as [|n s1 s2 s3 Hstep Hrest IH]; [lia |].
  pose proof (step_weight _ _ Hinv Hstep). apply inv_pool_step in Hstep; [| done].
  specialize (IH Hstep). lia.
Qed.

Lemma pool_can_step s : pool_inv s -> pending s <> ∅ -> exists s', pool_step s s'.
Proof.
  intros Hinv Hne. apply map_choose in Hne as (i & p & Hi).
  destruct (inv_lookup s i p Hinv Hi) as (ev & l & Hl).
  destruct (progress_not_stuck _ _ _ _ Hl) as [Hp|[(rq & k & ->)|(ms & k & ->)]].
  - eexists. by eapply step_settle.
  - eexists. by eapply (step_reply _ _ _ _ None).
  - eexists. by eapply step_timer.
Qed.

(** [flush]: the event loop cannot go on for ever, and when it stops the
    promises [flush] waits for have settled. *)
Lemma flush_ends n s s' :
  reachable s -> nsteps pool_step n s s' ->
  (n <= 8 * size (pending s))%nat /\
  ((forall s'', ~ pool_step s' s'') -> flush_done (flush_waits s) s').
Proof.
  intros Hs Hn. apply reachable_inv in Hs as Hinv.
  pose proof (steps_bounded _ _ _ Hinv Hn). pose proof (pool_weight_bound _ Hinv).
  split; [lia |]. intros Hstuck.
  assert (pool_inv s') as Hinv'.
  { clear -Hinv Hn. induction Hn; auto. apply IHHn. by eapply inv_pool_step. }
  assert (pending s' = ∅) as He.
  { destruct (decide (pending s' = ∅)) as [|Hne]; [done |].
    destruct (pool_can_step s' Hinv' Hne) as [s'' Hs'']. by destruct (Hstuck s''). }
  unfold flush_done. rewrite He. set_solver.
Qed.

(** *** The network is given enough time *)

Lemma drains s : reachable s -> exists s', rtc pool_step s s' /\ pending s' = ∅.
Proof.
  intros Hs. apply reachable_inv in Hs. remember (pool_weight s) as n eqn:Hn.
  revert s Hs Hn. induction n as [n IH] using lt_wf_ind. intros s Hs ->.
  destruct (decide (pending s = ∅)) as [He|Hne]; [by exists s |].
  destruct (pool_can_step s Hs Hne) as [s1 H1].
  destruct (IH (pool_weight s1)) with (s := s1) as (s2 & H2 & He);
    [by apply step_weight | by eapply inv_pool_step | done |].
  exists s2. split; [by eapply rtc_l | done].
Qed.

Lemma log_of_mono s s' i : system_step s s' -> log_of i s `prefix_of` log_of i s'.
Proof.
  destruct 1 as [s ev | s1 s2 [s j rq k r Hj|s j ms k Hj|s j p Hj Hp]]; unfold send, spawn, resume;
    rewrite ?log_of_app; by try apply prefix_app_r.
Qed.

Lemma log_of_mono_rtc s s' i : rtc system_step s s' -> log_of i s `prefix_of` log_of i s'.
Proof.
  induction 1 as [|s1 s2 s3 Hstep _ IH]; [done |].
  etrans; [by apply log_of_mono | done].
Qed.

Lemma next_id_mono s s' : rtc system_step s s' -> (next_id s <= next_id s')%nat.
Proof.
  induction 1 as [|s1 s2 s3 Hstep _ IH]; [done |].
  assert (next_id s1 <= next_id s2)%nat; [| lia].
  destruct Hstep as [? ev|? ? []]; cbn; lia.
Qed.

(** An event that was sent and is no longer pending was posted, and either the
    writer took it or all four attempts were made. *)
Lemma sent_and_settled s ev s' :
  reachable s -> rtc system_step (send ev s) s' -> pending s' !! next_id s = None ->
  let l := log_of (next_id s) s' in
  (forall rq, In (PFetch rq) l -> rq = audit_request c ev) /\
  exists l1 r, l = (l1 ++ [PReply r])%list /\
    (delivered r = true \/ length (List.filter is_post l) = 4%nat).
Proof.
  intros Hs Hrun Hp. cbn zeta.
  assert (Hs' : reachable s').
  { unfold reachable in *. etrans; [done |]. eapply rtc_l; [| done]. constructor. }
  pose proof (log_of_mono_rtc _ _ (next_id s) Hrun) as Hpre.
  pose proof (next_id_mono _ _ Hrun) as Hid. cbn in Hid.
  destruct (reachable_inv s' Hs') as [_ Hlive].
  destruct (Hlive (next_id s)) as (ev' & p & Hprog & Hpend); [lia |].
  assert (audit_request c ev = audit_request c ev') as Heq.
  { apply (progress_requests _ _ _ _ _ Hprog).
    destruct Hpre as [l' ->]. apply in_or_app. left.
    unfold send, spawn. rewrite log_of_app, Nat.eqb_refl.
    rewrite (retries_issue _ _ _ (deliver_retries c ev)). apply in_or_app. right. by left. }
  split.
  - intros rq Hin. rewrite Heq. by eapply progress_requests.
  - destruct Hpend as [|[_ Hset]]; [congruence |].
    destruct (progress_settled _ _ _ _ Hprog Hset) as (l1 & r & -> & Hend). eauto.
Qed.

(** *** A [flush] among other sends *)

(** The steps of the system while some promises, [W], are awaited: [serves W n s s'] when
    [n] of the steps from [s] to [s'] are of the deliveries awaited. *)
Definition untouched (W : gset nat) (s s' : pool) : Prop :=
  forall i, i ∈ W -> pending s' !! i = pending s !! i.

Inductive serves (W : gset nat) : nat -> pool -> pool -> Prop :=
| serves_end s : serves W 0 s s
| serves_others n s1 s2 s3 :
    system_step s1 s2 -> untouched W s1 s2 -> serves W n s2 s3 -> serves W n s1 s3
| serves_one n s1 s2 s3 :
    system_step s1 s2 -> ~ untouched W s1 s2 -> serves W n s2 s3 -> serves W (S n) s1 s3.

Lemma serves_rtc W n s s' : serves W n s s' -> rtc system_step s s'.
Proof. induction 1; [done | by eapply rtc_l | by eapply rtc_l]. Qed.

(** What the deliveries awaited can still do. *)
Definition awaited (W : gset nat) (s : pool) : gmap nat (prog unit) :=
  filter (fun kv => kv.1 ∈ W) (pending s).
Definition map_weight (m : gmap nat (prog unit)) : nat :=
  map_fold (fun _ p n => (S (weight p) + n)%nat) 0%nat m.

Lemma awaited_lookup W s i : awaited W s !! i = if decide (i ∈ W) then pending s !! i else None.
Proof.
  unfold awaited. destruct (pending s !! i) as [p|] eqn:E; case_decide as Hi.
  - by apply map_lookup_filter_Some.
  - apply map_lookup_filter_None. right. by intros x _.
  - apply map_lookup_filter_None. by left.
  - apply map_lookup_filter_None. by left.
Qed.

Lemma awaited_untouched W s s' : untouched W s s' -> awaited W s' = awaited W s.
Proof.
  intros Hu. apply map_eq. intros i. rewrite !awaited_lookup. case_decide as Hi; [by apply Hu | done].
Qed.

(** One delivery goes on, to less work, or is over; the others stay as they are. *)
Lemma map_weight_step (m m' : gmap nat (prog unit)) i p :
  m !! i = Some p -> (forall j, j <> i -> m' !! j = m !! j) ->
  match m' !! i with Some p' => (weight p' < weight p)%nat | None => True end ->
  (map_weight m' < map_weight m)%nat.
Proof.
  intros Hi Hj Hw. unfold map_weight. rewrite (weight_delete m i p Hi).
  destruct (m' !! i) as [p'|] eqn:E.
  - rewrite (weight_delete m' i p' E).
    assert (delete i m' = delete i m) as ->; [| lia].
    apply map_eq. intros j. rewrite !lookup_delete. case_decide; [done | by apply Hj].
  - assert (m' = delete i m) as ->; [| lia].
    apply map_eq. intros j. rewrite lookup_delete. case_decide as Hij; [by subst | by apply Hj].
Qed.

Lemma pool_step_one s s' :
  pool_inv s -> pool_step s s' ->
  exists i p, pending s !! i = Some p /\ (forall j, j <> i -> pending s' !! j = pending s !! j) /\
    match pending s' !! i with Some p' => (weight p' < weight p)%nat | None => True end.
Proof.
  intros Hinv Hstep. destruct Hstep as [s i rq k r Hi|s i ms k Hi|s i p Hi Hp]; exists i; eexists;
    (split; [exact Hi |]); cbn [pending resume].
  - split; [intros j Hj; by rewrite lookup_insert_ne |]. rewrite lookup_insert_eq.
    destruct (inv_lookup s i _ Hinv Hi) as (ev & l & Hl). cbn [weight].
    pose proof (progress_weight_reply _ _ _ _ _ r Hl). lia.
  - split; [intros j Hj; by rewrite lookup_insert_ne |]. rewrite lookup_insert_eq. cbn. lia.
  - split; [intros j Hj; by rewrite lookup_delete_ne |]. by rewrite lookup_delete_eq.
Qed.

Lemma served_weight W s s' :
  pool_inv s -> (forall i, i ∈ W -> (i < next_id s)%nat) -> system_step s s' -> ~ untouched W s s' ->
  (map_weight (awaited W s') < map_weight (awaited W s))%nat.
Proof.
  intros Hinv HW Hstep Hu. destruct Hstep as [s ev | s s' Hstep].
  - destruct Hu. intros i Hi. apply HW in Hi. cbn. rewrite lookup_insert_ne by lia. done.
  - destruct (pool_step_one s s' Hinv Hstep) as (i & p & Hi & Hj & Hw).
    destruct (decide (i ∈ W)) as [HiW|HiW].
    + apply (map_weight_step _ _ i p).
      * by rewrite awaited_lookup, decide_True.
      * intros j Hne. rewrite !awaited_lookup. by rewrite Hj.
      * by rewrite awaited_lookup, decide_True.
    + destruct Hu. intros j HjW. apply Hj. by intros ->.
Qed.

Lemma system_step_inv s s' : pool_inv s -> system_step s s' -> pool_inv s'.
Proof.
  intros Hinv Hst. destruct Hst as [s ev | s s' Hs]; [exact (inv_send s ev Hinv) | exact (inv_pool_step s s' Hinv Hs)].
Qed.

Lemma serves_bounded W n s s' :
  pool_inv s -> (forall i, i ∈ W -> (i < next_id s)%nat) -> serves W n s s' ->
  (n + map_weight (awaited W s') <= map_weight (awaited W s))%nat /\ pool_inv s'.
Proof.
  intros Hinv HW Hs. induction Hs as [s | n s1 s2 s3 Hst Hu Hs IH | n s1 s2 s3 Hst Hu Hs IH]; [by split; [lia |] | |].
  all: assert (forall i, i ∈ W -> (i < next_id s2)%nat) as HW2
    by (intros i Hi; pose proof (HW i Hi); pose proof (next_id_mono _ _ (rtc_once _ _ Hst)); lia);
    destruct (IH (system_step_inv _ _ Hinv Hst) HW2) as [Hb Hinv3]; split; try done.
  - by rewrite <- (awaited_untouched W s1 s2 Hu).
  - pose proof (served_weight W s1 s2 Hinv HW Hst Hu). lia.
Qed.

(** A promise that is awaited and has not settled can go on. *)
Lemma awaited_can_step W s :
  pool_inv s -> ~ flush_done W s -> exists s', pool_step s s' /\ ~ untouched W s s'.
Proof.
  intros Hinv Hd. destruct (set_choose_or_empty (W ∩ dom (pending s))) as [[i Hi] | He];
    [| destruct Hd; unfold flush_done; set_solver].
  apply elem_of_intersection in Hi as [HiW [p Hi]%elem_of_dom].
  destruct (inv_lookup s i p Hinv Hi) as (ev & l & Hl).
  destruct (progress_not_stuck _ _ _ _ Hl) as [Hp|[(rq & k & ->)|(ms & k & ->)]].
  - eexists. split; [by eapply step_settle |]. intros Hu. specialize (Hu i HiW). cbn in Hu.
    by rewrite lookup_delete_eq, Hi in Hu.
  - eexists. split; [by eapply (step_reply _ _ _ _ None) |]. intros Hu. specialize (Hu i HiW). cbn in Hu.
    rewrite lookup_insert_eq, Hi in Hu. apply (f_equal (from_option weight O)) in Hu. cbn in Hu. lia.
  - eexists. split; [by eapply step_timer |]. intros Hu. specialize (Hu i HiW). cbn in Hu.
    rewrite lookup_insert_eq, Hi in Hu. apply (f_equal (from_option weight O)) in Hu. cbn in Hu. lia.
Qed.

(** However other sends interleave, the deliveries a [flush] waits for take at most eight
    steps each, and until all have settled one of them can go on. *)
Lemma flush_served n s s' :
  reachable s -> serves (flush_waits s) n s s' ->
  (n <= 8 * size (pending s))%nat /\
  (~ flush_done (flush_waits s) s' -> exists s'', serves (flush_waits s) 1 s' s'').
Proof.
  intros Hs Hn. apply reachable_inv in Hs as Hinv.
  assert (forall i, i ∈ flush_waits s -> (i < next_id s)%nat) as HW.
  { intros i Hi. unfold flush_waits in Hi. apply elem_of_dom in Hi as [p Hp].
    destruct (decide (i < next_id s)%nat) as [|Hge]; [done |].
    destruct Hinv as [Hf _]. destruct (Hf i); [lia |]. congruence. }
  destruct (serves_bounded _ n s s' Hinv HW Hn) as [Hb Hinv'].
  assert (awaited (flush_waits s) s = pending s) as E.
  { apply map_eq. intros i. rewrite awaited_lookup. case_decide as Hi; [done |].
    symmetry. by apply not_elem_of_dom. }
  rewrite E in Hb. pose proof (pool_weight_bound s Hinv) as Hw. unfold pool_weight in Hw. unfold map_weight in Hb at 2.
  split; [lia |]. intros Hd. destruct (awaited_can_step _ s' Hinv' Hd) as (s2 & Hst & Hu).
  exists s2. apply (serves_one _ 0 s' s2 s2); [by apply sys_step | done | constructor].
Qed.
End transport.
