(* ===== verification/NodeSdk.v ===== *)
(** * The Node SDK (sdks/node/src)

    [client.ts], [types.ts], [lambda.ts] and the Express and Fastify
    integrations.  Express, Fastify and the user's handler are the callers: what
    they hold at the time of a hook is an argument of the definition that models
    the hook. *)

From stdpp Require Import relations.
From S2P Require Import Prelude JsString JsValue JsonParse Numbers Dates Host Transport.

Local Open Scope string_scope.
Local Open Scope Z_scope.

(** ** types.ts *)

(** An optional member of a configuration object: absent, or given and then
    possibly [undefined]. *)
Inductive optprop (A : Type) : Type :=
| Absent
| Given (v : option A).
Arguments Absent {A}.
Arguments Given {A} v.

Definition optprop_read {A} (p : optprop A) : option A :=
  match p with Absent => None | Given v => v end.

(** [{ k: d, ...o }.k] *)
Definition spread_prop {A} (d : A) (p : optprop A) : option A :=
  match p with Absent => Some d | Given v => v end.

Record BatAuditConfig := {
  apiKey : string;
  serviceName : string;
  writerUrl : string;
  environment : optprop string;
  captureBody : optprop bool;
  captureResponseBody : optprop bool
}.

Record BatAuditRequestData := {
  identifier : option string;
  userEmail : option string;
  userName : option string;
  userRoles : option (list string);
  userType : option string;
  tenantId : option string
}.

(** [{}] *)
Definition no_user : BatAuditRequestData :=
  {| identifier := None; userEmail := None; userName := None;
     userRoles := None; userType := None; tenantId := None |}.

(** ** client.ts *)

Definition RETRY_DELAYS_MS : list Z := [100; 200; 400].

Definition sleep (ms : Z) : prog unit := sleep_ms ms.

(** [Required<BatAuditConfig>] after the spread of the constructor. *)
Record BatAuditClient := {
  c_apiKey : string;
  c_serviceName : string;
  c_writerUrl : string;
  c_environment : option string;
  c_captureBody : option bool;
  c_captureResponseBody : option bool
}.

Definition constructor (config : BatAuditConfig) : BatAuditClient :=
  {| c_apiKey := apiKey config;
     c_serviceName := serviceName config;
     c_writerUrl := writerUrl config;
     c_environment := spread_prop "prod" (environment config);
     c_captureBody := spread_prop false (captureBody config);
     c_captureResponseBody := spread_prop false (captureResponseBody config) |}.

Definition generateRequestId : prog string :=
  uuid ← random_uuid; mret ("bat-" +:+ uuid).

(** The request of one attempt. *)
Definition audit_post (c : BatAuditClient) (event : obj) : request :=
  {| rq_url := c_writerUrl c +:+ "/v1/audit";
     rq_method := "POST";
     rq_headers := [("Content-Type", "application/json"); ("X-API-Key", c_apiKey c)];
     rq_body := Some (json_text (JObj event)) |}.

(** What the [try] block decides: the recursive call is returned, not awaited,
    so it runs outside the [try]. *)
Inductive next_attempt : Type := Again | Stop.

(** [fuel] bounds the recursion; [node_sendWithRetry_reference] shows that
    one more than the number of delays is enough. *)
Fixpoint _sendWithRetry (fuel : nat) (c : BatAuditClient) (event : obj) (attempt : nat)
    : prog unit :=
  match fuel with
  | O => Throw (new_error "out of fuel")
  | S fuel' =>
      next ← try_catch
        (res ← fetch (audit_post c event);
         if negb (rs_ok res) && (attempt <? length RETRY_DELAYS_MS)%nat then
           sleep (nth attempt RETRY_DELAYS_MS 0);; mret Again
         else mret Stop)
        (fun _ =>
         if (attempt <? length RETRY_DELAYS_MS)%nat then
           sleep (nth attempt RETRY_DELAYS_MS 0);; mret Again
         else mret Stop);
      match next with
      | Again => _sendWithRetry fuel' c event (S attempt)
      | Stop => mret tt
      end
  end.

Definition retry_fuel : nat := S (length RETRY_DELAYS_MS).

(** [send(event)]: what the client does with its pending set. *)
Definition send (c : BatAuditClient) (event : obj) (s : pool) : pool :=
  spawn (_sendWithRetry retry_fuel c event 0) s.

(** [flush()]: the promises it waits for. *)
Definition flush (s : pool) : gset nat := flush_waits s.

(** *** The delivery is a [retries] *)

Lemma node_sendWithRetry_retries c event attempt fuel :
  (attempt <= length RETRY_DELAYS_MS)%nat ->
  (length RETRY_DELAYS_MS < attempt + fuel)%nat ->
  retries (audit_post c event) (drop attempt RETRY_DELAYS_MS)
    (_sendWithRetry fuel c event attempt).
Proof.
  revert attempt. induction fuel as [|fuel IH]; intros attempt Ha Hf; [lia |].
  cbn [_sendWithRetry]. destruct (decide (attempt = length RETRY_DELAYS_MS)) as [->|Hne].
  - constructor. intros [x|]; [| done]. cbn. by rewrite andb_false_r.
  - assert (Hlt : (attempt <? length RETRY_DELAYS_MS)%nat = true) by (apply Nat.ltb_lt; lia).
    rewrite (drop_S _ (nth attempt RETRY_DELAYS_MS 0)) by (by apply lookup_nth_lt, Nat.ltb_lt).
    rewrite Hlt. constructor.
    + intros [x|] Hr; [| done]. cbn in Hr |- *. by rewrite Hr.
    + intros r Hr. exists (_sendWithRetry fuel c event (S attempt)).
      split; [| apply IH; lia].
      destruct r as [x|]; cbn in Hr |- *; by rewrite ?Hr.
Qed.

#[export] Instance node_transport : Transport BatAuditClient := {
  audit_request := audit_post;
  deliver c ev := _sendWithRetry retry_fuel c ev 0;
  deliver_retries c ev := node_sendWithRetry_retries c ev 0 retry_fuel (Nat.le_0_l _) (Nat.lt_succ_diag_r _)
}.

(** ** middleware/express.ts *)

Definition user_fields (user : BatAuditRequestData) : obj :=
  [("identifier", JStr (default "anonymous" (identifier user)));
   ("user_email", jopt JStr (userEmail user));
   ("user_name", jopt JStr (userName user));
   ("user_roles", jopt (fun l => JArr (List.map JStr l)) (userRoles user));
   ("user_type", jopt JStr (userType user));
   ("tenant_id", jopt JStr (tenantId user))].

(** [Object.keys(o).length > 0 ? o : undefined] *)
Definition non_empty (o : obj) : jsval := if (0 <? length o)%nat then JObj o else JUndef.

(** The request and the response as Express holds them when a hook runs. *)
Record ExpressRequest := {
  er_method : string;
  er_path : string;
  er_headers : obj;
  er_query : obj;
  er_params : obj;
  er_body : jsval;
  er_ip : option string;
  er_socket : option (option string);  (** [req.socket], its [remoteAddress] *)
  er_bataudit : option BatAuditRequestData
}.

(** The variables the middleware closes over for one request, and what it did
    to the response. *)
Record ExpressClosure := {
  ec_startTime : Z;
  ec_requestId : string;
  ec_responseBody : jsval;
  ec_json_patched : bool
}.

Section express.
Context (config : BatAuditConfig).

Definition ex_environment : string := default "prod" (optprop_read (environment config)).
Definition ex_captureBody : bool := default false (optprop_read (captureBody config)).
Definition ex_captureResponseBody : bool :=
  default false (optprop_read (captureResponseBody config)).

(** The middleware up to [next()]; the header set on the response comes with
    the closure. *)
Definition express_enter (req : ExpressRequest) : prog (ExpressClosure * (string * string)) :=
  startTime ← date_now;
  requestId ← (match obj_get "x-request-id" (er_headers req) with
               | JStr incoming => mret incoming
               | _ => generateRequestId
               end);
  mret ({| ec_startTime := startTime; ec_requestId := requestId;
           ec_responseBody := JUndef; ec_json_patched := ex_captureResponseBody |},
        ("X-Request-ID", requestId)).

(** [res.json(body)]: the closure after the call, and the body Express gets. *)
Definition express_json (cl : ExpressClosure) (body : jsval) : ExpressClosure * jsval :=
  if ec_json_patched cl then
    ({| ec_startTime := ec_startTime cl; ec_requestId := ec_requestId cl;
        ec_responseBody := body; ec_json_patched := true |}, body)
  else (cl, body).

(** The [finish] listener: the event it builds. *)
Definition express_finish (cl : ExpressClosure) (req : ExpressRequest) (statusCode : Z)
    : prog obj :=
  let user := default no_user (er_bataudit req) in
  now ← date_now;
  stamp ← date_now;
  mret ([("method", JStr (er_method req));
         ("path", JStr (er_path req));
         ("status_code", JInt statusCode);
         ("response_time", JInt (now - ec_startTime cl))] ++
        user_fields user ++
        [("ip", match er_ip req with
                | Some ip => JStr ip
                | None => match er_socket req with
                          | Some a => jopt JStr a
                          | None => JUndef
                          end
                end);
         ("user_agent", obj_get "user-agent" (er_headers req));
         ("request_id", JStr (ec_requestId cl));
         ("query_params", non_empty (er_query req));
         ("path_params", non_empty (er_params req));
         ("request_body", if ex_captureBody then er_body req else JUndef);
         ("response_body", if ex_captureResponseBody then ec_responseBody cl else JUndef);
         ("service_name", JStr (serviceName config));
         ("environment", JStr ex_environment);
         ("timestamp", JStr (to_iso_string stamp))])%list.

(** The answers the application gives with [res.json], in order: the closure
    after them and the bodies Express gets. *)
Fixpoint express_jsons (cl : ExpressClosure) (bodies : list jsval)
    : ExpressClosure * list jsval :=
  match bodies with
  | [] => (cl, [])
  | body :: bodies' =>
      let '(cl1, sent) := express_json cl body in
      let '(cl2, rest) := express_jsons cl1 bodies' in
      (cl2, sent :: rest)
  end.
End express.

(** ** middleware/fastify.ts *)

(** The Fastify request with the two members the hooks keep on it. *)
Record FastifyRequest := {
  fr_method : string;
  fr_url : string;
  fr_headers : obj;
  fr_query : option obj;
  fr_params : option obj;
  fr_body : jsval;
  fr_ip : string;
  fr_bataudit : option BatAuditRequestData;
  fr_batRequestId : option string;
  fr_batResponseBody : jsval
}.

Definition with_request_id (id : string) (r : FastifyRequest) : FastifyRequest :=
  {| fr_method := fr_method r; fr_url := fr_url r; fr_headers := fr_headers r;
     fr_query := fr_query r; fr_params := fr_params r; fr_body := fr_body r;
     fr_ip := fr_ip r; fr_bataudit := fr_bataudit r;
     fr_batRequestId := Some id; fr_batResponseBody := fr_batResponseBody r |}.

Definition with_response_body (b : jsval) (r : FastifyRequest) : FastifyRequest :=
  {| fr_method := fr_method r; fr_url := fr_url r; fr_headers := fr_headers r;
     fr_query := fr_query r; fr_params := fr_params r; fr_body := fr_body r;
     fr_ip := fr_ip r; fr_bataudit := fr_bataudit r;
     fr_batRequestId := fr_batRequestId r; fr_batResponseBody := b |}.

Section fastify.
Context (config : BatAuditConfig).

Definition fa_environment : string := default "prod" (optprop_read (environment config)).
Definition fa_captureBody : bool := default false (optprop_read (captureBody config)).
Definition fa_captureResponseBody : bool :=
  default false (optprop_read (captureResponseBody config)).

(** The hook [onRequest]: the request after it, the header it sets. *)
Definition onRequest (request : FastifyRequest) : prog (FastifyRequest * (string * string)) :=
  requestId ← (match obj_get "x-request-id" (fr_headers request) with
               | JStr incoming => mret incoming
               | _ => generateRequestId
               end);
  mret (with_request_id requestId request, ("X-Request-ID", requestId)).

(** The hook [onSend]: the request after it and the payload that goes on. *)
Definition onSend (request : FastifyRequest) (payload : jsval) : FastifyRequest * jsval :=
  if fa_captureResponseBody then
    (with_response_body
       (match payload with
        | JStr s => default payload (json_parse s)
        | _ => payload
        end) request, payload)
  else (request, payload).

(** The hook [onResponse]: the event it sends. *)
Definition onResponse (request : FastifyRequest) (statusCode : Z) (elapsedTime : num) : prog obj :=
  let user := default no_user (fr_bataudit request) in
  requestId ← (match fr_batRequestId request with
               | Some id => mret id
               | None => generateRequestId
               end);
  let query := default [] (fr_query request) in
  let params := default [] (fr_params request) in
  stamp ← date_now;
  mret ([("method", JStr (fr_method request));
         ("path", JStr (before "?" (fr_url request)));
         ("status_code", JInt statusCode);
         ("response_time", JNum (math_round elapsedTime))] ++
        user_fields user ++
        [("ip", JStr (fr_ip request));
         ("user_agent", obj_get "user-agent" (fr_headers request));
         ("request_id", JStr requestId);
         ("query_params", non_empty query);
         ("path_params", non_empty params);
         ("request_body", if fa_captureBody then fr_body request else JUndef);
         ("response_body", if fa_captureResponseBody then fr_batResponseBody request else JUndef);
         ("service_name", JStr (serviceName config));
         ("environment", JStr fa_environment);
         ("timestamp", JStr (to_iso_string stamp))])%list.
End fastify.

(** ** lambda.ts *)

Section lambda.
Context {TEvent TResult : Type}.
Context (config : BatAuditConfig).
(** The user's handler and the user's description of the event. *)
Context (handler : TEvent -> prog TResult).
Context (getAuditData : option (TEvent -> option TResult -> option thrown -> outcome (option obj))).

Definition la_environment : string := default "prod" (optprop_read (environment config)).

Definition result_of (o : outcome TResult) : option TResult :=
  match o with Ok r => Some r | Err _ => None end.
Definition handlerError_of (o : outcome TResult) : option thrown :=
  match o with Ok _ => None | Err e => Some e end.

(** [handlerError ? 500 : 200] *)
Definition lambda_status (handlerError : option thrown) : Z :=
  match handlerError with
  | Some e => if thrown_truthy e then 500 else 200
  | None => 200
  end.

(** [handlerError instanceof Error ? handlerError.message : undefined] *)
Definition lambda_error_message (handlerError : option thrown) : jsval :=
  match handlerError with Some (JSError _ msg) => JStr msg | _ => JUndef end.

(** [getAuditData?.(lambdaEvent, result, handlerError)] *)
Definition audit_data (lambdaEvent : TEvent) (o : outcome TResult) : outcome (option obj) :=
  match getAuditData with
  | Some f => f lambdaEvent (result_of o) (handlerError_of o)
  | None => Ok None
  end.

(** The argument of [client.send]. *)
Definition lambda_fields (startTime now stamp : Z) (handlerError : option thrown)
    (auditData : obj) : obj :=
  spread
    [("method", JStr "POST");
     ("path", JStr "/lambda");
     ("status_code", JInt (lambda_status handlerError));
     ("response_time", JInt (now - startTime));
     ("identifier", JStr "anonymous");
     ("service_name", JStr (serviceName config));
     ("environment", JStr la_environment);
     ("timestamp", JStr (to_iso_string stamp));
     ("error_message", lambda_error_message handlerError)]
    auditData.

(** The [finally] block up to [client.send]: the event. *)
Definition lambda_event (lambdaEvent : TEvent) (startTime : Z) (o : outcome TResult) : prog obj :=
  auditData ← of_outcome (audit_data lambdaEvent o);
  now ← date_now;
  stamp ← date_now;
  mret (lambda_fields startTime now stamp (handlerError_of o) (default [] auditData)).

Context `{Host}.

(** One invocation: [wrap_invoke w s o w' s'] when, from the world [w] and the
    pending set [s] of the client, the wrapped handler ends with [o].  The
    handler runs alone; while [flush] waits, other invocations may send. *)
Inductive wrap_invoke (lambdaEvent : TEvent) (w : world) (s : pool)
    : outcome TResult -> pool -> Prop :=
| invoke_audit_throws o w1 e w2 :
    run (handler lambdaEvent) w = (o, w1) ->
    run (lambda_event lambdaEvent (clock w) o) w1 = (Err e, w2) ->
    wrap_invoke lambdaEvent w s (Err e) s
| invoke_flushed o w1 event w2 s' :
    run (handler lambdaEvent) w = (o, w1) ->
    run (lambda_event lambdaEvent (clock w) o) w1 = (Ok event, w2) ->
    rtc (system_step (constructor config)) (send (constructor config) event s) s' ->
    flush_done (flush (send (constructor config) event s)) s' ->
    wrap_invoke lambdaEvent w s o s'.
End lambda.

(** ** Properties of the delivery *)

(** C1 Whatever the application sends, whatever the network answers and however
    the deliveries interleave, the [i]-th event is posted at least once and at
    most four times, always as the same POST to [<writerUrl>/v1/audit] with the
    event as its JSON body; the waits between posts are the first of 100, 200
    and 400 ms, in that order; and nothing is posted after an answer with which
    the writer took the event. *)
Theorem node_delivery_history config s i :
  reachable (constructor config) s -> (i < next_id s)%nat ->
  exists event, let l := log_of i s in
    (1 <= length (List.filter is_post l) <= 4)%nat /\
    (forall rq, In (PFetch rq) l -> rq = audit_post (constructor config) event) /\
    omap sleep_of l `prefix_of` RETRY_DELAYS_MS /\
    (forall l1 r l2, l = (l1 ++ PReply r :: l2)%list -> delivered r = true -> l2 = []).
Proof. exact (delivery_history (constructor config) s i). Qed.

Definition demo_config : BatAuditConfig :=
  {| apiKey := "k"; serviceName := "payments-api"; writerUrl := "http://localhost:8081";
     environment := Absent; captureBody := Absent; captureResponseBody := Absent |}.

Lemma demo_reachable : reachable (constructor demo_config) (send (constructor demo_config) [] empty_pool).
Proof. apply rtc_once. exact (sys_send (constructor demo_config) empty_pool []). Qed.

Lemma node_delivery_history_witness :
  exists event, let l := log_of 0 (send (constructor demo_config) [] empty_pool) in
    (1 <= length (List.filter is_post l) <= 4)%nat /\
    (forall rq, In (PFetch rq) l -> rq = audit_post (constructor demo_config) event) /\
    omap sleep_of l `prefix_of` RETRY_DELAYS_MS /\
    (forall l1 r l2, l = (l1 ++ PReply r :: l2)%list -> delivered r = true -> l2 = []).
Proof.
  apply (node_delivery_history demo_config); [apply demo_reachable | cbn; lia].
Defined.

(** C2 [flush] ends: from any reachable pending set the event loop takes at most
    eight steps per pending delivery (four answers, three timers, one
    settlement), and when it can go no further every promise [flush] was
    waiting for has settled. *)
Theorem node_flush_terminates config n s s' :
  reachable (constructor config) s -> nsteps pool_step n s s' ->
  (n <= 8 * size (pending s))%nat /\
  ((forall s'', ~ pool_step s' s'') -> flush_done (flush s) s').
Proof. exact (flush_ends (constructor config) n s s'). Qed.

Lemma node_flush_terminates_witness :
  (0 <= 8 * size (pending (send (constructor demo_config) [] empty_pool)))%nat /\
  ((forall s'', ~ pool_step (send (constructor demo_config) [] empty_pool) s'') ->
   flush_done (flush (send (constructor demo_config) [] empty_pool))
     (send (constructor demo_config) [] empty_pool)).
Proof.
  apply (node_flush_terminates demo_config); [apply demo_reachable | constructor].
Defined.

(** C3 Run alone, [_sendWithRetry] is the reference delivery: it never throws,
    posts, and while the writer does not take the event waits for the next delay
    and posts again; it makes no use of its fuel. *)
Theorem node_sendWithRetry_reference `{Host} c event w fuel :
  (retry_fuel <= fuel)%nat ->
  run (_sendWithRetry fuel c event 0) w =
  (Ok tt, attempts (audit_post c event) RETRY_DELAYS_MS w).
Proof.
  intros Hf. change (4 <= fuel)%nat in Hf.
  apply run_retries, (node_sendWithRetry_retries c event 0); cbn [RETRY_DELAYS_MS length]; lia.
Qed.

(** A network that is down. *)
Definition dead_host : Host :=
  {| net := fun _ _ => None; uuid_at := fun _ => "u"; latency := fun _ => 5 |}.

Definition start_world : world := World ∅ 1000 0 [].

Lemma node_sendWithRetry_reference_witness :
  (retry_fuel <= 4)%nat /\
  length (trace (@run dead_host _ (_sendWithRetry 4 (constructor demo_config) [] 0) start_world).2)
    = 7%nat.
Proof.
  split; [apply Nat.leb_le; reflexivity |].
  rewrite (@node_sendWithRetry_reference dead_host (constructor demo_config) [] start_world 4);
    [reflexivity | apply Nat.leb_le; reflexivity].
Defined.

(** ** Properties of the Lambda wrapper *)

Lemma lambda_event_run {TEvent TResult} config gad `{Host} (ev : TEvent) t (o : outcome TResult) w :
  run (lambda_event config gad ev t o) w =
  match audit_data gad ev o with
  | Ok data => (Ok (lambda_fields config t (clock w) (clock w) (handlerError_of o) (default [] data)), w)
  | Err e => (Err e, w)
  end.
Proof. unfold lambda_event. by destruct (audit_data gad ev o). Qed.

(** C4 The wrapper is transparent and flushes: when [getAuditData] returns, the
    wrapped handler ends exactly as the handler does (same result, same error),
    and by then the event of this invocation has been posted, and either the
    writer took it or all four attempts were made; when [getAuditData] throws,
    its exception replaces the outcome of the handler and nothing is sent. *)
Theorem lambda_wrapper_outcome {TEvent TResult} config
    (handler : TEvent -> prog TResult) gad `{Host} ev w s o s' :
  reachable (constructor config) s ->
  wrap_invoke config handler gad ev w s o s' ->
  let '(o0, w1) := run (handler ev) w in
  match audit_data gad ev o0 with
  | Err e => o = Err e /\ s' = s
  | Ok data =>
      let event := lambda_fields config (clock w) (clock w1) (clock w1)
                     (handlerError_of o0) (default [] data) in
      let l := log_of (next_id s) s' in
      o = o0 /\
      (forall rq, In (PFetch rq) l -> rq = audit_post (constructor config) event) /\
      exists l1 r, l = (l1 ++ [PReply r])%list /\
        (delivered r = true \/ length (List.filter is_post l) = 4%nat)
  end.
Proof.
  intros Hs Hinv. destruct Hinv as [o w1 e w2 Hh He|o w1 event w2 s' Hh He Hrun Hdone];
    rewrite Hh; rewrite lambda_event_run in He; destruct (audit_data gad ev o) as [data|e'];
    simplify_eq; [done |].
  split; [done |]. refine (sent_and_settled (constructor config) s _ s' Hs Hrun _).
  apply not_elem_of_dom. intros Hin. apply (Hdone (next_id s)); [| done].
  unfold flush, flush_waits, send, spawn. cbn [pending]. set_solver.
Qed.

(** C14 The wrapper always returns.  When [getAuditData] throws it has returned at once.
    Otherwise it waits for the deliveries that are pending once its own event is sent:
    in every run, whatever the network answers and whatever other invocations send
    meanwhile, these take at most eight steps each; as long as the wrapper has not
    returned one of them can go on; and when they have settled the invocation ends as the
    handler did, with nothing left to wait for. *)
Theorem lambda_wrapper_returns {TEvent TResult} config
    (handler : TEvent -> prog TResult) gad `{Host} ev w s :
  reachable (constructor config) s ->
  let '(o, w1) := run (handler ev) w in
  match audit_data gad ev o with
  | Err e => wrap_invoke config handler gad ev w s (Err e) s
  | Ok data =>
      let event := lambda_fields config (clock w) (clock w1) (clock w1) (handlerError_of o)
                     (default [] data) in
      let s1 := send (constructor config) event s in
      forall n s2, serves (constructor config) (flush s1) n s1 s2 ->
        (n <= 8 * S (size (pending s)))%nat /\
        (~ flush_done (flush s1) s2 -> exists s3, serves (constructor config) (flush s1) 1 s2 s3) /\
        (flush_done (flush s1) s2 -> wrap_invoke config handler gad ev w s o s2)
  end.
Proof.
  intros Hs. destruct (run (handler ev) w) as [o w1] eqn:Hh.
  pose proof (lambda_event_run config gad ev (clock w) o w1) as He.
  destruct (audit_data gad ev o) as [data|e]; [| by eapply invoke_audit_throws].
  cbn zeta. set (event := lambda_fields _ _ _ _ _ _) in *. intros n s2 Hn.
  assert (reachable (constructor config) (send (constructor config) event s)) as Hs1.
  { eapply rtc_r; [exact Hs |]. exact (sys_send (constructor config) s event). }
  destruct (flush_served _ n _ s2 Hs1 Hn) as [Hb Hstep]. split_and!; [| exact Hstep |].
  - unfold send, Transport.send, spawn in Hb. cbn [pending] in Hb. rewrite map_size_insert in Hb.
    destruct (pending s !! next_id s); cbn in Hb; lia.
  - intros Hd. eapply invoke_flushed; [done | exact He | by eapply serves_rtc | done].
Qed.

(** A writer that takes every event. *)
Definition live_host : Host :=
  {| net := fun _ _ => Some (Response 202 "{}"); uuid_at := fun _ => "u"; latency := fun _ => 5 |}.

Definition demo_event (o : option thrown) : obj := lambda_fields demo_config 1000 1000 1000 o [].

(** The pending set once the event of an invocation is delivered. *)
Definition demo_flushed : pool :=
  Pool 1 (delete 0%nat (<[0%nat := Ret tt]> (<[0%nat := _sendWithRetry retry_fuel
            (constructor demo_config) (demo_event None) 0]> ∅)))
    [(0%nat, PFetch (audit_post (constructor demo_config) (demo_event None)));
     (0%nat, PReply (Some (Response 202 "{}")))].

Lemma demo_invoke :
  @wrap_invoke nat nat demo_config (fun n => Ret n) None live_host 7%nat start_world empty_pool
    (Ok 7%nat) demo_flushed.
Proof.
  refine (@invoke_flushed nat nat demo_config (fun n => Ret n) None live_host 7%nat start_world
    empty_pool (Ok 7%nat) start_world (demo_event None) start_world demo_flushed _ _ _ _);
    [reflexivity | reflexivity | |].
  - eapply rtc_l; [apply sys_step; eapply (step_reply _ 0 _ _ (Some (Response 202 "{}"))); reflexivity |].
    eapply rtc_l; [apply sys_step; eapply (step_settle _ 0 (Ret tt)); reflexivity |].
    constructor.
  - unfold flush_done, demo_flushed. cbn [pending]. rewrite delete_insert_eq, delete_insert_eq, dom_delete_L, dom_empty_L.
    intros i _ [Hi _]%elem_of_difference. by apply elem_of_empty in Hi.
Qed.

Lemma lambda_wrapper_outcome_witness :
  log_of 0 demo_flushed <> [] /\
  exists l1 r, log_of 0 demo_flushed = (l1 ++ [PReply r])%list /\
    (delivered r = true \/ length (List.filter is_post (log_of 0 demo_flushed)) = 4%nat).
Proof.
  split; [done |].
  destruct (@lambda_wrapper_outcome nat nat demo_config (fun n => Ret n) None live_host 7%nat
    start_world empty_pool (Ok 7%nat) demo_flushed (rtc_refl _ _) demo_invoke) as (_ & _ & H).
  exact H.
Defined.

(** One invocation whose handler throws, on a network that answers at once. *)
Lemma lambda_wrapper_returns_witness :
  let s1 := send (constructor demo_config) (demo_event (Some (new_error "boom"))) empty_pool in
  (forall n s2, serves (constructor demo_config) (flush s1) n s1 s2 -> (n <= 8)%nat) /\
  exists s2, serves (constructor demo_config) (flush s1) 1 s1 s2.
Proof.
  pose proof (@lambda_wrapper_returns nat nat demo_config (fun n => Throw (new_error "boom")) None dead_host
    7%nat start_world empty_pool (rtc_refl _ _)) as H. cbn zeta. split.
  - intros n s2 Hn. exact (proj1 (H n s2 Hn)).
  - apply (proj1 (proj2 (H 0%nat _ (serves_end _ _ _)))). intros Hd. apply (Hd 0%nat); [| by vm_compute].
    by vm_compute.
Defined.

(** A handler that throws a falsy value is recorded as a success: with
    [throw null], [throw undefined], [throw 0] or the empty string the event has
    status 200 and no error message, whatever the user's configuration, though
    the invocation fails. *)
Theorem lambda_falsy_throw_recorded_as_success {TEvent TResult} config `{Host} (ev : TEvent) t v w :
  truthy v = false ->
  exists event,
    run (lambda_event (TResult := TResult) config None ev t (Err (JSValue v))) w = (Ok event, w) /\
    obj_get "status_code" event = JInt 200 /\ obj_get "error_message" event = JUndef.
Proof.
  intros Hv. rewrite lambda_event_run. cbn [audit_data]. eexists. split; [done |].
  cbn. by rewrite Hv.
Qed.

Lemma lambda_falsy_throw_recorded_as_success_witness :
  truthy JNull = false /\ exists event,
    @run dead_host _ (lambda_event (TResult := nat) demo_config None 7%nat 1000 (Err (JSValue JNull)))
      start_world = (Ok event, start_world) /\
    obj_get "status_code" event = JInt 200 /\ obj_get "error_message" event = JUndef.
Proof.
  split; [done |].
  by apply (@lambda_falsy_throw_recorded_as_success nat nat demo_config dead_host).
Defined.

(** ** Properties of the Express middleware *)

(** The identifier taken from the header or drawn. *)
Definition request_id_of `{Host} (headers : obj) (w : world) : string * world :=
  match obj_get "x-request-id" headers with
  | JStr incoming => (incoming, w)
  | _ => ("bat-" +:+ uuid_at (drawn w), draw w)
  end.

Lemma run_request_id `{Host} headers w :
  run (match obj_get "x-request-id" headers with
       | JStr incoming => mret incoming
       | _ => generateRequestId
       end) w = let '(id, w') := request_id_of headers w in (Ok id, w').
Proof. unfold request_id_of. by destruct (obj_get "x-request-id" headers). Qed.

Lemma express_enter_run config `{Host} req w :
  run (express_enter config req) w =
  let '(id, w') := request_id_of (er_headers req) w in
  (Ok ({| ec_startTime := clock w; ec_requestId := id; ec_responseBody := JUndef;
          ec_json_patched := ex_captureResponseBody config |}, ("X-Request-ID", id)), w').
Proof.
  unfold express_enter. rewrite run_bind. cbn [run date_now]. rewrite run_bind, run_request_id.
  by destruct (request_id_of (er_headers req) w).
Qed.

(** [res.json] hands every body on, and the closure keeps the last one. *)
Lemma express_jsons_spec cl bodies :
  (express_jsons cl bodies).2 = bodies /\
  (express_jsons cl bodies).1 =
    {| ec_startTime := ec_startTime cl; ec_requestId := ec_requestId cl;
       ec_responseBody := if ec_json_patched cl then List.last bodies (ec_responseBody cl)
                          else ec_responseBody cl;
       ec_json_patched := ec_json_patched cl |}.
Proof.
  revert cl. induction bodies as [|b bodies IH]; intros cl.
  - destruct cl as [? ? ? []]; done.
  - cbn [express_jsons]. unfold express_json.
    destruct cl as [t id rb []]; cbn [ec_json_patched ec_startTime ec_requestId].
    + specialize (IH {| ec_startTime := t; ec_requestId := id; ec_responseBody := b;
                        ec_json_patched := true |}).
      destruct (express_jsons _ bodies) as [cl2 rest]. destruct IH as [E1 E2]. cbn in *. subst.
      destruct bodies as [|b' l]; [done |]. split; [done |].
      f_equal. revert b'. induction l as [|x l IHl]; intros b'; [done |]. apply IHl.
    + specialize (IH {| ec_startTime := t; ec_requestId := id; ec_responseBody := rb;
                        ec_json_patched := false |}).
      destruct (express_jsons _ bodies) as [cl2 rest]. destruct IH as [E1 E2]. cbn in *.
      by subst.
Qed.

(** One request through the Express middleware, from its first hook at world
    [w] to the [finish] event at world [w2]: the application's answers reach
    Express unchanged; the event and the X-Request-ID header carry the same
    identifier, the incoming one when there is one; the response time is the
    time between the two hooks; the bodies are in the event exactly when their
    capture is on, the response body being the last one answered; and the
    identifier falls back to [anonymous], the environment to [prod]. *)
Theorem express_event config `{Host} req req' bodies statusCode w w2 cl header w1 :
  run (express_enter config req) w = (Ok (cl, header), w1) ->
  exists event,
    (express_jsons cl bodies).2 = bodies /\
    run (express_finish config (express_jsons cl bodies).1 req' statusCode) w2 = (Ok event, w2) /\
    header = ("X-Request-ID", (request_id_of (er_headers req) w).1) /\
    obj_get "request_id" event = JStr (request_id_of (er_headers req) w).1 /\
    obj_get "method" event = JStr (er_method req') /\
    obj_get "path" event = JStr (er_path req') /\
    obj_get "status_code" event = JInt statusCode /\
    obj_get "response_time" event = JInt (clock w2 - clock w) /\
    obj_get "identifier" event =
      JStr (default "anonymous" (u ← er_bataudit req'; identifier u)) /\
    obj_get "request_body" event =
      (if ex_captureBody config then er_body req' else JUndef) /\
    obj_get "response_body" event =
      (if ex_captureResponseBody config then List.last bodies JUndef else JUndef) /\
    obj_get "environment" event = JStr (default "prod" (optprop_read (environment config))) /\
    obj_get "timestamp" event = JStr (to_iso_string (clock w2)).
Proof.
  intros Henter. rewrite express_enter_run in Henter.
  destruct (request_id_of (er_headers req) w) as [id w'] eqn:Hid. simplify_eq.
  destruct (express_jsons_spec {| ec_startTime := clock w; ec_requestId := id;
    ec_responseBody := JUndef; ec_json_patched := ex_captureResponseBody config |} bodies)
    as [-> ->]. cbn [ec_startTime ec_requestId ec_responseBody ec_json_patched].
  eexists. split; [done |]. split; [reflexivity |].
  split_and!; try reflexivity; cbn.
  - by destruct (er_bataudit req').
  - by destruct (ex_captureResponseBody config).
Qed.

Definition demo_request (body : jsval) : ExpressRequest :=
  {| er_method := "POST"; er_path := "/pay"; er_headers := [("x-request-id", JStr "abc")];
     er_query := []; er_params := []; er_body := body; er_ip := Some "::1"; er_socket := None;
     er_bataudit := None |}.

Lemma express_event_witness :
  exists event,
    @run dead_host _ (express_finish demo_config
      {| ec_startTime := 1000; ec_requestId := "abc"; ec_responseBody := JUndef;
         ec_json_patched := false |} (demo_request JNull) 200) start_world
      = (Ok event, start_world) /\
    obj_get "request_id" event = JStr "abc".
Proof.
  destruct (@express_event demo_config dead_host (demo_request JNull) (demo_request JNull) [] 200
    start_world start_world {| ec_startTime := 1000; ec_requestId := "abc";
      ec_responseBody := JUndef; ec_json_patched := false |} ("X-Request-ID", "abc") start_world
    eq_refl) as (event & _ & Hrun & _ & Hid & _).
  exists event. split; [exact Hrun | exact Hid].
Defined.

Definition with_body (b : jsval) (r : ExpressRequest) : ExpressRequest :=
  {| er_method := er_method r; er_path := er_path r; er_headers := er_headers r;
     er_query := er_query r; er_params := er_params r; er_body := b; er_ip := er_ip r;
     er_socket := er_socket r; er_bataudit := er_bataudit r |}.

(** C25 Bodies do not leak: with the capture of bodies off, as it is by default,
    the event is the same whatever the body of the request is and whatever the
    application answers. *)
Theorem express_no_body_leak config `{Host} req req' b1 b2 bodies1 bodies2 statusCode w w1 w2
    cl header :
  ex_captureBody config = false -> ex_captureResponseBody config = false ->
  run (express_enter config req) w = (Ok (cl, header), w1) ->
  exists event,
    run (express_finish config (express_jsons cl bodies1).1 (with_body b1 req') statusCode) w2
      = (Ok event, w2) /\
    run (express_finish config (express_jsons cl bodies2).1 (with_body b2 req') statusCode) w2
      = (Ok event, w2).
Proof.
  intros Hb Hr Henter. rewrite express_enter_run in Henter.
  destruct (request_id_of (er_headers req) w) as [id w'].
  assert (Hp : ec_json_patched cl = false) by (simplify_eq; exact Hr).
  destruct (express_jsons_spec cl bodies1) as [_ ->], (express_jsons_spec cl bodies2) as [_ ->].
  rewrite Hp. eexists. split; [reflexivity |].
  cbn. unfold express_finish. cbn. by rewrite Hb.
Qed.

Lemma express_no_body_leak_witness :
  ex_captureBody demo_config = false /\
  exists event,
    @run dead_host _ (express_finish demo_config
      {| ec_startTime := 1000; ec_requestId := "abc"; ec_responseBody := JUndef;
         ec_json_patched := false |} (demo_request (JStr "secret")) 200) start_world
      = (Ok event, start_world) /\
    @run dead_host _ (express_finish demo_config
      {| ec_startTime := 1000; ec_requestId := "abc"; ec_responseBody := JUndef;
         ec_json_patched := false |} (demo_request JNull) 200) start_world
      = (Ok event, start_world).
Proof.
  split; [reflexivity |].
  exact (@express_no_body_leak demo_config dead_host (demo_request JNull) (demo_request JNull)
    (JStr "secret") JNull [JStr "answer"] [] 200 start_world start_world start_world
    {| ec_startTime := 1000; ec_requestId := "abc"; ec_responseBody := JUndef;
       ec_json_patched := false |} ("X-Request-ID", "abc") eq_refl eq_refl eq_refl).
Defined.

(** ** Properties of the Fastify hooks *)

(** One request through the Fastify hooks: the payload goes on unchanged;
    the event and the X-Request-ID header carry the same identifier; the path
    is the URL up to its query string; the bodies are in the event exactly when
    their capture is on, and a response that is the JSON text of a value is
    recorded as that value; a payload that does not parse is recorded as it is. *)
Theorem fastify_event config `{Host} request payload statusCode elapsed w w2 r1 header w1 :
  run (onRequest request) w = (Ok (r1, header), w1) ->
  let '(r2, sent) := onSend config r1 payload in
  exists event,
    sent = payload /\
    run (onResponse config r2 statusCode elapsed) w2 = (Ok event, w2) /\
    header = ("X-Request-ID", (request_id_of (fr_headers request) w).1) /\
    obj_get "request_id" event = JStr (request_id_of (fr_headers request) w).1 /\
    obj_get "status_code" event = JInt statusCode /\
    (exists path, obj_get "path" event = JStr path /\ has_char "?" path = false /\
       starts_with (fr_url request) path = true) /\
    obj_get "request_body" event = (if fa_captureBody config then fr_body request else JUndef) /\
    (if fa_captureResponseBody config then
       (forall v, json_ok v = true -> payload = JStr (json_text v) ->
          obj_get "response_body" event = v) /\
       (forall s, payload = JStr s -> json_parse s = None ->
          obj_get "response_body" event = JStr s)
     else obj_get "response_body" event = JUndef).
Proof.
  unfold onRequest. rewrite run_bind, run_request_id.
  destruct (request_id_of (fr_headers request) w) as [id w'] eqn:Hid.
  cbn [run mret prog_ret fst]. intros Henter. simplify_eq.
  unfold onSend. destruct (fa_captureResponseBody config) eqn:Hcap;
    (eexists; split; [done |]; split; [reflexivity |]; split; [done |]).
  - split_and!; try reflexivity.
    + eexists. split; [reflexivity |]. split; [apply before_no_char | apply before_prefix].
    + intros v Hv ->. cbn. rewrite Hcap, json_parse_stringify by done. done.
    + intros s -> Hs. cbn. by rewrite Hcap, Hs.
  - split_and!; try reflexivity.
    + eexists. split; [reflexivity |]. split; [apply before_no_char | apply before_prefix].
    + cbn. by rewrite Hcap.
Qed.

Definition demo_fastify : FastifyRequest :=
  {| fr_method := "GET"; fr_url := "/a?b=1"; fr_headers := []; fr_query := None;
     fr_params := None; fr_body := JUndef; fr_ip := "::1"; fr_bataudit := None;
     fr_batRequestId := None; fr_batResponseBody := JUndef |}.

Lemma fastify_event_witness :
  exists event,
    @run dead_host _ (onResponse demo_config (with_request_id "bat-u" demo_fastify) 200 (Num 15 1))
      start_world = (Ok event, start_world) /\
    obj_get "request_id" event = JStr "bat-u".
Proof.
  destruct (@fastify_event demo_config dead_host demo_fastify (JStr "{}") 200 (Num 15 1) start_world
    start_world (with_request_id "bat-u" demo_fastify) ("X-Request-ID", "bat-u") (draw start_world)
    eq_refl) as (event & _ & Hrun & _ & Hid & _).
  exists event. split; [exact Hrun | exact Hid].
Defined.
