(* ===== verification/BrowserSdk.v ===== *)
(** * The browser SDK (sdks/browser/src)

    [client.ts], [types.ts], [index.ts] and the interceptors of [fetch] and of
    [XMLHttpRequest].  The URL parser of the platform and the guard of a
    request's headers are parameters; the [Headers] class (with the values it
    strips and what it refuses) and what a native [fetch] makes of its two
    arguments are modelled from the Fetch standard. *)

From stdpp Require Import relations.
From S2P Require Import Prelude JsString JsValue JsonParse Dates Host Transport.

Local Open Scope string_scope.
Local Open Scope Z_scope.

(** ** types.ts *)

(** The member [environment] of a configuration: absent, or given and then
    possibly [undefined]. *)
Inductive environment_prop : Type :=
| EnvAbsent
| EnvGiven (v : option string).

Record BatAuditBrowserConfig := {
  apiKey : string;
  serviceName : string;
  writerUrl : string;
  environment : environment_prop
}.

Record BatAuditUserData := {
  identifier : string;
  userEmail : option string;
  userName : option string;
  userRoles : option (list string);
  userType : option string;
  tenantId : option string
}.

(** ** client.ts *)

Definition RETRY_DELAYS_MS : list Z := [100; 200; 400].

Definition sleep (ms : Z) : prog unit := sleep_ms ms.

Definition anonymous : BatAuditUserData :=
  {| identifier := "anonymous"; userEmail := None; userName := None;
     userRoles := None; userType := None; tenantId := None |}.

(** The client: the configuration after the spread of the constructor, and the
    current user. *)
Record BatAuditBrowserClient := {
  c_apiKey : string;
  c_serviceName : string;
  c_writerUrl : string;
  c_environment : option string;
  user : BatAuditUserData
}.

Definition constructor (config : BatAuditBrowserConfig) : BatAuditBrowserClient :=
  {| c_apiKey := apiKey config;
     c_serviceName := serviceName config;
     c_writerUrl := writerUrl config;
     c_environment := match environment config with
                      | EnvAbsent => Some "prod"
                      | EnvGiven v => v
                      end;
     user := anonymous |}.

Definition setUser (data : BatAuditUserData) (c : BatAuditBrowserClient) : BatAuditBrowserClient :=
  {| c_apiKey := c_apiKey c; c_serviceName := c_serviceName c; c_writerUrl := c_writerUrl c;
     c_environment := c_environment c; user := data |}.

Definition clearUser (c : BatAuditBrowserClient) : BatAuditBrowserClient := setUser anonymous c.

Definition generateRequestId : prog string :=
  uuid ← random_uuid; mret ("bat-" +:+ uuid).

Definition buildEvent (c : BatAuditBrowserClient) (partial : obj) : obj :=
  spread (spread [] partial)
    [("identifier", JStr (identifier (user c)));
     ("user_email", jopt JStr (userEmail (user c)));
     ("user_name", jopt JStr (userName (user c)));
     ("user_roles", jopt (fun l => JArr (List.map JStr l)) (userRoles (user c)));
     ("user_type", jopt JStr (userType (user c)));
     ("tenant_id", jopt JStr (tenantId (user c)));
     ("service_name", JStr (c_serviceName c));
     ("environment", jopt JStr (c_environment c));
     ("source", JStr "browser")].

(** The request of one attempt. *)
Definition audit_post (c : BatAuditBrowserClient) (event : obj) : request :=
  {| rq_url := c_writerUrl c +:+ "/v1/audit";
     rq_method := "POST";
     rq_headers := [("Content-Type", "application/json"); ("X-API-Key", c_apiKey c)];
     rq_body := Some (json_text (JObj event)) |}.

(** What the [try] block decides. *)
Inductive next_attempt : Type := Again | Stop.

Fixpoint _sendWithRetry (fuel : nat) (c : BatAuditBrowserClient) (event : obj) (attempt : nat)
    : prog unit :=
  match fuel with
  | O => Throw (new_error "out of fuel")
  | S fuel' =>
      next ← try_catch
        (res ← fetch (audit_post c event);
         if negb (rs_ok res) && (attempt <? length RETRY_DELAYS_MS)%nat then
           sleep (nth attempt RETRY_DELAYS_MS 0);; mret Again
         else mret Stop)
        (fun _ =>
         if (attempt <? length RETRY_DELAYS_MS)%nat then
           sleep (nth attempt RETRY_DELAYS_MS 0);; mret Again
         else mret Stop);
      match next with
      | Again => _sendWithRetry fuel' c event (S attempt)
      | Stop => mret tt
      end
  end.

Definition retry_fuel : nat := S (length RETRY_DELAYS_MS).

Definition send (c : BatAuditBrowserClient) (event : obj) (s : pool) : pool :=
  spawn (_sendWithRetry retry_fuel c event 0) s.

Definition flush (s : pool) : gset nat := flush_waits s.

(** The platform's [URL]: [None] is the TypeError of an invalid URL. *)
Record url_record := { url_href : string; url_origin : string; url_pathname : string }.

Class WebPlatform := {
  new_URL : string -> option url_record;
  (** [navigator.userAgent], when there is a [navigator]. *)
  userAgent : option string;
  (** The guard of a request's headers: with the mode [mode], is the header [name],
      in lower case, with the value [v] kept?  Headers that are not are dropped
      silently: those the browser sets itself, and in the mode [no-cors] all but the
      safelisted ones. *)
  header_allowed : string -> string -> string -> bool;
  request_id_allowed : forall mode v,
    header_allowed mode "x-request-id" v = negb (String.eqb mode "no-cors")
}.

Definition extractPath `{WebPlatform} (url : string) : string :=
  match new_URL url with
  | Some u => url_pathname u
  | None => before "#" (before "?" url)
  end.

(** ** The [Headers] class *)

(** The bytes of a method or of a header name (a token of HTTP). *)
Definition token_char (a : ascii) : bool :=
  ascii_in 48 57 a || ascii_in 65 90 a || ascii_in 97 122 a || has_char a "!#$%&'*+-.^_`|~".

Definition token_ok (s : string) : bool := negb (String.eqb s "") && all_chars token_char s.

(** The white space a header value is stripped of: tab, LF, CR and the space. *)
Definition http_ws (a : ascii) : bool := has_char a (String "009" (String "010" (String "013" " "))).

Fixpoint strip_left (s : string) : string :=
  match s with
  | String a s' => if http_ws a then strip_left s' else s
  | "" => ""
  end.

Fixpoint strip_right (s : string) : string :=
  match s with
  | "" => ""
  | String a s' =>
      match strip_right s' with
      | "" => if http_ws a then "" else String a ""
      | r => String a r
      end
  end.

(** A header value as [Headers] stores it. *)
Definition normalize_value (v : string) : string := strip_right (strip_left v).

(** A byte of a header value: no NUL, LF or CR, and none that begins the UTF-8 form of a
    character above 255. *)
Definition value_char (a : ascii) : bool :=
  negb (has_char a (String "000" (String "010" (String "013" "")))) && ascii_in 0 195 a.

Definition value_ok (v : string) : bool :=
  all_chars value_char (normalize_value v).

(** Names are kept in lower case, each once, with its combined value. *)
Definition headers : Type := list (string * string).

Fixpoint headers_get (name : string) (h : headers) : option string :=
  match h with
  | [] => None
  | (n, v) :: h' => if String.eqb n (to_lower name) then Some v else headers_get name h'
  end.

Fixpoint headers_put (name v : string) (h : headers) : headers :=
  match h with
  | [] => [(to_lower name, v)]
  | (n, v') :: h' =>
      if String.eqb n (to_lower name) then (n, v) :: h' else (n, v') :: headers_put name v h'
  end.

(** [headers.set(name, v)]: [None] is the TypeError of an invalid name or value. *)
Definition headers_set (name v : string) (h : headers) : option headers :=
  if token_ok name && value_ok v then Some (headers_put name (normalize_value v) h) else None.

(** [headers.append(name, v)] *)
Definition headers_append (h : headers) (kv : string * string) : option headers :=
  if token_ok kv.1 && value_ok kv.2
  then Some (headers_put kv.1
         (match headers_get kv.1 h with
          | Some v => v +:+ ", " +:+ normalize_value kv.2
          | None => normalize_value kv.2
          end) h)
  else None.

(** [HeadersInit]: a [Headers] object, an object literal, or an array of pairs. *)
Inductive headers_init : Type :=
| HHeaders (h : headers)
| HRecord (l : list (string * string))
| HPairs (l : list (string * string)).

(** [new Headers(init)] *)
Definition new_Headers (i : option headers_init) : option headers :=
  match i with
  | None => Some []
  | Some (HHeaders h) => Some h
  | Some (HRecord l) | Some (HPairs l) =>
      fold_left (fun h kv => h ← h; headers_append h kv) l (Some [])
  end.

Definition headers_error : thrown := type_error "Headers".

(** ** [fetch] *)

Record request_init := {
  i_method : option string;
  i_headers : option headers_init;
  i_body : option string;
  i_mode : option string
}.

(** [RequestInfo | URL] *)
Inductive fetch_input : Type :=
| InString (s : string)
| InURL (href : string)
| InRequest (url method : string) (h : headers) (body : option string) (mode : string).

Definition fetch_fn : Type := fetch_input -> option request_init -> prog response.

(** Methods are compared without regard to case, and these are sent in upper case. *)
Definition normalize_method (m : string) : string :=
  if existsb (String.eqb (to_upper m)) ["DELETE"; "GET"; "HEAD"; "OPTIONS"; "POST"; "PUT"]
  then to_upper m else m.

(** What [new Request] refuses: a method that is no token or is forbidden, a body with
    GET or HEAD, the mode [navigate], and a method that is not simple with [no-cors]. *)
Definition request_ok (method mode : string) (body : option string) : bool :=
  let among := fun l => existsb (String.eqb (to_upper method)) l in
  token_ok method && negb (among ["CONNECT"; "TRACE"; "TRACK"]) &&
  negb (among ["GET"; "HEAD"] && match body with Some _ => true | None => false end) &&
  negb (String.eqb mode "navigate") &&
  (negb (String.eqb mode "no-cors") || among ["GET"; "HEAD"; "POST"]).

Definition request_mode (input : fetch_input) (init : option request_init) : string :=
  default (match input with InRequest _ _ _ _ mode => mode | _ => "cors" end) (i ← init; i_mode i).

Section native.
Context `{WebPlatform}.

(** The request a native [fetch] makes, [None] for a TypeError: what [init] gives replaces
    what a [Request] holds, and the headers pass the guard. *)
Definition native_request (input : fetch_input) (init : option request_init) : option request :=
  let '(url, method, h, body) :=
    match input with
    | InString s => (s, "GET", [], None)
    | InURL href => (href, "GET", [], None)
    | InRequest url method h body _ => (url, method, h, body)
    end in
  let mode := request_mode input init in
  let method := default method (i ← init; i_method i) in
  let body := match i ← init; i_body i with Some b => Some b | None => body end in
  h ← match i ← init; i_headers i with Some h' => new_Headers (Some h') | None => Some h end;
  if request_ok method mode body
  then Some {| rq_url := url; rq_method := normalize_method method;
               rq_headers := List.filter (fun kv => header_allowed mode kv.1 kv.2) h;
               rq_body := body |}
  else None.

Definition native_fetch : fetch_fn := fun input init =>
  match native_request input init with Some rq => fetch rq | None => Throw headers_error end.
End native.

(** ** interceptors/fetch.ts *)

Section interceptors.
Context `{WebPlatform}.

(** [new URL(client.config.writerUrl).origin] *)
Definition writer_origin (c : BatAuditBrowserClient) : option string :=
  url_origin <$> new_URL (c_writerUrl c).

Definition input_url (input : fetch_input) : string :=
  match input with InString s => s | InURL href => href | InRequest url _ _ _ _ => url end.

Definition existing_id (init : option request_init) : option string :=
  match i ← init; i_headers i with
  | Some (HHeaders h) => headers_get "X-Request-ID" h
  | Some (HRecord l) => snd <$> List.find (fun kv => String.eqb kv.1 "X-Request-ID") l
  | Some (HPairs _) => None
  | None => None
  end.

Definition input_method (input : fetch_input) (init : option request_init) : string :=
  to_upper (default (match input with InRequest _ m _ _ _ => m | _ => "GET" end)
              (i ← init; i_method i)).

(** [{ ...init, headers }] *)
Definition with_headers (init : option request_init) (h : headers) : option request_init :=
  Some {| i_method := i ← init; i_method i; i_headers := Some (HHeaders h);
          i_body := i ← init; i_body i; i_mode := i ← init; i_mode i |}.

(** [n || undefined] *)
Definition nonzero (n : Z) : jsval := if n =? 0 then JUndef else JInt n.

(** The literal the interceptors give to [buildEvent]. *)
Definition partial_event (method path : string) (status response_time : Z)
    (request_id : jsval) (stamp : Z) : obj :=
  [("method", JStr method);
   ("path", JStr path);
   ("status_code", nonzero status);
   ("response_time", JInt response_time);
   ("user_agent", jopt JStr userAgent);
   ("request_id", request_id);
   ("timestamp", JStr (to_iso_string stamp))].

(** [batAuditFetch]: how the call ends, and the events it sends.  The headers are built
    before the [try]: when that throws the call rejects and no event is sent.  The user of
    the client is read when the request is over: [user_then]. *)
Definition batAuditFetch (c : BatAuditBrowserClient) (writerOrigin : string)
    (originalFetch : fetch_fn) (user_then : BatAuditUserData)
    (input : fetch_input) (init : option request_init)
    : prog (outcome response * list obj) :=
  let url := input_url input in
  if starts_with url writerOrigin then
    fold_leaves (originalFetch input init) (fun o => Ret (o, []))
  else
    requestId ← (match existing_id init with
                 | Some id => mret id
                 | None => generateRequestId
                 end);
    let method := input_method input init in
    startTime ← date_now;
    match (h ← new_Headers (i ← init; i_headers i); headers_set "X-Request-ID" requestId h) with
    | None => Ret (Err headers_error, [])
    | Some h =>
        fold_leaves (originalFetch input (with_headers init h)) (fun o =>
          let statusCode := match o with Ok r => rs_status r | Err _ => 0 end in
          now ← date_now;
          stamp ← date_now;
          Ret (o, [buildEvent (setUser user_then c)
                     (partial_event method (extractPath url) statusCode (now - startTime)
                        (JStr requestId) stamp)]))
    end.

(** ** interceptors/xhr.ts *)

(** An [XMLHttpRequest] with the members the interceptor keeps on it; of its
    native state, the request headers and the number of [loadend] listeners
    the interceptor has added. *)
Record InstrumentedXHR := {
  _bat_method : option string;
  _bat_url : option string;
  _bat_skip : bool;
  _bat_request_id : option string;
  _bat_start_time : option Z;
  x_headers : list (string * string);
  x_listeners : nat
}.

Definition new_XMLHttpRequest : InstrumentedXHR :=
  {| _bat_method := None; _bat_url := None; _bat_skip := false; _bat_request_id := None;
     _bat_start_time := None; x_headers := []; x_listeners := 0 |}.

(** The patched [open]; the native one empties the request headers and keeps
    the listeners. *)
Definition xhr_open (writerOrigin method url : string) (x : InstrumentedXHR) : InstrumentedXHR :=
  {| _bat_method := Some (to_upper method);
     _bat_url := Some url;
     _bat_skip := starts_with url writerOrigin;
     _bat_request_id := _bat_request_id x;
     _bat_start_time := _bat_start_time x;
     x_headers := [];
     x_listeners := x_listeners x |}.

(** The patched [send]. *)
Definition xhr_send (x : InstrumentedXHR) : prog InstrumentedXHR :=
  if _bat_skip x then mret x
  else
    requestId ← generateRequestId;
    now ← date_now;
    mret {| _bat_method := _bat_method x; _bat_url := _bat_url x; _bat_skip := _bat_skip x;
            _bat_request_id := Some requestId; _bat_start_time := Some now;
            x_headers := (x_headers x ++ [("X-Request-ID", requestId)])%list;
            x_listeners := S (x_listeners x) |}.

(** One [loadend] listener of the interceptor. *)
Definition loadend_listener (c : BatAuditBrowserClient) (status : Z) (x : InstrumentedXHR)
    : prog obj :=
  let url := default "" (_bat_url x) in
  now ← date_now;
  started ← (match _bat_start_time x with Some t => mret t | None => date_now end);
  stamp ← date_now;
  mret (buildEvent c
    (partial_event (default "GET" (_bat_method x)) (extractPath url) status (now - started)
       (jopt JStr (_bat_request_id x)) stamp)).

(** The request is over: every listener runs; the events they send. *)
Fixpoint run_listeners (n : nat) (listener : prog obj) : prog (list obj) :=
  match n with
  | O => mret []
  | S n' => event ← listener; events ← run_listeners n' listener; mret (event :: events)
  end.

Definition xhr_loadend (c : BatAuditBrowserClient) (status : Z) (x : InstrumentedXHR)
    : prog (list obj) :=
  run_listeners (x_listeners x) (loadend_listener c status x).
End interceptors.

(** ** index.ts: installing and removing the interceptors *)

(** A global function: the native one, or the wrapper a client put over another. *)
Inductive global_fn : Type :=
| Native
| Wrapper (client : nat) (original : global_fn).

(** [globalThis.fetch], [XMLHttpRequest.prototype.open] and [.send]. *)
Record globals := { g_fetch : global_fn; g_open : global_fn; g_send : global_fn }.

(** What an instance restores. *)
Record instance := { originalFetch : global_fn; originalOpen : global_fn; originalSend : global_fn }.

Section install.
Context `{WebPlatform}.

(** [patchFetch(client)]: [None] is the TypeError of an invalid [writerUrl],
    thrown before anything is replaced. *)
Definition patchFetch (c : BatAuditBrowserClient) (client : nat) (g : globals) : option globals :=
  _ ← writer_origin c;
  Some {| g_fetch := Wrapper client (g_fetch g); g_open := g_open g; g_send := g_send g |}.

Definition patchXHR (c : BatAuditBrowserClient) (client : nat) (g : globals) : option globals :=
  _ ← writer_origin c;
  Some {| g_fetch := g_fetch g; g_open := Wrapper client (g_open g);
          g_send := Wrapper client (g_send g) |}.

Definition unpatchFetch (saved : global_fn) (g : globals) : globals :=
  {| g_fetch := saved; g_open := g_open g; g_send := g_send g |}.
Definition unpatchXHR (saved_open saved_send : global_fn) (g : globals) : globals :=
  {| g_fetch := g_fetch g; g_open := saved_open; g_send := saved_send |}.

(** [init(config)]: the client, the instance and the globals after it. *)
Definition init (config : BatAuditBrowserConfig) (client : nat) (g : globals)
    : option (BatAuditBrowserClient * instance * globals) :=
  let c := constructor config in
  g1 ← patchFetch c client g;
  g2 ← patchXHR c client g1;
  Some (c, {| originalFetch := g_fetch g; originalOpen := g_open g1;
              originalSend := g_send g1 |}, g2).

Definition unpatch (i : instance) (g : globals) : globals :=
  unpatchXHR (originalOpen i) (originalSend i) (unpatchFetch (originalFetch i) g).
End install.

(** ** The delivery is a [retries] *)

Lemma browser_sendWithRetry_retries c event attempt fuel :
  (attempt <= length RETRY_DELAYS_MS)%nat ->
  (length RETRY_DELAYS_MS < attempt + fuel)%nat ->
  retries (audit_post c event) (drop attempt RETRY_DELAYS_MS)
    (_sendWithRetry fuel c event attempt).
Proof.
  revert attempt. induction fuel as [|fuel IH]; intros attempt Ha Hf; [lia |].
  cbn [_sendWithRetry]. destruct (decide (attempt = length RETRY_DELAYS_MS)) as [->|Hne].
  - constructor. intros [x|]; [| done]. cbn. by rewrite andb_false_r.
  - assert (Hlt : (attempt <? length RETRY_DELAYS_MS)%nat = true) by (apply Nat.ltb_lt; lia).
    rewrite (drop_S _ (nth attempt RETRY_DELAYS_MS 0)) by (by apply lookup_nth_lt, Nat.ltb_lt).
    rewrite Hlt. constructor.
    + intros [x|] Hr; [| done]. cbn in Hr |- *. by rewrite Hr.
    + intros r Hr. exists (_sendWithRetry fuel c event (S attempt)).
      split; [| apply IH; lia].
      destruct r as [x|]; cbn in Hr |- *; by rewrite ?Hr.
Qed.

#[export] Instance browser_transport : Transport BatAuditBrowserClient := {
  audit_request := audit_post;
  deliver c ev := _sendWithRetry retry_fuel c ev 0;
  deliver_retries c ev := browser_sendWithRetry_retries c ev 0 retry_fuel (Nat.le_0_l _) (Nat.lt_succ_diag_r _)
}.

(** ** Lemmas on the interceptors *)

Section interceptor_lemmas.
Context `{Host} `{WebPlatform}.

(** The identifier of an intercepted request: the caller's or a new one. *)
Definition fetch_id (init : option request_init) (w : world) : string * world :=
  match existing_id init with
  | Some id => (id, w)
  | None => ("bat-" +:+ uuid_at (drawn w), draw w)
  end.

(** The headers the original function gets. *)
Definition intercepted_headers (init : option request_init) (id : string) : option headers :=
  h ← new_Headers (i ← init; i_headers i); headers_set "X-Request-ID" id h.

(** The event of an intercepted request that ended with [o]. *)
Definition intercepted_event c user_then input init id (started : Z) (o : outcome response)
    (ended : Z) : obj :=
  buildEvent (setUser user_then c)
    (partial_event (input_method input init) (extractPath (input_url input))
       (match o with Ok r => rs_status r | Err _ => 0 end) (ended - started) (JStr id) ended).

Lemma batAuditFetch_run c wo orig ut input init w :
  run (batAuditFetch c wo orig ut input init) w =
  if starts_with (input_url input) wo then
    let '(o, w') := run (orig input init) w in (Ok (o, []), w')
  else
    let '(id, w1) := fetch_id init w in
    match intercepted_headers init id with
    | None => (Ok (Err headers_error, []), w1)
    | Some h =>
        let '(o, w2) := run (orig input (with_headers init h)) w1 in
        (Ok (o, [intercepted_event c ut input init id (clock w1) o (clock w2)]), w2)
    end.
Proof.
  unfold batAuditFetch, fetch_id. destruct (starts_with (input_url input) wo).
  - by rewrite run_fold_leaves.
  - rewrite run_bind.
    unfold generateRequestId, intercepted_headers, intercepted_event.
    destruct (existing_id init) as [id|]; rewrite ?run_bind; cbn [run random_uuid mret prog_ret];
      rewrite ?run_bind; cbn [run date_now];
      match goal with |- context [new_Headers ?i ≫= ?f] => destruct (new_Headers i ≫= f) end;
      cbn [run]; rewrite ?run_fold_leaves; try done; by destruct (run (orig _ _) _).
Qed.
End interceptor_lemmas.

Lemma headers_get_put n v h : headers_get n (headers_put n v h) = Some v.
Proof.
  induction h as [|[n' v'] h IH]; cbn; [by rewrite String.eqb_refl |].
  destruct (String.eqb n' (to_lower n)) eqn:E; cbn; by rewrite E.
Qed.

(** What a guard leaves of a name that is not the one set. *)
Lemma headers_get_filter_put (f : string -> string -> bool) n m v h :
  to_lower n <> to_lower m ->
  headers_get n (List.filter (fun kv => f kv.1 kv.2) (headers_put m v h)) =
  headers_get n (List.filter (fun kv => f kv.1 kv.2) h).
Proof.
  intros Hne. induction h as [|[n' v'] h IH]; cbn.
  - destruct (f _ _); cbn; [| done]. by destruct (String.eqb_spec (to_lower m) (to_lower n)).
  - destruct (String.eqb_spec n' (to_lower m)) as [->|]; cbn.
    + destruct (f (to_lower m) v), (f (to_lower m) v'); cbn; try done;
        by destruct (String.eqb_spec (to_lower m) (to_lower n)).
    + destruct (f n' v'); cbn; [| done]. by rewrite IH.
Qed.

Lemma headers_get_put_ne n m v h :
  to_lower n <> to_lower m -> headers_get n (headers_put m v h) = headers_get n h.
Proof.
  intros Hne. pose proof (headers_get_filter_put (fun _ _ => true) n m v h Hne) as E.
  assert (forall l : headers, List.filter (fun _ => true) l = l) as Hid
    by (induction l; cbn; congruence). by rewrite !Hid in E.
Qed.

(** What a guard leaves of the name that is set. *)
Lemma headers_get_filter_set (f : string -> string -> bool) (ok : bool) n v h :
  (forall u, f (to_lower n) u = ok) ->
  headers_get n (List.filter (fun kv => f kv.1 kv.2) (headers_put n v h)) = if ok then Some v else None.
Proof.
  intros Hf.
  assert (forall l, ok = false -> headers_get n (List.filter (fun kv => f kv.1 kv.2) l) = None) as Hnone.
  { intros l E. induction l as [|[n' v'] l IH]; cbn; [done |]. destruct (f n' v') eqn:E'; cbn; [| done].
    destruct (String.eqb_spec n' (to_lower n)) as [->|]; [| done]. congruence. }
  destruct ok; [| by apply Hnone].
  induction h as [|[n' v'] h IH]; cbn.
  - rewrite Hf. cbn. by rewrite String.eqb_refl.
  - destruct (String.eqb_spec n' (to_lower n)) as [->|Hne]; cbn.
    + rewrite Hf. cbn. by rewrite String.eqb_refl.
    + destruct (f n' v'); cbn; [| done]. by destruct (String.eqb_spec n' (to_lower n)).
Qed.

(** ** Headers that are built without a TypeError *)

(** A [Headers] object the caller passes: names in lower case, each once, and values it
    accepted. *)
Definition headers_ok (h : headers) : Prop :=
  Forall (fun kv => to_lower kv.1 = kv.1) h /\ NoDup (List.map fst h) /\
  Forall (fun kv => value_ok kv.2 = true) h.

Definition init_ok (init : option request_init) : Prop :=
  match i ← init; i_headers i with Some (HHeaders h) => headers_ok h | _ => True end.

Lemma headers_append_none l :
  fold_left (fun h kv => h ← h; headers_append h kv) l None = None.
Proof. by induction l. Qed.

Lemma headers_append_all l : forall h h',
  fold_left (fun h kv => h ← h; headers_append h kv) l (Some h) = Some h' ->
  Forall (fun kv => value_ok kv.2 = true) l.
Proof.
  induction l as [|kv l IH]; intros h h' E; [done |]. cbn in E. unfold headers_append in E at 2.
  destruct (token_ok kv.1 && value_ok kv.2) eqn:Ek; [| by rewrite headers_append_none in E].
  apply andb_true_iff in Ek as [_ Ek]. constructor; [done | by eapply IH].
Qed.

Lemma headers_get_in n v h : headers_get n h = Some v -> exists n', In (n', v) h.
Proof.
  induction h as [|[n' v'] h IH]; cbn; [done |].
  destruct (String.eqb n' (to_lower n)); [intros [= ->]; by exists n'; left |].
  intros [x Hx]%IH. exists x. by right.
Qed.

Lemma existing_id_ok init id h0 :
  init_ok init -> new_Headers (i ← init; i_headers i) = Some h0 -> existing_id init = Some id ->
  value_ok id = true.
Proof.
  unfold init_ok, existing_id. destruct (i ← init; i_headers i) as [[h|l|l]|]; [| | done | done].
  - intros (_ & _ & Hv) _ [n Hn]%headers_get_in. apply list_elem_of_In in Hn.
    by apply (proj1 (Forall_forall _ _) Hv) in Hn.
  - intros _ Hl. apply headers_append_all in Hl. destruct (List.find _ l) as [kv|] eqn:E; [| done].
    intros [= <-]. apply find_some in E as [E _]. apply list_elem_of_In in E.
    by apply (proj1 (Forall_forall _ _) Hl) in E.
Qed.

(** The interceptor builds headers exactly when the caller's are valid. *)
Lemma intercepted_headers_some `{Host} init w h0 :
  init_ok init -> value_ok ("bat-" +:+ uuid_at (drawn w)) = true ->
  new_Headers (i ← init; i_headers i) = Some h0 ->
  intercepted_headers init (fetch_id init w).1 =
  Some (headers_put "X-Request-ID" (normalize_value (fetch_id init w).1) h0).
Proof.
  intros Hi Hu Hh. unfold intercepted_headers. rewrite Hh. cbn. unfold headers_set.
  assert (value_ok (fetch_id init w).1 = true) as ->; [| done].
  unfold fetch_id. destruct (existing_id init) as [id|] eqn:E; [| done]. by eapply existing_id_ok.
Qed.

Lemma intercepted_headers_none init id :
  new_Headers (i ← init; i_headers i) = None -> intercepted_headers init id = None.
Proof. unfold intercepted_headers. by intros ->. Qed.

Lemma fetch_id_trace `{Host} init w : trace (fetch_id init w).2 = trace w.
Proof. unfold fetch_id. by destruct (existing_id init). Qed.

(** ** The native [fetch] with and without the interceptor *)

Definition of_request (input : fetch_input) : bool :=
  match input with InRequest _ _ _ _ _ => true | _ => false end.

(** The request for a string or an URL, from the headers [h]. *)
Definition plain_request `{WebPlatform} (input : fetch_input) (init : option request_init) (h : headers)
    : option request :=
  let mode := request_mode input init in
  let method := default "GET" (i ← init; i_method i) in
  let body := i ← init; i_body i in
  if request_ok method mode body
  then Some {| rq_url := input_url input; rq_method := normalize_method method;
               rq_headers := List.filter (fun kv => header_allowed mode kv.1 kv.2) h; rq_body := body |}
  else None.

Lemma native_request_plain `{WebPlatform} input init :
  of_request input = false ->
  native_request input init = h ← new_Headers (i ← init; i_headers i); plain_request input init h.
Proof.
  intros Hr. destruct input; [| | done]; destruct init as [[im [ih|] [ib|] mo]|]; try done.
Qed.

Lemma plain_request_with_headers `{WebPlatform} input init h h' :
  plain_request input (with_headers init h) h' = plain_request input init h'.
Proof. by destruct init. Qed.

Lemma native_request_none `{WebPlatform} input init :
  new_Headers (i ← init; i_headers i) = None -> native_request input init = None.
Proof.
  unfold native_request. destruct input; destruct (i ← init; i_headers i); try done; by intros ->.
Qed.

Lemma native_fetch_trace `{Host} `{WebPlatform} input init w :
  trace (run (native_fetch input init) w).2 =
  match native_request input init with Some rq => (trace w ++ [EvFetch rq])%list | None => trace w end.
Proof.
  unfold native_fetch. destruct (native_request input init) as [rq|]; [| done].
  unfold fetch. cbn [run do_fetch]. by destruct (net (trace w) rq).
Qed.

Lemma batAuditFetch_trace `{Host} `{WebPlatform} c wo ut input init w h :
  starts_with (input_url input) wo = false -> intercepted_headers init (fetch_id init w).1 = Some h ->
  trace (run (batAuditFetch c wo native_fetch ut input init) w).2 =
  match native_request input (with_headers init h) with
  | Some rq => (trace w ++ [EvFetch rq])%list
  | None => trace w
  end.
Proof.
  intros Hwo Hh. rewrite batAuditFetch_run, Hwo.
  pose proof (fetch_id_trace init w) as Ht. destruct (fetch_id init w) as [id w1]. cbn in Hh, Ht. rewrite Hh.
  pose proof (native_fetch_trace input (with_headers init h) w1) as Hn. rewrite Ht in Hn.
  by destruct (run (native_fetch _ _) w1).
Qed.

(** ** Properties of the [fetch] interceptor *)

(** C39 The patched [fetch] is transparent and records each request once, when it is
    over.  A request to the writer goes through untouched and sends nothing.  Headers the
    platform refuses make the call reject, as the native [fetch] does, without a request
    and without an event.  Any other call ends exactly as the original [fetch] does when
    it is called with the same arguments and the same headers but X-Request-ID, whose
    value is the caller's or a new one, and sends one event: with that identifier, the
    status of the response, no status and no message when the request failed, and the
    time the call took.  No header of the caller exempts a request: X-BatAudit-Skip, which
    the documentation promises, is a header like any other. *)
Theorem fetch_interceptor_transparent `{Host} `{WebPlatform} c writerOrigin original user_then
    input init w :
  init_ok init -> value_ok ("bat-" +:+ uuid_at (drawn w)) = true ->
  let '(id, w1) := fetch_id init w in
  let call := batAuditFetch c writerOrigin original user_then input init in
  (starts_with (input_url input) writerOrigin = true ->
     run call w = let '(o, w') := run (original input init) w in (Ok (o, []), w')) /\
  (starts_with (input_url input) writerOrigin = false ->
   new_Headers (i ← init; i_headers i) = None ->
     run call w = (Ok (Err headers_error, []), w1) /\ trace w1 = trace w /\
     run (native_fetch input init) w = (Err headers_error, w)) /\
  (starts_with (input_url input) writerOrigin = false ->
   forall h0, new_Headers (i ← init; i_headers i) = Some h0 ->
   exists h,
     headers_get "X-Request-ID" h = Some (normalize_value id) /\
     (forall name, to_lower name <> "x-request-id" -> headers_get name h = headers_get name h0) /\
     let '(o, w2) := run (original input (with_headers init h)) w1 in
     exists event,
       run call w = (Ok (o, [event]), w2) /\
       obj_get "request_id" event = JStr id /\
       obj_get "method" event = JStr (input_method input init) /\
       obj_get "path" event = JStr (extractPath (input_url input)) /\
       obj_get "status_code" event =
         match o with Ok r => nonzero (rs_status r) | Err _ => JUndef end /\
       obj_get "error_message" event = JUndef /\
       obj_get "response_time" event = JInt (clock w2 - clock w1) /\
       obj_get "identifier" event = JStr (identifier user_then) /\
       obj_get "source" event = JStr "browser").
Proof.
  intros Hi Hu. pose proof (fetch_id_trace init w) as Ht.
  pose proof (batAuditFetch_run c writerOrigin original user_then input init w) as Hrun.
  pose proof (intercepted_headers_some init w) as Hs. destruct (fetch_id init w) as [id w1].
  cbn [fst snd] in *. cbn zeta. rewrite Hrun. split_and!; intros -> .
  - done.
  - intros Hn. rewrite (intercepted_headers_none init id Hn). split_and!; [done | done |].
    unfold native_fetch. by rewrite (native_request_none input init Hn).
  - intros h0 Hh. rewrite (Hs h0 Hi Hu Hh). eexists. split_and!.
    + apply headers_get_put.
    + intros name Hname. by apply headers_get_put_ne.
    + destruct (run (original input _) w1) as [o w2]. eexists. split; [reflexivity |].
      split_and!; try reflexivity. by destruct o.
Qed.

(** C40 What the patched [fetch] puts on the network, for a string or an URL: the same
    requests as the native [fetch] would, with the same URL, method, body and headers, but
    for X-Request-ID, which carries the identifier (in the mode [no-cors] the platform
    drops it); and nothing where the native [fetch] sends nothing. *)
Theorem fetch_interceptor_keeps_request `{Host} `{WebPlatform} c writerOrigin user_then input init w :
  init_ok init -> value_ok ("bat-" +:+ uuid_at (drawn w)) = true ->
  of_request input = false -> starts_with (input_url input) writerOrigin = false ->
  let native := trace (run (native_fetch input init) w).2 in
  let patched := trace (run (batAuditFetch c writerOrigin native_fetch user_then input init) w).2 in
  (native = trace w /\ patched = trace w) \/
  exists rq rq',
    native = (trace w ++ [EvFetch rq])%list /\ patched = (trace w ++ [EvFetch rq'])%list /\
    rq_url rq' = rq_url rq /\ rq_method rq' = rq_method rq /\ rq_body rq' = rq_body rq /\
    (forall name, to_lower name <> "x-request-id" ->
       headers_get name (rq_headers rq') = headers_get name (rq_headers rq)) /\
    headers_get "X-Request-ID" (rq_headers rq') =
      if String.eqb (request_mode input init) "no-cors" then None
      else Some (normalize_value (fetch_id init w).1).
Proof.
  intros Hi Hu Hr Hwo. cbn zeta. rewrite native_fetch_trace.
  destruct (new_Headers (i ← init; i_headers i)) as [h0|] eqn:Hh.
  - rewrite (batAuditFetch_trace _ _ _ _ _ _ _ Hwo (intercepted_headers_some init w h0 Hi Hu Hh)).
    rewrite !native_request_plain by done. rewrite Hh. cbn [mbind option_bind with_headers i_headers new_Headers].
    set (h1 := headers_put _ _ h0). change (i ← with_headers init h1; i_headers i) with (Some (HHeaders h1)).
    rewrite plain_request_with_headers. unfold plain_request.
    destruct (request_ok _ _ _); [right | by left]. eexists _, _.
    split_and!; [reflexivity | reflexivity | done | done | done | |]; cbn [rq_headers].
    + intros name Hname. by apply headers_get_filter_put.
    + etransitivity; [apply (headers_get_filter_set (header_allowed (request_mode input init))
        (negb (String.eqb (request_mode input init) "no-cors")) "X-Request-ID");
        intros u; apply request_id_allowed |].
      by destruct (String.eqb _ _).
  - left. rewrite native_request_none by done. split; [done |]. rewrite batAuditFetch_run, Hwo.
    pose proof (fetch_id_trace init w) as Ht. destruct (fetch_id init w) as [id w1]. cbn in Ht.
    by rewrite intercepted_headers_none.
Qed.

(** An identifier the caller gives in another form than the interceptor reads is replaced:
    in an array of pairs, or under another case of the name. *)
Example own_id_replaced :
  let with_ := fun i => Some {| i_method := None; i_headers := Some i; i_body := None; i_mode := None |} in
  existing_id (with_ (HRecord [("X-Request-ID", "mine")])) = Some "mine" /\
  Forall (fun i => existing_id (with_ i) = None /\
                   intercepted_headers (with_ i) "bat-1" = Some [("x-request-id", "bat-1")])
    [HPairs [("X-Request-ID", "mine")]; HRecord [("x-request-id", "mine")]].
Proof. cbn zeta. split; [reflexivity |]. repeat constructor. Qed.

(** A [Request] object loses its own headers: called without headers in
    [init], the interceptor passes headers that hold X-Request-ID only, and
    these replace the ones of the [Request]. *)
Theorem fetch_interceptor_drops_request_headers `{WebPlatform} url m h b mode id hh name :
  request_ok m mode b = true -> intercepted_headers None id = Some hh ->
  to_lower name <> "x-request-id" ->
  exists rq rq',
    native_request (InRequest url m h b mode) None = Some rq /\
    native_request (InRequest url m h b mode) (with_headers None hh) = Some rq' /\
    headers_get name (rq_headers rq) =
      headers_get name (List.filter (fun kv => header_allowed mode kv.1 kv.2) h) /\
    headers_get name (rq_headers rq') = None.
Proof.
  intros Hok Hh Hname. unfold intercepted_headers, headers_set in Hh. cbn [mbind option_bind new_Headers] in Hh.
  destruct (token_ok _ && value_ok id); [| done]. injection Hh as <-.
  unfold native_request, request_mode. cbn -[to_lower headers_get request_ok]. rewrite Hok.
  eexists _, _. split_and!; [reflexivity | reflexivity | done |]. cbn [rq_headers].
  destruct (header_allowed _ _ _); [| done]. cbn [headers_get].
  by destruct (String.eqb_spec (to_lower "X-Request-ID") (to_lower name)) as [E |]; [destruct Hname |].
Qed.

(** The client's own posts do not feed on themselves: when the URL parser
    gives for [writerUrl] an origin that [writerUrl] starts with, the patched
    [fetch] lets the post of any event through and sends no further event, with
    the effect of the original [fetch]. *)
Theorem audit_posts_not_intercepted `{Host} `{WebPlatform} c origin original user_then event w :
  writer_origin c = Some origin ->
  starts_with (c_writerUrl c) origin = true ->
  let rq := audit_post c event in
  let init := Some {| i_method := Some (rq_method rq);
                      i_headers := Some (HRecord (rq_headers rq)); i_body := rq_body rq;
                      i_mode := None |} in
  exists o w',
    run (original (InString (rq_url rq)) init) w = (o, w') /\
    run (batAuditFetch c origin original user_then (InString (rq_url rq)) init) w
      = (Ok (o, []), w').
Proof.
  intros _ Hpre. cbn zeta. rewrite batAuditFetch_run. cbn [input_url].
  assert (starts_with (rq_url (audit_post c event)) origin = true) as ->.
  { apply starts_with_spec in Hpre as [t Ht]. apply starts_with_spec.
    exists (t +:+ "/v1/audit"). cbn [rq_url audit_post]. by rewrite Ht, app_assoc_s. }
  destruct (run (original _ _) w) as [o w']. eauto.
Qed.

(** An URL parser that knows one URL, and a guard that keeps every header but, in the mode
    [no-cors], those that are not safelisted by name. *)
Definition demo_allowed (mode name v : string) : bool :=
  negb (String.eqb mode "no-cors") ||
  existsb (String.eqb name) ["accept"; "accept-language"; "content-language"; "content-type"].

Lemma demo_request_id_allowed mode v :
  demo_allowed mode "x-request-id" v = negb (String.eqb mode "no-cors").
Proof. unfold demo_allowed. cbn. by rewrite orb_false_r. Qed.

Definition demo_web : WebPlatform :=
  {| new_URL := fun s => if String.eqb s "http://localhost:8081"
       then Some {| url_href := "http://localhost:8081/"; url_origin := "http://localhost:8081";
                    url_pathname := "/" |}
       else if String.eqb s "HTTP://localhost:8081"
       then Some {| url_href := "http://localhost:8081/"; url_origin := "http://localhost:8081";
                    url_pathname := "/" |}
       else None;
     userAgent := None;
     header_allowed := demo_allowed;
     request_id_allowed := demo_request_id_allowed |}.

Definition demo_config (url : string) : BatAuditBrowserConfig :=
  {| apiKey := "k"; serviceName := "my-spa"; writerUrl := url; environment := EnvAbsent |}.

(** A network that is down. *)
Definition dead_host : Host :=
  {| net := fun _ _ => None; uuid_at := fun _ => "u"; latency := fun _ => 5 |}.

Definition start_world : world := World ∅ 1000 0 [].

Lemma audit_posts_not_intercepted_witness :
  let c := constructor (demo_config "http://localhost:8081") in
  let rq := audit_post c [] in
  let init := Some {| i_method := Some (rq_method rq);
                      i_headers := Some (HRecord (rq_headers rq)); i_body := rq_body rq;
                      i_mode := None |} in
  exists o w',
    @run dead_host _ (@native_fetch demo_web (InString (rq_url rq)) init) start_world = (o, w') /\
    @run dead_host _ (@batAuditFetch demo_web c "http://localhost:8081" (@native_fetch demo_web) anonymous
      (InString (rq_url rq)) init) start_world = (Ok (o, []), w').
Proof.
  apply (@audit_posts_not_intercepted dead_host demo_web
    (constructor (demo_config "http://localhost:8081")) "http://localhost:8081"); reflexivity.
Defined.

Definition accept_html : option request_init :=
  Some {| i_method := Some "put"; i_headers := Some (HRecord [("Accept", " text/html "); ("X-BatAudit-Skip", "1")]);
          i_body := None; i_mode := None |}.

(** A request with the header X-BatAudit-Skip, on a network that is down, and one with a
    header that is refused. *)
Lemma fetch_interceptor_transparent_witness :
  let c := constructor (demo_config "http://localhost:8081") in
  let bad := Some {| i_method := None; i_headers := Some (HPairs [("two words", "v")]); i_body := None;
                     i_mode := None |} in
  let call := fun init => @run dead_host _ (@batAuditFetch demo_web c "http://localhost:8081"
     (@native_fetch demo_web) anonymous (InString "/api") init) start_world in
  (exists event, (call accept_html).1 = Ok (Err network_error, [event]) /\
     obj_get "status_code" event = JUndef /\ obj_get "error_message" event = JUndef) /\
  (call bad).1 = Ok (Err headers_error, []).
Proof.
  cbn zeta. split.
  - destruct (@fetch_interceptor_transparent dead_host demo_web (constructor (demo_config "http://localhost:8081"))
      "http://localhost:8081" (@native_fetch demo_web) anonymous (InString "/api") accept_html start_world I eq_refl)
      as (_ & _ & H).
    destruct (H eq_refl _ eq_refl) as (h & _ & _ & event & Hrun & _ & _ & _ & Hs & Hm & _).
    exists event. rewrite Hrun. split; [reflexivity |]. split; [exact Hs | exact Hm].
  - destruct (@fetch_interceptor_transparent dead_host demo_web (constructor (demo_config "http://localhost:8081"))
      "http://localhost:8081" (@native_fetch demo_web) anonymous (InString "/api")
      (Some {| i_method := None; i_headers := Some (HPairs [("two words", "v")]); i_body := None; i_mode := None |})
      start_world I eq_refl) as (_ & H & _).
    destruct (H eq_refl eq_refl) as (Hrun & _). rewrite Hrun. reflexivity.
Defined.

Lemma fetch_interceptor_keeps_request_witness :
  let c := constructor (demo_config "http://localhost:8081") in
  exists rq,
    trace (@run dead_host _ (@batAuditFetch demo_web c "http://localhost:8081" (@native_fetch demo_web)
      anonymous (InString "/api") accept_html) start_world).2 = [EvFetch rq] /\
    rq_method rq = "PUT" /\ headers_get "Accept" (rq_headers rq) = Some "text/html" /\
    headers_get "X-Request-ID" (rq_headers rq) = Some "bat-u".
Proof.
  cbn zeta.
  destruct (@fetch_interceptor_keeps_request dead_host demo_web (constructor (demo_config "http://localhost:8081"))
    "http://localhost:8081" anonymous (InString "/api") accept_html start_world I eq_refl eq_refl eq_refl)
    as [[H _] | (rq & rq' & H1 & H2 & _ & Hm & _ & Hh & Hx)]; [discriminate H |].
  exists rq'. split; [exact H2 |]. injection H1 as <-. rewrite Hm, (Hh "Accept" ltac:(discriminate)).
  split_and!; [reflexivity | reflexivity | exact Hx].
Defined.

Lemma fetch_interceptor_drops_request_headers_witness :
  exists rq rq',
    @native_request demo_web (InRequest "/api" "GET" [("authorization", "Bearer t")] None "cors") None = Some rq /\
    @native_request demo_web (InRequest "/api" "GET" [("authorization", "Bearer t")] None "cors")
      (with_headers None [("x-request-id", "bat-1")]) = Some rq' /\
    headers_get "Authorization" (rq_headers rq') = None.
Proof.
  destruct (@fetch_interceptor_drops_request_headers demo_web "/api" "GET" [("authorization", "Bearer t")] None
    "cors" "bat-1" [("x-request-id", "bat-1")] "Authorization" eq_refl eq_refl ltac:(discriminate))
    as (rq & rq' & H1 & H2 & _ & H3).
  exists rq, rq'. split_and!; [exact H1 | exact H2 | exact H3].
Defined.

(** Without that, the posts feed on themselves: when [writerUrl] is not
    written the way the parser prints it (a scheme or a host in upper case, for
    one), the post of every event is intercepted and sends one more event. *)
Theorem audit_posts_intercepted `{Host} `{WebPlatform} c origin original user_then event w :
  starts_with (c_writerUrl c +:+ "/v1/audit") origin = false ->
  value_ok (c_apiKey c) = true -> value_ok ("bat-" +:+ uuid_at (drawn w)) = true ->
  let rq := audit_post c event in
  let init := Some {| i_method := Some (rq_method rq);
                      i_headers := Some (HRecord (rq_headers rq)); i_body := rq_body rq;
                      i_mode := None |} in
  exists o ev w',
    run (batAuditFetch c origin original user_then (InString (rq_url rq)) init) w
      = (Ok (o, [ev]), w') /\
    obj_get "method" ev = JStr "POST".
Proof.
  intros Hpre Hk Hu. cbn zeta. rewrite batAuditFetch_run. cbn [input_url rq_url audit_post]. rewrite Hpre.
  assert (exists h, new_Headers (Some (HRecord (rq_headers (audit_post c event)))) = Some h) as [h0 Hh].
  { cbn -[token_ok value_ok headers_put to_lower]. unfold headers_append.
    cbn -[token_ok value_ok headers_put headers_get to_lower]. rewrite Hk. eexists. reflexivity. }
  set (init := Some _). pose proof (intercepted_headers_some init w h0 I Hu Hh) as Hi.
  destruct (fetch_id init w) as [id w1]. cbn [fst] in Hi. rewrite Hi.
  destruct (run (original _ _) w1) as [o w2]. eexists _, _, _. split; reflexivity.
Qed.

Lemma audit_posts_intercepted_witness :
  let c := constructor (demo_config "HTTP://localhost:8081") in
  let rq := audit_post c [] in
  let init := Some {| i_method := Some (rq_method rq);
                      i_headers := Some (HRecord (rq_headers rq)); i_body := rq_body rq;
                      i_mode := None |} in
  @writer_origin demo_web c = Some "http://localhost:8081" /\
  exists o ev w',
    @run dead_host _ (@batAuditFetch demo_web c "http://localhost:8081" (@native_fetch demo_web) anonymous
      (InString (rq_url rq)) init) start_world = (Ok (o, [ev]), w') /\
    obj_get "method" ev = JStr "POST".
Proof.
  split; [reflexivity |].
  apply (@audit_posts_intercepted dead_host demo_web
    (constructor (demo_config "HTTP://localhost:8081")) "http://localhost:8081"); reflexivity.
Defined.

(** ** Properties of the [XMLHttpRequest] interceptor *)

(** The event of a listener. *)
Definition xhr_event `{WebPlatform} c (status : Z) (x : InstrumentedXHR) (t : Z) : obj :=
  buildEvent c (partial_event (default "GET" (_bat_method x)) (extractPath (default "" (_bat_url x)))
    status (t - default t (_bat_start_time x)) (jopt JStr (_bat_request_id x)) t).

Lemma loadend_listener_run `{Host} `{WebPlatform} c status x w :
  run (loadend_listener c status x) w = (Ok (xhr_event c status x (clock w)), w).
Proof. unfold loadend_listener, xhr_event. by destruct (_bat_start_time x). Qed.

Lemma xhr_loadend_run `{Host} `{WebPlatform} c status x w :
  run (xhr_loadend c status x) w =
  (Ok (repeat (xhr_event c status x (clock w)) (x_listeners x)), w).
Proof.
  unfold xhr_loadend. induction (x_listeners x) as [|n IH]; [done |].
  cbn [run_listeners repeat]. by rewrite run_bind, loadend_listener_run, run_bind, IH.
Qed.

(** What one use of an [XMLHttpRequest] sends: a request to the writer adds no
    listener and no header; any other adds one listener, and the X-Request-ID
    header carries the identifier of its event.  When the request is over the
    events sent are those of all the listeners added so far: one for a fresh
    object, and for an object used before one more for every earlier
    intercepted use, all describing the last request. *)
Theorem xhr_events_per_request `{Host} `{WebPlatform} c wo method url x status w w2 x' w1 :
  run (xhr_send (xhr_open wo method url x)) w = (Ok x', w1) ->
  exists events,
    run (xhr_loadend c status x') w2 = (Ok events, w2) /\
    length events = (x_listeners x + if starts_with url wo then 0 else 1)%nat /\
    (starts_with url wo = true -> x_headers x' = []) /\
    (starts_with url wo = false ->
       exists id, x_headers x' = [("X-Request-ID", id)] /\
         Forall (fun ev =>
           obj_get "method" ev = JStr (to_upper method) /\
           obj_get "path" ev = JStr (extractPath url) /\
           obj_get "request_id" ev = JStr id /\
           obj_get "status_code" ev = nonzero status /\
           obj_get "response_time" ev = JInt (clock w2 - clock w)) events).
Proof.
  intros Hs. rewrite xhr_loadend_run. eexists. split; [done |]. rewrite repeat_length.
  unfold xhr_send in Hs. cbn [_bat_skip xhr_open] in Hs.
  destruct (starts_with url wo).
  - injection Hs as <- <-. cbn [x_listeners xhr_open x_headers]. by rewrite Nat.add_0_r.
  - cbn in Hs.
    injection Hs as <- <-. cbn [x_listeners xhr_open x_headers]. split; [lia |]. split; [done |].
    intros _. eexists. split; [reflexivity |].
    apply List.Forall_forall. intros ev Hev. apply repeat_spec in Hev as ->.
    by split_and!.
Qed.

Definition demo_xhr : InstrumentedXHR :=
  {| _bat_method := Some "GET"; _bat_url := Some "/a"; _bat_skip := false;
     _bat_request_id := Some "bat-u"; _bat_start_time := Some 1000;
     x_headers := [("X-Request-ID", "bat-u")]; x_listeners := 2 |}.

(** The second use of an object sends two events. *)
Lemma xhr_events_per_request_witness :
  exists events,
    @run dead_host _ (@xhr_loadend demo_web (constructor (demo_config "u")) 200 demo_xhr) start_world
      = (Ok events, start_world) /\
    length events = 2%nat.
Proof.
  destruct (@xhr_events_per_request dead_host demo_web (constructor (demo_config "u")) "http://w"
    "get" "/a" {| _bat_method := None; _bat_url := None; _bat_skip := false;
       _bat_request_id := None; _bat_start_time := None; x_headers := []; x_listeners := 1 |}
    200 start_world start_world demo_xhr (draw start_world) eq_refl)
    as (events & Hrun & Hlen & _).
  exists events. split; [exact Hrun | exact Hlen].
Defined.

(** ** Properties of the installation *)

(** [unpatch] restores the functions [init] found, and instances removed in
    the reverse order of their installation leave nothing behind; removed in the
    order of their installation, they leave the first one intercepting. *)
Theorem unpatch_order `{WebPlatform} config1 config2 n1 n2 g c1 i1 g1 c2 i2 g2 :
  init config1 n1 g = Some (c1, i1, g1) -> init config2 n2 g1 = Some (c2, i2, g2) ->
  unpatch i1 g1 = g /\
  unpatch i1 (unpatch i2 g2) = g /\
  unpatch i2 (unpatch i1 g2) = g1 /\ g1 <> g.
Proof.
  unfold init, patchFetch, patchXHR. intros H1 H2.
  destruct (writer_origin (constructor config1)), (writer_origin (constructor config2)); try done.
  cbn in *. simplify_eq. destruct g as [gf go gs]. cbn. split_and!; try done.
  intros [= Hf _ _]. apply (f_equal (fix depth g := match g with
    | Native => O | Wrapper _ g' => S (depth g') end)) in Hf. cbn in Hf. lia.
Qed.

Definition native_globals : globals := {| g_fetch := Native; g_open := Native; g_send := Native |}.

Definition demo_globals : globals :=
  {| g_fetch := Wrapper 1 Native; g_open := Wrapper 1 Native; g_send := Wrapper 1 Native |}.

Lemma unpatch_order_witness :
  exists i1 i2 g2, unpatch i2 (unpatch i1 g2) = demo_globals /\
    unpatch i1 (unpatch i2 g2) = native_globals.
Proof.
  destruct (@unpatch_order demo_web (demo_config "http://localhost:8081")
    (demo_config "http://localhost:8081") 1 2 native_globals _ _ demo_globals _ _ _ eq_refl eq_refl)
    as (_ & H1 & H2 & _).
  eexists _, _, _. split; [exact H2 | exact H1].
Defined.

(** ** Properties of the client *)

(** Every event the browser client builds is attributed to its current user:
    the caller's members cannot replace the identity, the service or the source;
    after [clearUser] the identity is anonymous with every other member absent;
    and the environment is the configured one, [prod] when it is left out.  A
    configuration that gives [environment] as [undefined] sends none. *)
Theorem buildEvent_identity config data partial :
  let c := setUser data (constructor config) in
  let event := buildEvent c partial in
  let cleared := buildEvent (clearUser c) partial in
  obj_get "identifier" event = JStr (identifier data) /\
  obj_get "user_email" event = jopt JStr (userEmail data) /\
  obj_get "tenant_id" event = jopt JStr (tenantId data) /\
  obj_get "service_name" event = JStr (serviceName config) /\
  obj_get "source" event = JStr "browser" /\
  obj_get "environment" event =
    match environment config with
    | EnvAbsent => JStr "prod" | EnvGiven (Some e) => JStr e | EnvGiven None => JUndef
    end /\
  obj_get "identifier" cleared = JStr "anonymous" /\
  Forall (fun k => obj_get k cleared = JUndef)
    ["user_email"; "user_name"; "user_roles"; "user_type"; "tenant_id"].
Proof.
  cbn zeta. unfold buildEvent. generalize (spread [] partial). intros p.
  unfold spread. cbn [fold_left fst snd].
  split_and!; repeat (apply List.Forall_cons || apply List.Forall_nil);
    rewrite ?obj_get_set_ne by done; rewrite obj_get_set; try done.
  cbn. by destruct (environment config) as [|[]].
Qed.

(** The browser client delivers like the Node client: each event is posted one
    to four times, always as the same request, and nothing follows an answer
    with which the writer took it; its [flush] ends. *)
Theorem browser_delivery config s i n s' :
  reachable (constructor config) s -> (i < next_id s)%nat -> nsteps pool_step n s s' ->
  (exists event,
     (1 <= length (List.filter is_post (log_of i s)) <= 4)%nat /\
     (forall rq, In (PFetch rq) (log_of i s) -> rq = audit_post (constructor config) event) /\
     omap sleep_of (log_of i s) `prefix_of` RETRY_DELAYS_MS /\
     (forall l1 r l2, log_of i s = (l1 ++ PReply r :: l2)%list -> delivered r = true -> l2 = [])) /\
  (n <= 8 * size (pending s))%nat /\
  ((forall s'', ~ pool_step s' s'') -> flush_done (flush s) s').
Proof.
  intros Hs Hi Hn. split; [exact (delivery_history (constructor config) s i Hs Hi) |].
  exact (flush_ends (constructor config) n s s' Hs Hn).
Qed.

Lemma browser_delivery_witness :
  let s := send (constructor (demo_config "http://localhost:8081")) [] empty_pool in
  (1 <= length (List.filter is_post (log_of 0 s)) <= 4)%nat /\ (0 <= 8 * size (pending s))%nat.
Proof.
  cbn zeta.
  destruct (browser_delivery (demo_config "http://localhost:8081")
    (send (constructor (demo_config "http://localhost:8081")) [] empty_pool) 0 0
    (send (constructor (demo_config "http://localhost:8081")) [] empty_pool))
    as [(ev & Hp & _) [Hn _]].
  - apply rtc_once.
    exact (sys_send (constructor (demo_config "http://localhost:8081")) empty_pool []).
  - cbn. lia.
  - constructor.
  - split; [exact Hp | exact Hn].
Defined.
