(* ===== verification/EventTypes.v ===== *)
(** * The type of audit events (sdks/node/src/types.ts, sdks/browser/src/types.ts)

    The two [AuditEvent] interfaces as data, a checker of a JavaScript object
    against an interface, and the theorems that the events the integrations
    send are of their declared type, in memory and after JSON. *)

From S2P Require Import Prelude JsString JsValue JsonParse Dates Numbers Host.
From S2P Require NodeSdk BrowserSdk.

Local Open Scope string_scope.
Local Open Scope Z_scope.

(** ** Types of members *)

Inductive ts_type : Type :=
| TString
| TNumber
| TUnknown
| TRecord            (** [Record<string, unknown>] *)
| TLit (s : string). (** the literal type of one string *)

Record member := { m_key : string; m_optional : bool; m_type : ts_type }.

Definition required (k : string) (t : ts_type) : member :=
  {| m_key := k; m_optional := false; m_type := t |}.
Definition optional (k : string) (t : ts_type) : member :=
  {| m_key := k; m_optional := true; m_type := t |}.

Definition interface : Type := list member.

Definition has_type (t : ts_type) (v : jsval) : bool :=
  match t, v with
  | TString, JStr _ => true
  | TNumber, JNum _ => true
  | TUnknown, _ => true
  | TRecord, JObj _ => true
  | TLit s, JStr s' => String.eqb s s'
  | _, _ => false
  end.

Definition undefined (v : jsval) : bool := match v with JUndef => true | _ => false end.

(** ** The interfaces *)

(** [AuditEvent] of the Node SDK. *)
Definition NodeAuditEvent : interface :=
  [optional "id" TString;
   required "method" TString;
   required "path" TString;
   optional "status_code" TNumber;
   optional "response_time" TNumber;
   required "identifier" TString;
   optional "user_email" TString;
   optional "user_name" TString;
   optional "user_roles" TUnknown;
   optional "user_type" TString;
   optional "tenant_id" TString;
   optional "ip" TString;
   optional "user_agent" TString;
   optional "request_id" TString;
   optional "query_params" TRecord;
   optional "path_params" TRecord;
   optional "request_body" TUnknown;
   optional "response_body" TUnknown;
   optional "error_message" TString;
   required "service_name" TString;
   required "environment" TString;
   required "timestamp" TString].

(** [AuditEvent] of the browser SDK. *)
Definition BrowserAuditEvent : interface :=
  [required "method" TString;
   required "path" TString;
   optional "status_code" TNumber;
   optional "response_time" TNumber;
   required "identifier" TString;
   optional "user_email" TString;
   optional "user_name" TString;
   optional "user_roles" TUnknown;
   optional "user_type" TString;
   optional "tenant_id" TString;
   optional "user_agent" TString;
   optional "request_id" TString;
   required "service_name" TString;
   required "environment" TString;
   required "source" (TLit "browser");
   required "timestamp" TString].

(** ** Checking an object *)

Fixpoint member_of (k : string) (I : interface) : option member :=
  match I with
  | [] => None
  | m :: I' => if String.eqb (m_key m) k then Some m else member_of k I'
  end.

(** One member of the object: declared, and [undefined] only where
    [may_miss] allows it. *)
Definition well_typed (I : interface) (may_miss : member -> bool) (kv : string * jsval) : bool :=
  match member_of kv.1 I with
  | Some m => (may_miss m && undefined kv.2) || has_type (m_type m) kv.2
  | None => false
  end.

(** The object is an [I]: only declared members, of their types, and the
    required ones are there. *)
Definition conforms (I : interface) (o : obj) : bool :=
  forallb (well_typed I m_optional) o &&
  forallb (fun m => m_optional m || negb (undefined (obj_get (m_key m) o))) I.

(** The object is a [Partial<I>]: every member may be [undefined]. *)
Definition partial (I : interface) (o : obj) : bool := forallb (well_typed I (fun _ => true)) o.

(** Every member is declared and of its type, and no required one is given as
    [undefined]. *)
Definition erases_none (I : interface) (o : obj) : bool := forallb (well_typed I m_optional) o.

(** ** Spreading and JSON *)

Section checker.
Context (I : interface).

Lemma forallb_obj_set (f : string * jsval -> bool) k v o :
  f (k, v) = true -> forallb f o = true -> forallb f (obj_set k v o) = true.
Proof.
  intros Hf. induction o as [|[k' v'] o IH]; intros Ho; cbn in *; [by rewrite Hf |].
  apply andb_true_iff in Ho as [H1 H2].
  destruct (String.eqb k' k); cbn; rewrite ?Hf, ?H1; auto.
Qed.

(** A member that is well typed and not optional is not [undefined], unless
    its type is [unknown]. *)
Definition strict : bool :=
  forallb (fun m => m_optional m || match m_type m with TUnknown => false | _ => true end) I.

Lemma member_of_in k m : member_of k I = Some m -> m_key m = k /\ In m I.
Proof.
  induction I as [|m' J IH]; cbn; [done |].
  destruct (String.eqb_spec (m_key m') k) as [E|]; [intros [= ->]; by auto |].
  intros H. destruct (IH H). auto.
Qed.

Lemma well_typed_defined kv m :
  strict = true -> member_of kv.1 I = Some m -> m_optional m = false ->
  well_typed I m_optional kv = true -> undefined kv.2 = false.
Proof.
  unfold well_typed, strict. intros Hs Hm Ho. rewrite Hm, Ho. cbn.
  rewrite forallb_forall in Hs. destruct (member_of_in _ _ Hm) as [_ Hin].
  specialize (Hs m Hin). rewrite Ho in Hs. cbn in Hs.
  by destruct (m_type m), (kv.2).
Qed.

Lemma conforms_set k v o :
  strict = true -> well_typed I m_optional (k, v) = true ->
  (forall m m', In m I -> member_of k I = Some m' -> m_key m = k -> m = m') ->
  conforms I o = true -> conforms I (obj_set k v o) = true.
Proof.
  intros Hs Hk Hu Ho. unfold conforms in *. apply andb_true_iff in Ho as [H1 H2].
  apply andb_true_iff. split; [by apply forallb_obj_set |].
  rewrite forallb_forall in H2 |- *. intros m Hm. specialize (H2 m Hm).
  destruct (m_optional m) eqn:E; [done |]. cbn in *.
  destruct (String.eqb_spec (m_key m) k) as [Ek|Hne].
  - rewrite Ek, obj_get_set.
    destruct (member_of k I) as [m'|] eqn:Em; [| by unfold well_typed in Hk; cbn in Hk; rewrite Em in Hk].
    rewrite (Hu m m' Hm eq_refl Ek) in E.
    apply negb_true_iff. exact (well_typed_defined (k, v) m' Hs Em E Hk).
  - by rewrite obj_get_set_ne.
Qed.
End checker.

Lemma keys_nodup_set k v o : keys_nodup o = true -> keys_nodup (obj_set k v o) = true.
Proof.
  induction o as [|[k' v'] o IH]; cbn; intros Hn; [done |].
  apply andb_true_iff in Hn as [H1 H2].
  destruct (String.eqb_spec k' k) as [->|Hne]; cbn; [by rewrite H1 |].
  apply andb_true_iff. split; [| by apply IH].
  rewrite negb_true_iff in H1 |- *. apply not_true_iff_false. intros Hx.
  apply existsb_exists in Hx as ([k2 v2] & Hin & E). cbn in E. apply String.eqb_eq in E. subst k2.
  assert (Hin' : In (k', v2) o).
  { clear -Hin Hne. induction o as [|[k1 v1] o IH]; cbn in *; [destruct Hin as [[= <- _]|[]]; congruence |].
    destruct (String.eqb_spec k1 k) as [->|]; cbn in *; destruct Hin as [[= <- <-]|]; auto; congruence. }
  apply not_true_iff_false in H1. apply H1, existsb_exists. exists (k', v2). cbn.
  by rewrite String.eqb_refl.
Qed.

Lemma keys_nodup_spread a b : keys_nodup a = true -> keys_nodup (spread a b) = true.
Proof.
  unfold spread. revert a. induction b as [|[k v] b IH]; intros a Ha; [done |].
  by apply IH, keys_nodup_set.
Qed.

(** Both interfaces are strict and declare each key once. *)
Definition keys_once (I : interface) : bool :=
  keys_nodup (List.map (fun m => (m_key m, JNull)) I).

Lemma keys_once_unique I k m m' :
  keys_once I = true -> In m I -> member_of k I = Some m' -> m_key m = k -> m = m'.
Proof.
  induction I as [|m0 J IH]; intros Hn Hin Hm Hk; [done |]. cbn in *.
  apply andb_true_iff in Hn as [Hn1 Hn2]. apply negb_true_iff in Hn1.
  destruct Hin as [->|Hin].
  - rewrite Hk, String.eqb_refl in Hm. by injection Hm.
  - destruct (String.eqb_spec (m_key m0) k) as [E|Hne]; [| by apply IH].
    exfalso. rewrite <- not_true_iff_false in Hn1. apply Hn1. apply existsb_exists.
    exists (m_key m, JNull). split; [by apply (List.in_map (fun m => (m_key m, JNull))) |].
    cbn. rewrite Hk, E. apply String.eqb_refl.
Qed.

(** [{ ...base, ...p }] of an [I] and of a [Partial<I>] that erases nothing is
    an [I]. *)
Lemma conforms_spread I base p :
  strict I = true -> keys_once I = true ->
  conforms I base = true -> erases_none I p = true -> conforms I (spread base p) = true.
Proof.
  intros Hs Hn Hb Hp. unfold spread. revert base Hb. unfold erases_none in Hp.
  induction p as [|[k v] p IH]; intros base Hb; [done |]. cbn in Hp |- *.
  apply andb_true_iff in Hp as [Hkv Hp]. apply IH; [done |].
  apply conforms_set; try done. intros m m' Hi Hm. by apply (keys_once_unique I k).
Qed.

(** No member is [NaN], which JSON turns into [null]. *)
Definition no_nan (o : obj) : bool :=
  forallb (fun kv => match kv.2 with JNum NaN => false | _ => true end) o.

Definition wire_members (o : obj) : obj :=
  flat_map (fun kv => match kv with
    | (k, x) => match wire x with JUndef => [] | y => [(k, y)] end
    end) o.

Lemma wire_obj o : wire (JObj o) = JObj (wire_members o).
Proof. done. Qed.

Lemma has_type_wire t v :
  (match v with JNum NaN => false | _ => true end) = true ->
  has_type t v = true -> has_type t (wire v) = true.
Proof. by destruct t, v as [| | |[]| | |]. Qed.

(** A member read from the wire form, when the keys are distinct. *)
Lemma obj_get_wire k o :
  keys_nodup o = true -> obj_get k (wire_members o) = wire (obj_get k o).
Proof.
  induction o as [|[k' v] o IH]; intros Hn; [done |]. cbn in Hn. bat_simpl.
  change (wire_members ((k', v) :: o))
    with ((match wire v with JUndef => [] | y => [(k', y)] end ++ wire_members o)%list).
  cbn [obj_get]. destruct (String.eqb_spec k' k) as [->|Hne].
  - assert (Ho : obj_get k o = JUndef).
    { clear -H. induction o as [|[k1 v1] o IH]; [done |]. cbn in *.
      apply orb_false_iff in H as [H1 H2]. rewrite H1. auto. }
    destruct (wire v) eqn:Ev; cbn; rewrite ?String.eqb_refl; try done.
    by rewrite IH, Ho.
  - apply String.eqb_neq in Hne. destruct (wire v); cbn; rewrite ?Hne; auto.
Qed.

Lemma conforms_wire I o :
  keys_nodup o = true -> no_nan o = true ->
  conforms I o = true -> conforms I (wire_members o) = true.
Proof.
  intros Hk Hnan Hc. unfold conforms in *. apply andb_true_iff in Hc as [H1 H2].
  apply andb_true_iff. split.
  - rewrite forallb_forall in H1 |- *. intros [k v] Hin. unfold wire_members in Hin.
    apply in_flat_map in Hin as ([k' v'] & Hin & Hv).
    specialize (H1 _ Hin). unfold no_nan in Hnan. rewrite forallb_forall in Hnan.
    specialize (Hnan _ Hin). unfold well_typed in *. cbn [fst snd] in *.
    assert (E : k = k' /\ v = wire v')
      by (destruct (wire v'); [done |..]; destruct Hv as [[= <- <-]|[]]; done).
    destruct E as [-> ->]. destruct (member_of k' I) as [m|]; [| done].
    apply orb_true_iff in H1 as [Hu|Ht]; [| by rewrite (has_type_wire _ _ Hnan Ht), orb_true_r].
    apply andb_true_iff in Hu as [_ Hu]. by destruct v'.
  - rewrite forallb_forall in H2 |- *. intros m Hm. specialize (H2 m Hm).
    rewrite obj_get_wire by done. destruct (m_optional m); [done |]. cbn in *.
    by destruct (obj_get (m_key m) o) as [| | |[]| | |].
Qed.

(** ** The events of the Node SDK *)

(** What node:http documents of the header: one string, or nothing. *)
Definition user_agent_typed (headers : obj) : bool :=
  match obj_get "user-agent" headers with JStr _ | JUndef => true | _ => false end.

(** An event an integration hands to [client.send], with the members the caller of the
    Lambda wrapper has put over the wrapper's own: whatever [getAuditData] returned. *)
Inductive node_event `{Host} (config : NodeSdk.BatAuditConfig) : obj -> obj -> Prop :=
| express_sends cl req statusCode w event w' :
    user_agent_typed (NodeSdk.er_headers req) = true ->
    run (NodeSdk.express_finish config cl req statusCode) w = (Ok event, w') ->
    node_event config [] event
| fastify_sends req statusCode elapsed w event w' :
    user_agent_typed (NodeSdk.fr_headers req) = true ->
    run (NodeSdk.onResponse config req statusCode elapsed) w = (Ok event, w') ->
    node_event config [] event
| lambda_sends {TEvent TResult : Type} getAuditData (lambdaEvent : TEvent) startTime
    (o : outcome TResult) auditData w event w' :
    NodeSdk.audit_data getAuditData lambdaEvent o = Ok auditData ->
    keys_nodup (default [] auditData) = true ->
    run (NodeSdk.lambda_event config getAuditData lambdaEvent startTime o) w = (Ok event, w') ->
    node_event config (default [] auditData) event.

(** A literal is checked member by member, its keys apart from its values. *)
Lemma well_typed_at I f k v m :
  member_of k I = Some m -> (f m && undefined v) || has_type (m_type m) v = true ->
  well_typed I f (k, v) = true.
Proof. unfold well_typed. cbn. by intros ->. Qed.

Lemma obj_get_found k (o : obj) :
  existsb (String.eqb k) (o.*1) = true -> In (k, obj_get k o) o.
Proof.
  induction o as [|[k' v] o IH]; cbn; [done |]. rewrite String.eqb_sym.
  destruct (String.eqb_spec k' k) as [->|]; auto.
Qed.

Definition keys_present (I : interface) (ks : list string) : bool :=
  forallb (fun m => m_optional m || existsb (String.eqb (m_key m)) ks) I.

Lemma conforms_intro I o :
  strict I = true -> keys_once I = true -> keys_present I (o.*1) = true ->
  Forall (fun kv => well_typed I m_optional kv = true) o -> conforms I o = true.
Proof.
  intros Hs Hn Hp Ho. unfold conforms. apply andb_true_iff. split.
  - apply forallb_forall. rewrite Forall_forall in Ho. intros kv Hin. by apply Ho, list_elem_of_In.
  - unfold keys_present in Hp. rewrite forallb_forall in Hp |- *. intros m Hm.
    specialize (Hp m Hm). destruct (m_optional m) eqn:E; [done |]. cbn in *.
    apply obj_get_found in Hp. rewrite Forall_forall in Ho.
    specialize (Ho _ (proj2 (list_elem_of_In _ _) Hp)).
    destruct (member_of (m_key m) I) as [m'|] eqn:Em;
      [| by unfold well_typed in Ho; cbn in Ho; rewrite Em in Ho].
    rewrite (keys_once_unique I _ m m' Hn Hm Em eq_refl) in E.
    apply negb_true_iff. exact (well_typed_defined I (_, _) m' Hs Em E Ho).
Qed.

Ltac check_members :=
  apply conforms_intro; [reflexivity | reflexivity | vm_compute; reflexivity |];
  repeat constructor;
  (eapply well_typed_at; [vm_compute; reflexivity |]);
  cbn [m_type m_optional has_type required optional]; rewrite ?orb_true_r; try reflexivity;
  unfold NodeSdk.non_empty, jopt; repeat (bat_case; try reflexivity; try discriminate).

Lemma keys_set k k' v (o : obj) :
  existsb (String.eqb k) ((obj_set k' v o).*1) = String.eqb k k' || existsb (String.eqb k) (o.*1).
Proof.
  induction o as [|[k1 v1] o IH]; cbn; [by rewrite orb_false_r |].
  destruct (String.eqb_spec k1 k') as [->|]; cbn; [by destruct (String.eqb k k') |].
  rewrite IH. by destruct (String.eqb k k1), (String.eqb k k').
Qed.

Lemma keys_spread k p : forall a : obj,
  existsb (String.eqb k) ((spread a p).*1) = existsb (String.eqb k) (p.*1) || existsb (String.eqb k) (a.*1).
Proof.
  unfold spread. induction p as [|[k' v] p IH]; intros a; [done |]. cbn [fold_left]. rewrite IH. cbn.
  rewrite keys_set. by destruct (String.eqb k k'), (existsb _ (p.*1)).
Qed.

(** A member of what is spread last is a member of the result. *)
Lemma spread_in k v a p : keys_nodup p = true -> In (k, v) p -> In (k, v) (spread a p).
Proof.
  intros Hn Hin.
  assert (existsb (String.eqb k) ((spread a p).*1) = true) as Hk.
  { rewrite keys_spread. apply orb_true_iff. left. apply existsb_exists. exists k.
    split; [| apply String.eqb_refl]. by apply (in_map fst) in Hin. }
  apply obj_get_found in Hk. rewrite obj_get_spread in Hk by done.
  assert (existsb (fun kv => String.eqb kv.1 k) p = true) as E
    by (apply existsb_exists; exists (k, v); by rewrite String.eqb_refl).
  by rewrite E, (obj_get_in k v p Hn Hin) in Hk.
Qed.

(** [{ ...base, ...p }] is an [I] exactly when [p] erases nothing. *)
Lemma conforms_spread_iff I base p :
  strict I = true -> keys_once I = true -> conforms I base = true -> keys_nodup p = true ->
  conforms I (spread base p) = erases_none I p.
Proof.
  intros Hs Ho Hb Hn. destruct (erases_none I p) eqn:He; [by apply conforms_spread |].
  apply not_true_iff_false. intros Hc. apply not_true_iff_false in He. apply He.
  unfold erases_none, conforms in *. apply andb_true_iff in Hc as [Hc _].
  rewrite forallb_forall in Hc |- *. intros [k v] Hin. by apply Hc, spread_in.
Qed.

Lemma node_event_checked `{Host} config given event :
  node_event config given event ->
  conforms NodeAuditEvent event = erases_none NodeAuditEvent given /\ keys_nodup event = true.
Proof.
  intros [cl req statusCode w ev w' Hua Hrun | req statusCode elapsed w ev w' Hua Hrun
         | TEvent TResult getAuditData lambdaEvent startTime o auditData w ev w' Hd He Hrun].
  - unfold NodeSdk.express_finish in Hrun. cbn in Hrun. injection Hrun as <- <-.
    split; [| reflexivity]. unfold user_agent_typed in Hua.
    destruct (obj_get "user-agent" _); try done; check_members.
  - unfold NodeSdk.onResponse in Hrun. unfold user_agent_typed in Hua.
    destruct (NodeSdk.fr_batRequestId req); cbn in Hrun; injection Hrun as <- <-;
      (split; [| reflexivity]); destruct (obj_get "user-agent" _); try done; check_members.
  - unfold NodeSdk.lambda_event in Hrun. rewrite Hd in Hrun. cbn in Hrun.
    injection Hrun as <- <-. split; [| by apply keys_nodup_spread].
    apply conforms_spread_iff; [done | done | | done].
    destruct o as [r|[]]; check_members.
Qed.

(** The text of an event reads back as its members. *)
Lemma event_reads_back I event :
  keys_nodup event = true -> json_ok (wire (JObj event)) = true ->
  exists o, json_parse (json_text (JObj event)) = Some (JObj o) /\
    (forall k, obj_get k o = wire (obj_get k event)) /\
    (no_nan event = true -> conforms I event = true -> conforms I o = true).
Proof.
  intros Hk Hok. exists (wire_members event). rewrite json_parse_wire, wire_obj by done.
  split_and!; [done | intros k; by apply obj_get_wire | intros Hn Hc; by apply conforms_wire].
Qed.

(** C15 The events the Node integrations hand to the client, against the [AuditEvent] of
    types.ts (only declared members, each of its type, the required ones present).  An
    event of the Express middleware or of the Fastify hooks always is one; an event of the
    Lambda wrapper is one exactly when every member that [getAuditData] gave is declared
    and of its type, and no required one is given as [undefined], which would erase the
    wrapper's default.  When the values of an event survive JSON (no fraction, no two
    members under one key inside a value), the writer parses the body of the POST into the
    members that were sent, an [AuditEvent] again if the event is one and holds no [NaN]. *)
Theorem node_events_typed `{Host} config given event :
  node_event config given event ->
  conforms NodeAuditEvent event = erases_none NodeAuditEvent given /\
  forall c, json_ok (wire (JObj event)) = true ->
    exists text o, rq_body (NodeSdk.audit_post c event) = Some text /\
      json_parse text = Some (JObj o) /\
      (forall k, obj_get k o = wire (obj_get k event)) /\
      (no_nan event = true -> conforms NodeAuditEvent event = true -> conforms NodeAuditEvent o = true).
Proof.
  intros Hev. destruct (node_event_checked _ _ _ Hev) as [Hc Hk]. split; [done |].
  intros c Hok. destruct (event_reads_back NodeAuditEvent event Hk Hok) as (o & Ho).
  by exists (json_text (JObj event)), o.
Qed.

(** An Express event, and a Lambda event whose [getAuditData] has no path to give. *)
Lemma node_events_typed_witness :
  (exists event, @node_event NodeSdk.dead_host NodeSdk.demo_config [] event /\
    conforms NodeAuditEvent event = true /\
    exists text o, rq_body (NodeSdk.audit_post (NodeSdk.constructor NodeSdk.demo_config) event)
        = Some text /\
      json_parse text = Some (JObj o) /\ obj_get "path" o = JStr "/pay") /\
  exists event, @node_event NodeSdk.dead_host NodeSdk.demo_config [("path", JUndef)] event /\
    conforms NodeAuditEvent event = false.
Proof.
  split.
  - set (cl := {| NodeSdk.ec_startTime := 1000; NodeSdk.ec_requestId := "abc";
       NodeSdk.ec_responseBody := JUndef; NodeSdk.ec_json_patched := false |}).
    assert (Hev : exists ev, @node_event NodeSdk.dead_host NodeSdk.demo_config [] ev /\
        json_ok (wire (JObj ev)) = true /\ obj_get "path" ev = JStr "/pay").
    { eexists. split; [| split].
      - eapply (@express_sends NodeSdk.dead_host NodeSdk.demo_config cl
          (NodeSdk.demo_request JNull) 200 NodeSdk.start_world); reflexivity.
      - vm_compute. reflexivity.
      - reflexivity. }
    destruct Hev as (ev & Hev & Hok & Hp). exists ev. split; [exact Hev |].
    destruct (node_events_typed _ _ _ Hev) as [Hc Hw]. split; [exact Hc |].
    destruct (Hw (NodeSdk.constructor NodeSdk.demo_config) Hok) as (t & o & H1 & H2 & H3 & _).
    exists t, o. split; [exact H1 |]. split; [exact H2 |]. rewrite H3, Hp. reflexivity.
  - assert (Hev : exists ev, @node_event NodeSdk.dead_host NodeSdk.demo_config [("path", JUndef)] ev).
    { eexists. eapply (@lambda_sends NodeSdk.dead_host NodeSdk.demo_config unit unit
        (Some (fun _ _ _ => Ok (Some [("path", JUndef)]))) tt 1000 (Ok tt) (Some [("path", JUndef)])
        NodeSdk.start_world); reflexivity. }
    destruct Hev as [ev Hev]. exists ev. split; [exact Hev |].
    destruct (node_events_typed _ _ _ Hev) as [Hc _]. exact Hc.
Defined.

(** ** The events of the browser SDK *)

(** An event an interceptor of the client [c] hands to [client.send]. *)
Inductive browser_event `{Host} `{BrowserSdk.WebPlatform} (c : BrowserSdk.BatAuditBrowserClient)
    : obj -> Prop :=
| fetch_sends writerOrigin originalFetch user_then input init w o events w' event :
    run (BrowserSdk.batAuditFetch c writerOrigin originalFetch user_then input init) w
      = (Ok (o, events), w') ->
    In event events -> browser_event c event
| xhr_sends status x w events w' event :
    run (BrowserSdk.xhr_loadend c status x) w = (Ok events, w') ->
    In event events -> browser_event c event.

Lemma conforms_buildEvent `{BrowserSdk.WebPlatform} c method path status rt request_id stamp :
  conforms BrowserAuditEvent
    (BrowserSdk.buildEvent c (BrowserSdk.partial_event method path status rt
       (jopt JStr request_id) stamp)) =
  match BrowserSdk.c_environment c with Some _ => true | None => false end.
Proof.
  unfold BrowserSdk.buildEvent, BrowserSdk.partial_event, BrowserSdk.nonzero.
  generalize (to_iso_string stamp). intros ts.
  destruct (BrowserSdk.c_environment c) eqn:E.
  - cbn. check_members.
  - unfold conforms. apply andb_false_iff. right. apply not_true_iff_false.
    rewrite forallb_forall. intros Hc.
    assert (Hin : In (required "environment" TString) BrowserAuditEvent) by (cbn; auto 20).
    specialize (Hc _ Hin). discriminate Hc.
Qed.

(** A member whose value JSON keeps or leaves out. *)
Definition member_ok (kv : string * jsval) : bool :=
  match kv.2 with JNum NaN => false | _ => true end &&
  match wire kv.2 with JUndef => true | v => json_ok v end.

Lemma wire_json_ok o :
  keys_nodup o = true -> Forall (fun kv => member_ok kv = true) o ->
  no_nan o = true /\ json_ok (wire (JObj o)) = true.
Proof.
  assert (forall k l, existsb (fun kv => String.eqb kv.1 k) (wire_members l) = true ->
    existsb (fun kv => String.eqb kv.1 k) l = true) as Hin.
  { intros k l. induction l as [|[k' v] l IH]; [done |].
    change (wire_members ((k', v) :: l))
      with ((match wire v with JUndef => [] | y => [(k', y)] end ++ wire_members l)%list).
    rewrite existsb_app, orb_true_iff. cbn. rewrite orb_true_iff. intros [H | H]; [| auto].
    destruct (wire v); cbn in H; rewrite ?orb_false_r in H; by auto. }
  intros Hk Ho. rewrite wire_obj.
  assert (no_nan o = true /\ keys_nodup (wire_members o) = true /\
          forallb (fun kv => json_ok kv.2) (wire_members o) = true) as (? & H1 & H2).
  { induction Ho as [|[k v] o Hv Ho IH]; [done |]. cbn in Hk. apply andb_true_iff in Hk as [Hk Hk'].
    destruct (IH Hk') as (IHn & IH1 & IH2). apply andb_true_iff in Hv as [Hv1 Hv2]. cbn in Hv1, Hv2.
    change (wire_members ((k, v) :: o))
      with ((match wire v with JUndef => [] | y => [(k, y)] end ++ wire_members o)%list).
    split; [apply andb_true_iff; by split |].
    assert (existsb (fun kv => String.eqb kv.1 k) (wire_members o) = false) as Hno.
    { apply not_true_iff_false. intros Hx%Hin. rewrite Hx in Hk. done. }
    destruct (wire v); cbn in *; rewrite ?Hno, ?IH1, ?IH2, ?Hv2; by cbn. }
  cbn. by rewrite H1, H2.
Qed.

Lemma buildEvent_json `{BrowserSdk.WebPlatform} c method path status rt request_id stamp :
  let event := BrowserSdk.buildEvent c (BrowserSdk.partial_event method path status rt
       (jopt JStr request_id) stamp) in
  keys_nodup event = true /\ no_nan event = true /\ json_ok (wire (JObj event)) = true.
Proof.
  assert (forall l, forallb json_ok (List.map (fun v => match wire v with JUndef => JNull | y => y end)
    (List.map JStr l)) = true) as Hroles by (induction l; by cbn).
  unfold BrowserSdk.buildEvent, BrowserSdk.partial_event, BrowserSdk.nonzero.
  generalize (to_iso_string stamp). intros ts. cbn zeta. split; [reflexivity |].
  apply wire_json_ok; [reflexivity |]. cbn.
  repeat (apply List.Forall_cons || apply List.Forall_nil); unfold member_ok, jopt; cbn; try reflexivity;
    match goal with |- context [match ?x with _ => _ end] =>
      lazymatch x with context [match _ with _ => _ end] => fail | _ => destruct x end
    end; cbn; rewrite ?Hroles; reflexivity.
Qed.

(** An event of the browser SDK is the one [buildEvent] makes of an interceptor's literal. *)
Lemma browser_event_built `{Host} `{BrowserSdk.WebPlatform} c event :
  browser_event c event ->
  exists c' method path status rt request_id stamp,
    BrowserSdk.c_environment c' = BrowserSdk.c_environment c /\
    event = BrowserSdk.buildEvent c' (BrowserSdk.partial_event method path status rt
              (jopt JStr request_id) stamp).
Proof.
  intros [wo orig ut input ini w o evs w' ev Hrun Hin | st x w evs w' ev Hrun Hin].
  - rewrite BrowserSdk.batAuditFetch_run in Hrun.
    destruct (starts_with (BrowserSdk.input_url input) wo);
      [destruct (run _ w); simplify_eq; done |].
    destruct (BrowserSdk.fetch_id ini w) as [id w1].
    destruct (BrowserSdk.intercepted_headers ini id); [| by injection Hrun as _ <- _].
    destruct (run _ w1) as [o' w2]. simplify_eq. destruct Hin as [<-|[]].
    eexists (BrowserSdk.setUser ut c), _, _, _, _, (Some id), _. split; [reflexivity |].
    unfold BrowserSdk.intercepted_event. cbn [jopt]. reflexivity.
  - rewrite BrowserSdk.xhr_loadend_run in Hrun. simplify_eq. apply List.repeat_spec in Hin as ->.
    eexists c, _, _, _, _, _, _. split; [reflexivity |]. unfold BrowserSdk.xhr_event. reflexivity.
Qed.

(** C16 The event of every intercepted request, [fetch] or [XMLHttpRequest], is an
    [AuditEvent] of the browser SDK exactly when the configuration does not give the
    environment as [undefined] (left out, it has the default): such a configuration leaves
    every event without its required environment.  The same holds of what the writer
    parses from the body of the POST, whose members are the ones sent. *)
Theorem browser_events_typed `{Host} `{BrowserSdk.WebPlatform} config u event :
  browser_event (BrowserSdk.setUser u (BrowserSdk.constructor config)) event ->
  (conforms BrowserAuditEvent event = true <->
   BrowserSdk.environment config <> BrowserSdk.EnvGiven None) /\
  forall c, exists text o, rq_body (BrowserSdk.audit_post c event) = Some text /\
    json_parse text = Some (JObj o) /\
    (forall k, obj_get k o = wire (obj_get k event)) /\
    conforms BrowserAuditEvent o = conforms BrowserAuditEvent event.
Proof.
  intros (c' & m & p & st & rt & rid & stamp & Henv & ->)%browser_event_built.
  destruct (buildEvent_json c' m p st rt rid stamp) as (Hk & Hn & Hok).
  pose proof (conforms_buildEvent c' m p st rt rid stamp) as Hc. rewrite Henv in Hc.
  assert (obj_get "environment" (BrowserSdk.buildEvent c' (BrowserSdk.partial_event m p st rt
    (jopt JStr rid) stamp)) = jopt JStr (BrowserSdk.c_environment c')) as Eg by reflexivity.
  rewrite Henv in Eg. revert Hk Hn Hok Hc Eg. generalize (BrowserSdk.buildEvent c' (BrowserSdk.partial_event m p st rt
    (jopt JStr rid) stamp)). intros event Hk Hn Hok Hc Eg.
  split; [rewrite Hc; cbn; destruct (BrowserSdk.environment config) as [|[]]; intuition congruence |].
  intros c. destruct (event_reads_back BrowserAuditEvent _ Hk Hok) as (o & Ho & Hget & Hco).
  eexists _, o. split; [reflexivity |]. split; [exact Ho |]. split; [exact Hget |].
  destruct (conforms _ event) eqn:E; [by apply Hco |].
  apply not_true_iff_false. intros Hx. unfold conforms in Hx. apply andb_true_iff in Hx as [_ Hx].
  rewrite forallb_forall in Hx. specialize (Hx (required "environment" TString) ltac:(cbn; auto 20)).
  cbn [m_optional m_key required orb] in Hx. rewrite Hget, Eg in Hx. cbn in Hx, Hc.
  by destruct (BrowserSdk.environment config) as [|[]].
Qed.

(** One event with the default environment, and one whose configuration erases it. *)
Lemma browser_events_typed_witness :
  let config := fun e => {| BrowserSdk.apiKey := "k"; BrowserSdk.serviceName := "spa";
     BrowserSdk.writerUrl := "http://w"; BrowserSdk.environment := e |} in
  exists event event',
    conforms BrowserAuditEvent event = true /\ conforms BrowserAuditEvent event' = false /\
    (exists text o, rq_body (BrowserSdk.audit_post (BrowserSdk.constructor (config BrowserSdk.EnvAbsent)) event)
       = Some text /\ json_parse text = Some (JObj o) /\ conforms BrowserAuditEvent o = true).
Proof.
  intros config.
  assert (Hev : forall e, exists ev, @browser_event BrowserSdk.dead_host BrowserSdk.demo_web
    (BrowserSdk.setUser BrowserSdk.anonymous (BrowserSdk.constructor (config e))) ev).
  { intros e. eexists. eapply (@xhr_sends BrowserSdk.dead_host BrowserSdk.demo_web _ 200
      BrowserSdk.demo_xhr BrowserSdk.start_world); [reflexivity | left; reflexivity]. }
  destruct (Hev BrowserSdk.EnvAbsent) as [ev H1], (Hev (BrowserSdk.EnvGiven None)) as [ev' H2].
  destruct (@browser_events_typed BrowserSdk.dead_host BrowserSdk.demo_web _ _ ev H1) as [Hc Hj].
  destruct (@browser_events_typed BrowserSdk.dead_host BrowserSdk.demo_web _ _ ev' H2) as [Hc' _].
  assert (conforms BrowserAuditEvent ev = true) as E1 by (apply Hc; discriminate).
  assert (conforms BrowserAuditEvent ev' = false) as E2.
  { apply not_true_iff_false. intros E. apply Hc' in E. by apply E. }
  exists ev, ev'. split; [exact E1 |]. split; [exact E2 |].
  destruct (Hj (BrowserSdk.constructor (config BrowserSdk.EnvAbsent))) as (t & o & Ht & Ho & _ & E).
  exists t, o. split; [exact Ht |]. split; [exact Ho |]. by rewrite E.
Defined.
