(* ===== verification/Session.v ===== *)
(** * The session of the dashboard (frontend/src/lib, login, route guard)

    [auth.ts] keeps the token and the user in [localStorage]; [api.ts] is the
    [fetch] every call of the dashboard goes through; [theme.ts] keeps the
    theme; [login.tsx] and the guard of [app/_layout.tsx] use them. *)

From S2P Require Import Prelude JsString JsValue JsonParse Encoding Numbers Host Html.

Local Open Scope string_scope.
Local Open Scope Z_scope.

(** ** auth.ts *)

Definition TOKEN_KEY : string := "bataudit_token".
Definition USER_KEY : string := "bataudit_user".

Record StoredUser := { u_id : string; u_name : string; u_email : string; u_role : string }.

Definition user_json (u : StoredUser) : jsval :=
  JObj [("id", JStr (u_id u)); ("name", JStr (u_name u)); ("email", JStr (u_email u));
        ("role", JStr (u_role u))].

(** [!s] of a string or [null]. *)
Definition some_text (o : option string) : option string :=
  match o with Some s => if str_truthy s then Some s else None | None => None end.

Definition getToken : prog (option string) := get_item TOKEN_KEY.

(** The user comes from the response of the server, untyped. *)
Definition setAuth (token : string) (user : jsval) : prog unit :=
  set_item TOKEN_KEY token;; set_item USER_KEY (json_text user).

Definition clearAuth : prog unit :=
  remove_item TOKEN_KEY;; remove_item USER_KEY.

Definition getUser : prog jsval :=
  raw ← get_item USER_KEY;
  match some_text raw with
  | None => mret JNull
  | Some t => mret (default JNull (json_parse t))
  end.

(** [token.split('.')[1]], [undefined] as [atob] reads it. *)
Definition token_payload (token : string) : string :=
  nth 1 (split_on "." token) "undefined".

(** [JSON.parse(atob(...)).exp]; [None] is any of the exceptions. *)
Definition token_exp (token : string) : option jsval :=
  codes ← atob (token_payload token);
  payload ← json_parse (latin1 codes);
  get_prop payload "exp".

Definition isTokenExpired : prog bool :=
  token ← getToken;
  match some_text token with
  | None => mret true
  | Some t =>
      match token_exp t with
      | None => mret true
      | Some exp =>
          now ← date_now;
          mret (num_lt (num_mul (to_number exp) (Num 1000 0)) (Num now 0))
      end
  end.

Definition isAuthenticated : prog bool :=
  token ← getToken;
  match some_text token with
  | None => mret false
  | Some _ =>
      expired ← isTokenExpired;
      if (expired : bool) then clearAuth;; mret false else mret true
  end.

(** Header literals: a later member with the same name replaces an earlier one. *)
Definition header_list : Type := list (string * string).

Fixpoint header_set (k v : string) (h : header_list) : header_list :=
  match h with
  | [] => [(k, v)]
  | (k', v') :: h' => if String.eqb k' k then (k, v) :: h' else (k', v') :: header_set k v h'
  end.

Definition header_spread (a b : header_list) : header_list :=
  fold_left (fun acc kv => header_set kv.1 kv.2 acc) b a.

Fixpoint header_get (k : string) (h : header_list) : option string :=
  match h with
  | [] => None
  | (k', v) :: h' => if String.eqb k' k then Some v else header_get k h'
  end.

Definition bearer (token : option string) : header_list :=
  match some_text token with
  | Some t => [("Authorization", "Bearer " +:+ t)]
  | None => []
  end.

Definition authHeader : prog header_list := token ← getToken; mret (bearer token).

(** ** api.ts *)

(** The [RequestInit] the dashboard uses. *)
Record api_init := {
  ai_method : option string;
  ai_headers : header_list;
  ai_body : option string
}.

Definition no_init : api_init := {| ai_method := None; ai_headers := []; ai_body := None |}.

(** The request [fetchWithAuth] makes. *)
Definition auth_request (token : option string) (url : string) (init : api_init) : request :=
  {| rq_url := url;
     rq_method := default "GET" (ai_method init);
     rq_headers := header_spread (bearer token) (ai_headers init);
     rq_body := ai_body init |}.

Definition fetchWithAuth (url : string) (init : api_init) : prog response :=
  token ← getToken;
  res ← fetch (auth_request token url init);
  if rs_status res =? 401 then
    clearAuth;;
    navigate "/login";;
    Throw (new_error "Unauthorized")
  else mret res.

(** ** theme.ts *)

Definition STORAGE_KEY : string := "bataudit-theme".

Definition getStoredTheme : prog string :=
  t ← get_item STORAGE_KEY; mret (default "dark" t).

(** [classes] is the class list of the document element; [add] is a set
    operation. *)
Definition class_add (c : string) (classes : list string) : list string :=
  if existsb (String.eqb c) classes then classes else (classes ++ [c])%list.

Definition applyTheme (theme : string) (classes : list string) : prog (list string) :=
  let rest := List.filter (fun c => negb (String.eqb c "dark" || String.eqb c "light")) classes in
  set_item STORAGE_KEY theme;;
  mret (class_add theme rest).

Definition toggleTheme (classes : list string) : prog (string * list string) :=
  current ← getStoredTheme;
  let next := if String.eqb current "dark" then "light" else "dark" in
  classes' ← applyTheme next classes;
  mret (next, classes').

(** ** login.tsx *)

Section login.
Context (BASE : string).   (** [import.meta.env.VITE_API_URL ?? ''] *)

Definition json_headers : header_list := [("Content-Type", "application/json")].

(** [login] of http/auth/login.ts; the token and the user are read from the
    value the server sent. *)
Definition login (email password : string) : prog jsval :=
  res ← fetch {| rq_url := BASE +:+ "/v1/auth/login"; rq_method := "POST";
                 rq_headers := json_headers;
                 rq_body := Some (json_text (JObj [("email", JStr email);
                                                   ("password", JStr password)])) |};
  if negb (rs_ok res) then Throw (new_error "Invalid credentials")
  else res_json res.

(** The state of the page. *)
Record LoginState := {
  l_email : string;
  l_password : string;
  l_error : string;
  l_loading : bool
}.

Definition login_initial : LoginState :=
  {| l_email := ""; l_password := ""; l_error := ""; l_loading := false |}.

Definition with_email (v : string) (s : LoginState) : LoginState :=
  {| l_email := v; l_password := l_password s; l_error := l_error s; l_loading := l_loading s |}.
Definition with_password (v : string) (s : LoginState) : LoginState :=
  {| l_email := l_email s; l_password := v; l_error := l_error s; l_loading := l_loading s |}.
Definition with_error (v : string) (s : LoginState) : LoginState :=
  {| l_email := l_email s; l_password := l_password s; l_error := v; l_loading := l_loading s |}.
Definition with_loading (v : bool) (s : LoginState) : LoginState :=
  {| l_email := l_email s; l_password := l_password s; l_error := l_error s; l_loading := v |}.

(** The updates made before the first [await]. *)
Definition submit_start (s : LoginState) : LoginState := with_loading true (with_error "" s).

(** The rest of [handleSubmit], called in the state [s]: whether the page
    navigates to [/app], and the updates made to the state of that time. *)
Definition handleSubmit (s : LoginState) : prog (bool * (LoginState -> LoginState)) :=
  r ← try_catch
    (data ← login (l_email s) (l_password s);
     token ← js_prop data "token";
     user ← js_prop data "user";
     setAuth (js_string token) user;;
     mret (true, fun s' => s'))
    (fun _ => mret (false, with_error "Invalid email or password."));
  mret (r.1, fun s' => with_loading false (r.2 s')).
End login.

(** What the user can do on the page. *)
Inductive LoginMsg : Type :=
| EmailChanged (v : string)
| PasswordChanged (v : string)
| Submitted.

Definition login_view (s : LoginState) : html LoginMsg :=
  div [
    div [
      div [
        Elem "img" [Attr "src" "/app/bat-logo.png"; Attr "alt" "BatAudit"] [];
        Elem "h1" [] [Text "BatAudit"];
        Elem "p" [] [Text "Sign in to your account"]];
      Elem "Card" [] [
        Elem "form" [On "submit" Submitted] [
          div [
            Elem "label" [] [Text "Email"];
            Elem "Input" [Attr "type" "email"; Attr "placeholder" "admin@example.com";
                          Attr "value" (l_email s); OnText "change" EmailChanged;
                          Flag "required" true; Flag "autoFocus" true] []];
          div [
            Elem "label" [] [Text "Password"];
            Elem "Input" [Attr "type" "password"; Attr "placeholder" "••••••••";
                          Attr "value" (l_password s); OnText "change" PasswordChanged;
                          Flag "required" true] []];
          show (str_truthy (l_error s)) (Elem "p" [] [Text (l_error s)]);
          Elem "Button" [Attr "type" "submit"; Flag "disabled" (l_loading s)]
            [Text (if l_loading s then "Signing in..." else "Sign in")]]]]].

(** The handlers of the inputs and the synchronous part of the submission. *)
Definition login_update (m : LoginMsg) (s : LoginState) : LoginState :=
  match m with
  | EmailChanged v => with_email v s
  | PasswordChanged v => with_password v s
  | Submitted => submit_start s
  end.

(** ** app/_layout.tsx *)

(** [beforeLoad]: where the router goes instead, if anywhere. *)
Definition beforeLoad : prog (option string) :=
  ok ← isAuthenticated;
  mret (if (ok : bool) then None else Some "/login").

(** ** Lemmas *)

(** What the storage holds after [clearAuth]. *)
Definition cleared (w : world) : world :=
  with_storage (delete USER_KEY) (with_storage (delete TOKEN_KEY) w).

Lemma clearAuth_run `{Host} w : run clearAuth w = (Ok tt, cleared w).
Proof. done. Qed.

Lemma isTokenExpired_run `{Host} w :
  run isTokenExpired w =
  (Ok (match some_text (storage w !! TOKEN_KEY) with
       | None => true
       | Some t => match token_exp t with
                   | None => true
                   | Some exp => num_lt (num_mul (to_number exp) (Num 1000 0)) (Num (clock w) 0)
                   end
       end), w).
Proof.
  unfold isTokenExpired. rewrite run_bind. cbn [run getToken get_item].
  destruct (some_text _) as [t|]; [| done]. by destruct (token_exp t).
Qed.

(** The value of [isTokenExpired] in [w]. *)
Definition expired `{Host} (w : world) : bool :=
  match run isTokenExpired w with (Ok b, _) => b | _ => false end.

Lemma isAuthenticated_run `{Host} w :
  run isAuthenticated w =
  match some_text (storage w !! TOKEN_KEY) with
  | None => (Ok false, w)
  | Some _ => if expired w then (Ok false, cleared w) else (Ok true, w)
  end.
Proof.
  unfold isAuthenticated, expired. rewrite run_bind. cbn [run getToken get_item].
  destruct (some_text _); [| done]. rewrite run_bind, isTokenExpired_run. by case_match.
Qed.

Lemma fetchWithAuth_run `{Host} url init w :
  run (fetchWithAuth url init) w =
  let '(r, w1) := do_fetch (auth_request (storage w !! TOKEN_KEY) url init) w in
  match r with
  | None => (Err network_error, w1)
  | Some res =>
      if rs_status res =? 401 then
        (Err (new_error "Unauthorized"), log (EvNavigate "/login") (cleared w1))
      else (Ok res, w1)
  end.
Proof.
  unfold fetchWithAuth. rewrite run_bind. cbn [run getToken get_item]. rewrite run_bind.
  unfold do_fetch. cbn [run fetch do_fetch]. destruct (net _ _) as [res|]; [| done]. cbn [run].
  by destruct (rs_status res =? 401).
Qed.

#[export] Hint Rewrite @clearAuth_run @fetchWithAuth_run : run.

(** Only the two keys of the session change. *)
Definition other_keys (w w' : world) : Prop :=
  forall k, k <> TOKEN_KEY -> k <> USER_KEY -> storage w' !! k = storage w !! k.

Lemma cleared_lookup w :
  storage (cleared w) !! TOKEN_KEY = None /\ storage (cleared w) !! USER_KEY = None /\
  other_keys w (cleared w).
Proof.
  unfold cleared, other_keys. cbn [with_storage storage]. split_and!.
  - by rewrite lookup_delete_ne, lookup_delete_eq by done.
  - by rewrite lookup_delete_eq.
  - intros k H1 H2. by rewrite !lookup_delete_ne by done.
Qed.

(** ** Properties *)

(** A session survives a reload: what [setAuth] stores is what [getToken] and
    [getUser] read back, with every other key of the storage untouched; after
    [clearAuth] there is no token, no user and the user is not authenticated. *)
Theorem session_roundtrip `{Host} token user w :
  json_ok user = true ->
  exists w1,
    run (setAuth token user) w = (Ok tt, w1) /\
    run getToken w1 = (Ok (Some token), w1) /\
    run getUser w1 = (Ok user, w1) /\
    other_keys w w1 /\
    run clearAuth w1 = (Ok tt, cleared w1) /\
    run getToken (cleared w1) = (Ok None, cleared w1) /\
    run getUser (cleared w1) = (Ok JNull, cleared w1) /\
    run isAuthenticated (cleared w1) = (Ok false, cleared w1) /\
    other_keys w (cleared w1).
Proof.
  intros Hu. eexists. split; [reflexivity |].
  set (w1 := with_storage _ _).
  assert (Ht : storage w1 !! TOKEN_KEY = Some token).
  { cbn. by rewrite lookup_insert_ne, lookup_insert_eq by done. }
  assert (Hs : storage w1 !! USER_KEY = Some (json_text user)).
  { cbn. by rewrite lookup_insert_eq. }
  assert (Ho : other_keys w w1).
  { intros k H1 H2. cbn. by rewrite !lookup_insert_ne by done. }
  destruct (cleared_lookup w1) as (Hct & Hcu & Hco).
  assert (Htext : some_text (Some (json_text user)) = Some (json_text user)).
  { cbn. destruct (json_text user) eqn:E; [| done].
    pose proof (json_parse_stringify user Hu) as Hp. rewrite E in Hp. discriminate Hp. }
  split_and!; try done.
  - cbn [run getToken get_item]. by rewrite Ht.
  - unfold getUser. rewrite run_bind. cbn [run get_item]. rewrite Hs, Htext.
    cbn [run mret prog_ret]. by rewrite json_parse_stringify.
  - cbn [run getToken get_item]. by rewrite Hct.
  - unfold getUser. rewrite run_bind. cbn [run get_item]. by rewrite Hcu.
  - by rewrite isAuthenticated_run, Hct.
  - intros k H1 H2. rewrite Hco by done. by apply Ho.
Qed.

(** A host and a world to evaluate in. *)
Definition demo_host : Host :=
  {| net := fun _ _ => Some (Response 401 "{}"); uuid_at := fun _ => "u"; latency := fun _ => 1 |}.

Definition demo_user : jsval :=
  user_json {| u_id := "1"; u_name := "Ada"; u_email := "a@b.c"; u_role := "owner" |}.

Lemma session_roundtrip_witness :
  json_ok demo_user = true /\
  exists w1, @run demo_host _ (setAuth "tok" demo_user) (World ∅ 0 0 []) = (Ok tt, w1) /\
    @run demo_host _ getUser w1 = (Ok demo_user, w1).
Proof.
  split; [reflexivity |].
  destruct (@session_roundtrip demo_host "tok" demo_user (World ∅ 0 0 []) eq_refl)
    as (w1 & H1 & _ & H2 & _).
  exists w1. split; [exact H1 | exact H2].
Defined.

(** C13 When a stored token is expired.  If its payload is the base64 of an ASCII JSON
    object with a whole number as [exp], [isTokenExpired] is [exp * 1000 < now], so it is
    expired exactly from the second its claim names; such a payload without [exp] never
    expires.  A token whose payload [atob] refuses, whose text [JSON.parse] refuses, or
    whose value is [null], is expired at any time. *)
Theorem token_expiry `{Host} w token :
  storage w !! TOKEN_KEY = Some token ->
  (forall header sig o,
     token = header +:+ "." +:+ b64_encode false (codes (json_text (JObj o))) +:+ "." +:+ sig ->
     json_ok (JObj o) = true -> all_chars (ascii_in 0 127) (json_text (JObj o)) = true ->
     has_char "." header = false ->
     (forall e, obj_get "exp" o = JInt e -> run isTokenExpired w = (Ok (e * 1000 <? clock w), w)) /\
     (obj_get "exp" o = JUndef -> run isTokenExpired w = (Ok false, w))) /\
  (match atob (token_payload token) with
   | None => True
   | Some codes => match json_parse (latin1 codes) with Some JNull | None => True | Some _ => False end
   end -> run isTokenExpired w = (Ok true, w)).
Proof.
  intros Hst. rewrite isTokenExpired_run, Hst. split.
  - intros header sig o -> Hok Hascii Hh. set (b := b64_encode false _).
    assert (some_text (Some (header +:+ "." +:+ b +:+ "." +:+ sig)) =
            Some (header +:+ "." +:+ b +:+ "." +:+ sig)) as -> by by destruct header.
    assert (Hexp : token_exp (header +:+ "." +:+ b +:+ "." +:+ sig) = Some (obj_get "exp" o)).
    { unfold token_exp, token_payload. cbn [String.append].
      rewrite split_on_app, split_on_app by
        (done || by eapply (all_chars_no_char b64_clean), b64_encode_clean, codes_bytes).
      cbn [nth]. unfold b. rewrite atob_encode by apply codes_bytes. cbn [mbind option_bind].
      rewrite latin1_codes by done. by rewrite json_parse_stringify. }
    rewrite Hexp. split.
    + intros e ->. cbn [to_number]. by rewrite num_mul_int, num_lt_int.
    + by intros ->.
  - intros Hbad. destruct (some_text (Some token)) as [t|] eqn:E; [| done].
    assert (t = token) as -> by (unfold some_text in E; destruct (str_truthy token); congruence).
    unfold token_exp. destruct (atob (token_payload token)) as [cs|]; [| done]. cbn [mbind option_bind].
    destruct (json_parse (latin1 cs)) as [[]|]; done.
Qed.

Definition demo_claims : list (string * jsval) := [("sub", JStr "1"); ("exp", JInt 2)].

Definition demo_token : string :=
  "h." +:+ b64_encode false (codes (json_text (JObj demo_claims))) +:+ ".s".

(** A token with the claim 2, two seconds after the epoch; and one whose payload is no
    base64. *)
Lemma token_expiry_witness :
  @run demo_host _ isTokenExpired (World {[TOKEN_KEY := demo_token]} 2000 0 []) =
    (Ok (2 * 1000 <? 2000), World {[TOKEN_KEY := demo_token]} 2000 0 []) /\
  @run demo_host _ isTokenExpired (World {[TOKEN_KEY := "h.-.s"]} 2000 0 []) =
    (Ok true, World {[TOKEN_KEY := "h.-.s"]} 2000 0 []).
Proof.
  assert (forall t, storage (World {[TOKEN_KEY := t]} 2000 0 []) !! TOKEN_KEY = Some t) as Hst
    by (intros t; apply lookup_singleton_eq).
  split.
  - destruct (@token_expiry demo_host _ demo_token (Hst demo_token)) as [H _].
    refine (proj1 (H "h" "s" demo_claims _ _ _ _) 2 _); reflexivity.
  - destruct (@token_expiry demo_host _ "h.-.s" (Hst "h.-.s")) as [_ H].
    apply H. vm_compute. exact I.
Defined.

(** A token whose payload uses one of the two characters that the URL
    alphabet of base64 has for the others, as a JWT may, is taken as expired
    whatever it claims: the session is cleared and the guard sends the user to
    the login page. *)
Theorem url_alphabet_token_expired `{Host} w token :
  storage w !! TOKEN_KEY = Some token ->
  has_char "-" (token_payload token) || has_char "_" (token_payload token) = true ->
  run isTokenExpired w = (Ok true, w) /\
  run beforeLoad w = (Ok (Some "/login"), cleared w).
Proof.
  intros Hst Hc.
  assert (Hexp : token_exp token = None) by (unfold token_exp; by rewrite atob_url_char).
  assert (Hs : some_text (Some token) = Some token) by by destruct token.
  assert (He : run isTokenExpired w = (Ok true, w)).
  { by rewrite isTokenExpired_run, Hst, Hs, Hexp. }
  split; [done |]. unfold beforeLoad. rewrite run_bind, isAuthenticated_run, Hst, Hs.
  unfold expired. by rewrite He.
Qed.

(** An HS256 token as the server signs it, with a name outside ASCII. *)
Definition url_token : string := "eyJhbGciOiJIUzI1NiJ9.eyJuYW1lIjoiw7_Dvz8iLCJleHAiOjk5OTk5OTk5OTl9.s".

Lemma url_alphabet_token_expired_witness :
  @run demo_host _ isTokenExpired (World {[TOKEN_KEY := url_token]} 2000 0 []) =
    (Ok true, World {[TOKEN_KEY := url_token]} 2000 0 []).
Proof.
  apply (@url_alphabet_token_expired demo_host (World {[TOKEN_KEY := url_token]} 2000 0 [])
    url_token); reflexivity.
Defined.

(** The guard of the application lets a user in exactly when there is a token
    that has not expired, and otherwise leaves no token and no user behind; it
    never uses the network. *)
Theorem guard_spec `{Host} w :
  let ok := match some_text (storage w !! TOKEN_KEY) with
            | Some _ => negb (expired w)
            | None => false
            end in
  exists w', run beforeLoad w = (Ok (if ok then None else Some "/login"), w') /\
    trace w' = trace w /\ other_keys w w' /\
    (ok = true -> w' = w) /\
    (ok = false -> some_text (storage w' !! TOKEN_KEY) = None) /\
    (ok = false -> some_text (storage w !! TOKEN_KEY) <> None -> storage w' !! USER_KEY = None).
Proof.
  cbn zeta. unfold beforeLoad. rewrite run_bind, isAuthenticated_run.
  destruct (cleared_lookup w) as (Hct & Hcu & Hco).
  assert (Hid : other_keys w w) by by intros k.
  destruct (some_text (storage w !! TOKEN_KEY)) as [t|] eqn:Ht; [destruct (expired w) eqn:He |].
  - exists (cleared w). split_and!; try done. by rewrite Hct.
  - exists w. by split_and!.
  - exists w. by split_and!.
Qed.

Lemma header_get_set k v h : header_get k (header_set k v h) = Some v.
Proof.
  induction h as [|[k' v'] h IH]; cbn; [by rewrite String.eqb_refl |].
  destruct (String.eqb k' k) eqn:E; cbn; by rewrite ?String.eqb_refl, ?E.
Qed.

Lemma header_get_set_ne k k' v h : k <> k' -> header_get k (header_set k' v h) = header_get k h.
Proof.
  intros Hne. induction h as [|[k'' v'] h IH]; cbn.
  - by destruct (String.eqb_spec k' k); [congruence |].
  - destruct (String.eqb_spec k'' k') as [->|]; cbn.
    + by destruct (String.eqb_spec k' k); [congruence |].
    + by rewrite IH.
Qed.

(** In a spread the second literal wins. *)
Lemma header_get_spread k a b :
  NoDup (List.map fst b) ->
  header_get k (header_spread a b) =
  match header_get k b with Some v => Some v | None => header_get k a end.
Proof.
  unfold header_spread. revert a. induction b as [|[k' v] b IH]; intros a Hn; cbn; [done |].
  inversion Hn as [|? ? Hk Hn']; subst. rewrite IH by done.
  destruct (String.eqb_spec k' k) as [->|Hne].
  - assert (header_get k b = None) as ->; [| apply header_get_set].
    clear -Hk. induction b as [|[k' v'] b IH]; cbn in *; [done |].
    destruct (String.eqb_spec k' k) as [->|]; [destruct Hk; by left |].
    apply IH. intros ?. apply Hk. by right.
  - by rewrite header_get_set_ne.
Qed.

(** C12 Every call of the dashboard: one request, to the URL, method and body
    asked for, with the caller's headers and, when there is a token, the bearer
    header; the answer is passed on, except that an answer 401 clears the session,
    sends the browser to the login page and rejects with Unauthorized. *)
Theorem fetchWithAuth_spec `{Host} url init w :
  NoDup (List.map fst (ai_headers init)) ->
  let rq := auth_request (storage w !! TOKEN_KEY) url init in
  let '(o, w') := run (fetchWithAuth url init) w in
  rq_url rq = url /\ rq_method rq = default "GET" (ai_method init) /\ rq_body rq = ai_body init /\
  (forall k v, header_get k (ai_headers init) = Some v -> header_get k (rq_headers rq) = Some v) /\
  (header_get "Authorization" (ai_headers init) = None ->
     header_get "Authorization" (rq_headers rq) =
       t ← some_text (storage w !! TOKEN_KEY); Some ("Bearer " +:+ t)) /\
  match net (trace w) rq with
  | None => o = Err network_error /\ trace w' = (trace w ++ [EvFetch rq])%list /\
      storage w' = storage w
  | Some res =>
      if rs_status res =? 401 then
        o = Err (new_error "Unauthorized") /\
        trace w' = ((trace w ++ [EvFetch rq]) ++ [EvNavigate "/login"])%list /\
        storage w' !! TOKEN_KEY = None /\ storage w' !! USER_KEY = None /\ other_keys w w'
      else o = Ok res /\ trace w' = (trace w ++ [EvFetch rq])%list /\ storage w' = storage w
  end.
Proof.
  intros Hn. cbn zeta. rewrite fetchWithAuth_run. unfold do_fetch.
  set (rq := auth_request _ _ _).
  assert (Hh : forall k, header_get k (rq_headers rq) =
    match header_get k (ai_headers init) with
    | Some v => Some v
    | None => header_get k (bearer (storage w !! TOKEN_KEY))
    end) by (intros; by apply header_get_spread).
  assert (Hauth : header_get "Authorization" (bearer (storage w !! TOKEN_KEY)) =
    t ← some_text (storage w !! TOKEN_KEY); Some ("Bearer " +:+ t)).
  { unfold bearer. by destruct (some_text _). }
  destruct (cleared_lookup (tick (latency (trace w)) (log (EvFetch rq) w))) as (Hct & Hcu & Hco).
  destruct (net (trace w) rq) as [res|]; [destruct (rs_status res =? 401) |];
    split_and!; try done; try (intros k v Hk; by rewrite Hh, Hk); intros Hk; by rewrite Hh, Hk.
Qed.

Lemma fetchWithAuth_spec_witness :
  (@run demo_host _ (fetchWithAuth "/v1/audit" no_init) (World {[TOKEN_KEY := "t"]} 0 0 [])).1 =
    Err (new_error "Unauthorized").
Proof.
  refine (proj1 (proj2 (proj2 (proj2 (proj2 (proj2
    (@fetchWithAuth_spec demo_host "/v1/audit" no_init (World {[TOKEN_KEY := "t"]} 0 0 []) _))))))).
  constructor.
Defined.

(** What the server answered to a login, when the page can use it. *)
Definition login_answer (r : option response) : option (jsval * jsval) :=
  res ← r;
  if rs_ok res then
    v ← json_parse (rs_body res);
    token ← get_prop v "token";
    user ← get_prop v "user";
    Some (token, user)
  else None.

Definition login_request (BASE : string) (s : LoginState) : request :=
  {| rq_url := BASE +:+ "/v1/auth/login"; rq_method := "POST"; rq_headers := json_headers;
     rq_body := Some (json_text (JObj [("email", JStr (l_email s));
                                       ("password", JStr (l_password s))])) |}.

Lemma get_prop_none v k k' : get_prop v k = None -> get_prop v k' = None.
Proof. by destruct v. Qed.

(** The world after the request of a login. *)
Definition after_login `{Host} (BASE : string) (s : LoginState) (w : world) : world :=
  (do_fetch (login_request BASE s) w).2.

Lemma handleSubmit_run `{Host} BASE s w :
  run (handleSubmit BASE s) w =
  match login_answer (net (trace w) (login_request BASE s)) with
  | Some (token, user) =>
      (Ok (true, with_loading false),
       with_storage <[USER_KEY := json_text user]>
         (with_storage <[TOKEN_KEY := js_string token]> (after_login BASE s w)))
  | None =>
      (Ok (false, fun s' => with_loading false (with_error "Invalid email or password." s')),
       after_login BASE s w)
  end.
Proof.
  unfold handleSubmit, login, login_answer, after_login. fold (login_request BASE s).
  rewrite run_bind, run_try_catch, run_bind, run_bind. cbn [run fetch]. unfold do_fetch.
  destruct (net (trace w) (login_request BASE s)) as [res|]; [| done]. cbn [run mbind option_bind].
  destruct (rs_ok res); [| done]. unfold res_json. cbn [negb].
  destruct (json_parse (rs_body res)) as [v|]; [| done]. cbn [run mbind option_bind].
  unfold js_prop.
  destruct (get_prop v "token") as [token|] eqn:Ht; [| done].
  destruct (get_prop v "user") as [user|] eqn:Hu; [done |].
  by rewrite (get_prop_none v "user" "token" Hu) in Ht.
Qed.

(** Signing in: the page is loading while the request runs and not after it,
    whatever happens; an answer that is ok and an object stores its token and its
    user and goes to the application; anything else (a network error, a status
    that is not ok, a body that does not parse) shows the error, stays on the
    page and stores nothing; what the user types meanwhile is kept. *)
Theorem login_submit `{Host} BASE s w :
  l_loading (submit_start s) = true /\ l_error (submit_start s) = "" /\
  exists ok upd w', run (handleSubmit BASE s) w = (Ok (ok, upd), w') /\
    (forall s', l_loading (upd s') = false /\ l_email (upd s') = l_email s' /\
       l_password (upd s') = l_password s' /\
       l_error (upd s') = if (ok : bool) then l_error s' else "Invalid email or password.") /\
    match login_answer (net (trace w) (login_request BASE s)) with
    | Some (token, user) =>
        ok = true /\ storage w' !! TOKEN_KEY = Some (js_string token) /\
        storage w' !! USER_KEY = Some (json_text user) /\ other_keys w w'
    | None => ok = false /\ storage w' = storage w
    end.
Proof.
  split; [done |]. split; [done |]. rewrite handleSubmit_run.
  destruct (login_answer _) as [[token user]|]; eexists _, _, _; (split; [reflexivity |]);
    (split; [intros s'; by split_and! |]).
  - cbn. split_and!; [done | by rewrite lookup_insert_ne, lookup_insert_eq by done |
      by rewrite lookup_insert_eq |].
    intros k H1 H2. cbn. by rewrite !lookup_insert_ne by done.
  - by split.
Qed.

(** The theme: after [toggleTheme] the document has exactly one of the two
    classes, the one that is stored, and keeps its others; a second toggle
    restores the first theme.  A stored value that is neither theme toggles to
    dark. *)
Theorem toggleTheme_spec `{Host} classes w :
  let current := default "dark" (storage w !! STORAGE_KEY) in
  let next := if String.eqb current "dark" then "light" else "dark" in
  exists classes' w',
    run (toggleTheme classes) w = (Ok (next, classes'), w') /\
    storage w' !! STORAGE_KEY = Some next /\
    (forall c, In c classes' <-> c = next \/ (In c classes /\ c <> "dark" /\ c <> "light")) /\
    exists classes'' w'',
      run (toggleTheme classes') w' =
        (Ok (if String.eqb current "dark" then "dark" else "light", classes''), w'').
Proof.
  cbn zeta. unfold toggleTheme. rewrite run_bind. unfold getStoredTheme. rewrite run_bind.
  cbn [run get_item mret prog_ret]. set (current := default "dark" _).
  set (next := if String.eqb current "dark" then "light" else "dark").
  eexists _, _. split; [reflexivity |].
  split; [cbn; by rewrite lookup_insert_eq |]. split.
  - intros c. unfold class_add.
    set (rest := List.filter _ classes).
    assert (Hrest : forall c, In c rest <-> In c classes /\ c <> "dark" /\ c <> "light").
    { intros d. unfold rest. rewrite filter_In, negb_true_iff, orb_false_iff, !String.eqb_neq.
      tauto. }
    assert (Hno : existsb (String.eqb next) rest = false).
    { apply not_true_iff_false. intros (d & Hd & <-%String.eqb_eq)%existsb_exists.
      apply Hrest in Hd as (_ & H1 & H2). unfold next in *. by destruct (String.eqb current "dark"). }
    rewrite Hno, in_app_iff, Hrest. cbn. assert (next = c <-> c = next) by (split; auto). tauto.
  - rewrite run_bind, run_bind. cbn [run get_item mret prog_ret]. cbn [storage with_storage].
    rewrite lookup_insert_eq. cbn [default]. unfold next.
    destruct (String.eqb current "dark"); eexists _, _; reflexivity.
Qed.
