(* ===== verification/HttpApi.v ===== *)
(** * The calls of the dashboard to the server (frontend/src/http)

    One definition per exported function, from [audit], [api-keys], [auth],
    [health], [members], [projects], [healthcheck], [invites], [notifications],
    [studio], [tiering] and [users]; the wallboard has its own file.  Bodies and
    answers are the untyped values the code passes on. *)

From S2P Require Import Prelude JsString JsValue JsonParse Encoding Host Session.

Local Open Scope string_scope.
Local Open Scope Z_scope.

(** ** Shared steps *)

Definition json_init (method : string) (body : jsval) : api_init :=
  {| ai_method := Some method; ai_headers := json_headers; ai_body := Some (json_text body) |}.

Definition method_init (method : string) : api_init :=
  {| ai_method := Some method; ai_headers := []; ai_body := None |}.

(** [if (!res.ok) throw new Error(msg)] *)
Definition check_ok (res : response) (msg : string) : prog unit :=
  if rs_ok res then mret tt else Throw (new_error msg).

(** [data.data ?? []] *)
Definition data_or_empty (json : jsval) : prog jsval :=
  d ← js_prop json "data"; mret (coalesce d (JArr [])).

(** [if (v) search.set(k, v)] *)
Definition set_if (k : string) (v : jsval) (search : params) : params :=
  if truthy v then params_set k (js_string v) search else search.

(** [filters?.m] *)
Definition member (filters : option obj) (m : string) : jsval :=
  match filters with Some o => obj_get m o | None => JUndef end.

(** The members of [filters?] copied into the search parameters, in order; each
    pair is the member and the parameter it becomes. *)
Definition search_of (fields : list (string * string)) (filters : option obj) : params :=
  fold_left (fun search f => set_if f.2 (member filters f.1) search) fields [].

(** [search.size > 0 ? `?${search.toString()}` : ''] *)
Definition query_of (search : params) : string :=
  match search with [] => "" | _ => "?" +:+ params_to_string search end.

Definition jstr_opt (o : option string) : jsval := jopt JStr o.

Section api.
Context (BASE : string).   (** [import.meta.env.VITE_API_URL ?? ''] *)

(** ** audit *)

Definition list_audit_fields : list (string * string) :=
  [("page", "page"); ("limit", "limit"); ("projectId", "project_id");
   ("service_name", "service_name"); ("method", "method"); ("path", "path");
   ("status_code", "status_code"); ("status_class", "status_class");
   ("environment", "environment"); ("identifier", "identifier");
   ("start_date", "start_date"); ("end_date", "end_date");
   ("sort_by", "sort_by"); ("sort_order", "sort_order"); ("event_type", "event_type")].

Definition ListAudit (params : option obj) : prog jsval :=
  let search := search_of list_audit_fields params in
  let query := query_of search in
  res ← fetchWithAuth (BASE +:+ "/v1/audit" +:+ query)
    {| ai_method := Some "GET"; ai_headers := json_headers; ai_body := None |};
  check_ok res "Failed to fetch audit events";;
  res_json res.

Definition getAuditDetail (id : string) : prog jsval :=
  res ← fetchWithAuth (BASE +:+ "/v1/audit/" +:+ id) no_init;
  check_ok res "Failed to fetch audit detail";;
  res_json res.

Definition insights_search (projectId : option string) (period : string)
    (environment : option string) : params :=
  let search := set_if "project_id" (jstr_opt projectId) [] in
  let search := params_set "period" period search in
  set_if "environment" (jstr_opt environment) search.

Definition getInsights (projectId : option string) (period : string) (environment : option string)
    : prog jsval :=
  let search := insights_search projectId period environment in
  res ← fetchWithAuth (BASE +:+ "/v1/audit/insights?" +:+ params_to_string search) no_init;
  check_ok res "Failed to fetch insights";;
  res_json res.

Definition affected_search (projectId path : string) (method start end_ : option string) : params :=
  let search := [("project_id", projectId); ("path", path)] in
  let search := set_if "method" (jstr_opt method) search in
  let search := set_if "start" (jstr_opt start) search in
  set_if "end" (jstr_opt end_) search.

Definition getAffectedUsers (projectId path : string) (method start end_ : option string)
    : prog jsval :=
  let search := affected_search projectId path method start end_ in
  res ← fetchWithAuth (BASE +:+ "/v1/audit/affected-users?" +:+ params_to_string search) no_init;
  check_ok res "Failed to fetch affected users";;
  res_json res.

Definition orphan_fields : list (string * string) :=
  [("projectId", "project_id"); ("service_name", "service_name"); ("start_date", "start_date");
   ("end_date", "end_date"); ("environment", "environment")].

Definition getOrphans (filters : option obj) : prog jsval :=
  let query := query_of (search_of orphan_fields filters) in
  res ← fetchWithAuth (BASE +:+ "/v1/audit/orphans" +:+ query) no_init;
  check_ok res "Failed to fetch orphan events";;
  res_json res.

Definition getSessionByID (sessionID : string) : prog jsval :=
  res ← fetchWithAuth (BASE +:+ "/v1/audit/sessions/" +:+ encode_uri_component sessionID) no_init;
  check_ok res "Session not found";;
  res_json res.

Definition session_fields : list (string * string) :=
  [("projectId", "project_id"); ("identifier", "identifier"); ("service_name", "service_name");
   ("start_date", "start_date"); ("end_date", "end_date"); ("environment", "environment")].

Definition getSessions (filters : option obj) : prog jsval :=
  let query := query_of (search_of session_fields filters) in
  res ← fetchWithAuth (BASE +:+ "/v1/audit/sessions" +:+ query) no_init;
  check_ok res "Failed to fetch sessions";;
  data ← res_json res;
  data_or_empty data.

Definition getAuditStats (projectId environment : option string) : prog jsval :=
  let search := set_if "project_id" (jstr_opt projectId) [] in
  let search := set_if "environment" (jstr_opt environment) search in
  res ← fetchWithAuth (BASE +:+ "/v1/audit/stats" +:+ query_of search) no_init;
  check_ok res "Failed to fetch stats";;
  res_json res.

(** ** auth and health *)

Definition logout : prog unit :=
  res ← fetchWithAuth (BASE +:+ "/v1/auth/logout") (method_init "POST");
  check_ok res "Failed to logout".

Definition getHealthDetails : prog jsval :=
  res ← fetch {| rq_url := BASE +:+ "/health"; rq_method := "GET"; rq_headers := json_headers;
                 rq_body := None |};
  check_ok res "Failed to fetch health status";;
  res_json res.

(** ** api-keys *)

Definition listAPIKeys (projectId : string) : prog jsval :=
  res ← fetchWithAuth (BASE +:+ "/v1/auth/api-keys?project_id=" +:+ projectId) no_init;
  check_ok res "Failed to list api keys";;
  data ← res_json res;
  data_or_empty data.

Definition createAPIKey (projectId name : string) : prog jsval :=
  res ← fetchWithAuth (BASE +:+ "/v1/auth/api-keys")
    (json_init "POST" (JObj [("project_id", JStr projectId); ("name", JStr name)]));
  check_ok res "Failed to create api key";;
  res_json res.

Definition revokeAPIKey (id : string) : prog unit :=
  res ← fetchWithAuth (BASE +:+ "/v1/auth/api-keys/" +:+ id) (method_init "DELETE");
  check_ok res "Failed to revoke api key".

(** ** members *)

Definition members_url (projectId : string) : string :=
  BASE +:+ "/v1/auth/projects/" +:+ projectId +:+ "/members".

Definition listMembers (projectId : string) : prog jsval :=
  res ← fetchWithAuth (members_url projectId) no_init;
  check_ok res "Failed to list members";;
  data ← res_json res;
  data_or_empty data.

(** [throw new Error(err.error ?? msg)]; the message is the text of the value. *)
Definition throw_error_of {A} (err : jsval) (msg : string) : prog A :=
  e ← js_prop err "error";
  Throw (new_error (js_string (coalesce e (JStr msg)))).

Definition addMember (projectId email role : string) : prog unit :=
  res ← fetchWithAuth (members_url projectId)
    (json_init "POST" (JObj [("email", JStr email); ("role", JStr role)]));
  if negb (rs_ok res) then
    err ← res_json res;
    throw_error_of err "Failed to add member"
  else mret tt.

Definition updateMemberRole (projectId userId role : string) : prog unit :=
  res ← fetchWithAuth (members_url projectId +:+ "/" +:+ userId)
    (json_init "PATCH" (JObj [("role", JStr role)]));
  check_ok res "Failed to update member role".

Definition removeMember (projectId userId : string) : prog unit :=
  res ← fetchWithAuth (members_url projectId +:+ "/" +:+ userId) (method_init "DELETE");
  check_ok res "Failed to remove member".

(** ** projects *)

Definition listProjects : prog jsval :=
  res ← fetchWithAuth (BASE +:+ "/v1/auth/projects")
    {| ai_method := None; ai_headers := json_headers; ai_body := None |};
  check_ok res "Failed to list projects";;
  data ← res_json res;
  data_or_empty data.

Definition createProject (name slug : string) : prog jsval :=
  res ← fetchWithAuth (BASE +:+ "/v1/auth/projects")
    (json_init "POST" (JObj [("name", JStr name); ("slug", JStr slug)]));
  if negb (rs_ok res) then
    err ← res_json res;
    throw_error_of err "Failed to create project"
  else res_json res.

(** ** healthcheck *)

Definition monitors_base : string := BASE +:+ "/v1/monitors".

(** [projectId ? `?project_id=${encodeURIComponent(projectId)}` : ''] *)
Definition project_query (projectId : option string) : string :=
  match some_text projectId with
  | Some p => "?project_id=" +:+ encode_uri_component p
  | None => ""
  end.

Definition listMonitors (projectId : option string) : prog jsval :=
  res ← fetchWithAuth (monitors_base +:+ project_query projectId) no_init;
  check_ok res "Failed to fetch monitors";;
  json ← res_json res;
  data_or_empty json.

Definition createMonitor (body : jsval) : prog jsval :=
  res ← fetchWithAuth monitors_base (json_init "POST" body);
  if negb (rs_ok res) then
    err ← try_catch (res_json res) (fun _ => mret (JObj []));
    throw_error_of err "Failed to create monitor"
  else res_json res.

Definition updateMonitor (id : string) (body : jsval) : prog jsval :=
  res ← fetchWithAuth (monitors_base +:+ "/" +:+ id) (json_init "PUT" body);
  check_ok res "Failed to update monitor";;
  res_json res.

Definition deleteMonitor (id : string) : prog unit :=
  res ← fetchWithAuth (monitors_base +:+ "/" +:+ id) (method_init "DELETE");
  check_ok res "Failed to delete monitor".

Definition testMonitor (id : string) : prog jsval :=
  res ← fetchWithAuth (monitors_base +:+ "/" +:+ id +:+ "/test") (method_init "POST");
  check_ok res "Failed to test monitor";;
  res_json res.

Definition listMonitorHistory (id : string) (limit : Z) : prog jsval :=
  res ← fetchWithAuth (monitors_base +:+ "/" +:+ id +:+ "/history?limit=" +:+ string_of_Z limit)
    no_init;
  check_ok res "Failed to fetch monitor history";;
  json ← res_json res;
  data_or_empty json.

(** ** invites *)

Definition listInvites : prog jsval :=
  res ← fetchWithAuth (BASE +:+ "/v1/auth/invites") no_init;
  check_ok res "Failed to list invites";;
  json ← res_json res;
  js_prop json "data".

Definition createInvite (email role : string) : prog jsval :=
  res ← fetchWithAuth (BASE +:+ "/v1/auth/invites")
    (json_init "POST" (JObj [("email", JStr email); ("role", JStr role)]));
  check_ok res "Failed to create invite";;
  res_json res.

Definition revokeInvite (id : string) : prog unit :=
  res ← fetchWithAuth (BASE +:+ "/v1/auth/invites/" +:+ id) (method_init "DELETE");
  check_ok res "Failed to revoke invite".

Definition getInvitePreview (token : string) : prog jsval :=
  res ← fetch {| rq_url := BASE +:+ "/v1/auth/invite/" +:+ token; rq_method := "GET";
                 rq_headers := []; rq_body := None |};
  check_ok res "Invite not found or expired";;
  res_json res.

Definition acceptInvite (token name password : string) : prog unit :=
  res ← fetch {| rq_url := BASE +:+ "/v1/auth/invite/" +:+ token +:+ "/accept";
                 rq_method := "POST"; rq_headers := json_headers;
                 rq_body := Some (json_text (JObj [("name", JStr name);
                                                   ("password", JStr password)])) |};
  if rs_status res =? 409 then Throw (new_error "Email already in use")
  else if rs_status res =? 410 then Throw (new_error "Invite has expired")
  else check_ok res "Failed to accept invite".

(** ** notifications *)

Definition getVapidPublicKey : prog jsval :=
  res ← fetchWithAuth (BASE +:+ "/v1/notifications/push/vapid-public-key") no_init;
  check_ok res "Failed to fetch VAPID key";;
  data ← res_json res;
  js_prop data "public_key".

(** [subscription] is [subscription.toJSON()]. *)
Definition subscribePush (projectId : string) (subscription : jsval) : prog jsval :=
  res ← fetchWithAuth (BASE +:+ "/v1/notifications/push/subscribe")
    (json_init "POST" (JObj [("project_id", JStr projectId); ("subscription", subscription)]));
  check_ok res "Failed to subscribe";;
  res_json res.

Definition unsubscribePush (projectId channelId : string) : prog unit :=
  res ← fetchWithAuth (BASE +:+ "/v1/notifications/push/subscribe")
    (json_init "DELETE" (JObj [("project_id", JStr projectId); ("channel_id", JStr channelId)]));
  check_ok res "Failed to unsubscribe".

Definition webhooks_url : string := BASE +:+ "/v1/notifications/webhooks".

Definition listWebhooks (projectId : string) : prog jsval :=
  res ← fetchWithAuth (webhooks_url +:+ "?project_id=" +:+ encode_uri_component projectId) no_init;
  check_ok res "Failed to list webhooks";;
  res_json res.

Definition createWebhook (projectId url : string) (secret : option string) : prog jsval :=
  res ← fetchWithAuth webhooks_url
    (json_init "POST" (JObj [("project_id", JStr projectId); ("url", JStr url);
                             ("secret", jstr_opt secret)]));
  check_ok res "Failed to create webhook";;
  res_json res.

Definition deleteWebhook (projectId webhookId : string) : prog unit :=
  res ← fetchWithAuth
    (webhooks_url +:+ "/" +:+ webhookId +:+ "?project_id=" +:+ encode_uri_component projectId)
    (method_init "DELETE");
  check_ok res "Failed to delete webhook".

Definition testWebhook (projectId webhookId : string) : prog jsval :=
  res ← fetchWithAuth
    (webhooks_url +:+ "/" +:+ webhookId +:+ "/test?project_id=" +:+ encode_uri_component projectId)
    (method_init "POST");
  check_ok res "Webhook test failed";;
  res_json res.

Definition listDeliveries (webhookId : string) : prog jsval :=
  res ← fetchWithAuth (webhooks_url +:+ "/" +:+ webhookId +:+ "/deliveries") no_init;
  check_ok res "Failed to list deliveries";;
  res_json res.

(** ** studio *)

(** [v?.k] *)
Definition opt_prop (v : jsval) (k : string) : jsval := default JUndef (get_prop v k).

Definition runQuery (sql : string) : prog jsval :=
  res ← fetchWithAuth (BASE +:+ "/v1/audit/query") (json_init "POST" (JObj [("sql", JStr sql)]));
  json ← res_json res;
  if negb (rs_ok res) then
    Throw (new_error (js_string (coalesce (opt_prop json "error") (JStr "Query failed"))))
  else mret json.

Definition listReports (projectId : option string) : prog jsval :=
  res ← fetchWithAuth (BASE +:+ "/v1/reports" +:+ project_query projectId) no_init;
  json ← res_json res;
  mret (coalesce (opt_prop json "data") (JArr [])).

Definition getReport (id : string) : prog jsval :=
  res ← fetchWithAuth (BASE +:+ "/v1/reports/" +:+ id) no_init;
  check_ok res "Report not found";;
  res_json res.

Definition createReport (input : jsval) : prog jsval :=
  res ← fetchWithAuth (BASE +:+ "/v1/reports") (json_init "POST" input);
  check_ok res "Failed to create report";;
  res_json res.

Definition updateReport (id : string) (input : jsval) : prog unit :=
  res ← fetchWithAuth (BASE +:+ "/v1/reports/" +:+ id) (json_init "PUT" input);
  check_ok res "Failed to save report".

Definition deleteReport (id : string) : prog unit :=
  res ← fetchWithAuth (BASE +:+ "/v1/reports/" +:+ id) (method_init "DELETE");
  check_ok res "Failed to delete report".

(** ** tiering *)

Definition history_search (projectId : string) (startDate endDate environment : option string)
    : params :=
  let search := [("project_id", projectId)] in
  let search := set_if "start_date" (jstr_opt startDate) search in
  let search := set_if "end_date" (jstr_opt endDate) search in
  set_if "environment" (jstr_opt environment) search.

Definition getAuditHistory (projectId : string) (startDate endDate environment : option string)
    : prog jsval :=
  let search := history_search projectId startDate endDate environment in
  res ← fetchWithAuth (BASE +:+ "/v1/audit/stats/history?" +:+ params_to_string search) no_init;
  check_ok res "Failed to fetch history";;
  res_json res.

Definition getUsageStat (projectId : string) : prog jsval :=
  res ← fetchWithAuth
    (BASE +:+ "/v1/audit/stats/usage?project_id=" +:+ encode_uri_component projectId) no_init;
  check_ok res "Failed to fetch usage";;
  res_json res.

(** ** users *)

Definition listUsers : prog jsval :=
  res ← fetchWithAuth (BASE +:+ "/v1/auth/users") no_init;
  check_ok res "Failed to list users";;
  json ← res_json res;
  js_prop json "data".

Definition createUser (payload : jsval) : prog jsval :=
  res ← fetchWithAuth (BASE +:+ "/v1/auth/users") (json_init "POST" payload);
  if rs_status res =? 409 then Throw (new_error "Email already in use")
  else
    check_ok res "Failed to create user";;
    res_json res.

Definition deleteUser (id : string) : prog unit :=
  res ← fetchWithAuth (BASE +:+ "/v1/auth/users/" +:+ id) (method_init "DELETE");
  check_ok res "Failed to delete user".
End api.
