(* ===== verification/ApiContract.v ===== *)
(** * The contract between the dashboard and the server

    [call] lists the calls of [HttpApi], [endpoint_of] says what each means to
    the server: method, path, query parameters, body.  [server_reads] is what a
    server gets out of a request.  The theorems show that every call makes one
    request that reads as its endpoint, and how answers become results. *)

From S2P Require Import Prelude JsString JsValue JsonParse Encoding Host Session HttpApi.

Local Open Scope string_scope.
Local Open Scope Z_scope.

(** ** The calls *)

Inductive call : Type :=
| CListAudit (p : option obj)
| CGetAuditDetail (id : string)
| CGetInsights (projectId : option string) (period : string) (environment : option string)
| CGetAffectedUsers (projectId path : string) (method start end_ : option string)
| CGetOrphans (filters : option obj)
| CGetSessionByID (sessionID : string)
| CGetSessions (filters : option obj)
| CGetAuditStats (projectId environment : option string)
| CLogout
| CGetHealthDetails
| CListAPIKeys (projectId : string)
| CCreateAPIKey (projectId name : string)
| CRevokeAPIKey (id : string)
| CListMembers (projectId : string)
| CAddMember (projectId email role : string)
| CUpdateMemberRole (projectId userId role : string)
| CRemoveMember (projectId userId : string)
| CListProjects
| CCreateProject (name slug : string)
| CListMonitors (projectId : option string)
| CCreateMonitor (body : jsval)
| CUpdateMonitor (id : string) (body : jsval)
| CDeleteMonitor (id : string)
| CTestMonitor (id : string)
| CListMonitorHistory (id : string) (limit : Z)
| CListInvites
| CCreateInvite (email role : string)
| CRevokeInvite (id : string)
| CGetInvitePreview (token : string)
| CAcceptInvite (token name password : string)
| CGetVapidPublicKey
| CSubscribePush (projectId : string) (subscription : jsval)
| CUnsubscribePush (projectId channelId : string)
| CListWebhooks (projectId : string)
| CCreateWebhook (projectId url : string) (secret : option string)
| CDeleteWebhook (projectId webhookId : string)
| CTestWebhook (projectId webhookId : string)
| CListDeliveries (webhookId : string)
| CRunQuery (sql : string)
| CListReports (projectId : option string)
| CGetReport (id : string)
| CCreateReport (input : jsval)
| CUpdateReport (id : string) (input : jsval)
| CDeleteReport (id : string)
| CGetAuditHistory (projectId : string) (startDate endDate environment : option string)
| CGetUsageStat (projectId : string)
| CListUsers
| CCreateUser (payload : jsval)
| CDeleteUser (id : string).

Definition void (p : prog unit) : prog jsval := p;; mret JUndef.

Definition perform (BASE : string) (c : call) : prog jsval :=
  match c with
  | CListAudit p => ListAudit BASE p
  | CGetAuditDetail id => getAuditDetail BASE id
  | CGetInsights p q e => getInsights BASE p q e
  | CGetAffectedUsers p q m s e => getAffectedUsers BASE p q m s e
  | CGetOrphans f => getOrphans BASE f
  | CGetSessionByID id => getSessionByID BASE id
  | CGetSessions f => getSessions BASE f
  | CGetAuditStats p e => getAuditStats BASE p e
  | CLogout => void (logout BASE)
  | CGetHealthDetails => getHealthDetails BASE
  | CListAPIKeys p => listAPIKeys BASE p
  | CCreateAPIKey p n => createAPIKey BASE p n
  | CRevokeAPIKey id => void (revokeAPIKey BASE id)
  | CListMembers p => listMembers BASE p
  | CAddMember p e r => void (addMember BASE p e r)
  | CUpdateMemberRole p u r => void (updateMemberRole BASE p u r)
  | CRemoveMember p u => void (removeMember BASE p u)
  | CListProjects => listProjects BASE
  | CCreateProject n s => createProject BASE n s
  | CListMonitors p => listMonitors BASE p
  | CCreateMonitor b => createMonitor BASE b
  | CUpdateMonitor id b => updateMonitor BASE id b
  | CDeleteMonitor id => void (deleteMonitor BASE id)
  | CTestMonitor id => testMonitor BASE id
  | CListMonitorHistory id l => listMonitorHistory BASE id l
  | CListInvites => listInvites BASE
  | CCreateInvite e r => createInvite BASE e r
  | CRevokeInvite id => void (revokeInvite BASE id)
  | CGetInvitePreview t => getInvitePreview BASE t
  | CAcceptInvite t n p => void (acceptInvite BASE t n p)
  | CGetVapidPublicKey => getVapidPublicKey BASE
  | CSubscribePush p s => subscribePush BASE p s
  | CUnsubscribePush p c => void (unsubscribePush BASE p c)
  | CListWebhooks p => listWebhooks BASE p
  | CCreateWebhook p u s => createWebhook BASE p u s
  | CDeleteWebhook p w => void (deleteWebhook BASE p w)
  | CTestWebhook p w => testWebhook BASE p w
  | CListDeliveries w => listDeliveries BASE w
  | CRunQuery s => runQuery BASE s
  | CListReports p => listReports BASE p
  | CGetReport id => getReport BASE id
  | CCreateReport i => createReport BASE i
  | CUpdateReport id i => void (updateReport BASE id i)
  | CDeleteReport id => void (deleteReport BASE id)
  | CGetAuditHistory p s e n => getAuditHistory BASE p s e n
  | CGetUsageStat p => getUsageStat BASE p
  | CListUsers => listUsers BASE
  | CCreateUser p => createUser BASE p
  | CDeleteUser id => void (deleteUser BASE id)
  end.

(** ** What each call means to the server *)

Record endpoint := {
  e_method : string;
  e_path : list string;
  e_query : params;
  e_body : option jsval
}.

Definition get (path : list string) (query : params) : endpoint :=
  {| e_method := "GET"; e_path := path; e_query := query; e_body := None |}.
Definition delete_ (path : list string) : endpoint :=
  {| e_method := "DELETE"; e_path := path; e_query := []; e_body := None |}.
Definition send_ (method : string) (path : list string) (body : obj) : endpoint :=
  {| e_method := method; e_path := path; e_query := []; e_body := Some (JObj body) |}.

(** The parameters of the members that are set, in the order of the fields. *)
Definition set_fields (fields : list (string * string)) (filters : option obj) : params :=
  omap (fun f => let v := member filters f.1 in
                 if truthy v then Some (f.2, js_string v) else None) fields.

Definition opt_param (k : string) (v : option string) : params :=
  match some_text v with Some s => [(k, s)] | None => [] end.

(** The members of the filters and the names internal/audit/handler.go has for them:
    the list, the orphans, the sessions.  (The handlers of the orphans and of the
    sessions do not read [environment], which the calls send all the same.) *)
Definition audit_parameters : list (string * string) :=
  [("page", "page"); ("limit", "limit"); ("projectId", "project_id");
   ("service_name", "service_name"); ("method", "method"); ("path", "path");
   ("status_code", "status_code"); ("status_class", "status_class");
   ("environment", "environment"); ("identifier", "identifier");
   ("start_date", "start_date"); ("end_date", "end_date");
   ("sort_by", "sort_by"); ("sort_order", "sort_order"); ("event_type", "event_type")].
Definition orphan_parameters : list (string * string) :=
  [("projectId", "project_id"); ("service_name", "service_name"); ("start_date", "start_date");
   ("end_date", "end_date"); ("environment", "environment")].
Definition session_parameters : list (string * string) :=
  [("projectId", "project_id"); ("identifier", "identifier"); ("service_name", "service_name");
   ("start_date", "start_date"); ("end_date", "end_date"); ("environment", "environment")].

Definition endpoint_of (c : call) : endpoint :=
  match c with
  | CListAudit p => get ["v1"; "audit"] (set_fields audit_parameters p)
  | CGetAuditDetail id => get ["v1"; "audit"; id] []
  | CGetInsights p q e =>
      get ["v1"; "audit"; "insights"]
        (opt_param "project_id" p ++ [("period", q)] ++ opt_param "environment" e)
  | CGetAffectedUsers p q m s e =>
      get ["v1"; "audit"; "affected-users"]
        ([("project_id", p); ("path", q)] ++ opt_param "method" m ++ opt_param "start" s ++
         opt_param "end" e)
  | CGetOrphans f => get ["v1"; "audit"; "orphans"] (set_fields orphan_parameters f)
  | CGetSessionByID id => get ["v1"; "audit"; "sessions"; id] []
  | CGetSessions f => get ["v1"; "audit"; "sessions"] (set_fields session_parameters f)
  | CGetAuditStats p e =>
      get ["v1"; "audit"; "stats"] (opt_param "project_id" p ++ opt_param "environment" e)
  | CLogout => {| e_method := "POST"; e_path := ["v1"; "auth"; "logout"]; e_query := [];
                  e_body := None |}
  | CGetHealthDetails => get ["health"] []
  | CListAPIKeys p => get ["v1"; "auth"; "api-keys"] [("project_id", p)]
  | CCreateAPIKey p n =>
      send_ "POST" ["v1"; "auth"; "api-keys"] [("project_id", JStr p); ("name", JStr n)]
  | CRevokeAPIKey id => delete_ ["v1"; "auth"; "api-keys"; id]
  | CListMembers p => get ["v1"; "auth"; "projects"; p; "members"] []
  | CAddMember p e r =>
      send_ "POST" ["v1"; "auth"; "projects"; p; "members"] [("email", JStr e); ("role", JStr r)]
  | CUpdateMemberRole p u r =>
      send_ "PATCH" ["v1"; "auth"; "projects"; p; "members"; u] [("role", JStr r)]
  | CRemoveMember p u => delete_ ["v1"; "auth"; "projects"; p; "members"; u]
  | CListProjects => get ["v1"; "auth"; "projects"] []
  | CCreateProject n s =>
      send_ "POST" ["v1"; "auth"; "projects"] [("name", JStr n); ("slug", JStr s)]
  | CListMonitors p => get ["v1"; "monitors"] (opt_param "project_id" p)
  | CCreateMonitor b => {| e_method := "POST"; e_path := ["v1"; "monitors"]; e_query := [];
                           e_body := Some b |}
  | CUpdateMonitor id b => {| e_method := "PUT"; e_path := ["v1"; "monitors"; id]; e_query := [];
                              e_body := Some b |}
  | CDeleteMonitor id => delete_ ["v1"; "monitors"; id]
  | CTestMonitor id => {| e_method := "POST"; e_path := ["v1"; "monitors"; id; "test"];
                          e_query := []; e_body := None |}
  | CListMonitorHistory id l =>
      get ["v1"; "monitors"; id; "history"] [("limit", string_of_Z l)]
  | CListInvites => get ["v1"; "auth"; "invites"] []
  | CCreateInvite e r =>
      send_ "POST" ["v1"; "auth"; "invites"] [("email", JStr e); ("role", JStr r)]
  | CRevokeInvite id => delete_ ["v1"; "auth"; "invites"; id]
  | CGetInvitePreview t => get ["v1"; "auth"; "invite"; t] []
  | CAcceptInvite t n p =>
      send_ "POST" ["v1"; "auth"; "invite"; t; "accept"] [("name", JStr n); ("password", JStr p)]
  | CGetVapidPublicKey => get ["v1"; "notifications"; "push"; "vapid-public-key"] []
  | CSubscribePush p s =>
      send_ "POST" ["v1"; "notifications"; "push"; "subscribe"]
        [("project_id", JStr p); ("subscription", s)]
  | CUnsubscribePush p c =>
      send_ "DELETE" ["v1"; "notifications"; "push"; "subscribe"]
        [("project_id", JStr p); ("channel_id", JStr c)]
  | CListWebhooks p => get ["v1"; "notifications"; "webhooks"] [("project_id", p)]
  | CCreateWebhook p u s =>
      send_ "POST" ["v1"; "notifications"; "webhooks"]
        ([("project_id", JStr p); ("url", JStr u)] ++
         match s with Some x => [("secret", JStr x)] | None => [] end)
  | CDeleteWebhook p w =>
      {| e_method := "DELETE"; e_path := ["v1"; "notifications"; "webhooks"; w];
         e_query := [("project_id", p)]; e_body := None |}
  | CTestWebhook p w =>
      {| e_method := "POST"; e_path := ["v1"; "notifications"; "webhooks"; w; "test"];
         e_query := [("project_id", p)]; e_body := None |}
  | CListDeliveries w => get ["v1"; "notifications"; "webhooks"; w; "deliveries"] []
  | CRunQuery s => send_ "POST" ["v1"; "audit"; "query"] [("sql", JStr s)]
  | CListReports p => get ["v1"; "reports"] (opt_param "project_id" p)
  | CGetReport id => get ["v1"; "reports"; id] []
  | CCreateReport i => {| e_method := "POST"; e_path := ["v1"; "reports"]; e_query := [];
                          e_body := Some i |}
  | CUpdateReport id i => {| e_method := "PUT"; e_path := ["v1"; "reports"; id]; e_query := [];
                             e_body := Some i |}
  | CDeleteReport id => delete_ ["v1"; "reports"; id]
  | CGetAuditHistory p s e n =>
      get ["v1"; "audit"; "stats"; "history"]
        ([("project_id", p)] ++ opt_param "start_date" s ++ opt_param "end_date" e ++
         opt_param "environment" n)
  | CGetUsageStat p => get ["v1"; "audit"; "stats"; "usage"] [("project_id", p)]
  | CListUsers => get ["v1"; "auth"; "users"] []
  | CCreateUser p => {| e_method := "POST"; e_path := ["v1"; "auth"; "users"]; e_query := [];
                        e_body := Some p |}
  | CDeleteUser id => delete_ ["v1"; "auth"; "users"; id]
  end%list.

(** The identifiers that the code puts into a path, or into a query, as they
    are. *)
Definition raw_ids (c : call) : list string :=
  match c with
  | CGetAuditDetail id | CListAPIKeys id | CRevokeAPIKey id | CListMembers id
  | CAddMember id _ _ | CUpdateMonitor id _ | CDeleteMonitor id | CTestMonitor id
  | CListMonitorHistory id _ | CRevokeInvite id | CGetInvitePreview id | CAcceptInvite id _ _
  | CDeleteWebhook _ id | CTestWebhook _ id | CListDeliveries id | CGetReport id
  | CUpdateReport id _ | CDeleteReport id | CDeleteUser id => [id]
  | CUpdateMemberRole p u _ | CRemoveMember p u => [p; u]
  | _ => []
  end.

(** Letters, digits and [-._~!*'()]: an UUID, a hexadecimal token. *)
Definition safe_id (s : string) : bool := all_chars uri_unreserved s.

(** Whether the session's token goes with the call. *)
Definition with_session (c : call) : bool :=
  match c with
  | CGetHealthDetails | CGetInvitePreview _ | CAcceptInvite _ _ _ => false
  | _ => true
  end.

(** ** What a server reads *)

Fixpoint strip_prefix (p s : string) : option string :=
  match p, s with
  | "", _ => Some s
  | String a p', String b s' => if Ascii.eqb a b then strip_prefix p' s' else None
  | _, _ => None
  end.

(** The path without its first slash, in segments. *)
Definition path_segments (path : string) : option (list string) :=
  match path with
  | String "/" p => mapM pct_decode (split_on "/" p)
  | _ => None
  end.

Definition server_reads (BASE : string) (rq : request) : option endpoint :=
  target ← strip_prefix BASE (rq_url rq);
  let '(path, query) := break_on "?" target in
  segments ← path_segments path;
  ps ← params_parse query;
  body ← match rq_body rq with
         | None => Some None
         | Some t => Some <$> json_parse t
         end;
  Some {| e_method := rq_method rq; e_path := segments; e_query := ps; e_body := body |}.

(** The endpoint with its body as it travels. *)
Definition wire_endpoint (e : endpoint) : endpoint :=
  {| e_method := e_method e; e_path := e_path e; e_query := e_query e;
     e_body := wire <$> e_body e |}.

Definition body_ok (c : call) : bool :=
  match e_body (endpoint_of c) with Some b => json_ok (wire b) | None => true end.

(** ** Lemmas: parameters *)

Definition has_key (k : string) (ps : params) : bool := existsb (fun kv => String.eqb kv.1 k) ps.

Lemma params_set_fresh k v ps : has_key k ps = false -> params_set k v ps = (ps ++ [(k, v)])%list.
Proof.
  induction ps as [|[k' v'] ps IH]; cbn; [done |]. intros [H1 H2]%orb_false_iff.
  by rewrite H1, IH.
Qed.

Lemma has_key_app k (a b : params) : has_key k (a ++ b)%list = has_key k a || has_key k b.
Proof. apply existsb_app. Qed.

Lemma search_of_from fields filters ps :
  NoDup (List.map snd fields) ->
  (forall f, In f fields -> has_key f.2 ps = false) ->
  fold_left (fun search f => set_if f.2 (member filters f.1) search) fields ps =
  (ps ++ set_fields fields filters)%list.
Proof.
  revert ps. induction fields as [|[m k] fields IH]; intros ps Hn Hk.
  - cbn. by rewrite app_nil_r.
  - cbn [List.map] in Hn. inversion Hn as [|? ? Hnk Hn']; subst.
    cbn [fold_left fst snd]. unfold set_if at 2. unfold set_fields. cbn [omap list_omap fst snd].
    fold (set_fields fields filters). cbn zeta. destruct (truthy (member filters m)).
    + rewrite params_set_fresh by (apply (Hk (m, k)); by left). rewrite IH; [| done |].
      * by rewrite <- app_assoc.
      * intros f Hf. rewrite has_key_app, Hk by (by right). cbn. rewrite orb_false_r.
        apply String.eqb_neq. intros ->. apply Hnk, list_elem_of_In. by apply List.in_map.
    + apply IH; [done |]. intros f Hf. apply Hk. by right.
Qed.

(** The search parameters are exactly the members that are set. *)
Lemma search_of_fields fields filters :
  NoDup (List.map snd fields) -> search_of fields filters = set_fields fields filters.
Proof. intros Hn. unfold search_of. by rewrite search_of_from. Qed.

Lemma in_set_fields k v fields filters :
  In (k, v) (set_fields fields filters) <->
  exists m, In (m, k) fields /\ truthy (member filters m) = true /\ v = js_string (member filters m).
Proof.
  unfold set_fields. rewrite <- list_elem_of_In, list_elem_of_omap. split.
  - intros ([m k'] & Hin & Hv). apply list_elem_of_In in Hin. cbn in Hv.
    destruct (truthy (member filters m)) eqn:Ht; simplify_eq. eauto.
  - intros (m & Hin & Ht & ->). exists (m, k). apply list_elem_of_In in Hin.
    split; [done |]. cbn. by rewrite Ht.
Qed.

(** ** Lemmas: queries *)

(** [qs] is the end of a target that a server reads as the parameters [ps]. *)
Definition reads_query (qs : string) (ps : params) : Prop :=
  (qs = "" /\ ps = []) \/ exists t, qs = "?" +:+ t /\ params_parse t = Some ps.

Lemma reads_query_params ps : reads_query ("?" +:+ params_to_string ps) ps.
Proof. right. eauto using params_parse_to_string. Qed.

Lemma reads_query_of ps : reads_query (query_of ps) ps.
Proof. destruct ps as [|p ps]; [by left | apply reads_query_params]. Qed.

Lemma reads_query_none : reads_query "" [].
Proof. by left. Qed.

Lemma pct_decode_no_pct s : has_char "%" s = false -> pct_decode s = Some s.
Proof.
  induction s as [|a s IH]; cbn [has_char pct_decode]; [done |]. intros [H1 H2]%orb_false_iff.
  by rewrite H1, IH.
Qed.

(** One parameter whose key and value stand as they are in the URL. *)
Lemma reads_query_one k v' v :
  has_char "=" k = false -> has_char "&" k = false -> form_decode k = Some k ->
  has_char "&" v' = false -> form_decode v' = Some v ->
  reads_query ("?" +:+ k +:+ "=" +:+ v') [(k, v)].
Proof.
  intros H1 H2 H3 H4 H5. right. exists (k +:+ "=" +:+ v'). split; [done |].
  unfold params_parse. rewrite split_on_no_char.
  2:{ rewrite !has_char_app, H2, H4. done. }
  assert (str_truthy (k +:+ "=" +:+ v') = true) as Ht by by destruct k.
  cbn [List.filter]. rewrite Ht. cbn [mapM]. unfold parse_pair. cbn [String.append].
  rewrite break_on_app, H3 by done. cbn [mbind option_bind]. by rewrite H5.
Qed.

Lemma encode_uri_no_char c s :
  forallb (fun a => negb (has_char c (if uri_unreserved a then String a "" else pct a)))
    (List.map ascii_of_nat (seq 0 256)) = true ->
  has_char c (encode_uri_component s) = false.
Proof.
  intros H. apply concat_map_no_char. intros a. rewrite forallb_forall in H.
  apply negb_true_iff, H. apply in_map_iff. exists (nat_of_ascii a).
  split; [apply ascii_nat_embedding |]. apply in_seq. pose proof (nat_ascii_bounded a). lia.
Qed.

Lemma form_decode_encode_uri s : form_decode (encode_uri_component s) = Some s.
Proof.
  unfold form_decode. rewrite replace_char_id by by apply encode_uri_no_char.
  apply decode_encode_uri.
Qed.

Lemma safe_no_char c s : uri_unreserved c = false -> safe_id s = true -> has_char c s = false.
Proof. intros Hc Hs. by eapply all_chars_no_char. Qed.

Lemma form_decode_safe s : safe_id s = true -> form_decode s = Some s.
Proof.
  intros Hs. unfold form_decode. rewrite replace_char_id by by apply safe_no_char.
  by apply pct_decode_no_pct, safe_no_char.
Qed.

Lemma reads_project_id p :
  reads_query ("?project_id=" +:+ encode_uri_component p) [("project_id", p)].
Proof.
  apply (reads_query_one "project_id"); try done; [by apply encode_uri_no_char |].
  apply form_decode_encode_uri.
Qed.

Lemma reads_raw_project_id p :
  safe_id p = true -> reads_query ("?project_id=" +:+ p) [("project_id", p)].
Proof.
  intros Hp. apply (reads_query_one "project_id"); try done; [by apply safe_no_char |].
  by apply form_decode_safe.
Qed.

Lemma reads_project_query p : reads_query (project_query p) (opt_param "project_id" p).
Proof.
  unfold project_query, opt_param. destruct (some_text p); [apply reads_project_id | by left].
Qed.

Lemma string_of_Z_safe z : safe_id (string_of_Z z) = true.
Proof.
  eapply all_chars_impl; [| apply string_of_Z_chars].
  intros [[] [] [] [] [] [] [] []]; done.
Qed.

Lemma reads_limit z : reads_query ("?limit=" +:+ string_of_Z z) [("limit", string_of_Z z)].
Proof.
  pose proof (string_of_Z_safe z). apply (reads_query_one "limit"); try done.
  - by apply safe_no_char.
  - by apply form_decode_safe.
Qed.

(** ** Lemmas: paths *)

Fixpoint render_path (segments : list string) : string :=
  match segments with
  | [] => ""
  | s :: l => "/" +:+ s +:+ render_path l
  end.

(** A segment as it stands in the URL, and as the server reads it. *)
Definition reads_segment (raw s : string) : Prop :=
  has_char "/" raw = false /\ has_char "?" raw = false /\ pct_decode raw = Some s.

Lemma reads_segment_safe s : safe_id s = true -> reads_segment s s.
Proof.
  intros Hs. split_and!; try by apply safe_no_char. by apply pct_decode_no_pct, safe_no_char.
Qed.

Lemma reads_segment_encoded s : reads_segment (encode_uri_component s) s.
Proof. split_and!; try by apply encode_uri_no_char. apply decode_encode_uri. Qed.

Lemma render_join s l : render_path (s :: l) = "/" +:+ join "/" (s :: l).
Proof.
  revert s. induction l as [|t l IH]; intros s.
  - cbn. by rewrite app_nil_r_s.
  - change (render_path (s :: t :: l)) with ("/" +:+ s +:+ render_path (t :: l)). by rewrite IH.
Qed.

Lemma path_segments_render raws segs :
  raws <> [] -> Forall2 reads_segment raws segs ->
  path_segments (render_path raws) = Some segs /\ has_char "?" (render_path raws) = false.
Proof.
  intros Hne H. split.
  - destruct raws as [|r raws]; [done |]. rewrite render_join. unfold path_segments.
    cbn [String.append]. rewrite split_join; [| done |].
    + clear Hne. induction H as [|r' s' rs ss (_ & _ & Hd) H IH]; [done |].
      cbn [mapM]. rewrite Hd. cbn [mbind option_bind]. by rewrite IH.
    + eapply Forall2_Forall_l; [exact H |]. apply List.Forall_forall. by intros ? _ ? (? & _).
  - clear Hne. induction H as [|r' s' rs ss (_ & Hq & _) H IH]; [done |].
    cbn [render_path]. by rewrite !has_char_app, Hq, IH.
Qed.

Lemma break_on_none c s : has_char c s = false -> break_on c s = (s, "").
Proof.
  induction s as [|a s IH]; cbn; [done |]. intros [H1 H2]%orb_false_iff. by rewrite H1, IH.
Qed.

(** What a server reads from a request written this way. *)
Lemma server_reads_request BASE rq raws segs qs ps body :
  rq_url rq = BASE +:+ render_path raws +:+ qs ->
  raws <> [] -> Forall2 reads_segment raws segs -> reads_query qs ps ->
  rq_body rq = json_text <$> body -> (forall b, body = Some b -> json_ok (wire b) = true) ->
  server_reads BASE rq =
  Some {| e_method := rq_method rq; e_path := segs; e_query := ps; e_body := wire <$> body |}.
Proof.
  intros Hurl Hne Hsegs Hq Hbody Hok. unfold server_reads.
  rewrite Hurl, strip_prefix_app. cbn [mbind option_bind].
  destruct (path_segments_render raws segs Hne Hsegs) as [Hp Hnq].
  assert (exists t, break_on "?" (render_path raws +:+ qs) = (render_path raws, t) /\
            params_parse t = Some ps) as (t & -> & Ht).
  { destruct Hq as [[-> ->]|(t & -> & Ht)].
    - exists "". rewrite app_nil_r_s, break_on_none by done. done.
    - exists t. change ("?" +:+ t) with (String "?" t). by rewrite break_on_app. }
  rewrite Hp. cbn [mbind option_bind]. rewrite Ht. cbn [mbind option_bind].
  rewrite Hbody. destruct body as [b|]; cbn; [| done].
  by rewrite json_parse_wire by by apply Hok.
Qed.

(** ** Lemmas: the shape of a call *)

(** A program that only computes. *)
Definition quiet {A} (p : prog A) : Prop := forall (h : Host) w, (run p w).2 = w.

Lemma quiet_ret {A} (a : A) : quiet (Ret a).
Proof. done. Qed.
Lemma quiet_mret {A} (a : A) : quiet (mret a).
Proof. done. Qed.
Lemma quiet_throw {A} e : quiet (@Throw A e).
Proof. done. Qed.
Lemma quiet_bind {A B} (p : prog A) (f : A -> prog B) :
  quiet p -> (forall a, quiet (f a)) -> quiet (p ≫= f).
Proof.
  intros Hp Hf Hh w. rewrite run_bind. specialize (Hp Hh w).
  destruct (run p w) as [[a|e] w']; cbn in *; subst; [apply Hf | done].
Qed.
Lemma quiet_try {A} (p : prog A) h : quiet p -> (forall e, quiet (h e)) -> quiet (try_catch p h).
Proof.
  intros Hp Hf Hh w. rewrite run_try_catch. specialize (Hp Hh w).
  destruct (run p w) as [[a|e] w']; cbn in *; subst; [done | apply Hf].
Qed.
Lemma quiet_json r : quiet (res_json r).
Proof. unfold res_json. by destruct (json_parse _). Qed.
Lemma quiet_prop v k : quiet (js_prop v k).
Proof. unfold js_prop. by destruct (get_prop v k). Qed.
Lemma quiet_check r msg : quiet (check_ok r msg).
Proof. unfold check_ok. by destruct (rs_ok r). Qed.

Create HintDb quiet discriminated.
#[export] Hint Resolve quiet_ret quiet_mret quiet_throw quiet_bind quiet_try quiet_json quiet_prop quiet_check : quiet.

(** A program that throws without doing anything. *)
Definition fails {A} (p : prog A) : Prop := forall (h : Host) w, exists e, run p w = (Err e, w).

(** The life of a call: one request, then the answer. *)
Definition call_run `{Host} {A} (session : bool) (rq : request) (k : response -> prog A) (w : world)
    : outcome A * world :=
  let '(r, w1) := do_fetch rq w in
  match r with
  | None => (Err network_error, w1)
  | Some res =>
      if session && (rs_status res =? 401) then
        (Err (new_error "Unauthorized"), log (EvNavigate "/login") (cleared w1))
      else run (k res) w1
  end.

Lemma run_auth_call `{Host} {A} url init (k : response -> prog A) w :
  run (fetchWithAuth url init ≫= k) w =
  call_run true (auth_request (storage w !! TOKEN_KEY) url init) k w.
Proof.
  rewrite run_bind, fetchWithAuth_run. unfold call_run, do_fetch.
  destruct (net _ _) as [res|]; [| done]. by destruct (rs_status res =? 401).
Qed.

Lemma run_plain_call `{Host} {A} rq (k : response -> prog A) w :
  run (fetch rq ≫= k) w = call_run false rq k w.
Proof. rewrite run_bind. cbn [run fetch]. unfold call_run, do_fetch. by destruct (net _ _). Qed.

Lemma run_void_auth `{Host} url init (k : response -> prog unit) w :
  run (void (fetchWithAuth url init ≫= k)) w =
  call_run true (auth_request (storage w !! TOKEN_KEY) url init) (fun r => void (k r)) w.
Proof.
  unfold void. rewrite run_bind, run_auth_call. unfold call_run, do_fetch.
  destruct (net _ _) as [res|]; [| done]. destruct (true && _); [done |]. by rewrite run_bind.
Qed.

Lemma run_void_plain `{Host} rq (k : response -> prog unit) w :
  run (void (fetch rq ≫= k)) w = call_run false rq (fun r => void (k r)) w.
Proof.
  unfold void. rewrite run_bind, run_plain_call. unfold call_run, do_fetch.
  destruct (net _ _) as [res|]; [| done]. cbn [andb]. by rewrite run_bind.
Qed.

(** The call that takes any answer for a success. *)
Definition ignores_status (c : call) : bool :=
  match c with CListReports _ => true | _ => false end.

(** What [perform] is, call by call. *)
Definition call_shape (BASE : string) (c : call) : Prop :=
  exists (rq : option string -> request) (k : response -> prog jsval),
    (forall (h : Host) w, run (perform BASE c) w =
       call_run (with_session c) (rq (storage w !! TOKEN_KEY)) k w) /\
    (forall r, quiet (k r)) /\
    (forall r, rs_ok r = false -> ignores_status c = false -> fails (k r)) /\
    (forallb safe_id (raw_ids c) = true -> body_ok c = true ->
     forall t, server_reads BASE (rq t) = Some (wire_endpoint (endpoint_of c))).

Lemma fails_check {A} r msg (p : prog A) : rs_ok r = false -> fails (check_ok r msg;; p).
Proof. intros H Hh w. unfold check_ok. rewrite H. by eexists. Qed.

Lemma fails_void_check r msg : rs_ok r = false -> fails (void (check_ok r msg)).
Proof. intros H Hh w. unfold check_ok, void. rewrite H. by eexists. Qed.

Lemma fails_error_of {A} v msg : fails (@throw_error_of A v msg).
Proof.
  intros Hh w. unfold throw_error_of. rewrite run_bind. unfold js_prop.
  destruct (get_prop v "error"); by eexists.
Qed.

Lemma quiet_error_of {A} v msg : quiet (@throw_error_of A v msg).
Proof. unfold throw_error_of. auto with quiet. Qed.

Lemma fails_bind {A B} (p : prog A) (f : A -> prog B) :
  quiet p -> (forall a, fails (f a)) -> fails (p ≫= f).
Proof.
  intros Hp Hf Hh w. rewrite run_bind. specialize (Hp Hh w).
  destruct (run p w) as [[a|e] w']; cbn in Hp; subst; [apply Hf | by eexists].
Qed.

Lemma fails_void p : fails p -> fails (void p).
Proof.
  intros Hp Hh w. unfold void. rewrite run_bind. destruct (Hp Hh w) as [e ->]. by eexists.
Qed.

#[export] Hint Resolve quiet_error_of fails_check fails_void_check fails_error_of : quiet.

Section shapes.
Context (BASE : string) (c : call).
Context (Hreads : request -> Prop).

Definition reads_as_endpoint (rq : request) : Prop :=
  forallb safe_id (raw_ids c) = true -> body_ok c = true ->
  server_reads BASE rq = Some (wire_endpoint (endpoint_of c)).

Lemma shape_auth url init k :
  perform BASE c = fetchWithAuth url init ≫= k -> with_session c = true ->
  (forall r, quiet (k r)) -> (forall r, rs_ok r = false -> ignores_status c = false -> fails (k r)) ->
  (forall t, reads_as_endpoint (auth_request t url init)) -> call_shape BASE c.
Proof.
  intros Hp Hs Hq Hf Hr. exists (fun t => auth_request t url init), k.
  split_and!; [| done | done | intros ? ? t; by apply Hr]. intros h w. rewrite Hp, Hs.
  apply run_auth_call.
Qed.

Lemma shape_void_auth url init k :
  perform BASE c = void (fetchWithAuth url init ≫= k) -> with_session c = true ->
  (forall r, quiet (k r)) -> (forall r, rs_ok r = false -> ignores_status c = false -> fails (k r)) ->
  (forall t, reads_as_endpoint (auth_request t url init)) -> call_shape BASE c.
Proof.
  intros Hp Hs Hq Hf Hr. exists (fun t => auth_request t url init), (fun r => void (k r)).
  split_and!; [| | | intros ? ? t; by apply Hr].
  - intros h w. rewrite Hp, Hs. apply run_void_auth.
  - intros r. unfold void. auto with quiet.
  - intros r H1 H2. by apply fails_void, Hf.
Qed.

Lemma shape_plain rq k :
  perform BASE c = fetch rq ≫= k -> with_session c = false ->
  (forall r, quiet (k r)) -> (forall r, rs_ok r = false -> ignores_status c = false -> fails (k r)) ->
  reads_as_endpoint rq -> call_shape BASE c.
Proof.
  intros Hp Hs Hq Hf Hr. exists (fun _ => rq), k.
  split_and!; [| done | done | intros ? ? t; by apply Hr]. intros h w. rewrite Hp, Hs.
  apply run_plain_call.
Qed.

Lemma shape_void_plain rq k :
  perform BASE c = void (fetch rq ≫= k) -> with_session c = false ->
  (forall r, quiet (k r)) -> (forall r, rs_ok r = false -> ignores_status c = false -> fails (k r)) ->
  reads_as_endpoint rq -> call_shape BASE c.
Proof.
  intros Hp Hs Hq Hf Hr. exists (fun _ => rq), (fun r => void (k r)).
  split_and!; [| | | intros ? ? t; by apply Hr].
  - intros h w. rewrite Hp, Hs. apply run_void_plain.
  - intros r. unfold void. auto with quiet.
  - intros r H1 H2. by apply fails_void, Hf.
Qed.
End shapes.

Ltac quiet_tac :=
  intros; cbn beta zeta; repeat (case_match; try discriminate); eauto 10 with quiet.

Ltac fails_tac :=
  let r := fresh "r" in let Hr := fresh "Hr" in
  intros r Hr ?; try discriminate; cbn beta; rewrite ?Hr; cbn [negb];
  repeat match goal with |- fails (if ?b then _ else _) => destruct b end;
  first [ by apply fails_check | by apply fails_void_check
        | by intros ? ?; eexists
        | by (unfold check_ok; rewrite Hr; intros ? ?; eexists)
        | apply fails_bind; [solve [auto with quiet] | intros; apply fails_error_of]
        | apply fails_bind; [solve [auto with quiet] | intros ? ? ?; by eexists] ].

(** *** The URL of a call against its endpoint *)

Lemma reads_endpoint BASE c rq raws qs :
  rq_url rq = BASE +:+ render_path raws +:+ qs -> raws <> [] ->
  (forallb safe_id (raw_ids c) = true -> Forall2 reads_segment raws (e_path (endpoint_of c))) ->
  (forallb safe_id (raw_ids c) = true -> reads_query qs (e_query (endpoint_of c))) ->
  rq_body rq = json_text <$> e_body (endpoint_of c) -> rq_method rq = e_method (endpoint_of c) ->
  reads_as_endpoint BASE c rq.
Proof.
  intros Hurl Hne Hsegs Hq Hbody Hm Hsafe Hok.
  rewrite (server_reads_request BASE rq raws (e_path (endpoint_of c)) qs
    (e_query (endpoint_of c)) (e_body (endpoint_of c))); auto.
  - by rewrite Hm.
  - intros b Hb. unfold body_ok in Hok. by rewrite Hb in Hok.
Qed.

Lemma literal_segment s : safe_id s = true -> reads_segment s s.
Proof. apply reads_segment_safe. Qed.

(** The segments: literals are safe, identifiers by hypothesis. *)
Ltac segments_tac :=
  cbn [raw_ids forallb endpoint_of e_path get delete_ send_]; rewrite ?andb_true_r; intros;
  bat_simpl; repeat constructor;
  first [assumption || (apply literal_segment; first [assumption | reflexivity])
        | apply reads_segment_encoded | idtac].

Ltac url_tac :=
  cbn [rq_url auth_request endpoint_of e_path get delete_ send_ render_path String.append];
  unfold members_url, monitors_base, webhooks_url;
  rewrite <- ?app_assoc_s; cbn [String.append]; rewrite ?app_nil_r_s; reflexivity.

Ltac endpoint_tac raws qs :=
  intros; apply (reads_endpoint _ _ _ raws qs);
  [ url_tac | discriminate | segments_tac | intros | try reflexivity | reflexivity ].

(** A call whose path is written as its endpoint's; [qs] is its query text. *)
Ltac shape_tac lemma c qs :=
  eapply lemma; [reflexivity | reflexivity | quiet_tac | fails_tac |];
  endpoint_tac (e_path (endpoint_of c)) qs.

Ltac nodup_tac := apply (bool_decide_unpack _); vm_compute; exact I.

Ltac options_tac := repeat match goal with o : option string |- _ => destruct o as [[|? ?]|] end; reflexivity.

Lemma insights_search_spec p q e :
  insights_search p q e = (opt_param "project_id" p ++ [("period", q)] ++ opt_param "environment" e)%list.
Proof. options_tac. Qed.

Lemma affected_search_spec p q m s e :
  affected_search p q m s e =
  ([("project_id", p); ("path", q)] ++ opt_param "method" m ++ opt_param "start" s ++
   opt_param "end" e)%list.
Proof. options_tac. Qed.

Lemma stats_search_spec p e :
  set_if "environment" (jstr_opt e) (set_if "project_id" (jstr_opt p) []) =
  (opt_param "project_id" p ++ opt_param "environment" e)%list.
Proof. options_tac. Qed.

Lemma history_search_spec p s e n :
  history_search p s e n =
  ([("project_id", p)] ++ opt_param "start_date" s ++ opt_param "end_date" e ++
   opt_param "environment" n)%list.
Proof. options_tac. Qed.

(** *** The shapes, call by call *)

Create HintDb shapes discriminated.

Lemma shape_ListAudit BASE p : call_shape BASE (CListAudit p).
Proof. shape_tac shape_auth (CListAudit p) (query_of (search_of list_audit_fields p)). rewrite search_of_fields by nodup_tac. apply reads_query_of. Qed.
#[export] Hint Resolve shape_ListAudit : shapes.

Lemma shape_GetAuditDetail BASE id : call_shape BASE (CGetAuditDetail id).
Proof. shape_tac shape_auth (CGetAuditDetail id) "". apply reads_query_none. Qed.
#[export] Hint Resolve shape_GetAuditDetail : shapes.

Lemma shape_GetInsights BASE p q e : call_shape BASE (CGetInsights p q e).
Proof. shape_tac shape_auth (CGetInsights p q e) ("?" +:+ params_to_string (insights_search p q e)). rewrite insights_search_spec. apply reads_query_params. Qed.
#[export] Hint Resolve shape_GetInsights : shapes.

Lemma shape_GetAffectedUsers BASE p q m s e : call_shape BASE (CGetAffectedUsers p q m s e).
Proof. shape_tac shape_auth (CGetAffectedUsers p q m s e) ("?" +:+ params_to_string (affected_search p q m s e)). rewrite affected_search_spec. apply reads_query_params. Qed.
#[export] Hint Resolve shape_GetAffectedUsers : shapes.

Lemma shape_GetOrphans BASE f : call_shape BASE (CGetOrphans f).
Proof. shape_tac shape_auth (CGetOrphans f) (query_of (search_of orphan_fields f)). rewrite search_of_fields by nodup_tac. apply reads_query_of. Qed.
#[export] Hint Resolve shape_GetOrphans : shapes.

Lemma shape_GetSessionByID BASE id : call_shape BASE (CGetSessionByID id).
Proof.
  eapply shape_auth; [reflexivity | reflexivity | quiet_tac | fails_tac |].
  endpoint_tac ["v1"; "audit"; "sessions"; encode_uri_component id] "". apply reads_query_none.
Qed.
#[export] Hint Resolve shape_GetSessionByID : shapes.

Lemma shape_GetSessions BASE f : call_shape BASE (CGetSessions f).
Proof. shape_tac shape_auth (CGetSessions f) (query_of (search_of session_fields f)). rewrite search_of_fields by nodup_tac. apply reads_query_of. Qed.
#[export] Hint Resolve shape_GetSessions : shapes.

Lemma shape_GetAuditStats BASE p e : call_shape BASE (CGetAuditStats p e).
Proof. shape_tac shape_auth (CGetAuditStats p e) (query_of (set_if "environment" (jstr_opt e) (set_if "project_id" (jstr_opt p) []))). rewrite stats_search_spec. apply reads_query_of. Qed.
#[export] Hint Resolve shape_GetAuditStats : shapes.

Lemma shape_Logout BASE  : call_shape BASE CLogout.
Proof. shape_tac shape_void_auth CLogout "". apply reads_query_none. Qed.
#[export] Hint Resolve shape_Logout : shapes.

Lemma shape_GetHealthDetails BASE  : call_shape BASE CGetHealthDetails.
Proof. shape_tac shape_plain CGetHealthDetails "". apply reads_query_none. Qed.
#[export] Hint Resolve shape_GetHealthDetails : shapes.

Lemma shape_ListAPIKeys BASE p : call_shape BASE (CListAPIKeys p).
Proof. shape_tac shape_auth (CListAPIKeys p) ("?project_id=" +:+ p). cbn in *. bat_simpl. by apply reads_raw_project_id. Qed.
#[export] Hint Resolve shape_ListAPIKeys : shapes.

Lemma shape_CreateAPIKey BASE p n : call_shape BASE (CCreateAPIKey p n).
Proof. shape_tac shape_auth (CCreateAPIKey p n) "". apply reads_query_none. Qed.
#[export] Hint Resolve shape_CreateAPIKey : shapes.

Lemma shape_RevokeAPIKey BASE id : call_shape BASE (CRevokeAPIKey id).
Proof. shape_tac shape_void_auth (CRevokeAPIKey id) "". apply reads_query_none. Qed.
#[export] Hint Resolve shape_RevokeAPIKey : shapes.

Lemma shape_ListMembers BASE p : call_shape BASE (CListMembers p).
Proof. shape_tac shape_auth (CListMembers p) "". apply reads_query_none. Qed.
#[export] Hint Resolve shape_ListMembers : shapes.

Lemma shape_AddMember BASE p e r : call_shape BASE (CAddMember p e r).
Proof. shape_tac shape_void_auth (CAddMember p e r) "". apply reads_query_none. Qed.
#[export] Hint Resolve shape_AddMember : shapes.

Lemma shape_UpdateMemberRole BASE p u r : call_shape BASE (CUpdateMemberRole p u r).
Proof. shape_tac shape_void_auth (CUpdateMemberRole p u r) "". apply reads_query_none. Qed.
#[export] Hint Resolve shape_UpdateMemberRole : shapes.

Lemma shape_RemoveMember BASE p u : call_shape BASE (CRemoveMember p u).
Proof. shape_tac shape_void_auth (CRemoveMember p u) "". apply reads_query_none. Qed.
#[export] Hint Resolve shape_RemoveMember : shapes.

Lemma shape_ListProjects BASE  : call_shape BASE CListProjects.
Proof. shape_tac shape_auth CListProjects "". apply reads_query_none. Qed.
#[export] Hint Resolve shape_ListProjects : shapes.

Lemma shape_CreateProject BASE n s : call_shape BASE (CCreateProject n s).
Proof. shape_tac shape_auth (CCreateProject n s) "". apply reads_query_none. Qed.
#[export] Hint Resolve shape_CreateProject : shapes.

Lemma shape_ListMonitors BASE p : call_shape BASE (CListMonitors p).
Proof. shape_tac shape_auth (CListMonitors p) (project_query p). apply reads_project_query. Qed.
#[export] Hint Resolve shape_ListMonitors : shapes.

Lemma shape_CreateMonitor BASE b : call_shape BASE (CCreateMonitor b).
Proof. shape_tac shape_auth (CCreateMonitor b) "". apply reads_query_none. Qed.
#[export] Hint Resolve shape_CreateMonitor : shapes.

Lemma shape_UpdateMonitor BASE id b : call_shape BASE (CUpdateMonitor id b).
Proof. shape_tac shape_auth (CUpdateMonitor id b) "". apply reads_query_none. Qed.
#[export] Hint Resolve shape_UpdateMonitor : shapes.

Lemma shape_DeleteMonitor BASE id : call_shape BASE (CDeleteMonitor id).
Proof. shape_tac shape_void_auth (CDeleteMonitor id) "". apply reads_query_none. Qed.
#[export] Hint Resolve shape_DeleteMonitor : shapes.

Lemma shape_TestMonitor BASE id : call_shape BASE (CTestMonitor id).
Proof. shape_tac shape_auth (CTestMonitor id) "". apply reads_query_none. Qed.
#[export] Hint Resolve shape_TestMonitor : shapes.

Lemma shape_ListMonitorHistory BASE id l : call_shape BASE (CListMonitorHistory id l).
Proof. shape_tac shape_auth (CListMonitorHistory id l) ("?limit=" +:+ string_of_Z l). apply reads_limit. Qed.
#[export] Hint Resolve shape_ListMonitorHistory : shapes.

Lemma shape_ListInvites BASE  : call_shape BASE CListInvites.
Proof. shape_tac shape_auth CListInvites "". apply reads_query_none. Qed.
#[export] Hint Resolve shape_ListInvites : shapes.

Lemma shape_CreateInvite BASE e r : call_shape BASE (CCreateInvite e r).
Proof. shape_tac shape_auth (CCreateInvite e r) "". apply reads_query_none. Qed.
#[export] Hint Resolve shape_CreateInvite : shapes.

Lemma shape_RevokeInvite BASE id : call_shape BASE (CRevokeInvite id).
Proof. shape_tac shape_void_auth (CRevokeInvite id) "". apply reads_query_none. Qed.
#[export] Hint Resolve shape_RevokeInvite : shapes.

Lemma shape_GetInvitePreview BASE t : call_shape BASE (CGetInvitePreview t).
Proof. shape_tac shape_plain (CGetInvitePreview t) "". apply reads_query_none. Qed.
#[export] Hint Resolve shape_GetInvitePreview : shapes.

Lemma shape_AcceptInvite BASE t n p : call_shape BASE (CAcceptInvite t n p).
Proof. shape_tac shape_void_plain (CAcceptInvite t n p) "". apply reads_query_none. Qed.
#[export] Hint Resolve shape_AcceptInvite : shapes.

Lemma shape_GetVapidPublicKey BASE  : call_shape BASE CGetVapidPublicKey.
Proof. shape_tac shape_auth CGetVapidPublicKey "". apply reads_query_none. Qed.
#[export] Hint Resolve shape_GetVapidPublicKey : shapes.

Lemma shape_SubscribePush BASE p s : call_shape BASE (CSubscribePush p s).
Proof. shape_tac shape_auth (CSubscribePush p s) "". apply reads_query_none. Qed.
#[export] Hint Resolve shape_SubscribePush : shapes.

Lemma shape_UnsubscribePush BASE p c : call_shape BASE (CUnsubscribePush p c).
Proof. shape_tac shape_void_auth (CUnsubscribePush p c) "". apply reads_query_none. Qed.
#[export] Hint Resolve shape_UnsubscribePush : shapes.

Lemma shape_ListWebhooks BASE p : call_shape BASE (CListWebhooks p).
Proof. shape_tac shape_auth (CListWebhooks p) ("?project_id=" +:+ encode_uri_component p). apply reads_project_id. Qed.
#[export] Hint Resolve shape_ListWebhooks : shapes.

Lemma shape_CreateWebhook BASE p u s : call_shape BASE (CCreateWebhook p u s).
Proof. shape_tac shape_auth (CCreateWebhook p u s) "". { apply reads_query_none. } by destruct s. Qed.
#[export] Hint Resolve shape_CreateWebhook : shapes.

Lemma shape_DeleteWebhook BASE p w : call_shape BASE (CDeleteWebhook p w).
Proof. shape_tac shape_void_auth (CDeleteWebhook p w) ("?project_id=" +:+ encode_uri_component p). apply reads_project_id. Qed.
#[export] Hint Resolve shape_DeleteWebhook : shapes.

Lemma shape_TestWebhook BASE p w : call_shape BASE (CTestWebhook p w).
Proof. shape_tac shape_auth (CTestWebhook p w) ("?project_id=" +:+ encode_uri_component p). apply reads_project_id. Qed.
#[export] Hint Resolve shape_TestWebhook : shapes.

Lemma shape_ListDeliveries BASE w : call_shape BASE (CListDeliveries w).
Proof. shape_tac shape_auth (CListDeliveries w) "". apply reads_query_none. Qed.
#[export] Hint Resolve shape_ListDeliveries : shapes.

Lemma shape_RunQuery BASE s : call_shape BASE (CRunQuery s).
Proof. shape_tac shape_auth (CRunQuery s) "". apply reads_query_none. Qed.
#[export] Hint Resolve shape_RunQuery : shapes.

Lemma shape_ListReports BASE p : call_shape BASE (CListReports p).
Proof. shape_tac shape_auth (CListReports p) (project_query p). apply reads_project_query. Qed.
#[export] Hint Resolve shape_ListReports : shapes.

Lemma shape_GetReport BASE id : call_shape BASE (CGetReport id).
Proof. shape_tac shape_auth (CGetReport id) "". apply reads_query_none. Qed.
#[export] Hint Resolve shape_GetReport : shapes.

Lemma shape_CreateReport BASE i : call_shape BASE (CCreateReport i).
Proof. shape_tac shape_auth (CCreateReport i) "". apply reads_query_none. Qed.
#[export] Hint Resolve shape_CreateReport : shapes.

Lemma shape_UpdateReport BASE id i : call_shape BASE (CUpdateReport id i).
Proof. shape_tac shape_void_auth (CUpdateReport id i) "". apply reads_query_none. Qed.
#[export] Hint Resolve shape_UpdateReport : shapes.

Lemma shape_DeleteReport BASE id : call_shape BASE (CDeleteReport id).
Proof. shape_tac shape_void_auth (CDeleteReport id) "". apply reads_query_none. Qed.
#[export] Hint Resolve shape_DeleteReport : shapes.

Lemma shape_GetAuditHistory BASE p s e n : call_shape BASE (CGetAuditHistory p s e n).
Proof. shape_tac shape_auth (CGetAuditHistory p s e n) ("?" +:+ params_to_string (history_search p s e n)). rewrite history_search_spec. apply reads_query_params. Qed.
#[export] Hint Resolve shape_GetAuditHistory : shapes.

Lemma shape_GetUsageStat BASE p : call_shape BASE (CGetUsageStat p).
Proof. shape_tac shape_auth (CGetUsageStat p) ("?project_id=" +:+ encode_uri_component p). apply reads_project_id. Qed.
#[export] Hint Resolve shape_GetUsageStat : shapes.

Lemma shape_ListUsers BASE  : call_shape BASE CListUsers.
Proof. shape_tac shape_auth CListUsers "". apply reads_query_none. Qed.
#[export] Hint Resolve shape_ListUsers : shapes.

Lemma shape_CreateUser BASE p : call_shape BASE (CCreateUser p).
Proof. shape_tac shape_auth (CCreateUser p) "". apply reads_query_none. Qed.
#[export] Hint Resolve shape_CreateUser : shapes.

Lemma shape_DeleteUser BASE id : call_shape BASE (CDeleteUser id).
Proof. shape_tac shape_void_auth (CDeleteUser id) "". apply reads_query_none. Qed.
#[export] Hint Resolve shape_DeleteUser : shapes.

Lemma call_shapes BASE c : call_shape BASE c.
Proof. destruct c; auto with shapes. Qed.

(** ** Properties *)

Definition demo_host : Host :=
  {| net := fun _ _ => Some (Response 500 "{}"); uuid_at := fun _ => "u"; latency := fun _ => 1 |}.

Definition demo_world : world := World {[TOKEN_KEY := "t"]} 0 0 [].

(** A call is one request that reads as its endpoint. *)
Lemma one_request `{Host} BASE c w :
  forallb safe_id (raw_ids c) = true -> body_ok c = true ->
  exists rq tail,
    trace (run (perform BASE c) w).2 = (trace w ++ EvFetch rq :: tail)%list /\
    (tail = [] \/ tail = [EvNavigate "/login"]) /\
    server_reads BASE rq = Some (wire_endpoint (endpoint_of c)).
Proof.
  intros Hsafe Hok. destruct (call_shapes BASE c) as (rq & k & Hrun & Hq & _ & Hr).
  rewrite Hrun. unfold call_run, do_fetch. set (rq0 := rq (storage w !! TOKEN_KEY)).
  exists rq0, (match net (trace w) rq0 with
               | Some res => if with_session c && (rs_status res =? 401)
                             then [EvNavigate "/login"] else []
               | None => []
               end).
  split_and!; [| repeat case_match; auto | by apply Hr].
  destruct (net (trace w) rq0) as [res|]; [| done].
  destruct (with_session c && _); [cbn; by rewrite <- app_assoc | by rewrite Hq].
Qed.

(** C6 The contract with the server: whatever the call and its arguments, the
    dashboard makes exactly one request, and a server that splits the path,
    decodes its segments, parses the query string and the JSON body reads the
    method, path, parameters and body that the call means, a filter being there
    exactly when it is set and whatever characters its value has.  The
    identifiers the code puts into a path as they are must be free of URL
    syntax, as UUIDs and hexadecimal tokens are. *)
Theorem api_contract `{Host} BASE c w :
  forallb safe_id (raw_ids c) = true -> body_ok c = true ->
  exists rq tail,
    trace (run (perform BASE c) w).2 = (trace w ++ EvFetch rq :: tail)%list /\
    (tail = [] \/ tail = [EvNavigate "/login"]) /\
    server_reads BASE rq = Some (wire_endpoint (endpoint_of c)).
Proof. apply one_request. Qed.

Lemma api_contract_witness :
  exists rq tail,
    trace (@run demo_host _ (perform "" (CListAudit (Some [("path", JStr "/a b&c")]))) demo_world).2
      = (EvFetch rq :: tail)%list /\
    (tail = [] \/ tail = [EvNavigate "/login"]) /\
    server_reads "" rq = Some {| e_method := "GET"; e_path := ["v1"; "audit"];
                                 e_query := [("path", "/a b&c")]; e_body := None |}.
Proof.
  apply (@api_contract demo_host "" (CListAudit (Some [("path", JStr "/a b&c")])) demo_world);
    reflexivity.
Defined.

(** C10 How an answer becomes a result: a failed [fetch] rejects; an answer 401 to
    a call of the session clears it, sends the browser to the login page and
    rejects; apart from that the storage is untouched, and any other status that
    is not ok rejects, for every call except the list of reports. *)
Theorem api_errors `{Host} BASE c w :
  exists rq, let '(o, w') := run (perform BASE c) w in
  match net (trace w) rq with
  | None => o = Err network_error /\ storage w' = storage w
  | Some res =>
      if with_session c && (rs_status res =? 401) then
        o = Err (new_error "Unauthorized") /\ storage w' !! TOKEN_KEY = None /\
        storage w' !! USER_KEY = None /\ other_keys w w'
      else
        storage w' = storage w /\
        (rs_ok res = false -> ignores_status c = false -> exists e, o = Err e)
  end.
Proof.
  destruct (call_shapes BASE c) as (rq & k & Hrun & Hq & Hf & _). rewrite Hrun.
  unfold call_run, do_fetch. set (rq0 := rq (storage w !! TOKEN_KEY)). exists rq0.
  destruct (net (trace w) rq0) as [res|] eqn:Hnet; [| done].
  destruct (with_session c && (rs_status res =? 401)) eqn:H401; cbn [andb] in *.
  - destruct (cleared_lookup (tick (latency (trace w)) (log (EvFetch rq0) w))) as (H1 & H2 & H3).
    done.
  - set (w1 := tick _ _). specialize (Hq res H w1) as Hqw. specialize (Hf res).
    destruct (run (k res) w1) as [o w'] eqn:Hk. cbn in Hqw. subst w'.
    split; [done |]. intros Hno Hig. destruct (Hf Hno Hig H w1) as [e He]. exists e. congruence.
Qed.

(** The list of reports takes a failure for an empty list: an answer with any
    status but 401 whose body is JSON without a [data] member gives no report
    and no error. *)
Theorem listReports_ignores_status `{Host} BASE projectId w res o :
  (forall rq, net (trace w) rq = Some res) ->
  rs_status res <> 401 -> json_parse (rs_body res) = Some (JObj o) -> obj_get "data" o = JUndef ->
  (run (listReports BASE projectId) w).1 = Ok (JArr []).
Proof.
  intros Hnet Hst Hj Hd. unfold listReports. rewrite run_auth_call. unfold call_run, do_fetch.
  rewrite Hnet. cbn [andb]. rewrite (proj2 (Z.eqb_neq _ _) Hst).
  rewrite run_bind. unfold res_json. rewrite Hj. cbn [run]. unfold opt_prop. cbn. by rewrite Hd.
Qed.

Lemma listReports_ignores_status_witness :
  rs_ok (Response 500 "{}") = false /\
  (@run demo_host _ (listReports "" None) demo_world).1 = Ok (JArr []).
Proof.
  split; [reflexivity |].
  by apply (@listReports_ignores_status demo_host "" None demo_world (Response 500 "{}") []).
Defined.
