(* ===== verification/Wallboard.v ===== *)
(** * The wallboard client (frontend/src/http/wallboard.ts)

    A television signs in with a code and keeps its own tokens in
    [localStorage]: a short access token, which [wbFetch] renews in time, and a
    long refresh token. *)

From S2P Require Import Prelude JsString JsValue JsonParse Encoding Numbers Host Session HttpApi.

Local Open Scope string_scope.
Local Open Scope Z_scope.

(** ** Tokens *)

Definition WB_ACCESS_KEY : string := "wb_access_token".
Definition WB_REFRESH_KEY : string := "wb_refresh_token".
Definition WB_PROJECT_KEY : string := "wb_project_id".
Definition WB_EXPIRES_KEY : string := "wb_expires_at".
Definition WB_PROFILE_KEY : string := "wb_profile_name".

Record WbTokens := {
  access : option string;
  refresh : option string;
  projectId : option string;
  expiresAt : num;
  profileName : string
}.

Definition getWbTokens : prog WbTokens :=
  a ← get_item WB_ACCESS_KEY;
  r ← get_item WB_REFRESH_KEY;
  p ← get_item WB_PROJECT_KEY;
  e ← get_item WB_EXPIRES_KEY;
  n ← get_item WB_PROFILE_KEY;
  mret {| access := a; refresh := r; projectId := p;
          expiresAt := match e with Some s => string_to_number s | None => Num 0 0 end;
          profileName := default "" n |}.

Definition clearWbTokens : prog unit :=
  remove_item WB_ACCESS_KEY;;
  remove_item WB_REFRESH_KEY;;
  remove_item WB_PROJECT_KEY;;
  remove_item WB_EXPIRES_KEY;;
  remove_item WB_PROFILE_KEY.

(** The arguments come from an answer, untyped; [setItem] stores their text. *)
Definition saveTokens (access refresh projectId expiresIn profileName : jsval) : prog unit :=
  set_item WB_ACCESS_KEY (js_string access);;
  (if truthy refresh then set_item WB_REFRESH_KEY (js_string refresh) else mret tt);;
  set_item WB_PROJECT_KEY (js_string projectId);;
  now ← date_now;
  set_item WB_EXPIRES_KEY
    (string_of_num (num_add (Num now 0) (num_mul (to_number expiresIn) (Num 1000 0))));;
  match profileName with
  | JUndef => mret tt
  | v => set_item WB_PROFILE_KEY (js_string v)
  end.

Section wallboard.
Context (BASE : string).

Definition activate (code : string) : prog jsval :=
  res ← fetch {| rq_url := BASE +:+ "/v1/wallboard/activate"; rq_method := "POST";
                 rq_headers := json_headers;
                 rq_body := Some (json_text (JObj [("code", JStr code)])) |};
  check_ok res "Invalid or expired code";;
  data ← res_json res;
  a ← js_prop data "access_token";
  r ← js_prop data "refresh_token";
  p ← js_prop data "project_id";
  e ← js_prop data "expires_in";
  n ← js_prop data "profile_name";
  saveTokens a r (coalesce p (JStr "")) e (coalesce n (JStr ""));;
  mret data.

Definition refresh_request (token : string) : request :=
  {| rq_url := BASE +:+ "/v1/wallboard/refresh"; rq_method := "POST"; rq_headers := json_headers;
     rq_body := Some (json_text (JObj [("refresh_token", JStr token)])) |}.

Definition refreshAccessToken : prog jsval :=
  tokens ← getWbTokens;
  match some_text (refresh tokens) with
  | None => mret JNull
  | Some token =>
      res ← fetch (refresh_request token);
      if negb (rs_ok res) then clearWbTokens;; mret JNull
      else
        data ← res_json res;
        a ← js_prop data "access_token";
        p ← js_prop data "project_id";
        e ← js_prop data "expires_in";
        saveTokens a JNull (coalesce p (JStr "")) e JUndef;;
        js_prop data "access_token"
  end.

(** Less than five minutes are left. *)
Definition must_renew (tokens : WbTokens) (now : Z) : bool :=
  match some_text (access tokens) with
  | None => true
  | Some _ => num_lt (num_sub (expiresAt tokens) (Num (5 * 60 * 1000) 0)) (Num now 0)
  end.

Definition wb_search (projectId environment : option string) : params :=
  set_if "environment" (jstr_opt environment) (set_if "project_id" (jstr_opt projectId) []).

(** [params.toString() ? `?${params.toString()}` : ''] *)
Definition wb_query (ps : params) : string :=
  if str_truthy (params_to_string ps) then "?" +:+ params_to_string ps else "".

Definition wb_request (path qs : string) (access : jsval) : request :=
  {| rq_url := BASE +:+ path +:+ qs; rq_method := "GET";
     rq_headers := [("Authorization", "Bearer " +:+ js_string access)]; rq_body := None |}.

Definition wbFetch (path : string) (projectId environment : option string) : prog response :=
  tokens ← getWbTokens;
  now ← date_now;
  access ← (if must_renew tokens now then
              renewed ← refreshAccessToken;
              if truthy renewed then mret renewed else Throw (new_error "unauthenticated")
            else mret (jstr_opt (access tokens)));
  fetch (wb_request path (wb_query (wb_search projectId environment)) access).

(** ** Data *)

Definition wb_get (path : string) (projectId environment : option string) (msg : string)
    : prog jsval :=
  res ← wbFetch path projectId environment;
  check_ok res msg;;
  res_json res.

Definition getWbSummary (projectId environment : option string) : prog jsval :=
  wb_get "/v1/wallboard/summary" projectId environment "Failed to fetch summary".
Definition getWbFeed (projectId environment : option string) : prog jsval :=
  wb_get "/v1/wallboard/feed" projectId environment "Failed to fetch feed".
Definition getWbVolume (projectId environment : option string) : prog jsval :=
  wb_get "/v1/wallboard/volume" projectId environment "Failed to fetch volume".
Definition getWbHealth (projectId : option string) : prog jsval :=
  wb_get "/v1/wallboard/health" projectId None "Failed to fetch health".
Definition getWbAlerts (projectId environment : option string) : prog jsval :=
  wb_get "/v1/wallboard/alerts" projectId environment "Failed to fetch alerts".
Definition getWbErrorRoutes (projectId environment : option string) : prog jsval :=
  wb_get "/v1/wallboard/error-routes" projectId environment "Failed to fetch error routes".
Definition getWbProjects : prog jsval :=
  wb_get "/v1/wallboard/projects" None None "Failed to fetch projects".
Definition getWbGrid (environment : option string) : prog jsval :=
  wb_get "/v1/wallboard/grid" None environment "Failed to fetch grid".

(** ** Management *)

Definition listWbTokens (projectId : option string) : prog jsval :=
  res ← fetchWithAuth (BASE +:+ "/v1/wallboard/tokens" +:+ project_query projectId) no_init;
  check_ok res "Failed to list tokens";;
  res_json res.

Definition generateWbCode (projectId name : option string) : prog jsval :=
  res ← fetchWithAuth (BASE +:+ "/v1/wallboard/token")
    (json_init "POST" (JObj [("project_id", JStr (default "" projectId));
                             ("name", JStr (default "" name))]));
  check_ok res "Failed to generate code";;
  res_json res.

Definition revokeWbCode (id : string) : prog unit :=
  _ ← fetchWithAuth (BASE +:+ "/v1/wallboard/token?id=" +:+ encode_uri_component id)
        (method_init "DELETE");
  mret tt.
End wallboard.

(** ** Lemmas *)

(** The tokens a storage holds. *)
Definition tokens_of (m : gmap string string) : WbTokens :=
  {| access := m !! WB_ACCESS_KEY; refresh := m !! WB_REFRESH_KEY;
     projectId := m !! WB_PROJECT_KEY;
     expiresAt := match m !! WB_EXPIRES_KEY with Some s => string_to_number s | None => Num 0 0 end;
     profileName := default "" (m !! WB_PROFILE_KEY) |}.

Lemma getWbTokens_run `{Host} w : run getWbTokens w = (Ok (tokens_of (storage w)), w).
Proof. done. Qed.

(** The storage without the tokens. *)
Definition wb_cleared (w : world) : world :=
  with_storage (delete WB_PROFILE_KEY) (with_storage (delete WB_EXPIRES_KEY)
    (with_storage (delete WB_PROJECT_KEY) (with_storage (delete WB_REFRESH_KEY)
      (with_storage (delete WB_ACCESS_KEY) w)))).

Lemma clearWbTokens_run `{Host} w : run clearWbTokens w = (Ok tt, wb_cleared w).
Proof. done. Qed.

(** The storage after [saveTokens]. *)
Definition wb_saved (a r p e n : jsval) (w : world) : world :=
  let w1 := with_storage <[WB_ACCESS_KEY := js_string a]> w in
  let w2 := if truthy r then with_storage <[WB_REFRESH_KEY := js_string r]> w1 else w1 in
  let w3 := with_storage <[WB_PROJECT_KEY := js_string p]> w2 in
  let w4 := with_storage <[WB_EXPIRES_KEY :=
    string_of_num (num_add (Num (clock w) 0) (num_mul (to_number e) (Num 1000 0)))]> w3 in
  match n with JUndef => w4 | v => with_storage <[WB_PROFILE_KEY := js_string v]> w4 end.

Lemma saveTokens_run `{Host} a r p e n w : run (saveTokens a r p e n) w = (Ok tt, wb_saved a r p e n w).
Proof.
  unfold saveTokens, wb_saved. rewrite run_bind. cbn [run set_item].
  rewrite run_bind. destruct (truthy r); destruct n; done.
Qed.

#[export] Hint Rewrite @getWbTokens_run @clearWbTokens_run @saveTokens_run : run.

Ltac storage_tac :=
  repeat first [ rewrite lookup_insert_eq | rewrite lookup_insert_ne by done
               | rewrite lookup_delete_eq | rewrite lookup_delete_ne by done ]; try done.

Lemma wb_saved_tokens a r p e n w :
  tokens_of (storage (wb_saved a r p e n w)) =
  {| access := Some (js_string a);
     refresh := if truthy r then Some (js_string r) else refresh (tokens_of (storage w));
     projectId := Some (js_string p);
     expiresAt := string_to_number
       (string_of_num (num_add (Num (clock w) 0) (num_mul (to_number e) (Num 1000 0))));
     profileName := match n with JUndef => profileName (tokens_of (storage w)) | v => js_string v end |}.
Proof.
  unfold wb_saved, tokens_of. cbn zeta.
  destruct (truthy r); destruct n; cbn [storage with_storage]; f_equal; storage_tac.
Qed.

Lemma wb_saved_clock a r p e n w : clock (wb_saved a r p e n w) = clock w.
Proof. unfold wb_saved. cbn zeta. by destruct (truthy r), n. Qed.

(** The requests of the data calls read as their path and parameters. *)
Lemma wb_query_of ps : wb_query ps = query_of ps.
Proof.
  unfold wb_query, query_of, str_truthy. destruct ps as [|kv ps]; [done |].
  destruct (String.eqb_spec (params_to_string (kv :: ps)) "") as [E|]; [| done].
  by apply params_to_string_nil in E.
Qed.

(** ** Properties *)

(** How the renewal of the access token ends: the new token, or what is thrown. *)
Definition renewal `{Host} (BASE : string) (w : world) : outcome jsval * world :=
  match some_text (refresh (tokens_of (storage w))) with
  | None => (Err (new_error "unauthenticated"), w)
  | Some token =>
      let '(r, w1) := do_fetch (refresh_request BASE token) w in
      match r with
      | None => (Err network_error, w1)
      | Some res =>
          if rs_ok res then
            match json_parse (rs_body res) with
            | None => (Err syntax_error, w1)
            | Some data =>
                match get_prop data "access_token", get_prop data "project_id",
                      get_prop data "expires_in" with
                | Some a, Some p, Some e =>
                    let w2 := wb_saved a JNull (coalesce p (JStr "")) e JUndef w1 in
                    if truthy a then (Ok a, w2) else (Err (new_error "unauthenticated"), w2)
                | _, _, _ => (Err (type_error "access_token"), w1)
                end
            end
          else (Err (new_error "unauthenticated"), wb_cleared w1)
      end
  end.

Lemma refreshAccessToken_run `{Host} BASE w :
  run (renewed ← refreshAccessToken BASE;
       if truthy renewed then mret renewed else Throw (new_error "unauthenticated")) w =
  renewal BASE w.
Proof.
  unfold refreshAccessToken, renewal. rewrite run_bind, run_bind, getWbTokens_run.
  destruct (some_text _) as [token|]; [| done]. rewrite run_bind. cbn [run fetch]. unfold do_fetch.
  destruct (net _ _) as [res|]; [| done]. cbn [run]. destruct (rs_ok res); cbn [negb]; [| done].
  rewrite run_bind. unfold res_json. destruct (json_parse (rs_body res)) as [data|]; [| done].
  cbn [run]. unfold js_prop.
  destruct data as [| |b|n|s|l|o]; cbn [get_prop]; try done;
    rewrite ?run_bind; cbn [run]; rewrite ?run_bind; cbn [run]; rewrite ?run_bind; cbn [run];
    rewrite ?run_bind, saveTokens_run; cbn [run]; [done..|].
  by destruct (truthy (obj_get "access_token" o)).
Qed.

(** Every data call of the wallboard: while more than five minutes are left
    the stored access token is used, in one request; otherwise it is renewed
    first with the refresh token, and the request carries the new one.  Without
    a refresh token, or when the server refuses it, the call rejects with
    unauthenticated and no data is asked for; a refusal removes every token, a
    network failure keeps them.  The parameters are those that are set. *)
Theorem wbFetch_spec `{Host} BASE path projectId environment w :
  let t := tokens_of (storage w) in
  let rq a := wb_request BASE path (wb_query (wb_search projectId environment)) a in
  run (wbFetch BASE path projectId environment) w =
    (if must_renew t (clock w) then
       match renewal BASE w with
       | (Ok a, w') => run (fetch (rq a)) w'
       | (Err e, w') => (Err e, w')
       end
     else run (fetch (rq (jstr_opt (access t)))) w) /\
  params_parse (params_to_string (wb_search projectId environment)) =
    Some (match some_text projectId with Some p => [("project_id", p)] | None => [] end ++
          match some_text environment with Some e => [("environment", e)] | None => [] end)%list /\
  wb_query (wb_search projectId environment) = query_of (wb_search projectId environment).
Proof.
  cbn zeta. split_and!.
  - unfold wbFetch. rewrite run_bind, getWbTokens_run, run_bind. cbn [run date_now].
    destruct (must_renew _ _).
    + rewrite run_bind, refreshAccessToken_run. by destruct (renewal BASE w) as [[a|e] w'].
    + by rewrite run_bind.
  - rewrite params_parse_to_string. f_equal.
    by destruct projectId as [[|? ?]|], environment as [[|? ?]|].
  - apply wb_query_of.
Qed.

(** Signing a television in: an answer with string tokens and a whole life
    time stores all of them, the tokens read back are the answer's, and the
    access token is renewed exactly when fewer than five minutes of its life
    time are left. *)
Theorem activate_tokens `{Host} BASE code w res o a r p n e :
  0 <= clock w -> 0 <= latency (trace w) -> 0 <= e ->
  (forall rq, net (trace w) rq = Some res) -> rs_ok res = true ->
  json_parse (rs_body res) = Some (JObj o) ->
  obj_get "access_token" o = JStr a -> obj_get "refresh_token" o = JStr r ->
  obj_get "project_id" o = JStr p -> obj_get "profile_name" o = JStr n ->
  obj_get "expires_in" o = JInt e -> str_truthy a = true -> str_truthy r = true ->
  exists w', run (activate BASE code) w = (Ok (JObj o), w') /\
    let t := tokens_of (storage w') in
    access t = Some a /\ refresh t = Some r /\ projectId t = Some p /\ profileName t = n /\
    expiresAt t = Num (clock w' + e * 1000) 0 /\
    forall now, must_renew t now = true <-> clock w' + e * 1000 - 300000 < now.
Proof.
  intros Hc Hl He Hnet Hok Hj Ha Hr Hp Hn Hexp Hta Htr.
  exists (wb_saved (JStr a) (JStr r) (JStr p) (JInt e) (JStr n)
    (tick (latency (trace w)) (log (EvFetch {| rq_url := BASE +:+ "/v1/wallboard/activate";
       rq_method := "POST"; rq_headers := json_headers;
       rq_body := Some (json_text (JObj [("code", JStr code)])) |}) w))). split.
  - unfold activate. rewrite run_bind. cbn [run fetch]. unfold do_fetch. rewrite Hnet. cbn [run].
    unfold check_ok. rewrite Hok, run_bind. cbn [run mret prog_ret]. rewrite run_bind.
    unfold res_json. rewrite Hj. cbn [run]. unfold js_prop. cbn [get_prop].
    rewrite Ha, Hr, Hp, Hn, Hexp.
    rewrite run_bind; cbn [run]. rewrite run_bind; cbn [run]. rewrite run_bind; cbn [run].
    rewrite run_bind; cbn [run]. rewrite run_bind; cbn [run].
    by rewrite run_bind, saveTokens_run.
  - cbn zeta. rewrite wb_saved_tokens. cbn [access refresh projectId profileName expiresAt truthy].
    rewrite Htr, !wb_saved_clock. cbn [clock tick log].
    assert (Hnum : num_add (Num (clock w + latency (trace w)) 0) (num_mul (to_number (JInt e)) (Num 1000 0))
                   = Num (clock w + latency (trace w) + e * 1000) 0).
    { cbn. f_equal. lia. }
    rewrite Hnum. cbn [string_of_num]. rewrite string_to_number_string_of_Z by lia.
    split_and!; try done. intros now. unfold must_renew. cbn [access expiresAt some_text js_string].
    rewrite Hta. cbn. rewrite !Z.mul_1_r, Z.ltb_lt. lia.
Qed.

Definition demo_activation : response :=
  Response 200 (json_text (JObj [("access_token", JStr "a"); ("refresh_token", JStr "r");
    ("project_id", JStr "p"); ("profile_name", JStr "TV"); ("expires_in", JInt 900)])).

Definition demo_host : Host :=
  {| net := fun _ _ => Some demo_activation; uuid_at := fun _ => "u"; latency := fun _ => 10 |}.

Definition demo_world : world := World ∅ 1000000 0 [].

Lemma activate_tokens_witness :
  exists w', @run demo_host _ (activate "" "123456") demo_world =
      (Ok (JObj [("access_token", JStr "a"); ("refresh_token", JStr "r");
        ("project_id", JStr "p"); ("profile_name", JStr "TV"); ("expires_in", JInt 900)]), w') /\
    refresh (tokens_of (storage w')) = Some "r".
Proof.
  destruct (@activate_tokens demo_host "" "123456" demo_world demo_activation
    [("access_token", JStr "a"); ("refresh_token", JStr "r"); ("project_id", JStr "p");
     ("profile_name", JStr "TV"); ("expires_in", JInt 900)] "a" "r" "p" "TV" 900)
    as (w' & Hrun & _ & Hr & _); try reflexivity; try (cbn; lia).
  exists w'. split; [exact Hrun | exact Hr].
Defined.

(** Revoking a code reports success whatever the server answered, 401 apart. *)
Theorem revokeWbCode_ignores_failure `{Host} BASE id w res :
  (forall rq, net (trace w) rq = Some res) -> rs_status res <> 401 ->
  (run (revokeWbCode BASE id) w).1 = Ok tt.
Proof.
  intros Hnet Hst. unfold revokeWbCode. rewrite run_bind, fetchWithAuth_run. unfold do_fetch.
  rewrite Hnet. by rewrite (proj2 (Z.eqb_neq _ _) Hst).
Qed.
