(* ===== verification/Queries.v ===== *)
(** * The queries and mutations of the dashboard (frontend/src/queries)

    A hook is the record it hands to React Query: the key, the function, and the
    options.  React Query itself is not modelled; what is used of it is its
    documented comparison of keys ([same_key]): keys are compared by their JSON,
    so that [undefined] and [null] elements are the same and members of objects
    that are [undefined] do not count. *)

From S2P Require Import Prelude JsString JsValue JsonParse Encoding Dates Host Session HttpApi.
From S2P Require Import ApiContract Wallboard.

Local Open Scope string_scope.
Local Open Scope Z_scope.

Inductive stale_time : Type := StaleMs (ms : Z) | StaleNever.

Record query := Query {
  q_key : list jsval;
  q_fn : prog jsval;
  q_enabled : bool;
  q_refetch : option Z;
  q_stale : option stale_time;
  q_keep_previous : bool;
  q_select : bool                (** [select: d => d.data] *)
}.

(** [useQuery({ queryKey, queryFn })] *)
Definition basic (key : list jsval) (fn : prog jsval) : query :=
  Query key fn true None None false false.

Definition enabled_if (b : bool) (q : query) : query :=
  Query (q_key q) (q_fn q) b (q_refetch q) (q_stale q) (q_keep_previous q) (q_select q).
Definition refetch_every (ms : Z) (q : query) : query :=
  Query (q_key q) (q_fn q) (q_enabled q) (Some ms) (q_stale q) (q_keep_previous q) (q_select q).
Definition stale_after (t : stale_time) (q : query) : query :=
  Query (q_key q) (q_fn q) (q_enabled q) (q_refetch q) (Some t) (q_keep_previous q) (q_select q).
Definition keep_previous (q : query) : query :=
  Query (q_key q) (q_fn q) (q_enabled q) (q_refetch q) (q_stale q) true (q_select q).
Definition select_data (q : query) : query :=
  Query (q_key q) (q_fn q) (q_enabled q) (q_refetch q) (q_stale q) (q_keep_previous q) true.

(** A mutation: its function and the keys it invalidates when it succeeds. *)
Record mutation (A : Type) := Mutation { m_fn : A -> prog jsval; m_invalidates : list (list jsval) }.
Arguments Mutation {A} m_fn m_invalidates.
Arguments m_fn {A} m.
Arguments m_invalidates {A} m.

(** An absent argument, as [undefined] or as [null]; [x!] of it in a template. *)
Definition key_opt (o : option string) : jsval := jopt JStr o.
Definition bang (o : option string) : string := default "null" o.
Definition present (o : option string) : bool := match some_text o with Some _ => true | None => false end.

Definition void_mutation {A} (f : A -> prog unit) : A -> prog jsval := fun a => f a;; mret JUndef.

Section queries.
Context (BASE : string).

(** ** api-keys.ts *)

Definition useAPIKeys (projectId : option string) : query :=
  enabled_if (present projectId)
    (basic [JStr "api-keys"; key_opt projectId] (listAPIKeys BASE (bang projectId))).

Definition useCreateAPIKey (projectId : option string) : mutation (string * string) :=
  Mutation (fun '(p, name) => createAPIKey BASE p name) [[JStr "api-keys"; key_opt projectId]].

Definition useRevokeAPIKey (projectId : option string) : mutation string :=
  Mutation (void_mutation (revokeAPIKey BASE)) [[JStr "api-keys"; key_opt projectId]].

(** ** audit.ts *)

Definition TIME_RANGE_MS : list (string * Z) :=
  [("5m", 5 * 60 * 1000); ("15m", 15 * 60 * 1000); ("30m", 30 * 60 * 1000);
   ("1h", 60 * 60 * 1000); ("3h", 3 * 60 * 60 * 1000); ("6h", 6 * 60 * 60 * 1000);
   ("12h", 12 * 60 * 60 * 1000); ("24h", 24 * 60 * 60 * 1000);
   ("3d", 3 * 24 * 60 * 60 * 1000); ("7d", 7 * 24 * 60 * 60 * 1000);
   ("30d", 30 * 24 * 60 * 60 * 1000)].

(** [delete o.k] *)
Definition obj_delete (k : string) (o : obj) : obj :=
  List.filter (fun kv => negb (String.eqb kv.1 k)) o.

(** The filters with the time range turned into dates, at the time [now]. *)
Definition resolve_filters (filters : option obj) (now : Z) : obj :=
  let resolved := default [] filters in
  match member filters "time_range" with
  | JStr range =>
      let resolved :=
        if str_truthy range && negb (String.eqb range "custom") then
          match assoc range TIME_RANGE_MS with
          | Some ms => obj_set "end_date" JUndef
                         (obj_set "start_date" (JStr (to_iso_string (now - ms))) resolved)
          | None => resolved
          end
        else resolved in
      obj_delete "time_range" resolved
  | _ => obj_delete "time_range" resolved
  end.

Definition audit_params (page limit : Z) (projectId : option string) (resolved : obj) : obj :=
  spread [("page", JInt page); ("limit", JInt limit); ("projectId", key_opt projectId)] resolved.

Definition filters_key (filters : option obj) : jsval :=
  match filters with Some o => JObj o | None => JUndef end.

Definition useAuditList (page limit : Z) (projectId : option string) (filters : option obj) : query :=
  keep_previous (refetch_every 60000 (basic
    [JStr "audit"; JInt page; key_opt projectId; filters_key filters]
    (now ← date_now;
     ListAudit BASE (Some (audit_params page limit projectId (resolve_filters filters now)))))).

Definition useAuditStats (projectId environment : option string) : query :=
  refetch_every 60000 (basic
    [JStr "audit-stats"; key_opt projectId; key_opt environment]
    (getAuditStats BASE projectId environment)).

Definition useAuditSessions (filters : option obj) : query :=
  basic [JStr "audit-sessions"; filters_key filters] (getSessions BASE filters).

Definition useAuditDetail (id : option string) : query :=
  enabled_if (present id) (basic [JStr "audit-detail"; key_opt id] (getAuditDetail BASE (bang id))).

(** [sinceDate]: a day before [now], cut to the hour of the local time zone,
    which is [tz] milliseconds ahead of UTC. *)
Definition since_hour (tz now : Z) : Z :=
  let t := now - 24 * 60 * 60 * 1000 in t - (t + tz) mod 3600000.

Definition anomaly_params (projectId environment : option string) (since : string) : obj :=
  [("event_type", JStr "system.alert"); ("projectId", key_opt projectId);
   ("environment", key_opt environment); ("start_date", JStr since); ("limit", JInt 100)].

(** The hook as it is called at the time [now]. *)
Definition useAnomalyAlerts (tz now : Z) (projectId environment : option string) : query :=
  let since := to_iso_string (since_hour tz now) in
  refetch_every 60000 (basic
    [JStr "anomaly-alerts"; key_opt projectId; key_opt environment; JStr since]
    (ListAudit BASE (Some (anomaly_params projectId environment since)))).

Definition useOrphans (filters : option obj) : query :=
  refetch_every 60000 (enabled_if (truthy (member filters "projectId"))
    (basic [JStr "audit-orphans"; filters_key filters] (getOrphans BASE filters))).

Definition useInsights (projectId : option string) (period : string) (environment : option string)
    : query :=
  stale_after (StaleMs (5 * 60000)) (basic
    [JStr "insights"; key_opt projectId; JStr period; key_opt environment]
    (getInsights BASE projectId period environment)).

Definition useSessionByID (sessionID : option string) : query :=
  enabled_if (present sessionID)
    (basic [JStr "session-by-id"; key_opt sessionID] (getSessionByID BASE (bang sessionID))).

Definition useAnomalyRelatedEvents (params : option obj) (enabled : bool) : query :=
  enabled_if (enabled && truthy (member params "service_name"))
    (basic [JStr "anomaly-related"; filters_key params] (ListAudit BASE params)).

Definition useAffectedUsers (projectId path method start end_ : option string) : query :=
  enabled_if (present projectId && present path) (basic
    [JStr "affected-users"; key_opt projectId; key_opt path; key_opt method; key_opt start;
     key_opt end_]
    (getAffectedUsers BASE (bang projectId) (bang path) method start end_)).

(** The members of a [Session] the hook reads. *)
Record Session := {
  s_identifier : string;
  s_service_name : string;
  s_session_start : string;
  s_session_end : string
}.

Definition timeline_params (s : Session) (projectId : option string) : obj :=
  [("identifier", JStr (s_identifier s)); ("service_name", JStr (s_service_name s));
   ("start_date", JStr (s_session_start s)); ("end_date", JStr (s_session_end s));
   ("limit", JInt 500); ("projectId", key_opt projectId)].

Definition useSessionTimeline (session : option Session) (projectId : option string) : query :=
  enabled_if (match session with Some _ => true | None => false end) (basic
    [JStr "session-timeline"; key_opt (s_identifier <$> session);
     key_opt (s_service_name <$> session); key_opt (s_session_start <$> session);
     key_opt projectId]
    (match session with
     | Some s => ListAudit BASE (Some (timeline_params s projectId))
     | None => Throw (type_error "identifier")
     end)).

(** ** auth.ts and health.ts *)

Definition useLogout : mutation unit := Mutation (void_mutation (fun _ => logout BASE)) [].
Definition useHealthDetails : query := basic [JStr "health"] (getHealthDetails BASE).

(** ** healthcheck.ts *)

Definition useMonitors (projectId : option string) : query :=
  stale_after (StaleMs 30000)
    (basic [JStr "monitors"; JStr (default "all" projectId)] (listMonitors BASE projectId)).

Definition useCreateMonitor (projectId : string) : mutation jsval :=
  Mutation (createMonitor BASE) [[JStr "monitors"; JStr projectId]].
Definition useUpdateMonitor (projectId : string) : mutation (string * jsval) :=
  Mutation (fun '(id, body) => updateMonitor BASE id body) [[JStr "monitors"; JStr projectId]].
Definition useDeleteMonitor (projectId : string) : mutation string :=
  Mutation (void_mutation (deleteMonitor BASE)) [[JStr "monitors"; JStr projectId]].
Definition useTestMonitor : mutation string := Mutation (testMonitor BASE) [].

Definition useMonitorHistory (monitorId : option string) : query :=
  stale_after (StaleMs 10000) (enabled_if (present monitorId)
    (basic [JStr "monitor-history"; key_opt monitorId] (listMonitorHistory BASE (bang monitorId) 50))).

(** ** invites.ts *)

Definition useInvites : query := basic [JStr "invites"] (listInvites BASE).
Definition useCreateInvite : mutation (string * string) :=
  Mutation (fun '(email, role) => createInvite BASE email role) [[JStr "invites"]].
Definition useRevokeInvite : mutation string :=
  Mutation (void_mutation (revokeInvite BASE)) [[JStr "invites"]].

(** ** members.ts *)

Definition useMembers (projectId : option string) : query :=
  enabled_if (present projectId)
    (basic [JStr "members"; key_opt projectId] (listMembers BASE (bang projectId))).
Definition useAddMember (projectId : option string) : mutation (string * string) :=
  Mutation (void_mutation (fun '(email, role) => addMember BASE (bang projectId) email role))
    [[JStr "members"; key_opt projectId]].
Definition useUpdateMemberRole (projectId : option string) : mutation (string * string) :=
  Mutation (void_mutation (fun '(userId, role) => updateMemberRole BASE (bang projectId) userId role))
    [[JStr "members"; key_opt projectId]].
Definition useRemoveMember (projectId : option string) : mutation string :=
  Mutation (void_mutation (removeMember BASE (bang projectId))) [[JStr "members"; key_opt projectId]].

(** ** notifications.ts *)

Definition useVapidPublicKey : query :=
  stale_after StaleNever (basic [JStr "vapid-public-key"] (getVapidPublicKey BASE)).
Definition useSubscribePush (projectId : string) : mutation jsval :=
  Mutation (subscribePush BASE projectId) [].
Definition useUnsubscribePush (projectId : string) : mutation string :=
  Mutation (void_mutation (unsubscribePush BASE projectId)) [].
Definition useWebhooks (projectId : string) : query :=
  enabled_if (str_truthy projectId)
    (basic [JStr "webhooks"; JStr projectId] (listWebhooks BASE projectId)).
Definition useCreateWebhook (projectId : string) : mutation (string * option string) :=
  Mutation (fun '(url, secret) => createWebhook BASE projectId url secret)
    [[JStr "webhooks"; JStr projectId]].
Definition useDeleteWebhook (projectId : string) : mutation string :=
  Mutation (void_mutation (deleteWebhook BASE projectId)) [[JStr "webhooks"; JStr projectId]].
Definition useTestWebhook (projectId : string) : mutation string :=
  Mutation (testWebhook BASE projectId) [].
Definition useDeliveries (webhookId : string) : query :=
  enabled_if (str_truthy webhookId)
    (basic [JStr "deliveries"; JStr webhookId] (listDeliveries BASE webhookId)).

(** ** projects.ts, tiering.ts and users.ts *)

Definition useProjects : query := basic [JStr "projects"] (listProjects BASE).
Definition useCreateProject : mutation (string * string) :=
  Mutation (fun '(name, slug) => createProject BASE name slug) [[JStr "projects"]].

Definition useAuditHistory (projectId startDate endDate environment : option string) : query :=
  stale_after (StaleMs (5 * 60000)) (enabled_if (present projectId) (basic
    [JStr "audit-history"; key_opt projectId; key_opt startDate; key_opt endDate;
     key_opt environment]
    (getAuditHistory BASE (bang projectId) startDate endDate environment))).
Definition useUsageStat (projectId : option string) : query :=
  stale_after (StaleMs (5 * 60000)) (enabled_if (present projectId)
    (basic [JStr "usage-stat"; key_opt projectId] (getUsageStat BASE (bang projectId)))).

Definition useUsers : query := basic [JStr "users"] (listUsers BASE).
Definition useCreateUser : mutation jsval := Mutation (createUser BASE) [[JStr "users"]].
Definition useDeleteUser : mutation string :=
  Mutation (void_mutation (deleteUser BASE)) [[JStr "users"]].

(** ** wallboard.ts *)

Definition REFETCH : Z := 30000.

Definition useWbSummary (projectId environment : option string) (enabled : bool) : query :=
  enabled_if enabled (refetch_every REFETCH
    (basic [JStr "wb-summary"; key_opt projectId; key_opt environment]
       (getWbSummary BASE projectId environment))).
Definition useWbFeed (projectId environment : option string) (enabled : bool) : query :=
  select_data (enabled_if enabled (refetch_every REFETCH
    (basic [JStr "wb-feed"; key_opt projectId; key_opt environment]
       (getWbFeed BASE projectId environment)))).
Definition useWbVolume (projectId environment : option string) (enabled : bool) : query :=
  select_data (enabled_if enabled (refetch_every REFETCH
    (basic [JStr "wb-volume"; key_opt projectId; key_opt environment]
       (getWbVolume BASE projectId environment)))).
Definition useWbHealth (projectId : option string) (enabled : bool) : query :=
  select_data (enabled_if enabled (refetch_every REFETCH
    (basic [JStr "wb-health"; key_opt projectId] (getWbHealth BASE projectId)))).
Definition useWbAlerts (projectId environment : option string) (enabled : bool) : query :=
  select_data (enabled_if enabled (refetch_every REFETCH
    (basic [JStr "wb-alerts"; key_opt projectId; key_opt environment]
       (getWbAlerts BASE projectId environment)))).
Definition useWbErrorRoutes (projectId environment : option string) (enabled : bool) : query :=
  select_data (enabled_if enabled (refetch_every REFETCH
    (basic [JStr "wb-error-routes"; key_opt projectId; key_opt environment]
       (getWbErrorRoutes BASE projectId environment)))).
Definition useWbProjects (enabled : bool) : query :=
  select_data (enabled_if enabled (refetch_every 60000
    (basic [JStr "wb-projects"] (getWbProjects BASE)))).
Definition useWbGrid (environment : option string) (enabled : bool) : query :=
  select_data (enabled_if enabled (refetch_every REFETCH
    (basic [JStr "wb-grid"; key_opt environment] (getWbGrid BASE environment)))).
End queries.

(** ** The comparison of keys *)

(** Two members of an object: the same JSON. *)
Definition same_member (a b : jsval) : Prop := wire a = wire b.

(** An element of a key: [undefined] counts as [null]. *)
Definition key_wire (v : jsval) : jsval := match wire v with JUndef => JNull | x => x end.

Definition same_elem (a b : jsval) : Prop :=
  match a, b with
  | JObj o1, JObj o2 => forall k, same_member (obj_get k o1) (obj_get k o2)
  | JObj _, _ | _, JObj _ => False
  | _, _ => key_wire a = key_wire b
  end.

Definition same_key : list jsval -> list jsval -> Prop := Forall2 same_elem.

#[export] Instance same_elem_equiv : Equivalence same_elem.
Proof.
  split.
  - intros []; done.
  - intros [] []; cbn; congruence.
  - intros [] [] []; cbn; try done; congruence.
Qed.

#[export] Instance same_key_equiv : Equivalence same_key.
Proof.
  split.
  - intros l. unfold same_key. induction l; by constructor.
  - intros l1 l2 H. unfold same_key in *. induction H; by constructor.
  - intros l1 l2 l3 H1. revert l3. unfold same_key in *.
    induction H1 as [|x y l1 l2 Hxy H1 IH]; intros l3 H2; [done |].
    inversion H2 as [|? z ? l3' Hyz H2']; subst. constructor; [by etrans | by apply IH].
Qed.

(** The values a filter takes: text, a number, a flag or nothing. *)
Definition plain (v : jsval) : bool :=
  match v with JArr _ | JObj _ | JNum NaN => false | _ => true end.

Definition plain_filters (f : option obj) : bool :=
  match f with Some o => forallb (fun kv => plain kv.2) o | None => true end.

Lemma plain_get k o : forallb (fun kv => plain kv.2) o = true -> plain (obj_get k o) = true.
Proof.
  induction o as [|[k' v] o IH]; cbn; [done |]. intros. bat_simpl.
  destruct (String.eqb k' k); [done | by apply IH].
Qed.

Lemma plain_same a b : plain a = true -> plain b = true -> same_member a b -> a = b.
Proof. unfold same_member. by destruct a as [| | |[]| | |], b as [| | |[]| | |]. Qed.

Lemma same_filters f1 f2 k :
  plain_filters f1 = true -> plain_filters f2 = true ->
  same_elem (filters_key f1) (filters_key f2) -> member f1 k = member f2 k.
Proof.
  destruct f1 as [o1|], f2 as [o2|]; cbn; try done. intros H1 H2 Hs.
  apply plain_same; [by apply plain_get.. | apply Hs].
Qed.

Lemma search_of_ext fields f1 f2 :
  (forall k, member f1 k = member f2 k) -> search_of fields f1 = search_of fields f2.
Proof.
  intros H. unfold search_of. generalize (@nil (string * string)).
  induction fields as [|f fields IH]; intros ps; [done |]. cbn [fold_left]. by rewrite H, IH.
Qed.

Lemma same_opt (a b : option string) : same_elem (key_opt a) (key_opt b) -> a = b.
Proof. destruct a, b; cbn; congruence. Qed.
Lemma same_str a b : same_elem (JStr a) (JStr b) -> a = b.
Proof. cbn. congruence. Qed.

(** ** The hooks that fetch *)

Inductive hook : Type :=
| HAPIKeys (p : option string) | HAuditStats (p e : option string)
| HAuditSessions (f : option obj) | HAuditDetail (id : option string)
| HAnomalyAlerts (tz now : Z) (p e : option string) | HOrphans (f : option obj)
| HInsights (p : option string) (period : string) (e : option string)
| HSessionByID (id : option string) | HAnomalyRelated (params : option obj) (enabled : bool)
| HAffectedUsers (p path method start end_ : option string) | HHealth
| HMonitors (p : option string) | HMonitorHistory (id : option string) | HInvites
| HMembers (p : option string) | HVapid | HWebhooks (p : string) | HDeliveries (w : string)
| HProjects | HAuditHistory (p start end_ e : option string) | HUsageStat (p : option string)
| HUsers | HWbSummary (p e : option string) (b : bool) | HWbFeed (p e : option string) (b : bool)
| HWbVolume (p e : option string) (b : bool) | HWbHealth (p : option string) (b : bool)
| HWbAlerts (p e : option string) (b : bool) | HWbErrorRoutes (p e : option string) (b : bool)
| HWbProjects (b : bool) | HWbGrid (e : option string) (b : bool)
| HAuditList (page limit : Z) (p : option string) (f : option obj)
| HSessionTimeline (s : option Session) (p : option string).

Definition hook_query (BASE : string) (h : hook) : query :=
  match h with
  | HAPIKeys p => useAPIKeys BASE p
  | HAuditStats p e => useAuditStats BASE p e
  | HAuditSessions f => useAuditSessions BASE f
  | HAuditDetail id => useAuditDetail BASE id
  | HAnomalyAlerts tz now p e => useAnomalyAlerts BASE tz now p e
  | HOrphans f => useOrphans BASE f
  | HInsights p q e => useInsights BASE p q e
  | HSessionByID id => useSessionByID BASE id
  | HAnomalyRelated ps b => useAnomalyRelatedEvents BASE ps b
  | HAffectedUsers p q m s e => useAffectedUsers BASE p q m s e
  | HHealth => useHealthDetails BASE
  | HMonitors p => useMonitors BASE p
  | HMonitorHistory id => useMonitorHistory BASE id
  | HInvites => useInvites BASE
  | HMembers p => useMembers BASE p
  | HVapid => useVapidPublicKey BASE
  | HWebhooks p => useWebhooks BASE p
  | HDeliveries w => useDeliveries BASE w
  | HProjects => useProjects BASE
  | HAuditHistory p s e n => useAuditHistory BASE p s e n
  | HUsageStat p => useUsageStat BASE p
  | HUsers => useUsers BASE
  | HWbSummary p e b => useWbSummary BASE p e b
  | HWbFeed p e b => useWbFeed BASE p e b
  | HWbVolume p e b => useWbVolume BASE p e b
  | HWbHealth p b => useWbHealth BASE p b
  | HWbAlerts p e b => useWbAlerts BASE p e b
  | HWbErrorRoutes p e b => useWbErrorRoutes BASE p e b
  | HWbProjects b => useWbProjects BASE b
  | HWbGrid e b => useWbGrid BASE e b
  | HAuditList page limit p f => useAuditList BASE page limit p f
  | HSessionTimeline s p => useSessionTimeline BASE s p
  end.

(** What a hook uses for its request and leaves out of its key. *)
Definition left_out (h : hook) : list jsval :=
  match h with
  | HAuditList _ limit _ _ => [JInt limit]
  | HSessionTimeline (Some s) _ => [JStr (s_session_end s)]
  | _ => []
  end.

(** The members the list of events sets itself. *)
Definition list_members : list string := ["page"; "limit"; "projectId"].

(** Filters are plain, those of the list of events have each member once and none that the
    list sets itself, and no project is called all. *)
Definition hook_ok (h : hook) : bool :=
  match h with
  | HAuditList _ _ _ f =>
      plain_filters f && keys_nodup (default [] f) &&
      forallb (fun k => negb (existsb (fun kv => String.eqb kv.1 k) (default [] f))) list_members
  | HAuditSessions f | HOrphans f | HAnomalyRelated f _ => plain_filters f
  | HMonitors (Some p) => negb (String.eqb p "all")
  | _ => true
  end.

#[local] Arguments key_opt : simpl never.
#[local] Arguments filters_key : simpl never.
#[local] Arguments same_elem : simpl never.
#[local] Arguments to_iso_string : simpl never.
#[local] Arguments since_hour : simpl never.

(** The name a key starts with. *)
Definition key_name (k : list jsval) : string :=
  match k with JStr s :: _ => s | _ => "" end.

Lemma same_key_name k1 k2 : same_key k1 k2 -> (exists s l, k1 = JStr s :: l) ->
  (exists s l, k2 = JStr s :: l) -> key_name k1 = key_name k2.
Proof.
  intros H (s1 & l1 & ->) (s2 & l2 & ->). inversion H as [|? ? ? ? Hs]; subst.
  by apply same_str in Hs.
Qed.

Lemma hook_key_name BASE h : exists s l, q_key (hook_query BASE h) = JStr s :: l.
Proof. destruct h; eauto. Qed.

Lemma same_key_cons a l b m : same_key (a :: l) (b :: m) -> same_elem a b /\ same_key l m.
Proof. by inversion 1. Qed.

(** The arguments two equal keys share. *)
Ltac key_args :=
  repeat match goal with
  | H : same_key (_ :: _) (_ :: _) |- _ =>
      let He := fresh "He" in apply same_key_cons in H as [He H]
  end;
  repeat match goal with
  | H : same_elem (key_opt _) (key_opt _) |- _ => apply same_opt in H; subst
  | H : same_elem (JStr _) (JStr _) |- _ => apply same_str in H; subst
  end.

(** ** Properties *)

(** *** The parameters of the list of events *)

Lemma obj_get_delete k k' o : obj_get k (obj_delete k' o) = if String.eqb k' k then JUndef else obj_get k o.
Proof.
  unfold obj_delete. induction o as [|[k1 v] o IH]; cbn; [by destruct (String.eqb k' k) |].
  destruct (String.eqb_spec k1 k') as [->|Hne]; cbn; rewrite IH.
  - by destruct (String.eqb k' k).
  - destruct (String.eqb_spec k1 k) as [->|]; [| done]. by destruct (String.eqb_spec k' k).
Qed.

Lemma resolve_ext f1 f2 now k :
  (forall k, member f1 k = member f2 k) ->
  obj_get k (resolve_filters f1 now) = obj_get k (resolve_filters f2 now).
Proof.
  intros H. unfold resolve_filters. rewrite (H "time_range").
  assert (forall k, obj_get k (default [] f1) = obj_get k (default [] f2)) as Hg
    by (intros k'; specialize (H k'); by destruct f1, f2).
  assert (forall k, obj_get k (obj_delete "time_range" (default [] f1)) =
                    obj_get k (obj_delete "time_range" (default [] f2))) as Hd
    by (intros k'; by rewrite !obj_get_delete, Hg).
  destruct (member f2 "time_range") as [| | | |range| |]; try apply Hd.
  rewrite !obj_get_delete. destruct (String.eqb _ k); [done |].
  destruct (str_truthy range && negb (String.eqb range "custom")); [| apply Hg].
  destruct (assoc range TIME_RANGE_MS); [| apply Hg].
  destruct (String.eqb_spec "end_date" k) as [<-|H1]; [by rewrite !obj_get_set |].
  rewrite !(obj_get_set_ne k "end_date") by congruence.
  destruct (String.eqb_spec "start_date" k) as [<-|H2]; [rewrite !obj_get_set; reflexivity |].
  by rewrite !(obj_get_set_ne k) by congruence.
Qed.

Lemma keys_nodup_delete k o : keys_nodup o = true -> keys_nodup (obj_delete k o) = true.
Proof.
  unfold obj_delete. induction o as [|[k' v] o IH]; [done |]. cbn. intros [H1 H2]%andb_true_iff.
  destruct (negb (String.eqb k' k)); [| by apply IH]. cbn. rewrite IH, andb_true_r by done.
  rewrite negb_true_iff in H1 |- *. apply not_true_iff_false. apply not_true_iff_false in H1.
  intros (x & [Hx _]%filter_In & Ex)%existsb_exists. apply H1, existsb_exists. by exists x.
Qed.

Lemma has_key_set k k' v o :
  existsb (fun kv => String.eqb kv.1 k) (obj_set k' v o) =
  String.eqb k' k || existsb (fun kv => String.eqb kv.1 k) o.
Proof.
  induction o as [|[k1 v1] o IH]; cbn; [by rewrite orb_false_r |].
  destruct (String.eqb_spec k1 k') as [->|]; cbn; [by destruct (String.eqb k' k) |].
  rewrite IH. by destruct (String.eqb k1 k), (String.eqb k' k).
Qed.

Lemma keys_nodup_obj_set k v o : keys_nodup o = true -> keys_nodup (obj_set k v o) = true.
Proof.
  induction o as [|[k' v'] o IH]; cbn; intros Hn; [done |]. apply andb_true_iff in Hn as [H1 H2].
  destruct (String.eqb_spec k' k) as [->|Hne]; cbn; [by rewrite H1 |].
  rewrite has_key_set, IH, andb_true_r by done. apply negb_true_iff in H1. rewrite H1.
  by destruct (String.eqb_spec k k').
Qed.

Lemma resolve_shape f now :
  keys_nodup (default [] f) = true ->
  keys_nodup (resolve_filters f now) = true /\
  forall k, In k list_members ->
    existsb (fun kv => String.eqb kv.1 k) (default [] f) = false ->
    existsb (fun kv => String.eqb kv.1 k) (resolve_filters f now) = false.
Proof.
  intros Hn.
  assert (forall o : obj, keys_nodup o = true ->
    (forall k, In k list_members -> existsb (fun kv => String.eqb kv.1 k) (default [] f) = false ->
       existsb (fun kv => String.eqb kv.1 k) o = false) ->
    keys_nodup (obj_delete "time_range" o) = true /\
    forall k, In k list_members -> existsb (fun kv => String.eqb kv.1 k) (default [] f) = false ->
      existsb (fun kv => String.eqb kv.1 k) (obj_delete "time_range" o) = false) as Hdel.
  { intros o Ho Hk. split; [by apply keys_nodup_delete |]. intros k Hin Hf. specialize (Hk k Hin Hf).
    apply not_true_iff_false. apply not_true_iff_false in Hk.
    intros (x & [Hx _]%filter_In & Ex)%existsb_exists. apply Hk, existsb_exists. by exists x. }
  unfold resolve_filters. destruct (member f "time_range"); try (by apply Hdel).
  apply Hdel; destruct (str_truthy s && negb (String.eqb s "custom")); try done;
    destruct (assoc s TIME_RANGE_MS); try done.
  - by apply keys_nodup_obj_set, keys_nodup_obj_set.
  - intros k Hin Hf. rewrite !has_key_set, Hf. by repeat destruct Hin as [<- | Hin].
Qed.

Lemma audit_params_ext page limit p f1 f2 now k :
  hook_ok (HAuditList page limit p f1) = true -> hook_ok (HAuditList page limit p f2) = true ->
  (forall k, member f1 k = member f2 k) ->
  member (Some (audit_params page limit p (resolve_filters f1 now))) k =
  member (Some (audit_params page limit p (resolve_filters f2 now))) k.
Proof.
  assert (forall f, hook_ok (HAuditList page limit p f) = true ->
    obj_get k (audit_params page limit p (resolve_filters f now)) =
    if existsb (String.eqb k) list_members
    then obj_get k [("page", JInt page); ("limit", JInt limit); ("projectId", key_opt p)]
    else obj_get k (resolve_filters f now)) as Hf.
  { intros f [[_ Hn]%andb_true_iff Hk]%andb_true_iff. destruct (resolve_shape f now Hn) as [Hr Hin].
    unfold audit_params. rewrite obj_get_spread by done.
    destruct (existsb (String.eqb k) list_members) eqn:E.
    - apply existsb_exists in E as (k' & Hk' & ->%String.eqb_eq). rewrite forallb_forall in Hk.
      specialize (Hk k' Hk'). apply negb_true_iff in Hk. by rewrite (Hin k' Hk' Hk).
    - destruct (existsb _ (resolve_filters f now)) eqn:Ex; [done |].
      transitivity JUndef; [| symmetry].
      + cbn in E. cbn [obj_get]. rewrite !(String.eqb_sym _ k). repeat (apply orb_false_iff in E as [-> E]).
        done.
      + clear -Ex. induction (resolve_filters f now) as [|[k' v] o IH]; [done |]. cbn in *.
        apply orb_false_iff in Ex as [-> Ex]. auto. }
  intros H1 H2 Hm. cbn [member]. rewrite (Hf f1 H1), (Hf f2 H2).
  destruct (existsb _ list_members); [done | by apply resolve_ext].
Qed.

(** C17 The key of a query determines its request, but for what two hooks leave out of it
    ([left_out]): when two uses of the hooks have keys that React Query takes for the same,
    so that they share one entry of the cache, and the same limit (the list of events, of
    which every page of the application has one limit) or the same end (the timeline of a
    session, where this can fail: [timeline_key_omits_end]), their functions do the same
    thing at the same time.  (Filters are objects of strings and undefined members; those
    of the list of events name each member once and none of page, limit and projectId, and
    no project is called all: [hook_ok].) *)
Theorem query_key_complete `{Host} BASE h1 h2 w :
  hook_ok h1 = true -> hook_ok h2 = true ->
  same_key (q_key (hook_query BASE h1)) (q_key (hook_query BASE h2)) ->
  left_out h1 = left_out h2 ->
  run (q_fn (hook_query BASE h1)) w = run (q_fn (hook_query BASE h2)) w.
Proof.
  intros Ho1 Ho2 Hk Hl. pose proof (same_key_name _ _ Hk (hook_key_name _ _) (hook_key_name _ _)) as Hn.
  destruct h1; destruct h2; try discriminate Hn; clear Hn; cbn in Hk; key_args; try reflexivity.
  - change (run (getSessions BASE f) w = run (getSessions BASE f0) w). unfold getSessions.
    rewrite (search_of_ext session_fields f f0); [done |]. intros k. by apply same_filters.
  - cbn [hook_query useAnomalyAlerts refetch_every basic q_fn].
    by match goal with E : to_iso_string _ = to_iso_string _ |- _ => rewrite E end.
  - change (run (getOrphans BASE f) w = run (getOrphans BASE f0) w). unfold getOrphans.
    rewrite (search_of_ext orphan_fields f f0); [done |]. intros k. by apply same_filters.
  - change (run (ListAudit BASE params) w = run (ListAudit BASE params0) w). unfold ListAudit.
    rewrite (search_of_ext list_audit_fields params params0); [done |].
    intros k. by apply same_filters.
  - destruct p as [p|], p0 as [p0|]; cbn in *; subst; bat_simpl; done.
  - injection Hl as ->.
    assert (page = page0) as <- by (match goal with E : same_elem (JInt _) (JInt _) |- _ => by injection E end).
    cbn [hook_query useAuditList keep_previous refetch_every basic q_fn]. rewrite !run_bind. cbn [run date_now].
    unfold ListAudit. erewrite (search_of_ext list_audit_fields); [done |]. intros k.
    apply audit_params_ext; [done | done |]. intros k'.
    pose proof Ho1 as [[Hp1 _]%andb_true_iff _]%andb_true_iff.
    pose proof Ho2 as [[Hp2 _]%andb_true_iff _]%andb_true_iff. by apply same_filters.
  - destruct s as [s|], s0 as [s0|]; cbn in *; try discriminate; [| done].
    destruct s, s0. cbn in *. by simplify_eq.
Qed.

Definition demo_host : Host :=
  {| net := fun _ _ => None; uuid_at := fun _ => "u"; latency := fun _ => 1 |}.

(** A member that is undefined does not count. *)
Lemma query_key_complete_witness :
  let f := [("projectId", JStr "p")] in
  let g := [("time_range", JStr "1h")] in
  @run demo_host _ (q_fn (hook_query "" (HOrphans (Some f)))) (World ∅ 0 0 [])
  = @run demo_host _ (q_fn (hook_query "" (HOrphans (Some (("end_date", JUndef) :: f))))) (World ∅ 0 0 []) /\
  @run demo_host _ (q_fn (hook_query "" (HAuditList 1 50 (Some "p") (Some g)))) (World ∅ 0 0 [])
  = @run demo_host _ (q_fn (hook_query "" (HAuditList 1 50 (Some "p") (Some (("end_date", JUndef) :: g)))))
      (World ∅ 0 0 []).
Proof.
  assert (forall o : obj, same_elem (JObj o) (JObj (("end_date", JUndef) :: o)) \/ obj_get "end_date" o <> JUndef) as Hs.
  { intros o. destruct (obj_get "end_date" o) eqn:E; [left | right; discriminate..]. intros k.
    cbn [obj_get]. by destruct (String.eqb_spec "end_date" k) as [<-|]; [rewrite E |]. }
  cbn zeta. split.
  - apply (@query_key_complete demo_host "" (HOrphans (Some [("projectId", JStr "p")]))
      (HOrphans (Some [("end_date", JUndef); ("projectId", JStr "p")]))); [done | done | | done].
    apply Forall2_cons. split; [done |]. apply Forall2_cons. split; [| done].
    by destruct (Hs [("projectId", JStr "p")]) as [H | H]; [exact H | destruct H].
  - apply (@query_key_complete demo_host "" (HAuditList 1 50 (Some "p") (Some [("time_range", JStr "1h")]))
      (HAuditList 1 50 (Some "p") (Some [("end_date", JUndef); ("time_range", JStr "1h")]))); [done | done | | done].
    do 3 (apply Forall2_cons; split; [done |]). apply Forall2_cons. split; [| done].
    by destruct (Hs [("time_range", JStr "1h")]) as [H | H]; [exact H | destruct H].
Defined.

(** The timeline of a session is cached without the end of the session: two
    states of a session that goes on have the same key and different requests,
    so the first answer is shown for both. *)
Theorem timeline_key_omits_end `{Host} BASE id svc start end1 end2 projectId w :
  end1 <> end2 -> str_truthy end1 = true -> str_truthy end2 = true ->
  let q e := useSessionTimeline BASE (Some {| s_identifier := id; s_service_name := svc;
               s_session_start := start; s_session_end := e |}) projectId in
  same_key (q_key (q end1)) (q_key (q end2)) /\
  exists rq1 rq2 l1 l2,
    trace (run (q_fn (q end1)) w).2 = (trace w ++ EvFetch rq1 :: l1)%list /\
    trace (run (q_fn (q end2)) w).2 = (trace w ++ EvFetch rq2 :: l2)%list /\ rq1 <> rq2.
Proof.
  intros Hne Ht1 Ht2. cbn zeta. split; [reflexivity |].
  set (c e := CListAudit (Some (timeline_params {| s_identifier := id; s_service_name := svc;
    s_session_start := start; s_session_end := e |} projectId))).
  destruct (one_request BASE (c end1) w) as (rq1 & l1 & H1 & _ & R1); [done.. |].
  destruct (one_request BASE (c end2) w) as (rq2 & l2 & H2 & _ & R2); [done.. |].
  exists rq1, rq2, l1, l2. split_and!; [exact H1 | exact H2 |].
  intros <-. rewrite R1 in R2. apply Hne.
  apply (f_equal (fun o => match o with Some e => e_query e | None => [] end)) in R2.
  assert (Hin : forall e, str_truthy e = true ->
    In ("end_date", e) (e_query (endpoint_of (c e)))).
  { intros e He. apply in_set_fields. exists "end_date". split; [cbn; tauto | done]. }
  specialize (Hin end2 Ht2).
  change (e_query (endpoint_of (c end1)) = e_query (endpoint_of (c end2))) in R2.
  rewrite <- R2 in Hin. apply in_set_fields in Hin as (m & Hm & _ & ->).
  assert (m = "end_date") as ->; [| done]. cbn in Hm.
  repeat (destruct Hm as [Hm|Hm]; [congruence |]). done.
Qed.

Lemma timeline_key_omits_end_witness :
  let q e := useSessionTimeline "" (Some {| s_identifier := "i"; s_service_name := "s";
               s_session_start := "t0"; s_session_end := e |}) None in
  same_key (q_key (q "t1")) (q_key (q "t2")).
Proof.
  refine (proj1 (@timeline_key_omits_end demo_host "" "i" "s" "t0" "t1" "t2" None (World ∅ 0 0 [])
    _ _ _)); [congruence | reflexivity | reflexivity].
Defined.

(** The anomaly query asks for at least the last day and at most an hour more,
    from the start of an hour of the local zone; all renders within the same
    local hour have the same key, so that they do not fetch again. *)
Theorem anomaly_window BASE tz now1 now2 projectId environment :
  let since := since_hour tz now1 in
  now1 - 86400000 - 3600000 < since <= now1 - 86400000 /\ (since + tz) mod 3600000 = 0 /\
  ((now1 + tz) / 3600000 = (now2 + tz) / 3600000 ->
   useAnomalyAlerts BASE tz now1 projectId environment =
   useAnomalyAlerts BASE tz now2 projectId environment).
Proof.
  cbn zeta. unfold since_hour. cbn zeta.
  assert (Hs : forall now, now - 24 * 60 * 60 * 1000 - (now - 24 * 60 * 60 * 1000 + tz) mod 3600000 =
                 (now + tz) / 3600000 * 3600000 - 86400000 - tz).
  { intros now. pose proof (Z.div_mod (now - 24 * 60 * 60 * 1000 + tz) 3600000 ltac:(lia)) as H1.
    replace (now - 24 * 60 * 60 * 1000 + tz) with (now + tz + (-24) * 3600000) in * by lia.
    rewrite Z.div_add in H1 by lia. lia. }
  pose proof (Z.div_mod (now1 + tz) 3600000 ltac:(lia)) as H1.
  pose proof (Z.mod_pos_bound (now1 + tz) 3600000 ltac:(lia)) as H2.
  split_and!; try (rewrite Hs; lia).
  intros Heq. unfold useAnomalyAlerts, since_hour. cbn zeta. rewrite !Hs. by rewrite Heq.
Qed.

(** ** Mutations and the lists they change *)

(** An invalidated key and the keys it reaches: those it is a prefix of. *)
Definition reaches (inv key : list jsval) : Prop := same_key inv (take (length inv) key).

Definition refreshes {A} (m : mutation A) (q : query) : Prop :=
  Exists (fun inv => reaches inv (q_key q)) (m_invalidates m).

Lemma refreshes_head {A} (f : A -> prog jsval) inv l q :
  same_key inv (q_key q) -> refreshes (Mutation f (inv :: l)) q.
Proof.
  intros H. constructor. unfold reaches. rewrite (Forall2_length _ _ _ H), firstn_all. done.
Qed.

(** Every mutation that changes a list the user sees refreshes the list of the
    same project; but with no project selected, when the monitors page lists all
    the monitors, none of the three mutations of monitors refreshes that list. *)
Theorem mutations_refresh BASE p ps :
  refreshes (useCreateAPIKey BASE p) (useAPIKeys BASE p) /\
  refreshes (useRevokeAPIKey BASE p) (useAPIKeys BASE p) /\
  refreshes (useAddMember BASE p) (useMembers BASE p) /\
  refreshes (useUpdateMemberRole BASE p) (useMembers BASE p) /\
  refreshes (useRemoveMember BASE p) (useMembers BASE p) /\
  refreshes (useCreateInvite BASE) (useInvites BASE) /\
  refreshes (useRevokeInvite BASE) (useInvites BASE) /\
  refreshes (useCreateWebhook BASE ps) (useWebhooks BASE ps) /\
  refreshes (useDeleteWebhook BASE ps) (useWebhooks BASE ps) /\
  refreshes (useCreateProject BASE) (useProjects BASE) /\
  refreshes (useCreateUser BASE) (useUsers BASE) /\
  refreshes (useDeleteUser BASE) (useUsers BASE) /\
  refreshes (useCreateMonitor BASE ps) (useMonitors BASE (Some ps)) /\
  refreshes (useUpdateMonitor BASE ps) (useMonitors BASE (Some ps)) /\
  refreshes (useDeleteMonitor BASE ps) (useMonitors BASE (Some ps)) /\
  ~ refreshes (useCreateMonitor BASE "") (useMonitors BASE None) /\
  ~ refreshes (useUpdateMonitor BASE "") (useMonitors BASE None) /\
  ~ refreshes (useDeleteMonitor BASE "") (useMonitors BASE None).
Proof.
  split_and!; try (apply refreshes_head; reflexivity);
    intros H; inversion H as [? ? Hr | ? ? Hr]; subst; [| by inversion Hr | | by inversion Hr | | by inversion Hr];
    apply same_key_cons in Hr as [_ Hr]; apply same_key_cons in Hr as [Hr _]; by apply same_str in Hr.
Qed.
