(* ===== verification/QueryPage.v ===== *)
(** * The query page (http/studio.ts: [applyVars]; routes/app/_layout/query.tsx)

    Template variables in SQL, the CSV export and the page: its state, its
    handlers and what it shows. *)

From S2P Require Import Prelude JsString JsValue JsonParse Dates Host Html HttpApi.

Local Open Scope string_scope.
Local Open Scope Z_scope.

(** ** [applyVars] *)

Fixpoint drop_string (n : nat) (s : string) : string :=
  match n, s with
  | O, _ => s
  | S n', String _ s' => drop_string n' s'
  | _, "" => ""
  end.

(** The rest of [s] after the literal [p]. *)
Fixpoint eat (p s : string) : option string :=
  match p, s with
  | "", _ => Some s
  | String a p', String b s' => if Ascii.eqb a b then eat p' s' else None
  | _, _ => None
  end.

(** The rest of [s] after a match of [\{\{\s*name\s*\}\}] at its start. *)
Definition match_var (name s : string) : option string :=
  s1 ← eat "{{" s;
  s2 ← eat name (trim_left s1);
  eat "}}" (trim_left s2).

(** The replacement text of [String.replace]: [$$], [$&], [$`] and [$'] stand for
    the dollar, the match and what is before and after it. *)
Fixpoint expand (pre matched post value : string) : string :=
  match value with
  | "" => ""
  | String a value' =>
      if negb (Ascii.eqb a "$") then String a (expand pre matched post value')
      else
        match value' with
        | "" => "$"
        | String c value'' =>
            if Ascii.eqb c "$" then String "$" (expand pre matched post value'')
            else if Ascii.eqb c "&" then matched +:+ expand pre matched post value''
            else if Ascii.eqb c "`" then pre +:+ expand pre matched post value''
            else if Ascii.eqb c "'" then post +:+ expand pre matched post value''
            else String "$" (expand pre matched post value')
        end
  end.

(** [s.replace(/\{\{\s*name\s*\}\}/g, value)], where [pre] is what was read; each
    round reads at least one character, so the length of the text is enough
    fuel. *)
Fixpoint replace_from (fuel : nat) (name value pre s : string) : string :=
  match fuel with
  | O => s
  | S fuel' =>
      match s with
      | "" => ""
      | String a s' =>
          match match_var name s with
          | Some rest =>
              let matched := String.substring 0 (String.length s - String.length rest) s in
              expand pre matched rest value +:+
              replace_from fuel' name value (pre +:+ matched) rest
          | None => String a (replace_from fuel' name value (pre +:+ String a "") s')
          end
      end
  end.

Definition replace_var (name value s : string) : string :=
  replace_from (String.length s) name value "" s.

Record QueryVars := { v_project_id : option string; v_from : option string; v_to : option string }.

Definition applyVars (sql : string) (vars : QueryVars) : string :=
  replace_var "to" (default "" (v_to vars))
    (replace_var "from" (default "" (v_from vars))
      (replace_var "project_id" (default "" (v_project_id vars)) sql)).

(** ** [toCSV] *)

(** The members of a result the pages use. *)
Record QueryResult := {
  columns : list string;
  rows : list (list jsval);
  row_count : num;
  elapsed_ms : num;
  truncated : bool
}.

(** [json as QueryResult]: the members of the answer; a member that is missing is
    read as empty. *)
Definition as_result (v : jsval) : QueryResult :=
  {| columns := match opt_prop v "columns" with JArr l => List.map js_string l | _ => [] end;
     rows := match opt_prop v "rows" with
             | JArr l => List.map (fun r => match r with JArr c => c | _ => [] end) l
             | _ => []
             end;
     row_count := match opt_prop v "row_count" with JNum n => n | _ => NaN end;
     elapsed_ms := match opt_prop v "elapsed_ms" with JNum n => n | _ => NaN end;
     truncated := truthy (opt_prop v "truncated") |}.

Definition newline : ascii := "010"%char.

(** [v === null || v === undefined ? '' : String(v)] *)
Definition cell_text (v : jsval) : string := if nullish v then "" else js_string v.

Definition csv_special (a : ascii) : bool :=
  Ascii.eqb a dquote || Ascii.eqb a "," || Ascii.eqb a newline.

Fixpoint exists_char (f : ascii -> bool) (s : string) : bool :=
  match s with "" => false | String a s' => f a || exists_char f s' end.

(** Every quote doubled. *)
Definition double_quotes : string -> string :=
  concat_map (fun a => if Ascii.eqb a dquote then String dquote (String dquote "") else String a "").

Definition esc_text (s : string) : string :=
  if exists_char csv_special s
  then String dquote (double_quotes s +:+ String dquote "")
  else s.

Definition esc (v : jsval) : string := esc_text (cell_text v).

Definition toCSV (result : QueryResult) : string :=
  let head := join "," (List.map (fun c => esc (JStr c)) (columns result)) in
  let body := List.map (fun r => join "," (List.map esc r)) (rows result) in
  join (String newline "") (head :: body).

(** [a.download] of [downloadCSV]. *)
Definition csv_name (now : Z) : string :=
  "query-" +:+ map_string (fun a => if Ascii.eqb a ":" || Ascii.eqb a "T" then "-"%char else a)
                 (String.substring 0 19 (to_iso_string now)) +:+ ".csv".

(** ** The page *)

Definition EXAMPLES : list (string * string) :=
  let nl := String newline "" in
  [("Recent 5xx errors",
    "SELECT timestamp, identifier, method, path, status_code" +:+ nl +:+ "FROM audits" +:+ nl +:+
    "WHERE project_id = '{{project_id}}' AND status_code >= 500" +:+ nl +:+
    "ORDER BY timestamp DESC" +:+ nl +:+ "LIMIT 50");
   ("Who changed a resource",
    "SELECT timestamp, identifier, user_email, method, path" +:+ nl +:+ "FROM audits" +:+ nl +:+
    "WHERE project_id = '{{project_id}}'" +:+ nl +:+
    "  AND path LIKE '%/assets/%' AND method IN ('PUT','PATCH','DELETE')" +:+ nl +:+
    "  AND timestamp >= '{{from}}'" +:+ nl +:+ "ORDER BY timestamp DESC");
   ("Top routes by volume",
    "SELECT path, method, count(*) AS hits" +:+ nl +:+ "FROM audits" +:+ nl +:+
    "WHERE project_id = '{{project_id}}'" +:+ nl +:+ "GROUP BY path, method" +:+ nl +:+
    "ORDER BY hits DESC" +:+ nl +:+ "LIMIT 20");
   ("Slowest routes",
    "SELECT path, round(avg(response_time)) AS avg_ms, count(*) AS hits" +:+ nl +:+
    "FROM audits" +:+ nl +:+ "WHERE project_id = '{{project_id}}'" +:+ nl +:+
    "GROUP BY path" +:+ nl +:+ "ORDER BY avg_ms DESC" +:+ nl +:+ "LIMIT 20")].

Definition SCHEMA : list string :=
  ["timestamp"; "identifier"; "user_email"; "user_name"; "user_type"; "tenant_id"; "method";
   "path"; "status_code"; "response_time"; "service_name"; "environment"; "event_type"; "source";
   "ip"; "user_agent"; "request_id"; "session_id"; "error_message"].

Record QueryState := {
  q_sql : string;
  q_result : option QueryResult;
  q_error : option string;
  q_loading : bool
}.

Definition query_initial : QueryState :=
  {| q_sql := match EXAMPLES with (_, s) :: _ => s | [] => "" end; q_result := None;
     q_error := None; q_loading := false |}.

Definition set_sql (f : string -> string) (s : QueryState) : QueryState :=
  {| q_sql := f (q_sql s); q_result := q_result s; q_error := q_error s; q_loading := q_loading s |}.
Definition set_outcome (r : option QueryResult) (e : option string) (s : QueryState) : QueryState :=
  {| q_sql := q_sql s; q_result := r; q_error := e; q_loading := q_loading s |}.
Definition set_loading (b : bool) (s : QueryState) : QueryState :=
  {| q_sql := q_sql s; q_result := q_result s; q_error := q_error s; q_loading := b |}.

(** [e instanceof Error ? e.message : fallback] *)
Definition message_of (e : thrown) (fallback : string) : string :=
  match e with JSError _ m => m | JSValue _ => fallback end.

Section query_page.
Context (BASE : string).

(** The updates of [run] before its first [await]. *)
Definition run_start (s : QueryState) : QueryState :=
  set_outcome (q_result s) None (set_loading true s).

Definition day_text (ms : Z) : string := String.substring 0 10 (to_iso_string ms).

(** [run], called with the SQL and the project of the render: the updates made
    when the answer is there. *)
Definition run_query (sql : string) (selectedProjectId : option string)
    : prog (QueryState -> QueryState) :=
  upd ← try_catch
    (t1 ← date_now;
     t2 ← date_now;
     let vars := {| v_project_id := selectedProjectId;
                    v_from := Some (day_text (t1 - 30 * 86400000));
                    v_to := Some (day_text t2) |} in
     r ← runQuery BASE (applyVars sql vars);
     mret (fun s => set_outcome (Some (as_result r)) (q_error s) s))
    (fun e => mret (set_outcome None (Some (message_of e "Query failed"))));
  mret (fun s => set_loading false (upd s)).
End query_page.

(** What the user can do. *)
Inductive QueryMsg : Type :=
| SqlChanged (v : string)
| KeyDown (meta ctrl : bool) (key : string)
| RunClicked
| ExampleClicked (sql : string)
| ColumnClicked (col : string)
| DownloadClicked.

(** Whether a message starts a run. *)
Definition starts_run (m : QueryMsg) : bool :=
  match m with
  | KeyDown meta ctrl key => (meta || ctrl) && String.eqb key "Enter"
  | RunClicked => true
  | _ => false
  end.

Definition append_column (col s : string) : string :=
  s +:+ (if ends_with s " " || String.eqb s "" then "" else " ") +:+ col.

Definition query_update (m : QueryMsg) (s : QueryState) : QueryState :=
  match m with
  | SqlChanged v => set_sql (fun _ => v) s
  | ExampleClicked sql => set_sql (fun _ => sql) s
  | ColumnClicked col => set_sql (append_column col) s
  | DownloadClicked => s
  | _ => if starts_run m then run_start s else s
  end.

Definition ResultTable (result : QueryResult) : html QueryMsg :=
  match columns result with
  | [] => Elem "p" [] [Text "No columns."]
  | cols =>
      div [Elem "table" [] [
        Elem "thead" [] [Elem "tr" [] (List.map (fun c => Elem "th" [] [Text c]) cols)];
        Elem "tbody" [] (
          List.map (fun row => Elem "tr" [] (List.map (fun cell =>
            Elem "td" [] [match cell with
                          | JNull => span [Text "null"]
                          | _ => Text (js_string cell)
                          end]) row)) (rows result) ++
          [show (length (rows result) =? 0)%nat
             (Elem "tr" [] [Elem "td" [] [Text "No rows."]])])]]
  end%list.

Definition plural_row (n : num) : string :=
  match n with Num 1 O => "" | _ => "s" end.

Definition query_view (s : QueryState) : html QueryMsg :=
  div [
    div [Elem "h1" [] [Text "Query"]; span [Text "read-only SQL over your audit logs"]];
    div [
      div [
        div [
          Elem "textarea" [Attr "value" (q_sql s); OnText "change" SqlChanged;
            Attr "placeholder" "SELECT * FROM audits LIMIT 100"] [];
          div [
            span [Text "⌘/Ctrl + Enter to run"];
            Elem "button" [On "click" RunClicked; Flag "disabled" (q_loading s)]
              [Elem (if q_loading s then "Loader2" else "Play") [] []; Text "Run"]]];
        match q_error s with
        | Some e => show (str_truthy e) (div [Elem "AlertCircle" [] []; span [Text e]])
        | None => Nothing
        end;
        match q_result s with
        | Some result =>
            div [
              div [
                span [Text (string_of_num (row_count result)); Text " row";
                      Text (plural_row (row_count result))];
                span [Text "·"];
                span [Text (string_of_num (elapsed_ms result)); Text " ms"];
                show (truncated result) (span [Text "· truncated to 1000"]);
                show (0 <? length (rows result))%nat
                  (Elem "button" [On "click" DownloadClicked] [Text "CSV"])];
              ResultTable result]
        | None => Nothing
        end];
      div [
        div [
          Elem "p" [] [Text "Examples"];
          div (List.map (fun '(label, sql) =>
            Elem "button" [On "click" (ExampleClicked sql)] [Text label]) EXAMPLES)];
        div [
          Elem "p" [] [Text "Table: "; span [Text "audits"]];
          div (List.map (fun col =>
            Elem "button" [On "click" (ColumnClicked col)] [Text col]) SCHEMA);
          Elem "p" [] [Text "Read-only. Only SELECT runs."];
          Elem "p" [] [Text "Vars: "; span [Text "{{project_id}}"]; span [Text "{{from}}"];
                       span [Text "{{to}}"]]]]]].

(** ** What [applyVars] does to a template

    A template is a sequence of literal pieces and placeholders, each placeholder
    with the white space written inside its braces. *)

Inductive Var : Type := ProjectId | From | To.

Definition var_name (x : Var) : string :=
  match x with ProjectId => "project_id" | From => "from" | To => "to" end.

Definition var_value (vars : QueryVars) (x : Var) : string :=
  default "" (match x with ProjectId => v_project_id vars | From => v_from vars | To => v_to vars end).

#[export] Instance Var_eq_dec : EqDecision Var.
Proof. solve_decision. Defined.

Inductive Piece : Type :=
| Lit (s : string)
| Hole (left : string) (x : Var) (right : string).

Definition template_text : list Piece -> string :=
  foldr (fun p t => match p with
                    | Lit s => s +:+ t
                    | Hole l x r => "{{" +:+ l +:+ var_name x +:+ r +:+ "}}" +:+ t
                    end) "".

(** Literals hold no opening brace; the spaces of a placeholder are spaces. *)
Definition piece_ok (p : Piece) : Prop :=
  match p with
  | Lit s => has_char "{" s = false
  | Hole l _ r => all_chars is_ws l = true /\ all_chars is_ws r = true
  end.

(** The template with the placeholders of [x] filled. *)
Definition fill (x : Var) (value : string) : list Piece -> list Piece :=
  List.map (fun p => match p with
                     | Hole _ y _ => if decide (x = y) then Lit value else p
                     | Lit _ => p
                     end).

(** The reference: every placeholder is its variable's value. *)
Definition filled (vars : QueryVars) : list Piece -> string :=
  foldr (fun p t => match p with
                    | Lit s => s +:+ t
                    | Hole _ x _ => var_value vars x +:+ t
                    end) "".

Lemma eat_app p t : eat p (p +:+ t) = Some t.
Proof. induction p as [|a p IH]; simpl; [done |]. by rewrite Ascii.eqb_refl. Qed.

Lemma trim_left_app w t : all_chars is_ws w = true -> trim_left (w +:+ t) = trim_left t.
Proof.
  induction w as [|a w IH]; simpl; [done |]. intros [Ha Hw]%andb_true_iff. rewrite Ha. by apply IH.
Qed.

Lemma ws_no_brace w : all_chars is_ws w = true -> has_char "{" w = false.
Proof. by apply all_chars_no_char. Qed.

Lemma match_var_no_brace name a s : a <> "{"%char -> match_var name (String a s) = None.
Proof.
  intros Ha. unfold match_var. cbn [eat]. destruct (Ascii.eqb_spec "{" a) as [<- | _]; done.
Qed.

Lemma match_var_one_brace name p s :
  p <> "" -> has_char "{" p = false -> match_var name (String "{" (p +:+ s)) = None.
Proof.
  destruct p as [|a p]; [done |]. intros _ [Ha _]%orb_false_iff.
  unfold match_var. change (String "{" (String a p +:+ s)) with ("{" +:+ String a (p +:+ s)).
  cbn [eat String.append]. change (Ascii.eqb "{" "{") with true. cbn iota.
  destruct (Ascii.eqb_spec "{" a) as [<- | _]; done.
Qed.

(** A placeholder is matched by its own name and by no other. *)
Lemma match_var_hole x y l r t :
  piece_ok (Hole l y r) ->
  match_var (var_name x) ("{{" +:+ l +:+ var_name y +:+ r +:+ "}}" +:+ t) =
  if decide (x = y) then Some t else None.
Proof.
  intros [Hl Hr]. unfold match_var. rewrite eat_app. cbn [mbind option_bind].
  rewrite trim_left_app by done.
  replace (eat (var_name x) (trim_left (var_name y +:+ r +:+ "}}" +:+ t)))
    with (if decide (x = y) then Some (r +:+ "}}" +:+ t) else None) by (by destruct x, y).
  destruct (decide (x = y)); cbn [mbind option_bind]; [| done].
  by rewrite trim_left_app.
Qed.

Lemma expand_no_dollar pre m post v : has_char "$" v = false -> expand pre m post v = v.
Proof.
  induction v as [|a v IH]; simpl; [done |]. intros. bat_simpl.
  destruct (Ascii.eqb_spec a "$"); [done |]. simpl. by rewrite IH.
Qed.

(** Text without an opening brace is copied. *)
Lemma replace_copy name value p : forall s fuel pre,
  has_char "{" p = false -> (String.length (p +:+ s) <= fuel)%nat ->
  exists fuel' pre', (String.length s <= fuel')%nat /\
    replace_from fuel name value pre (p +:+ s) = p +:+ replace_from fuel' name value pre' s.
Proof.
  induction p as [|a p IH]; simpl; intros s fuel pre Hp Hf; [by exists fuel, pre |]. bat_simpl.
  destruct fuel as [|fuel]; [lia |]. simpl. rewrite match_var_no_brace by done.
  destruct (IH s fuel (pre +:+ String a "")) as (f & pre' & Hf' & ->); [done | lia |].
  by exists f, pre'.
Qed.

Lemma app_length_le s t : (String.length t <= String.length (s +:+ t))%nat.
Proof. rewrite length_app_s. lia. Qed.

(** One pass over a template fills the placeholders of its variable. *)
Lemma replace_template x value t : forall fuel pre,
  has_char "$" value = false -> Forall piece_ok t ->
  (String.length (template_text t) <= fuel)%nat ->
  replace_from fuel (var_name x) value pre (template_text t) = template_text (fill x value t).
Proof.
  intros fuel pre Hv Hok. revert fuel pre.
  induction Hok as [|p t Hp Hok IH]; intros fuel pre Hf; [by destruct fuel |].
  destruct p as [s | l y r]; cbn [template_text foldr fill List.map] in *.
  - fold (template_text t) in *.
    destruct (replace_copy (var_name x) value s _ _ pre Hp Hf) as (f & pre' & Hf' & ->).
    by rewrite IH.
  - fold (template_text t) in *.
    pose proof (match_var_hole x y l r (template_text t) Hp) as Hm.
    destruct fuel as [|fuel]; [simpl in Hf; lia |].
    simpl in Hf |- *. simpl in Hm. rewrite Hm. rewrite !length_app_s in Hf. simpl in Hf.
    destruct (decide (x = y)) as [-> | Hne].
    + rewrite expand_no_dollar by done. f_equal. apply IH. lia.
    + destruct fuel as [|fuel]; [lia |]. simpl.
      assert (Hb : has_char "{" (l +:+ var_name y +:+ r +:+ "}}") = false).
      { destruct Hp. rewrite !has_char_app, (ws_no_brace l), (ws_no_brace r) by done. by destruct y. }
      replace (l +:+ var_name y +:+ r +:+ String "}" (String "}" (template_text t)))
        with ((l +:+ var_name y +:+ r +:+ "}}") +:+ template_text t)
        by (rewrite <- !app_assoc_s; done).
      rewrite match_var_one_brace by (done || by destruct l, y).
      edestruct (replace_copy (var_name x) value) as (f & pre' & Hf' & ->); [exact Hb | | ].
      { rewrite !length_app_s. simpl. lia. }
      rewrite IH by done. by rewrite <- !app_assoc_s.
Qed.

Lemma fill_ok x value t :
  has_char "{" value = false -> Forall piece_ok t -> Forall piece_ok (fill x value t).
Proof.
  intros Hv. induction 1 as [|[] t ? ? IH]; simpl; constructor; try done.
  by destruct (decide _).
Qed.

Lemma fill_all vars t :
  template_text (fill To (var_value vars To)
    (fill From (var_value vars From) (fill ProjectId (var_value vars ProjectId) t))) =
  filled vars t.
Proof.
  induction t as [|[s | l x r] t IH]; simpl; [done | by rewrite <- IH |].
  destruct x; simpl; by rewrite <- IH.
Qed.

(** C22 On a template whose literal text holds no opening brace, with values that
    hold no dollar sign and no opening brace, [applyVars] puts each variable's
    value in the place of each of its placeholders, whatever white space is inside
    the braces, and changes nothing else: the three [replace] calls in a row do
    not disturb each other. *)
Theorem applyVars_template t vars :
  Forall piece_ok t ->
  (forall x, has_char "$" (var_value vars x) = false /\ has_char "{" (var_value vars x) = false) ->
  applyVars (template_text t) vars = filled vars t.
Proof.
  intros Ht Hv. unfold applyVars, replace_var.
  change (default "" (v_project_id vars)) with (var_value vars ProjectId).
  change (default "" (v_from vars)) with (var_value vars From).
  change (default "" (v_to vars)) with (var_value vars To).
  assert (Hd := fun x => proj1 (Hv x)). assert (Hb := fun x => proj2 (Hv x)).
  rewrite (replace_template ProjectId) by auto.
  rewrite (replace_template From) by auto using fill_ok.
  rewrite (replace_template To) by auto using fill_ok.
  apply fill_all.
Qed.

Example dashboard_vars : QueryVars :=
  {| v_project_id := Some "p1"; v_from := Some "2025-01-01"; v_to := None |}.

Lemma applyVars_template_witness :
  applyVars "WHERE project_id = '{{ project_id }}' AND timestamp >= '{{from}}'" dashboard_vars =
  "WHERE project_id = 'p1' AND timestamp >= '2025-01-01'".
Proof.
  apply (applyVars_template
    [Lit "WHERE project_id = '"; Hole " " ProjectId " "; Lit "' AND timestamp >= '";
     Hole "" From ""; Lit "'"] dashboard_vars).
  - repeat constructor.
  - by intros [].
Defined.

(** ** Reading a CSV text back *)

Inductive csv_mode : Type := Start | Plain | Quoted | QuoteSeen.

(** A reader of comma-separated values (RFC 4180, with a line feed between the
    records): [cur] is the field being read and [row] the fields before it. *)
Fixpoint csv_read (m : csv_mode) (cur : string) (row : list string) (s : string)
    : list (list string) :=
  match s with
  | "" => [row ++ [cur]]%list
  | String a s' =>
      match m with
      | Quoted =>
          if Ascii.eqb a dquote then csv_read QuoteSeen cur row s'
          else csv_read Quoted (cur +:+ String a "") row s'
      | _ =>
          if Ascii.eqb a "," then csv_read Start "" (row ++ [cur])%list s'
          else if Ascii.eqb a newline then (row ++ [cur])%list :: csv_read Start "" [] s'
          else if Ascii.eqb a dquote then
            match m with
            | Start => csv_read Quoted cur row s'
            | _ => csv_read Quoted (cur +:+ String a "") row s'
            end
          else csv_read Plain (cur +:+ String a "") row s'
      end
  end.

Definition csv_parse : string -> list (list string) := csv_read Start "" [].

(** A field ends at the end of the text, at a comma or at a line feed. *)
Definition field_end (t : string) : bool :=
  match t with "" => true | String a _ => Ascii.eqb a "," || Ascii.eqb a newline end.

Lemma csv_end m cur row t :
  m <> Quoted -> field_end t = true -> csv_read m cur row t = csv_read QuoteSeen cur row t.
Proof.
  destruct t as [|a t]; [done |]. simpl. intros Hm Ha.
  destruct (Ascii.eqb a ","), (Ascii.eqb a newline); by destruct m.
Qed.

Lemma csv_plain s t : forall m cur row,
  m <> Quoted -> exists_char csv_special s = false -> field_end t = true ->
  csv_read m cur row (s +:+ t) = csv_read QuoteSeen (cur +:+ s) row t.
Proof.
  induction s as [|a s IH]; simpl; intros m cur row Hm Hs Ht.
  { rewrite app_nil_r_s. by apply csv_end. }
  unfold csv_special in Hs. apply orb_false_iff in Hs as [[[Hd Hc]%orb_false_iff Hn]%orb_false_iff Hs].
  rewrite Hd, Hc, Hn. replace (cur +:+ String a s) with ((cur +:+ String a "") +:+ s)
    by (by rewrite <- app_assoc_s).
  destruct m; try done; by apply IH.
Qed.

Lemma csv_quoted s t : forall cur row,
  csv_read Quoted cur row (double_quotes s +:+ String dquote t) =
  csv_read QuoteSeen (cur +:+ s) row t.
Proof.
  induction s as [|a s IH]; intros cur row; [by rewrite app_nil_r_s |].
  replace (cur +:+ String a s) with ((cur +:+ String a "") +:+ s) by (by rewrite <- app_assoc_s).
  rewrite <- IH. unfold double_quotes. cbn [concat_map].
  destruct (Ascii.eqb_spec a dquote) as [-> | Ha]; simpl; [done |].
  by rewrite (proj2 (Ascii.eqb_neq a dquote) Ha).
Qed.

(** An escaped field reads back as the field. *)
Lemma csv_field s row t :
  field_end t = true ->
  csv_read Start "" row (esc_text s +:+ t) = csv_read QuoteSeen s row t.
Proof.
  intros Ht. unfold esc_text. destruct (exists_char csv_special s) eqn:E.
  - simpl. rewrite <- app_assoc_s. apply (csv_quoted s t "").
  - by apply (csv_plain s t Start "").
Qed.

Lemma csv_row l : forall row t,
  l <> [] -> (t = "" \/ exists t', t = String newline t') ->
  csv_read Start "" row (join "," (List.map esc_text l) +:+ t) =
  (row ++ l)%list :: match t with "" => [] | String _ t' => csv_read Start "" [] t' end.
Proof.
  induction l as [|x l IH]; intros row t Hl Ht; [done |].
  destruct l as [|y l].
  - simpl. rewrite csv_field by (by destruct Ht as [-> | [? ->]]).
    by destruct Ht as [-> | [? ->]].
  - change (join "," (List.map esc_text (x :: y :: l)))
      with (esc_text x +:+ "," +:+ join "," (List.map esc_text (y :: l))).
    rewrite <- !app_assoc_s, csv_field by done.
    change (csv_read QuoteSeen x row ("," +:+ ?u)) with (csv_read Start "" (row ++ [x])%list u).
    rewrite IH by done. by rewrite <- (assoc_L app row [x]).
Qed.

Lemma csv_rows rs :
  rs <> [] -> Forall (fun r => r <> []) rs ->
  csv_parse (join (String newline "") (List.map (fun r => join "," (List.map esc_text r)) rs)) = rs.
Proof.
  unfold csv_parse. intros Hne Hrs. induction Hrs as [|r rs Hr Hrs IH]; [done |].
  destruct rs as [|r' rs].
  - cbn [List.map join]. rewrite <- (app_nil_r_s (join _ _)). rewrite csv_row; auto.
  - change (join _ _) with
      (join "," (List.map esc_text r) +:+ String newline ""  +:+
       join (String newline "") (List.map (fun r => join "," (List.map esc_text r)) (r' :: rs))).
    rewrite csv_row by (simpl; eauto). simpl. f_equal. by apply IH.
Qed.

(** C38 The exported CSV reads back as the table the page shows: the columns and,
    row by row, the text of every cell (empty for a null), whatever commas, quotes
    and line feeds the cells hold. *)
Theorem toCSV_roundtrip result :
  columns result <> [] -> Forall (fun r => r <> []) (rows result) ->
  csv_parse (toCSV result) = columns result :: List.map (List.map cell_text) (rows result).
Proof.
  intros Hc Hr. unfold toCSV.
  rewrite <- (csv_rows (columns result :: List.map (List.map cell_text) (rows result))).
  - unfold esc. simpl List.map. rewrite List.map_map. do 3 f_equal.
    apply List.map_ext. intros r. by rewrite List.map_map.
  - done.
  - constructor; [done |]. apply Forall_map. eapply Forall_impl; [exact Hr |]. by intros [].
Qed.

Lemma toCSV_roundtrip_witness :
  csv_parse (toCSV {| columns := ["path"; "note"]; rows := [[JStr "/a,b"; JNull];
    [JStr (String dquote "x"); JStr (String newline "y")]]; row_count := Num 2 0;
    elapsed_ms := Num 5 0; truncated := false |}) =
  [["path"; "note"]; ["/a,b"; ""]; [String dquote "x"; String newline "y"]].
Proof.
  apply (toCSV_roundtrip {| columns := ["path"; "note"]; rows := [[JStr "/a,b"; JNull];
    [JStr (String dquote "x"); JStr (String newline "y")]]; row_count := Num 2 0;
    elapsed_ms := Num 5 0; truncated := false |}); [done |].
  repeat constructor; done.
Defined.
