(* ===== verification/Studio.v ===== *)
(** * The report studio (routes/app/_layout/studio.tsx)

    The page's state and handlers, the effect that fetches the widgets' queries
    with its [active] flag, the loops of save and delete with the server, and the
    views.  [System] is the page together with the queries in flight; its steps
    are the user's actions, the reports the server gives and its answers, in any
    order and without restriction.  [react-grid-layout] and the chart library are
    not part of the repository: the layouts the grid reports are an input of the
    step relation. *)

From S2P Require Import Prelude JsString JsValue JsonParse Numbers Host Html Session HttpApi QueryPage.

Local Open Scope string_scope.
Local Open Scope Z_scope.

(** ** Reports (http/studio.ts) *)

Inductive VizType : Type := VLine | VPie | VTable.

Definition viz_text (v : VizType) : string :=
  match v with VLine => "line" | VPie => "pie" | VTable => "table" end.

Record Widget := { wid : string; wtitle : string; wsql : string; wviz : VizType }.

Record GridItem := { gi : string; gx : Z; gy : Z; gw : Z; gh : Z }.

Record Report := {
  r_id : string;
  r_name : string;
  r_widgets : list Widget;
  r_layout : list GridItem
}.

Definition widget_json (w : Widget) : jsval :=
  JObj [("id", JStr (wid w)); ("title", JStr (wtitle w)); ("sql", JStr (wsql w));
        ("viz", JStr (viz_text (wviz w)))].

Definition item_json (l : GridItem) : jsval :=
  JObj [("i", JStr (gi l)); ("x", JInt (gx l)); ("y", JInt (gy l)); ("w", JInt (gw l));
        ("h", JInt (gh l))].

(** [(await res.json()) as Report]: what the page reads of the answer.  A member
    that is missing or of another type is read as empty. *)
Definition str_prop (v : jsval) (k : string) : string :=
  match opt_prop v k with JStr s => s | _ => "" end.
Definition int_prop (v : jsval) (k : string) : Z :=
  match opt_prop v k with JNum (Num z O) => z | _ => 0 end.
Definition arr_prop (v : jsval) (k : string) : list jsval :=
  match opt_prop v k with JArr l => l | _ => [] end.

Definition as_viz (s : string) : VizType :=
  if String.eqb s "table" then VTable else if String.eqb s "line" then VLine else VPie.

Definition as_widget (v : jsval) : Widget :=
  {| wid := str_prop v "id"; wtitle := str_prop v "title"; wsql := str_prop v "sql";
     wviz := as_viz (str_prop v "viz") |}.

Definition as_item (v : jsval) : GridItem :=
  {| gi := str_prop v "i"; gx := int_prop v "x"; gy := int_prop v "y"; gw := int_prop v "w";
     gh := int_prop v "h" |}.

Definition as_report (v : jsval) : Report :=
  {| r_id := str_prop v "id"; r_name := str_prop v "name";
     r_widgets := List.map as_widget (arr_prop v "widgets");
     r_layout := List.map as_item (arr_prop v "layout") |}.

(** ** The state of the page *)

Record WidgetState := { ws_loading : bool; ws_result : option QueryResult; ws_error : option string }.

Definition ws_pending : WidgetState := {| ws_loading := true; ws_result := None; ws_error := None |}.
Definition ws_done (r : QueryResult) : WidgetState :=
  {| ws_loading := false; ws_result := Some r; ws_error := None |}.
Definition ws_failed (e : string) : WidgetState :=
  {| ws_loading := false; ws_result := None; ws_error := Some e |}.

Record StudioState := {
  reports : list Report;
  reportId : option string;
  name : string;
  widgets : list Widget;
  layout : list GridItem;
  editing : option Widget;
  saving : bool;
  data : gmap string WidgetState;
  from : string;
  to : string;
  project : option string   (** [selectedProjectId] of the project context *)
}.

Definition with_reports (v : list Report) (s : StudioState) : StudioState :=
  Build_StudioState v (reportId s) (name s) (widgets s) (layout s) (editing s) (saving s) (data s)
    (from s) (to s) (project s).
Definition with_reportId (v : option string) (s : StudioState) : StudioState :=
  Build_StudioState (reports s) v (name s) (widgets s) (layout s) (editing s) (saving s) (data s)
    (from s) (to s) (project s).
Definition with_name (v : string) (s : StudioState) : StudioState :=
  Build_StudioState (reports s) (reportId s) v (widgets s) (layout s) (editing s) (saving s) (data s)
    (from s) (to s) (project s).
Definition with_widgets (f : list Widget -> list Widget) (s : StudioState) : StudioState :=
  Build_StudioState (reports s) (reportId s) (name s) (f (widgets s)) (layout s) (editing s)
    (saving s) (data s) (from s) (to s) (project s).
Definition with_layout (f : list GridItem -> list GridItem) (s : StudioState) : StudioState :=
  Build_StudioState (reports s) (reportId s) (name s) (widgets s) (f (layout s)) (editing s)
    (saving s) (data s) (from s) (to s) (project s).
Definition with_editing (v : option Widget) (s : StudioState) : StudioState :=
  Build_StudioState (reports s) (reportId s) (name s) (widgets s) (layout s) v (saving s) (data s)
    (from s) (to s) (project s).
Definition with_saving (v : bool) (s : StudioState) : StudioState :=
  Build_StudioState (reports s) (reportId s) (name s) (widgets s) (layout s) (editing s) v (data s)
    (from s) (to s) (project s).
Definition with_data (f : gmap string WidgetState -> gmap string WidgetState) (s : StudioState) : StudioState :=
  Build_StudioState (reports s) (reportId s) (name s) (widgets s) (layout s) (editing s) (saving s)
    (f (data s)) (from s) (to s) (project s).
Definition with_period (f t : string) (s : StudioState) : StudioState :=
  Build_StudioState (reports s) (reportId s) (name s) (widgets s) (layout s) (editing s) (saving s)
    (data s) f t (project s).
Definition with_project (v : option string) (s : StudioState) : StudioState :=
  Build_StudioState (reports s) (reportId s) (name s) (widgets s) (layout s) (editing s) (saving s)
    (data s) (from s) (to s) v.

(** The page when it opens at the time [now]. *)
Definition studio_initial (now : Z) (selectedProjectId : option string) : StudioState :=
  {| reports := []; reportId := None; name := "Untitled report"; widgets := []; layout := [];
     editing := None; saving := false; data := ∅; from := day_text (now - 30 * 86400000);
     to := day_text now; project := selectedProjectId |}.

Definition vars (s : StudioState) : QueryVars :=
  {| v_project_id := project s; v_from := Some (from s); v_to := Some (to s) |}.

(** ** The handlers *)

Definition newReport (s : StudioState) : StudioState :=
  with_layout (fun _ => []) (with_widgets (fun _ => [])
    (with_name "Untitled report" (with_reportId None s))).

(** The updates of [openReport] when the report is there. *)
Definition openReport (r : Report) (s : StudioState) : StudioState :=
  with_layout (fun _ => r_layout r) (with_widgets (fun _ => r_widgets r)
    (with_name (r_name r) (with_reportId (Some (r_id r)) s))).

Definition put_widget (w : Widget) (prev : list Widget) : list Widget :=
  if existsb (fun x => String.eqb (wid x) (wid w)) prev
  then List.map (fun x => if String.eqb (wid x) (wid w) then w else x) prev
  else (prev ++ [w])%list.

(** The first free row below every item. *)
Definition bottom (l : list GridItem) : Z :=
  fold_left (fun m l => Z.max m (gy l + gh l)) l 0.

Definition place_widget (id : string) (prev : list GridItem) : list GridItem :=
  if existsb (fun l => String.eqb (gi l) id) prev then prev
  else (prev ++ [{| gi := id; gx := 0; gy := bottom prev; gw := 6; gh := 8 |}])%list.

Definition addOrUpdateWidget (w : Widget) (s : StudioState) : StudioState :=
  with_editing None (with_layout (place_widget (wid w)) (with_widgets (put_widget w) s)).

Definition removeWidget (id : string) (s : StudioState) : StudioState :=
  with_layout (List.filter (fun l => negb (String.eqb (gi l) id)))
    (with_widgets (List.filter (fun w => negb (String.eqb (wid w) id))) s).

Definition nl : string := String newline "".

Definition default_sql : string :=
  "SELECT method, count(*) AS hits" +:+ nl +:+ "FROM audits" +:+ nl +:+
  "WHERE project_id = '{{project_id}}' AND timestamp >= '{{from}}'" +:+ nl +:+
  "GROUP BY method" +:+ nl +:+ "ORDER BY hits DESC".

Inductive StudioMsg : Type :=
| NameChanged (v : string)
| FromChanged (v : string)
| ToChanged (v : string)
| AddClicked
| SaveClicked
| ExportClicked
| DeleteClicked
| NewClicked
| OpenClicked (id : string)
| LayoutChanged (l : list GridItem)
| EditClicked (w : Widget)
| RemoveClicked (id : string)
| EditorClosed
| EditorSaved (w : Widget).

(** The synchronous updates of the handlers; [uid] is what [uid()] returns. *)
Definition studio_update (uid : string) (m : StudioMsg) (s : StudioState) : StudioState :=
  match m with
  | NameChanged v => with_name v s
  | FromChanged v => with_period v (to s) s
  | ToChanged v => with_period (from s) v s
  | AddClicked =>
      with_editing (Some {| wid := uid; wtitle := "New widget"; wsql := default_sql; wviz := VTable |}) s
  | SaveClicked => with_saving true s
  | ExportClicked | DeleteClicked | OpenClicked _ => s
  | NewClicked => newReport s
  | LayoutChanged l => with_layout (fun _ => l) s
  | EditClicked w => with_editing (Some w) s
  | RemoveClicked id => removeWidget id s
  | EditorClosed => with_editing None s
  | EditorSaved w => addOrUpdateWidget w s
  end.

(** ** The handlers that wait for the server *)

(** The state updates of a handler, in the order it makes them. *)
Abbreviation updates := (list (StudioState -> StudioState)).

Section studio_api.
Context (BASE : string).

Definition apply_updates (us : updates) (s : StudioState) : StudioState :=
  fold_left (fun s u => u s) us s.

Definition loadList (selectedProjectId : option string) : prog updates :=
  try_catch
    (v ← listReports BASE selectedProjectId;
     mret [with_reports (List.map as_report match v with JArr l => l | _ => [] end)])
    (fun _ => mret []).

Definition open_report (id : string) : prog updates :=
  v ← getReport BASE id; mret [openReport (as_report v)].

Definition report_body (s : StudioState) : obj :=
  [("name", JStr (name s)); ("widgets", JArr (List.map widget_json (widgets s)));
   ("layout", JArr (List.map item_json (layout s)))].

(** The write of [save]: the report it updates, or the one it creates and then
    keeps the id of. *)
Definition save_write (s : StudioState) : prog updates :=
  match some_text (reportId s) with
  | Some id => updateReport BASE id (JObj (report_body s));; mret []
  | None =>
      r ← createReport BASE (JObj (("project_id", jstr_opt (project s)) :: report_body s));
      id ← js_prop r "id";
      mret [with_reportId (match id with JStr i => Some i | _ => None end)]
  end.

(** [save], called with the state [s] of the render: how it ends, and the updates
    it makes after [setSaving(true)].  Nothing throws once the write is done. *)
Definition save (s : StudioState) : prog (outcome unit * updates) :=
  try_catch
    (us ← save_write s; list ← loadList (project s);
     mret (Ok tt, us ++ list ++ [with_saving false])%list)
    (fun e => mret (Err e, [with_saving false])).

(** [handleDeleteReport]; [confirmed] is the answer to the question. *)
Definition handleDeleteReport (confirmed : bool) (s : StudioState) : prog updates :=
  match some_text (reportId s) with
  | None => mret []
  | Some rid =>
      if negb confirmed then mret []
      else
        deleteReport BASE rid;;
        list ← loadList (project s);
        mret (newReport :: list)
  end.

(** The fetch of one widget: what its [then] or its [catch] stores. *)
Definition widget_fetch (sql : string) : prog WidgetState :=
  try_catch (r ← runQuery BASE sql; mret (ws_done (as_result r)))
    (fun e => mret (ws_failed (message_of e "error"))).
End studio_api.

(** ** The effect that fetches the widgets *)

(** The text of [`${v}`] for an optional string. *)
Definition template_opt (o : option string) : string := default "undefined" o.

Definition widgetsKey (s : StudioState) : string :=
  join "|" (List.map (fun w => wid w +:+ "::" +:+ wsql w) (widgets s)) +:+
  "::" +:+ template_opt (project s) +:+ "::" +:+ from s +:+ "::" +:+ to s.

(** The page and the queries in flight: [gen] counts the runs of the effect, the
    last of which is the active one, and [ran] is the state that run was for; a
    fetch carries the run that started it, its widget and the SQL it sent;
    [answered] is the history of the answers.  ([ran] and [answered] are read by
    the theorems only.) *)
Record System := {
  ui : StudioState;
  ran : StudioState;
  gen : nat;
  inflight : list (nat * string * string);
  answered : list (string * string * WidgetState)
}.

Definition sent_sql (s : StudioState) (w : Widget) : string := applyVars (wsql w) (vars s).

(** The body of the effect: every widget is loading and its query is sent. *)
Definition start_fetches (s : StudioState) : StudioState :=
  with_data (fun d => fold_left (fun d w => <[wid w := ws_pending]> d) (widgets s) d) s.

(** A render with the state [s']: the effect runs again, and the earlier run stops
    being active, when the key has changed. *)
Definition commit (sys : System) (s' : StudioState) : System :=
  if String.eqb (widgetsKey s') (widgetsKey (ui sys))
  then {| ui := s'; ran := ran sys; gen := gen sys; inflight := inflight sys; answered := answered sys |}
  else {| ui := start_fetches s'; ran := s'; gen := S (gen sys);
          inflight := (inflight sys ++
            List.map (fun w => (S (gen sys), wid w, sent_sql s' w)) (widgets s'))%list;
          answered := answered sys |}.

(** The answer [st] of the fetch [(g, id, sql)]: stored when its run is active. *)
Definition receive (sys : System) (g : nat) (id sql : string) (st : WidgetState)
    (rest : list (nat * string * string)) : System :=
  {| ui := if (g =? gen sys)%nat then with_data <[id := st]> (ui sys) else ui sys;
     ran := ran sys; gen := gen sys; inflight := rest; answered := (id, sql, st) :: answered sys |}.

(** ** The views *)

Definition cell_or_dash {Msg} (cell : jsval) : html Msg :=
  Text (match cell with JNull => "—" | _ => js_string cell end).

Definition PIE_COLORS : list string :=
  ["#818cf8"; "#34d399"; "#fbbf24"; "#f87171"; "#60a5fa"; "#c084fc"; "#f472b6"; "#2dd4bf"].

(** The points of a chart: [{ [xKey]: String(r[0]), [yKey]: Number(r[1]) || 0 }]. *)
Definition xKey (result : QueryResult) : string := nth 0 (columns result) "undefined".
Definition yKey (result : QueryResult) : string := nth 1 (columns result) (xKey result).

Definition chart_value (v : jsval) : num := match to_number v with NaN => Num 0 0 | n => n end.

Definition chart_data (result : QueryResult) : list obj :=
  List.map (fun r => obj_set (yKey result) (JNum (chart_value (nth 1 r JUndef)))
                       [(xKey result, JStr (js_string (nth 0 r JUndef)))]) (rows result).

Definition chart_text (result : QueryResult) : string :=
  json_text (JArr (List.map JObj (chart_data result))).

Definition VizRender {Msg} (result : QueryResult) (viz : VizType) (print : bool) : html Msg :=
  match rows result with
  | [] => Elem "p" [] [Text "No rows."]
  | _ =>
      let height := if print then "200" else "100%" in
      match viz with
      | VTable =>
          Elem "table" [Attr "className" (if print then "print-table" else "w-full text-xs")] [
            Elem "thead" [] [Elem "tr" [] (List.map (fun c => Elem "th" [] [Text c]) (columns result))];
            Elem "tbody" [] (List.map (fun row =>
              Elem "tr" [] (List.map (fun cell => Elem "td" [] [cell_or_dash cell]) row)) (rows result))]
      | VLine =>
          Elem "ResponsiveContainer" [Attr "height" height] [
            Elem "LineChart" [Attr "data" (chart_text result)] [
              Elem "XAxis" [Attr "dataKey" (xKey result)] []; Elem "YAxis" [] []; Elem "Tooltip" [] [];
              Elem "Line" [Attr "dataKey" (yKey result); Flag "isAnimationActive" (negb print)] []]]
      | VPie =>
          Elem "ResponsiveContainer" [Attr "height" height] [
            Elem "PieChart" [] [
              Elem "Pie" [Attr "data" (chart_text result); Attr "dataKey" (yKey result);
                          Attr "nameKey" (xKey result); Flag "isAnimationActive" (negb print)]
                (imap (fun i _ => Elem "Cell" [Attr "fill" (nth (i mod 8) PIE_COLORS "")] [])
                   (chart_data result));
              Elem "Tooltip" [] []]]
      end
  end.

(** What a widget shows of its state: the error, a spinner or the result. *)
Definition error_shown (st : option WidgetState) : option string :=
  st ← st; some_text (ws_error st).

Definition WidgetView (widget : Widget) (state : option WidgetState) : list (html StudioMsg) :=
  [div [span [Text (wtitle widget)]; span [Text (viz_text (wviz widget))];
        div [Elem "button" [On "click" (EditClicked widget)] [Elem "Pencil" [] []];
             Elem "button" [On "click" (RemoveClicked (wid widget))] [Elem "Trash2" [] []]]];
   div [match error_shown state, state ≫= ws_result with
        | Some e, _ => Elem "p" [] [Text e]
        | None, None => div [Elem "Loader2" [] []]
        | None, Some r => VizRender r (wviz widget) false
        end]].

(** [generated] and [today] are the local forms of the date of the print. *)
Definition ReportPrintDocument (generated today name : string) (projectId : option string)
    (period : string) (ws : list Widget) (d : gmap string WidgetState) : html StudioMsg :=
  div [
    Elem "header" [] [
      div [Text "BatAudit · Audit Report"];
      Elem "h1" [] [Text name];
      div [Text (match some_text projectId with Some p => "Project " +:+ p +:+ " · " | None => "" end);
           Text (if str_truthy period then "Period " +:+ period +:+ " · " else "");
           Text "Generated "; Text generated]];
    Elem "hr" [] [];
    Elem "" [] (imap (fun i w =>
      Elem "section" [] [
        div [span [Text (string_of_Z (Z.of_nat i + 1)); Text "."]; span [Text (wtitle w)];
             span [Text (viz_text (wviz w))]];
        match error_shown (d !! wid w), d !! wid w ≫= ws_result with
        | Some e, _ => Elem "p" [] [Text e]
        | None, None => Elem "p" [] [Text "No data."]
        | None, Some r =>
            match wviz w with
            | VTable => VizRender r VTable true
            | v => div [VizRender r v true]
            end
        end]) ws);
    div [span [Text "Generated by BatAudit"]; span [Text today]]].

Definition period_text (s : StudioState) : string := from s +:+ " → " +:+ to s.

(** The page, apart from the editor. *)
Definition studio_view (generated today : string) (s : StudioState) : html StudioMsg :=
  div [
    div [
      Elem "LayoutGrid" [] [];
      Elem "input" [Attr "value" (name s); OnText "change" NameChanged] [];
      div [
        div [Elem "input" [Attr "type" "date"; Attr "value" (from s); OnText "change" FromChanged] [];
             span [Text "→"];
             Elem "input" [Attr "type" "date"; Attr "value" (to s); OnText "change" ToChanged] []];
        Elem "button" [On "click" AddClicked] [Elem "Plus" [] []; Text "Add widget"];
        Elem "button" [On "click" SaveClicked; Flag "disabled" (saving s)]
          [Elem (if saving s then "Loader2" else "Save") [] []; Text "Save"];
        Elem "button" [On "click" ExportClicked; Flag "disabled" (length (widgets s) =? 0)%nat]
          [Elem "FileDown" [] []; Text "Export PDF"];
        match some_text (reportId s) with
        | Some _ => Elem "button" [On "click" DeleteClicked] [Elem "Trash2" [] []; Text "Delete"]
        | None => Nothing
        end]];
    match reports s with
    | [] => Nothing
    | rs => div (Elem "button" [On "click" NewClicked] [Text "+ New"] ::
                 List.map (fun r =>
                   Elem "button" [On "click" (OpenClicked (r_id r));
                     Flag "border-primary" (bool_decide (reportId s = Some (r_id r)))]
                     [Text (r_name r)]) rs)
    end;
    div [
      match widgets s with
      | [] => div [Elem "LayoutGrid" [] [];
                   Elem "p" [] [Text "No widgets yet. Click "; span [Text "Add widget"]; Text " to start."]]
      | ws => Elem "ResponsiveGrid" [] (List.map (fun w => div (WidgetView w (data s !! wid w))) ws)
      end];
    ReportPrintDocument generated today (name s) (project s) (period_text s) (widgets s) (data s)].

(** ** The widget editor *)

Record EditorState := {
  e_title : string;
  e_sql : string;
  e_viz : VizType;
  e_preview : option QueryResult;
  e_error : option string;
  e_loading : bool
}.

Definition editor_initial (w : Widget) : EditorState :=
  {| e_title := wtitle w; e_sql := wsql w; e_viz := wviz w; e_preview := None; e_error := None;
     e_loading := false |}.

Inductive EditorMsg : Type :=
| TitleChanged (v : string)
| SqlTyped (v : string)
| VizChanged (v : string)
| PreviewClicked
| CloseClicked
| AddToReport.

Definition with_preview (p : option QueryResult) (e : option string) (l : bool) (s : EditorState)
    : EditorState :=
  {| e_title := e_title s; e_sql := e_sql s; e_viz := e_viz s; e_preview := p; e_error := e;
     e_loading := l |}.

(** The editor's handlers: its new state and what it asks of the page. *)
Definition editor_update (widget : Widget) (m : EditorMsg) (s : EditorState)
    : EditorState * option StudioMsg :=
  match m with
  | TitleChanged v =>
      ({| e_title := v; e_sql := e_sql s; e_viz := e_viz s; e_preview := e_preview s;
          e_error := e_error s; e_loading := e_loading s |}, None)
  | SqlTyped v =>
      ({| e_title := e_title s; e_sql := v; e_viz := e_viz s; e_preview := e_preview s;
          e_error := e_error s; e_loading := e_loading s |}, None)
  | VizChanged v =>
      ({| e_title := e_title s; e_sql := e_sql s; e_viz := as_viz v; e_preview := e_preview s;
          e_error := e_error s; e_loading := e_loading s |}, None)
  | PreviewClicked => (with_preview (e_preview s) None true s, None)
  | CloseClicked => (s, Some EditorClosed)
  | AddToReport =>
      (s, Some (EditorSaved {| wid := wid widget; wtitle := e_title s; wsql := e_sql s;
                               wviz := e_viz s |}))
  end.

(** [run] of the editor: the SQL as typed, without [applyVars]. *)
Definition preview_run (BASE sql : string) : prog (EditorState -> EditorState) :=
  try_catch
    (r ← runQuery BASE sql; mret (fun s => with_preview (Some (as_result r)) (e_error s) false s))
    (fun e => mret (with_preview None (Some (message_of e "error")) false)).

Definition WidgetEditor (s : EditorState) : html EditorMsg :=
  div [div [
    div [Elem "p" [] [Text "Widget"]; Elem "button" [On "click" CloseClicked] [Elem "X" [] []]];
    div [
      div [Elem "input" [Attr "value" (e_title s); OnText "change" TitleChanged; Attr "placeholder" "Title"] [];
           Elem "select" [Attr "value" (viz_text (e_viz s)); OnText "change" VizChanged] [
             Elem "option" [Attr "value" "table"] [Text "Table"];
             Elem "option" [Attr "value" "line"] [Text "Line"];
             Elem "option" [Attr "value" "pie"] [Text "Pie"]]];
      Elem "textarea" [Attr "value" (e_sql s); OnText "change" SqlTyped] [];
      div [Elem "button" [On "click" PreviewClicked; Flag "disabled" (e_loading s)]
             [Elem (if e_loading s then "Loader2" else "Play") [] []; Text "Preview"];
           span [Text "first column = label · second = value (line/pie)"]];
      match e_error s with
      | Some e => show (str_truthy e) (Elem "p" [] [Text e])
      | None => Nothing
      end;
      match e_preview s with
      | Some r => div [VizRender r (e_viz s) false]
      | None => Nothing
      end];
    div [Elem "button" [On "click" CloseClicked] [Text "Cancel"];
         Elem "button" [On "click" AddToReport] [Text "Add to report"]]]].

(** ** Strings built by [join] and [+] *)

Lemma app_inj_l p a b : p +:+ a = p +:+ b -> a = b.
Proof. induction p; simpl; [done |]. intros [= H]. auto. Qed.

Definition join_tail (sep : string) (l : list string) : string :=
  foldr (fun x t => sep +:+ x +:+ t) "" l.

Lemma join_cons sep x l : join sep (x :: l) = x +:+ join_tail sep l.
Proof.
  revert x. induction l as [|y l IH]; intros x; [simpl; by rewrite app_nil_r_s |].
  change (join sep (x :: y :: l)) with (x +:+ sep +:+ join sep (y :: l)). by rewrite IH.
Qed.

(** ** The key of the effect *)

Definition piece (w : Widget) : string := wid w +:+ "::" +:+ wsql w.
Definition ws_key (ws : list Widget) : string := join "|" (List.map piece ws).
Definition sql_of (w : Widget) : string * string := (wid w, wsql w).

(** What the effect sends for a state. *)
Definition queries (s : StudioState) : list (string * string) :=
  List.map (fun w => (wid w, sent_sql s w)) (widgets s).

(** The states [s] and [s'] send the same queries if their keys agree: a property
    of two states that is proved below of the user's edits, and that fails for some
    reports ([key_collision]). *)
Definition no_collision (s s' : StudioState) : Prop :=
  widgetsKey s' = widgetsKey s -> queries s' = queries s.

Lemma queries_sql s : queries s = List.map (fun p => (p.1, applyVars p.2 (vars s))) (List.map sql_of (widgets s)).
Proof. unfold queries. by rewrite List.map_map. Qed.

Lemma no_collision_sql s s' :
  vars s' = vars s -> (ws_key (widgets s') = ws_key (widgets s) ->
    List.map sql_of (widgets s') = List.map sql_of (widgets s)) ->
  no_collision s s'.
Proof.
  intros Hv Hw Hk. rewrite !queries_sql, Hv. f_equal. apply Hw.
  unfold vars in Hv. injection Hv as Hp Hf Ht. unfold widgetsKey in Hk. rewrite Hp, Hf, Ht in Hk.
  by apply app_inj_r in Hk.
Qed.

Lemma no_collision_same s s' :
  vars s' = vars s -> widgets s' = widgets s -> no_collision s s'.
Proof. intros Hv Hw. apply no_collision_sql; [done |]. by rewrite Hw. Qed.

(** The length of a key, a separator counted for each widget. *)
Definition klen (ws : list Widget) : nat := foldr (fun w n => (S (String.length (piece w)) + n)%nat) O ws.

Lemma join_tail_length ws : String.length (join_tail "|" (List.map piece ws)) = klen ws.
Proof.
  induction ws as [|w ws IH]; [done |]. cbn [List.map klen foldr].
  change (join_tail "|" (piece w :: List.map piece ws))
    with ("|" +:+ piece w +:+ join_tail "|" (List.map piece ws)).
  rewrite !length_app_s, IH. done.
Qed.

Lemma ws_key_length ws : String.length (ws_key ws) = pred (klen ws).
Proof.
  destruct ws as [|w ws]; [done |]. unfold ws_key. cbn [List.map].
  by rewrite join_cons, length_app_s, join_tail_length.
Qed.

Lemma piece_length w : (2 <= String.length (piece w))%nat.
Proof. unfold piece. rewrite length_app_s. simpl. lia. Qed.

Lemma ws_key_longer ws ws' : (klen ws + 3 <= klen ws')%nat -> ws_key ws <> ws_key ws'.
Proof. intros Hl H. apply (f_equal String.length) in H. rewrite !ws_key_length in H. lia. Qed.

Lemma klen_app ws ws' : klen (ws ++ ws') = (klen ws + klen ws')%nat.
Proof. induction ws as [|w ws IH]; [done |]. simpl. rewrite IH. lia. Qed.

Lemma klen_filter f ws :
  List.filter f ws = ws \/ (klen (List.filter f ws) + 3 <= klen ws)%nat.
Proof.
  induction ws as [|w ws IH]; [by left |]. simpl. pose proof (piece_length w).
  destruct (f w); [destruct IH as [-> | IH]; [by left | right; simpl; lia] | right].
  destruct IH as [-> | IH]; lia.
Qed.

Lemma ws_key_filter f ws :
  ws_key (List.filter f ws) = ws_key ws -> List.filter f ws = ws.
Proof. intros H. destruct (klen_filter f ws) as [| Hl]; [done |]. by apply ws_key_longer in Hl. Qed.

Lemma ws_key_nil ws : ws_key [] = ws_key ws -> ws = [].
Proof.
  destruct ws as [|w ws]; [done |]. intros H. exfalso. revert H. apply ws_key_longer.
  simpl. pose proof (piece_length w). lia.
Qed.

Lemma replace_none w ws :
  wid w ∉ List.map wid ws -> List.map (fun x => if String.eqb (wid x) (wid w) then w else x) ws = ws.
Proof.
  induction ws as [|x ws IH]; simpl; [done |]. rewrite not_elem_of_cons. intros [Hx Hws].
  destruct (String.eqb_spec (wid x) (wid w)) as [E | _]; [congruence |]. by rewrite IH.
Qed.

Lemma tail_cancel l l' : join_tail "|" l = join_tail "|" l' -> join "|" l = join "|" l'.
Proof.
  destruct l as [|x l], l' as [|x' l']; try done. rewrite !join_cons.
  exact (app_inj_l "|" (x +:+ join_tail "|" l) (x' +:+ join_tail "|" l')).
Qed.

(** Changing one widget's SQL changes the key. *)
Lemma ws_key_replace w ws :
  NoDup (List.map wid ws) ->
  ws_key (List.map (fun x => if String.eqb (wid x) (wid w) then w else x) ws) = ws_key ws ->
  List.map sql_of (List.map (fun x => if String.eqb (wid x) (wid w) then w else x) ws) =
  List.map sql_of ws.
Proof.
  induction ws as [|x ws IH]; [done |]. intros [Hx Hnd]%NoDup_cons Hk.
  unfold ws_key in Hk. cbn [List.map] in *. rewrite !join_cons in Hk.
  destruct (String.eqb_spec (wid x) (wid w)) as [E | _].
  - rewrite E in Hx. rewrite (replace_none w ws Hx) in Hk |- *. apply app_inj_r in Hk. f_equal.
    unfold piece, sql_of in *. rewrite E in *. by apply app_inj_l, app_inj_l in Hk as ->.
  - f_equal. apply IH; [done |]. apply app_inj_l in Hk. by apply tail_cancel in Hk.
Qed.

Lemma put_widget_key w ws :
  NoDup (List.map wid ws) -> ws_key (put_widget w ws) = ws_key ws ->
  List.map sql_of (put_widget w ws) = List.map sql_of ws.
Proof.
  intros Hnd. unfold put_widget. destruct (existsb _ ws); [by apply ws_key_replace |].
  intros H. exfalso. symmetry in H. revert H. apply ws_key_longer. rewrite klen_app.
  simpl. pose proof (piece_length w). lia.
Qed.

(** ** One grid item per widget *)

Definition placed (ws : list Widget) (l : list GridItem) : Prop :=
  NoDup (List.map wid ws) /\ List.map gi l ≡ₚ List.map wid ws.

Definition wf (s : StudioState) : Prop := placed (widgets s) (layout s).

Lemma existsb_ids {A} (f : A -> string) (i : string) l :
  existsb (fun x => String.eqb (f x) i) l = bool_decide (i ∈ List.map f l).
Proof.
  induction l as [|x l IH]; [done |]. cbn. rewrite IH.
  destruct (String.eqb_spec (f x) i) as [<- | Hne]; cbn.
  - symmetry. apply bool_decide_eq_true. left.
  - apply bool_decide_ext. rewrite elem_of_cons. split; [by right |].
    by intros [-> | ?].
Qed.

Lemma replace_ids w ws :
  List.map wid (List.map (fun x => if String.eqb (wid x) (wid w) then w else x) ws) = List.map wid ws.
Proof.
  rewrite List.map_map. apply List.map_ext. intros x.
  by destruct (String.eqb_spec (wid x) (wid w)).
Qed.

Lemma map_filter_ids {A} (f : A -> string) (i : string) l :
  List.map f (List.filter (fun x => negb (String.eqb (f x) i)) l) =
  List.filter (fun x => negb (String.eqb x i)) (List.map f l).
Proof. induction l as [|x l IH]; [done |]. cbn. destruct (String.eqb _ _); cbn; by rewrite IH. Qed.

(** A new item is below every other one. *)
Lemma bottom_le l : forall m, m <= fold_left (fun m l => Z.max m (gy l + gh l)) l m /\
  Forall (fun x => gy x + gh x <= fold_left (fun m l => Z.max m (gy l + gh l)) l m) l.
Proof.
  induction l as [|x l IH]; intros m; cbn; [split; [lia | constructor] |].
  destruct (IH (Z.max m (gy x + gh x))) as [Hm Hl]. split; [lia |].
  constructor; [lia | done].
Qed.

Lemma no_collision_period f t s :
  f = from s \/ t = to s -> no_collision s (with_period f t s).
Proof.
  intros Hft Hk. unfold widgetsKey in Hk. cbn [widgets project from to with_period] in Hk.
  do 4 apply app_inj_l in Hk.
  destruct Hft as [-> | ->].
  - do 2 apply app_inj_l in Hk. by rewrite Hk.
  - apply app_inj_r in Hk. by rewrite Hk.
Qed.

(** Whatever the user does, the effect runs again when what it would send has
    changed. *)
Lemma update_no_collision uid m s :
  NoDup (List.map wid (widgets s)) -> no_collision s (studio_update uid m s).
Proof.
  intros Hnd. destruct m; try (apply no_collision_same; done).
  - apply no_collision_period. by right.
  - apply no_collision_period. by left.
  - apply no_collision_sql; [done |]. intros Hk%ws_key_nil. by rewrite Hk.
  - apply no_collision_sql; [done |]. cbn. intros Hk%ws_key_filter. by rewrite Hk.
  - apply no_collision_sql; [done |]. by apply put_widget_key.
Qed.

(** ** The steps of the page with its queries in flight *)

(** The updates that the handlers make once the server has answered, for some
    host and from the state [s] of some render. *)
Definition server_update (BASE : string) (u : StudioState -> StudioState) : Prop :=
  exists (H : Host) (w : world) (s : StudioState) (us : updates), In u us /\
    ((exists o, (run (save BASE s) w).1 = Ok (o, us)) \/
     (exists c, (run (handleDeleteReport BASE c s) w).1 = Ok us) \/
     (run (loadList BASE (project s)) w).1 = Ok us).

Inductive step (BASE : string) : System -> System -> Prop :=
| step_user uid m sys : step BASE sys (commit sys (studio_update uid m (ui sys)))
| step_project p sys : step BASE sys (commit sys (with_project p (ui sys)))
| step_opened r sys : step BASE sys (commit sys (openReport r (ui sys)))
| step_server u sys :
    server_update BASE u -> step BASE sys (commit sys (u (ui sys)))
| step_answer g id sql st before after sys :
    inflight sys = (before ++ (g, id, sql) :: after)%list ->
    (exists (H : Host) (w : world), (run (widget_fetch BASE sql) w).1 = Ok st) ->
    step BASE sys (receive sys g id sql st (before ++ after)).

Definition opened (now : Z) (p : option string) : System :=
  {| ui := studio_initial now p; ran := studio_initial now p; gen := 0; inflight := []; answered := [] |}.

Inductive reachable (BASE : string) : System -> Prop :=
| reach_opened now p : reachable BASE (opened now p)
| reach_step sys sys' : reachable BASE sys -> step BASE sys sys' -> reachable BASE sys'.

(** What is shown under [id] is the answer to the query [sql] of [id], or it is
    loading and that query of the active run is on its way. *)
Definition shown (sys : System) (id sql : string) : Prop :=
  match data (ui sys) !! id with
  | Some st =>
      (st = ws_pending /\ In (gen sys, id, sql) (inflight sys)) \/ In (id, sql, st) (answered sys)
  | None => False
  end.

Record inv (sys : System) : Prop := {
  inv_key : widgetsKey (ui sys) = widgetsKey (ran sys);
  inv_gen : forall g id sql, In (g, id, sql) (inflight sys) -> (g <= gen sys)%nat;
  inv_sent : forall id sql, In (gen sys, id, sql) (inflight sys) -> In (id, sql) (queries (ran sys));
  inv_shown : forall id, In id (List.map wid (widgets (ran sys))) ->
    exists sql, In (id, sql) (queries (ran sys)) /\ shown sys id sql
}.

(** An update that leaves the widgets, the grid and what they show alone. *)
Definition inert (u : StudioState -> StudioState) : Prop :=
  forall s, widgets (u s) = widgets s /\ layout (u s) = layout s /\ data (u s) = data s /\
            vars (u s) = vars s.

(** [loadList] never throws: it stores the list or does nothing. *)
Lemma loadList_run `{Host} BASE p w :
  exists us w', run (loadList BASE p) w = (Ok us, w') /\
    (us = [] \/ exists rs, us = [with_reports rs]).
Proof.
  unfold loadList. rewrite run_try_catch, run_bind.
  destruct (run (listReports BASE p) w) as [[v | e] w']; cbn; eexists _, _;
    (split; [reflexivity |]); eauto.
Qed.

Lemma list_inert us u : us = [] \/ (exists rs, us = [with_reports rs]) -> In u us -> inert u.
Proof. intros [-> | [rs ->]]; [done |]. by intros [<- | []]. Qed.

Lemma save_write_inert `{Host} BASE s w us w' u :
  run (save_write BASE s) w = (Ok us, w') -> In u us -> inert u.
Proof.
  unfold save_write. destruct (some_text (reportId s)); rewrite run_bind.
  - destruct (run (updateReport _ _ _) w) as [[] ?]; by intros [= <- <-].
  - destruct (run (createReport _ _) w) as [[r |] w1]; [| done]. rewrite run_bind.
    destruct (run (js_prop r "id") w1) as [[v |] w2]; [| done]. intros [= <- <-].
    by intros [<- | []].
Qed.

(** The updates of the server leave the widgets alone or start a new report. *)
Lemma server_update_cases BASE u :
  server_update BASE u -> u = newReport \/ inert u.
Proof.
  intros (H & w & s & us & Hin & [[o Hs] | [[c Hd] | Hl]]).
  - right. unfold save in Hs. rewrite run_try_catch, run_bind in Hs.
    destruct (run (save_write BASE s) w) as [[us1 | e] w1] eqn:E1.
    + rewrite run_bind in Hs. destruct (loadList_run BASE (project s) w1) as (us2 & w2 & E2 & Hus2).
      rewrite E2 in Hs. injection Hs as _ <-. rewrite !in_app_iff in Hin.
      destruct Hin as [Hin | [Hin | [<- | []]]]; [| | done].
      * by eapply save_write_inert.
      * by eapply list_inert.
    + injection Hs as _ <-. by destruct Hin as [<- | []].
  - unfold handleDeleteReport in Hd. destruct (some_text (reportId s)); [| by injection Hd as <-].
    destruct c; cbn [negb] in Hd; [| by injection Hd as <-]. rewrite run_bind in Hd.
    destruct (run (deleteReport _ _) w) as [[] w1]; [| done]. rewrite run_bind in Hd.
    destruct (loadList_run BASE (project s) w1) as (us2 & w2 & E2 & Hus2).
    rewrite E2 in Hd. injection Hd as <-. destruct Hin as [<- | Hin]; [by left |].
    right. by eapply list_inert.
  - right. destruct (loadList_run BASE (project s) w) as (us2 & w2 & E2 & Hus2).
    rewrite E2 in Hl. injection Hl as <-. by eapply list_inert.
Qed.

(** ** The invariant *)

Lemma data_pending ws : forall (d : gmap string WidgetState) i,
  fold_left (fun d w => <[wid w := ws_pending]> d) ws d !! i =
  if bool_decide (i ∈ List.map wid ws) then Some ws_pending else d !! i.
Proof.
  induction ws as [|w ws IH]; intros d i; cbn; [done |]. rewrite IH.
  destruct (decide (i ∈ List.map wid ws)) as [Hin | Hin].
  - rewrite !bool_decide_eq_true_2; [done | by right | done].
  - rewrite (bool_decide_eq_false_2 _ Hin). destruct (decide (i = wid w)) as [-> | Hne].
    + rewrite lookup_insert_eq, bool_decide_eq_true_2; [done | by left].
    + rewrite lookup_insert_ne, bool_decide_eq_false_2 by (rewrite ?elem_of_cons; tauto || done).
      done.
Qed.

Lemma queries_ids s : List.map fst (queries s) = List.map wid (widgets s).
Proof. unfold queries. by rewrite List.map_map. Qed.

Lemma commit_inv sys s' : inv sys -> data s' = data (ui sys) -> inv (commit sys s').
Proof.
  intros [Hkey Hgen Hsent Hshown] Hd. unfold commit.
  destruct (String.eqb_spec (widgetsKey s') (widgetsKey (ui sys))) as [E | _].
  - split; cbn; [by rewrite E | done | done |]. intros id Hin.
    destruct (Hshown id Hin) as (sql & Hq & Hs). exists sql. split; [done |].
    unfold shown in *. cbn. by rewrite Hd.
  - split; cbn; [done | | |].
    + intros g id sql [Hin | Hin]%in_app_iff; [by apply Hgen in Hin; lia |].
      apply in_map_iff in Hin as (x & [= <- <- <-] & _). lia.
    + intros id sql [Hin | Hin]%in_app_iff; [apply Hgen in Hin; lia |].
      apply in_map_iff in Hin as (x & [= <- <-] & Hin). apply in_map_iff. by exists x.
    + intros id Hin. pose proof Hin as (x & <- & Hx)%in_map_iff. exists (sent_sql s' x).
      split; [apply in_map_iff; by exists x |]. unfold shown. cbn. rewrite data_pending.
      apply list_elem_of_In in Hin. rewrite (bool_decide_eq_true_2 _ Hin). left. split; [done |].
      apply in_app_iff. right. apply in_map_iff. by exists x.
Qed.

Lemma receive_inv sys g id sql st before after :
  inv sys -> inflight sys = (before ++ (g, id, sql) :: after)%list ->
  inv (receive sys g id sql st (before ++ after)).
Proof.
  intros [Hkey Hgen Hsent Hshown] E.
  assert (Hsub : forall x, In x (before ++ after) -> In x (inflight sys)).
  { intros x. rewrite E, !in_app_iff. cbn. tauto. }
  split.
  - cbn. by destruct (g =? gen sys)%nat.
  - cbn. eauto.
  - intros i q Hin. cbn in Hin |- *. auto.
  - intros i Hin. cbn in Hin. destruct (Hshown i Hin) as (q & Hq & Hs). cbn [ran receive].
    destruct (decide (g = gen sys /\ i = id)) as [[-> ->] | Hne].
    + exists sql. split; [apply Hsent; rewrite E, in_app_iff; right; by left |].
      unfold shown. cbn. rewrite Nat.eqb_refl. cbn. rewrite lookup_insert_eq. right. by left.
    + exists q. split; [done |]. unfold shown in *. cbn.
      assert (data (if (g =? gen sys)%nat then with_data <[id:=st]> (ui sys) else ui sys) !! i =
              data (ui sys) !! i) as ->.
      { destruct (Nat.eqb_spec g (gen sys)); [| done]. cbn. apply lookup_insert_ne. naive_solver. }
      destruct (data (ui sys) !! i); [| done].
      destruct Hs as [[Hp Hfl] | Ha]; [left | right; by right]. split; [done |].
      rewrite E, in_app_iff in Hfl. apply in_app_iff.
      destruct Hfl as [| [[= -> -> _] |]]; [by left | tauto | by right].
Qed.

Lemma studio_reachable_inv BASE sys : reachable BASE sys -> inv sys.
Proof.
  induction 1 as [now p | sys sys' _ IH Hstep]; [by repeat constructor |].
  destruct Hstep as [uid m sys | p sys | r sys | u sys Hu | g id sql st b a sys Hfl _];
    [by apply commit_inv; [| destruct m] | by apply commit_inv | by apply commit_inv | |
     by apply receive_inv].
  destruct (server_update_cases BASE u Hu) as [-> | Hi]; [by apply commit_inv |].
  apply commit_inv; [done | apply Hi].
Qed.

Lemma queries_fun s id sql sql' :
  NoDup (List.map wid (widgets s)) ->
  In (id, sql) (queries s) -> In (id, sql') (queries s) -> sql = sql'.
Proof.
  intros Hnd. rewrite <- queries_ids in Hnd. induction (queries s) as [|[i q] l IH]; [done |].
  cbn in Hnd. apply NoDup_cons in Hnd as [Hi Hnd].
  assert (Hno : forall q', ~ In (i, q') l).
  { intros q' Hq. apply Hi, list_elem_of_In, in_map_iff. by exists (i, q'). }
  intros [H1 | H1] [H2 | H2]; simplify_eq; [done | by apply Hno in H2 | by apply Hno in H1 | auto].
Qed.

(** ** Keys that cannot collide *)

(** The separators of the key do not occur where they would be mistaken: no colon
    in the project, the period and the identifiers, and no bar in the identifiers
    and the SQL. *)
Definition key_plain (s : StudioState) : bool :=
  negb (has_char ":" (template_opt (project s) +:+ from s +:+ to s)) &&
  negb (bool_decide (project s = Some "undefined")) &&
  forallb (fun w => negb (has_char ":" (wid w)) && negb (has_char "|" (wid w +:+ wsql w))) (widgets s).

Lemma cut_right c a : forall a' t t',
  has_char c t = false -> has_char c t' = false ->
  a +:+ String c t = a' +:+ String c t' -> a = a' /\ t = t'.
Proof.
  assert (Hno : forall x t t', has_char c t = false -> t <> x +:+ String c t').
  { intros x t t' Ht ->. rewrite has_char_app in Ht. cbn in Ht.
    rewrite Ascii.eqb_refl, orb_true_r in Ht. done. }
  induction a as [|x a IH]; intros [|x' a'] t t' Ht Ht'; cbn.
  - by intros [= ->].
  - intros [= -> E]. by apply Hno in E.
  - intros [= <- E]. symmetry in E. by apply Hno in E.
  - intros [= <- E]. by destruct (IH _ _ _ Ht Ht' E) as [-> ->].
Qed.

Lemma cut_left c a a' t t' :
  has_char c a = false -> has_char c a' = false ->
  a +:+ String c t = a' +:+ String c t' -> a = a' /\ t = t'.
Proof.
  intros Ha Ha' E. assert (a = a') as ->.
  { by rewrite <- (before_app c a t Ha), E, before_app. }
  split; [done |]. apply app_inj_l in E. by injection E.
Qed.

Lemma cut_colons a a' t t' :
  has_char ":" t = false -> has_char ":" t' = false ->
  a +:+ "::" +:+ t = a' +:+ "::" +:+ t' -> a = a' /\ t = t'.
Proof.
  intros Ht Ht' E. change "::" with (":" +:+ ":") in E.
  rewrite <- !app_assoc_s, !(app_assoc_s a), !(app_assoc_s a') in E.
  destruct (cut_right ":" (a +:+ ":") (a' +:+ ":") t t' Ht Ht' E) as [E' ->].
  by apply app_inj_r in E'.
Qed.

Lemma template_opt_inj p p' :
  p <> Some "undefined" -> p' <> Some "undefined" -> template_opt p = template_opt p' -> p = p'.
Proof. destruct p, p'; cbn; congruence. Qed.

Lemma piece_plain w :
  negb (has_char ":" (wid w)) && negb (has_char "|" (wid w +:+ wsql w)) = true ->
  has_char ":" (wid w) = false /\ has_char "|" (piece w) = false.
Proof.
  rewrite andb_true_iff, !negb_true_iff, has_char_app, orb_false_iff. intros [? [H1 H2]].
  split; [done |]. unfold piece. by rewrite has_char_app, H1.
Qed.

Lemma ws_key_plain ws : forall ws',
  forallb (fun w => negb (has_char ":" (wid w)) && negb (has_char "|" (wid w +:+ wsql w))) ws = true ->
  forallb (fun w => negb (has_char ":" (wid w)) && negb (has_char "|" (wid w +:+ wsql w))) ws' = true ->
  ws_key ws = ws_key ws' -> List.map sql_of ws = List.map sql_of ws'.
Proof.
  induction ws as [|w ws IH]; intros [|w' ws'] Hp Hp' E; [done | | |].
  - by apply ws_key_nil in E.
  - symmetry in E. by apply ws_key_nil in E.
  - cbn in Hp, Hp'. apply andb_true_iff in Hp as [[Hc Hb]%piece_plain Hp], Hp' as [[Hc' Hb']%piece_plain Hp'].
    unfold ws_key in E. cbn [List.map] in E. rewrite !join_cons in E.
    assert (piece w = piece w' /\ ws_key ws = ws_key ws') as [Ew Es].
    { destruct ws as [|x ws], ws' as [|x' ws']; cbn [List.map join_tail foldr] in E.
      - by rewrite !app_nil_r_s in E.
      - rewrite app_nil_r_s in E. rewrite E in Hb. by rewrite has_char_app, orb_true_r in Hb.
      - rewrite app_nil_r_s in E. rewrite <- E in Hb'. by rewrite has_char_app, orb_true_r in Hb'.
      - apply (cut_left "|") in E as [-> E]; [| done | done]. split; [done |].
        unfold ws_key. cbn [List.map]. by rewrite !join_cons. }
    cbn. f_equal; [| by apply IH]. unfold piece in Ew. apply (cut_left ":") in Ew as [E1 E2]; [| done | done].
    unfold sql_of. injection E2 as E2. by rewrite E1, E2.
Qed.

Lemma key_plain_spec s :
  key_plain s = true ->
  has_char ":" (template_opt (project s)) = false /\ has_char ":" (from s) = false /\
  has_char ":" (to s) = false /\ project s <> Some "undefined" /\
  forallb (fun w => negb (has_char ":" (wid w)) && negb (has_char "|" (wid w +:+ wsql w))) (widgets s) = true.
Proof.
  unfold key_plain. rewrite !andb_true_iff, !negb_true_iff, !has_char_app, !orb_false_iff.
  intros [[(? & ? & ?) Hp%bool_decide_eq_false] ?]. by split_and!.
Qed.

(** States with plain keys never collide. *)
Lemma key_plain_no_collision s s' :
  key_plain s = true -> key_plain s' = true -> no_collision s s'.
Proof.
  intros (Hp & Hf & Ht & Hn & Hw)%key_plain_spec (Hp' & Hf' & Ht' & Hn' & Hw')%key_plain_spec E.
  unfold widgetsKey in E. rewrite !app_assoc_s in E. rewrite <- !(app_assoc_s _ "::") in E.
  apply cut_colons in E as [E Eto]; [| done | done]. apply cut_colons in E as [E Efrom]; [| done | done].
  apply cut_colons in E as [E Ep]; [| done | done]. apply template_opt_inj in Ep; [| done | done].
  rewrite !queries_sql. unfold vars. rewrite Eto, Efrom, Ep. f_equal. by apply ws_key_plain.
Qed.

(** C5 No stale result, in every state the page can reach, in whatever order the
    answers arrive and whatever reports are opened.  The effect last ran for a
    state with the key of now, and what is shown under the identifier of one of
    its widgets is the answer to a query that run sent for it, or it is loading
    and such a query is on its way: answers of earlier runs change nothing.  Hence
    every widget of now shows the answer to its own query, with the project and
    the period of now, or is loading with that query on its way, provided that the
    identifiers are distinct and the two states with the same key send the same
    queries.  They do if the separators of the key do not occur in what it joins,
    and they do, without such a condition, after any action of the user from a
    state where they did: only a report that is opened or a project that is
    chosen can collide ([studio_key_collides]). *)
Theorem studio_no_stale BASE sys :
  reachable BASE sys ->
  widgetsKey (ui sys) = widgetsKey (ran sys) /\
  (forall id, In id (List.map wid (widgets (ran sys))) ->
     exists sql, In (id, sql) (queries (ran sys)) /\ shown sys id sql) /\
  (NoDup (List.map wid (widgets (ui sys))) ->
   (key_plain (ran sys) = true /\ key_plain (ui sys) = true) \/ queries (ui sys) = queries (ran sys) ->
   forall w, In w (widgets (ui sys)) -> shown sys (wid w) (sent_sql (ui sys) w)) /\
  (NoDup (List.map wid (widgets (ui sys))) -> queries (ui sys) = queries (ran sys) ->
   forall uid m, let sys' := commit sys (studio_update uid m (ui sys)) in
     queries (ui sys') = queries (ran sys')).
Proof.
  intros [Hkey _ _ Hs]%studio_reachable_inv. split_and!; [done | done | |].
  - intros Hnd Hq w Hw.
    assert (Hqs : queries (ui sys) = queries (ran sys)).
    { destruct Hq as [[Hp Hp'] | Hq]; [| done]. by apply (key_plain_no_collision _ _ Hp Hp'). }
    assert (Hin : In (wid w, sent_sql (ui sys) w) (queries (ui sys))).
    { apply in_map_iff. by exists w. }
    destruct (Hs (wid w)) as (sql & Hsql & Hshown).
    + rewrite <- queries_ids, <- Hqs, queries_ids. apply in_map_iff. by exists w.
    + rewrite <- Hqs in Hsql. by rewrite (queries_fun _ _ _ _ Hnd Hin Hsql).
  - intros Hnd Hq uid m. cbn zeta. unfold commit.
    destruct (String.eqb_spec (widgetsKey (studio_update uid m (ui sys))) (widgetsKey (ui sys)))
      as [E | _]; [| done]. cbn. rewrite <- Hq. by apply update_no_collision.
Qed.

(** ** The grid under the user's edits *)

Definition widget_ids (s : StudioState) : list string := List.map wid (widgets s).
Definition item_ids (s : StudioState) : list string := List.map gi (layout s).

(** A run of handlers, each with what [uid()] returns. *)
Definition edits (ms : list (string * StudioMsg)) (s : StudioState) : StudioState :=
  fold_left (fun s um => studio_update um.1 um.2 s) ms s.

Definition not_grid (m : StudioMsg) : bool :=
  match m with LayoutChanged _ => false | _ => true end.

(** What the handlers keep of the widgets and the grid. *)
Record grid_kept (s s' : StudioState) : Prop := {
  kept_ids : NoDup (widget_ids s) -> NoDup (widget_ids s');
  kept_items : NoDup (item_ids s) -> NoDup (item_ids s');
  kept_missing : forall i, i ∈ widget_ids s' -> i ∉ item_ids s' -> i ∈ widget_ids s /\ i ∉ item_ids s;
  kept_orphan : forall i, i ∈ item_ids s' -> i ∉ widget_ids s' -> i ∈ item_ids s /\ i ∉ widget_ids s
}.

#[global] Instance grid_kept_preorder : PreOrder grid_kept.
Proof.
  split.
  - intros s. by split.
  - intros s1 s2 s3 [a b c d] [a' b' c' d']. split; [auto | auto | |].
    + intros i H1 H2. destruct (c' i H1 H2). auto.
    + intros i H1 H2. destruct (d' i H1 H2). auto.
Qed.

Lemma put_widget_ids w ws :
  List.map wid (put_widget w ws) =
  if bool_decide (wid w ∈ List.map wid ws) then List.map wid ws else (List.map wid ws ++ [wid w])%list.
Proof.
  unfold put_widget. rewrite existsb_ids. destruct (bool_decide _); [apply replace_ids |].
  by rewrite List.map_app.
Qed.

Lemma place_widget_ids i l :
  List.map gi (place_widget i l) =
  if bool_decide (i ∈ List.map gi l) then List.map gi l else (List.map gi l ++ [i])%list.
Proof.
  unfold place_widget. rewrite existsb_ids. destruct (bool_decide _); [done |].
  by rewrite List.map_app.
Qed.

Lemma NoDup_put (i : string) l :
  NoDup l -> NoDup (if bool_decide (i ∈ l) then l else (l ++ [i])%list).
Proof.
  intros Hnd. case_bool_decide as Hin; [done |]. apply NoDup_app.
  split_and!; [done | | by apply NoDup_singleton]. by intros x Hx ->%list_elem_of_singleton.
Qed.

Lemma elem_of_put (i j : string) l :
  j ∈ (if bool_decide (i ∈ l) then l else (l ++ [i])%list) <-> j = i \/ j ∈ l.
Proof.
  case_bool_decide as Hin; [| rewrite elem_of_app, list_elem_of_singleton; tauto].
  split; [by right |]. by intros [-> |].
Qed.

Lemma elem_of_drop (i j : string) l :
  j ∈ List.filter (fun x => negb (String.eqb x i)) l <-> j ∈ l /\ j <> i.
Proof.
  rewrite !list_elem_of_In, filter_In, negb_true_iff, String.eqb_neq. done.
Qed.

Lemma NoDup_drop (i : string) l :
  NoDup l -> NoDup (List.filter (fun x => negb (String.eqb x i)) l).
Proof. intros H. by apply NoDup_ListNoDup, List.NoDup_filter, NoDup_ListNoDup. Qed.

Lemma update_kept uid m s : not_grid m = true -> grid_kept s (studio_update uid m s).
Proof.
  intros Hm. destruct m as [| | | | | | | | | | | id | | w]; try done; split;
    unfold widget_ids, item_ids; cbn -[put_widget place_widget];
    rewrite ?put_widget_ids, ?place_widget_ids, ?map_filter_ids;
    try (intros; by constructor); try apply NoDup_drop; try apply NoDup_put;
    try (intros i Hi; by apply not_elem_of_nil in Hi); intros i;
    rewrite ?elem_of_drop, ?elem_of_put; tauto.
Qed.

Lemma edits_kept ms : forall s,
  Forall (fun um => not_grid um.2 = true) ms -> grid_kept s (edits ms s).
Proof.
  induction ms as [|[u m] ms IH]; intros s Hms; [done |].
  apply Forall_cons in Hms as [Hm Hms]. etransitivity; [| by apply IH]. by apply update_kept.
Qed.

(** One item per widget: distinct identifiers that are the same on both sides. *)
Lemma wf_iff s :
  wf s <-> NoDup (widget_ids s) /\ NoDup (item_ids s) /\ forall i, i ∈ item_ids s <-> i ∈ widget_ids s.
Proof.
  unfold wf, placed, widget_ids, item_ids. split.
  - intros [Hnd Hp]. split_and!; [done | by rewrite Hp | intros i; by rewrite Hp].
  - intros (Hw & Hi & He). split; [done |]. by apply NoDup_Permutation.
Qed.

(** C20 The studio's grid under the user's edits (adding, changing and removing
    widgets, a new report, and every other handler but the grid's own report of a
    layout), from any report that was opened, with whatever layout it has or none:
    identifiers that are distinct stay distinct, no edit leaves a widget without
    an item or an item without a widget that was not so before, and so one item
    per widget stays one item per widget.  A widget that is added and has no item
    gets one below all the others, which stay where they are. *)
Theorem studio_grid ms s :
  Forall (fun um => not_grid um.2 = true) ms ->
  let s' := edits ms s in
  (NoDup (widget_ids s) -> NoDup (widget_ids s')) /\
  (forall i, i ∈ widget_ids s' -> i ∉ item_ids s' -> i ∈ widget_ids s /\ i ∉ item_ids s) /\
  (forall i, i ∈ item_ids s' -> i ∉ widget_ids s' -> i ∈ item_ids s /\ i ∉ widget_ids s) /\
  (wf s -> wf s') /\
  (forall w, wid w ∉ item_ids s' ->
     exists item, layout (addOrUpdateWidget w s') = (layout s' ++ [item])%list /\
       gi item = wid w /\ Forall (fun l => gy l + gh l <= gy item) (layout s')).
Proof.
  intros Hms s'. destruct (edits_kept ms s Hms) as [Hids Hitems Hmiss Horph]. fold s' in Hids, Hitems, Hmiss, Horph.
  split_and!; [done | done | done | |].
  - rewrite !wf_iff. intros (Hw & Hi & He). split_and!; [auto | auto |]. intros i. split; intros Hin.
    + destruct (decide (i ∈ widget_ids s')) as [| Hn]; [done |].
      destruct (Horph i Hin Hn) as [H1 H2]. by apply He in H1.
    + destruct (decide (i ∈ item_ids s')) as [| Hn]; [done |].
      destruct (Hmiss i Hin Hn) as [H1 H2]. by apply He in H1.
  - intros w Hw. cbn. unfold place_widget. rewrite existsb_ids, bool_decide_eq_false_2 by done.
    eexists. split_and!; [reflexivity | reflexivity |]. cbn. apply bottom_le.
Qed.

Definition demo_widget (sql : string) : Widget :=
  {| wid := "a"; wtitle := "t"; wsql := sql; wviz := VTable |}.
Definition demo_widget_b (sql : string) : Widget :=
  {| wid := "b"; wtitle := "t"; wsql := sql; wviz := VTable |}.
Definition demo_edit (sql : string) (sys : System) : System :=
  commit sys (studio_update "" (EditorSaved (demo_widget sql)) (ui sys)).
(** A widget whose SQL is changed while its first query is in flight. *)
Definition demo_run : System := demo_edit "SELECT 2" (demo_edit "SELECT 1" (opened 0 None)).
Definition demo_late : System := receive demo_run 1 "a" "SELECT 1" (ws_failed "Failed to fetch")
  [(2%nat, "a", "SELECT 2")].

Definition offline : Host :=
  {| net := fun _ _ => None; uuid_at := fun _ => "u"; latency := fun _ => 1 |}.

(** A report without a layout: its widget has no item, the one that is added
    gets one. *)
Lemma studio_grid_witness :
  let s := openReport (as_report (JObj [("id", JStr "r"); ("widgets", JArr [widget_json (demo_widget "SELECT 1")])]))
             (studio_initial 0 None) in
  let ms := [("", EditorSaved (demo_widget_b "SELECT 2")); ("", RemoveClicked "a")] in
  item_ids s = [] /\ item_ids (edits ms s) = ["b"] /\
  (forall i, i ∈ item_ids (edits ms s) -> i ∉ widget_ids (edits ms s) -> i ∈ item_ids s /\ i ∉ widget_ids s).
Proof.
  intros s ms. split_and!; [reflexivity | reflexivity |].
  destruct (studio_grid ms s) as (_ & _ & H & _ & _); [by repeat constructor | exact H].
Defined.

Lemma studio_demo_reachable : reachable "" demo_run.
Proof.
  apply (reach_step "" (demo_edit "SELECT 1" (opened 0 None)));
    [apply (reach_step "" (opened 0 None)); [apply reach_opened |] |]; by constructor.
Qed.

Lemma studio_no_stale_witness :
  data (ui demo_late) !! "a" = Some ws_pending /\ shown demo_late "a" "SELECT 2".
Proof.
  split; [by vm_compute |].
  destruct (studio_no_stale "" demo_late) as (_ & _ & H & _).
  - apply (reach_step "" demo_run); [exact studio_demo_reachable |].
    apply (step_answer "" 1 "a" "SELECT 1" _ [] [(2%nat, "a", "SELECT 2")]); [by vm_compute |].
    by exists offline, (World ∅ 0 0 []).
  - apply (H ltac:(apply NoDup_singleton) ltac:(left; split; vm_compute; reflexivity)
             (demo_widget "SELECT 2")). by left.
Defined.

(** Two widget lists with the same key. *)
Example key_collision :
  ws_key [demo_widget "x|b::y"] = ws_key [demo_widget "x"; demo_widget_b "y"].
Proof. reflexivity. Qed.

Definition colliding_report (ws : list Widget) : Report :=
  {| r_id := "r"; r_name := "r"; r_widgets := ws; r_layout := [] |}.

(** The first report is opened and answered, then the second. *)
Definition collided : System :=
  let sys := commit (opened 0 None) (openReport (colliding_report [demo_widget "x|b::y"])
                                      (ui (opened 0 None))) in
  let sys := receive sys 1 "a" "x|b::y" (ws_failed "Failed to fetch") [] in
  commit sys (openReport (colliding_report [demo_widget "x"; demo_widget_b "y"]) (ui sys)).

(** The key of the effect can collide: after another report with the same key is
    opened no query is sent, one widget shows the answer to the SQL of the first
    report and the other one waits for ever. *)
Theorem studio_key_collides :
  reachable "" collided /\ inflight collided = [] /\
  (exists st, data (ui collided) !! "a" = Some st /\ answered collided = [("a", "x|b::y", st)]) /\
  In (demo_widget "x") (widgets (ui collided)) /\
  In (demo_widget_b "y") (widgets (ui collided)) /\ data (ui collided) !! "b" = None.
Proof.
  assert (Hw : widgets (ui collided) = [demo_widget "x"; demo_widget_b "y"]) by (vm_compute; reflexivity).
  rewrite Hw. split_and!; [| vm_compute; reflexivity | | by left | by right; left | vm_compute; reflexivity].
  2: { exists (ws_failed "Failed to fetch"). split; vm_compute; reflexivity. }
  eapply reach_step; [eapply reach_step; [eapply reach_step; [apply reach_opened |] |] |].
  - apply (step_opened "" (colliding_report [demo_widget "x|b::y"])).
  - apply (step_answer "" 1 "a" "x|b::y" (ws_failed "Failed to fetch") [] []); [by vm_compute |].
    by exists offline, (World ∅ 0 0 []).
  - apply (step_opened "" (colliding_report [demo_widget "x"; demo_widget_b "y"])).
Qed.

(** ** Saving *)

Lemma as_viz_text v : as_viz (viz_text v) = v.
Proof. by destruct v. Qed.

Lemma as_widget_json w : as_widget (widget_json w) = w.
Proof. destruct w. unfold as_widget. cbn. by rewrite as_viz_text. Qed.

Lemma as_item_json l : as_item (item_json l) = l.
Proof. by destruct l. Qed.

Lemma as_report_body i s :
  as_report (JObj (("id", JStr i) :: report_body s)) =
  {| r_id := i; r_name := name s; r_widgets := widgets s; r_layout := layout s |}.
Proof.
  unfold as_report. cbn. rewrite !List.map_map. f_equal.
  - rewrite <- (List.map_id (widgets s)) at 2. apply List.map_ext, as_widget_json.
  - rewrite <- (List.map_id (layout s)) at 2. apply List.map_ext, as_item_json.
Qed.

Lemma report_body_ok s : json_ok (JObj (report_body s)) = true.
Proof.
  cbn. rewrite andb_true_r. apply andb_true_iff.
  split; apply forallb_forall; by intros v (x & <- & _)%in_map_iff.
Qed.

(** The body [save] sends, and what the server reads of it. *)
Definition save_json (s : StudioState) : jsval :=
  JObj (match some_text (reportId s) with
        | Some _ => report_body s
        | None => ("project_id", jstr_opt (project s)) :: report_body s
        end).

Definition saved_members (s : StudioState) : obj :=
  match some_text (reportId s), project s with
  | None, Some p => ("project_id", JStr p) :: report_body s
  | _, _ => report_body s
  end.

Lemma save_json_read s : json_parse (json_text (save_json s)) = Some (JObj (saved_members s)).
Proof.
  pose proof (report_body_ok s) as Hok. unfold save_json, saved_members.
  destruct (some_text (reportId s)); [by apply json_parse_stringify |].
  rewrite json_parse_wire; pose proof (wire_ok _ Hok) as Hw; cbn [wire flat_map];
    change (flat_map _ (report_body s)) with
      (match wire (JObj (report_body s)) with JObj o => o | _ => [] end);
    rewrite Hw; destruct (project s) as [p|]; try done.
Qed.

Definition save_request (BASE : string) (s : StudioState) (token : option string) : request :=
  auth_request token
    (match some_text (reportId s) with
     | Some id => BASE +:+ "/v1/reports/" +:+ id
     | None => BASE +:+ "/v1/reports"
     end)
    (json_init (match some_text (reportId s) with Some _ => "PUT" | None => "POST" end) (save_json s)).

(** The first thing [save] does is to send it. *)
Lemma save_first BASE s :
  exists k, save BASE s = GetItem TOKEN_KEY (fun t => Fetch (save_request BASE s t) (k t)).
Proof.
  unfold save, save_write, save_request, save_json.
  destruct (some_text (reportId s)); eexists; reflexivity.
Qed.

Lemma save_sends `{Host} BASE s w :
  exists tail, trace (run (save BASE s) w).2 =
    (trace w ++ EvFetch (save_request BASE s (storage w !! TOKEN_KEY)) :: tail)%list.
Proof.
  destruct (save_first BASE s) as [k ->]. cbn [run do_fetch].
  set (rq := save_request _ _ _).
  destruct (run_trace_grows (k (storage w !! TOKEN_KEY) (net (trace w) rq))
              (tick (latency (trace w)) (log (EvFetch rq) w))) as [l ->].
  exists l. cbn. by rewrite <- app_assoc.
Qed.

Lemma apply_updates_app us us' s : apply_updates (us ++ us') s = apply_updates us' (apply_updates us s).
Proof. apply fold_left_app. Qed.

(** How [save] ends: with the updates of a write that was accepted and of the
    list, or with the error of the write. *)
Lemma save_run `{Host} BASE s w :
  exists o us w', run (save BASE s) w = (Ok (o, us), w') /\
    match o with
    | Ok _ => exists us1 us2 w1, run (save_write BASE s) w = (Ok us1, w1) /\
        (us2 = [] \/ exists rs, us2 = [with_reports rs]) /\
        us = (us1 ++ us2 ++ [with_saving false])%list
    | Err e => exists w1, run (save_write BASE s) w = (Err e, w1) /\ us = [with_saving false]
    end.
Proof.
  unfold save. rewrite run_try_catch, run_bind.
  destruct (run (save_write BASE s) w) as [[us1 | e] w1] eqn:E1.
  - rewrite run_bind. destruct (loadList_run BASE (project s) w1) as (us2 & w2 & E2 & Hus2).
    rewrite E2. eexists (Ok tt), _, w2. split; [reflexivity |]. by exists us1, us2, w1.
  - eexists (Err e), _, w1. split; [reflexivity |]. by exists w1.
Qed.

(** The report the page is bound to after a write: the one it was bound to, or the
    created one. *)
Lemma save_write_binds `{Host} BASE s w us w' :
  run (save_write BASE s) w = (Ok us, w') ->
  match some_text (reportId s) with
  | Some _ => us = []
  | None => exists i, us = [with_reportId i]
  end.
Proof.
  unfold save_write. destruct (some_text (reportId s)); rewrite run_bind.
  - by destruct (run (updateReport _ _ _) w) as [[] ?]; intros [= <- <-].
  - destruct (run (createReport _ _) w) as [[r |] w1]; [| done]. rewrite run_bind.
    destruct (run (js_prop r "id") w1) as [[v |] w2]; [| done]. intros [= <- <-]. eauto.
Qed.

(** C21 Saving: the page sends the report it shows, to the report it is bound to
    or as a new one, and the text it sends reads back as the same name, widgets
    and layout, so that opening the report again shows what was saved.  When the
    write fails nothing but the [saving] flag changes; whatever happens that flag
    is off at the end. *)
Theorem studio_save `{Host} BASE s w :
  exists o us w' tail rq,
    run (save BASE s) w = (Ok (o, us), w') /\
    trace w' = (trace w ++ EvFetch rq :: tail)%list /\
    rq = save_request BASE s (storage w !! TOKEN_KEY) /\
    (exists text ms, rq_body rq = Some text /\ json_parse text = Some (JObj ms) /\
       forall i, as_report (JObj (("id", JStr i) :: ms)) =
         {| r_id := i; r_name := name s; r_widgets := widgets s; r_layout := layout s |}) /\
    (forall s', saving (apply_updates us s') = false) /\
    (forall e, o = Err e -> forall s', apply_updates us s' = with_saving false s').
Proof.
  destruct (save_run BASE s w) as (o & us & w' & Hrun & Ho).
  destruct (save_sends BASE s w) as [tail Htr]. rewrite Hrun in Htr. cbn [snd] in Htr.
  eexists o, us, w', tail, _. split_and!; [done | exact Htr | done | | |].
  - exists (json_text (save_json s)), (saved_members s). split_and!; [done | apply save_json_read |].
    intros i. unfold saved_members. rewrite <- as_report_body.
    by destruct (some_text (reportId s)), (project s).
  - intros s'. destruct o as [[] | e].
    + destruct Ho as (us1 & us2 & w1 & _ & _ & ->). by rewrite !apply_updates_app.
    + by destruct Ho as (w1 & _ & ->).
  - intros e -> s'. by destruct Ho as (w1 & _ & ->).
Qed.

(** A save that is still running binds whatever the page shows when the answer
    comes: if the user starts a new report while the first save of a report runs,
    the blank report is bound to the saved one, and the next save overwrites the
    saved report with no widgets. *)
Theorem save_rebinds_new_report `{Host} BASE s w us w' i :
  some_text (reportId s) = None ->
  run (save BASE s) w = (Ok (Ok tt, us), w') -> reportId (apply_updates us s) = Some i -> i <> "" ->
  let blank := apply_updates us (newReport (with_saving true s)) in
  widgets blank = [] /\
  forall w2, exists rq tail,
    trace (run (save BASE blank) w2).2 = (trace w2 ++ EvFetch rq :: tail)%list /\
    rq_method rq = "PUT" /\ rq_url rq = BASE +:+ "/v1/reports/" +:+ i /\
    rq_body rq = Some (json_text (JObj [("name", JStr "Untitled report"); ("widgets", JArr []);
                                        ("layout", JArr [])])).
Proof.
  intros Hid Hrun Hi Hne blank.
  destruct (save_run BASE s w) as (o & us' & w1 & Hrun' & Ho). rewrite Hrun in Hrun'.
  injection Hrun' as <- <- <-. destruct Ho as (us1 & us2 & w2 & Hw & Hus2 & ->).
  apply save_write_binds in Hw. rewrite Hid in Hw. destruct Hw as [i' ->].
  rewrite !apply_updates_app in Hi.
  assert (i' = Some i) as -> by (by destruct Hus2 as [-> | [rs ->]]).
  assert (Hb : exists rs, blank = with_saving false (with_reports rs
    (with_reportId (Some i) (newReport (with_saving true s))))).
  { unfold blank. rewrite !apply_updates_app. destruct Hus2 as [-> | [rs ->]]; by eexists. }
  clearbody blank. destruct Hb as [rs ->]. split; [done |]. intros w3.
  destruct (save_sends BASE (with_saving false (with_reports rs
    (with_reportId (Some i) (newReport (with_saving true s))))) w3) as [tail Htr].
  eexists _, tail. split; [exact Htr |]. by destruct i.
Qed.

Definition accepting : Host :=
  {| net := fun _ _ => Some (Response 201 (json_text (JObj [("id", JStr "r1")])));
     uuid_at := fun _ => "u"; latency := fun _ => 1 |}.

Lemma save_rebinds_new_report_witness :
  let s := addOrUpdateWidget (demo_widget "SELECT 1") (studio_initial 0 None) in
  exists us w', @run accepting _ (save "" s) (World ∅ 0 0 []) = (Ok (Ok tt, us), w') /\
    widgets s <> [] /\ widgets (apply_updates us (newReport (with_saving true s))) = [].
Proof.
  eexists _, _. split; [reflexivity |]. split; [done |].
  eapply (@save_rebinds_new_report accepting "" _ (World ∅ 0 0 []) _ _ "r1");
    [reflexivity | reflexivity | reflexivity | done].
Defined.
