(* ===== verification/Tv.v ===== *)
(** * The wallboard screen (routes/tv.tsx)

    The activation form, the health carousel, the dashboard and the grid, and the
    page that chooses between them.  What the queries of [Queries] deliver is an
    argument of the views; [tz] is the distance of the local time zone from UTC
    and [locale] the local form of a number, which the browser chooses. *)

From S2P Require Import Prelude JsString JsValue JsonParse Numbers Dates Host Html Session HttpApi.
From S2P Require Import Wallboard.

Local Open Scope string_scope.
Local Open Scope Z_scope.

(** ** Helpers *)

Definition statusColor (code : num) : string :=
  if num_ge code (Num 500 0) then "text-[#f87171]"
  else if num_ge code (Num 400 0) then "text-[#fb923c]"
  else "text-[#4ade80]".

Definition methodColor (m : string) : string :=
  if String.eqb m "GET" then "text-[#4ade80]"
  else if String.eqb m "POST" then "text-[#818cf8]"
  else if String.eqb m "PUT" then "text-[#fbbf24]"
  else if String.eqb m "DELETE" then "text-[#f87171]"
  else "text-slate-400".

(** [timeAgo] at the time [now]. *)
Definition timeAgo (tz now : Z) (ts : string) : string :=
  if String.eqb ts "" then "—"
  else
    match parse_date tz ts with
    | None => "NaNh"
    | Some t =>
        let s := (now - t) / 1000 in
        if s <=? 0 then "now"
        else if s <? 60 then string_of_Z s +:+ "s"
        else if s <? 3600 then string_of_Z (s / 60) +:+ "m"
        else string_of_Z (s / 3600) +:+ "h"
    end.

(** What React shows of a value. *)
Definition react_text {Msg} (v : jsval) : html Msg :=
  match v with JStr s => Text s | JNum n => Text (string_of_num n) | _ => Nothing end.

Definition StatCard {Msg} (label : string) (value : jsval) (color : string) : html Msg :=
  div [Elem "p" [] [Text label]; Elem "p" [Attr "className" color] [react_text value]].

(** ** The activation screen *)

Record ActivationState := { a_code : string; a_error : string; a_loading : bool }.

Definition activation_initial : ActivationState :=
  {| a_code := ""; a_error := ""; a_loading := false |}.

Inductive ActivationMsg : Type := CodeChanged (v : string) | CodeSubmitted.

(** The handlers, the submission up to its [await]. *)
Definition activation_update (m : ActivationMsg) (s : ActivationState) : ActivationState :=
  match m with
  | CodeChanged v => {| a_code := to_upper v; a_error := a_error s; a_loading := a_loading s |}
  | CodeSubmitted => {| a_code := a_code s; a_error := ""; a_loading := true |}
  end.

Section activation.
Context (BASE : string).

(** The rest of [handleSubmit], called in the state [s]: the profile name handed
    to [onActivated], if it is called, and the updates. *)
Definition activation_submit (s : ActivationState)
    : prog (option jsval * (ActivationState -> ActivationState)) :=
  r ← try_catch
    (data ← activate BASE (trim (a_code s));
     n ← js_prop data "profile_name";
     mret (Some (coalesce n (JStr "")), fun s' => s'))
    (fun _ => mret (None, fun s' =>
       {| a_code := a_code s';
          a_error := "Invalid or expired code. Generate one in Settings → Wallboard.";
          a_loading := a_loading s' |}));
  mret (r.1, fun s' =>
    let s1 := r.2 s' in {| a_code := a_code s1; a_error := a_error s1; a_loading := false |}).
End activation.

Definition ActivationScreen (s : ActivationState) : html ActivationMsg :=
  div [div [
    div [Elem "Activity" [] []; span [Text "BatAudit TV"]];
    Elem "p" [] [Text "Enter the activation code from Settings → Wallboard"];
    Elem "form" [On "submit" CodeSubmitted] [
      Elem "input" [Attr "value" (a_code s); OnText "change" CodeChanged;
                    Attr "placeholder" "BAT-XXXXXX"; Attr "maxLength" "10"] [];
      show (str_truthy (a_error s)) (Elem "p" [] [Text (a_error s)]);
      Elem "button" [Attr "type" "submit";
        Flag "disabled" (a_loading s || (String.length (a_code s) <? 6)%nat)]
        [Text (if a_loading s then "Activating…" else "Activate")]]]].

(** ** The health carousel *)

Record HealthEntry := { h_name : string; h_status : string; h_ms : num; h_checked : string }.

Definition PAGE_SIZE : nat := 5.
Definition CAROUSEL_INTERVAL : Z := 15000.

(** [Math.max(1, Math.ceil(total / PAGE_SIZE))] *)
Definition pages (total : nat) : nat := Nat.max 1 ((total + PAGE_SIZE - 1) / PAGE_SIZE).

(** A tick of the interval, which runs when there is more than one page. *)
Definition carousel_tick (total page : nat) : nat :=
  if (pages total <=? 1)%nat then page else ((page + 1) mod pages total)%nat.

(** The effect that resets the page. *)
Definition carousel_reset (total page : nat) : nat :=
  if (pages total <=? page)%nat then 0%nat else page.

Definition carousel_slice {A} (entries : list A) (page : nat) : list A :=
  take PAGE_SIZE (drop (page * PAGE_SIZE) entries).

Section views.
Context (tz now : Z) (locale : num -> string) (clock : string).

Definition HealthCarousel {Msg} (entries : list HealthEntry) (page : nat) : html Msg :=
  let total := length entries in
  div [
    Elem "" [] (List.map (fun h =>
      div [
        span [Text (if String.eqb (h_status h) "up" then "↑" else "↓")];
        span [Text (h_name h)];
        span [Text (string_of_num (h_ms h)); Text "ms"];
        span [Text (timeAgo tz now (h_checked h))]]) (carousel_slice entries page));
    show (total =? 0)%nat (Elem "p" [] [Text "No monitors configured"]);
    show (1 <? pages total)%nat
      (div (List.map (fun i =>
        Elem "span" [Attr "className" (if (i =? page)%nat then "bg-[#818cf8]" else "bg-slate-700")] [])
        (seq 0 (pages total))))].

(** ** The grid of projects *)

Record ProjectStat := {
  p_id : string;
  p_name : string;
  p_events : num;
  p_4xx : num;
  p_5xx : num;
  p_avg : num;
  p_down : num
}.

Definition positive (n : num) : bool := num_gt n (Num 0 0).

Definition card_accent (stat : ProjectStat) : string :=
  if positive (p_down stat) || positive (p_5xx stat) then "border-[#f87171]/50"
  else if positive (p_4xx stat) then "border-[#fb923c]/40"
  else "border-slate-700/50".

Definition ProjectGridCard {Msg} (onSelect : string -> Msg) (stat : ProjectStat) : html Msg :=
  Elem "button" [On "click" (onSelect (p_id stat)); Attr "className" (card_accent stat)] [
    div [span [Text (p_name stat)];
         if positive (p_down stat)
         then span [Elem "WifiOff" [] []; Text (string_of_num (p_down stat))]
         else span []];
    div [
      div [Elem "p" [] [Text "Events"]; Elem "p" [] [Text (locale (p_events stat))]];
      div [Elem "p" [] [Text "Avg"];
           Elem "p" [] [Text (string_of_num (math_round (p_avg stat))); Text "ms"]];
      div [Elem "p" [] [Text "4xx"];
           Elem "p" [Attr "className" (if positive (p_4xx stat) then "text-[#fb923c]" else "text-slate-400")]
             [Text (string_of_num (p_4xx stat))]];
      div [Elem "p" [] [Text "5xx"];
           Elem "p" [Attr "className" (if positive (p_5xx stat) then "text-[#f87171]" else "text-slate-400")]
             [Text (string_of_num (p_5xx stat))]]]].

(** The columns of the grid. *)
Definition grid_cols (n : nat) : nat :=
  if (n <=? 2)%nat then n else if (n <=? 9)%nat then 3%nat else 4%nat.

Definition ProjectGrid {Msg} (onSelect : string -> Msg) (stats : list ProjectStat) : html Msg :=
  match stats with
  | [] => div [Elem "p" [] [Text "No projects yet"]]
  | _ =>
      Elem "div" [Attr "gridTemplateColumns"
        ("repeat(" +:+ string_of_Z (Z.of_nat (grid_cols (length stats))) +:+ ", minmax(0, 1fr))")]
        (List.map (ProjectGridCard onSelect) stats)
  end.

(** ** The volume chart *)

Record VolumePoint := { v_bucket : string; v_count : Z }.

Definition maxVal (pts : list VolumePoint) : Z :=
  match pts with
  | [] => 0
  | p :: pts' => fold_left (fun m p => Z.max m (v_count p)) pts' (v_count p)
  end.

Definition sum_counts (pts : list VolumePoint) : Z := fold_left (fun s p => s + v_count p) pts 0.

(** [Math.round(sum / pts.length)] *)
Definition avgVal (pts : list VolumePoint) : Z :=
  match pts with
  | [] => 0
  | _ => let n := Z.of_nat (length pts) in (2 * sum_counts pts + n) / (2 * n)
  end.

Definition lastVal (pts : list VolumePoint) : Z :=
  match last pts with Some p => v_count p | None => 0 end.

(** The label [CustomDot] puts on the point at [index]. *)
Definition dot_label (pts : list VolumePoint) (index : nat) (value : Z) : option string :=
  let isPeak := value =? maxVal pts in
  let isLast := (index =? length pts - 1)%nat in
  if negb isPeak && negb isLast then None
  else Some (if isPeak then "▲ " +:+ string_of_Z value else string_of_Z value).

Definition CustomDot {Msg} (pts : list VolumePoint) (index : nat) (value : Z) : html Msg :=
  match dot_label pts index value with
  | None => Nothing
  | Some t =>
      Elem "g" [] [Elem "circle" [] [];
        Elem "text" [Attr "fill" (if value =? maxVal pts then "#818cf8" else "#94a3b8")] [Text t]]
  end.

Definition volume_chart {Msg} (pts : list VolumePoint) : list (html Msg) :=
  [div [Elem "p" [] [Text "Volume (last 2h)"];
        div [span [Text "avg "; span [Text (string_of_Z (avgVal pts))]];
             span [Text "now "; span [Text (string_of_Z (lastVal pts))]]]];
   Elem "ResponsiveContainer" [] [
     Elem "AreaChart" [Attr "data" (json_text (JArr (List.map (fun p =>
         JObj [("bucket", JStr (v_bucket p)); ("count", JInt (v_count p))]) pts)))] [
       Elem "XAxis" [Attr "dataKey" "bucket"] [];
       Elem "YAxis" [Attr "domain" ("0," +:+ string_of_num
         (if 0 <? maxVal pts then num_mul (Num (maxVal pts) 0) (Num 13 1) else Num 10 0))] [];
       show (0 <? avgVal pts)
         (Elem "ReferenceLine" [Attr "y" (string_of_Z (avgVal pts));
                                Attr "label" ("avg " +:+ string_of_Z (avgVal pts))] []);
       Elem "Area" [Attr "dataKey" "count"]
         (imap (fun i p => CustomDot pts i (v_count p)) pts)]]].

(** ** The dashboard *)

Definition ENVIRONMENTS : list string :=
  [""; "production"; "staging"; "development"; "testing"; "local"].

Record FeedEvent := { f_method : string; f_path : string; f_status : num; f_ms : num; f_time : string }.
Record ErrorRoute := { e_method : string; e_path : string; e_count : num; e_rate : num }.
Record TvAlert := { al_rule : string; al_time : string; al_service : string }.

(** What the queries have delivered; [JUndef] and the empty lists stand for
    [undefined] and for [data ?? []]. *)
Record TvData := {
  d_summary : jsval;
  d_feed : list FeedEvent;
  d_volume : list VolumePoint;
  d_health : list HealthEntry;
  d_alerts : list TvAlert;
  d_routes : list ErrorRoute;
  d_projects : list (string * string);
  d_grid : list ProjectStat
}.

Inductive ViewMode : Type := Dashboard | Grid.

Record DashState := {
  environment : string;
  viewMode : ViewMode;
  carousel : nat            (** the page of the health carousel *)
}.

Inductive TvMsg : Type :=
| ModeClicked (m : ViewMode)
| EnvironmentChanged (v : string)
| ProjectChanged (id : string)
| GridSelected (id : string)
| Disconnected.

Definition is_grid (s : DashState) : bool :=
  match viewMode s with Grid => true | Dashboard => false end.

(** The arguments of the hooks: project and environment, [undefined] when empty,
    and whether the dashboard's own queries run. *)
Definition query_project (projectId : string) : option string := some_text (Some projectId).
Definition query_env (s : DashState) : option string := some_text (Some (environment s)).
Definition dash_enabled (s : DashState) : bool := negb (is_grid s).

Definition summary_value (d : TvData) (k : string) : jsval :=
  coalesce (opt_prop (d_summary d) k) (JStr "—").

Definition avg_response (d : TvData) : jsval :=
  if truthy (d_summary d)
  then JStr (string_of_num (math_round (to_number (opt_prop (d_summary d) "avg_response_ms"))) +:+ "ms")
  else JStr "—".

Definition env_select (s : DashState) : html TvMsg :=
  Elem "select" [Attr "value" (environment s); OnText "change" EnvironmentChanged]
    (Elem "option" [Attr "value" ""] [Text "All environments"] ::
     List.map (fun e => Elem "option" [Attr "value" e] [Text e]) (List.filter str_truthy ENVIRONMENTS)).

Definition project_select (projectId : string) (d : TvData) : html TvMsg :=
  Elem "select" [Attr "value" projectId; OnText "change" ProjectChanged]
    (Elem "option" [Attr "value" ""] [Text "All projects"] ::
     List.map (fun '(id, n) => Elem "option" [Attr "value" id] [Text n]) (d_projects d)).

Definition dash_header (projectId profileName : string) (s : DashState) (d : TvData) : html TvMsg :=
  let hasDown := existsb (fun h => String.eqb (h_status h) "down") (d_health d) in
  let activeAlerts := length (d_alerts d) in
  div [
    div [
      Elem "Activity" [] []; span [Text "BatAudit"];
      show (str_truthy profileName) (span [Text profileName]);
      match List.find (fun p => String.eqb p.1 projectId) (d_projects d) with
      | Some p => show (negb (is_grid s)) (span [Text p.2])
      | None => Nothing
      end];
    div [
      show hasDown (span [Elem "WifiOff" [] []; Text "SERVICE DOWN"]);
      show (0 <? activeAlerts)%nat
        (span [Elem "AlertTriangle" [] []; Text (string_of_Z (Z.of_nat activeAlerts));
               Text " ALERT"; Text (if (1 <? activeAlerts)%nat then "S" else "")]);
      div [Elem "button" [On "click" (ModeClicked Dashboard)] [Elem "LayoutDashboard" [] []; Text "Dashboard"];
           Elem "button" [On "click" (ModeClicked Grid)] [Elem "LayoutGrid" [] []; Text "Grid"]];
      env_select s;
      show (negb (is_grid s)) (project_select projectId d);
      span [Text clock]]].

Definition error_routes (routes : list ErrorRoute) : html TvMsg :=
  div [
    div [Elem "ShieldAlert" [] []; Elem "p" [] [Text "Top Error Routes"]];
    Elem "" [] (List.map (fun r =>
      div [Elem "span" [Attr "className" (methodColor (e_method r))] [Text (e_method r)];
           span [Text (e_path r)]; span [Text (string_of_num (e_count r))];
           span [Text (to_fixed0 (e_rate r)); Text "%"]]) (take 8 routes));
    show (length routes =? 0)%nat (Elem "p" [] [Text "No errors in the last hour"])].

Definition live_feed (feed : list FeedEvent) : html TvMsg :=
  div [
    div [Elem "Wifi" [] []; Elem "p" [] [Text "Live Feed"]];
    div (List.map (fun ev =>
      div [Elem "span" [Attr "className" (methodColor (f_method ev))] [Text (f_method ev)];
           span [Text (f_path ev)];
           Elem "span" [Attr "className" (statusColor (f_status ev))] [Text (string_of_num (f_status ev))];
           span [Text (string_of_num (f_ms ev)); Text "ms"];
           span [Text (timeAgo tz now (f_time ev))]]) feed ++
      [show (length feed =? 0)%nat (Elem "p" [] [Text "No events yet"])])%list].

Definition recent_alerts (alerts : list TvAlert) : html TvMsg :=
  div [
    div [Elem "AlertTriangle" [] []; Elem "p" [] [Text "Recent Alerts"]];
    Elem "" [] (List.map (fun a =>
      div [div [span [Text (replace_char "_" " " (al_rule a))]; span [Text (timeAgo tz now (al_time a))]];
           Elem "p" [] [Text (al_service a)]]) alerts);
    show (length alerts =? 0)%nat (Elem "p" [] [Text "No alerts in the last 30 minutes"])].

Definition TVDashboard (projectId profileName : string) (s : DashState) (d : TvData) : html TvMsg :=
  div [
    dash_header projectId profileName s d;
    show (is_grid s) (ProjectGrid GridSelected (d_grid d));
    show (negb (is_grid s)) (Elem "" [] [
      div [
        StatCard "Events today" (summary_value d "events_today") "text-white";
        StatCard "4xx errors" (summary_value d "errors_4xx") "text-[#fb923c]";
        StatCard "5xx errors" (summary_value d "errors_5xx") "text-[#f87171]";
        StatCard "Avg response" (avg_response d) "text-[#818cf8]";
        StatCard "Services" (summary_value d "active_services") "text-[#4ade80]"];
      div [
        div [div (volume_chart (d_volume d)); error_routes (d_routes d)];
        live_feed (d_feed d);
        div [
          div [
            div [div [Elem "HeartPulse" [] []; Elem "p" [] [Text "Health Monitors"]];
                 show (PAGE_SIZE <? length (d_health d))%nat
                   (span [Text (string_of_Z (Z.of_nat (length (d_health d)))); Text " total"])];
            HealthCarousel (d_health d) (carousel s)];
          recent_alerts (d_alerts d)]]])].
End views.

(** ** The page *)

Record TvState := {
  authenticated : bool;
  activeProjectId : string;
  tv_profile : string;
  activation : ActivationState;   (** of the activation screen, while it is shown *)
  dash : DashState                (** of the dashboard, while it is shown *)
}.

Definition dash_initial : DashState :=
  {| environment := ""; viewMode := Dashboard; carousel := 0 |}.

Definition tv_initial (search_project : option string) : TvState :=
  {| authenticated := false; activeProjectId := default "" search_project; tv_profile := "";
     activation := activation_initial; dash := dash_initial |}.

Definition with_dash (f : DashState -> DashState) (s : TvState) : TvState :=
  {| authenticated := authenticated s; activeProjectId := activeProjectId s; tv_profile := tv_profile s;
     activation := activation s; dash := f (dash s) |}.
Definition with_active (id : string) (s : TvState) : TvState :=
  {| authenticated := authenticated s; activeProjectId := id; tv_profile := tv_profile s;
     activation := activation s; dash := dash s |}.
(** The other screen starts from its initial state. *)
Definition with_auth (b : bool) (s : TvState) : TvState :=
  if Bool.eqb b (authenticated s) then s
  else {| authenticated := b; activeProjectId := activeProjectId s; tv_profile := tv_profile s;
          activation := activation_initial; dash := dash_initial |}.
Definition with_profile (n : string) (s : TvState) : TvState :=
  {| authenticated := authenticated s; activeProjectId := activeProjectId s; tv_profile := n;
     activation := activation s; dash := dash s |}.
(** The carousel is part of the dashboard view: it starts again when the view
    comes back. *)
Definition set_mode (m : ViewMode) (d : DashState) : DashState :=
  {| environment := environment d; viewMode := m;
     carousel := match viewMode d, m with Dashboard, Dashboard => carousel d | _, _ => 0%nat end |}.
Definition set_environment (e : string) (d : DashState) : DashState :=
  {| environment := e; viewMode := viewMode d; carousel := carousel d |}.
(** A tick of the carousel and the effect after it, with [total] monitors. *)
Definition tick_carousel (total : nat) (d : DashState) : DashState :=
  match viewMode d with
  | Dashboard => {| environment := environment d; viewMode := viewMode d;
                    carousel := carousel_reset total (carousel_tick total (carousel d)) |}
  | Grid => d
  end.

(** The handlers of the dashboard, and what the button [Disconnect] does to the
    state; it also clears the tokens. *)
Definition tv_update (m : TvMsg) (s : TvState) : TvState :=
  match m with
  | ModeClicked v => with_dash (set_mode v) s
  | EnvironmentChanged e => with_dash (set_environment e) s
  | ProjectChanged id => with_active id s
  | GridSelected id => with_dash (set_mode Dashboard) (with_active id s)
  | Disconnected => with_auth false s
  end.

Definition disconnect : prog (TvState -> TvState) :=
  clearWbTokens;; mret (with_auth false).

Definition on_activated (profileName : string) (s : TvState) : TvState :=
  with_profile profileName (with_auth true s).

(** The effect of the URL's project. *)
Definition url_project (search_project : option string) (s : TvState) : TvState :=
  match some_text search_project with Some p => with_active p s | None => s end.

Section tv_page.
Context (BASE : string).

(** The effect of the mount: the updates it makes, in their order. *)
Definition tv_mount : prog (list (TvState -> TvState)) :=
  tokens ← getWbTokens;
  let named := if str_truthy (profileName tokens) then [with_profile (profileName tokens)] else [] in
  now ← date_now;
  if match some_text (access tokens) with Some _ => num_lt (Num now 0) (expiresAt tokens) | None => false end
  then mret (named ++ [with_auth true])%list
  else
    try_catch
      (tok ← refreshAccessToken BASE;
       mret (if truthy tok then named ++ [with_auth true] else named)%list)
      (fun _ => mret named).
End tv_page.

Definition TVPage (tz now : Z) (locale : num -> string) (clock : string) (s : TvState) (d : TvData)
    : html ActivationMsg + html TvMsg :=
  if negb (authenticated s) then inl (ActivationScreen (activation s))
  else inr (div [TVDashboard tz now locale clock (activeProjectId s) (tv_profile s) (dash s) d;
                 Elem "button" [On "click" Disconnected] [Text "Disconnect"]]).

(** ** Properties *)

(** The stored access token has not expired. *)
Definition still_valid (w : world) : bool :=
  let t := tokens_of (storage w) in
  match some_text (access t) with Some _ => num_lt (Num (clock w) 0) (expiresAt t) | None => false end.

Definition apply_all (us : list (TvState -> TvState)) (s : TvState) : TvState :=
  fold_left (fun s u => u s) us s.

Lemma tv_mount_run `{Host} BASE w :
  let n := profileName (tokens_of (storage w)) in
  let named := if str_truthy n then [with_profile n] else [] in
  run (tv_mount BASE) w =
    if still_valid w then (Ok (named ++ [with_auth true])%list, w)
    else match renewal BASE w with
         | (Ok _, w') => (Ok (named ++ [with_auth true])%list, w')
         | (Err _, w') => (Ok named, w')
         end.
Proof.
  cbn zeta. unfold tv_mount. rewrite run_bind, getWbTokens_run, run_bind. cbn [run date_now].
  unfold still_valid. cbn zeta. destruct (match some_text _ with Some _ => _ | None => false end); [done |].
  rewrite run_try_catch, run_bind, <- refreshAccessToken_run, run_bind.
  destruct (run (refreshAccessToken BASE) w) as [[v | e] w1]; [| done].
  by destruct (truthy v).
Qed.

Lemma apply_all_app us us' s : apply_all (us ++ us') s = apply_all us' (apply_all us s).
Proof. apply fold_left_app. Qed.

Lemma with_auth_facts b s :
  authenticated (with_auth b s) = b /\ activeProjectId (with_auth b s) = activeProjectId s /\
  tv_profile (with_auth b s) = tv_profile s.
Proof. unfold with_auth. by destruct b, (authenticated s) eqn:E. Qed.

Lemma named_facts n s :
  let us := if str_truthy n then [with_profile n] else [] in
  authenticated (apply_all us s) = authenticated s /\
  activeProjectId (apply_all us s) = activeProjectId s /\
  (str_truthy n = true -> tv_profile (apply_all us s) = n).
Proof. by destruct (str_truthy n). Qed.

(** Opening the wallboard: with an access token that has not expired the
    dashboard is shown without any request; otherwise the refresh token is tried
    once, and the dashboard is shown exactly when the server renews the session;
    whatever else happens, a network failure included, the activation screen
    stays.  The stored profile name is shown in every case and the project of the
    URL is kept. *)
Theorem tv_mount_spec `{Host} BASE w s :
  authenticated s = false ->
  exists us w', run (tv_mount BASE) w = (Ok us, w') /\
    (if still_valid w then w' = w else w' = (renewal BASE w).2) /\
    (authenticated (apply_all us s) = true <->
       still_valid w = true \/ exists a, (renewal BASE w).1 = Ok a) /\
    activeProjectId (apply_all us s) = activeProjectId s /\
    (str_truthy (profileName (tokens_of (storage w))) = true ->
       tv_profile (apply_all us s) = profileName (tokens_of (storage w))).
Proof.
  intros Hs. rewrite tv_mount_run. cbn zeta.
  set (n := profileName _). set (named := if str_truthy n then _ else _).
  pose proof (named_facts n s) as (Ha & Hp & Hn). fold named in Ha, Hp, Hn.
  destruct (with_auth_facts true (apply_all named s)) as (Hwa & Hwp & Hwn).
  destruct (still_valid w); [| destruct (renewal BASE w) as [[a | e] w']];
    eexists _, _; (split; [reflexivity |]);
    rewrite ?apply_all_app; cbn [apply_all fold_left] in *; fold (apply_all named s) in *;
    rewrite ?Hwa, ?Hwp, ?Hwn, ?Ha, ?Hp; (split; [done |]); (split; [| by split]).
  - split; [by left | done].
  - split; [by right; exists a | done].
  - rewrite Hs. split; [done |]. by intros [| [? ?]].
Qed.

Definition tv_offline : Host :=
  {| net := fun _ _ => None; uuid_at := fun _ => "u"; latency := fun _ => 1 |}.

Definition tv_world : world :=
  World {[WB_ACCESS_KEY := "a"; WB_EXPIRES_KEY := "2000"; WB_PROFILE_KEY := "Lobby"]} 1000 0 [].

Lemma tv_mount_spec_witness :
  exists us, @run tv_offline _ (tv_mount "") tv_world = (Ok us, tv_world) /\
    tv_profile (apply_all us (tv_initial None)) = "Lobby".
Proof.
  destruct (@tv_mount_spec tv_offline "" tv_world (tv_initial None) eq_refl)
    as (us & w' & Hrun & Hw & _ & _ & Hp).
  exists us. split; [rewrite Hrun; f_equal; exact Hw | exact (Hp eq_refl)].
Defined.

(** *** The carousel *)

Lemma pages_pos n : (0 < pages n)%nat.
Proof. unfold pages. lia. Qed.

Lemma page_of n i : (i < n)%nat -> (i / PAGE_SIZE < pages n)%nat.
Proof.
  intros Hi. unfold pages. apply Nat.lt_le_trans with ((n + PAGE_SIZE - 1) / PAGE_SIZE)%nat; [| lia].
  apply Nat.div_le_lower_bound; [done |]. unfold PAGE_SIZE in *.
  pose proof (Nat.div_mod i 5 ltac:(done)). pose proof (Nat.mod_upper_bound i 5 ltac:(done)). lia.
Qed.

Lemma tick_iter n k : (k < pages n)%nat -> Nat.iter k (carousel_tick n) 0%nat = k.
Proof.
  induction k as [|k IH]; intros Hk; [done |]. simpl. rewrite IH by lia. unfold carousel_tick.
  destruct (Nat.leb_spec (pages n) 1); [lia |]. rewrite Nat.mod_small by lia. lia.
Qed.

Lemma slice_lookup {A} (l : list A) i :
  carousel_slice l (i / PAGE_SIZE) !! (i mod PAGE_SIZE)%nat = l !! i.
Proof.
  unfold carousel_slice. rewrite lookup_take_lt, lookup_drop by (by apply Nat.mod_upper_bound).
  f_equal. rewrite Nat.mul_comm. symmetry. by apply Nat.div_mod.
Qed.

(** The health carousel: the page is in range after every effect and every
    tick, a page in range shows a monitor when there is one, and every monitor is
    on one of the pages that successive ticks show from the first, at most as
    many ticks as there are pages later. *)
Theorem carousel_shows_all (entries : list HealthEntry) :
  let n := length entries in
  (forall page, (carousel_reset n page < pages n)%nat) /\
  (forall page, (page < pages n)%nat -> (carousel_tick n page < pages n)%nat /\
     (entries <> [] -> carousel_slice entries page <> [])) /\
  forall h, In h entries ->
    exists k, (k < pages n)%nat /\ In h (carousel_slice entries (Nat.iter k (carousel_tick n) 0%nat)).
Proof.
  cbn zeta. pose proof (pages_pos (length entries)) as Hp. split_and!.
  - intros page. unfold carousel_reset. destruct (Nat.leb_spec (pages (length entries)) page); lia.
  - intros page Hpage. split.
    + unfold carousel_tick. destruct (Nat.leb_spec (pages (length entries)) 1); [lia |].
      apply Nat.mod_upper_bound. lia.
    + intros Hne. assert (Hlt : (page * PAGE_SIZE < length entries)%nat).
      { destruct entries as [|h l]; [done |]. unfold pages, PAGE_SIZE in *. cbn [length] in *.
        pose proof (Nat.div_mod (S (length l) + 5 - 1) 5 ltac:(done)). lia. }
      intros E. apply (f_equal length) in E. unfold carousel_slice in E.
      rewrite length_take, length_drop in E. unfold PAGE_SIZE in *. cbn [length] in E. lia.
  - intros h [i Hi]%list_elem_of_In%list_elem_of_lookup_1.
    assert (Hlt : (i < length entries)%nat) by (by eapply lookup_lt_Some).
    exists (i / PAGE_SIZE)%nat. split; [by apply page_of |].
    rewrite tick_iter by (by apply page_of).
    apply list_elem_of_In, (list_elem_of_lookup_2 _ (i mod PAGE_SIZE)%nat). by rewrite slice_lookup.
Qed.
