(* ===== verification/Shell.v ===== *)
(** * The frame of the dashboard

    The contexts of the selected project and environment (lib/project-context.tsx,
    lib/environment-context.tsx), the header, the sidebar, the theme button and the
    pagination of lists (frontend/src/components).  A [Link] keeps its address; the
    router is not part of the repository. *)

From S2P Require Import Prelude JsString JsValue JsonParse Host Html Session HttpApi.

Local Open Scope string_scope.
Local Open Scope Z_scope.

(** ** The contexts *)

(** What the two providers keep, [None] for all projects and all environments. *)
Record Selection := { selectedProjectId : option string; selectedEnvironment : option string }.

Definition nothing_selected : Selection := {| selectedProjectId := None; selectedEnvironment := None |}.

Definition setSelectedProjectId (v : option string) (c : Selection) : Selection :=
  {| selectedProjectId := v; selectedEnvironment := selectedEnvironment c |}.
Definition setSelectedEnvironment (v : option string) (c : Selection) : Selection :=
  {| selectedProjectId := selectedProjectId c; selectedEnvironment := v |}.

(** ** app-pagination.tsx *)

Inductive PageMsg : Type := SetPage (page : Z).

Definition page_link (label : string) (active : bool) (p : Z) : html PageMsg :=
  Elem "PaginationItem" [] [
    Elem "PaginationLink" [Flag "isActive" active; On "click" (SetPage p)] [Text label]].

Definition ellipsis : html PageMsg := Elem "PaginationItem" [] [Elem "PaginationEllipsis" [] []].

Definition AppPagination (page totalPages : Z) : html PageMsg :=
  Elem "Pagination" [] [Elem "PaginationContent" [] [
    Elem "PaginationItem" [] [
      Elem "PaginationPrevious" [On "click" (SetPage (if 1 <? page then page - 1 else 1))] []];
    page_link "1" (page =? 1) 1;
    show (2 <? page) ellipsis;
    show ((1 <? page) && (page <? totalPages)) (page_link (string_of_Z page) true page);
    show (page <? totalPages - 1) ellipsis;
    show (1 <? totalPages) (page_link (string_of_Z totalPages) (page =? totalPages) totalPages);
    Elem "PaginationItem" [] [
      Elem "PaginationNext" [On "click" (SetPage (if page <? totalPages then page + 1 else totalPages))] []]]].

(** ** theme-toggle.tsx *)

(** A click: the theme is toggled and shown. *)
Definition handleToggle (classes : list string) : prog (string * list string) := toggleTheme classes.

Definition ThemeToggle (theme : string) : html unit :=
  Elem "Button" [On "click" tt] [Elem (if String.eqb theme "dark" then "Sun" else "Moon") [] []].

(** ** header.tsx *)

Record Environment := { env_value : string; env_label : string; env_color : string }.

Definition ENVIRONMENTS : list Environment :=
  [{| env_value := "production"; env_label := "production"; env_color := "text-[#34d399]" |};
   {| env_value := "staging"; env_label := "staging"; env_color := "text-[#60a5fa]" |};
   {| env_value := "development"; env_label := "development"; env_color := "text-[#818cf8]" |};
   {| env_value := "testing"; env_label := "testing"; env_color := "text-[#fb923c]" |};
   {| env_value := "local"; env_label := "local"; env_color := "text-muted-foreground" |}].

Record Project := { pr_id : string; pr_name : string }.

Record HeaderState := { projectOpen : bool; envOpen : bool; selection : Selection }.

Inductive HeaderMsg : Type :=
| ProjectToggled
| EnvToggled
| ProjectPicked (id : option string)
| EnvPicked (env : option string)
| LogoutClicked.

Definition header_update (m : HeaderMsg) (s : HeaderState) : HeaderState :=
  match m with
  | ProjectToggled => {| projectOpen := negb (projectOpen s); envOpen := false; selection := selection s |}
  | EnvToggled => {| projectOpen := false; envOpen := negb (envOpen s); selection := selection s |}
  | ProjectPicked id =>
      {| projectOpen := false; envOpen := envOpen s; selection := setSelectedProjectId id (selection s) |}
  | EnvPicked env =>
      {| projectOpen := projectOpen s; envOpen := false; selection := setSelectedEnvironment env (selection s) |}
  | LogoutClicked => s
  end.

Definition inSettings (pathname : string) : bool := starts_with pathname "/app/settings".

Definition globalSettings : list string :=
  ["/app/settings/users"; "/app/settings/retention"; "/app/settings/api-keys"].

Definition showEnvFilter (pathname : string) : bool := negb (inSettings pathname).
Definition showProjectFilter (pathname : string) : bool :=
  negb (existsb (starts_with pathname) globalSettings).

(** [user?.role === r] *)
Definition has_role (user : jsval) (r : string) : bool :=
  match opt_prop user "role" with JStr x => String.eqb x r | _ => false end.

Definition selectedProject (projects : list Project) (c : Selection) : option Project :=
  match selectedProjectId c with
  | Some id => List.find (fun p => String.eqb (pr_id p) id) projects
  | None => None
  end.

Definition selectorLabel (user : jsval) (projects : list Project) (c : Selection) : string :=
  let named := match selectedProject projects c with Some p => pr_name p | None => "Select project" end in
  match selectedProjectId c with
  | None => if has_role user "owner" then "All Projects" else named
  | Some _ => named
  end.

Definition envLabel (c : Selection) : string := default "All Envs" (selectedEnvironment c).
Definition envColor (c : Selection) : string :=
  match selectedEnvironment c with
  | Some e => match List.find (fun x => String.eqb (env_value x) e) ENVIRONMENTS with
              | Some x => env_color x | None => "" end
  | None => ""
  end.

(** [handleLogout]: whatever the server answers, the session is cleared and the
    router goes to the address returned. *)
Definition handleLogout (BASE : string) : prog string :=
  try_catch (logout BASE) (fun _ => mret tt);;
  clearAuth;;
  mret "/login".

Definition Header (pathname : string) (user : jsval) (projects : list Project) (pending : bool)
    (s : HeaderState) : html HeaderMsg :=
  let c := selection s in
  Elem "header" [] [
    div [
      show (showProjectFilter pathname) (div [
        Elem "Button" [On "click" ProjectToggled]
          [span [Text (selectorLabel user projects c)]; Elem "ChevronDown" [] []];
        show (projectOpen s) (div (
          show (has_role user "owner")
            (Elem "button" [On "click" (ProjectPicked None)] [Text "All Projects"]) ::
          List.map (fun p => Elem "button" [On "click" (ProjectPicked (Some (pr_id p)))] [Text (pr_name p)])
            projects))]);
      show (showEnvFilter pathname) (div [
        Elem "Button" [On "click" EnvToggled]
          [Elem "span" [Attr "className" (envColor c)] [Text (envLabel c)]; Elem "ChevronDown" [] []];
        show (envOpen s) (div (
          Elem "button" [On "click" (EnvPicked None)] [Text "All Envs"] ::
          List.map (fun e => Elem "button" [On "click" (EnvPicked (Some (env_value e)))] [Text (env_label e)])
            ENVIRONMENTS))])];
    div [
      Elem "ThemeToggle" [] [];
      show (truthy user) (div [
        Elem "p" [] [Text (js_string (let n := opt_prop user "name" in
                                      if truthy n then n else opt_prop user "email"))];
        Elem "p" [] [Text (js_string (opt_prop user "role"))]]);
      Elem "Button" [On "click" LogoutClicked; Flag "disabled" pending] [Elem "LogOut" [] []; Text "Logout"]]].

(** ** sidebar.tsx *)

Definition NavItem (to icon label : string) : html unit :=
  Elem "Link" [Attr "to" to] [span [Elem icon [] []; Text label]].

Definition SectionLabel (label : string) : html unit := Elem "p" [] [Text label].

Definition MainNav : list (html unit) :=
  [Elem "nav" [] [
     NavItem "/app" "LayoutDashboard" "Dashboard";
     NavItem "/app/sessions" "Activity" "Sessions";
     NavItem "/app/anomalies" "ShieldAlert" "Anomalies";
     NavItem "/app/insights" "BarChart2" "Insights";
     NavItem "/app/query" "Terminal" "Query";
     NavItem "/app/studio" "LayoutGrid" "Studio"];
   div [NavItem "/app/settings" "Settings" "Settings"]].

Definition SettingsNav (user : jsval) : list (html unit) :=
  let isOwner := has_role user "owner" in
  let isAdminOrOwner := has_role user "owner" || has_role user "admin" in
  [div [Elem "Link" [Attr "to" "/app"] [Elem "ChevronLeft" [] []; Text "Back"]];
   Elem "nav" [] [
     SectionLabel "General";
     NavItem "/app/settings/healthcheck" "HeartPulse" "Healthcheck";
     show isAdminOrOwner (Elem "" [] [
       SectionLabel "Team";
       NavItem "/app/settings/members" "Users" "Members";
       NavItem "/app/settings/users" "UserCog" "Users"]);
     show isAdminOrOwner (Elem "" [] [
       SectionLabel "Project";
       NavItem "/app/settings/api-keys" "Key" "API Keys";
       NavItem "/app/settings/wallboard" "Tv" "Wallboard";
       NavItem "/app/settings/notifications" "Bell" "Notifications"]);
     show isOwner (Elem "" [] [
       SectionLabel "Danger";
       NavItem "/app/settings/retention" "Archive" "Retention"])]].

Definition Sidebar (pathname : string) (user : jsval) : html unit :=
  Elem "aside" [] (
    show (negb (inSettings pathname)) (div [
      Elem "img" [Attr "src" "/app/bat-logo.png"; Attr "alt" "BatAudit"] [];
      div [Elem "p" [] [Text "BatAudit"]; Elem "p" [] [Text "Monitoring"]]]) ::
    (if inSettings pathname then SettingsNav user else MainNav)).

(** ** app/_layout.tsx *)

(** The frame around a page. *)
Definition AppLayout (sidebar header outlet : html unit) : html unit :=
  div [div [sidebar]; div [div [header]; Elem "main" [] [outlet]]].

(** ** Properties *)

(** The pages the links marked as active go to. *)
Definition active_pages (h : html PageMsg) : list Z :=
  flat_map (fun '(_, attrs) =>
    if existsb (fun a => match a with Flag n b => String.eqb n "isActive" && b | _ => false end) attrs
    then omap (fun a => match a with On _ (SetPage p) => Some p | _ => None end) attrs
    else []) (elements h).

(** Case analysis on the comparisons of the goal that the context does not decide. *)
Ltac cmp_cases :=
  repeat match goal with
  | |- context [?a <? ?b] => destruct (Z.ltb_spec a b); try lia
  | |- context [?a =? ?b] => destruct (Z.eqb_spec a b); try lia
  end.

(** Pagination, on a page of the list: every click goes to a page of the list,
    Previous and Next to the neighbours (staying at the ends), and exactly the
    link of the current page is marked.  With no page at all Next goes to page
    0. *)
Theorem pagination_in_range page totalPages :
  (1 <= page <= totalPages ->
     Forall (fun '(SetPage p) => 1 <= p <= totalPages) (clicks (AppPagination page totalPages)) /\
     In (SetPage (Z.max 1 (page - 1))) (clicks (AppPagination page totalPages)) /\
     In (SetPage (Z.min totalPages (page + 1))) (clicks (AppPagination page totalPages)) /\
     active_pages (AppPagination page totalPages) = [page]) /\
  (totalPages = 0 -> 1 <= page -> In (SetPage 0) (clicks (AppPagination page totalPages))).
Proof.
  unfold AppPagination, page_link, ellipsis. split.
  - intros Hp. cmp_cases; subst; cbn;
      (split_and!; [repeat constructor; lia | | | f_equal; lia]);
      repeat first [left; f_equal; lia | right].
  - intros -> Hp. cmp_cases; cbn; repeat first [by left | right].
Qed.

Lemma pagination_in_range_witness :
  1 <= 3 <= 7 /\ active_pages (AppPagination 3 7) = [3].
Proof. split; [lia |]. apply (pagination_in_range 3 7). lia. Defined.

Lemma logout_other_keys `{Host} BASE w : other_keys w (run (logout BASE) w).2.
Proof.
  unfold logout. rewrite run_bind, fetchWithAuth_run. unfold do_fetch.
  destruct (net _ _) as [res|]; [| by intros k].
  destruct (rs_status res =? 401).
  - cbn. intros k H1 H2. cbn. by rewrite !lookup_delete_ne by done.
  - unfold check_ok. by destruct (rs_ok res); intros k.
Qed.

(** Logging out: whatever the server answers, or when it cannot be reached, the
    session is gone from the storage, nothing else is, the router goes to the
    login page, and the guard of the dashboard does not let the user in. *)
Theorem logout_clears_session `{Host} BASE w :
  exists w', run (handleLogout BASE) w = (Ok "/login", w') /\
    storage w' !! TOKEN_KEY = None /\ storage w' !! USER_KEY = None /\ other_keys w w' /\
    (run beforeLoad w').1 = Ok (Some "/login").
Proof.
  pose proof (logout_other_keys BASE w) as Ho.
  exists (cleared (run (logout BASE) w).2).
  destruct (cleared_lookup (run (logout BASE) w).2) as (Ht & Hu & Hk). split.
  - unfold handleLogout. rewrite run_bind, run_try_catch.
    destruct (run (logout BASE) w) as [[[] | e] w1]; cbn [run mret prog_ret];
      by rewrite run_bind, clearAuth_run.
  - split_and!; [done | done | |].
    + intros k H1 H2. rewrite Hk by done. by apply Ho.
    + unfold beforeLoad. by rewrite run_bind, isAuthenticated_run, Ht.
Qed.

(** The addresses a tree links to. *)
Definition links {Msg} (h : html Msg) : list string :=
  flat_map (fun '(tag, attrs) =>
    if String.eqb tag "Link"
    then omap (fun a => match a with Attr "to" v => Some v | _ => None end) attrs else []) (elements h).

(** The settings a role is offered. *)
Theorem settings_by_role user :
  flat_map links (SettingsNav user) =
    (["/app"; "/app/settings/healthcheck"] ++
    (if has_role user "owner" || has_role user "admin"
     then ["/app/settings/members"; "/app/settings/users"; "/app/settings/api-keys";
           "/app/settings/wallboard"; "/app/settings/notifications"] else []) ++
    (if has_role user "owner" then ["/app/settings/retention"] else []))%list.
Proof. unfold SettingsNav. by destruct (has_role user "owner"), (has_role user "admin"). Qed.
