(* ===== verification/Overview.v ===== *)
(** * The overview page (routes/app/_layout/index.tsx)

    The filters kept in the URL, the list and the export that use them, the sorting
    of the services and of the feed, and the figures of the charts.  [Home] is the page
    around them. *)

From Stdlib Require Import Sorted Permutation.
From S2P Require Import Prelude JsString JsValue JsonParse Numbers Dates Encoding Host Session HttpApi.
From S2P Require Import ApiContract Queries.

Local Open Scope string_scope.
Local Open Scope Z_scope.

(** ** Helpers *)

Definition statusColor (code : num) : string :=
  if num_ge code (Num 500 0) then "text-[#f87171] border-[#f87171]/40"
  else if num_ge code (Num 400 0) then "text-[#fb923c] border-[#fb923c]/40"
  else if num_ge code (Num 300 0) then "text-[#60a5fa] border-[#60a5fa]/40"
  else "text-[#34d399] border-[#34d399]/40".

Definition methodColor (method : string) : string :=
  default "text-muted-foreground border-border" (assoc (to_upper method)
    [("GET", "text-[#34d399] border-[#34d399]/40"); ("POST", "text-[#818cf8] border-[#818cf8]/40");
     ("PUT", "text-[#fb923c] border-[#fb923c]/40"); ("PATCH", "text-[#60a5fa] border-[#60a5fa]/40");
     ("DELETE", "text-[#f87171] border-[#f87171]/40")]).

(** [timeAgo] at the time [now]; [localeDate] is the local form of a date. *)
Definition timeAgo (localeDate : string -> string) (tz now : Z) (ts : string) : string :=
  if String.eqb ts "" then "—"
  else
    match parse_date tz ts with
    | None => localeDate ts
    | Some t =>
        if now - t <? 0 then "just now"
        else
          let s := (now - t) / 1000 in
          let m := s / 60 in
          let h := m / 60 in
          let d := h / 24 in
          if s <? 60 then string_of_Z s +:+ "s ago"
          else if m <? 60 then string_of_Z m +:+ "m ago"
          else if h <? 24 then string_of_Z h +:+ "h ago"
          else if d <? 7 then string_of_Z d +:+ "d ago"
          else localeDate ts
    end.

(** ** The search parameters of the route *)

Record Search := {
  page : Z;
  service_name : option string;
  method : option string;
  path : option string;
  status_code : option string;
  status_class : option string;
  identifier : option string;
  time_range : option string;
  start_date : option string;
  end_date : option string;
  sort_by : option string;
  sort_order : option string
}.

Definition no_filters : Search :=
  {| page := 1; service_name := None; method := None; path := None; status_code := None;
     status_class := None; identifier := None; time_range := None; start_date := None;
     end_date := None; sort_by := None; sort_order := None |}.

(** The filters a control of the page sets. *)
Inductive filter_key : Type :=
| KService | KMethod | KPath | KStatus | KClass | KIdentifier | KRange | KStart | KEnd.

(** [setFilter]: the parameter is set, or removed when the value is empty, and the
    first page is shown. *)
Definition setFilter (k : filter_key) (value : string) (s : Search) : Search :=
  let v := some_text (Some value) in
  {| page := 1;
     service_name := match k with KService => v | _ => service_name s end;
     method := match k with KMethod => v | _ => method s end;
     path := match k with KPath => v | _ => path s end;
     status_code := match k with KStatus => v | _ => status_code s end;
     status_class := match k with KClass => v | _ => status_class s end;
     identifier := match k with KIdentifier => v | _ => identifier s end;
     time_range := match k with KRange => v | _ => time_range s end;
     start_date := match k with KStart => v | _ => start_date s end;
     end_date := match k with KEnd => v | _ => end_date s end;
     sort_by := sort_by s; sort_order := sort_order s |}.

Definition clearFilters (s : Search) : Search := no_filters.

(** [s.time_range && s.time_range !== 'custom'] *)
Definition relative_range (s : Search) : bool :=
  match some_text (time_range s) with Some r => negb (String.eqb r "custom") | None => false end.

Definition activeFilters (s : Search) (selectedEnvironment : option string) : obj :=
  [("service_name", jstr_opt (service_name s)); ("method", jstr_opt (method s));
   ("path", jstr_opt (path s)); ("status_code", jstr_opt (status_code s));
   ("status_class", jstr_opt (status_class s)); ("environment", jstr_opt selectedEnvironment);
   ("identifier", jstr_opt (identifier s)); ("time_range", jstr_opt (time_range s));
   ("start_date", if relative_range s then JUndef else jstr_opt (start_date s));
   ("end_date", if relative_range s then JUndef else jstr_opt (end_date s));
   ("sort_by", jstr_opt (sort_by s)); ("sort_order", jstr_opt (sort_order s))].

Definition limit : Z := 50.

Definition hasFilters (s : Search) : bool :=
  existsb (fun o => match some_text o with Some _ => true | None => false end)
    [time_range s; service_name s; method s; path s; status_code s; status_class s; identifier s;
     start_date s; end_date s].

(** [toggleFeedSort]: a click on a column of the feed. *)
Definition toggleFeedSort (col : string) (s : Search) : Search :=
  let currentCol := default "timestamp" (sort_by s) in
  let currentDir := default "desc" (sort_order s) in
  let newDir := if String.eqb currentCol col && String.eqb currentDir "desc" then "asc" else "desc" in
  {| page := 1; service_name := service_name s; method := method s; path := path s;
     status_code := status_code s; status_class := status_class s; identifier := identifier s;
     time_range := time_range s; start_date := start_date s; end_date := end_date s;
     sort_by := Some col; sort_order := Some newDir |}.

(** ** The export *)

(** The filters the export copies. *)
Definition export_fields : list (string * string) :=
  List.map (fun k => (k, k))
    ["service_name"; "method"; "status_code"; "environment"; "identifier"; "start_date"; "end_date"].

Definition export_params (format : string) (projectId : option string) (filters : obj) : params :=
  fold_left (fun search f => set_if f.2 (member (Some filters) f.1) search) export_fields
    (set_if "project_id" (jstr_opt projectId) (params_set "format" format [])).

(** What an export ends with. *)
Inductive exported : Type :=
| Alerted (message : string)
| Downloaded (file_name content : string).

Section export.
Context (BASE : string) (statusText : response -> string).

Definition export_request (token : option string) (format : string) (projectId : option string)
    (filters : obj) : request :=
  {| rq_url := BASE +:+ "/v1/audit/export?" +:+ params_to_string (export_params format projectId filters);
     rq_method := "GET"; rq_headers := [("Authorization", "Bearer " +:+ default "" token)];
     rq_body := None |}.

(** [handleExport] between [setExporting(true)] and [setExporting(false)], which
    the [finally] runs in every case. *)
Definition handleExport (format : string) (projectId : option string) (filters : obj) : prog exported :=
  token ← getToken;
  res ← fetch (export_request token format projectId filters);
  if negb (rs_ok res) then
    body ← try_catch (res_json res) (fun _ => mret (JObj [("error", JStr (statusText res))]));
    e ← js_prop body "error";
    mret (Alerted (js_string (coalesce e (JStr "Export failed"))))
  else
    now ← date_now;
    mret (Downloaded ("bataudit-export-" +:+ String.substring 0 10 (to_iso_string now) +:+ "." +:+ format)
            (rs_body res)).
End export.

(** ** The services *)

Record ServiceBreakdown := {
  svc_name : string;
  requests : num;
  errors : num;
  avg_response_time : num;
  last_event : string
}.

(** [a[key]] *)
Definition svc_get (a : ServiceBreakdown) (key : string) : jsval :=
  default JUndef (assoc key
    [("service_name", JStr (svc_name a)); ("requests", JNum (requests a));
     ("errors", JNum (errors a)); ("avg_response_time", JNum (avg_response_time a));
     ("last_event", JStr (last_event a))]).

(** [va < vb] for two numbers or two strings; strings are compared as bytes, which
    is the order of their code points. *)
Definition js_lt (va vb : jsval) : bool :=
  match va, vb with
  | JNum a, JNum b => num_lt a b
  | JStr a, JStr b => String.ltb a b
  | _, _ => false
  end.

Definition compare_services (sortCol : string) (asc : bool) (a b : ServiceBreakdown) : Z :=
  let va := svc_get a sortCol in
  let vb := svc_get b sortCol in
  if js_lt va vb then (if asc then -1 else 1)
  else if js_lt vb va then (if asc then 1 else -1)
  else 0.

(** [Array.prototype.sort]: stable, by a comparison.  (With a [NaN] in the column
    the comparison is not an order and an engine may sort otherwise.) *)
Fixpoint insert_by {A} (cmp : A -> A -> Z) (x : A) (l : list A) : list A :=
  match l with
  | [] => [x]
  | y :: l' => if cmp x y <=? 0 then x :: y :: l' else y :: insert_by cmp x l'
  end.

Definition sort_by_cmp {A} (cmp : A -> A -> Z) (l : list A) : list A := foldr (insert_by cmp) [] l.

Definition sortedServices (by_service : list ServiceBreakdown) (sortCol : string) (asc : bool)
    : list ServiceBreakdown :=
  sort_by_cmp (compare_services sortCol asc) by_service.

(** The column and whether it is ascending. *)
Definition toggleSort (col : string) (st : string * bool) : string * bool :=
  if String.eqb st.1 col then (st.1, negb st.2) else (col, false).

(** The status of a monitor by the name of its service: the last one wins. *)
Definition monitorByService (monitors : list (string * string)) : gmap string string :=
  fold_left (fun m p => <[p.1 := p.2]> m) monitors ∅.

Definition statusData (by_status_class : obj) : list (string * jsval * string) :=
  List.map (fun '(k, c) => (k, coalesce (obj_get k by_status_class) (JInt 0), c))
    [("2xx", "#34d399"); ("3xx", "#60a5fa"); ("4xx", "#fb923c"); ("5xx", "#f87171")].

(** ** Properties *)

(** The parameters of the list request the page makes at the time [now]. *)
Definition list_params (s : Search) (projectId environment : option string) (now : Z) : params :=
  search_of list_audit_fields
    (Some (audit_params (page s) limit projectId
       (resolve_filters (Some (activeFilters s environment)) now))).

(** The parameters that select events, as opposed to those that order them or cut
    the page. *)
Definition selects (k : string) : bool :=
  negb (existsb (String.eqb k) ["page"; "limit"; "sort_by"; "sort_order"; "format"]).

Lemma filter_set_fields (f : string -> bool) fields o :
  List.filter (fun kv => f kv.1) (set_fields fields o) =
  set_fields (List.filter (fun kv => f kv.2) fields) o.
Proof.
  unfold set_fields. induction fields as [|[m k] fields IH]; [done |]. cbn [omap list_omap fst snd].
  cbn zeta. destruct (truthy (member o m)) eqn:E.
  - cbn [List.filter fst snd]. destruct (f k); cbn [omap list_omap fst snd]; [| exact IH].
    cbn zeta. rewrite E. f_equal. exact IH.
  - cbn [List.filter fst snd]. destruct (f k); cbn [omap list_omap fst snd]; [| exact IH].
    cbn zeta. rewrite E. exact IH.
Qed.

Lemma export_params_fields format projectId filters :
  export_params format projectId filters =
  (("format", format) :: opt_param "project_id" projectId ++ set_fields export_fields (Some filters))%list.
Proof.
  unfold export_params. rewrite search_of_from.
  - unfold set_if, opt_param, some_text, jstr_opt. destruct projectId as [[|a p]|]; done.
  - by apply (bool_decide_unpack _); vm_compute.
  - intros f Hf. unfold set_if, jstr_opt.
    repeat destruct Hf as [<- | Hf]; try done; destruct projectId as [[|a p]|]; done.
Qed.

Lemma resolve_absolute s environment now :
  relative_range s = false ->
  resolve_filters (Some (activeFilters s environment)) now =
  obj_delete "time_range" (activeFilters s environment).
Proof.
  unfold relative_range. intros Hr. unfold resolve_filters.
  change (member (Some (activeFilters s environment)) "time_range") with (jstr_opt (time_range s)).
  destruct (time_range s) as [r|]; [| done]. cbn [jstr_opt jopt].
  unfold some_text in Hr. destruct (str_truthy r); [| done]. cbn in Hr. by rewrite Hr.
Qed.

(** With a relative time range the list asks from that long ago. *)
Lemma resolve_relative s projectId environment now r ms :
  time_range s = Some r -> relative_range s = true -> assoc r TIME_RANGE_MS = Some ms ->
  member (Some (audit_params (page s) limit projectId
    (resolve_filters (Some (activeFilters s environment)) now))) "start_date" =
  JStr (to_iso_string (now - ms)).
Proof.
  intros Hs Hr Hms. unfold resolve_filters.
  change (member (Some (activeFilters s environment)) "time_range") with (jstr_opt (time_range s)).
  rewrite Hs. cbn [jstr_opt jopt]. unfold activeFilters. rewrite Hr.
  unfold relative_range in Hr. rewrite Hs in Hr. unfold some_text in Hr.
  destruct (str_truthy r); [| done]. cbn [andb]. rewrite Hr, Hms. reflexivity.
Qed.

(** C37 The export and the list: without a path, a class of status or a relative time
    range the export selects exactly the events the list does, whatever the other
    filters, the project and the environment are; with a relative time range, which
    the list turns into a start date, the export has no date at all. *)
Theorem export_selects_list format s projectId environment now :
  (some_text (path s) = None -> some_text (status_class s) = None -> relative_range s = false ->
   List.filter (fun kv => selects kv.1) (export_params format projectId (activeFilters s environment)) =
   List.filter (fun kv => selects kv.1) (list_params s projectId environment now)) /\
  (forall r ms, time_range s = Some r -> relative_range s = true -> assoc r TIME_RANGE_MS = Some ms ->
   In ("start_date", to_iso_string (now - ms)) (list_params s projectId environment now) /\
   forall v, ~ In ("start_date", v) (export_params format projectId (activeFilters s environment)) /\
             ~ In ("end_date", v) (export_params format projectId (activeFilters s environment))).
Proof.
  unfold list_params. rewrite search_of_fields by (by apply (bool_decide_unpack _); vm_compute).
  rewrite export_params_fields. split.
  - intros Hp Hc Hr. rewrite filter_set_fields, resolve_absolute by done.
    cbn [List.filter fst]. change (selects "format") with false. cbn iota.
    rewrite List.filter_app, filter_set_fields. unfold activeFilters. rewrite Hr.
    destruct (path s) as [[|? ?]|]; try discriminate Hp;
      destruct (status_class s) as [[|? ?]|]; try discriminate Hc;
      destruct projectId as [[|? ?]|]; reflexivity.
  - intros r ms Hs Hr Hms. split.
    + apply in_set_fields. exists "start_date".
      rewrite (resolve_relative s projectId environment now r ms Hs Hr Hms).
      split_and!; [cbn; tauto | cbn; apply iso_truthy | done].
    + intros v. unfold activeFilters. rewrite Hr.
      assert (Hno : forall k, In k ["start_date"; "end_date"] ->
        ~ In (k, v) (("format", format) :: opt_param "project_id" projectId ++
          set_fields export_fields (Some (activeFilters s environment)))%list).
      { intros k Hk [Hin | [Hin | Hin]%in_app_iff].
        - by repeat destruct Hk as [<- | Hk].
        - unfold opt_param in Hin. destruct (some_text projectId); [| done].
          by repeat destruct Hk as [<- | Hk]; destruct Hin.
        - apply in_set_fields in Hin as (m & Hm & Ht & _). unfold activeFilters in Ht. rewrite Hr in Ht.
          repeat destruct Hm as [[= <- <-] | Hm]; repeat destruct Hk as [Hk | Hk]; done. }
      unfold activeFilters in Hno. rewrite Hr in Hno.
      split; apply Hno; cbn; tauto.
Qed.

Lemma export_selects_list_witness :
  let s := setFilter KRange "5m" no_filters in
  In ("start_date", "2025-01-01T00:00:00.000Z") (list_params s None None 1735689900000) /\
  ~ In ("start_date", "2025-01-01T00:00:00.000Z") (export_params "csv" None (activeFilters s None)).
Proof.
  cbn zeta.
  destruct (proj2 (export_selects_list "csv" (setFilter KRange "5m" no_filters) None None 1735689900000)
    "5m" 300000 eq_refl eq_refl eq_refl) as [H1 H2].
  split; [exact H1 | apply (H2 "2025-01-01T00:00:00.000Z")].
Defined.

(** *** Sorting *)

Section sorting.
Context {A : Type} (cmp : A -> A -> Z).
Context (cmp_total : forall a b, cmp a b <= 0 \/ cmp b a <= 0).

Lemma insert_by_perm x l : insert_by cmp x l ≡ₚ x :: l.
Proof.
  induction l as [|y l IH]; cbn; [done |]. destruct (cmp x y <=? 0); [done |].
  rewrite IH. by constructor.
Qed.

Lemma sort_by_cmp_perm l : sort_by_cmp cmp l ≡ₚ l.
Proof. induction l as [|x l IH]; cbn; [done |]. by rewrite insert_by_perm, IH. Qed.

Lemma insert_by_sorted x l :
  Sorted (fun a b => cmp a b <= 0) l -> Sorted (fun a b => cmp a b <= 0) (insert_by cmp x l).
Proof.
  induction 1 as [|y l Hs IH Hy]; cbn; [repeat constructor |].
  destruct (Z.leb_spec (cmp x y) 0) as [Hxy | Hxy]; [by repeat constructor |].
  constructor; [done |].
  assert (Hyx : cmp y x <= 0) by (destruct (cmp_total x y); [lia | done]).
  destruct Hy as [|z l Hyz]; cbn; [by constructor |].
  destruct (cmp x z <=? 0); by constructor.
Qed.

Lemma sort_by_cmp_sorted l : Sorted (fun a b => cmp a b <= 0) (sort_by_cmp cmp l).
Proof. induction l as [|x l IH]; cbn; [constructor | by apply insert_by_sorted]. Qed.
End sorting.

Lemma num_lt_asym a b : num_lt a b = true -> num_lt b a = false.
Proof. destruct a, b; try done. cbn. rewrite Z.ltb_lt, Z.ltb_ge. lia. Qed.

Lemma string_ltb_asym a b : String.ltb a b = true -> String.ltb b a = false.
Proof.
  unfold String.ltb. rewrite String.compare_antisym. by destruct (String.compare b a).
Qed.

Lemma js_lt_asym a b : js_lt a b = true -> js_lt b a = false.
Proof. destruct a, b; try done; cbn; [apply num_lt_asym | apply string_ltb_asym]. Qed.

Lemma compare_services_total col asc a b :
  compare_services col asc a b <= 0 \/ compare_services col asc b a <= 0.
Proof.
  unfold compare_services.
  pose proof (js_lt_asym (svc_get a col) (svc_get b col)) as H.
  destruct (js_lt (svc_get a col) (svc_get b col)).
  - rewrite H by done. destruct asc; cbn; lia.
  - destruct (js_lt (svc_get b col) (svc_get a col)), asc; cbn; lia.
Qed.

(** The table of services shows every service once, in the order of the selected
    column, neither of two neighbours being out of order; a click on the column
    turns the order round and a click on another one starts with it, descending. *)
Theorem sortedServices_spec by_service col asc :
  sortedServices by_service col asc ≡ₚ by_service /\
  Sorted (fun a b =>
    js_lt (svc_get (if asc then b else a) col) (svc_get (if asc then a else b) col) = false)
    (sortedServices by_service col asc) /\
  toggleSort col (col, asc) = (col, negb asc) /\
  (forall col', col <> col' -> toggleSort col' (col, asc) = (col', false)).
Proof.
  split_and!.
  - apply sort_by_cmp_perm.
  - unfold sortedServices.
    pose proof (sort_by_cmp_sorted (compare_services col asc) (compare_services_total col asc) by_service) as H.
    induction H as [|a l Hs IH Ha]; constructor; [done |].
    destruct Ha as [|b l Hab]; constructor. unfold compare_services in Hab.
    pose proof (js_lt_asym (svc_get a col) (svc_get b col)) as Has.
    destruct asc, (js_lt (svc_get a col) (svc_get b col)), (js_lt (svc_get b col) (svc_get a col));
      try done; lia.
  - unfold toggleSort. cbn. by rewrite String.eqb_refl.
  - intros col' Hne. unfold toggleSort. cbn. by destruct (String.eqb_spec col col').
Qed.
