(* ===== verification/Events.v ===== *)
(** * Single events and the health of the services (routes/app/components)

    [event-card.tsx], [status-indicator.tsx], [event-detail-modal.tsx] and
    [health-status.tsx].  [localeDate] and [localeTime] are the local forms of a
    date, which the browser chooses. *)

From S2P Require Import Prelude JsString JsValue JsonParse Numbers Dates Html Session Queries.

Local Open Scope string_scope.
Local Open Scope Z_scope.

(** ** status-indicator.tsx *)

Definition getStatusColor (code : num) : string :=
  if num_ge code (Num 200 0) && num_lt code (Num 300 0) then "bg-green-500"
  else if num_ge code (Num 400 0) && num_lt code (Num 500 0) then "bg-yellow-500"
  else if num_ge code (Num 500 0) then "bg-red-500"
  else "bg-muted".

Definition getStatusText (code : num) : string :=
  if num_ge code (Num 200 0) && num_lt code (Num 300 0) then "Success"
  else if num_ge code (Num 400 0) && num_lt code (Num 500 0) then "Client Error"
  else if num_ge code (Num 500 0) then "Server Error"
  else "Unknown".

Definition StatusIndicator {Msg} (status : num) : html Msg :=
  div [Elem "div" [Attr "className" (getStatusColor status)] [];
       span [Text (string_of_num status)];
       span [Text (getStatusText status)]].

(** ** event-card.tsx *)

Record AuditEvent := {
  ae_timestamp : string;
  ae_method : string;
  ae_path : string;
  ae_status : num;
  ae_identifier : string;
  ae_email : string;
  ae_service : string;
  ae_time : option num
}.

Definition formatTimestamp (localeDate : string -> string) (tz now : Z) (timestamp : string) : string :=
  match parse_date tz timestamp with
  | None => localeDate timestamp
  | Some t =>
      let seconds := (now - t) / 1000 in
      let minutes := seconds / 60 in
      let hours := minutes / 60 in
      if seconds <? 60 then string_of_Z seconds +:+ "s ago"
      else if minutes <? 60 then string_of_Z minutes +:+ "m ago"
      else if hours <? 24 then string_of_Z hours +:+ "h ago"
      else localeDate timestamp
  end.

Definition getMethodColor (method : string) : string :=
  default "text-muted-foreground" (assoc (to_upper method)
    [("GET", "text-green-500"); ("POST", "text-slate-500"); ("PUT", "text-yellow-500");
     ("DELETE", "text-red-500"); ("PATCH", "text-blue-500")]).

Definition EventCard {Msg} (localeDate : string -> string) (tz now : Z) (event : AuditEvent)
    : html Msg :=
  Elem "Card" [] [
    div [
      div [
        div [Elem "Clock" [] []; span [Text (formatTimestamp localeDate tz now (ae_timestamp event))]];
        div [Elem "Badge" [Attr "className" (getMethodColor (ae_method event))] [Text (ae_method event)];
             span [Text (ae_path event)]]];
      StatusIndicator (ae_status event)];
    div [
      div [
        div [Elem "User" [] []; span [Text (ae_identifier event)]];
        div [Elem "Globe" [] []; span [Text (ae_email event)]];
        Elem "Badge" [] [Text (ae_service event)]];
      div [
        (* [response_time && <span>]: React shows a zero and [NaN] themselves *)
        match ae_time event with
        | None => Nothing
        | Some t => if num_truthy t then span [Text (string_of_num t); Text "ms"]
                    else Text (string_of_num t)
        end]]].

(** ** health-status.tsx *)

Record HealthResponse := {
  api_response_ms : num;
  db_response_ms : num;
  db_status : string;
  hl_environment : string;
  hl_status : string;
  version : string
}.

Definition HealthStatus {Msg} (health : HealthResponse) : html Msg :=
  let isHealthy := String.eqb (hl_status health) "ok" in
  Elem "Card" [] [div [
    div [
      Elem "div" [Attr "className" (if isHealthy then "bg-green-500/20 text-green-500"
                                    else "bg-destructive/20 text-destructive")]
        [Elem (if isHealthy then "CheckCircle" else "AlertCircle") [] []];
      div [Elem "p" [] [Text "Status"]; Elem "p" [] [Text (to_upper (hl_status health))]]];
    div [
      div [Elem "Server" [] []];
      div [Elem "p" [] [Text "API"];
           Elem "p" [] [Text (string_of_num (api_response_ms health)); Text "ms"]]];
    div [
      div [Elem "Database" [] []];
      div [Elem "p" [] [Text "Database"];
           Elem "p" [] [Text (string_of_num (db_response_ms health)); Text "ms"]]];
    div [
      div [Elem "Activity" [] []];
      div [Elem "p" [] [Text "Environment"]; Elem "p" [] [Text (hl_environment health)]]];
    div [
      div [Elem "Clock" [] []];
      div [Elem "p" [] [Text "Version"]; Elem "p" [] [Text (version health)]]];
    div [
      Elem "div" [Attr "className" (if String.eqb (db_status health) "ok"
                                    then "bg-green-500/20 text-green-500"
                                    else "bg-warning/20 text-warning")]
        [Elem "Database" [] []];
      div [Elem "p" [] [Text "DB Status"]; Elem "p" [] [Text (to_upper (db_status health))]]]]].

(** ** [JSON.stringify(value, null, 2)] *)

Definition newline : string := String "010" "".

Fixpoint pretty (indent : string) (v : jsval) : option string :=
  let deeper := indent +:+ "  " in
  let sep := "," +:+ newline +:+ deeper in
  let wrap := fun l (items : list string) r =>
    match items with
    | [] => l +:+ r
    | _ => l +:+ newline +:+ deeper +:+ join sep items +:+ newline +:+ indent +:+ r
    end in
  match v with
  | JArr l => Some (wrap "[" (List.map (fun x => default "null" (pretty deeper x)) l) "]")
  | JObj o =>
      Some (wrap "{" (flat_map (fun kv =>
        match kv with
        | (k, x) => match pretty deeper x with
                    | Some t => [quote k +:+ ": " +:+ t]
                    | None => []
                    end
        end) o) "}")
  | _ => stringify v
  end.

(** ** event-detail-modal.tsx *)

(** The members of an [AuditDetail] the dialog shows. *)
Record AuditDetail := {
  ad_id : string;
  ad_request_id : string;
  ad_service : string;
  ad_environment : string;
  ad_method : string;
  ad_path : string;
  ad_status : option num;
  ad_time : option num;
  ad_timestamp : string;
  ad_ip : string;
  ad_identifier : string;
  ad_email : string;
  ad_name : string;
  ad_user_type : string;
  ad_tenant : string;
  ad_user_agent : string;
  ad_error : string;
  ad_user_roles : jsval;
  ad_query_params : jsval;
  ad_path_params : jsval;
  ad_request_body : jsval;
  ad_response_body : jsval
}.

Inductive DialogMsg : Type := CloseDialog | ToggleRevealed | SetRevealed.

Definition field_of (label text : string) : html DialogMsg :=
  div [Elem "p" [] [Text label]; Elem "p" [] [Text text]].

(** [Field]: a string, or a number. *)
Definition Field (label value : string) : html DialogMsg :=
  if str_truthy value then field_of label value else Nothing.

Definition NumField (label : string) (value : option num) : html DialogMsg :=
  match value with
  | Some NaN | None => Nothing
  | Some n => field_of label (string_of_num n)
  end.

(** The text a JSON field shows; [None] when it shows nothing. *)
Definition json_field_text (value : jsval) : option string :=
  if negb (truthy value) then None
  else
    let str := match value with JStr s => s | _ => default "undefined" (pretty "" value) end in
    if String.eqb str "null" || String.eqb str "{}" || String.eqb str "[]" then None else Some str.

Definition JsonField (label : string) (value : jsval) : html DialogMsg :=
  match json_field_text value with
  | None => Nothing
  | Some str => div [Elem "p" [] [Text label]; Elem "pre" [] [Text str]]
  end.

Definition SensitiveJsonField (revealed : bool) (label : string) (value : jsval) : html DialogMsg :=
  match json_field_text value with
  | None => Nothing
  | Some str =>
      div [
        div [Elem "p" [] [Text label];
             Elem "button" [On "click" ToggleRevealed]
               [Elem (if revealed then "EyeOff" else "Eye") [] [];
                Text (if revealed then "Hide" else "Show")]];
        if revealed then Elem "pre" [] [Text str]
        else Elem "button" [On "click" SetRevealed] [Elem "Lock" [] []; Text "Hidden — click to show"]]
  end.

Section dialog.
Context (localeTime : string -> string).

Definition EventDetail (revealed : bool) (event : AuditDetail) : html DialogMsg :=
  Elem "" [] [
    div [
      Field "ID" (ad_id event); Field "Request ID" (ad_request_id event);
      Field "Service" (ad_service event); Field "Environment" (ad_environment event);
      Field "Method" (ad_method event); Field "Path" (ad_path event);
      NumField "Status Code" (ad_status event);
      (match ad_time event with
       | Some n => if num_truthy n then Field "Response Time" (string_of_num n +:+ "ms") else Nothing
       | None => Nothing
       end);
      Field "Timestamp" (localeTime (ad_timestamp event)); Field "IP" (ad_ip event)];
    div [
      Field "Identifier" (ad_identifier event); Field "User Email" (ad_email event);
      Field "User Name" (ad_name event); Field "User Type" (ad_user_type event);
      Field "Tenant ID" (ad_tenant event)];
    div [
      Field "User Agent" (ad_user_agent event); Field "Error Message" (ad_error event);
      JsonField "User Roles" (ad_user_roles event); JsonField "Query Params" (ad_query_params event);
      JsonField "Path Params" (ad_path_params event); JsonField "Request Body" (ad_request_body event);
      SensitiveJsonField revealed "Response Body" (ad_response_body event)]].

(** [EventDetailModal], with the answer of its query. *)
Definition EventDetailModal (eventId : option string) (isLoading : bool) (event : option AuditDetail)
    (revealed : bool) : html DialogMsg :=
  match some_text eventId with
  | None => Nothing
  | Some _ =>
      Elem "div" [On "click" CloseDialog] [
        Elem "div" [Flag "stopPropagation" true] [
          div [Elem "h2" [] [Text "Event Detail"];
               Elem "button" [On "click" CloseDialog] [Elem "X" [] []]];
          div [
            if isLoading then Elem "p" [] [Text "Loading..."]
            else match event with
                 | Some e => EventDetail revealed e
                 | None => Elem "p" [] [Text "Event not found."]
                 end]]]
  end.
End dialog.

(** The dialog over time: the selected event, and the state of its sensitive field,
    which React keeps while the field stays mounted and forgets when it is not. *)
Record Dialog := { dl_event : option string; dl_revealed : bool }.

Definition dialog_closed : Dialog := {| dl_event := None; dl_revealed := false |}.

(** What can happen: the page selects an event, the user closes the dialog or uses
    the buttons of the field, an answer arrives in the cache of the query. *)
Inductive DialogStep : Type :=
| Opens (id : string)
| Sends (m : DialogMsg)
| Arrives.

Section dialog_steps.
(** [cached n id]: whether the [n]-th render has the detail of the event at hand. *)
Context (cached : nat -> string -> bool).

Definition mounted (n : nat) (eventId : option string) : bool :=
  match some_text eventId with Some id => cached n id | None => false end.

(** One step and the render after it, the [n]-th; the field is there only when it
    was there in the render before. *)
Definition dialog_step (n : nat) (st : DialogStep) (d : Dialog) : Dialog :=
  let event := match st with
               | Opens id => Some id
               | Sends CloseDialog => None
               | _ => dl_event d
               end in
  let revealed := if mounted n (dl_event d) then
                    match st with
                    | Sends ToggleRevealed => negb (dl_revealed d)
                    | Sends SetRevealed => true
                    | _ => dl_revealed d
                    end
                  else false in
  {| dl_event := event; dl_revealed := revealed && mounted (S n) event |}.

Fixpoint dialog_run (n : nat) (sts : list DialogStep) (d : Dialog) : Dialog :=
  match sts with
  | [] => d
  | st :: sts' => dialog_run (S n) sts' (dialog_step n st d)
  end.
End dialog_steps.

(** ** What the dialog shows of a response *)

Definition with_response_body (b : jsval) (e : AuditDetail) : AuditDetail :=
  {| ad_id := ad_id e; ad_request_id := ad_request_id e; ad_service := ad_service e;
     ad_environment := ad_environment e; ad_method := ad_method e; ad_path := ad_path e;
     ad_status := ad_status e; ad_time := ad_time e; ad_timestamp := ad_timestamp e;
     ad_ip := ad_ip e; ad_identifier := ad_identifier e; ad_email := ad_email e;
     ad_name := ad_name e; ad_user_type := ad_user_type e; ad_tenant := ad_tenant e;
     ad_user_agent := ad_user_agent e; ad_error := ad_error e; ad_user_roles := ad_user_roles e;
     ad_query_params := ad_query_params e; ad_path_params := ad_path_params e;
     ad_request_body := ad_request_body e; ad_response_body := b |}.

Lemma dialog_run_app cached n l1 l2 d :
  dialog_run cached n (l1 ++ l2) d = dialog_run cached (n + length l1) l2 (dialog_run cached n l1 d).
Proof.
  revert n d. induction l1 as [|st l1 IH]; intros n d; cbn.
  - by rewrite Nat.add_0_r.
  - rewrite IH. f_equal. lia.
Qed.

Definition reveals (st : DialogStep) : bool :=
  match st with Sends ToggleRevealed | Sends SetRevealed => true | _ => false end.

(** The response body of an event is secret until it is asked for: while the
    field is not revealed the dialog is the same tree for any two bodies, as long
    as both are shown or neither is; and when it is revealed, the user pressed one of
    its two buttons, has not closed the dialog since, and every event opened since
    was one whose detail was already cached.  (Selecting such an event without
    closing the dialog shows its body at once.) *)
Theorem response_body_hidden localeTime cached n sts :
  (forall eventId isLoading e b1 b2,
     json_field_text b1 = None <-> json_field_text b2 = None ->
     EventDetailModal localeTime eventId isLoading (Some (with_response_body b1 e)) false =
     EventDetailModal localeTime eventId isLoading (Some (with_response_body b2 e)) false) /\
  (dl_revealed (dialog_run cached n sts dialog_closed) = true ->
   exists l1 st l2, sts = (l1 ++ st :: l2)%list /\ reveals st = true /\
     ~ In (Sends CloseDialog) l2 /\
     forall k id, l2 !! k = Some (Opens id) ->
       cached (n + length l1 + S k + 1)%nat id = true).
Proof.
  split.
  - intros eventId isLoading e b1 b2 Hb. unfold EventDetailModal, EventDetail.
    destruct (some_text eventId), isLoading; try done. cbn.
    unfold SensitiveJsonField. destruct (json_field_text b1), (json_field_text b2); try done;
      [by discriminate (proj2 Hb eq_refl) | by discriminate (proj1 Hb eq_refl)].
  - induction sts as [|st sts IH] using rev_ind; [done |].
    rewrite dialog_run_app. cbn [dialog_run]. set (d := dialog_run cached n sts dialog_closed) in *.
    unfold dialog_step. cbn [dl_revealed]. intros H. apply andb_true_iff in H as [H1 H2].
    destruct (mounted cached (n + length sts) (dl_event d)); [| done].
    destruct (reveals st) eqn:Hr.
    + exists sts, st, []. split_and!; [done | done | by intros [] |]. intros k id Hk. done.
    + assert (Hd : dl_revealed d = true) by (by destruct st as [|[]|]).
      destruct (IH Hd) as (l1 & st' & l2 & -> & Hr' & Hc & Ho).
      exists l1, st', (l2 ++ [st])%list. rewrite <- app_assoc. split_and!; [done | done | |].
      * intros [Hin|[->|[]]]%in_app_iff; [by apply Hc | done].
      * intros k id Hk. apply lookup_app_Some in Hk as [Hk|[Hlen Hk]]; [by apply Ho |].
        destruct (k - length l2)%nat eqn:Ek; [| done]. injection Hk as ->.
        cbn in H2. unfold mounted in H2. rewrite length_app in H2. cbn [length] in H2.
        cbn [some_text] in H2. destruct (str_truthy id); [| done].
        replace (n + length l1 + S k + 1)%nat with (S (n + (length l1 + S (length l2))))%nat by lia.
        exact H2.
Qed.

(** The case of the last clause: two cached events, selected one after the other. *)
Example revealed_stays :
  dl_revealed (dialog_run (fun _ _ => true) 0
    [Opens "a"; Sends SetRevealed; Opens "b"] dialog_closed) = true.
Proof. reflexivity. Qed.
