(* ===== verification/TimeRange.v ===== *)
(** * The time range picker (components/time-range-picker.tsx and its constants)

    The quick chips, the popover with the relative ranges, and the absolute panel,
    whose two dates and times are text.  [format] and [parse] are those of date-fns,
    which is not part of the repository: a format and a time value give a text; a
    text and a format give a time value, when it is valid.  A [Date] is its time
    value.  The local time zone is that of the browser, with daylight saving: its
    distance from UTC depends on the instant, a local time may be skipped, and it may
    come twice. *)

From S2P Require Import Prelude JsString JsValue JsonParse Numbers Dates Html Session HttpApi.
From S2P Require Import ApiContract Queries.

Local Open Scope string_scope.
Local Open Scope Z_scope.

(** ** The constants *)

Definition RELATIVE_LABELS : list (string * string) :=
  [("5m", "Last 5 minutes"); ("15m", "Last 15 minutes"); ("30m", "Last 30 minutes");
   ("1h", "Last 1 hour"); ("3h", "Last 3 hours"); ("6h", "Last 6 hours");
   ("12h", "Last 12 hours"); ("24h", "Last 24 hours"); ("3d", "Last 3 days");
   ("7d", "Last 7 days"); ("30d", "Last 30 days")].

Definition QUICK_PRESETS : list string := ["5m"; "30m"; "1h"; "3h"; "12h"].

Definition QUICK_LABELS : list (string * string) :=
  [("5m", "5m"); ("30m", "30m"); ("1h", "1h"); ("3h", "3h"); ("12h", "12h")].

Record RelativeRow := { label : string; presets : list string; chips : list string }.

Definition RELATIVE_ROWS : list RelativeRow :=
  [{| label := "Minutes"; presets := ["5m"; "15m"; "30m"];
      chips := ["5 minutes"; "15 minutes"; "30 minutes"] |};
   {| label := "Hours"; presets := ["1h"; "3h"; "6h"; "12h"; "24h"];
      chips := ["1 hour"; "3 hours"; "6 hours"; "12 hours"; "24 hours"] |};
   {| label := "Days"; presets := ["3d"; "7d"; "30d"]; chips := ["3 days"; "7 days"; "30 days"] |}].

(** ** The state *)

Record DateRange := { from : option Z; to : option Z }.

Record Picker := {
  open : bool;
  startDateStr : string;
  startTimeStr : string;
  endDateStr : string;
  endTimeStr : string;
  range : option DateRange
}.

Definition picker_initial : Picker :=
  {| open := false; startDateStr := ""; startTimeStr := "00:00"; endDateStr := "";
     endTimeStr := "23:59"; range := None |}.

Record Props := { timeRange : option string; startDate : option string; endDate : option string }.

Definition set_open (b : bool) (s : Picker) : Picker :=
  {| open := b; startDateStr := startDateStr s; startTimeStr := startTimeStr s;
     endDateStr := endDateStr s; endTimeStr := endTimeStr s; range := range s |}.
Definition set_start (d t : string) (r : option DateRange) (s : Picker) : Picker :=
  {| open := open s; startDateStr := d; startTimeStr := t; endDateStr := endDateStr s;
     endTimeStr := endTimeStr s; range := r |}.
Definition set_end (d t : string) (r : option DateRange) (s : Picker) : Picker :=
  {| open := open s; startDateStr := startDateStr s; startTimeStr := startTimeStr s;
     endDateStr := d; endTimeStr := t; range := r |}.

(** What the user does, and what the picker tells its parent. *)
Inductive PickerMsg : Type :=
| OpenChanged (b : bool)
| RelativeClicked (r : string)
| CalendarSelected (r : option DateRange)
| StartDateTyped (v : string)
| StartTimeTyped (v : string)
| EndDateTyped (v : string)
| EndTimeTyped (v : string)
| ApplyClicked
| ClearClicked.

Inductive PickerCall : Type := OnRelative (r : string) | OnAbsolute (start end_ : string) | OnClear.

(** ** date-fns *)

(** The start of the day of a local time, in milliseconds as [Date.UTC] counts them. *)
Definition day_start (l : Z) : Z := l - l mod ms_per_day.

(** The zone, and the two functions the picker uses, with what their documentation says of
    the formats it gives them.  [offset] is the distance of local time from UTC at an
    instant; [instant] is the instant the [Date] constructor takes for a local time, one
    that has this local time if any has.  The time is two digits, a colon and two digits,
    and a day and a time are parsed as that local time, with no seconds. *)
Class DateFns := {
  offset : Z -> Z;
  instant : Z -> Z;
  reading d := d + offset d;
  common_date d := (-62135596800000 <= reading d < 253402300800000) /\
                   (-62167219200000 <= d < 253402300800000);
  format : string -> Z -> string;
  parse : string -> string -> option Z;
  instant_reading : forall d, reading (instant (reading d)) = reading d;
  format_day : forall d, common_date d -> format "yyyy-MM-dd" d <> "";
  format_time : forall d, common_date d ->
    format "HH:mm" d =
    digits_pad 2 (reading d mod ms_per_day / 3600000) +:+ ":" +:+
    digits_pad 2 (reading d mod ms_per_day / 60000 mod 60);
  parse_format : forall d t c, common_date d -> String.length t = 5%nat -> parse_clock t = Some c ->
    parse (format "yyyy-MM-dd" d +:+ " " +:+ t) "yyyy-MM-dd HH:mm" = Some (instant (day_start (reading d) + c))
}.

Section picker.
Context `{DateFns}.

(** [new Date(s)]: a text that does not name its zone is in local time. *)
Definition new_Date (s : string) : option Z :=
  d ← parse_date 0 s; Some (if bool_decide (parse_date 1 s = Some d) then d else instant d).

Definition toDateStr (iso : option string) : string :=
  match some_text iso with
  | None => ""
  | Some iso => match new_Date iso with Some d => format "yyyy-MM-dd" d | None => "" end
  end.

Definition toTimeStr (iso : option string) : string :=
  match some_text iso with
  | None => "00:00"
  | Some iso => match new_Date iso with Some d => format "HH:mm" d | None => "00:00" end
  end.

Definition buildDate (dateStr timeStr : string) : option Z :=
  if String.eqb dateStr "" then None
  else parse (dateStr +:+ " " +:+ (if String.eqb timeStr "" then "00:00" else timeStr)) "yyyy-MM-dd HH:mm".

(** [sd ? new Date(startDate!) : undefined] *)
Definition seed_date (str : string) (iso : option string) : option Z :=
  if String.eqb str "" then None else iso ≫= new_Date.

(** The effect of opening: the panel is seeded from the properties. *)
Definition seed (p : Props) (s : Picker) : Picker :=
  let sd := toDateStr (startDate p) in
  let ed := toDateStr (endDate p) in
  {| open := open s; startDateStr := sd; startTimeStr := toTimeStr (startDate p);
     endDateStr := ed; endTimeStr := toTimeStr (endDate p);
     range := Some {| from := seed_date sd (startDate p); to := seed_date ed (endDate p) |} |}.

Definition handleCalendarSelect (r : option DateRange) (s : Picker) : Picker :=
  let start := match r ≫= from with Some d => format "yyyy-MM-dd" d | None => startDateStr s end in
  let end_ := match r ≫= to with Some d => format "yyyy-MM-dd" d | None => endDateStr s end in
  {| open := open s; startDateStr := start; startTimeStr := startTimeStr s;
     endDateStr := end_; endTimeStr := endTimeStr s; range := r |}.

Definition handleStartDateChange (v : string) (s : Picker) : Picker :=
  set_start v (startTimeStr s)
    (match buildDate v (startTimeStr s) with
     | Some d => Some {| from := Some d; to := range s ≫= to |}
     | None => range s
     end) s.

Definition handleEndDateChange (v : string) (s : Picker) : Picker :=
  set_end v (endTimeStr s)
    (match buildDate v (endTimeStr s) with
     | Some d => Some {| from := range s ≫= from; to := Some d |}
     | None => range s
     end) s.

(** [handleApply]; the button is disabled without a start date. *)
Definition handleApply (s : Picker) : Picker * list PickerCall :=
  match buildDate (startDateStr s) (startTimeStr s) with
  | None => (s, [])
  | Some from =>
      let to := default from (buildDate (endDateStr s) (endTimeStr s)) in
      (set_open false s, [OnAbsolute (to_iso_string from) (to_iso_string to)])
  end.

Definition update (p : Props) (m : PickerMsg) (s : Picker) : Picker * list PickerCall :=
  match m with
  | OpenChanged b =>
      (if b && negb (open s) then seed p (set_open true s) else set_open b s, [])
  | RelativeClicked r => (set_open false s, [OnRelative r])
  | CalendarSelected r => (handleCalendarSelect r s, [])
  | StartDateTyped v => (handleStartDateChange v s, [])
  | StartTimeTyped v => (set_start (startDateStr s) v (range s) s, [])
  | EndDateTyped v => (handleEndDateChange v s, [])
  | EndTimeTyped v => (set_end (endDateStr s) v (range s) s, [])
  | ApplyClicked => if String.eqb (startDateStr s) "" then (s, []) else handleApply s
  | ClearClicked => (set_open false s, [OnClear])
  end.

(** A sequence of messages under the same properties: the state after it and the
    calls it made. *)
Definition picker_run (p : Props) (ms : list PickerMsg) (s : Picker) : Picker * list PickerCall :=
  fold_left (fun acc m => let '(s, calls) := acc in
    let '(s', c) := update p m s in (s', calls ++ c)%list) ms (s, []).

(** ** The view *)

Definition isNonQuick (p : Props) : bool :=
  match some_text (timeRange p) with
  | Some r => negb (existsb (String.eqb r) QUICK_PRESETS)
  | None => false
  end.

Definition is_custom (p : Props) : bool :=
  match timeRange p with Some r => String.eqb r "custom" | None => false end.

Definition isCustomActive (p : Props) : bool := isNonQuick p || is_custom p.

(** [format(new Date(iso), 'MMM d HH:mm')]; [None] is its RangeError. *)
Definition short_date (iso : string) : option string := format "MMM d HH:mm" <$> new_Date iso.

Definition customLabel (p : Props) : option string :=
  if isNonQuick p then
    let r := default "" (timeRange p) in Some (default r (assoc r RELATIVE_LABELS))
  else
    match is_custom p, some_text (startDate p) with
    | true, Some start =>
        s ← short_date start;
        match some_text (endDate p) with
        | Some end_ => e ← short_date end_; Some (s +:+ " — " +:+ e)
        | None => Some s
        end
    | _, _ => Some "Custom"
    end.

Definition is_active (p : Props) (preset : string) : bool :=
  match timeRange p with Some r => String.eqb r preset | None => false end.

Definition chip (active : bool) (r text : string) : html PickerMsg :=
  Elem "button" [On "click" (RelativeClicked r); Flag "bg-primary" active] [Text text].

Definition relative_panel (p : Props) : html PickerMsg :=
  div [
    Elem "p" [] [Text "Relative"];
    div (List.map (fun row =>
      div [Elem "p" [] [Text (label row)];
           div (zip_with (fun preset text => chip (is_active p preset) preset text)
                  (presets row) (chips row))]) RELATIVE_ROWS);
    match some_text (timeRange p), some_text (startDate p) with
    | None, None => Nothing
    | _, _ => div [Elem "button" [On "click" ClearClicked] [Text "Clear selection"]]
    end].

Definition text_input (type value : string) (f : string -> PickerMsg) : html PickerMsg :=
  Elem "input" [Attr "type" type; Attr "value" value; OnText "change" f] [].

Definition absolute_panel (s : Picker) : html PickerMsg :=
  div [
    div [
      Elem "p" [] [Text "Absolute"];
      div [
        div [Elem "label" [] [Text "Start date"];
             div [text_input "date" (startDateStr s) StartDateTyped;
                  text_input "time" (startTimeStr s) StartTimeTyped]];
        span [Text "—"];
        div [Elem "label" [] [Text "End date"];
             div [text_input "date" (endDateStr s) EndDateTyped;
                  text_input "time" (endTimeStr s) EndTimeTyped]]]];
    Elem "Calendar" [Attr "mode" "range"] [];
    div [Elem "Button" [On "click" ApplyClicked; Flag "disabled" (String.eqb (startDateStr s) "")]
      [Text "Apply"]]].

Definition TimeRangePicker (p : Props) (s : Picker) : option (html PickerMsg) :=
  custom ← customLabel p;
  Some (div [
    Elem "" [] (List.map (fun preset =>
      chip (is_active p preset) preset (default "" (assoc preset QUICK_LABELS))) QUICK_PRESETS);
    Elem "Popover" [Flag "open" (open s)] [
      Elem "PopoverTrigger" [] [
        Elem "button" [On "click" (OpenChanged (negb (open s))); Flag "bg-primary" (isCustomActive p)]
          [span [Text (if isCustomActive p then custom else "Custom")]; Elem "ChevronDown" [] []]];
      show (open s) (Elem "PopoverContent" [] [div [relative_panel p; absolute_panel s]])]]).
End picker.

(** ** Opening and applying *)

(** The minute of a local time, and the start of the local minute an instant is in. *)
Definition to_minute (l : Z) : Z := l - l mod 60000.
Definition minute `{DateFns} (d : Z) : Z := d - reading d mod 60000.

(** The instant of that local minute as the picker builds it. *)
Definition applied `{DateFns} (d : Z) : Z := instant (to_minute (reading d)).

(** The zone does not change within the minute; no other instant has the local time. *)
Definition steady `{DateFns} (d : Z) : Prop := offset (minute d) = offset d.
Definition once `{DateFns} (d : Z) : Prop := forall d', reading d' = reading d -> d' = d.

Lemma parse_clock_pad h m :
  0 <= h <= 23 -> 0 <= m <= 59 ->
  parse_clock (digits_pad 2 h +:+ ":" +:+ digits_pad 2 m) = Some (h * 3600000 + m * 60000).
Proof.
  intros Hh Hm. unfold parse_clock. cbn [String.append].
  rewrite split_on_app, split_on_no_char by (by apply pad_no_char).
  by rewrite !digits_in_pad by (cbn; lia).
Qed.

Lemma minute_of_day l :
  let t := l mod ms_per_day in
  0 <= t / 3600000 <= 23 /\ 0 <= t / 60000 mod 60 <= 59 /\
  day_start l + (t / 3600000 * 3600000 + t / 60000 mod 60 * 60000) = to_minute l.
Proof.
  cbn zeta. unfold day_start, to_minute, ms_per_day.
  assert (E : l mod 60000 = l mod 86400000 mod 60000).
  { rewrite (Z.div_mod l 86400000) at 1 by lia.
    replace (86400000 * (l / 86400000) + l mod 86400000)
      with (l mod 86400000 + (l / 86400000 * 1440) * 60000) by lia.
    by rewrite Z.mod_add. }
  rewrite E. pose proof (Z.mod_pos_bound l 86400000 ltac:(lia)). clear E.
  set (t := l mod 86400000) in *. clearbody t. Z.to_euclidean_division_equations; lia.
Qed.

Lemma to_minute_idem l : to_minute (to_minute l) = to_minute l.
Proof.
  unfold to_minute. replace (l - l mod 60000) with (l / 60000 * 60000)
    by (pose proof (Z.div_mod l 60000 ltac:(lia)); lia).
  rewrite Z.mod_mul by lia. lia.
Qed.

Section applying.
Context `{DateFns}.

Lemma new_Date_iso d : common_date d -> new_Date (to_iso_string d) = Some d.
Proof.
  intros [_ Hd]. unfold new_Date. rewrite !parse_date_iso by apply Hd. cbn.
  by rewrite bool_decide_eq_true_2.
Qed.

(** The two inputs seeded from a date build that date, cut to the local minute. *)
Lemma build_seeded d :
  common_date d ->
  buildDate (toDateStr (Some (to_iso_string d))) (toTimeStr (Some (to_iso_string d))) =
  Some (applied d).
Proof.
  intros Hd. unfold toDateStr, toTimeStr. cbn [some_text]. rewrite iso_truthy.
  rewrite new_Date_iso by apply Hd. unfold buildDate.
  rewrite (proj2 (String.eqb_neq _ _) (format_day d Hd)).
  destruct (minute_of_day (reading d)) as (Hh & Hm & E).
  pose proof (parse_clock_pad _ _ Hh Hm) as Hc. rewrite <- (format_time d Hd) in Hc.
  assert (Hl : String.length (format "HH:mm" d) = 5%nat)
    by (by rewrite format_time, !length_app_s, !length_digits_pad).
  destruct (String.eqb_spec (format "HH:mm" d) "") as [E0|]; [by rewrite E0 in Hl |].
  by rewrite (parse_format d _ _ Hd Hl Hc), E.
Qed.

Lemma toDateStr_ne d : common_date d -> String.eqb (toDateStr (Some (to_iso_string d))) "" = false.
Proof.
  intros Hd. unfold toDateStr. cbn [some_text]. rewrite iso_truthy, new_Date_iso by apply Hd.
  by apply String.eqb_neq, format_day.
Qed.

(** The calls of opening the picker on a range and applying it. *)
Lemma apply_opened a e r s :
  open s = false -> common_date a ->
  (forall b, e = Some b -> common_date b) ->
  let p := {| timeRange := r; startDate := Some (to_iso_string a); endDate := to_iso_string <$> e |} in
  (picker_run p [OpenChanged true; ApplyClicked] s).2 =
    [OnAbsolute (to_iso_string (applied a)) (to_iso_string (applied (default a e)))].
Proof.
  intros Hs Ha He. cbn zeta. unfold picker_run. cbn [fold_left update]. rewrite Hs.
  cbn [andb negb seed startDateStr startDate]. rewrite toDateStr_ne by done.
  unfold handleApply. cbn [startDateStr startTimeStr endDateStr endTimeStr seed startDate endDate].
  rewrite build_seeded by done. destruct e as [b|]; [| done]. cbn [fmap option_fmap option_map].
  by rewrite build_seeded by by apply He.
Qed.

Lemma minute_reading d : steady d -> reading (minute d) = to_minute (reading d).
Proof.
  unfold steady. intros Hd. unfold reading at 1. rewrite Hd. unfold minute, to_minute, reading. lia.
Qed.

(** The instant applied has the local minute of the one given, and is its start when that
    minute does not come twice. *)
Lemma applied_spec d :
  steady d ->
  reading (applied d) = to_minute (reading d) /\ (once (minute d) -> applied d = minute d) /\
  applied (applied d) = applied d.
Proof.
  intros Hd. unfold applied. rewrite <- (minute_reading d Hd), instant_reading.
  split_and!; [done | intros Ho; apply Ho, instant_reading |].
  by rewrite (minute_reading d Hd), to_minute_idem.
Qed.
End applying.

(** C27 Opening the picker on an absolute range and applying it, in any time zone, with
    daylight saving or not: the range applied has the local dates and times of the range
    given, cut to the minute; it is that range, cut to the minute, for every end whose local
    minute does not come twice; and opening and applying it again changes nothing more.
    Without an end date the range given is the start alone.  (The dates are in the years 1
    to 9999, and the zone does not change within the minute of either.) *)
Theorem open_apply_roundtrip `{DateFns} a b r s :
  open s = false -> common_date a -> common_date b -> steady a -> steady b ->
  let props e := {| timeRange := r; startDate := Some (to_iso_string a); endDate := e |} in
  (picker_run (props (Some (to_iso_string b))) [OpenChanged true; ApplyClicked] s).2 =
    [OnAbsolute (to_iso_string (applied a)) (to_iso_string (applied b))] /\
  (picker_run (props None) [OpenChanged true; ApplyClicked] s).2 =
    [OnAbsolute (to_iso_string (applied a)) (to_iso_string (applied a))] /\
  Forall (fun d => reading (applied d) = to_minute (reading d) /\
                   (once (minute d) -> applied d = minute d) /\
                   applied (applied d) = applied d) [a; b].
Proof.
  intros Hs Ha Hb Hsa Hsb. cbn zeta. split_and!.
  - apply (apply_opened a (Some b)); [done | done | by intros ? [= <-]].
  - by apply (apply_opened a None).
  - repeat constructor; by apply applied_spec.
Qed.

(** A range picked in the calendar, when the page has no range: the dates applied
    are midnights, of the first day and of the last.  The end time the state starts
    with, 23:59, is never used, because opening the picker writes 00:00 over it; so the
    events of the last day picked are not in the range. *)
Theorem calendar_range_ends_at_midnight `{DateFns} a b r s :
  open s = false -> common_date a -> common_date b ->
  let props := {| timeRange := r; startDate := None; endDate := None |} in
  let '(s', calls) := picker_run props
    [OpenChanged true; CalendarSelected (Some {| from := Some a; to := Some b |}); ApplyClicked] s in
  open s' = false /\
  calls = [OnAbsolute (to_iso_string (instant (day_start (reading a))))
                      (to_iso_string (instant (day_start (reading b))))].
Proof.
  intros Hs Ha Hb. cbn zeta. unfold picker_run. cbn [fold_left update]. rewrite Hs.
  cbn [andb negb seed handleCalendarSelect startDateStr].
  cbn [mbind option_bind from to]. rewrite (proj2 (String.eqb_neq _ _) (format_day a Ha)).
  unfold handleApply, buildDate.
  cbn [startDateStr startTimeStr endDateStr endTimeStr seed handleCalendarSelect mbind option_bind from to
       startDate endDate toDateStr toTimeStr some_text].
  rewrite (proj2 (String.eqb_neq _ _) (format_day a Ha)), (proj2 (String.eqb_neq _ _) (format_day b Hb)).
  change (if String.eqb "00:00" "" then "00:00" else "00:00") with "00:00".
  rewrite !(parse_format _ "00:00" 0) by done. cbn. rewrite !Z.add_0_r. done.
Qed.

(** ** The labels and the presets *)

Definition unit_ms (u : string) : option Z :=
  assoc u [("minutes", 60000); ("hour", 3600000); ("hours", 3600000); ("days", 86400000)].

(** The milliseconds a text like [15 minutes] says. *)
Definition duration_text (s : string) : option Z :=
  match split_on " " s with [n; u] => n ← digits_from 0 n; u ← unit_ms u; Some (n * u) | _ => None end.

Definition offered : list (string * string) :=
  flat_map (fun row => zip (presets row) (chips row)) RELATIVE_ROWS.

(** The ranges the picker offers are those the queries know: every chip of the
    toolbar and of the panel is an entry of [TIME_RANGE_MS], with the number of
    milliseconds its text and its label say. *)
Theorem presets_known :
  (forall preset text, In (preset, text) offered ->
     exists ms, assoc preset TIME_RANGE_MS = Some ms /\ duration_text text = Some ms /\
       assoc preset RELATIVE_LABELS = Some ("Last " +:+ text)) /\
  (forall preset, In preset QUICK_PRESETS ->
     assoc preset QUICK_LABELS = Some preset /\ In preset (offered.*1)) /\
  offered.*1 = TIME_RANGE_MS.*1.
Proof.
  split_and!; [| | reflexivity].
  - intros preset text Hin. cbn in Hin.
    repeat destruct Hin as [Hin|Hin]; try done; injection Hin as <- <-;
      (eexists; split_and!; vm_compute; reflexivity).
  - intros preset Hin. cbn in Hin.
    repeat destruct Hin as [Hin|Hin]; try done; subst; (split; [reflexivity | cbn; auto 20]).
Qed.

(** The label of the custom chip: a relative range outside the quick ones shows
    its name.  The branch that would show the dates of an absolute range is never
    taken: the range [custom] is itself not a quick one, and is shown as "custom"
    whatever its dates are. *)
Theorem custom_label_spec `{DateFns} p :
  (timeRange p = Some "custom" -> customLabel p = Some "custom") /\
  (forall r l, timeRange p = Some r -> ~ In r QUICK_PRESETS -> assoc r RELATIVE_LABELS = Some l ->
     customLabel p = Some l) /\
  (isCustomActive p = true -> is_Some (customLabel p) /\
     forall start end_, customLabel {| timeRange := timeRange p; startDate := start; endDate := end_ |} =
       customLabel p).
Proof.
  assert (Hex : forall r, existsb (String.eqb r) QUICK_PRESETS = true <-> In r QUICK_PRESETS).
  { intros r. rewrite existsb_exists. split; [intros (x & Hin & ->%String.eqb_eq); done |].
    intros Hin. exists r. by rewrite String.eqb_refl. }
  split_and!.
  - intros E. unfold customLabel, isNonQuick. by rewrite E.
  - intros r l E Hn Hl. unfold customLabel, isNonQuick. rewrite E. cbn [some_text].
    destruct (str_truthy r) eqn:Et.
    + destruct (existsb (String.eqb r) QUICK_PRESETS) eqn:Ex; [by apply Hex in Ex |].
      change (default "" (Some r)) with r. cbn [negb]. by rewrite Hl.
    + by destruct r.
  - unfold isCustomActive, is_custom. destruct (timeRange p) as [r|] eqn:E;
      [| unfold isNonQuick; rewrite E; done].
    intros Hact. assert (Hq : isNonQuick p = true).
    { apply orb_true_iff in Hact as [|Hc]; [done |]. apply String.eqb_eq in Hc as ->.
      unfold isNonQuick. by rewrite E. }
    unfold customLabel. rewrite Hq. split; [by eexists |]. intros start end_.
    unfold isNonQuick in *. cbn [timeRange] in *. rewrite E in Hq. by rewrite Hq, E.
Qed.

(** ** An instance of date-fns *)

Definition utc_day (d : Z) : string :=
  let '(y, m, dd) := civil_from_days (d / ms_per_day) in
  iso_year y +:+ "-" +:+ digits_pad 2 m +:+ "-" +:+ digits_pad 2 dd.

Definition utc_format (f : string) (d : Z) : string :=
  let t := d mod ms_per_day in
  if String.eqb f "HH:mm" then digits_pad 2 (t / 3600000) +:+ ":" +:+ digits_pad 2 (t / 60000 mod 60)
  else utc_day d.

Definition utc_parse (s f : string) : option Z :=
  let day := before " " s in
  d ← parse_day day; rest ← strip_prefix (day +:+ " ") s; t ← parse_clock rest;
  Some (d * ms_per_day + t).

Lemma utc_day_parse d :
  -62167219200000 <= d < 253402300800000 ->
  parse_day (utc_day d) = Some (d / ms_per_day) /\ has_char " " (utc_day d) = false.
Proof.
  intros Hd. unfold utc_day. destruct (civil_from_days (d / ms_per_day)) as [[y m] dd] eqn:E.
  pose proof (civil_range _ _ _ _ E) as (Hm & Hdd & Hdays).
  assert (Hy : 0 <= y <= 9999)
    by (eapply (civil_year y m dd); [done | done | rewrite Hdays; unfold ms_per_day;
        Z.to_euclidean_division_equations; lia]).
  split; [by rewrite parse_day_iso, Hdays |].
  rewrite !has_char_app. unfold iso_year.
  rewrite (proj2 (Z.leb_le _ _) (proj1 Hy)), (proj2 (Z.leb_le _ _) (proj2 Hy)).
  cbn [has_char andb]. by rewrite !pad_no_char.
Qed.

Definition iso_local (l : Z) : Prop := -62167219200000 <= l < 253402300800000.

Lemma utc_parse_format l t c :
  iso_local l -> parse_clock t = Some c ->
  utc_parse (utc_format "yyyy-MM-dd" l +:+ " " +:+ t) "yyyy-MM-dd HH:mm" = Some (day_start l + c).
Proof.
  intros Hd Hc. unfold utc_format, utc_parse. cbn [String.eqb Ascii.eqb Bool.eqb].
  destruct (utc_day_parse l Hd) as [Hp Hs]. cbn zeta.
  change (" " +:+ t) with (String " " t). rewrite before_app by done. rewrite Hp.
  change (utc_day l +:+ String " " t) with (utc_day l +:+ (" " +:+ t)).
  rewrite app_assoc_s, strip_prefix_app. cbn [mbind option_bind]. rewrite Hc. cbn [mbind option_bind].
  unfold day_start. f_equal. unfold ms_per_day. pose proof (Z.div_mod l 86400000 ltac:(lia)). lia.
Qed.

Lemma utc_format_day l : iso_local l -> utc_format "yyyy-MM-dd" l <> "".
Proof.
  intros Hd E. destruct (utc_day_parse l Hd) as [Hp _].
  change (utc_format "yyyy-MM-dd" l) with (utc_day l) in E. by rewrite E in Hp.
Qed.

(** The functions over a zone. *)
Section zone.
Context (off inst : Z -> Z).
Context (inst_law : forall d, let l := d + off d in inst l + off (inst l) = l).

Definition zone_format (f : string) (d : Z) : string := utc_format f (d + off d).
Definition zone_parse (s f : string) : option Z := inst <$> utc_parse s f.

Lemma zone_format_day d :
  -62135596800000 <= d + off d < 253402300800000 /\ -62167219200000 <= d < 253402300800000 ->
  zone_format "yyyy-MM-dd" d <> "".
Proof. intros [Hl _]. apply utc_format_day. unfold iso_local. lia. Qed.

Lemma zone_parse_format d t c :
  -62135596800000 <= d + off d < 253402300800000 /\ -62167219200000 <= d < 253402300800000 ->
  String.length t = 5%nat -> parse_clock t = Some c ->
  zone_parse (zone_format "yyyy-MM-dd" d +:+ " " +:+ t) "yyyy-MM-dd HH:mm" =
  Some (inst (day_start (d + off d) + c)).
Proof.
  intros [Hl _] _ Hc. unfold zone_parse, zone_format. rewrite (utc_parse_format _ t c); [done | | done].
  unfold iso_local. lia.
Qed.

Definition zone_datefns : DateFns := {|
  offset := off;
  instant := inst;
  format := zone_format;
  parse := zone_parse;
  instant_reading := inst_law;
  format_day := zone_format_day;
  format_time := fun d _ => eq_refl;
  parse_format := zone_parse_format
|}.
End zone.

(** UTC; and the zone of New York around 2024, four hours behind UTC from the 10th of March
    to the 3rd of November and five otherwise.  Of a local time that comes twice the
    [Date] constructor takes the first, and it moves one that is skipped forward. *)
Lemma utc_law (d : Z) : let l := d + 0 in l + 0 = l.
Proof. cbn zeta. lia. Qed.

Definition utc_datefns : DateFns := zone_datefns (fun _ => 0) (fun l => l) utc_law.

Definition ny_summer (d : Z) : bool := (1710054000000 <=? d) && (d <? 1730613600000).
Definition ny_offset (d : Z) : Z := if ny_summer d then -14400000 else -18000000.
Definition ny_instant (l : Z) : Z := if ny_summer (l + 14400000) then l + 14400000 else l + 18000000.

Lemma ny_law d : let l := d + ny_offset d in ny_instant l + ny_offset (ny_instant l) = l.
Proof.
  cbn zeta.
  assert (ny_instant (d + ny_offset d) = d \/
          ny_summer (d + ny_offset d + 14400000) = true /\ ny_instant (d + ny_offset d) = d + ny_offset d + 14400000)
    as [-> | [E ->]]; [| done |].
  - unfold ny_instant. destruct (ny_summer (d + ny_offset d + 14400000)) eqn:E; [by right | left].
    unfold ny_offset in *. destruct (ny_summer d) eqn:Ed; [| lia].
    replace (d + -14400000 + 14400000) with d in E by lia. congruence.
  - unfold ny_offset at 2. rewrite E. lia.
Qed.

Definition ny_datefns : DateFns := zone_datefns ny_offset ny_instant ny_law.

(** In New York: half past twelve of a day of summer, and half past one of the night in
    which the hour from one to two comes twice, the second time.  The first comes back cut
    to the minute, the second an hour earlier. *)
Lemma open_apply_roundtrip_witness :
  (picker_run (H := ny_datefns) {| timeRange := None; startDate := Some (to_iso_string 1719937830500);
      endDate := Some (to_iso_string 1730615400000) |}
    [OpenChanged true; ApplyClicked] picker_initial).2 =
  [OnAbsolute (to_iso_string 1719937800000) (to_iso_string 1730611800000)].
Proof.
  destruct (@open_apply_roundtrip ny_datefns 1719937830500 1730615400000 None picker_initial eq_refl
    ltac:(vm_compute; repeat split; discriminate) ltac:(vm_compute; repeat split; discriminate) eq_refl eq_refl) as [E _].
  exact E.
Defined.

(** What the second of the two hours comes back as. *)
Theorem repeated_hour_moves :
  let second := 1730615400000 in
  @applied ny_datefns second = second - 3600000 /\
  @reading ny_datefns (second - 3600000) = @reading ny_datefns second.
Proof. by vm_compute. Qed.

Lemma calendar_range_ends_at_midnight_witness :
  (picker_run (H := utc_datefns) {| timeRange := None; startDate := None; endDate := None |}
    [OpenChanged true; CalendarSelected (Some {| from := Some 1704153600000; to := Some 1704240000000 |});
     ApplyClicked] picker_initial).2 =
  [OnAbsolute "2024-01-02T00:00:00.000Z" "2024-01-03T00:00:00.000Z"].
Proof.
  pose proof (@calendar_range_ends_at_midnight utc_datefns 1704153600000 1704240000000 None picker_initial eq_refl
    ltac:(vm_compute; repeat split; discriminate) ltac:(vm_compute; repeat split; discriminate)) as H.
  cbn zeta in H. destruct (picker_run _ _ _) as [s' calls]. destruct H as [_ H]. rewrite H.
  vm_compute. reflexivity.
Defined.

Lemma custom_label_spec_witness :
  customLabel (H := utc_datefns) {| timeRange := Some "custom"; startDate := Some "2024-01-02T00:00:00.000Z";
    endDate := None |} = Some "custom".
Proof.
  destruct (@custom_label_spec utc_datefns {| timeRange := Some "custom";
    startDate := Some "2024-01-02T00:00:00.000Z"; endDate := None |}) as [H _].
  apply H. reflexivity.
Defined.
