(* ===== verification/Anomalies.v ===== *)
(** * The anomalies page (routes/app/_layout/anomalies.tsx)

    The list of alerts, the drawer of the selected one with its detection details,
    the window of related events it asks for, and the users it affected.  What the
    queries deliver is an argument of the views.  [tz] is the distance of the local
    time zone from UTC, [now] the time of the render and [localeTime] the local form
    of a date, which the browser chooses. *)

From S2P Require Import Prelude JsString JsValue JsonParse Numbers Dates Host Html Session HttpApi.
From S2P Require Import ApiContract Queries.

Local Open Scope string_scope.
Local Open Scope Z_scope.

(** ** Data *)

Record Rule := { label : string; color : string; description : string }.

Definition RULE_META : list (string * Rule) :=
  [("volume_spike", {| label := "Volume Spike";
      color := "bg-[#818cf8]/20 text-[#818cf8] border-[#818cf8]/30";
      description := "Abnormal spike in request volume (z-score)" |});
   ("error_rate", {| label := "Error Rate";
      color := "bg-[#f87171]/20 text-[#f87171] border-[#f87171]/30";
      description := "4xx/5xx rate exceeded threshold" |});
   ("brute_force", {| label := "Brute Force";
      color := "bg-[#fb923c]/20 text-[#fb923c] border-[#fb923c]/30";
      description := "Repeated auth failures from same identifier" |});
   ("silent_service", {| label := "Silent Service";
      color := "bg-[#fbbf24]/20 text-[#fbbf24] border-[#fbbf24]/30";
      description := "No events received for threshold minutes" |});
   ("mass_delete", {| label := "Mass Delete";
      color := "bg-[#f87171]/20 text-[#f87171] border-[#f87171]/30";
      description := "High volume of DELETE requests in short window" |});
   ("error_rate_by_route", {| label := "Error Rate by Route";
      color := "bg-[#f472b6]/20 text-[#f472b6] border-[#f472b6]/30";
      description := "High error rate detected on a specific route" |})].

(** [RULE_META[path] ?? {...}]; a path that is the name of a member of
    [Object.prototype] is not considered. *)
Definition rule_of (path : string) : Rule :=
  default {| label := path; color := "bg-muted text-muted-foreground border-border"; description := "" |}
    (assoc path RULE_META).

Record AlertSummary := {
  id : string;
  path : string;
  service_name : string;
  environment : option string;
  timestamp : string
}.

(** An event of the list of related events, as the row reads it. *)
Record RelatedEvent := {
  ev_id : string;
  ev_method : option string;
  ev_path : option string;
  ev_status : option num;
  ev_time : option num;
  ev_timestamp : string
}.

Record AffectedUser := { u_identifier : string; u_email : string; u_name : string; u_errors : num }.

(** ** Helpers *)

(** [timeAgo] at the time [now]. *)
Definition timeAgo (tz now : Z) (ts : string) : string :=
  match parse_date tz ts with
  | None => "NaNd ago"
  | Some t =>
      let m := (now - t) / 60000 in
      if m <? 1 then "just now"
      else if m <? 60 then string_of_Z m +:+ "m ago"
      else
        let h := m / 60 in
        if h <? 24 then string_of_Z h +:+ "h ago" else string_of_Z (h / 24) +:+ "d ago"
  end.

Definition statusColor (code : num) : string :=
  if num_ge code (Num 500 0) then "text-[#f87171]"
  else if num_ge code (Num 400 0) then "text-[#fbbf24]"
  else "text-[#4ade80]".

Definition methodColor (m : string) : string :=
  default "text-muted-foreground" (assoc m
    [("GET", "text-[#4ade80]"); ("POST", "text-[#818cf8]"); ("PUT", "text-[#fbbf24]");
     ("DELETE", "text-[#f87171]"); ("PATCH", "text-[#60a5fa]")]).

(** ** The details of an alert *)

(** [details] of the drawer: the parsed request body of the alert's event, [null]
    when there is none or when it does not parse.  [full] is the event the query
    delivered, [undefined] before. *)
Definition alert_details (full : jsval) : jsval :=
  let body := match full with JObj o => obj_get "request_body" o | _ => JUndef end in
  if truthy body then
    match body with
    | JStr s => default JNull (json_parse s)
    | _ => body
    end
  else JNull.

(** [details?.k] *)
Definition detail (details : jsval) (k : string) : jsval := default JUndef (get_prop details k).

(** [details?.k ? String(details.k) : null] *)
Definition detail_text (details : jsval) (k : string) : option string :=
  if truthy (detail details k) then Some (js_string (detail details k)) else None.

(** The rows of [DetectionDetails], one per member. *)
Definition detail_value (v : jsval) : string :=
  match v with
  | JNum n => if is_integer n then string_of_num n else to_fixed 2 n
  | _ => js_string v
  end.

(** [Object.entries(details)]; the characters of a string are taken one byte each. *)
Definition object_entries (v : jsval) : obj :=
  match v with
  | JObj o => o
  | JArr l => imap (fun i x => (string_of_Z (Z.of_nat i), x)) l
  | JStr s => imap (fun i a => (string_of_Z (Z.of_nat i), JStr (String a ""))) (String.list_ascii_of_string s)
  | _ => []
  end.

Definition detail_rows (details : jsval) : list (string * string) :=
  List.map (fun kv => (replace_char "_" " " kv.1, detail_value kv.2)) (object_entries details).

(** ** The window of related events *)

(** [date.toISOString()]; [None] is the RangeError of an invalid date. *)
Definition iso_string (t : option Z) : option string := to_iso_string <$> t.

(** [new Date(a.getTime() - ms)] *)
Definition minus_ms (a : option Z) (ms : num) : option Z := time_clip (num_sub (get_time a) ms).

(** [String(v)] under a condition, as the conditional spreads give it. *)
Definition spread_text (c : bool) (k : string) (details : jsval) (m : string) : obj :=
  if c && truthy (detail details m) then [(k, JStr (js_string (detail details m)))] else [].

Definition buildRelatedFilters (tz : Z) (alert : AlertSummary) (details : jsval)
    (projectId : option string) : option obj :=
  if String.eqb (path alert) "silent_service" then
    let endDate := default (timestamp alert) (detail_text details "last_event_at") in
    startDate ← iso_string (minus_ms (parse_date tz endDate) (Num (2 * 60 * 60 * 1000) 0));
    Some [("service_name", JStr (service_name alert)); ("event_type", JStr "http");
          ("start_date", JStr startDate); ("end_date", JStr endDate); ("limit", JInt 50);
          ("projectId", jopt JStr projectId)]
  else
    let ts := parse_date tz (timestamp alert) in
    let windowSecs := to_number (coalesce (detail details "window_secs") (JInt 300)) in
    startDate ← iso_string (minus_ms ts (num_mul windowSecs (Num 1000 0)));
    endDate ← iso_string ts;
    Some ([("service_name", JStr (service_name alert)); ("event_type", JStr "http");
           ("start_date", JStr startDate); ("end_date", JStr endDate); ("limit", JInt 100);
           ("projectId", jopt JStr projectId)] ++
          spread_text (String.eqb (path alert) "brute_force") "identifier" details "identifier" ++
          (if String.eqb (path alert) "error_rate_by_route" && truthy (detail details "path") then
             ("path", JStr (js_string (detail details "path"))) ::
             spread_text true "method" details "method"
           else []))%list.

(** ** The views *)

Inductive Msg : Type := Select (alert : AlertSummary) | Close.

Definition plural (n : nat) (word : string) : string :=
  string_of_Z (Z.of_nat n) +:+ " " +:+ word +:+ (if (n =? 1)%nat then "" else "s").

Definition react_opt {M} (o : option string) : html M :=
  match o with Some s => Text s | None => Nothing end.

Section views.
Context (tz now : Z) (localeTime : string -> string).

(** [alert.environment && <span>...</span>] *)
Definition environment_badge {M} (alert : AlertSummary) : html M :=
  match some_text (environment alert) with Some e => span [Text e] | None => Nothing end.

Definition AlertCard (alert : AlertSummary) (selected : bool) : html Msg :=
  let rule := rule_of (path alert) in
  Elem "Card" [Attr "className" (if selected then "ring-1 ring-[#818cf8]/50" else "");
               On "click" (Select alert)] [
    div [
      div [
        Elem "AlertTriangle" [] [];
        div [
          div [
            Elem "Badge" [Attr "className" (color rule +:+ " text-xs")] [Text (label rule)];
            span [Text (service_name alert)];
            environment_badge alert];
          show (str_truthy (description rule)) (Elem "p" [] [Text (description rule)])]];
      div [
        Elem "p" [] [Text (localeTime (timestamp alert))];
        Elem "p" [] [Text (timeAgo tz now (timestamp alert))]]]].

Definition DetectionDetails {M} (details : jsval) : html M :=
  div (List.map (fun r => div [Elem "p" [] [Text r.1]; Elem "p" [] [Text r.2]])
         (detail_rows details)).

Definition event_row {M} (e : RelatedEvent) : html M :=
  div [
    Elem "span" [Attr "className" (methodColor (default "" (ev_method e)))] [react_opt (ev_method e)];
    span [react_opt (ev_path e)];
    Elem "span" [Attr "className" (statusColor (default (Num 0 0) (ev_status e)))]
      [react_opt (string_of_num <$> ev_status e)];
    span [react_opt (string_of_num <$> ev_time e); Text "ms"];
    span [Text (timeAgo tz now (ev_timestamp e))]].

(** [RelatedEvents], with the loading state and the events of its query. *)
Definition RelatedEvents {M} (isLoading : bool) (events : list RelatedEvent) : html M :=
  if isLoading then Elem "p" [] [Text "Loading events…"]
  else match events with
       | [] => Elem "p" [] [Text "No related events found in this window."]
       | _ =>
           div (List.map event_row events ++
                [Elem "p" [] [Text (plural (length events) "event" +:+ " in window")]])%list
       end.

(** [user_email || user_name || identifier] *)
Definition user_label (u : AffectedUser) : string :=
  default (u_identifier u)
    (match some_text (Some (u_email u)) with
     | Some e => Some e
     | None => some_text (Some (u_name u))
     end).

Definition AffectedUsersSection {M} (details : jsval) (isLoading : bool) (users : list AffectedUser)
    : html M :=
  match detail_text details "path" with
  | None | Some "" => Nothing
  | Some path =>
      div [
        div [
          Elem "User" [] []; Elem "h3" [] [Text "Affected Users"];
          span [match some_text (detail_text details "method") with
                | Some m => span [Text m; Text " "]
                | None => Nothing
                end; Text path]];
        if isLoading then Elem "p" [] [Text "Loading…"]
        else match users with
             | [] => Elem "p" [] [Text "No affected users found."]
             | _ =>
                 div (List.map (fun u => div [span [Text (user_label u)];
                         span [Text (string_of_num (u_errors u)); Text " err"]]) users ++
                      [Elem "p" [] [Text (plural (length users) "user" +:+ " affected")]])%list
             end]
  end.

(** What the queries of the page have delivered. *)
Record Data := {
  d_alerts : list AlertSummary;
  d_loading : bool;
  d_full : jsval;
  d_detail_loading : bool;
  d_events : list RelatedEvent;
  d_events_loading : bool;
  d_users : list AffectedUser;
  d_users_loading : bool
}.

(** The body of the drawer for an alert; [None] when a child throws. *)
Definition drawer_body {M} (d : Data) (projectId : option string) (alert : AlertSummary)
    : option (html M) :=
  let rule := rule_of (path alert) in
  let details := alert_details (d_full d) in
  related ←
    (if d_detail_loading d then Some (Elem "p" [] [Text "Loading…"])
     else _ ← buildRelatedFilters tz alert details projectId;
          Some (RelatedEvents (d_events_loading d) (d_events d)));
  Some (div [
    div [
      div [Elem "Clock" [] []; span [Text (localeTime (timestamp alert))]; span [Text "·"];
           span [Text (timeAgo tz now (timestamp alert))]];
      show (str_truthy (description rule)) (Elem "p" [] [Text (description rule)])];
    div [
      div [Elem "ShieldAlert" [] []; Elem "h3" [] [Text "Detection Details"]];
      if d_detail_loading d then Elem "p" [] [Text "Loading…"]
      else if truthy details then DetectionDetails details
      else Elem "p" [] [Text "No detail data available."]];
    div [
      div [Elem "Activity" [] [];
           Elem "h3" [] [Text (if String.eqb (path alert) "silent_service"
                               then "Last Events Before Silence" else "Triggering Events")]];
      related];
    show (String.eqb (path alert) "error_rate_by_route")
      (AffectedUsersSection details (d_users_loading d) (d_users d));
    show (truthy (detail details "identifier") && String.eqb (path alert) "brute_force")
      (div [div [Elem "User" [] [];
        Elem "p" [] [Text "Attacker identifier: "; span [Text (js_string (detail details "identifier"))]]]])]).

Definition AlertDrawer (d : Data) (projectId : option string) (alert : option AlertSummary)
    : option (html Msg) :=
  let open := match alert with Some _ => true | None => false end in
  panel ←
    (match alert with
     | None => Some Nothing
     | Some a =>
         let rule := rule_of (path a) in
         body ← drawer_body d projectId a;
         Some (Elem "" [] [
           div [
             div [Elem "AlertTriangle" [] [];
                  Elem "Badge" [Attr "className" (color rule +:+ " text-xs shrink-0")] [Text (label rule)];
                  span [Text (service_name a)];
                  environment_badge a];
             Elem "button" [On "click" Close] [Elem "X" [] []]];
           body])
     end);
  Some (Elem "" [] [
    Elem "div" [Attr "className" (if open then "opacity-100 pointer-events-auto"
                                  else "opacity-0 pointer-events-none"); On "click" Close] [];
    Elem "div" [Attr "className" (if open then "translate-x-0" else "translate-x-full")] [panel]]).

(** ** The page *)

(** [selectedAlert?.id === alert.id] *)
Definition is_selected (selectedAlert : option AlertSummary) (alert : AlertSummary) : bool :=
  match selectedAlert with Some a => String.eqb (id a) (id alert) | None => false end.

Definition AnomaliesPage (d : Data) (projectId : option string) (selectedAlert : option AlertSummary)
    : option (html Msg) :=
  let alerts := d_alerts d in
  drawer ← AlertDrawer d projectId selectedAlert;
  Some (div [
    div [Elem "ShieldAlert" [] [];
         div [Elem "h1" [] [Text "Anomaly Alerts"];
              Elem "p" [] [Text "Last 24 hours — click an alert to open the detail panel"]];
         show (0 <? length alerts)%nat (Elem "Badge" [] [Text (plural (length alerts) "alert")])];
    show (d_loading d) (Elem "p" [] [Text "Loading…"]);
    show (negb (d_loading d) && (length alerts =? 0)%nat)
      (Elem "Card" [] [Elem "AlertTriangle" [] [];
         Elem "p" [] [Text "No anomalies detected in the last 24 hours."]]);
    show (0 <? length alerts)%nat
      (div (List.map (fun a => AlertCard a (is_selected selectedAlert a)) alerts));
    drawer]).
End views.

(** The handlers: [handleSelect] and [onClose]. *)
Definition handleSelect (alert : AlertSummary) (prev : option AlertSummary) : option AlertSummary :=
  if is_selected prev alert then None else Some alert.

Definition update (m : Msg) (selectedAlert : option AlertSummary) : option AlertSummary :=
  match m with Select a => handleSelect a selectedAlert | Close => None end.

(** The [keydown] listener of the drawer. *)
Definition onKey (key : string) (selectedAlert : option AlertSummary) : option AlertSummary :=
  if String.eqb key "Escape" then update Close selectedAlert else selectedAlert.

(** The queries the page keeps for a state: the alerts, the detail of the selected
    alert, and, once that has come, its related events and affected users. *)
Definition page_queries (BASE : string) (tz now : Z) (projectId environment : option string)
    (selectedAlert : option AlertSummary) (full : jsval) (loadingDetail : bool) : option (list query) :=
  let base := [useAnomalyAlerts BASE tz now projectId environment;
               useAuditDetail BASE (id <$> selectedAlert)] in
  match selectedAlert with
  | None => Some base
  | Some alert =>
      let details := alert_details full in
      let users :=
        if String.eqb (path alert) "error_rate_by_route" then
          [useAffectedUsers BASE projectId (detail_text details "path") (detail_text details "method")
             None None]
        else [] in
      if loadingDetail then Some (base ++ users)%list
      else
        filters ← buildRelatedFilters tz alert details projectId;
        Some (base ++ [useAnomalyRelatedEvents BASE (Some filters) true] ++ users)%list
  end.

(** ** The window of related events *)

(** The end of the window, and its length in milliseconds. *)
Definition window_end (alert : AlertSummary) (details : jsval) : string :=
  if String.eqb (path alert) "silent_service"
  then default (timestamp alert) (detail_text details "last_event_at") else timestamp alert.

Definition window_ms (alert : AlertSummary) (details : jsval) : num :=
  if String.eqb (path alert) "silent_service" then Num 7200000 0
  else num_mul (to_number (coalesce (detail details "window_secs") (JInt 300))) (Num 1000 0).

(** What narrows the window for two of the rules. *)
Definition narrowed (rule : string) (alert : AlertSummary) (details : jsval) (k : string) : jsval :=
  if String.eqb (path alert) rule then jopt JStr (detail_text details k) else JUndef.

(** What the two conditional spreads add. *)
Definition narrowing (alert : AlertSummary) (details : jsval) : obj :=
  (spread_text (String.eqb (path alert) "brute_force") "identifier" details "identifier" ++
   (if String.eqb (path alert) "error_rate_by_route" && truthy (detail details "path") then
      ("path", JStr (js_string (detail details "path"))) :: spread_text true "method" details "method"
    else []))%list.

Lemma narrowing_members alert details :
  obj_get "identifier" (narrowing alert details) = narrowed "brute_force" alert details "identifier" /\
  obj_get "path" (narrowing alert details) = narrowed "error_rate_by_route" alert details "path" /\
  obj_get "method" (narrowing alert details) =
    (if truthy (detail details "path") then narrowed "error_rate_by_route" alert details "method"
     else JUndef).
Proof.
  unfold narrowing, narrowed, spread_text, detail_text.
  destruct (String.eqb_spec (path alert) "brute_force") as [E|], (String.eqb (path alert) "error_rate_by_route") eqn:E';
    [rewrite E in E'; discriminate E' | ..];
    destruct (truthy (detail details "identifier")), (truthy (detail details "path")),
      (truthy (detail details "method")); by split_and!.
Qed.

Lemma num_sub_int a b : num_sub (Num a 0) (Num b 0) = Num (a - b) 0.
Proof. unfold num_sub. cbn. rewrite !Z.mul_1_r. f_equal; lia. Qed.

Lemma time_clip_int z : Z.abs z <= 8640000000000000 -> time_clip (Num z 0) = Some z.
Proof.
  intros Hz. cbn. rewrite Z.quot_1_r. by rewrite (proj2 (Z.leb_le _ _)) by lia.
Qed.

(** When the filters cannot be built: the end of the window is not a date, or its
    start is not one. *)
Lemma buildRelatedFilters_none tz alert details projectId :
  buildRelatedFilters tz alert details projectId = None <->
  parse_date tz (window_end alert details) = None \/
  minus_ms (parse_date tz (window_end alert details)) (window_ms alert details) = None.
Proof.
  unfold buildRelatedFilters, window_end, window_ms.
  destruct (String.eqb (path alert) "silent_service").
  - set (p := parse_date tz _). change (2 * 60 * 60 * 1000) with 7200000.
    destruct p as [t|]; cbn [minus_ms get_time iso_string].
    + destruct (minus_ms (Some t) _) as [u|]; cbn; (split; [intros; by auto | by intros [|]]).
    + cbn. split; auto.
  - set (p := parse_date tz _). destruct (minus_ms p _) as [u|] eqn:E; cbn; [| split; auto].
    destruct p as [t|]; cbn; (split; [intros; by auto | by intros [|]]).
Qed.

(** The window of events an alert shows.  When the end of the window is a date
    [t] and its length is [w] milliseconds, both dates being four-digit years, the
    request covers exactly [t - w, t], whatever the time zone: the alert's time
    and the detector's window, five minutes without one, or for a silent service
    the two hours before its last event.  It asks for HTTP events of the alert's
    service, at most 100 or 50 of them; a brute-force alert is narrowed to its
    identifier, an error rate by route to its path and method, and no other alert
    is narrowed. *)
Theorem related_filters_spec tz alert details projectId t w :
  parse_date tz (window_end alert details) = Some t ->
  window_ms alert details = Num w 0 ->
  -62167219200000 <= t < 253402300800000 ->
  -62167219200000 <= t - w < 253402300800000 ->
  exists filters start end_,
    buildRelatedFilters tz alert details projectId = Some filters /\
    obj_get "start_date" filters = JStr start /\ parse_date tz start = Some (t - w) /\
    obj_get "end_date" filters = JStr end_ /\ parse_date tz end_ = Some t /\
    obj_get "service_name" filters = JStr (service_name alert) /\
    obj_get "event_type" filters = JStr "http" /\
    obj_get "projectId" filters = jopt JStr projectId /\
    obj_get "limit" filters = JInt (if String.eqb (path alert) "silent_service" then 50 else 100) /\
    obj_get "identifier" filters = narrowed "brute_force" alert details "identifier" /\
    obj_get "path" filters = narrowed "error_rate_by_route" alert details "path" /\
    obj_get "method" filters =
      (if truthy (detail details "path") then narrowed "error_rate_by_route" alert details "method"
       else JUndef).
Proof.
  unfold buildRelatedFilters, window_end, window_ms, narrowed, minus_ms. intros Hp Hw Ht Htw.
  destruct (String.eqb_spec (path alert) "silent_service") as [Es|Hns].
  - injection Hw as <-. rewrite Hp. cbn [get_time]. rewrite num_sub_int.
    change (2 * 60 * 60 * 1000) with 7200000. rewrite time_clip_int by lia. cbn [iso_string fmap option_fmap option_map mbind option_bind].
    eexists _, _, _. split; [reflexivity |]. rewrite Es. cbn.
    split_and!; try reflexivity; [by apply parse_date_iso | done |].
    by destruct (truthy _).
  - rewrite Hp, Hw. cbn [get_time]. rewrite num_sub_int, time_clip_int by lia.
    cbn [iso_string fmap option_fmap option_map mbind option_bind].
    eexists _, _, _. split; [reflexivity |].
    destruct (narrowing_members alert details) as (Hi & Hpa & Hm). unfold narrowing in *. cbn.
    split_and!; try reflexivity; by apply parse_date_iso || done.
Qed.

Definition demo_alert (rule : string) : AlertSummary :=
  {| id := "1"; path := rule; service_name := "payments-api"; environment := Some "prod";
     timestamp := "2024-01-02T00:00:00.000Z" |}.

Lemma related_filters_spec_witness :
  exists filters start end_,
    buildRelatedFilters 0 (demo_alert "brute_force")
      (JObj [("identifier", JStr "mallory"); ("window_secs", JInt 60)]) None = Some filters /\
    obj_get "start_date" filters = JStr start /\ parse_date 0 start = Some (1704153600000 - 60000) /\
    obj_get "end_date" filters = JStr end_ /\
    obj_get "identifier" filters = JStr "mallory".
Proof.
  destruct (related_filters_spec 0 (demo_alert "brute_force")
    (JObj [("identifier", JStr "mallory"); ("window_secs", JInt 60)]) None 1704153600000 60000
    ltac:(vm_compute; reflexivity) ltac:(vm_compute; reflexivity) ltac:(lia) ltac:(lia))
    as (f & s & e & Hf & Hs & Hps & He & _ & _ & _ & _ & _ & Hi & _).
  exists f, s, e. split; [exact Hf |]. split; [exact Hs |]. split; [exact Hps |].
  split; [exact He | exact Hi].
Defined.

(** When the page cannot be rendered: exactly when the drawer is open, its
    detail has been answered, and the window of its related events has no dates,
    because the time it ends at is not a date, or because the detector's window is
    not a number or leaves the range of dates.  The exception of [toISOString]
    then takes the whole page down; nothing else on the page throws. *)
Theorem anomalies_page_throws tz now localeTime d projectId selectedAlert :
  AnomaliesPage tz now localeTime d projectId selectedAlert = None <->
  exists alert, let details := alert_details (d_full d) in
    selectedAlert = Some alert /\ d_detail_loading d = false /\
    (parse_date tz (window_end alert details) = None \/
     minus_ms (parse_date tz (window_end alert details)) (window_ms alert details) = None).
Proof.
  unfold AnomaliesPage, AlertDrawer, drawer_body. cbn zeta.
  destruct selectedAlert as [alert|]; [| split; [done | by intros (? & ? & _)]].
  destruct (d_detail_loading d) eqn:Hl; [split; [done | by intros (? & _ & ? & _)] |].
  pose proof (buildRelatedFilters_none tz alert (alert_details (d_full d)) projectId) as Hb.
  destruct (buildRelatedFilters _ _ _ _); cbn.
  - split; [done |]. intros (a & [= <-] & _ & Ha). by apply Hb in Ha.
  - split; [| done]. intros _. exists alert. split; [done |]. split; [done |]. by apply Hb.
Qed.

(** A detector that reports its window as text, or an alert without a date. *)
Example window_not_a_number projectId :
  buildRelatedFilters 0 (demo_alert "error_rate") (JObj [("window_secs", JStr "5m")]) projectId = None.
Proof. reflexivity. Qed.

(** ** The selected alert *)

Definition run_updates (ms : list Msg) (s : option AlertSummary) : option AlertSummary :=
  fold_left (fun s m => update m s) ms s.

Lemma is_selected_handle a s b :
  is_selected (handleSelect a s) b = String.eqb (id a) (id b) && negb (is_selected s a).
Proof.
  unfold handleSelect. destruct (is_selected s a); cbn; [by rewrite andb_false_r | by rewrite andb_true_r].
Qed.

Lemma toggle_parity a n :
  run_updates (repeat (Select a) n) None = if Nat.odd n then Some a else None.
Proof.
  enough (H : run_updates (repeat (Select a) n) None = (if Nat.odd n then Some a else None) /\
              run_updates (repeat (Select a) n) (Some a) = if Nat.odd n then None else Some a)
    by apply H.
  assert (Ha : handleSelect a (Some a) = None) by (unfold handleSelect; cbn; by rewrite String.eqb_refl).
  induction n as [|n [IH1 IH2]]; [done |].
  rewrite Nat.odd_succ, <- Nat.negb_odd. unfold run_updates in *. cbn [repeat fold_left update].
  rewrite Ha. change (handleSelect a None) with (Some a). rewrite IH1, IH2. by destruct (Nat.odd n).
Qed.

(** The selection behaves as a set of at most one alert: in every list of alerts
    with distinct ids at most one card is marked; a click marks its alert and
    unmarks the others, or closes the drawer when the alert was open, so that
    clicking one card [n] times leaves it open exactly when [n] is odd; Escape, the
    backdrop and the close button leave none; and the query of the details runs
    exactly while an alert is open, for that alert. *)
Theorem selection_spec s :
  (forall alerts, NoDup (List.map id alerts) ->
     (length (List.filter (is_selected s) alerts) <= 1)%nat) /\
  (forall a b, is_selected (update (Select a) s) b =
     String.eqb (id a) (id b) && negb (is_selected s a)) /\
  (forall a n, run_updates (repeat (Select a) n) None = if Nat.odd n then Some a else None) /\
  (update Close s = None /\ onKey "Escape" s = None) /\
  (forall BASE, let q := useAuditDetail BASE (id <$> s) in
     q_enabled q = match s with Some a => str_truthy (id a) | None => false end /\
     forall a, s = Some a -> q_key q = [JStr "audit-detail"; JStr (id a)]).
Proof.
  split_and!; try done.
  - intros alerts. induction alerts as [|a alerts IH]; cbn; intros Hn; [lia |].
    apply NoDup_cons in Hn as [Hni Hn]. destruct (is_selected s a) eqn:E; [| by apply IH].
    cbn. assert (List.filter (is_selected s) alerts = []) as ->; [| cbn; lia].
    destruct s as [x|]; [| done]. cbn in E. apply String.eqb_eq in E. clear IH Hn.
    induction alerts as [|b alerts IH]; [done |]. cbn in *. apply not_elem_of_cons in Hni as [Hne Hni].
    destruct (String.eqb_spec (id x) (id b)); [congruence | auto].
  - intros a b. apply is_selected_handle.
  - intros a n. apply toggle_parity.
  - intros BASE. cbn zeta. destruct s as [a|]; cbn; [| done]. unfold present, str_truthy. cbn.
    split; [by destruct (id a) | by intros ? [= ->]].
Qed.
