(* ===== verification/Sessions.v ===== *)
(** * The sessions page (routes/app/_layout/sessions.tsx)

    The filters in the URL, the list of sessions with the timeline of the expanded
    one, the lookup of a session by its identifier, and the dialog of an event.
    [tz] is the distance of the local time zone from UTC; [localeTime], [localeClock]
    and [locale] are the local forms of a date, a time and a number. *)

From S2P Require Import Prelude JsString JsValue JsonParse Numbers Dates Encoding Host Html Session HttpApi.
From S2P Require Import ApiContract Queries Events.

Local Open Scope string_scope.
Local Open Scope Z_scope.

(** ** Helpers *)

Definition formatDuration (seconds : num) : string :=
  if num_lt seconds (Num 60 0) then string_of_num (math_round seconds) +:+ "s"
  else if num_lt seconds (Num 3600 0) then
    string_of_num (floor_div seconds 60) +:+ "m " +:+
    string_of_num (math_round (num_rem seconds 60)) +:+ "s"
  else
    string_of_num (floor_div seconds 3600) +:+ "h " +:+
    string_of_num (floor_div (num_rem seconds 3600) 60) +:+ "m".

Definition formatTime (localeTime : string -> string) (ts : string) : string :=
  if String.eqb ts "" then "—" else localeTime ts.

(** The members of a [Session] that only this page reads. *)
Record SessionRow := { sr_session : Session; sr_duration : num; sr_events : num }.

Definition sessionKey (s : Session) : string :=
  s_identifier s +:+ "|" +:+ s_service_name s +:+ "|" +:+ s_session_start s.

Definition STATUS_COLORS : list (string * string) :=
  [("2", "bg-green-500/20 text-green-400"); ("3", "bg-blue-500/20 text-blue-400");
   ("4", "bg-orange-500/20 text-orange-400"); ("5", "bg-red-500/20 text-red-400")].

Definition METHOD_COLORS : list (string * string) :=
  [("GET", "bg-[#34d399]/10 text-[#34d399]"); ("POST", "bg-[#818cf8]/10 text-[#818cf8]");
   ("PUT", "bg-[#fb923c]/10 text-[#fb923c]"); ("PATCH", "bg-[#60a5fa]/10 text-[#60a5fa]");
   ("DELETE", "bg-[#f87171]/10 text-[#f87171]")].

(** ** The search parameters *)

Record SessionSearch := {
  identifier : option string;
  service_name : option string;
  start_date : option string;
  end_date : option string
}.

Definition no_search : SessionSearch :=
  {| identifier := None; service_name := None; start_date := None; end_date := None |}.

Inductive search_key : Type := KIdentifier | KService | KStart | KEnd.

#[export] Instance search_key_eq_dec : EqDecision search_key.
Proof. solve_decision. Defined.

Definition search_get (k : search_key) (s : SessionSearch) : option string :=
  match k with
  | KIdentifier => identifier s | KService => service_name s
  | KStart => start_date s | KEnd => end_date s
  end.

(** [setFilter]: [{ ...prev, [key]: value || undefined }] *)
Definition setFilter (k : search_key) (value : string) (prev : SessionSearch) : SessionSearch :=
  let v := some_text (Some value) in
  {| identifier := match k with KIdentifier => v | _ => identifier prev end;
     service_name := match k with KService => v | _ => service_name prev end;
     start_date := match k with KStart => v | _ => start_date prev end;
     end_date := match k with KEnd => v | _ => end_date prev end |}.

(** The handler of the two date inputs; [None] is the RangeError of [toISOString]. *)
Definition setDate (tz : Z) (k : search_key) (value : string) (prev : SessionSearch)
    : option SessionSearch :=
  if String.eqb value "" then Some (setFilter k "" prev)
  else t ← parse_date tz value; Some (setFilter k (to_iso_string t) prev).

Definition hasFilters (s : SessionSearch) : bool :=
  existsb (fun k => match some_text (search_get k s) with Some _ => true | None => false end)
    [KIdentifier; KService; KStart; KEnd].

(** The [filters] object of the page. *)
Definition session_filters (s : SessionSearch) (projectId environment : option string) : obj :=
  [("projectId", key_opt projectId); ("identifier", jstr_opt (identifier s));
   ("service_name", jstr_opt (service_name s)); ("start_date", jstr_opt (start_date s));
   ("end_date", jstr_opt (end_date s)); ("environment", key_opt environment)].

(** ** The state *)

Record PageState := {
  search : SessionSearch;
  filterOpen : bool;
  expandedKey : option string;
  selectedEventId : option string;
  sessionIDInput : string;
  lookupSessionID : option string
}.

Definition page_initial (s : SessionSearch) : PageState :=
  {| search := s; filterOpen := false; expandedKey := None; selectedEventId := None;
     sessionIDInput := ""; lookupSessionID := None |}.

Definition with_search (s : SessionSearch) (p : PageState) : PageState :=
  {| search := s; filterOpen := filterOpen p; expandedKey := expandedKey p;
     selectedEventId := selectedEventId p; sessionIDInput := sessionIDInput p;
     lookupSessionID := lookupSessionID p |}.
Definition with_expanded (k : option string) (p : PageState) : PageState :=
  {| search := search p; filterOpen := filterOpen p; expandedKey := k;
     selectedEventId := selectedEventId p; sessionIDInput := sessionIDInput p;
     lookupSessionID := lookupSessionID p |}.
Definition with_event (e : option string) (p : PageState) : PageState :=
  {| search := search p; filterOpen := filterOpen p; expandedKey := expandedKey p;
     selectedEventId := e; sessionIDInput := sessionIDInput p;
     lookupSessionID := lookupSessionID p |}.
Definition with_lookup (input : string) (l : option string) (p : PageState) : PageState :=
  {| search := search p; filterOpen := filterOpen p; expandedKey := expandedKey p;
     selectedEventId := selectedEventId p; sessionIDInput := input; lookupSessionID := l |}.

Inductive Msg : Type :=
| FilterToggled
| FiltersCleared
| FilterTyped (k : search_key) (value : string)
| DatePicked (k : search_key) (value : string)
| IdTyped (value : string)
| IdKey (key : string)
| LookupClicked
| LookupCleared
| SessionToggled (s : Session)
| EventSelected (id : string)
| DialogSent (m : DialogMsg).

(** [setLookupSessionID(sessionIDInput.trim() || null)] *)
Definition lookup_now (p : PageState) : PageState :=
  with_lookup (sessionIDInput p) (some_text (Some (trim (sessionIDInput p)))) p.

Definition toggleSession (session : Session) (p : PageState) : PageState :=
  let key := sessionKey session in
  with_expanded (match expandedKey p with
                 | Some k => if String.eqb k key then None else Some key
                 | None => Some key
                 end) p.

(** The state after a handler; one that throws leaves it as it was. *)
Definition update (tz : Z) (m : Msg) (p : PageState) : PageState :=
  match m with
  | FilterToggled =>
      {| search := search p; filterOpen := negb (filterOpen p); expandedKey := expandedKey p;
         selectedEventId := selectedEventId p; sessionIDInput := sessionIDInput p;
         lookupSessionID := lookupSessionID p |}
  | FiltersCleared => with_search no_search p
  | FilterTyped k value => with_search (setFilter k value (search p)) p
  | DatePicked k value =>
      match setDate tz k value (search p) with Some s => with_search s p | None => p end
  | IdTyped value => with_lookup value (lookupSessionID p) p
  | IdKey key => if String.eqb key "Enter" then lookup_now p else p
  | LookupClicked => lookup_now p
  | LookupCleared => with_lookup "" None p
  | SessionToggled session => toggleSession session p
  | EventSelected id => with_event (Some id) p
  | DialogSent CloseDialog => with_event None p
  | DialogSent _ => p
  end.

(** The queries the page keeps for a state. *)
Definition page_queries (BASE : string) (projectId environment : option string)
    (sessions : list SessionRow) (p : PageState) : list query :=
  ([useSessionByID BASE (lookupSessionID p);
    useAuditSessions BASE (Some (session_filters (search p) projectId environment));
    useAuditDetail BASE (selectedEventId p)] ++
   omap (fun s =>
     if match expandedKey p with Some k => String.eqb k (sessionKey (sr_session s)) | None => false end
     then Some (useSessionTimeline BASE (Some (sr_session s)) projectId) else None) sessions)%list.

(** ** The views *)

Record SessionEvent := {
  se_id : string;
  se_method : string;
  se_path : string;
  se_status : option num;
  se_time : option num;
  se_timestamp : string
}.

Record SessionDetail := {
  sd_identifier : string;
  sd_service : string;
  sd_start : string;
  sd_end : string;
  sd_duration : num;
  sd_count : num;
  sd_events : list SessionEvent
}.

(** [STATUS_COLORS[String(code)[0]] ?? ...] *)
Definition statusClass (code : option num) : string :=
  let text := match code with Some n => string_of_num n | None => "undefined" end in
  default "bg-secondary text-muted-foreground"
    (match text with String a _ => assoc (String a "") STATUS_COLORS | "" => None end).

Definition methodClass (m : string) : string :=
  default "bg-secondary/40 text-muted-foreground" (assoc m METHOD_COLORS).

Section views.
Context (localeTime localeClock : string -> string) (locale : num -> string).

Definition event_button (e : SessionEvent) : html Msg :=
  Elem "button" [On "click" (EventSelected (se_id e))] [
    span [Text (localeClock (se_timestamp e))];
    Elem "span" [Attr "className" (methodClass (se_method e))] [Text (se_method e)];
    span [Text (se_path e)];
    Elem "span" [Attr "className" (statusClass (se_status e))]
      [match se_status e with Some n => Text (string_of_num n) | None => Nothing end];
    match se_time e with
    | Some n => span [Text (string_of_num n); Text "ms"]
    | None => Nothing
    end].

Definition SessionTimeline (isLoading isError : bool) (events : list SessionEvent) : html Msg :=
  if isLoading then Elem "p" [] [Text "Loading events..."]
  else if isError then Elem "p" [] [Text "Failed to load events."]
  else match events with
       | [] => Elem "p" [] [Text "No events found."]
       | _ =>
           div (Elem "p" [] [Text (string_of_Z (Z.of_nat (length events))); Text " events"] ::
                List.map event_button events)
       end.

(** What the queries have delivered; the timeline is that of the expanded session. *)
Record Data := {
  d_sessions : list SessionRow;
  d_loading : bool;
  d_error : bool;
  d_detail : option SessionDetail;
  d_detail_loading : bool;
  d_timeline : list SessionEvent;
  d_timeline_loading : bool;
  d_timeline_error : bool;
  d_event : option AuditDetail;
  d_event_loading : bool
}.

Definition filter_input (label type : string) (value : option string) (f : string -> Msg) : html Msg :=
  div [Elem "p" [] [Text label];
       Elem "Input" [Attr "type" type; Attr "value" (default "" value); OnText "change" f] []].

Definition filter_panel (s : SessionSearch) : html Msg :=
  Elem "Card" [] [div [
    filter_input "Identifier" "text" (identifier s) (FilterTyped KIdentifier);
    filter_input "Service" "text" (service_name s) (FilterTyped KService);
    filter_input "Start date" "datetime-local" (start_date s) (DatePicked KStart);
    filter_input "End date" "datetime-local" (end_date s) (DatePicked KEnd)]].

Definition lookup_result (lookup : string) (loading : bool) (detail : option SessionDetail) : html Msg :=
  if loading then Elem "p" [] [Text "Loading..."]
  else match detail with
       | None => Elem "p" [] [Text "No session found for ID: "; Text lookup]
       | Some d =>
           div [
             div [
               span [Text "Identifier: "; span [Text (sd_identifier d)]];
               span [Text "Service: "; span [Text (sd_service d)]];
               span [Text "Duration: "; span [Text (formatDuration (sd_duration d))]];
               span [Text "Events: "; span [Text (string_of_num (sd_count d))]];
               span [Text (formatTime localeTime (sd_start d)); Text " → ";
                     Text (formatTime localeTime (sd_end d))]];
             div (List.map event_button (sd_events d))]
       end.

Definition lookup_card (d : Data) (p : PageState) : html Msg :=
  let lookup := some_text (lookupSessionID p) in
  Elem "Card" [] [
    Elem "p" [] [Elem "Hash" [] []; Text "Look up session by explicit ID"];
    div [
      Elem "Input" [Attr "value" (sessionIDInput p); OnText "change" IdTyped; OnText "keydown" IdKey] [];
      Elem "Button" [On "click" LookupClicked] [Text "Lookup"];
      match lookup with
      | Some _ => Elem "Button" [On "click" LookupCleared] [Elem "X" [] []]
      | None => Nothing
      end];
    match lookup with
    | Some l => div [lookup_result l (d_detail_loading d) (d_detail d)]
    | None => Nothing
    end].

Definition session_card (d : Data) (expanded : option string) (s : SessionRow) : html Msg :=
  let session := sr_session s in
  let isExpanded :=
    match expanded with Some k => String.eqb k (sessionKey session) | None => false end in
  Elem "Card" [On "click" (SessionToggled session)] [
    div [
      div [
        Elem (if isExpanded then "ChevronDown" else "ChevronRight") [] [];
        Elem "User" [] [];
        div [Elem "p" [] [Text (s_identifier session)];
             Elem "Badge" [] [Text (s_service_name session)]]];
      div [
        div [Elem "p" [] [Text "Duration"]; Elem "p" [] [Text (formatDuration (sr_duration s))]];
        div [Elem "p" [] [Text "Events"]; Elem "p" [] [Text (locale (sr_events s))]];
        div [div [Elem "Clock" [] []; Text (formatTime localeTime (s_session_start session))];
             Elem "p" [] [Text "→ "; Text (formatTime localeTime (s_session_end session))]]]];
    show isExpanded
      (Elem "div" [Flag "stopPropagation" true]
         [SessionTimeline (d_timeline_loading d) (d_timeline_error d) (d_timeline d)])].

(** The page; [revealed] is the state of the dialog's sensitive field. *)
Definition SessionsPage (d : Data) (p : PageState) (revealed : bool) : html Msg :=
  let has := hasFilters (search p) in
  Elem "main" [] [
    div [
      div [
        Elem "h1" [] [Elem "Activity" [] []; Text "Sessions"];
        Elem "p" [] [Text "User sessions derived from audit events — 30 min inactivity gap = new session"]];
      div [
        show has (Elem "Button" [On "click" FiltersCleared] [Elem "X" [] []; Text "Clear"]);
        Elem "Button" [Attr "variant" (if filterOpen p then "secondary" else "outline");
                       On "click" FilterToggled]
          [Elem "Filter" [] []; Text "Filter"; show has (Elem "span" [] [])]]];
    show (filterOpen p) (filter_panel (search p));
    lookup_card d p;
    if d_loading d then Elem "p" [] [Text "Loading sessions..."]
    else if d_error d then
      Elem "Card" [] [Text "Failed to load sessions. Check your connection and try again."]
    else match d_sessions d with
         | [] => Elem "Card" [] [Elem "p" [] [Text "No sessions found."];
                   show has (Elem "p" [] [Text "Try adjusting your filters."])]
         | l => div (List.map (session_card d (expandedKey p)) l)
         end;
    Elem "p" [] [Text "Showing up to 200 most recent sessions"];
    map_html DialogSent
      (EventDetailModal localeTime (selectedEventId p) (d_event_loading d) (d_event d) revealed)].
End views.

(** ** Durations *)

Lemma math_round_norm m e : math_round (norm_num m e) = math_round (Num m e).
Proof.
  revert m. induction e as [|e IH]; intros m; [done |]. cbn [norm_num].
  destruct (Z.eqb_spec (m mod 10) 0) as [H0|]; [| done]. rewrite IH. cbn [math_round]. f_equal.
  rewrite (Nat2Z.inj_succ e), Z.pow_succ_r by lia.
  assert (Hd : 0 < 10 ^ Z.of_nat e) by (apply Z.pow_pos_nonneg; lia).
  rewrite (Z.div_mod m 10) at 2 by lia. rewrite H0, Z.add_0_r.
  replace (2 * (10 * (m / 10)) + 10 * 10 ^ Z.of_nat e) with (10 * (2 * (m / 10) + 10 ^ Z.of_nat e)) by lia.
  replace (2 * (10 * 10 ^ Z.of_nat e)) with (10 * (2 * 10 ^ Z.of_nat e)) by lia.
  by rewrite Z.div_mul_cancel_l by lia.
Qed.

(** Rounding a remainder [r] of seconds, in units of [1/d]. *)
Lemma rounded_seconds r d :
  0 < d -> 0 <= r < 60 * d ->
  let S := (2 * r + d) / (2 * d) in
  0 <= S <= 60 /\ 2 * Z.abs (S * d - r) <= d /\ (S = 60 <-> 119 * d <= 2 * r).
Proof.
  intros Hd Hr. cbn zeta. set (S := (2 * r + d) / (2 * d)).
  assert (H1 : 2 * d * S <= 2 * r + d) by (apply Z.mul_div_le; lia).
  assert (H2 : 2 * r + d < 2 * d * Z.succ S) by (apply Z.mul_succ_div_gt; lia).
  assert (H3 : 0 <= S) by (apply Z.div_pos; lia).
  clearbody S. unfold Z.succ in H2.
  assert (H4 : S <= 60).
  { apply Z.lt_succ_r. unfold Z.succ. apply (Z.mul_lt_mono_pos_l (2 * d)); lia. }
  split; [lia |]. split; [lia |]. split; [intros ->; lia |].
  intros H5. destruct (Z.le_gt_cases S 59); [| lia].
  assert (d * S <= d * 59) by (apply Z.mul_le_mono_nonneg_l; lia). lia.
Qed.

(** C34 A duration below an hour, of any decimal number of seconds [m / 10^e], is
    shown within half a second of what it is; at a minute and more, as minutes and
    seconds.  The seconds shown are at most 60, and 60 is shown exactly when the
    seconds left over are 59.5 or more: "1m 60s" instead of "2m 0s". *)
Theorem formatDuration_spec m e :
  let d := 10 ^ Z.of_nat e in
  0 <= m < 3600 * d ->
  exists M S,
    formatDuration (Num m e) =
      (if m <? 60 * d then string_of_Z S +:+ "s"
       else string_of_Z M +:+ "m " +:+ string_of_Z S +:+ "s") /\
    M = m / (60 * d) /\ 0 <= S <= 60 /\
    2 * Z.abs ((M * 60 + S) * d - m) <= d /\
    (S = 60 <-> 119 * d <= 2 * (m mod (60 * d))).
Proof.
  cbn zeta. set (d := 10 ^ Z.of_nat e). intros Hm.
  assert (Hd : 0 < d) by (apply Z.pow_pos_nonneg; lia).
  exists (m / (60 * d)), ((2 * (m mod (60 * d)) + d) / (2 * d)).
  split; [| split; [done |]].
  - unfold formatDuration. cbn [num_lt]. fold d. rewrite !Z.mul_1_r.
    change (60 * 10 ^ Z.of_nat e) with (60 * d).
    destruct (Z.ltb_spec m (60 * d)).
    + cbn [math_round]. fold d. by rewrite Z.mod_small by lia.
    + rewrite (proj2 (Z.ltb_lt m (3600 * d))) by lia.
      unfold num_rem, floor_div. fold d. rewrite math_round_norm, Z.rem_mod_nonneg by lia. done.
  - pose proof (Z.mod_pos_bound m (60 * d) ltac:(lia)) as Hr.
    pose proof (Z.div_mod m (60 * d) ltac:(lia)) as Hq.
    destruct (rounded_seconds _ _ Hd Hr) as (H1 & H2 & H3).
    set (r := m mod (60 * d)) in *. set (q := m / (60 * d)) in *.
    split; [done |]. split; [| done].
    set (S := (2 * r + d) / (2 * d)) in *. clearbody S q r. rewrite Hq.
    by replace ((q * 60 + S) * d - (60 * d * q + r)) with (S * d - r) by ring.
Qed.

Lemma formatDuration_spec_witness :
  exists M S, formatDuration (Num 1195 1) = string_of_Z M +:+ "m " +:+ string_of_Z S +:+ "s" /\
    M = 1 /\ S = 60.
Proof.
  destruct (formatDuration_spec 1195 1) as (M & S & H1 & H2 & _ & _ & H3);
    [change (10 ^ Z.of_nat 1) with 10; lia |].
  exists M, S. split; [exact H1 |]. split; [rewrite H2; reflexivity |].
  apply H3. vm_compute. discriminate.
Defined.

(** ** The expanded session *)

Lemma sep_inj (c : ascii) a1 a2 b1 b2 :
  has_char c a1 = false -> has_char c a2 = false ->
  a1 +:+ String c b1 = a2 +:+ String c b2 -> a1 = a2 /\ b1 = b2.
Proof.
  revert a2. induction a1 as [|x a1 IH]; intros [|y a2] H1 H2 H; cbn in *.
  - by injection H.
  - injection H as <- _. by rewrite Ascii.eqb_refl in H2.
  - injection H as -> _. by rewrite Ascii.eqb_refl in H1.
  - injection H as <- H. apply orb_false_iff in H1 as [_ H1], H2 as [_ H2].
    by destruct (IH a2 H1 H2 H) as [-> ->].
Qed.

Definition plain_session (s : Session) : bool :=
  negb (has_char "|" (s_identifier s)) && negb (has_char "|" (s_service_name s)).

(** The key tells sessions apart unless an identifier or a service has a bar. *)
Lemma sessionKey_inj s1 s2 :
  plain_session s1 = true -> plain_session s2 = true -> sessionKey s1 = sessionKey s2 ->
  s_identifier s1 = s_identifier s2 /\ s_service_name s1 = s_service_name s2 /\
  s_session_start s1 = s_session_start s2.
Proof.
  unfold plain_session, sessionKey. intros H1 H2 H. bat_simpl.
  apply (sep_inj "|") in H as [Hi H]; [| done..].
  apply (sep_inj "|") in H as [Hs H]; [| done..]. done.
Qed.

Lemma no_timelines BASE projectId environment sessions q :
  expandedKey q = None -> drop 3 (page_queries BASE projectId environment sessions q) = [].
Proof.
  intros Hq. unfold page_queries. cbn [drop app List.app]. rewrite Hq.
  induction sessions as [|r l IH]; [done | exact IH].
Qed.

(** Clicking a session of the list that is not expanded shows its timeline, and
    when no identifier and no service in the list holds a bar, the timelines then
    asked for are all for that session: same identifier, service and start, one
    query key.  Clicking it again asks for none, and clicking one of the events
    inside does not fold it. *)
Theorem expanded_session BASE tz projectId environment sessions s p :
  expandedKey p <> Some (sessionKey s) ->
  In s (List.map sr_session sessions) ->
  Forall (fun r => plain_session (sr_session r) = true) sessions ->
  let timelines q := drop 3 (page_queries BASE projectId environment sessions q) in
  let p1 := update tz (SessionToggled s) p in
  timelines p1 <> [] /\
  Forall (fun q => q_key q = q_key (useSessionTimeline BASE (Some s) projectId) /\ q_enabled q = true)
    (timelines p1) /\
  timelines (update tz (SessionToggled s) p1) = [] /\
  forall id, timelines (update tz (EventSelected id) p1) = timelines p1.
Proof.
  intros Hp Hin Hplain. cbn zeta.
  assert (Hk : expandedKey (update tz (SessionToggled s) p) = Some (sessionKey s)).
  { cbn. unfold toggleSession. destruct (expandedKey p) as [k|]; cbn; [| done].
    by destruct (String.eqb_spec k (sessionKey s)); [congruence |]. }
  set (p1 := update tz (SessionToggled s) p) in *. apply List.in_map_iff in Hin as (r & <- & Hr).
  assert (Hs : plain_session (sr_session r) = true)
    by (rewrite Forall_forall in Hplain; by apply Hplain, list_elem_of_In).
  split_and!; [| | by apply no_timelines; cbn [update]; unfold toggleSession; rewrite Hk, String.eqb_refl | done];
    unfold page_queries; cbn [drop app List.app]; rewrite Hk.
  - intros Hnil. apply (not_elem_of_nil (useSessionTimeline BASE (Some (sr_session r)) projectId)).
    rewrite <- Hnil. apply list_elem_of_omap. exists r. rewrite String.eqb_refl.
    split; [by apply list_elem_of_In | done].
  - apply Forall_forall. intros q Hq. apply list_elem_of_omap in Hq as (r' & Hr' & Hq).
    destruct (String.eqb_spec (sessionKey (sr_session r)) (sessionKey (sr_session r'))) as [E|]; [| done].
    injection Hq as <-. split; [| done]. rewrite Forall_forall in Hplain.
    destruct (sessionKey_inj _ _ Hs (Hplain _ Hr') E) as (E1 & E2 & E3). cbn. by rewrite E1, E2, E3.
Qed.

Definition demo_session (identifier : string) : SessionRow :=
  {| sr_session := {| s_identifier := identifier; s_service_name := "api";
       s_session_start := "2024-01-02T00:00:00Z"; s_session_end := "2024-01-02T01:00:00Z" |};
     sr_duration := Num 3600 0; sr_events := Num 2 0 |}.

Lemma expanded_session_witness :
  let s := sr_session (demo_session "ann") in
  drop 3 (page_queries "" None None [demo_session "ann"; demo_session "bob"]
    (update 0 (SessionToggled s) (page_initial no_search))) <> [].
Proof.
  destruct (expanded_session "" 0 None None [demo_session "ann"; demo_session "bob"]
    (sr_session (demo_session "ann")) (page_initial no_search)
    ltac:(discriminate) ltac:(left; reflexivity) ltac:(repeat constructor)) as [H _].
  exact H.
Defined.

(** With a bar in an identifier two sessions share a key, and open together. *)
Example shared_key :
  sessionKey {| s_identifier := "a|b"; s_service_name := "c"; s_session_start := "t"; s_session_end := "" |} =
  sessionKey {| s_identifier := "a"; s_service_name := "b|c"; s_session_start := "t"; s_session_end := "" |}.
Proof. reflexivity. Qed.

(** ** The filters *)

Lemma search_get_set k k' v s :
  search_get k' (setFilter k v s) =
  if decide (k' = k) then some_text (Some v) else search_get k' s.
Proof. by destruct k, k'. Qed.

(** The request parameter of a filter. *)
Definition param_of (k : search_key) : string :=
  match k with
  | KIdentifier => "identifier" | KService => "service_name"
  | KStart => "start_date" | KEnd => "end_date"
  end.

Lemma session_param k s projectId environment v :
  search_get k s = Some v -> str_truthy v = true ->
  In (param_of k, v) (search_of session_fields (Some (session_filters s projectId environment))).
Proof.
  intros Hk Hv. rewrite search_of_fields by nodup_tac.
  apply in_set_fields. exists (param_of k).
  destruct k; cbn in Hk |- *; rewrite Hk; cbn; split_and!; auto 10.
Qed.

(** Picking a date.  When the browser's value is a date [t] of a four-digit year
    in the local time zone, the filter set is one that the server reads as [t],
    whatever its time zone, and the other filters stay; the request for the list
    then carries it; an empty value removes the filter.  The input itself shows the
    filter, not the value picked: what it is given ends in Z, which no
    [datetime-local] value does, so the browser's sanitization leaves it blank. *)
Theorem date_filter_spec tz k value prev (sanitize : string -> string) :
    (forall v, has_char "Z" v = true -> sanitize v = "") ->
  (forall t, value <> "" -> parse_date tz value = Some t ->
     -62167219200000 <= t < 253402300800000 ->
     exists s date, setDate tz k value prev = Some s /\ search_get k s = Some date /\
       (forall tz', parse_date tz' date = Some t) /\
       (forall k', k' <> k -> search_get k' s = search_get k' prev) /\
       hasFilters s = true /\
       (forall projectId environment,
          In (param_of k, date)
            (search_of session_fields (Some (session_filters s projectId environment)))) /\
       sanitize date = "") /\
  (value = "" -> exists s, setDate tz k value prev = Some s /\ search_get k s = None) /\
  (value <> "" -> parse_date tz value = None -> update tz (DatePicked k value) (page_initial prev) = page_initial prev).
Proof.
  intros Hsan. unfold setDate. split_and!.
  - intros t Hne Ht Hr. rewrite (proj2 (String.eqb_neq _ _) Hne), Ht. cbn [mbind option_bind].
    assert (Hk : search_get k (setFilter k (to_iso_string t) prev) = Some (to_iso_string t)).
    { rewrite search_get_set, decide_True by done. cbn [some_text]. by rewrite iso_truthy. }
    eexists _, (to_iso_string t). split_and!; [done | done | | | | |].
    + intros tz'. by apply parse_date_iso.
    + intros k' Hk'. by rewrite search_get_set, decide_False.
    + unfold hasFilters. apply existsb_exists. exists k.
      split; [destruct k; cbn; auto | rewrite Hk; cbn [some_text]; by rewrite iso_truthy].
    + intros. apply session_param; [done | apply iso_truthy].
    + apply Hsan, iso_has_Z.
  - intros ->. cbn. eexists. split; [done |]. by rewrite search_get_set, decide_True.
  - intros Hne Hp. cbn. unfold setDate. by rewrite (proj2 (String.eqb_neq _ _) Hne), Hp.
Qed.

Lemma date_filter_spec_witness :
  exists s date, setDate 0 KStart "2024-01-02T10:30" no_search = Some s /\
    search_get KStart s = Some date /\ parse_date 7200000 date = Some 1704191400000.
Proof.
  destruct (date_filter_spec 0 KStart "2024-01-02T10:30" no_search
    (fun v => if has_char "Z" v then "" else v) ltac:(intros v Hv; cbn beta; rewrite Hv; reflexivity)) as [H _].
  destruct (H 1704191400000 ltac:(discriminate) ltac:(vm_compute; reflexivity) ltac:(lia))
    as (s & date & H1 & H2 & H3 & _).
  exists s, date. split; [exact H1 |]. split; [exact H2 | apply H3].
Defined.
