(* ===== verification/ApiKeys.v ===== *)
(** * The API keys page (routes/app/_layout/settings/api-keys.tsx)

    Projects, their keys and their members.  The page starts mutations and goes on;
    what they answer comes later, in any state ([page_step]).  The objects keyed by
    project are finite maps. *)

From stdpp Require Import relations.
From S2P Require Import Prelude JsString JsValue JsonParse Numbers Dates Host Html Session HttpApi.
From S2P Require Import Queries.

Local Open Scope string_scope.
Local Open Scope Z_scope.

(** ** The slug of a name *)

Definition slug_char (a : ascii) : bool := ascii_in 97 122 a || ascii_in 48 57 a.

(** [s.replace(/[^a-z0-9]+/g, '-')]; [in_run] inside a run already replaced. *)
Fixpoint dash_runs (in_run : bool) (s : string) : string :=
  match s with
  | "" => ""
  | String a s' =>
      if slug_char a then String a (dash_runs false s')
      else if in_run then dash_runs true s' else String "-" (dash_runs true s')
  end.

Definition strip_first (s : string) : string :=
  match s with String "-" s' => s' | _ => s end.

Fixpoint strip_last (s : string) : string :=
  match s with
  | "" => ""
  | String a "" => if Ascii.eqb a "-" then "" else s
  | String a s' => String a (strip_last s')
  end.

(** [name.toLowerCase().replace(...).replace(/^-|-$/g, '')]; of the letters outside
    ASCII, the two whose lower case is an ASCII letter are not considered. *)
Definition slug_of (name : string) : string :=
  strip_last (strip_first (dash_runs false (to_lower name))).

(** ** The state *)

Record KeysState := {
  expandedProject : option string;
  newKeyName : gmap string string;
  revealedKey : option string;
  copied : bool;
  showNewProject : bool;
  projectName : string;
  projectSlug : string;
  projectError : string;
  activeTab : gmap string string;
  newMemberEmail : gmap string string;
  newMemberRole : gmap string string
}.

Definition keys_initial : KeysState :=
  {| expandedProject := None; newKeyName := ∅; revealedKey := None; copied := false;
     showNewProject := false; projectName := ""; projectSlug := ""; projectError := "";
     activeTab := ∅; newMemberEmail := ∅; newMemberRole := ∅ |}.

Definition with_reveal (expanded key : option string) (s : KeysState) : KeysState :=
  {| expandedProject := expanded; newKeyName := newKeyName s; revealedKey := key;
     copied := copied s; showNewProject := showNewProject s; projectName := projectName s;
     projectSlug := projectSlug s; projectError := projectError s; activeTab := activeTab s;
     newMemberEmail := newMemberEmail s; newMemberRole := newMemberRole s |}.
Definition with_copied (b : bool) (s : KeysState) : KeysState :=
  {| expandedProject := expandedProject s; newKeyName := newKeyName s; revealedKey := revealedKey s;
     copied := b; showNewProject := showNewProject s; projectName := projectName s;
     projectSlug := projectSlug s; projectError := projectError s; activeTab := activeTab s;
     newMemberEmail := newMemberEmail s; newMemberRole := newMemberRole s |}.
Definition with_key_name (pid name : string) (s : KeysState) : KeysState :=
  {| expandedProject := expandedProject s; newKeyName := <[pid := name]> (newKeyName s);
     revealedKey := revealedKey s; copied := copied s; showNewProject := showNewProject s;
     projectName := projectName s; projectSlug := projectSlug s; projectError := projectError s;
     activeTab := activeTab s; newMemberEmail := newMemberEmail s; newMemberRole := newMemberRole s |}.
Definition with_project (shown : bool) (name slug error : string) (s : KeysState) : KeysState :=
  {| expandedProject := expandedProject s; newKeyName := newKeyName s; revealedKey := revealedKey s;
     copied := copied s; showNewProject := shown; projectName := name; projectSlug := slug;
     projectError := error; activeTab := activeTab s; newMemberEmail := newMemberEmail s;
     newMemberRole := newMemberRole s |}.
Definition with_members (tabs emails roles : gmap string string) (s : KeysState) : KeysState :=
  {| expandedProject := expandedProject s; newKeyName := newKeyName s; revealedKey := revealedKey s;
     copied := copied s; showNewProject := showNewProject s; projectName := projectName s;
     projectSlug := projectSlug s; projectError := projectError s; activeTab := tabs;
     newMemberEmail := emails; newMemberRole := roles |}.

Definition handleSlugFromName (name : string) (s : KeysState) : KeysState :=
  with_project (showNewProject s) name (slug_of name) (projectError s) s.

(** What the user does. *)
Inductive KeysMsg : Type :=
| NewProjectToggled
| NewProjectCancelled
| NameTyped (v : string)
| SlugTyped (v : string)
| CreateProjectClicked
| CopyClicked (key : string)
| DismissClicked
| ProjectToggled (pid : string)
| TabSelected (pid tab : string)
| KeyNameTyped (pid v : string)
| GenerateClicked (pid : string)
| RevokeClicked (key_id : string)
| EmailTyped (pid v : string)
| RoleSelected (pid role : string)
| AddMemberClicked (pid : string)
| MemberRoleSelected (user role : string)
| RemoveMemberClicked (user : string).

(** A mutation started; the hooks of a project are those of the expanded one. *)
Inductive Call : Type :=
| CCreateProject (name slug : string)
| CCreateKey (pid name : string)
| CRevokeKey (id : string)
| CAddMember (pid email role : string)
| CUpdateRole (user role : string)
| CRemoveMember (user : string)
| CWriteClipboard (text : string).

Definition has_expanded (s : KeysState) (pid : string) : bool :=
  match expandedProject s with Some p => String.eqb p pid | None => false end.

(** The handlers: the state after them and the mutations they start. *)
Definition update (m : KeysMsg) (s : KeysState) : KeysState * list Call :=
  match m with
  | NewProjectToggled =>
      (with_project (negb (showNewProject s)) (projectName s) (projectSlug s) (projectError s) s, [])
  | NewProjectCancelled =>
      (with_project false (projectName s) (projectSlug s) (projectError s) s, [])
  | NameTyped v => (handleSlugFromName v s, [])
  | SlugTyped v => (with_project (showNewProject s) (projectName s) v (projectError s) s, [])
  | CreateProjectClicked =>
      (with_project (showNewProject s) (projectName s) (projectSlug s) "" s,
       [CCreateProject (projectName s) (projectSlug s)])
  | CopyClicked key => (with_copied true s, [CWriteClipboard key])
  | DismissClicked => (with_reveal (expandedProject s) None s, [])
  | ProjectToggled pid =>
      (with_reveal (if has_expanded s pid then None else Some pid) None s, [])
  | TabSelected pid tab =>
      (with_members (<[pid := tab]> (activeTab s)) (newMemberEmail s) (newMemberRole s) s, [])
  | KeyNameTyped pid v => (with_key_name pid v s, [])
  | GenerateClicked pid =>
      (with_key_name pid "" s, [CCreateKey pid (default "" (newKeyName s !! pid))])
  | RevokeClicked id => (s, [CRevokeKey id])
  | EmailTyped pid v =>
      (with_members (activeTab s) (<[pid := v]> (newMemberEmail s)) (newMemberRole s) s, [])
  | RoleSelected pid role =>
      (with_members (activeTab s) (newMemberEmail s) (<[pid := role]> (newMemberRole s)) s, [])
  | AddMemberClicked pid =>
      (s, [CAddMember pid (default "" (newMemberEmail s !! pid))
             (default "viewer" (newMemberRole s !! pid))])
  | MemberRoleSelected user role => (s, [CUpdateRole user role])
  | RemoveMemberClicked user => (s, [CRemoveMember user])
  end.

(** What comes later: the answers with callbacks on the page, and the timer of
    [handleCopy]. *)
Inductive Answer : Type :=
| KeyCreated (pid name key : string)
| ProjectCreated
| ProjectFailed (message : string)
| MemberAdded (pid : string)
| CopyTimeout.

Definition answer (a : Answer) (s : KeysState) : KeysState :=
  match a with
  | KeyCreated _ _ key => with_reveal (expandedProject s) (Some key) s
  | ProjectCreated => with_project false "" "" (projectError s) s
  | ProjectFailed message =>
      with_project (showNewProject s) (projectName s) (projectSlug s) message s
  | MemberAdded pid =>
      with_members (activeTab s) (<[pid := ""]> (newMemberEmail s)) (newMemberRole s) s
  | CopyTimeout => with_copied false s
  end.

(** The mutation a call runs, in a render whose expanded project is [p]. *)
Definition call_prog (BASE : string) (p : option string) (c : Call) : prog jsval :=
  match c with
  | CCreateProject name slug => m_fn (useCreateProject BASE) (name, slug)
  | CCreateKey pid name => m_fn (useCreateAPIKey BASE p) (pid, name)
  | CRevokeKey id => m_fn (useRevokeAPIKey BASE p) id
  | CAddMember _ email role => m_fn (useAddMember BASE p) (email, role)
  | CUpdateRole user role => m_fn (useUpdateMemberRole BASE p) (user, role)
  | CRemoveMember user => m_fn (useRemoveMember BASE p) user
  | CWriteClipboard _ => mret JUndef
  end.

(** ** The page and what is in flight *)

(** The keys being created, and the key answers so far, newest first. *)
Record KeysSystem := {
  ui : KeysState;
  creating : list (string * string);
  created : list (string * string * string)
}.

Definition keys_start : KeysSystem := {| ui := keys_initial; creating := []; created := [] |}.

Definition created_by (calls : list Call) : list (string * string) :=
  omap (fun c => match c with CCreateKey pid name => Some (pid, name) | _ => None end) calls.

Inductive page_step : KeysSystem -> KeysSystem -> Prop :=
| step_user m sys :
    page_step sys {| ui := (update m (ui sys)).1;
                     creating := (creating sys ++ created_by (update m (ui sys)).2)%list;
                     created := created sys |}
| step_created pid name key before after sys :
    creating sys = (before ++ (pid, name) :: after)%list ->
    page_step sys {| ui := answer (KeyCreated pid name key) (ui sys);
                     creating := (before ++ after)%list;
                     created := (pid, name, key) :: created sys |}
| step_create_failed pid name before after sys :
    creating sys = (before ++ (pid, name) :: after)%list ->
    page_step sys {| ui := ui sys; creating := (before ++ after)%list; created := created sys |}
| step_other a sys :
    (forall pid name key, a <> KeyCreated pid name key) ->
    page_step sys {| ui := answer a (ui sys); creating := creating sys; created := created sys |}.

(** ** The view *)

Record Project := { p_id : string; p_name : string; p_slug : string }.
Record APIKey := { k_id : string; k_name : string; k_active : bool; k_created_at : string }.
Record Member := { m_user_id : string; m_name : string; m_email : string; m_role : string }.

(** What the queries have delivered and which mutations are pending. *)
Record KeysData := {
  d_projects : list Project;
  d_loading : bool;
  d_keys : list APIKey;
  d_members : list Member;
  d_creating_project : bool;
  d_creating_key : bool;
  d_adding_member : bool
}.

Section views.
Context (localeDate : string -> string).

Definition new_project_card (pending : bool) (s : KeysState) : html KeysMsg :=
  Elem "Card" [] [
    Elem "p" [] [Text "Create project"];
    div [
      Elem "Input" [Attr "placeholder" "Project name"; Attr "value" (projectName s);
                    OnText "change" NameTyped] [];
      Elem "Input" [Attr "placeholder" "slug"; Attr "value" (projectSlug s);
                    OnText "change" SlugTyped] [];
      Elem "Button" [On "click" CreateProjectClicked;
        Flag "disabled" (String.eqb (projectName s) "" || String.eqb (projectSlug s) "" || pending)]
        [Text "Create"];
      Elem "Button" [On "click" NewProjectCancelled] [Text "Cancel"]];
    show (str_truthy (projectError s)) (Elem "p" [] [Text (projectError s)])].

Definition revealed_card (key : string) (s : KeysState) : html KeysMsg :=
  Elem "Card" [] [
    Elem "p" [] [Text "New API Key — copy it now, it will not be shown again"];
    div [
      Elem "code" [] [Text key];
      Elem "Button" [On "click" (CopyClicked key)]
        [Elem (if copied s then "Check" else "Copy") [] []; Text (if copied s then "Copied" else "Copy")];
      Elem "Button" [On "click" DismissClicked] [Text "Dismiss"]]].

Definition key_row (key : APIKey) : html KeysMsg :=
  div [
    div [Elem "Key" [] []; span [Text (k_name key)];
         Elem "Badge" [Attr "variant" (if k_active key then "default" else "secondary")]
           [Text (if k_active key then "active" else "revoked")];
         span [Text (localeDate (k_created_at key))]];
    show (k_active key)
      (Elem "Button" [On "click" (RevokeClicked (k_id key))] [Elem "Trash2" [] []; Text "Revoke"])].

Definition keys_tab (d : KeysData) (s : KeysState) (pid : string) : html KeysMsg :=
  let name := default "" (newKeyName s !! pid) in
  div [
    div [
      Elem "Input" [Attr "value" name; OnText "change" (KeyNameTyped pid)] [];
      Elem "Button" [Flag "disabled" (String.eqb name "" || d_creating_key d);
                     On "click" (GenerateClicked pid)] [Elem "Plus" [] []; Text "Generate key"]];
    match d_keys d with
    | [] => Elem "p" [] [Text "No keys yet for this project."]
    | keys => div (List.map key_row keys)
    end].

Definition option_elem (value label : string) (off : bool) : html KeysMsg :=
  Elem "option" [Attr "value" value; Flag "disabled" off] [Text label].

Definition member_row (m : Member) : html KeysMsg :=
  let isOwner := String.eqb (m_role m) "owner" in
  div [
    div [Elem "Users" [] []; div [Elem "p" [] [Text (m_name m)]; Elem "p" [] [Text (m_email m)]]];
    div [
      Elem "select" [Attr "value" (m_role m); Flag "disabled" isOwner;
                     OnText "change" (MemberRoleSelected (m_user_id m))]
        [option_elem "viewer" "Viewer" false; option_elem "admin" "Admin" false;
         option_elem "owner" "Owner" true];
      show (negb isOwner)
        (Elem "Button" [On "click" (RemoveMemberClicked (m_user_id m))] [Elem "Trash2" [] []])]].

Definition members_tab (d : KeysData) (s : KeysState) (pid : string) : html KeysMsg :=
  let email := default "" (newMemberEmail s !! pid) in
  div [
    div [
      Elem "Input" [Attr "type" "email"; Attr "value" email; OnText "change" (EmailTyped pid)] [];
      Elem "select" [Attr "value" (default "viewer" (newMemberRole s !! pid));
                     OnText "change" (RoleSelected pid)]
        [option_elem "viewer" "Viewer" false; option_elem "admin" "Admin" false];
      Elem "Button" [Flag "disabled" (String.eqb email "" || d_adding_member d);
                     On "click" (AddMemberClicked pid)] [Elem "Plus" [] []; Text "Add member"]];
    match d_members d with
    | [] => Elem "p" [] [Text "No members yet."]
    | members => div (List.map member_row members)
    end].

Definition project_card (d : KeysData) (s : KeysState) (project : Project) : html KeysMsg :=
  let pid := p_id project in
  let tab := activeTab s !! pid in
  let on_keys := String.eqb (default "keys" tab) "keys" in
  let on_members := match tab with Some t => String.eqb t "members" | None => false end in
  Elem "Card" [] [
    Elem "button" [On "click" (ProjectToggled pid)] [
      div [Elem (if has_expanded s pid then "ChevronDown" else "ChevronRight") [] [];
           div [Elem "p" [] [Text (p_name project)]; Elem "p" [] [Text (p_slug project)]]]];
    show (has_expanded s pid)
      (div [
        div [Elem "button" [Flag "border-primary" on_keys; On "click" (TabSelected pid "keys")]
               [Elem "Key" [] []; Text "API Keys"];
             Elem "button" [Flag "border-primary" on_members; On "click" (TabSelected pid "members")]
               [Elem "Users" [] []; Text "Members"]];
        show on_keys (keys_tab d s pid);
        show on_members (members_tab d s pid)])].

Definition APIKeysPage (d : KeysData) (s : KeysState) : html KeysMsg :=
  Elem "main" [] [
    div [
      div [Elem "h1" [] [Elem "Key" [] []; Text "API Keys"];
           Elem "p" [] [Text "Manage API keys used by your SDKs to send events to BatAudit."]];
      Elem "Button" [On "click" NewProjectToggled] [Elem "Plus" [] []; Text "New Project"]];
    show (showNewProject s) (new_project_card (d_creating_project d) s);
    match some_text (revealedKey s) with Some key => revealed_card key s | None => Nothing end;
    if d_loading d then Elem "p" [] [Text "Loading projects..."]
    else match d_projects d with
         | [] =>
             Elem "Card" [] [Elem "p" [] [Text "No projects yet."];
               Elem "p" [] [Text "Projects are created automatically when your SDK sends its first event, or you can create one manually above."]]
         | projects => div (List.map (project_card d s) projects)
         end].
End views.

(** ** The slug *)

(** A string of lower-case letters, digits and dashes, where a dash is neither
    after a dash nor the last character; [dash] says that the character before it was
    one. *)
Fixpoint slug_rest (dash : bool) (s : string) : bool :=
  match s with
  | "" => negb dash
  | String a s' =>
      if Ascii.eqb a "-" then negb dash && slug_rest true s' else slug_char a && slug_rest false s'
  end.

(** A slug: empty, or letters, digits and single dashes between them. *)
Definition is_slug (s : string) : bool := String.eqb s "" || slug_rest true s.

(** The same, but for a dash at the end. *)
Fixpoint dashed (dash : bool) (s : string) : bool :=
  match s with
  | "" => true
  | String a s' =>
      if Ascii.eqb a "-" then negb dash && dashed true s' else slug_char a && dashed false s'
  end.

Lemma dash_not_slug : slug_char "-" = false.
Proof. reflexivity. Qed.

Lemma slug_char_not_dash a : slug_char a = true -> Ascii.eqb a "-" = false.
Proof. destruct (Ascii.eqb_spec a "-") as [->|]; [by rewrite dash_not_slug | done]. Qed.

Lemma dash_runs_dashed b s : dashed b (dash_runs b s) = true.
Proof.
  revert b. induction s as [|a s IH]; intros b; [done |]. cbn [dash_runs].
  destruct (slug_char a) eqn:Ha.
  - cbn. by rewrite (slug_char_not_dash a Ha), Ha, IH.
  - destruct b; [apply IH |]. cbn. apply IH.
Qed.

Lemma strip_first_dashed s : dashed false s = true -> dashed true (strip_first s) = true.
Proof.
  destruct s as [|a s]; [done |]. cbn [dashed]. destruct (Ascii.eqb_spec a "-") as [->|Hne].
  - done.
  - intros H. replace (strip_first (String a s)) with (String a s).
    + cbn. by rewrite (proj2 (Ascii.eqb_neq _ _) Hne).
    + unfold strip_first. by repeat case_match; simplify_eq.
Qed.

Lemma strip_last_rest b s :
  dashed b s = true -> strip_last s = "" /\ (b = true -> s = "") \/ slug_rest b (strip_last s) = true.
Proof.
  revert b. induction s as [|a s IH]; intros b H; [by left |].
  cbn [dashed] in H. destruct (Ascii.eqb a "-") eqn:Ea; apply andb_true_iff in H as [Hb H].
  - apply negb_true_iff in Hb as ->. destruct s as [|c s']; [left; cbn; by rewrite Ea |].
    change (strip_last (String a (String c s'))) with (String a (strip_last (String c s'))).
    destruct (IH true H) as [[_ Hn]|Hr]; [by specialize (Hn eq_refl) |].
    right. cbn [slug_rest]. by rewrite Ea, Hr.
  - destruct s as [|c s']; [right; cbn; rewrite Ea; cbn; by rewrite Ea, Hb |].
    change (strip_last (String a (String c s'))) with (String a (strip_last (String c s'))).
    right. cbn [slug_rest]. rewrite Ea, Hb. destruct (IH false H) as [[-> _]| ->]; done.
Qed.

Lemma slug_of_slug name : is_slug (slug_of name) = true.
Proof.
  unfold slug_of, is_slug.
  pose proof (strip_first_dashed _ (dash_runs_dashed false (to_lower name))) as H.
  destruct (strip_last_rest true _ H) as [[-> _]| ->]; [done | by rewrite orb_true_r].
Qed.

Lemma lower_slug_char a : slug_char a = true \/ a = "-"%char -> to_lower_char a = a.
Proof.
  unfold to_lower_char, slug_char, ascii_in. intros [H| ->]; [| done].
  destruct ((65 <=? N_of_ascii a)%N && (N_of_ascii a <=? 90)%N) eqn:E; [| done].
  exfalso. rewrite !orb_true_iff, !andb_true_iff, !N.leb_le in H. apply andb_true_iff in E.
  rewrite !N.leb_le in E. lia.
Qed.

(** On a slug each of the four replacements does nothing. *)
Lemma slug_rest_fixed b s :
  slug_rest b s = true ->
  to_lower s = s /\ dash_runs b s = s /\ strip_last s = s.
Proof.
  revert b. induction s as [|a s IH]; intros b H; [done |]. cbn [slug_rest] in H.
  unfold to_lower in *. cbn [map_string dash_runs].
  destruct (Ascii.eqb_spec a "-") as [->|Hne]; apply andb_true_iff in H as [Hb H].
  - destruct (IH true H) as (H1 & H2 & H3). apply negb_true_iff in Hb as ->.
    rewrite H1, dash_not_slug, H2. split; [done |]. split; [done |].
    destruct s as [|c s']; [done |]. cbn [strip_last] in *. by rewrite H3.
  - destruct (IH false H) as (H1 & H2 & H3). rewrite H1, Hb, H2, lower_slug_char by auto.
    split; [done |]. split; [done |]. destruct s as [|c s'].
    + cbn. by rewrite (proj2 (Ascii.eqb_neq _ _) Hne).
    + cbn [strip_last] in *. by rewrite H3.
Qed.

(** The slug proposed for a project is well formed for any name: lower-case
    letters, digits and single dashes, none at the ends; a name that is one already
    is kept, so proposing a slug for a slug changes nothing; and capitals do not
    matter. *)
Theorem slug_of_spec name :
  is_slug (slug_of name) = true /\
  (is_slug name = true -> slug_of name = name) /\
  slug_of (slug_of name) = slug_of name /\
  slug_of (to_lower name) = slug_of name.
Proof.
  assert (Hfix : forall s, is_slug s = true -> slug_of s = s).
  { intros s Hs. unfold is_slug in Hs. destruct (String.eqb_spec s "") as [E|Hne]; [by rewrite E |].
    cbn [orb] in Hs. destruct (slug_rest_fixed true s Hs) as (H1 & H2 & H3). unfold slug_of.
    rewrite H1. assert (Hd : dash_runs false s = s).
    { destruct s as [|a s]; [done |]. cbn [slug_rest dash_runs] in *.
      destruct (Ascii.eqb a "-") eqn:Ea; [done |]. apply andb_true_iff in Hs as [Ha _].
      by rewrite Ha in *. }
    rewrite Hd. replace (strip_first s) with s; [done |].
    destruct s as [|a s]; [done |]. cbn [slug_rest] in Hs.
    destruct (Ascii.eqb_spec a "-"); [done |]. unfold strip_first. by repeat case_match; simplify_eq. }
  split; [apply slug_of_slug |]. split; [apply Hfix |]. split; [apply Hfix, slug_of_slug |].
  unfold slug_of. do 3 f_equal. unfold to_lower. induction name as [|a s IH]; [done |]. cbn.
  rewrite IH. f_equal. unfold to_lower_char, ascii_in.
  destruct ((65 <=? N_of_ascii a)%N && (N_of_ascii a <=? 90)%N) eqn:E; [| by rewrite E].
  apply andb_true_iff in E. rewrite !N.leb_le in E. rewrite N_ascii_embedding by lia.
  replace (N_of_ascii a + 32 <=? 90)%N with false by (symmetry; apply N.leb_gt; lia).
  by rewrite andb_false_r.
Qed.

Example slug_examples :
  List.map slug_of ["Payments API"; " --Été 2024!"; "a_b"; "___"] =
  ["payments-api"; "t-2024"; "a-b"; ""].
Proof. reflexivity. Qed.

(** ** The key shown *)

Lemma update_revealed m s :
  revealedKey (update m s).1 = revealedKey s \/ revealedKey (update m s).1 = None.
Proof. destruct m; cbn; auto. Qed.

Lemma answer_revealed a s :
  (forall pid name key, a <> KeyCreated pid name key) -> revealedKey (answer a s) = revealedKey s.
Proof. destruct a; cbn; try done. intros H. by destruct (H pid name key). Qed.

(** C26 The secret key on the page.  However clicks and answers interleave, the key
    shown is the one the server created last, for a project and a name that were
    asked for by a click on Generate; dismissing it, or folding or unfolding any
    project, hides it for good: it comes back only with another creation. *)
Theorem revealed_key_spec sys :
  rtc page_step keys_start sys ->
  (forall key, revealedKey (ui sys) = Some key ->
     exists pid name rest, created sys = (pid, name, key) :: rest) /\
  (forall m, m = DismissClicked \/ (exists pid, m = ProjectToggled pid) ->
     revealedKey (update m (ui sys)).1 = None) /\
  (forall sys', page_step sys sys' -> created sys' = created sys ->
     revealedKey (ui sys) = None -> revealedKey (ui sys') = None).
Proof.
  intros Hr. split_and!.
  - revert sys Hr. apply (rtc_ind_r (fun sys => forall key, revealedKey (ui sys) = Some key ->
      exists pid name rest, created sys = (pid, name, key) :: rest)); [done |].
    intros sys1 sys2 _ Hs IH key Hk. destruct Hs as [m sys|pid name key' before after sys Hc|pid name before after sys Hc|a sys Ha];
      cbn in Hk |- *.
    + destruct (update_revealed m (ui sys)) as [E|E]; rewrite E in Hk; [by apply IH | done].
    + injection Hk as ->. by eexists _, _, _.
    + by apply IH.
    + rewrite answer_revealed in Hk by done. by apply IH.
  - by intros m [->|[pid ->]].
  - intros sys' Hs Hc Hn. destruct Hs as [m sys|pid name key before after sys He|pid name before after sys He|a sys Ha];
      cbn in *.
    + destruct (update_revealed m (ui sys)) as [E|E]; by rewrite E.
    + exfalso. assert (H : length ((pid, name, key) :: created sys) = length (created sys)) by (by rewrite Hc).
      cbn in H. lia.
    + done.
    + by rewrite answer_revealed.
Qed.

Lemma revealed_key_spec_witness :
  let s := answer (KeyCreated "p" "ci" "bat_secret") keys_initial in
  revealedKey s = Some "bat_secret" /\ revealedKey (update DismissClicked s).1 = None.
Proof.
  split; [reflexivity |].
  assert (H : rtc page_step keys_start
    {| ui := answer (KeyCreated "p" "ci" "bat_secret") (update (GenerateClicked "p")
         (update (KeyNameTyped "p" "ci") keys_initial).1).1;
       creating := []; created := [("p", "ci", "bat_secret")] |}).
  { eapply rtc_l; [apply (step_user (KeyNameTyped "p" "ci")) |].
    eapply rtc_l; [apply (step_user (GenerateClicked "p")) |].
    eapply rtc_l; [apply (step_created "p" "ci" "bat_secret" [] []); reflexivity | apply rtc_refl]. }
  destruct (revealed_key_spec _ H) as (_ & Hd & _).
  exact (Hd DismissClicked (or_introl eq_refl)).
Defined.

(** The key of one project shown over another: the answer comes after the user has
    gone to a second project, and the card does not say whose key it is. *)
Example key_of_another_project :
  exists sys, rtc page_step keys_start sys /\ expandedProject (ui sys) = Some "B" /\
    revealedKey (ui sys) = Some "k" /\ created sys = [("A", "ci", "k")].
Proof.
  eexists. split; [| split_and!].
  - eapply rtc_l; [apply (step_user (ProjectToggled "A")) |].
    eapply rtc_l; [apply (step_user (KeyNameTyped "A" "ci")) |].
    eapply rtc_l; [apply (step_user (GenerateClicked "A")) |].
    eapply rtc_l; [apply (step_user (ProjectToggled "B")) |].
    eapply rtc_l; [apply (step_created "A" "ci" "k" [] []); reflexivity | apply rtc_refl].
  - reflexivity.
  - reflexivity.
  - reflexivity.
Qed.
