(* ===== verification/People.v ===== *)
(** * People: members, users and invites

    routes/app/_layout/settings/members.tsx, routes/app/_layout/settings/users.tsx and
    routes/invite.$token.tsx: who may enter, with which role, and the button that asks
    twice before it removes somebody. *)

From S2P Require Import Prelude JsString JsValue JsonParse Host Html Session HttpApi.
From S2P Require Import ApiContract Queries.

Local Open Scope string_scope.
Local Open Scope Z_scope.

(** ** Roles *)

Record RoleMeta := { label : string; icon : string; color : string }.

Definition ROLE_META : list (string * RoleMeta) :=
  [("owner", {| label := "Owner"; icon := "Crown";
      color := "bg-[#fbbf24]/20 text-[#fbbf24] border-[#fbbf24]/30" |});
   ("admin", {| label := "Admin"; icon := "ShieldCheck";
      color := "bg-[#818cf8]/20 text-[#818cf8] border-[#818cf8]/30" |});
   ("viewer", {| label := "Viewer"; icon := "Eye";
      color := "bg-secondary text-muted-foreground border-border" |})].

(** [RoleBadge]; [None] is the TypeError for a role the table does not have. *)
Definition RoleBadge {Msg} (role : string) : option (html Msg) :=
  meta ← assoc role ROLE_META;
  Some (Elem "Badge" [Attr "className" (color meta +:+ " text-xs gap-1")]
          [Elem (icon meta) [] []; Text (label meta)]).

(** [(name || email).charAt(0).toUpperCase()], for names and addresses that begin with
    an ASCII character. *)
Definition initial_of (name email : string) : string :=
  to_upper (String.substring 0 1 (if String.eqb name "" then email else name)).

Definition name_or_dash (name : string) : string := if String.eqb name "" then "—" else name.

(** ** The button that asks twice *)

(** The state of a row: [confirmRemove] (or [confirm]), and whether its mutation is
    pending, which disables the button. *)
Record Confirm := { armed : bool; pending : bool }.

Definition confirm_initial : Confirm := {| armed := false; pending := false |}.

Inductive ConfirmEvent : Type := RemoveClicked | Settled.

(** [handleRemove] and [handleDelete], and [onSettled]; the second component says
    whether the mutation starts. *)
Definition handleRemove (c : Confirm) : Confirm * bool :=
  if armed c then ({| armed := armed c; pending := true |}, true)
  else ({| armed := true; pending := pending c |}, false).

Definition confirm_step (e : ConfirmEvent) (c : Confirm) : Confirm * bool :=
  match e with
  | RemoveClicked => if pending c then (c, false) else handleRemove c
  | Settled => if pending c then (confirm_initial, false) else (c, false)
  end.

(** The state after the events, and how many mutations they started. *)
Fixpoint confirm_run (es : list ConfirmEvent) (c : Confirm) : Confirm * nat :=
  match es with
  | [] => (c, 0%nat)
  | e :: es' =>
      let '(c1, started) := confirm_step e c in
      let '(c2, n) := confirm_run es' c1 in
      (c2, ((if started then 1 else 0) + n)%nat)
  end.

Definition confirm_button {Msg} (click : Msg) (c : Confirm) : html Msg :=
  Elem "button" [On "click" click; Flag "disabled" (pending c);
                 Attr "className" (if armed c then "bg-[#f87171]/20 text-[#f87171] border border-[#f87171]/30 hover:bg-[#f87171]/30"
                                   else "text-muted-foreground hover:text-[#f87171] hover:bg-[#f87171]/10")]
    [Elem "Trash2" [] []; Text (if armed c then "Confirm?" else "Remove")].

(** ** members.tsx *)

Record Member := { m_user_id : string; m_name : string; m_email : string; m_role : string }.

(** [members.find(m => m.role === 'owner')?.role ?? 'admin'] *)
Definition currentUserRole (members : list Member) : string :=
  match List.find (fun m => String.eqb (m_role m) "owner") members with
  | Some m => m_role m
  | None => "admin"
  end.

Definition canManage (role : string) : bool := String.eqb role "owner" || String.eqb role "admin".

Inductive MemberMsg : Type :=
| RoleChanged (user role : string)
| RemovePressed (user : string)
| EmailTyped (v : string)
| RoleChosen (v : string)
| AddSubmitted.

(** One row; [confirm] is its state and [updating] whether its role is being
    changed. *)
Definition MemberRow (role : string) (confirm : Confirm) (updating : bool) (member : Member)
    : option (html MemberMsg) :=
  let isOwner := String.eqb (m_role member) "owner" in
  let managed := canManage role && negb isOwner in
  role_cell ←
    (if managed then
       Some (Elem "select" [Attr "value" (m_role member); OnText "change" (RoleChanged (m_user_id member));
                            Flag "disabled" updating]
         [Elem "option" [Attr "value" "admin"] [Text "Admin"];
          Elem "option" [Attr "value" "viewer"] [Text "Viewer"]])
     else RoleBadge (m_role member));
  Some (div [
    div [Text (initial_of (m_name member) (m_email member))];
    div [Elem "p" [] [Text (name_or_dash (m_name member))]; Elem "p" [] [Text (m_email member)]];
    role_cell;
    show managed (confirm_button (RemovePressed (m_user_id member)) confirm)]).

(** The form that adds a member. *)
Record AddForm := { f_email : string; f_role : string; f_error : string }.

Definition form_initial : AddForm := {| f_email := ""; f_role := "viewer"; f_error := "" |}.

Definition AddMemberForm (pending : bool) (f : AddForm) : html MemberMsg :=
  Elem "form" [On "submit" AddSubmitted] [
    Elem "Input" [Attr "type" "email"; Attr "value" (f_email f); OnText "change" EmailTyped] [];
    Elem "select" [Attr "value" (f_role f); OnText "change" RoleChosen]
      [Elem "option" [Attr "value" "viewer"] [Text "Viewer"];
       Elem "option" [Attr "value" "admin"] [Text "Admin"]];
    Elem "Button" [Attr "type" "submit"; Flag "disabled" (pending || String.eqb (trim (f_email f)) "")]
      [Elem "UserPlus" [] []; Text (if pending then "Adding…" else "Add Member")];
    show (str_truthy (f_error f)) (Elem "p" [] [Text (f_error f)])].

(** [handleSubmit]: the form after it, and the mutation it starts. *)
Definition add_submit (f : AddForm) : AddForm * option (string * string) :=
  if String.eqb (trim (f_email f)) "" then (f, None)
  else ({| f_email := f_email f; f_role := f_role f; f_error := "" |},
        Some (trim (f_email f), f_role f)).

(** [onSuccess] and [onError]. *)
Definition add_settled (o : outcome jsval) (f : AddForm) : AddForm :=
  match o with
  | Ok _ => {| f_email := ""; f_role := "viewer"; f_error := f_error f |}
  | Err (JSError _ message) => {| f_email := f_email f; f_role := f_role f; f_error := message |}
  | Err (JSValue v) =>
      {| f_email := f_email f; f_role := f_role f; f_error := js_string (default JUndef (get_prop v "message")) |}
  end.

(** The page: [rows] gives the state of each row. *)
Definition MembersPage (projectId : option string) (isLoading adding : bool) (f : AddForm)
    (rows : string -> Confirm * bool) (members : list Member) : option (html MemberMsg) :=
  match some_text projectId with
  | None =>
      Some (div [Elem "Card" [] [Elem "Users" [] [];
        Elem "p" [] [Text "Select a project to manage its members."]]])
  | Some _ =>
      cells ← mapM (fun m => MemberRow (currentUserRole members) (rows (m_user_id m)).1
                               (rows (m_user_id m)).2 m) members;
      Some (div [
        div [
          div [Elem "Users" [] [];
               div [Elem "h1" [] [Text "Members"];
                    Elem "p" [] [Text "Manage who has access to this project"]]];
          show (0 <? length members)%nat
            (Elem "Badge" [] [Text (string_of_Z (Z.of_nat (length members))); Text " member";
                              Text (if (length members =? 1)%nat then "" else "s")])];
        Elem "Card" [] [
          Elem "p" [] [Text "Add member"]; AddMemberForm adding f;
          Elem "p" [] [Text "The user must already have a BatAudit account."]];
        div ([show isLoading (Elem "p" [] [Text "Loading…"]);
              show (negb isLoading && (length members =? 0)%nat)
                (Elem "Card" [] [Elem "p" [] [Text "No members yet."]])] ++ cells)%list])
  end.

(** ** users.tsx *)

Record User := { u_id : string; u_name : string; u_email : string; u_role : string }.
Record Invite := { i_id : string; i_email : string; i_role : string; i_expires : string }.

Inductive UserMsg : Type :=
| DeletePressed (user : string)
| RevokePressed (invite : string)
| InviteEmailTyped (v : string)
| InviteRoleChosen (v : string)
| InviteSubmitted
| LinkCopied (link : string).

Definition UserRow (confirm : Confirm) (user : User) : option (html UserMsg) :=
  badge ← RoleBadge (u_role user);
  Some (div [
    div [Text (initial_of (u_name user) (u_email user))];
    div [Elem "p" [] [Text (name_or_dash (u_name user))]; Elem "p" [] [Text (u_email user)]];
    badge;
    show (negb (String.eqb (u_role user) "owner")) (confirm_button (DeletePressed (u_id user)) confirm)]).

Definition CopyButton (copied : bool) (text : string) : html UserMsg :=
  Elem "button" [On "click" (LinkCopied text)]
    [Elem (if copied then "Check" else "Copy") [] []; Text (if copied then "Copied!" else "Copy")].

Definition InviteRow (localeDate : string -> string) (revoking : bool) (invite : Invite) : html UserMsg :=
  div [
    div [Elem "Link" [] []];
    div [Elem "p" [] [Text (i_email invite)];
         Elem "p" [] [Text "Expires "; Text (localeDate (i_expires invite))]];
    Elem "Badge" [Attr "className" (match assoc (i_role invite) ROLE_META with
                                    | Some meta => color meta
                                    | None => "bg-secondary text-muted-foreground border-border"
                                    end)] [Text (i_role invite)];
    Elem "button" [On "click" (RevokePressed (i_id invite)); Flag "disabled" revoking] [Elem "X" [] []]].

Record InviteForm := { v_email : string; v_role : string; v_link : string; v_error : string }.

Definition invite_initial : InviteForm :=
  {| v_email := ""; v_role := "viewer"; v_link := ""; v_error := "" |}.

Definition invite_submit (f : InviteForm) : InviteForm * option (string * string) :=
  if String.eqb (trim (v_email f)) "" then (f, None)
  else ({| v_email := v_email f; v_role := v_role f; v_link := ""; v_error := "" |},
        Some (trim (v_email f), v_role f)).

(** [`${window.location.origin}/invite/${data.token}`] *)
Definition invite_link (origin token : string) : string := origin +:+ "/invite/" +:+ token.

Definition invite_settled (origin : string) (o : outcome jsval) (f : InviteForm) : InviteForm :=
  match o with
  | Ok data =>
      {| v_email := ""; v_role := "viewer";
         v_link := invite_link origin (js_string (default JUndef (get_prop data "token")));
         v_error := v_error f |}
  | Err (JSError _ message) =>
      {| v_email := v_email f; v_role := v_role f; v_link := v_link f; v_error := message |}
  | Err (JSValue v) =>
      {| v_email := v_email f; v_role := v_role f; v_link := v_link f;
         v_error := js_string (default JUndef (get_prop v "message")) |}
  end.

Definition InviteFormView (pending copied : bool) (f : InviteForm) : html UserMsg :=
  div [
    Elem "form" [On "submit" InviteSubmitted] [
      Elem "Input" [Attr "type" "email"; Attr "value" (v_email f); OnText "change" InviteEmailTyped] [];
      Elem "select" [Attr "value" (v_role f); OnText "change" InviteRoleChosen]
        [Elem "option" [Attr "value" "viewer"] [Text "Viewer"];
         Elem "option" [Attr "value" "admin"] [Text "Admin"]];
      Elem "Button" [Attr "type" "submit"; Flag "disabled" (pending || String.eqb (trim (v_email f)) "")]
        [Elem "UserPlus" [] []; Text (if pending then "Generating…" else "Generate Invite")]];
    show (str_truthy (v_link f)) (div [Elem "p" [] [Text (v_link f)]; CopyButton copied (v_link f)]);
    show (str_truthy (v_error f)) (Elem "p" [] [Text (v_error f)])].

Definition UsersPage (localeDate : string -> string) (isLoading inviting copied : bool) (f : InviteForm)
    (confirms : string -> Confirm) (revoking : string -> bool) (users : list User)
    (invites : list Invite) : option (html UserMsg) :=
  rows ← mapM (fun u => UserRow (confirms (u_id u)) u) users;
  Some (div [
    div [div [Elem "h1" [] [Text "Users"]; Elem "p" [] [Text "Manage BatAudit accounts"]];
         show (0 <? length users)%nat
           (Elem "Badge" [] [Text (string_of_Z (Z.of_nat (length users))); Text " user";
                             Text (if (length users =? 1)%nat then "" else "s")])];
    Elem "Card" [] [Elem "p" [] [Text "Invite user"]; InviteFormView inviting copied f];
    match invites with
    | [] => Nothing
    | _ => div (Elem "p" [] [Text "Pending invites"] ::
                List.map (fun i => InviteRow localeDate (revoking (i_id i)) i) invites)
    end;
    div ([show isLoading (Elem "p" [] [Text "Loading…"]);
          show (negb isLoading && (length users =? 0)%nat)
            (Elem "Card" [] [Elem "p" [] [Text "No users yet."]])] ++ rows)%list]).

(** ** invite.$token.tsx *)

Record InvitePage := {
  ip_preview : jsval;    (** [null] until the answer *)
  ip_invalid : bool;
  ip_name : string;
  ip_password : string;
  ip_error : string;
  ip_loading : bool
}.

Definition page_initial : InvitePage :=
  {| ip_preview := JNull; ip_invalid := false; ip_name := ""; ip_password := ""; ip_error := "";
     ip_loading := false |}.

Definition with_status (error : string) (loading : bool) (s : InvitePage) : InvitePage :=
  {| ip_preview := ip_preview s; ip_invalid := ip_invalid s; ip_name := ip_name s;
     ip_password := ip_password s; ip_error := error; ip_loading := loading |}.
Definition with_preview (preview : jsval) (invalid : bool) (s : InvitePage) : InvitePage :=
  {| ip_preview := preview; ip_invalid := invalid; ip_name := ip_name s;
     ip_password := ip_password s; ip_error := ip_error s; ip_loading := ip_loading s |}.

Inductive InviteMsg : Type := NameTyped (v : string) | PasswordTyped (v : string) | AcceptSubmitted.

(** The handlers, the submission up to its [await]. *)
Definition invite_update (m : InviteMsg) (s : InvitePage) : InvitePage :=
  match m with
  | NameTyped v =>
      {| ip_preview := ip_preview s; ip_invalid := ip_invalid s; ip_name := v;
         ip_password := ip_password s; ip_error := ip_error s; ip_loading := ip_loading s |}
  | PasswordTyped v =>
      {| ip_preview := ip_preview s; ip_invalid := ip_invalid s; ip_name := ip_name s;
         ip_password := v; ip_error := ip_error s; ip_loading := ip_loading s |}
  | AcceptSubmitted => with_status "" true s
  end.

Section invite.
Context (BASE : string).

(** The effect of the page: the update its answer makes. *)
Definition invite_mount (token : string) : prog (InvitePage -> InvitePage) :=
  try_catch (p ← getInvitePreview BASE token; mret (fun s => with_preview p (ip_invalid s) s))
    (fun _ => mret (fun s => with_preview (ip_preview s) true s)).

(** [err instanceof Error ? err.message : 'Something went wrong'] *)
Definition error_text (e : thrown) : string :=
  match e with JSError _ message => message | JSValue _ => "Something went wrong" end.

(** The rest of [handleSubmit], called in the state [s]: whether the page goes to
    the sign-in, and the updates of the state of that time. *)
Definition handleSubmit (token : string) (s : InvitePage) : prog (bool * (InvitePage -> InvitePage)) :=
  r ← try_catch
    (acceptInvite BASE token (trim (ip_name s)) (ip_password s);;
     navigate "/login";;
     mret (true, fun s' => s'))
    (fun e => mret (false, fun s' => with_status (error_text e) (ip_loading s') s'));
  mret (r.1, fun s' => let s1 := r.2 s' in with_status (ip_error s1) false s1).
End invite.

(** [loading || !name.trim() || password.length < 8] *)
Definition submit_disabled (s : InvitePage) : bool :=
  ip_loading s || String.eqb (trim (ip_name s)) "" || (js_length (ip_password s) <? 8)%nat.

Definition preview_text (k : string) (preview : jsval) : string :=
  js_string (default JUndef (get_prop preview k)).

Definition InvitePageView (s : InvitePage) : html InviteMsg :=
  div [div [
    div [Elem "img" [Attr "src" "/app/bat-logo.png"; Attr "alt" "BatAudit"] [];
         Elem "h1" [] [Text "BatAudit"]; Elem "p" [] [Text "You've been invited to join"]];
    Elem "Card" [] [
      if ip_invalid s then
        div [Elem "p" [] [Text "Invite not found"];
             Elem "p" [] [Text "This link may have expired or already been used."]]
      else if negb (truthy (ip_preview s)) then Elem "p" [] [Text "Checking invite…"]
      else
        Elem "form" [On "submit" AcceptSubmitted] [
          div [Elem "label" [] [Text "Email"];
               Elem "Input" [Attr "value" (preview_text "email" (ip_preview s)); Flag "readOnly" true] []];
          div [Elem "label" [] [Text "Your name"];
               Elem "Input" [Attr "placeholder" "Full name"; Attr "value" (ip_name s);
                 OnText "change" NameTyped; Flag "required" true; Flag "autoFocus" true] []];
          div [Elem "label" [] [Text "Password"];
               Elem "Input" [Attr "type" "password"; Attr "placeholder" "At least 8 characters";
                 Attr "value" (ip_password s); OnText "change" PasswordTyped;
                 Flag "required" true; Attr "minLength" "8"] []];
          show (str_truthy (ip_error s)) (Elem "p" [] [Text (ip_error s)]);
          Elem "Button" [Attr "type" "submit"; Flag "disabled" (submit_disabled s)]
            [Text (if ip_loading s then "Creating account…" else "Create account")]]]]].

(** ** Removing somebody *)

Definition is_click (e : ConfirmEvent) : bool := match e with RemoveClicked => true | Settled => false end.

(** The clicks that reach the button: those made while it is not disabled. *)
Fixpoint live_clicks (es : list ConfirmEvent) (c : Confirm) : nat :=
  match es with
  | [] => 0%nat
  | e :: es' =>
      ((if is_click e && negb (pending c) then 1 else 0) + live_clicks es' (confirm_step e c).1)%nat
  end.

(** One more click has been made than two per removal, when the row waits for the
    second. *)
Definition half_way (c : Confirm) : nat := if armed c && negb (pending c) then 1%nat else 0%nat.

Lemma confirm_count es c :
  (pending c = true -> armed c = true) ->
  (half_way c + live_clicks es c = 2 * (confirm_run es c).2 + half_way (confirm_run es c).1)%nat /\
  (pending (confirm_run es c).1 = true -> armed (confirm_run es c).1 = true).
Proof.
  revert c. induction es as [|e es IH]; intros c Hc; [cbn; split; [lia | done] |].
  cbn [live_clicks confirm_run].
  assert (Hc' : pending (confirm_step e c).1 = true -> armed (confirm_step e c).1 = true).
  { destruct c as [[] []], e; cbn in *; auto. }
  destruct (IH _ Hc') as [H1 H2]. destruct (confirm_step e c) as [c1 b] eqn:E.
  cbn [fst] in *. destruct (confirm_run es c1) as [c2 n]. cbn in *. split; [| done].
  destruct c as [a p], e, a, p; cbn in *; try (specialize (Hc eq_refl); done);
    injection E as <- <-; cbn in *; lia.
Qed.

(** C29 Nobody is removed by accident: whatever the clicks and the answers, a row has
    started exactly half as many removals as clicks reached its button, rounded down;
    no removal starts while one is pending, and when one has settled the next needs
    two clicks again. *)
Theorem removal_needs_two_clicks es :
  let '(c, n) := confirm_run es confirm_initial in
  n = (live_clicks es confirm_initial / 2)%nat /\
  (pending c = true -> forall e, (confirm_step e c).2 = false) /\
  (confirm_step Settled c).2 = false /\
  (pending c = true -> (confirm_step Settled c).1 = confirm_initial).
Proof.
  destruct (confirm_count es confirm_initial ltac:(done)) as [H _].
  destruct (confirm_run es confirm_initial) as [c n]. cbn [fst snd half_way armed confirm_initial andb] in H.
  split_and!.
  - change (half_way confirm_initial) with 0%nat in H. rewrite Nat.add_0_l in H. rewrite H.
    rewrite (Nat.mul_comm 2), Nat.div_add_l by lia.
    destruct (half_way c) as [|[|k]] eqn:E; [cbn; lia.. |].
    unfold half_way in E. by destruct (_ && _).
  - intros Hp [|]; cbn; by rewrite Hp.
  - cbn. by destruct (pending c).
  - intros Hp. cbn. by rewrite Hp.
Qed.

(** The role the page takes the user to have may always manage: it is that of some
    owner of the project, or [admin]; who is signed in is not asked. *)
Theorem everybody_manages members : canManage (currentUserRole members) = true.
Proof.
  unfold currentUserRole. destruct (List.find _ members) as [m|] eqn:E; [| done].
  apply List.find_some in E as [_ E]. unfold canManage. by rewrite E.
Qed.

(** ** Accepting an invite *)

Definition accept_request (BASE token : string) (s : InvitePage) : request :=
  {| rq_url := BASE +:+ "/v1/auth/invite/" +:+ token +:+ "/accept"; rq_method := "POST";
     rq_headers := json_headers;
     rq_body := Some (json_text (JObj [("name", JStr (trim (ip_name s)));
                                       ("password", JStr (ip_password s))])) |}.

(** What the page tells for an answer; [None] when the account was made. *)
Definition accept_error (answer : option response) : option string :=
  match answer with
  | None => Some "Failed to fetch"
  | Some r =>
      if rs_status r =? 409 then Some "Email already in use"
      else if rs_status r =? 410 then Some "Invite has expired"
      else if rs_ok r then None else Some "Failed to accept invite"
  end.

(** Accepting an invite, for any answer of the network: one request is made, with
    the trimmed name and the password; the page goes to the sign-in exactly when the
    answer is a success, and otherwise stays with a message that tells an address in
    use, an expired invite, another refusal and an unreachable server apart; in every
    case it stops loading, keeps what was typed meanwhile, and stores nothing. *)
Theorem accept_invite_spec `{Host} BASE token s w :
  exists ok upd w',
    run (handleSubmit BASE token s) w = (Ok (ok, upd), w') /\
    storage w' = storage w /\
    (forall s', ip_loading (upd s') = false /\ ip_name (upd s') = ip_name s' /\
       ip_password (upd s') = ip_password s' /\ ip_preview (upd s') = ip_preview s' /\
       ip_invalid (upd s') = ip_invalid s') /\
    let answer := net (trace w) (accept_request BASE token s) in
    ok = (match accept_error answer with None => true | Some _ => false end) /\
    (forall s', ip_error (upd s') = default (ip_error s') (accept_error answer)) /\
    trace w' = (trace w ++ EvFetch (accept_request BASE token s) ::
                (if ok then [EvNavigate "/login"] else []))%list.
Proof.
  unfold handleSubmit, acceptInvite. rewrite run_bind, run_try_catch, run_bind, run_plain_call.
  unfold call_run, do_fetch, accept_error. fold (accept_request BASE token s).
  destruct (net (trace w) (accept_request BASE token s)) as [r|].
  - destruct (rs_status r =? 409); [| destruct (rs_status r =? 410)];
      [| | unfold check_ok; destruct (rs_ok r)];
      (eexists _, _, _; split; [reflexivity |]; split; [done |]; split; [intros s'; by split_and! |]);
      (split; [done |]; split; [done |]); cbn; by rewrite <- ?app_assoc.
  - eexists _, _, _. split; [reflexivity |]. split; [done |]. split; [intros s'; by split_and! |].
    by split.
Qed.
