(* ===== verification/NumText.v ===== *)
(** * Numbers and their texts

    [Number(String(n))] is [n] for every decimal in its normal form, without zeros at its
    end, which is the form in which every text is read. *)

From Stdlib Require Import DecimalPos DecimalString.
From S2P Require Import Prelude JsString JsValue JsonParse Numbers Dates.

Local Open Scope string_scope.
Local Open Scope Z_scope.

(** ** The normal form *)

(** Decimals without trailing zeros, as literals are read. *)
Definition normal (n : num) : Prop :=
  match n with NaN => True | Num m e => e = 0%nat \/ m mod 10 <> 0 end.

Lemma norm_num_normal m e : normal (norm_num m e).
Proof.
  revert m. induction e as [|e IH]; intros m; [by left |]. cbn [norm_num].
  destruct (Z.eqb_spec (m mod 10) 0); [apply IH | by right].
Qed.

Lemma scale_num_normal m f x : normal (scale_num m f x).
Proof. unfold scale_num. destruct (0 <=? _); [by left | apply norm_num_normal]. Qed.

Lemma read_unsigned_normal s n : read_unsigned s = Some n -> normal n.
Proof.
  unfold read_unsigned. intros H. repeat case_match; try done.
  - destruct (read_mantissa _) as [[z f]|]; [| done]. injection H as <-. apply scale_num_normal.
  - destruct (read_mantissa _) as [[z f]|]; [| done]. cbn in H.
    destruct (parse_exp _); [| done]. injection H as <-. apply scale_num_normal.
Qed.

Lemma num_opp_normal n : normal n -> normal (num_opp n).
Proof.
  destruct n as [|m e]; [done |]. intros [->|Hm]; [by left |]. right. intros H. apply Hm.
  rewrite <- (Z.opp_involutive m), Z.mod_opp_l_z by (lia || done). lia.
Qed.

Lemma unsigned_normal s : normal (default NaN (read_unsigned s)).
Proof. destruct (read_unsigned s) eqn:E; [exact (read_unsigned_normal _ _ E) | done]. Qed.

Lemma string_to_number_normal s : normal (string_to_number s).
Proof.
  unfold string_to_number. repeat case_match; try apply unsigned_normal; try (by left).
  destruct (read_unsigned _) eqn:E; [| done]. by eapply num_opp_normal, read_unsigned_normal.
Qed.

(** ** The text of a number *)

(** The value of a digit before others. *)
Lemma digit_value a d : is_digit a = true -> exists d1, uint_of_char a (Some d) = Some d1 /\
  Z.of_N (Pos.of_uint d1) =
    (Z.of_N (N_of_ascii a) - 48) * 10 ^ Z.of_N (Unsigned.usize d) + Z.of_N (Pos.of_uint d) /\
  Unsigned.usize d1 = N.succ (Unsigned.usize d).
Proof.
  intros Ha.
  destruct a as [[] [] [] [] [] [] [] []]; try discriminate Ha; eexists; (split; [reflexivity |]);
    rewrite !Unsigned.of_uint_alt; split; try reflexivity;
    unfold Decimal.rev; cbn [Decimal.revapp]; rewrite Unsigned.of_lu_revapp; unfold Decimal.rev;
    cbn [Unsigned.of_lu]; rewrite N2Z.inj_add, N2Z.inj_mul, N2Z.inj_pow; cbn; lia.
Qed.
Lemma digits_value s : all_chars is_digit s = true -> exists d,
  NilEmpty.uint_of_string s = Some d /\ Z.of_N (Unsigned.usize d) = Z.of_nat (String.length s) /\
  forall acc, digits_from acc s = Some (acc * 10 ^ Z.of_nat (String.length s) + Z.of_N (Pos.of_uint d)).
Proof.
  induction s as [|a s IH]; intros Hs; [exists Decimal.Nil; split_and!; try done; intros; cbn; f_equal; lia |].
  cbn in Hs. apply andb_true_iff in Hs as [Ha Hs]. destruct (IH Hs) as (d & E & Hu & Hd).
  destruct (digit_value a d Ha) as (d1 & E1 & Hv & Hu1). exists d1. cbn [NilEmpty.uint_of_string]. rewrite E.
  split_and!; [exact E1 | rewrite Hu1; cbn [String.length]; lia |].
  intros acc. cbn [digits_from]. unfold is_digit in Ha. rewrite Ha, Hd, Hv, Hu. f_equal. cbn [String.length].
  rewrite Nat2Z.inj_succ, Z.pow_succ_r by lia. lia.
Qed.

Lemma parse_digits_value s : all_chars is_digit s = true -> s <> "" -> parse_digits s = digits_from 0 s.
Proof.
  intros Hs Hne. destruct (digits_value s Hs) as (d & E & _ & ->). unfold parse_digits, Z_of_string.
  destruct s as [|a s]; [done |]. rewrite Hs. unfold NilZero.int_of_string, NilZero.uint_of_string. rewrite E.
  destruct (Ascii.eqb_spec a "-") as [->|]; [discriminate Hs |]. done.
Qed.

Lemma digits_no_char c s : is_digit c = false -> all_chars is_digit s = true -> has_char c s = false.
Proof. intros Hc Hs. by eapply all_chars_no_char. Qed.

(** The text of a decimal that is not negative: digits, and a fraction. *)
Lemma string_of_num_digits m e : 0 <= m ->
  exists q f, string_of_num (Num m e) = q +:+ f /\ all_chars is_digit q = true /\ q <> "" /\
    all_chars (fun a => is_digit a || Ascii.eqb a ".") f = true /\
    (normal (Num m e) -> read_unsigned (q +:+ f) = Some (Num m e)).
Proof.
  intros Hm. destruct e as [|e].
  - exists (string_of_Z m), "". rewrite app_nil_r_s. pose proof (string_of_Z_digits m Hm) as Hd.
    pose proof (string_of_Z_ne m) as Hne. split_and!; try done. intros _.
    unfold read_unsigned, read_mantissa. rewrite replace_char_id by by apply digits_no_char.
    rewrite !split_on_no_char by by apply digits_no_char. unfold parse_digits.
    destruct (string_of_Z m) as [|a s] eqn:E; [done |]. rewrite Hd, <- E, string_of_Z_roundtrip.
    cbn [mbind option_bind]. unfold scale_num. cbn. by rewrite Z.mul_1_r.
  - set (p := 10 ^ Z.of_nat (S e)). assert (Hp : 0 < p) by (apply Z.pow_pos_nonneg; lia).
    assert (Hq : 0 <= m / p) by (apply Z.div_pos; lia).
    pose proof (string_of_Z_digits _ Hq) as Hd. pose proof (string_of_Z_ne (m / p)) as Hne.
    pose proof (all_digits_pad (S e) (m mod p)) as Hf. pose proof (length_digits_pad (S e) (m mod p)) as Hl.
    exists (string_of_Z (m / p)), (String "." (digits_pad (S e) (m mod p))). split_and!; try done.
    + cbn [string_of_num]. rewrite (proj2 (Z.ltb_ge m 0)), Z.abs_eq by lia. done.
    + cbn [all_chars]. change (is_digit "." || Ascii.eqb "." ".") with true. cbn [andb].
      eapply all_chars_impl; [| exact Hf]. intros a Ha. cbn. unfold is_digit. by rewrite Ha.
    + intros Hn. unfold read_unsigned, read_mantissa.
      assert (forall c, is_digit c = false -> Ascii.eqb c "." = false ->
        has_char c (string_of_Z (m / p) +:+ String "." (digits_pad (S e) (m mod p))) = false) as Hno.
      { intros c H1 H2. eapply all_chars_no_char with (f := fun a => is_digit a || Ascii.eqb a "."); [by rewrite H1, H2 |].
        rewrite !all_chars_app. cbn. rewrite !andb_true_iff. split_and!; try done;
          (eapply all_chars_impl; [| eassumption]); intros a Ha; unfold is_digit in *; by rewrite Ha. }
      rewrite replace_char_id, split_on_no_char by by apply Hno.
      rewrite split_on_app by by apply digits_no_char. rewrite split_on_no_char by by apply digits_no_char.
      assert (String.eqb (string_of_Z (m / p)) "" = false) as -> by (by apply String.eqb_neq). cbn [andb].
      unfold digits_opt. assert (String.eqb (string_of_Z (m / p)) "" = false) as -> by (by apply String.eqb_neq).
      destruct (String.eqb_spec (digits_pad (S e) (m mod p)) "") as [E|Hpne]; [by rewrite E in Hl |].
      rewrite (parse_digits_value (digits_pad _ _)), digits_from_pad by done.
      unfold parse_digits. destruct (string_of_Z (m / p)) as [|a s] eqn:E; [done |].
      rewrite Hd, <- E, string_of_Z_roundtrip. cbn [mbind option_bind]. rewrite Hl. fold p.
      rewrite Z.mod_mod by lia. rewrite Z.mul_0_l, Z.add_0_l.
      assert (m / p * p + m mod p = m) as -> by (pose proof (Z.div_mod m p); lia).
      unfold scale_num. rewrite (proj2 (Z.leb_gt _ _)) by lia.
      replace (Z.to_nat _) with (S e) by lia. cbn [norm_num]. destruct Hn as [|Hn]; [done |].
      by rewrite (proj2 (Z.eqb_neq _ _) Hn).
Qed.

Lemma string_of_num_neg m e : m < 0 -> string_of_num (Num m e) = String "-" (string_of_num (Num (- m) e)).
Proof.
  intros Hm. destruct e as [|e]; cbn [string_of_num].
  - by destruct m.
  - rewrite (proj2 (Z.ltb_lt m 0)), (proj2 (Z.ltb_ge (- m) 0)), Z.abs_opp by lia. done.
Qed.

(** [Number(String(n))] *)
Lemma string_to_number_text n : normal n -> string_to_number (string_of_num n) = n.
Proof.
  destruct n as [|m e]; [done |]. intros Hn.
  assert (Hws : forall a, is_digit a || Ascii.eqb a "." = true -> negb (is_ws a) = true)
    by (intros [[] [] [] [] [] [] [] []]; done).
  assert (forall m e, 0 <= m -> all_chars (fun a => negb (is_ws a)) (string_of_num (Num m e)) = true) as Htr.
  { intros m' e' Hm. destruct (string_of_num_digits m' e' Hm) as (q & f & -> & Hq & _ & Hf & _).
    rewrite all_chars_app. apply andb_true_iff. split; (eapply all_chars_impl; [| eassumption]); [| exact Hws].
    intros a Ha. apply Hws. by rewrite Ha. }
  unfold string_to_number. destruct (Z.ltb_spec m 0) as [Hm|Hm].
  - rewrite string_of_num_neg by done. destruct (string_of_num_digits (- m) e ltac:(lia)) as (q & f & E & _ & _ & _ & Hr).
    rewrite trim_id by (cbn; apply Htr; lia). rewrite E, Hr; [cbn; by rewrite Z.opp_involutive |].
    exact (num_opp_normal (Num m e) Hn).
  - rewrite trim_id by (apply Htr; lia). destruct (string_of_num_digits m e Hm) as (q & f & -> & Hq & Hne & _ & Hr).
    specialize (Hr Hn). destruct q as [|a q]; [done |]. cbn [String.append] in *. cbn in Hq. apply andb_true_iff in Hq as [Ha _].
    destruct a as [[] [] [] [] [] [] [] []]; try (discriminate Ha); by rewrite Hr.
Qed.
