(* ===== verification/Monitors.v ===== *)
(** * The healthcheck page (routes/app/_layout/settings/healthcheck.tsx)

    The monitors of a project, the form that creates or edits one, a row with its
    test and its history, and the summary over all projects.  [tz] is the distance of
    the local time zone from UTC, [now] the time of the render.  The form is used as a
    browser shows it: texts are typed under the labels of its view, and it is submitted
    when its inputs allow it ([may_submit]). *)

From stdpp Require Import relations.
From S2P Require Import Prelude JsString JsValue JsonParse Numbers Dates NumText Host Html Session HttpApi.
From S2P Require Import ApiContract Queries.

Local Open Scope string_scope.
Local Open Scope Z_scope.

(** ** Data *)

Record Monitor := {
  mo_id : string;
  mo_name : string;
  mo_url : string;
  mo_interval : num;
  mo_timeout : num;
  mo_expected : num;
  mo_enabled : bool;
  mo_last_status : string;
  mo_last_checked : option string
}.

Record MonitorResult := {
  re_status : string;
  re_code : option num;
  re_ms : option num;
  re_error : string;
  re_checked : string
}.

(** ** Helpers *)

Definition StatusBadge {Msg} (status : string) : html Msg :=
  if String.eqb status "up" then Elem "Badge" [] [Elem "CheckCircle2" [] []; Text " UP"]
  else if String.eqb status "down" then Elem "Badge" [] [Elem "XCircle" [] []; Text " DOWN"]
  else Elem "Badge" [Attr "variant" "outline"] [Elem "Clock" [] []; Text " Unknown"].

Definition relativeTime (tz now : Z) (ts : option string) : string :=
  match some_text ts with
  | None => "—"
  | Some ts =>
      match parse_date tz ts with
      | None => "NaNh ago"
      | Some t =>
          let s := (now - t) / 1000 in
          if s <? 60 then string_of_Z s +:+ "s ago"
          else
            let m := s / 60 in
            if m <? 60 then string_of_Z m +:+ "m ago" else string_of_Z (m / 60) +:+ "h ago"
      end
  end.

(** [c != null && <span>...</span>] *)
Definition num_span {Msg} (n : option num) (before after : string) : html Msg :=
  match n with
  | Some n => span [Text before; Text (string_of_num n); Text after]
  | None => Nothing
  end.

Definition HistoryRow {Msg} (tz now : Z) (result : MonitorResult) : html Msg :=
  div [
    Elem (if String.eqb (re_status result) "up" then "CheckCircle2" else "XCircle") [] [];
    span [Text (relativeTime tz now (Some (re_checked result)))];
    num_span (re_code result) "" "";
    num_span (re_ms result) "" "ms";
    show (str_truthy (re_error result)) (span [Text (re_error result)])].

(** ** The form *)

Record Form := { name : string; url : string; interval : num; timeout : num; expected : num }.

Definition EMPTY_FORM : Form :=
  {| name := ""; url := ""; interval := Num 60 0; timeout := Num 10 0; expected := Num 200 0 |}.

Definition form_of (initial : option Monitor) : Form :=
  match initial with
  | Some m => {| name := mo_name m; url := mo_url m; interval := mo_interval m;
                 timeout := mo_timeout m; expected := mo_expected m |}
  | None => EMPTY_FORM
  end.

Inductive field_key : Type := FName | FUrl | FInterval | FTimeout | FExpected.

(** The handler [field(key)] gives to an input. *)
Definition set_field (key : field_key) (value : string) (f : Form) : Form :=
  {| name := match key with FName => value | _ => name f end;
     url := match key with FUrl => value | _ => url f end;
     interval := match key with FInterval => string_to_number value | _ => interval f end;
     timeout := match key with FTimeout => string_to_number value | _ => timeout f end;
     expected := match key with FExpected => string_to_number value | _ => expected f end |}.

(** The members of the form, as they are sent. *)
Definition form_obj (f : Form) : obj :=
  [("name", JStr (name f)); ("url", JStr (url f)); ("interval_seconds", JNum (interval f));
   ("timeout_seconds", JNum (timeout f)); ("expected_status", JNum (expected f))].

Record MonitorForm := { fm_form : Form; fm_error : string }.

Definition form_open (initial : option Monitor) : MonitorForm :=
  {| fm_form := form_of initial; fm_error := "" |}.

Definition with_form (f : Form) (s : MonitorForm) : MonitorForm :=
  {| fm_form := f; fm_error := fm_error s |}.
Definition with_error (e : string) (s : MonitorForm) : MonitorForm :=
  {| fm_form := fm_form s; fm_error := e |}.

Section form.
Context (BASE projectId : string).

(** [submit]: whether the form closes, and the updates made to the state of the
    time; [with_error ""] comes before. *)
Definition submit (initial : option Monitor) (s : MonitorForm)
    : prog (bool * (MonitorForm -> MonitorForm)) :=
  try_catch
    (match initial with
     | Some m => m_fn (useUpdateMonitor BASE projectId) (mo_id m, JObj (form_obj (fm_form s)))
     | None =>
         m_fn (useCreateMonitor BASE projectId)
           (JObj (("project_id", JStr projectId) :: form_obj (fm_form s)))
     end;;
     mret (true, fun s' => s'))
    (fun e => mret (false, with_error (match e with JSError _ m => m | JSValue _ => "Error" end))).
End form.

Inductive PageMsg : Type :=
| AddClicked
| EditClicked (m : Monitor)
| FormClosed
| FieldTyped (key : field_key) (value : string)
| FormSubmitted
| ExpandToggled (id : string)
| EnabledToggled (id : string) (enabled : bool)
| TestClicked (id : string)
| DeleteClicked (id : string).

Definition number_input (label : string) (key : field_key) (value : num) (lo hi : Z) : html PageMsg :=
  div [Elem "label" [] [Text label];
       Elem "Input" [Attr "type" "number"; Attr "value" (string_of_num value);
         OnText "change" (FieldTyped key); Attr "min" (string_of_Z lo); Attr "max" (string_of_Z hi)] []].

Definition MonitorFormView (editing isPending : bool) (s : MonitorForm) : html PageMsg :=
  let f := fm_form s in
  Elem "form" [On "submit" FormSubmitted] [
    div [
      div [Elem "label" [] [Text "Name"];
           Elem "Input" [Attr "value" (name f); OnText "change" (FieldTyped FName); Flag "required" true] []];
      div [Elem "label" [] [Text "URL"];
           Elem "Input" [Attr "value" (url f); OnText "change" (FieldTyped FUrl); Flag "required" true] []];
      number_input "Interval (seconds)" FInterval (interval f) 10 3600;
      number_input "Timeout (seconds)" FTimeout (timeout f) 1 30;
      number_input "Expected status code" FExpected (expected f) 100 599];
    show (str_truthy (fm_error s)) (Elem "p" [] [Text (fm_error s)]);
    div [
      Elem "Button" [Attr "type" "button"; On "click" FormClosed] [Text "Cancel"];
      Elem "Button" [Attr "type" "submit"; Flag "disabled" isPending]
        [Text (if isPending then "Saving…" else if editing then "Update" else "Create")]]].

(** ** What a browser does with the form

    An input of type number holds only numbers: what is typed otherwise is the empty text.
    The form is not submitted while an input fails its own attributes: a required one is
    not empty, and the number of a number input, if it has one, is between [min] and [max]
    and a whole number of steps of one away from [min]; nor while the submit button is
    disabled. *)

Definition attr_value {Msg} (n : string) (attrs : list (attr Msg)) : option string :=
  head (omap (fun a => match a with Attr n' v => if String.eqb n' n then Some v else None | _ => None end) attrs).

Definition has_flag {Msg} (n : string) (attrs : list (attr Msg)) : bool :=
  existsb (fun a => match a with Flag n' b => String.eqb n' n && b | _ => false end) attrs.

Definition number_text (s : string) : string :=
  match string_to_number s with NaN => "" | Num _ _ => s end.

(** The text an input takes. *)
Definition input_text {Msg} (attrs : list (attr Msg)) (s : string) : string :=
  if String.eqb (default "text" (attr_value "type" attrs)) "number" then number_text s else s.

(** Against [min], [max] and the steps from [min]. *)
Definition in_range (lo hi : option num) (n : num) : bool :=
  match lo with Some lo => num_ge n lo | None => true end &&
  match hi with Some hi => num_ge hi n | None => true end &&
  is_integer (num_sub n (default (Num 0 0) lo)).

Definition input_valid {Msg} (attrs : list (attr Msg)) : bool :=
  let v := input_text attrs (default "" (attr_value "value" attrs)) in
  (negb (has_flag "required" attrs) || str_truthy v) &&
  (negb (String.eqb (default "text" (attr_value "type" attrs)) "number") || negb (str_truthy v) ||
   in_range (string_to_number <$> attr_value "min" attrs) (string_to_number <$> attr_value "max" attrs)
     (string_to_number v)).

Definition may_submit {Msg} (form : html Msg) : bool :=
  forallb (fun '(tag, attrs) =>
    if String.eqb tag "Input" then input_valid attrs
    else if String.eqb tag "Button" then
      negb (String.eqb (default "submit" (attr_value "type" attrs)) "submit" && has_flag "disabled" attrs)
    else true) (elements form).

(** The inputs of a form with the text of the label before them. *)
Fixpoint labelled {Msg} (h : html Msg) : list (string * list (attr Msg)) :=
  match h with
  | Elem _ _ [Elem l _ [Text t]; Elem i attrs _] =>
      if String.eqb l "label" && String.eqb i "Input" then [(t, attrs)] else []
  | Elem _ _ cs => flat_map labelled cs
  | _ => []
  end.

(** The message of a text typed into an input. *)
Definition type_text {Msg} (attrs : list (attr Msg)) (s : string) : option Msg :=
  head (omap (fun a => match a with OnText _ f => Some (f (input_text attrs s)) | _ => None end) attrs).

(** ** A row *)

(** The state of a row: open, and the result of its last test. *)
Record Row := { r_expanded : bool; r_test : option MonitorResult }.

Definition row_initial : Row := {| r_expanded := false; r_test := None |}.

(** [handleTest]: the result is cleared, the test runs, its result is shown; a
    failed call leaves nothing. *)
Definition test_start (r : Row) : Row := {| r_expanded := r_expanded r; r_test := None |}.
Definition test_done (result : MonitorResult) (r : Row) : Row :=
  {| r_expanded := r_expanded r; r_test := Some result |}.

Definition handleTest (BASE : string) (read : jsval -> MonitorResult) (id : string)
    : prog (Row -> Row) :=
  v ← m_fn (useTestMonitor BASE) id; mret (test_done (read v)).

Definition test_card (r : MonitorResult) : html PageMsg :=
  div [span [Text "Test result:"]; StatusBadge (re_status r);
       num_span (re_code r) "HTTP " ""; num_span (re_ms r) "" "ms";
       show (str_truthy (re_error r)) (span [Text (re_error r)])].

Definition MonitorRow (tz now : Z) (testing : bool) (history : list MonitorResult) (r : Row)
    (m : Monitor) : html PageMsg :=
  div [
    div [
      Elem "button" [On "click" (ExpandToggled (mo_id m))]
        [Elem (if r_expanded r then "ChevronDown" else "ChevronRight") [] []];
      StatusBadge (mo_last_status m);
      div [span [Text (mo_name m)]; span [Text (mo_url m)]];
      span [Text "every "; Text (string_of_num (mo_interval m)); Text "s · ";
            Text (relativeTime tz now (mo_last_checked m))];
      Elem "button" [On "click" (EnabledToggled (mo_id m) (negb (mo_enabled m)));
        Attr "title" (if mo_enabled m then "Disable — pauses all checks for this monitor"
                      else "Enable — resume periodic checks")]
        [Elem (if mo_enabled m then "ToggleRight" else "ToggleLeft") [] []];
      Elem "button" [On "click" (EditClicked m)] [Elem "Pencil" [] []];
      Elem "button" [On "click" (TestClicked (mo_id m)); Flag "disabled" testing]
        [Elem "TestTube2" [] []];
      Elem "button" [On "click" (DeleteClicked (mo_id m))] [Elem "Trash2" [] []]];
    match r_test r with Some t => test_card t | None => Nothing end;
    show (r_expanded r)
      (match history with
       | [] => div [Elem "p" [] [Text "No history yet"]]
       | h => div (List.map (HistoryRow tz now) h)
       end)].

(** ** The page *)

Record PageState := { showForm : bool; editing : option Monitor; form : MonitorForm }.

Definition page_initial : PageState :=
  {| showForm := false; editing := None; form := form_open None |}.

(** [handleEdit], [closeForm] and the button Add; a form that appears starts from
    its monitor or from [EMPTY_FORM]. *)
Definition handleEdit (m : Monitor) (p : PageState) : PageState :=
  {| showForm := false; editing := Some m;
     form := match editing p with
             | Some m' => if String.eqb (mo_id m') (mo_id m) then form p else form_open (Some m)
             | None => form_open (Some m)
             end |}.
Definition closeForm (p : PageState) : PageState :=
  {| showForm := false; editing := None; form := form p |}.
Definition handleAdd (p : PageState) : PageState :=
  {| showForm := negb (showForm p); editing := None; form := form_open None |}.

(** The new form and the form of a monitor, when they are shown. *)
Definition new_form_shown (p : PageState) : bool :=
  showForm p && match editing p with None => true | Some _ => false end.
Definition edit_form_shown (p : PageState) (m : Monitor) : bool :=
  match editing p with Some e => String.eqb (mo_id e) (mo_id m) | None => false end.

Definition update (m : PageMsg) (p : PageState) : PageState :=
  match m with
  | AddClicked => handleAdd p
  | EditClicked m => handleEdit m p
  | FormClosed => closeForm p
  | FieldTyped key v =>
      {| showForm := showForm p; editing := editing p;
         form := with_form (set_field key v (fm_form (form p))) (form p) |}
  | FormSubmitted =>
      {| showForm := showForm p; editing := editing p; form := with_error "" (form p) |}
  | _ => p
  end.

Definition is_down (m : Monitor) : bool := String.eqb (mo_last_status m) "down".

Definition AllProjects (tz now : Z) (isLoading : bool) (monitors : list Monitor) : html PageMsg :=
  let downMonitors := List.filter is_down monitors in
  div [
    div [Elem "Activity" [] [];
         div [Elem "h1" [] [Text "Healthcheck Monitors"];
              Elem "p" [] [Text "All projects — select a project to manage monitors."]]];
    if isLoading then div [Text "Loading…"]
    else match downMonitors with
         | [] => Elem "Card" [] [Text "All monitors are UP across all projects."]
         | _ =>
             Elem "Card" [] [
               div [Elem "XCircle" [] [];
                    span [Text (string_of_Z (Z.of_nat (length downMonitors))); Text " monitor";
                          Text (if (length downMonitors =? 1)%nat then "" else "s"); Text " down"]];
               div (List.map (fun m =>
                 div [StatusBadge "down"; div [span [Text (mo_name m)]; span [Text (mo_url m)]];
                      span [Text (relativeTime tz now (mo_last_checked m))]]) downMonitors)]
         end].

Definition MAX_MONITORS : nat := 10.

Section page.
Context (tz now : Z) (rows : string -> Row) (testing : string -> bool)
  (history : string -> list MonitorResult) (isPending : bool).

Definition HealthcheckPage (projectId : option string) (isLoading : bool) (monitors : list Monitor)
    (p : PageState) : html PageMsg :=
  match some_text projectId with
  | None => AllProjects tz now isLoading monitors
  | Some _ =>
      let full := (MAX_MONITORS <=? length monitors)%nat in
      div [
        div [
          div [Elem "Activity" [] [];
               div [Elem "h1" [] [Text "Healthcheck Monitors"];
                    Elem "p" [] [Text "BatAudit pings your URLs and notifies on status changes."]]];
          Elem "Button" [On "click" AddClicked; Flag "disabled" full] [Elem "Plus" [] []; Text "Add monitor"]];
        Elem "Card" [] ([
          show (new_form_shown p) (MonitorFormView false isPending (form p))] ++
          (if isLoading then [div [Text "Loading…"]]
           else if (length monitors =? 0)%nat && negb (showForm p) then
             [div [Text "No monitors yet. Add one to start tracking uptime."]]
           else List.map (fun m =>
             Elem "" [] [
               MonitorRow tz now (testing (mo_id m)) (history (mo_id m)) (rows (mo_id m)) m;
               show (edit_form_shown p m) (MonitorFormView true isPending (form p))]) monitors) ++
          [show full (Elem "p" [] [Text "Maximum of 10 monitors per project reached."])])%list]
  end.
End page.

(** ** One form at a time *)

Definition page_run (ms : list PageMsg) (p : PageState) : PageState :=
  fold_left (fun p m => update m p) ms p.

(** The new form and an edit form exclude each other. *)
Lemma forms_exclusive ms p :
  (showForm p = true -> editing p = None) ->
  showForm (page_run ms p) = true -> editing (page_run ms p) = None.
Proof.
  revert p. induction ms as [|m ms IH]; intros p Hp; [done |]. cbn [page_run fold_left].
  apply IH. destruct m; cbn; auto; by intros.
Qed.

(** However the buttons are pressed, at most one form is on the page: the new one,
    or that of one monitor of the list, when their ids are distinct; the button Add,
    unless the new form is open, leads to it, empty, and Edit to the form of that monitor with its
    values, unless it was being edited already. *)
Theorem one_form ms monitors :
  NoDup (List.map mo_id monitors) ->
  let p := page_run ms page_initial in
  ((if new_form_shown p then 1 else 0) + length (List.filter (edit_form_shown p) monitors) <= 1)%nat /\
  (showForm p = false ->
     new_form_shown (update AddClicked p) = true /\ form (update AddClicked p) = form_open None) /\
  (forall m, edit_form_shown (update (EditClicked m) p) m = true /\
     new_form_shown (update (EditClicked m) p) = false /\
     (edit_form_shown p m = false -> fm_form (form (update (EditClicked m) p)) = form_of (Some m))).
Proof.
  intros Hn. cbn zeta. generalize (forms_exclusive ms page_initial ltac:(done)).
  generalize (page_run ms page_initial). intros p He.
  split_and!.
  - unfold new_form_shown, edit_form_shown. destruct (editing p) as [e|].
    + rewrite andb_false_r. cbn. induction monitors as [|m l IH]; cbn; [lia |].
      apply NoDup_cons in Hn as [Hni Hn]. destruct (String.eqb_spec (mo_id e) (mo_id m)) as [E|]; [| by apply IH].
      assert (List.filter (fun m => String.eqb (mo_id e) (mo_id m)) l = []) as ->; [| cbn; lia].
      clear IH Hn. induction l as [|b l IH]; [done |]. cbn in *. apply not_elem_of_cons in Hni as [Hne Hni].
      destruct (String.eqb_spec (mo_id e) (mo_id b)); [congruence | auto].
    + assert (List.filter (fun _ : Monitor => false) monitors = []) as ->
        by (clear Hn; by induction monitors).
      clear He. destruct (showForm p); cbn; lia.
  - intros Hs. cbn [update]. unfold new_form_shown, handleAdd. cbn [showForm editing]. by rewrite Hs.
  - intros m. cbn. unfold edit_form_shown. cbn. rewrite String.eqb_refl.
    split_and!; [done | done |]. destruct (editing p) as [e|]; [| done].
    by destruct (String.eqb (mo_id e) (mo_id m)).
Qed.

Lemma one_form_witness :
  let m := {| mo_id := "1"; mo_name := "API"; mo_url := "http://a"; mo_interval := Num 60 0;
              mo_timeout := Num 10 0; mo_expected := Num 200 0; mo_enabled := true;
              mo_last_status := "up"; mo_last_checked := None |} in
  let p := page_run [AddClicked; EditClicked m] page_initial in
  ((if new_form_shown p then 1 else 0) + length (List.filter (edit_form_shown p) [m]) <= 1)%nat.
Proof.
  cbn zeta. set (m := {| mo_id := "1"; mo_name := "API"; mo_url := "http://a"; mo_interval := Num 60 0;
    mo_timeout := Num 10 0; mo_expected := Num 200 0; mo_enabled := true;
    mo_last_status := "up"; mo_last_checked := None |}).
  assert (Hn : NoDup (List.map mo_id [m])) by (repeat constructor; apply not_elem_of_nil).
  exact (proj1 (one_form [AddClicked; EditClicked m] [m] Hn)).
Defined.

(** ** What the form sends *)

Lemma is_integer_norm m e : is_integer (norm_num m e) = is_integer (Num m e).
Proof.
  revert m. induction e as [|e IH]; intros m; [done |]. cbn [norm_num].
  destruct (Z.eqb_spec (m mod 10) 0) as [Hm|]; [| done]. rewrite IH. cbn [is_integer].
  apply Z.mod_divide in Hm as [q ->]; [| done]. rewrite Z.div_mul by done.
  rewrite Nat2Z.inj_succ, Z.pow_succ_r, (Z.mul_comm 10), Z.mul_mod_distr_r by
    (lia || apply Z.pow_nonzero; lia).
  pose proof (Z.mod_pos_bound q (10 ^ Z.of_nat e) ltac:(apply Z.pow_pos_nonneg; lia)).
  destruct (Z.eqb_spec (q mod 10 ^ Z.of_nat e) 0) as [->|Hq]; [done |].
  symmetry. apply Z.eqb_neq. lia.
Qed.

(** A number an input accepts is a whole one between its limits. *)
Lemma in_range_spec n lo hi :
  normal n -> in_range (Some (Num lo 0)) (Some (Num hi 0)) n = true ->
  exists z, n = Num z 0 /\ lo <= z <= hi.
Proof.
  unfold in_range. intros Hn H. apply andb_true_iff in H as [H Hi].
  apply andb_true_iff in H as [Hlo Hhi]. destruct n as [|m e]; [done |].
  change (is_integer (norm_num (m * 1 + - lo * 10 ^ Z.of_nat e) (e + 0)) = true) in Hi.
  rewrite is_integer_norm, Nat.add_0_r, Z.mul_1_r in Hi. cbn [is_integer] in Hi.
  rewrite Z.mod_add in Hi by (apply Z.pow_nonzero; lia).
  destruct e as [|e].
  - exists m. split; [done |]. cbn in Hlo, Hhi. rewrite !Z.mul_1_r in *.
    apply negb_true_iff, Z.ltb_ge in Hlo, Hhi. lia.
  - exfalso. destruct Hn as [|Hm]; [done |]. apply Hm. apply Z.eqb_eq in Hi.
    rewrite Nat2Z.inj_succ, Z.pow_succ_r in Hi by lia.
    apply Z.mod_divide in Hi; [| apply Z.neq_mul_0; split; [done |]; apply Z.pow_nonzero; lia].
    apply Z.mod_divide; [done |]. destruct Hi as [q ->]. exists (q * 10 ^ Z.of_nat e). lia.
Qed.

(** The number of a typed text: an empty one and one that is no number count zero. *)
Definition number_of (t : string) : num :=
  match string_to_number t with NaN => Num 0 0 | n => n end.

Lemma number_of_text t : string_to_number (number_text t) = number_of t.
Proof. unfold number_text, number_of. by destruct (string_to_number t) eqn:E; [| rewrite E]. Qed.

Lemma number_of_normal t : normal (number_of t) /\ number_of t <> NaN.
Proof.
  unfold number_of. pose proof (string_to_number_normal t). destruct (string_to_number t); [| done].
  split; [by left | done].
Qed.

(** One text typed into the input of a label of the form on the page. *)
Definition type_in (p : PageState) (e : string * string) : PageState :=
  match assoc e.1 (labelled (MonitorFormView false false (form p))) ≫= fun attrs => type_text attrs e.2 with
  | Some m => update m p
  | None => p
  end.

(** The text last typed under a label. *)
Definition last_typed (label d : string) (typed : list (string * string)) : string :=
  fold_left (fun t e => if String.eqb e.1 label then e.2 else t) typed d.

(** The form that has the texts [t] under its labels. *)
Definition form_from (t : string -> string) : Form :=
  {| name := t "Name"; url := t "URL"; interval := number_of (t "Interval (seconds)");
     timeout := number_of (t "Timeout (seconds)"); expected := number_of (t "Expected status code") |}.

Definition input_attrs (key : field_key) (f : Form) : list (attr PageMsg) :=
  match key with
  | FName => [Attr "value" (name f); OnText "change" (FieldTyped FName); Flag "required" true]
  | FUrl => [Attr "value" (url f); OnText "change" (FieldTyped FUrl); Flag "required" true]
  | _ =>
      let '(v, lo, hi) := match key with
        | FInterval => (interval f, 10, 3600)
        | FTimeout => (timeout f, 1, 30)
        | _ => (expected f, 100, 599)
        end in
      [Attr "type" "number"; Attr "value" (string_of_num v); OnText "change" (FieldTyped key);
       Attr "min" (string_of_Z lo); Attr "max" (string_of_Z hi)]
  end.

Definition label_of (key : field_key) : string :=
  match key with
  | FName => "Name" | FUrl => "URL" | FInterval => "Interval (seconds)"
  | FTimeout => "Timeout (seconds)" | FExpected => "Expected status code"
  end.

Definition keys : list field_key := [FName; FUrl; FInterval; FTimeout; FExpected].

Lemma labelled_form ed pending s :
  labelled (MonitorFormView ed pending s) =
  List.map (fun k => (label_of k, input_attrs k (fm_form s))) keys.
Proof. unfold MonitorFormView. by destruct (str_truthy (fm_error s)), pending, ed. Qed.

Lemma may_submit_form ed pending s :
  may_submit (MonitorFormView ed pending s) =
  forallb (fun k => input_valid (input_attrs k (fm_form s))) keys && negb pending.
Proof.
  unfold may_submit, MonitorFormView. destruct (str_truthy (fm_error s)), pending, ed;
    cbn -[input_valid]; by rewrite ?andb_true_r, ?andb_false_r.
Qed.

Lemma type_in_form p l s t :
  fm_form (form p) = form_from t ->
  fm_form (form (type_in p (l, s))) = form_from (fun k => if String.eqb l k then s else t k).
Proof.
  intros Hp. unfold type_in. rewrite labelled_form. cbn [keys List.map fst snd assoc].
  destruct (decide (Exists (fun k => l = label_of k) keys)) as [Hk|Hk].
  - apply Exists_exists in Hk as (k & _ & ->).
    destruct k; cbn -[string_to_number number_of number_text]; rewrite Hp; unfold set_field;
      rewrite ?number_of_text; done.
  - assert (forall k, String.eqb (label_of k) l = false /\ String.eqb l (label_of k) = false) as Hl.
    { intros k. rewrite (String.eqb_sym l). split; apply String.eqb_neq; intros E;
        apply Hk, Exists_exists; exists k; (split; [destruct k; set_solver | done]). }
    rewrite !(fun k => proj1 (Hl k)). cbn. rewrite Hp. unfold form_from.
    by rewrite (proj2 (Hl FName) : String.eqb l "Name" = _), (proj2 (Hl FUrl) : String.eqb l "URL" = _),
      (proj2 (Hl FInterval) : String.eqb l "Interval (seconds)" = _),
      (proj2 (Hl FTimeout) : String.eqb l "Timeout (seconds)" = _),
      (proj2 (Hl FExpected) : String.eqb l "Expected status code" = _).
Qed.

(** What the texts of a form are to begin with. *)
Definition empty_text (label : string) : string :=
  default "" (assoc label [("Interval (seconds)", "60"); ("Timeout (seconds)", "10");
                           ("Expected status code", "200")]).

Lemma typed_form typed : forall p t,
  fm_form (form p) = form_from t ->
  fm_form (form (fold_left type_in typed p)) = form_from (fun k => last_typed k (t k) typed).
Proof.
  induction typed as [|[l s] typed IH]; intros p t Hp; [exact Hp |]. cbn [fold_left].
  rewrite (IH _ _ (type_in_form p l s t Hp)). unfold form_from, last_typed. done.
Qed.

(** What a number input that is valid holds. *)
Lemma number_input_valid key lo hi t (attrs : list (attr PageMsg)) :
  attrs = [Attr "type" "number"; Attr "value" (string_of_num (number_of t)); OnText "change" (FieldTyped key);
           Attr "min" (string_of_Z lo); Attr "max" (string_of_Z hi)] ->
  0 < lo -> 0 <= hi -> input_valid attrs = true ->
  exists z, string_to_number t = Num z 0 /\ lo <= z <= hi.
Proof.
  intros -> Hlo Hhi Hv. destruct (number_of_normal t) as [Hn Hne].
  unfold input_valid, input_text, number_text in Hv.
  cbn -[string_to_number string_of_num number_of in_range string_of_Z] in Hv.
  pose proof (string_to_number_text (number_of t) Hn) as Ht. rewrite Ht in Hv.
  destruct (number_of t) as [|m e] eqn:En; [done |].
  rewrite Ht, !string_to_number_string_of_Z in Hv by lia.
  destruct (str_truthy (string_of_num (Num m e))) eqn:Es.
  - destruct (in_range_spec _ _ _ Hn Hv) as (z & Ez & Hz). exists z. split; [| lia].
    rewrite <- Ez. unfold number_of in En. destruct (string_to_number t); [| done].
    injection En as <- <-. injection Ez as <-. lia.
  - unfold str_truthy in Es. destruct (string_of_num (Num m e)) eqn:E0; [| done].
    cbn in Ht. injection Ht as <- <-. discriminate E0.
Qed.

(** What a form that is submitted holds. *)
Lemma form_valid t pending :
  forallb (fun k => input_valid (input_attrs k (form_from t))) keys && negb pending = true ->
  t "Name" <> "" /\ t "URL" <> "" /\
  (exists z, string_to_number (t "Interval (seconds)") = Num z 0 /\ 10 <= z <= 3600) /\
  (exists z, string_to_number (t "Timeout (seconds)") = Num z 0 /\ 1 <= z <= 30) /\
  (exists z, string_to_number (t "Expected status code") = Num z 0 /\ 100 <= z <= 599).
Proof.
  intros [H _]%andb_true_iff. cbn [keys forallb] in H. rewrite !andb_true_iff in H.
  destruct H as (Hn & Hu & Hi & Ht & He & _). split_and!.
  - intros E. unfold form_from, input_valid, input_text in Hn. cbn in Hn. by rewrite E in Hn.
  - intros E. unfold form_from, input_valid, input_text in Hu. cbn in Hu. by rewrite E in Hu.
  - by eapply (number_input_valid FInterval _ _ _ _ eq_refl).
  - by eapply (number_input_valid FTimeout _ _ _ _ eq_refl).
  - by eapply (number_input_valid FExpected _ _ _ _ eq_refl).
Qed.

(** A call sends its request first. *)
Lemma call_run_trace `{Host} {A} session rq (k : response -> prog A) w :
  exists rest, trace (call_run session rq k w).2 = (trace w ++ EvFetch rq :: rest)%list.
Proof.
  unfold call_run, do_fetch. destruct (net (trace w) rq) as [res|]; [| by exists []].
  destruct (session && _); cbn.
  - eexists [_]. by rewrite <- app_assoc.
  - set (w1 := tick _ _). destruct (run_trace_grows (k res) w1) as [l Hl]. exists l. rewrite Hl. cbn.
    by rewrite <- app_assoc.
Qed.

(** C28 Creating a monitor, for any texts typed under the labels of the form, in any order, and
    any network: when the browser submits the form that Add opened, the page makes one
    POST to the monitors, which the server parses into the project, the name and the
    address last typed, neither of them empty, and the three integers whose texts were last
    typed under their labels, or 60, 10 and 200, each within the limits of its input; the form
    never throws, it closes exactly when the monitor was created, and otherwise stays
    with the values it has. *)
Theorem create_monitor_spec `{Host} BASE projectId typed pending w :
  let s := form (fold_left type_in typed (update AddClicked page_initial)) in
  let text label d := last_typed label d typed in
  may_submit (MonitorFormView false pending s) = true ->
  exists interval timeout expected sent closed upd w' rest,
    string_to_number (text "Interval (seconds)" "60") = Num interval 0 /\ 10 <= interval <= 3600 /\
    string_to_number (text "Timeout (seconds)" "10") = Num timeout 0 /\ 1 <= timeout <= 30 /\
    string_to_number (text "Expected status code" "200") = Num expected 0 /\ 100 <= expected <= 599 /\
    text "Name" "" <> "" /\ text "URL" "" <> "" /\
    run (submit BASE projectId None s) w = (Ok (closed, upd), w') /\
    trace w' = (trace w ++ EvFetch (auth_request (storage w !! TOKEN_KEY) (BASE +:+ "/v1/monitors")
      {| ai_method := Some "POST"; ai_headers := json_headers; ai_body := Some sent |}) :: rest)%list /\
    json_parse sent = Some (JObj [("project_id", JStr projectId); ("name", JStr (text "Name" ""));
      ("url", JStr (text "URL" "")); ("interval_seconds", JInt interval);
      ("timeout_seconds", JInt timeout); ("expected_status", JInt expected)]) /\
    (closed = true <-> exists v, (run (m_fn (useCreateMonitor BASE projectId)
       (JObj (("project_id", JStr projectId) :: form_obj (fm_form s)))) w).1 = Ok v) /\
    forall s', fm_form (upd s') = fm_form s'.
Proof.
  cbn zeta. set (s := form (fold_left type_in typed (update AddClicked page_initial))). intros Hsub.
  assert (Hs : fm_form s = form_from (fun k => last_typed k (empty_text k) typed))
    by (apply typed_form; reflexivity).
  rewrite may_submit_form, Hs in Hsub. destruct (form_valid _ _ Hsub) as (Hn & Hu & Hi & Ht & He).
  destruct Hi as (i & Ei & Bi), Ht as (t & Et & Bt), He as (e & Ee & Be).
  assert (Ef : form_obj (fm_form s) = [("name", JStr (last_typed "Name" "" typed));
    ("url", JStr (last_typed "URL" "" typed)); ("interval_seconds", JInt i); ("timeout_seconds", JInt t);
    ("expected_status", JInt e)]).
  { rewrite Hs. unfold form_from, form_obj, number_of. cbn [name url interval timeout expected].
    by rewrite Ei, Et, Ee. }
  set (body := JObj (("project_id", JStr projectId) :: form_obj (fm_form s))).
  exists i, t, e, (json_text body).
  assert (Hp : json_parse (json_text body) = Some body).
  { apply json_parse_stringify. unfold body. by rewrite Ef. }
  unfold submit. rewrite run_try_catch, run_bind. fold body.
  assert (Hcall : exists o w' rest, run (m_fn (useCreateMonitor BASE projectId) body) w = (o, w') /\
    trace w' = (trace w ++ EvFetch (auth_request (storage w !! TOKEN_KEY) (BASE +:+ "/v1/monitors")
      (json_init "POST" body)) :: rest)%list).
  { change (m_fn (useCreateMonitor BASE projectId) body) with (createMonitor BASE body).
    unfold createMonitor. rewrite run_auth_call.
    destruct (call_run_trace true (auth_request (storage w !! TOKEN_KEY) (monitors_base BASE)
      (json_init "POST" body)) (fun res => if negb (rs_ok res) then
        err ← try_catch (res_json res) (fun _ => mret (JObj []));
        throw_error_of err "Failed to create monitor" else res_json res) w) as [rest Hrest].
    eexists _, _, rest. split; [apply surjective_pairing | exact Hrest]. }
  destruct Hcall as (o & w1 & rest & -> & Htr).
  destruct o as [v|err]; cbn [run mret prog_ret].
  - eexists true, _, _, rest. split_and!; try done; try lia;
      [unfold body in Hp at 2; by rewrite Ef in Hp | split; [by eexists | done]].
  - eexists false, _, _, rest. split_and!; try done; try lia;
      [unfold body in Hp at 2; by rewrite Ef in Hp | split; [done | intros [v E]; discriminate E]].
Qed.

Lemma create_monitor_spec_witness :
  let typed := [("Name", "API"); ("Interval (seconds)", "3"); ("URL", "http://a"); ("Interval (seconds)", "30")] in
  exists sent, json_parse sent = Some (JObj [("project_id", JStr "p"); ("name", JStr "API");
    ("url", JStr "http://a"); ("interval_seconds", JInt 30); ("timeout_seconds", JInt 10);
    ("expected_status", JInt 200)]).
Proof.
  destruct (@create_monitor_spec {| net := fun _ _ => None; uuid_at := fun _ => "u"; latency := fun _ => 1 |}
    "" "p" [("Name", "API"); ("Interval (seconds)", "3"); ("URL", "http://a"); ("Interval (seconds)", "30")]
    false (World ∅ 0 0 []) ltac:(vm_compute; reflexivity))
    as (i & t & e & sent & c & u & w' & r & Hi & _ & Ht & _ & He & _ & _ & _ & _ & _ & Hp & _).
  exists sent. vm_compute in Hi, Ht, He. injection Hi as <-. injection Ht as <-. injection He as <-. exact Hp.
Defined.

(** What the browser does not submit. *)
Example not_submitted :
  let submits typed := may_submit (MonitorFormView false false
    (form (fold_left type_in typed (update AddClicked page_initial)))) in
  let texts := [("Name", "API"); ("URL", "http://a")] in
  submits texts = true /\ submits [] = false /\
  List.map (fun t => submits (texts ++ [("Interval (seconds)", t)])%list) ["9"; "10"; "1e3"; "3600"; "3601"; "10.5"; "x"; ""] =
  [false; true; true; true; false; false; false; false].
Proof. vm_compute. done. Qed.
