(* ===== verification/Notifications.v ===== *)
(** * The notifications page (routes/app/_layout/settings/notifications.tsx)

    Browser push for a project, and its webhooks with their tests and deliveries.
    What the service worker and the permission prompt of the browser answer are
    parameters; the channel a browser subscribed to is kept in localStorage. *)

From S2P Require Import Prelude JsString JsValue JsonParse Numbers Encoding Host Html Session HttpApi.
From S2P Require Import ApiContract Queries.

Local Open Scope string_scope.
Local Open Scope Z_scope.

(** [String(e)] *)
Definition thrown_text (e : thrown) : string :=
  match e with
  | JSError name "" => name
  | JSError name message => name +:+ ": " +:+ message
  | JSValue v => js_string v
  end.

(** ** urlBase64ToUint8Array *)

(** The bytes of a key in the URL alphabet; [None] is the exception of [atob]. *)
Definition urlBase64ToUint8Array (base64String : string) : option (list N) :=
  let padding := repeat_string "=" ((4 - String.length base64String mod 4) mod 4) in
  let base64 := replace_char "_" "/" (replace_char "-" "+" (base64String +:+ padding)) in
  atob base64.

(** ** Push *)

Definition PUSH_CHANNEL_KEY : string := "bat_push_channel_id".

Definition channel_key (projectId : string) : string := PUSH_CHANNEL_KEY +:+ ":" +:+ projectId.

Inductive PushStatus : Type := Idle | Active | Failed.

Record PushState := { pushStatus : PushStatus; channelId : option string; errorMsg : string }.

Definition push_initial : PushState := {| pushStatus := Idle; channelId := None; errorMsg := "" |}.

Definition with_status (st : PushStatus) (s : PushState) : PushState :=
  {| pushStatus := st; channelId := channelId s; errorMsg := errorMsg s |}.
Definition with_channel (c : option string) (s : PushState) : PushState :=
  {| pushStatus := pushStatus s; channelId := c; errorMsg := errorMsg s |}.
Definition with_message (m : string) (s : PushState) : PushState :=
  {| pushStatus := pushStatus s; channelId := channelId s; errorMsg := m |}.

(** A value kept as the channel: [undefined] and [null] are no channel. *)
Definition text_of (v : jsval) : option string := if truthy v then Some (js_string v) else None.

(** What the browser offers and answers. *)
Record Browser := {
  has_service_worker : bool;
  has_push_manager : bool;
  b_register : outcome unit;                  (** [serviceWorker.register] *)
  b_permission : outcome string;              (** [Notification.requestPermission] *)
  b_subscribe : list N -> outcome jsval;      (** [pushManager.subscribe] *)
  b_subscription : outcome (option jsval);    (** [getRegistration] and [getSubscription] *)
  b_unsubscribe : outcome unit                (** [sub.unsubscribe] *)
}.

Section push.
Context (BASE projectId : string) (browser : Browser).

(** The effect of mounting, and of every change of project: the update it makes. *)
Definition push_mount : prog (PushState -> PushState) :=
  stored ← get_item (channel_key projectId);
  match some_text stored with
  | None => mret (fun s => s)
  | Some stored =>
      if negb (has_service_worker browser) then mret (fun s => s)
      else
        sub ← of_outcome (b_subscription browser);
        match sub with
        | Some _ => mret (fun s => with_status Active (with_channel (Some stored) s))
        | None => remove_item (channel_key projectId);; mret (fun s => s)
        end
  end.

(** [handleEnable] in a render with the key [vapidKey]: the updates it makes, the
    first of which clears the message. *)
Definition handleEnable (vapidKey : option string) : prog (PushState -> PushState) :=
  u ← try_catch
    (if negb (has_service_worker browser) || negb (has_push_manager browser) then
       mret (with_message "Push notifications are not supported in this browser.")
     else
       of_outcome (b_register browser);;
       perm ← of_outcome (b_permission browser);
       if negb (String.eqb perm "granted") then mret (with_message "Notification permission denied.")
       else
         match some_text vapidKey with
         | None => mret (with_message "VAPID key not available.")
         | Some key =>
             bytes ← (match urlBase64ToUint8Array key with
                      | Some b => mret b
                      | None => Throw (JSError "InvalidCharacterError" "atob")
                      end);
             sub ← of_outcome (b_subscribe browser bytes);
             channel ← m_fn (useSubscribePush BASE projectId) sub;
             id ← js_prop channel "id";
             set_item (channel_key projectId) (js_string id);;
             mret (fun s => with_status Active (with_channel (text_of id) s))
         end)
    (fun e => mret (fun s => with_status Failed (with_message (thrown_text e) s)));
  mret (fun s => u (with_message "" s)).

(** [handleDisable] in a render whose state is [s0]. *)
Definition handleDisable (s0 : PushState) : prog (PushState -> PushState) :=
  match some_text (channelId s0) with
  | None => mret (fun s => s)
  | Some c =>
      try_catch
        (_ ← m_fn (useUnsubscribePush BASE projectId) c;
         sub ← of_outcome (b_subscription browser);
         match sub with Some _ => of_outcome (b_unsubscribe browser) | None => mret tt end;;
         remove_item (channel_key projectId);;
         mret (fun s => with_channel None (with_status Idle s)))
        (fun e => mret (with_message (thrown_text e)))
  end.
End push.

Inductive PushMsg : Type := EnableClicked | DisableClicked.

Definition is_active (s : PushState) : bool :=
  match pushStatus s with Active => true | _ => false end.

Definition PushSection (subscribing unsubscribing : bool) (s : PushState) : html PushMsg :=
  Elem "Card" [] [
    div [Elem "Bell" [] [];
         div [Elem "h3" [] [Text "Browser Push Notifications"];
              Elem "p" [] [Text "Receive alerts in this browser even when the tab is in the background."]]];
    div [
      if is_active s then
        Elem "" [] [Elem "Badge" [] [Text "Active"];
          Elem "Button" [On "click" DisableClicked; Flag "disabled" unsubscribing] [Text "Disable"]]
      else Elem "Button" [On "click" EnableClicked; Flag "disabled" subscribing]
             [Text "Enable notifications"];
      show (str_truthy (errorMsg s)) (Elem "p" [] [Text (errorMsg s)])]].

(** ** Webhooks *)

Record Delivery := { dl_status : string; dl_time : string; dl_code : option num; dl_body : string }.
Record WebhookChannel := { wh_id : string; wh_url : string; wh_secret : string }.

Inductive HookMsg : Type :=
| FormToggled
| FormCancelled
| UrlTyped (v : string)
| SecretTyped (v : string)
| SaveClicked
| HookToggled (id : string)
| HookTested (id : string)
| HookDeleted (id : string).

Definition DeliveryHistory (localeTime : string -> string) (deliveries : list Delivery) : html HookMsg :=
  div (show (length deliveries =? 0)%nat (Elem "p" [] [Text "No deliveries yet."]) ::
       List.map (fun d =>
         div [Elem (if String.eqb (dl_status d) "success" then "CheckCircle2" else "XCircle") [] [];
              span [Text (localeTime (dl_time d))];
              match dl_code d with
              | Some n => Elem "Badge" [] [Text (string_of_num n)]
              | None => Nothing
              end;
              show (str_truthy (dl_body d)) (span [Text (dl_body d)])]) deliveries).

(** The text of a test's answer. *)
Definition test_text (r : jsval) : string :=
  let member k := default JUndef (get_prop r k) in
  let tail := if truthy (member "response") then " · " +:+ js_string (member "response") else "" in
  if truthy (member "ok") then "✓ Delivered — HTTP " +:+ js_string (member "status_code") +:+ tail
  else if num_gt (to_number (member "status_code")) (Num 0 0) then
    "✗ Endpoint returned HTTP " +:+ js_string (member "status_code") +:+ tail
  else "✗ " +:+ js_string (js_or (member "error") (JStr "Could not reach the endpoint")).

(** The state of a row: open, and the text of its last test. *)
Record HookRow := { hr_expanded : bool; hr_test : option string }.

Definition with_test (t : option string) (r : HookRow) : HookRow :=
  {| hr_expanded := hr_expanded r; hr_test := t |}.

(** A message of the row with the id [id]: the chevron, and the start of a test, which
    clears the last result. *)
Definition row_update (id : string) (m : HookMsg) (r : HookRow) : HookRow :=
  match m with
  | HookToggled i =>
      if String.eqb i id then {| hr_expanded := negb (hr_expanded r); hr_test := hr_test r |} else r
  | HookTested i => if String.eqb i id then with_test None r else r
  | _ => r
  end.

(** [handleTest] after its first update. *)
Definition handleTest (BASE projectId id : string) : prog (HookRow -> HookRow) :=
  try_catch
    (r ← m_fn (useTestWebhook BASE projectId) id;
     _ ← js_prop r "ok";
     mret (with_test (Some (test_text r))))
    (fun e => mret (with_test (Some ("Error: " +:+ thrown_text e)))).

Definition WebhookRow (localeTime : string -> string) (testing deleting : bool)
    (deliveries : list Delivery) (r : HookRow) (w : WebhookChannel) : html HookMsg :=
  div [
    div [
      Elem "button" [On "click" (HookToggled (wh_id w))]
        [Elem (if hr_expanded r then "ChevronDown" else "ChevronRight") [] []];
      span [Text (wh_url w)];
      show (str_truthy (wh_secret w)) (Elem "Badge" [] [Text "HMAC"]);
      Elem "Button" [On "click" (HookTested (wh_id w)); Flag "disabled" testing]
        [Elem "TestTube2" [] []; Text "Test"];
      Elem "Button" [On "click" (HookDeleted (wh_id w)); Flag "disabled" deleting]
        [Elem "Trash2" [] []]];
    match some_text (hr_test r) with Some t => div [Text t] | None => Nothing end;
    show (hr_expanded r) (DeliveryHistory localeTime deliveries)].

(** The form. *)
Record HookForm := { hf_shown : bool; hf_url : string; hf_secret : string; hf_error : string }.

Definition hook_initial : HookForm :=
  {| hf_shown := false; hf_url := ""; hf_secret := ""; hf_error := "" |}.

Definition hook_error (e : string) (f : HookForm) : HookForm :=
  {| hf_shown := hf_shown f; hf_url := hf_url f; hf_secret := hf_secret f; hf_error := e |}.

Definition hook_update (m : HookMsg) (f : HookForm) : HookForm :=
  match m with
  | FormToggled =>
      {| hf_shown := negb (hf_shown f); hf_url := hf_url f; hf_secret := hf_secret f;
         hf_error := hf_error f |}
  | FormCancelled =>
      {| hf_shown := false; hf_url := hf_url f; hf_secret := hf_secret f; hf_error := "" |}
  | UrlTyped v =>
      {| hf_shown := hf_shown f; hf_url := v; hf_secret := hf_secret f; hf_error := hf_error f |}
  | SecretTyped v =>
      {| hf_shown := hf_shown f; hf_url := hf_url f; hf_secret := v; hf_error := hf_error f |}
  | _ => f
  end.

(** [handleCreate], called in the state [f]: the updates it makes. *)
Definition handleCreate (BASE projectId : string) (f : HookForm) : prog (HookForm -> HookForm) :=
  if negb (starts_with (hf_url f) "http") then
    mret (fun f' => hook_error "URL must start with http:// or https://" (hook_error "" f'))
  else
    u ← try_catch
      (_ ← m_fn (useCreateWebhook BASE projectId) (hf_url f, some_text (Some (hf_secret f)));
       mret (fun f' => {| hf_shown := false; hf_url := ""; hf_secret := ""; hf_error := hf_error f' |}))
      (fun e => mret (hook_error (thrown_text e)));
    mret (fun f' => u (hook_error "" f')).

Section page.
Context (localeTime : string -> string) (rows : string -> HookRow) (testing deleting : string -> bool)
  (deliveries : string -> list Delivery).

Definition WebhookSection (saving : bool) (f : HookForm) (webhooks : list WebhookChannel) : html HookMsg :=
  Elem "Card" [] [
    div [
      div [Elem "Webhook" [] [];
           div [Elem "h3" [] [Text "Webhooks"];
                Elem "p" [] [Text "POST alerts to any URL — Discord, Slack, n8n, PagerDuty, etc."]]];
      Elem "Button" [On "click" FormToggled] [Elem "Plus" [] []; Text "Add webhook"]];
    show (hf_shown f) (div [
      Elem "Input" [Attr "value" (hf_url f); OnText "change" UrlTyped] [];
      Elem "Input" [Attr "value" (hf_secret f); OnText "change" SecretTyped] [];
      show (str_truthy (hf_error f)) (Elem "p" [] [Text (hf_error f)]);
      div [Elem "Button" [On "click" SaveClicked; Flag "disabled" saving] [Text "Save"];
           Elem "Button" [On "click" FormCancelled] [Text "Cancel"]]]);
    div (List.map (fun w => WebhookRow localeTime (testing (wh_id w)) (deleting (wh_id w))
                              (deliveries (wh_id w)) (rows (wh_id w)) w) webhooks ++
         [show ((length webhooks =? 0)%nat && negb (hf_shown f))
            (Elem "p" [] [Text "No webhooks configured."])])%list].

Inductive NotifyMsg : Type := PushSent (m : PushMsg) | HookSent (m : HookMsg).

Definition NotificationsPage (projectId : option string) (subscribing unsubscribing saving : bool)
    (s : PushState) (f : HookForm) (webhooks : list WebhookChannel) : html NotifyMsg :=
  match some_text projectId with
  | None => div [Text "Select a project in the header to manage notifications."]
  | Some _ =>
      div [
        div [Elem "h1" [] [Text "Notifications"];
             Elem "p" [] [Text "Configure how you receive alerts when anomalies are detected."]];
        map_html PushSent (PushSection subscribing unsubscribing s);
        map_html HookSent (WebhookSection saving f webhooks)]
  end.
End page.

(** ** The VAPID key *)

Lemma remove_ws_app s t : remove_ws (s +:+ t) = remove_ws s +:+ remove_ws t.
Proof. induction s as [|a s IH]; cbn; [done |]. destruct (is_ws a); cbn; by rewrite IH. Qed.

Lemma ends_with_app s p : ends_with (s +:+ p) p = true.
Proof.
  induction s as [|a s IH]; cbn [String.append].
  - destruct p; cbn [ends_with]; by rewrite String.eqb_refl.
  - cbn [ends_with]. by rewrite IH, orb_true_r.
Qed.

Lemma substring_app_l s t : String.substring 0 (String.length s) (s +:+ t) = s.
Proof. induction s as [|a s IH]; cbn; [by destruct t | by rewrite IH]. Qed.

Lemma replace_char_app a b s t :
  replace_char a b (s +:+ t) = replace_char a b s +:+ replace_char a b t.
Proof. apply map_string_app. Qed.

(** The two replacements turn either alphabet into the standard one. *)
Lemma b64_swap_char url n :
  (n < 64)%N ->
  (fun c => if Ascii.eqb c "_" then "/"%char else c)
    ((fun c => if Ascii.eqb c "-" then "+"%char else c) (b64_char url n)) = b64_char false n.
Proof.
  intros H.
  assert (Hall : forallb (fun k => Ascii.eqb ((fun c => if Ascii.eqb c "_" then "/"%char else c)
    ((fun c => if Ascii.eqb c "-" then "+"%char else c) (b64_char url (N.of_nat k))))
    (b64_char false (N.of_nat k))) (seq 0 64) = true) by (by destruct url; vm_compute).
  rewrite forallb_forall in Hall. specialize (Hall (N.to_nat n)). rewrite N2Nat.id in Hall.
  apply Ascii.eqb_eq, Hall, in_seq. lia.
Qed.

Lemma b64_swap url l :
  bytes l ->
  replace_char "_" "/" (replace_char "-" "+" (b64_encode url l)) = b64_encode false l.
Proof.
  unfold bytes, replace_char. induction l as [|x|x y|x y z l IH] using list_ind3; intros H;
    repeat match goal with H : Forall _ (_ :: _) |- _ => inversion H; clear H; subst end;
    cbn [b64_encode map_string]; rewrite ?b64_swap_char by b64_arith; [done.. |].
  by rewrite IH.
Qed.

Lemma b64_length_any url l : String.length (b64_encode url l) = String.length (b64_encode true l).
Proof. induction l as [|x|x y|x y z l IH] using list_ind3; cbn; by rewrite ?IH. Qed.

(** [atob] of an encoding with its padding. *)
Lemma atob_padded l p :
  bytes l -> p = "=" \/ p = "==" -> (String.length (b64_encode false l +:+ p) mod 4 = 0)%nat ->
  atob (b64_encode false l +:+ p) = Some l.
Proof.
  intros H Hp Hl. unfold atob. pose proof (b64_encode_clean false l H) as Hc.
  rewrite remove_ws_app, (remove_ws_id (b64_encode false l)) by done.
  replace (remove_ws p) with p by (by destruct Hp as [->| ->]). rewrite Hl. cbn [Nat.eqb].
  assert (Hs : strip_eq (b64_encode false l +:+ p) = b64_encode false l).
  { unfold strip_eq. destruct Hp as [->| ->].
    - destruct (ends_with (b64_encode false l +:+ "=") "==") eqn:E.
      + exfalso. apply ends_with_split in E. set (t := String.substring _ _ _) in E.
        assert (Hd : b64_encode false l = t +:+ "=").
        { apply (app_inj_r "="). rewrite E. by rewrite <- app_assoc_s. }
        rewrite Hd, all_chars_app in Hc. by apply andb_true_iff in Hc as [_ Hc].
      + rewrite ends_with_app, length_app_s. cbn [String.length].
        replace (String.length (b64_encode false l) + 1 - 1)%nat
          with (String.length (b64_encode false l)) by lia. apply substring_app_l.
    - rewrite ends_with_app, length_app_s. cbn [String.length].
      replace (String.length (b64_encode false l) + 2 - 2)%nat
        with (String.length (b64_encode false l)) by lia. apply substring_app_l. }
  rewrite Hs. by apply b64_decode_encode.
Qed.

Lemma pad_swap k :
  replace_char "_" "/" (replace_char "-" "+" (repeat_string "=" k)) = repeat_string "=" k.
Proof.
  induction k as [|k IH]; [done |]. cbn [repeat_string]. by rewrite !replace_char_app, IH.
Qed.

(** C30 The VAPID key: for every sequence of bytes, the text of the key, in the URL
    alphabet or in the standard one and without padding, is decoded to those bytes. *)
Theorem vapid_key_roundtrip url l :
  bytes l -> urlBase64ToUint8Array (b64_encode url l) = Some l.
Proof.
  intros H. unfold urlBase64ToUint8Array. rewrite !replace_char_app, b64_swap, pad_swap by done.
  pose proof (b64_length l) as H1. rewrite (b64_length_any url). rewrite <- (b64_length_any false) in *.
  set (n := String.length (b64_encode false l)) in *.
  pose proof (Nat.mod_upper_bound n 4 ltac:(lia)) as H4.
  pose proof (Nat.div_mod_eq n 4) as Hd.
  assert (Hc : (n mod 4 = 0 \/ n mod 4 = 2 \/ n mod 4 = 3)%nat) by lia.
  assert (Hm : forall k, (n mod 4 + k = 4)%nat -> ((n + k) mod 4 = 0)%nat).
  { intros k Hk. replace (n + k)%nat with ((n / 4 + 1) * 4)%nat by lia. apply Nat.Div0.mod_mul. }
  destruct Hc as [E|[E|E]]; rewrite E in *.
  - change (repeat_string "=" ((4 - 0) mod 4)) with "". rewrite app_nil_r_s. by apply atob_encode.
  - change (repeat_string "=" ((4 - 2) mod 4)) with "==".
    apply atob_padded; [done | by right | by rewrite length_app_s; apply (Hm 2%nat)].
  - change (repeat_string "=" ((4 - 3) mod 4)) with "=".
    apply atob_padded; [done | by left | by rewrite length_app_s; apply (Hm 1%nat)].
Qed.

Lemma vapid_key_roundtrip_witness :
  Forall (fun n => (n < 256)%N) [4; 255; 62; 251]%N /\
  urlBase64ToUint8Array "BP8--w" = Some [4; 255; 62; 251]%N.
Proof.
  assert (H : bytes [4; 255; 62; 251]%N) by (repeat constructor).
  split; [exact H | exact (vapid_key_roundtrip true _ H)].
Defined.

(** ** Push across reloads and projects *)

Section push_runs.
Context `{Host} (BASE : string).

(** What mounting the page finds for a project. *)
Definition reload_state (c : option string) : PushState :=
  match c with
  | Some _ => {| pushStatus := Active; channelId := c; errorMsg := "" |}
  | None => push_initial
  end.

Lemma push_mount_stored projectId browser sub w :
  has_service_worker browser = true -> b_subscription browser = Ok (Some sub) ->
  exists upd, run (push_mount projectId browser) w = (Ok upd, w) /\
    upd push_initial = reload_state (some_text (storage w !! channel_key projectId)).
Proof.
  intros Hw Hs. unfold push_mount, get_item. rewrite run_bind. cbn [run].
  destruct (some_text (storage w !! channel_key projectId)) as [c|]; [| by eexists].
  rewrite Hw, Hs. cbn. by eexists.
Qed.

(** [handleEnable] always returns; the status it sets is [Active] exactly when the
    channel of the answer is stored. *)
Lemma handleEnable_run projectId browser key w :
  exists upd w', run (handleEnable BASE projectId browser key) w = (Ok upd, w') /\
    (is_active (upd push_initial) = true ->
     exists id, storage w' !! channel_key projectId = Some (js_string id) /\
       upd push_initial = {| pushStatus := Active; channelId := text_of id; errorMsg := "" |}).
Proof.
  unfold handleEnable, set_item, mret, prog_ret. run_simpl.
  destruct (negb (has_service_worker browser) || negb (has_push_manager browser));
    [by eexists _, _ |].
  run_simpl. destruct (b_register browser) as [[]|e]; run_simpl; [| by eexists _, _].
  destruct (b_permission browser) as [perm|e]; run_simpl; [| by eexists _, _].
  destruct (negb (String.eqb perm "granted")); [by eexists _, _ |].
  destruct (some_text key) as [k|]; [| by eexists _, _].
  run_simpl. destruct (urlBase64ToUint8Array k) as [b|]; run_simpl; [| by eexists _, _].
  destruct (b_subscribe browser b) as [sub|e]; run_simpl; [| by eexists _, _].
  destruct (run (m_fn (useSubscribePush BASE projectId) sub) w) as [[channel|e] w1];
    run_simpl; [| by eexists _, _].
  unfold js_prop. destruct (get_prop channel "id") as [id|]; run_simpl; [| by eexists _, _].
  eexists _, _. split; [reflexivity |]. intros _. exists id. cbn. by rewrite lookup_insert_eq.
Qed.
End push_runs.

(** Push survives a reload: when enabling it for a project ends active with a
    channel, the page mounted again, in a browser that still holds the subscription,
    is active with that channel. *)
Theorem push_survives_reload `{Host} BASE projectId browser key w sub upd w' c :
  has_service_worker browser = true -> b_subscription browser = Ok (Some sub) ->
  run (handleEnable BASE projectId browser key) w = (Ok upd, w') ->
  is_active (upd push_initial) = true -> channelId (upd push_initial) = Some c -> c <> "" ->
  exists upd', run (push_mount projectId browser) w' = (Ok upd', w') /\
    upd' push_initial = {| pushStatus := Active; channelId := Some c; errorMsg := "" |}.
Proof.
  intros Hw Hs Hr Ha Hc Hne. destruct (push_mount_stored projectId browser sub w' Hw Hs) as (u & E & Eu).
  exists u. split; [done |]. rewrite Eu.
  destruct (handleEnable_run BASE projectId browser key w) as (upd0 & w0 & E0 & H0).
  rewrite Hr in E0. injection E0 as <- <-. destruct (H0 Ha) as (id & Hst & Hupd).
  rewrite Hst. rewrite Hupd in Hc. cbn in Hc. unfold text_of in Hc.
  destruct (truthy id); [| done]. injection Hc as ->.
  unfold some_text, str_truthy. by destruct c.
Qed.

(** A server that answers with a channel, a browser that grants everything. *)
Definition push_host : Host :=
  {| net := fun _ _ => Some (Response 200 (json_text (JObj [("id", JStr "ch1")])));
     uuid_at := fun _ => "u"; latency := fun _ => 10 |}.

Definition granting : Browser :=
  {| has_service_worker := true; has_push_manager := true; b_register := Ok tt;
     b_permission := Ok "granted"; b_subscribe := fun _ => Ok JNull;
     b_subscription := Ok (Some JNull); b_unsubscribe := Ok tt |}.

Lemma push_survives_reload_witness :
  let w := World ∅ 0 0 [] in
  let after := (@run push_host _ (handleEnable "" "p" granting (Some "BP8--w")) w) in
  storage after.2 !! channel_key "p" = Some "ch1" /\
  exists upd', @run push_host _ (push_mount "p" granting) after.2 = (Ok upd', after.2) /\
    upd' push_initial = {| pushStatus := Active; channelId := Some "ch1"; errorMsg := "" |}.
Proof.
  intros w after. split; [by vm_compute |].
  destruct after as [[upd|e] w'] eqn:E; [| vm_compute in E; discriminate].
  apply (@push_survives_reload push_host "" "p" granting (Some "BP8--w") w JNull upd w' "ch1");
    [reflexivity | reflexivity | exact E | ..];
    vm_compute in E; injection E as <- <-; [reflexivity | reflexivity | discriminate].
Defined.

(** Opening another project leaves the state of the page as it is when that project
    has no channel stored: it shows the first project's push as its own, and to
    disable it is to unsubscribe the first project's channel in the second project's
    name, leaving the first project's channel stored. *)
Theorem push_of_another_project `{Host} BASE p1 p2 browser s c w :
  p1 <> p2 -> pushStatus s = Active -> channelId s = Some c -> c <> "" ->
  storage w !! channel_key p2 = None ->
  (exists upd, run (push_mount p2 browser) w = (Ok upd, w) /\ upd s = s) /\
  handleDisable BASE p2 browser s =
    try_catch
      (_ ← m_fn (useUnsubscribePush BASE p2) c;
       sub ← of_outcome (b_subscription browser);
       match sub with Some _ => of_outcome (b_unsubscribe browser) | None => mret tt end;;
       remove_item (channel_key p2);;
       mret (fun s => with_channel None (with_status Idle s)))
      (fun e => mret (with_message (thrown_text e))) /\
  channel_key p2 <> channel_key p1.
Proof.
  intros Hp Ha Hc Hne Hst. split_and!.
  - unfold push_mount, get_item. rewrite run_bind. cbn [run]. rewrite Hst. cbn. by eexists.
  - unfold handleDisable. rewrite Hc. unfold some_text, str_truthy. by destruct c.
  - intros E. apply Hp. unfold channel_key in E. cbn in E. by injection E.
Qed.

(** The webhook form asks for http:// or https:// and takes any text that starts
    with http. *)
Example webhook_url_check :
  handleCreate "" "p" {| hf_shown := true; hf_url := "httpfoo"; hf_secret := ""; hf_error := "" |} =
  (u ← try_catch
     (_ ← m_fn (useCreateWebhook "" "p") ("httpfoo", None);
      mret (fun f' => {| hf_shown := false; hf_url := ""; hf_secret := ""; hf_error := hf_error f' |}))
     (fun e => mret (hook_error (thrown_text e)));
   mret (fun f' => u (hook_error "" f'))).
Proof. reflexivity. Qed.
