(* ===== verification/Home.v ===== *)
(** * The overview page as a whole (routes/app/_layout/index.tsx)

    The state of the page, what every control does to it and to the search
    parameters, and the tree it renders; the parameters themselves, the export and
    the sorting are in [Overview].  The points and bars of a chart are the children
    of its element, with what a click on them sends.  [tz] is the distance of the
    local time zone from UTC, [now] the time of the render; [locale] and the
    [locale...] functions are the local forms of a number and of a date. *)

From S2P Require Import Prelude JsString JsValue Numbers Dates Encoding Host Html Session HttpApi ApiContract.
From S2P Require Import Queries Overview Shell Events TimeRange.

Local Open Scope string_scope.
Local Open Scope Z_scope.

(** ** The figures of the charts *)

Record TimelinePoint := { tp_hour : string; tp_count : num }.

(** A point of the hourly chart: its label, its time and its count. *)
Definition timelineData (tz : Z) (timeline : list TimelinePoint) : list (string * num * num) :=
  List.map (fun p =>
    let t := parse_date tz (tp_hour p) in
    (match t with Some t => string_of_Z ((t + tz) / 3600000 mod 24) | None => "NaN" end +:+ "h",
     get_time t, tp_count p)) timeline.

Record HistoryPoint := {
  hp_start : string; hp_type : string; hp_events : num; hp_4xx : num; hp_5xx : num
}.

Definition historyChartData (localeDay localeHour : string -> string) (data : list HistoryPoint)
    : list (string * num * num) :=
  List.map (fun p =>
    (if String.eqb (hp_type p) "day" then localeDay (hp_start p) else localeHour (hp_start p),
     hp_events p, num_add (hp_4xx p) (hp_5xx p))) data.

Definition METHOD_COLORS : list (string * string) :=
  [("GET", "#34d399"); ("POST", "#818cf8"); ("PUT", "#fb923c"); ("PATCH", "#60a5fa");
   ("DELETE", "#f87171")].

Record AuditStats := {
  total : num;
  errors_4xx : num;
  errors_5xx : num;
  avg_time : num;
  p95_time : num;
  active_services : num;
  last_event_at : string;
  by_service : list ServiceBreakdown;
  by_status_class : obj;
  by_method : list (string * num);
  timeline : list TimelinePoint
}.

(** [Object.entries(stats.by_method)], without the nameless one. *)
Definition methodData (stats : option AuditStats) : list (string * num) :=
  List.filter (fun e => str_truthy e.1)
    (match stats with Some s => by_method s | None => [] end).

(** ** State and messages *)

Record Home := {
  search : Search;
  environment : option string;
  filterOpen : bool;
  selectedEventId : option string;
  sorting : string * bool;
  showOrphans : bool;
  exporting : bool;
  exportOpen : bool
}.

Definition home_initial (s : Search) (env : option string) : Home :=
  {| search := s; environment := env; filterOpen := false; selectedEventId := None;
     sorting := ("requests", false); showOrphans := false; exporting := false; exportOpen := false |}.

(** The fields of the filter panel. *)
Inductive panel_key : Type := PService | PMethod | PStatus | PIdentifier.

Definition panel_filter (k : panel_key) : filter_key :=
  match k with
  | PService => KService | PMethod => KMethod | PStatus => KStatus | PIdentifier => KIdentifier
  end.

Inductive HomeMsg : Type :=
| RefreshClicked
| OrphansToggled
| EventOpened (id : string)
| DialogSent (m : DialogMsg)
| HeaderClicked (col : string)
| HourClicked (rawHour : num)
| ClassClicked (cls : string)
| MethodClicked (m : string)
| PickerSent (m : PickerMsg)
| PickerCalled (c : PickerCall)
| ClearFiltersClicked
| FilterToggled
| ExportToggled
| ExportClicked (fmt : string)
| ExportDone
| EnvironmentClicked (v : option string)
| FilterTyped (k : panel_key) (v : string)
| FeedSorted (col : string)
| PageSent (m : Shell.PageMsg).

(** ** What a message does to the search parameters *)

Definition with_page (p : Z) (s : Search) : Search :=
  {| page := p; service_name := service_name s; method := method s; path := path s;
     status_code := status_code s; status_class := status_class s; identifier := identifier s;
     time_range := time_range s; start_date := start_date s; end_date := end_date s;
     sort_by := sort_by s; sort_order := sort_order s |}.

Definition with_range (range start end_ : option string) (s : Search) : Search :=
  {| page := 1; service_name := service_name s; method := method s; path := path s;
     status_code := status_code s; status_class := status_class s; identifier := identifier s;
     time_range := range; start_date := start; end_date := end_;
     sort_by := sort_by s; sort_order := sort_order s |}.

(** A bar of the status chart: its class is selected, or no longer, and the status
    code is cleared. *)
Definition with_class (cls : option string) (s : Search) : Search :=
  {| page := 1; service_name := service_name s; method := method s; path := path s;
     status_code := None; status_class := cls; identifier := identifier s;
     time_range := time_range s; start_date := start_date s; end_date := end_date s;
     sort_by := sort_by s; sort_order := sort_order s |}.

Definition with_method (m : option string) (s : Search) : Search :=
  {| page := 1; service_name := service_name s; method := m; path := path s;
     status_code := status_code s; status_class := status_class s; identifier := identifier s;
     time_range := time_range s; start_date := start_date s; end_date := end_date s;
     sort_by := sort_by s; sort_order := sort_order s |}.

(** [current === v ? undefined : v] *)
Definition toggle (current : option string) (v : string) : option string :=
  match current with
  | Some c => if String.eqb c v then None else Some v
  | None => Some v
  end.

(** A click on the hourly chart: the hour from [rawHour]; nothing when one of its
    ends has no ISO form (the RangeError ends the handler). *)
Definition hour_range (rawHour : num) (s : Search) : Search :=
  match time_clip rawHour, time_clip (num_add rawHour (Num 3600000 0)) with
  | Some a, Some b => with_range (Some "custom") (Some (to_iso_string a)) (Some (to_iso_string b)) s
  | _, _ => s
  end.

Definition picker_range (c : PickerCall) (s : Search) : Search :=
  match c with
  | OnRelative r => with_range (Some r) None None s
  | OnAbsolute a b => with_range (Some "custom") (Some a) (some_text (Some b)) s
  | OnClear => with_range None None None s
  end.

Definition navigated (m : HomeMsg) (s : Search) : Search :=
  match m with
  | HourClicked rawHour => hour_range rawHour s
  | ClassClicked cls => with_class (toggle (status_class s) cls) s
  | MethodClicked m => with_method (toggle (method s) m) s
  | PickerCalled c => picker_range c s
  | ClearFiltersClicked => clearFilters s
  | FilterTyped k v => setFilter (panel_filter k) v s
  | FeedSorted col => toggleFeedSort col s
  | PageSent (SetPage p) => with_page p s
  | _ => s
  end.

(** ** What it does to the page *)

Definition set_exporting (e o : bool) (h : Home) : Home :=
  {| search := search h; environment := environment h; filterOpen := filterOpen h;
     selectedEventId := selectedEventId h; sorting := sorting h; showOrphans := showOrphans h;
     exporting := e; exportOpen := o |}.

(** [setSelectedEventId] and [setSelectedEnvironment]. *)
Definition select_event (id : option string) (h : Home) : Home :=
  {| search := search h; environment := environment h; filterOpen := filterOpen h;
     selectedEventId := id; sorting := sorting h; showOrphans := showOrphans h;
     exporting := exporting h; exportOpen := exportOpen h |}.

Definition select_environment (v : option string) (h : Home) : Home :=
  {| search := search h; environment := v; filterOpen := filterOpen h;
     selectedEventId := selectedEventId h; sorting := sorting h; showOrphans := showOrphans h;
     exporting := exporting h; exportOpen := exportOpen h |}.

Definition update (m : HomeMsg) (h : Home) : Home :=
  match m with
  | OrphansToggled =>
      {| search := search h; environment := environment h; filterOpen := filterOpen h;
         selectedEventId := selectedEventId h; sorting := sorting h;
         showOrphans := negb (showOrphans h); exporting := exporting h; exportOpen := exportOpen h |}
  | EventOpened id => select_event (Some id) h
  | DialogSent CloseDialog => select_event None h
  | HeaderClicked col =>
      {| search := search h; environment := environment h; filterOpen := filterOpen h;
         selectedEventId := selectedEventId h; sorting := toggleSort col (sorting h);
         showOrphans := showOrphans h; exporting := exporting h; exportOpen := exportOpen h |}
  | FilterToggled =>
      {| search := search h; environment := environment h; filterOpen := negb (filterOpen h);
         selectedEventId := selectedEventId h; sorting := sorting h; showOrphans := showOrphans h;
         exporting := exporting h; exportOpen := exportOpen h |}
  | ExportToggled => set_exporting (exporting h) (negb (exportOpen h)) h
  | ExportClicked _ => set_exporting true false h
  | ExportDone => set_exporting false (exportOpen h) h
  | EnvironmentClicked v => select_environment v h
  | _ =>
      {| search := navigated m (search h); environment := environment h; filterOpen := filterOpen h;
         selectedEventId := selectedEventId h; sorting := sorting h; showOrphans := showOrphans h;
         exporting := exporting h; exportOpen := exportOpen h |}
  end.

(** The export a click starts, over the filters of that render; its end sends
    [ExportDone]. *)
Definition export_of (BASE : string) (statusText : response -> string) (m : HomeMsg)
    (projectId : option string) (h : Home) : option (prog exported) :=
  match m with
  | ExportClicked fmt =>
      Some (handleExport BASE statusText fmt projectId (activeFilters (search h) (environment h)))
  | _ => None
  end.

(** The queries of the page; the clock was read once, when it was mounted. *)
Definition since24h (mounted : Z) : string := to_iso_string (mounted - 24 * 60 * 60 * 1000).

Definition home_queries (BASE : string) (tz now mounted : Z) (projectId : option string) (h : Home)
    : list query :=
  let env := environment h in
  [useAuditStats BASE projectId env;
   useAuditList BASE (page (search h)) limit projectId (Some (activeFilters (search h) env));
   useAnomalyAlerts BASE tz now projectId env;
   useAuditHistory BASE projectId None None env;
   useOrphans BASE (Some [("projectId", key_opt projectId); ("start_date", JStr (since24h mounted));
                          ("environment", key_opt env)]);
   useMonitors BASE projectId;
   useAuditDetail BASE (selectedEventId h)].

(** What [refresh] asks again: the statistics and the list. *)
Definition refresh (queries : list query) : list query := take 2 queries.

(** ** The view *)

Record FeedEvent := {
  fe_id : string;
  fe_event_type : string;
  fe_identifier : string;
  fe_method : string;
  fe_path : string;
  fe_status : num;
  fe_service : string;
  fe_timestamp : string;
  fe_response_time : num
}.

Record MonitorInfo := { mi_id : string; mi_name : string; mi_url : string; mi_status : string }.

(** What the queries of the page have answered. *)
Record HomeData := {
  h_stats : option AuditStats;
  h_stats_loading : bool;
  h_list : option (list FeedEvent * Z);      (** the events and [pagination.totalPage] *)
  h_list_error : bool;
  h_anomalies : option num;                  (** [pagination.totalItems] *)
  h_history : option (list HistoryPoint);
  h_orphans : option (list FeedEvent * num); (** [data] and [total] *)
  h_monitors : list MonitorInfo
}.

Definition errorRateBadge (rate : num) : html HomeMsg :=
  let badge c := Elem "Badge" [Attr "className" ("bg-[" +:+ c +:+ "]/20 text-[" +:+ c +:+
    "] border-[" +:+ c +:+ "]/30")] [Text (to_fixed 1 rate); Text "%"] in
  if num_ge rate (Num 5 0) then badge "#f87171"
  else if num_ge rate (Num 1 0) then badge "#fb923c"
  else badge "#34d399".

Definition SortIcon (sorting : string * bool) (col : string) : html HomeMsg :=
  if negb (String.eqb sorting.1 col) then Elem "ChevronDown" [Attr "className" "h-3 w-3 opacity-30"] []
  else if sorting.2 then Elem "ChevronUp" [] [] else Elem "ChevronDown" [] [].

(** [(a / total) * 100] with a decimal, when there are events. *)
Definition share (stats : option AuditStats) (a : AuditStats -> num) : option string :=
  match stats with
  | Some s =>
      if num_gt (total s) (Num 0 0)
      then Some (to_fixed 1 (num_mul (num_div (a s) (total s)) (Num 100 0)) +:+ "%") else None
  | None => None
  end.

Section view.
Context (tz now : Z) (locale : num -> string).
Context (localeDate localeClock localeDay localeHour : string -> string).

Definition header (projectId : option string) (stats : option AuditStats) : html HomeMsg :=
  div [
    div [
      Elem "h1" [] [Text (match projectId with
        | None => "All Projects"
        | Some _ =>
            match stats with
            | Some s => match by_service s with svc :: _ => svc_name svc | [] => "Dashboard" end
            | None => "Dashboard"
            end
        end)];
      Elem "p" [] [Text (match s ← stats; some_text (Some (last_event_at s)) with
        | Some t => "Last event: " +:+ timeAgo localeDate tz now t
        | None => "No events yet"
        end)]];
    Elem "Button" [On "click" RefreshClicked] [Elem "RefreshCw" [] []; Text "Refresh"]].

Record MetricCard := { mc_label : string; mc_value : string; mc_sub : option string; mc_color : string }.

Definition metric_cards (d : HomeData) : list MetricCard :=
  let stats := h_stats d in
  let field f := default (Num 0 0) (f <$> stats) in
  let value t := if h_stats_loading d then "…" else t in
  let ms n := string_of_num (math_round n) +:+ "ms" in
  [{| mc_label := "Total Events"; mc_value := value (locale (field total)); mc_sub := None;
      mc_color := "#818cf8" |};
   {| mc_label := "Active Services"; mc_value := value (string_of_num (field active_services));
      mc_sub := None; mc_color := "#34d399" |};
   {| mc_label := "Errors 4xx"; mc_value := value (string_of_num (field errors_4xx));
      mc_sub := share stats errors_4xx; mc_color := "#fb923c" |};
   {| mc_label := "Errors 5xx"; mc_value := value (string_of_num (field errors_5xx));
      mc_sub := share stats errors_5xx; mc_color := "#f87171" |};
   {| mc_label := "Avg Response"; mc_value := value (ms (field avg_time)); mc_sub := None;
      mc_color := "#60a5fa" |};
   {| mc_label := "p95 Response"; mc_value := value (ms (field p95_time)); mc_sub := None;
      mc_color := "#2dd4bf" |};
   {| mc_label := "Anomaly Alerts"; mc_value := string_of_num (default (Num 0 0) (h_anomalies d));
      mc_sub := None; mc_color := "#f87171" |};
   {| mc_label := "Orphan Requests";
      mc_value := string_of_num (default (Num 0 0) (snd <$> h_orphans d)); mc_sub := None;
      mc_color := "#fb923c" |}].

Definition metric_card (c : MetricCard) : html HomeMsg :=
  Elem "Card" [] [
    Elem "p" [] [Text (mc_label c)];
    Elem "p" [Attr "color" (mc_color c)] [Text (mc_value c)];
    match c with
    | {| mc_sub := Some t |} => Elem "p" [Attr "color" (mc_color c)] [Text t]
    | _ => Nothing
    end].

Definition down_monitors (monitors : list MonitorInfo) : list MonitorInfo :=
  List.filter (fun m => String.eqb (mi_status m) "down") monitors.

Definition monitors_banner (monitors : list MonitorInfo) : html HomeMsg :=
  let down := down_monitors monitors in
  show (0 <? length down)%nat (Elem "Card" [] [
    Elem "XCircle" [] [];
    div [
      Elem "p" [] [Text (string_of_Z (Z.of_nat (length down))); Text " monitor";
                   Text (if (length down =? 1)%nat then "" else "s"); Text " down"];
      div (List.map (fun m => span [Text (mi_name m); Text " — "; Text (mi_url m)]) down)]]).

Definition method_badge (m : string) : html HomeMsg :=
  Elem "Badge" [Attr "className" ("text-xs font-mono shrink-0 " +:+ Overview.methodColor m)] [Text m].

Definition orphans_banner (open : bool) (orphans : option (list FeedEvent * num)) : html HomeMsg :=
  match orphans with
  | None => Nothing
  | Some (data, n) =>
      show (num_gt n (Num 0 0)) (div [
        Elem "Card" [] [
          Elem "Unlink" [] [];
          div [
            Elem "p" [] [Text (string_of_num n); Text " request";
              Text (match n with Num 1 O => "" | _ => "s" end);
              Text " without backend response in the last 24h"];
            Elem "p" [] [Text "Browser-side events with no matching backend audit — possible crashes, timeouts, or OOM kills."]];
          Elem "Button" [On "click" OrphansToggled] [Text (if open then "Hide" else "View orphans")]];
        show open (Elem "Card" [] [
          div [Text "Orphan requests (last 24h)"];
          div (List.map (fun e =>
            Elem "div" [On "click" (EventOpened (fe_id e))] [
              span [Text (localeClock (fe_timestamp e))];
              span [Text (fe_service e)];
              method_badge (fe_method e);
              span [Text (fe_path e)];
              span [Text (fe_identifier e)]]) data)])])
  end.

(** The columns of the table; the last two are not sorted by. *)
Definition service_columns : list (string * string) :=
  [("service_name", "Service"); ("requests", "Requests"); ("errors", "Errors");
   ("error_rate", "Error Rate"); ("avg_response_time", "Avg Time"); ("last_event", "Last Event");
   ("health", "Health")].

Definition sortable (col : string) : bool :=
  negb (String.eqb col "error_rate") && negb (String.eqb col "health").

Definition health_cell (status : option string) : html HomeMsg :=
  let shows s := match status with Some x => String.eqb x s | None => false end in
  Elem "td" [] [
    show (shows "up") (span [span []; Text " UP"]);
    show (shows "down") (span [span []; Text " DOWN"]);
    show (negb (match some_text status with Some _ => true | None => false end)) (span [Text "—"])].

Definition error_rate (svc : ServiceBreakdown) : num :=
  if num_gt (requests svc) (Num 0 0)
  then num_mul (num_div (errors svc) (requests svc)) (Num 100 0) else Num 0 0.

Definition service_row (health : gmap string string) (svc : ServiceBreakdown) : html HomeMsg :=
  Elem "tr" [] [
    Elem "td" [] [Text (svc_name svc)];
    Elem "td" [] [Text (locale (requests svc))];
    Elem "td" [] [Text (locale (errors svc))];
    Elem "td" [] [errorRateBadge (error_rate svc)];
    Elem "td" [] [Text (string_of_num (math_round (avg_response_time svc))); Text "ms"];
    Elem "td" [] [Text (timeAgo localeDate tz now (last_event svc))];
    health_cell (health !! svc_name svc)].

Definition services_table (sorting : string * bool) (stats : option AuditStats)
    (monitors : list MonitorInfo) : html HomeMsg :=
  let rows := match stats with
              | Some s => sortedServices (by_service s) sorting.1 sorting.2
              | None => []
              end in
  let health := monitorByService (List.map (fun m => (mi_name m, mi_status m)) monitors) in
  show (0 <? length rows)%nat (Elem "Card" [] [Elem "table" [] [
    Elem "thead" [] [Elem "tr" [] (List.map (fun '(key, label) =>
      Elem "th" (if sortable key then [On "click" (HeaderClicked key)] else [])
        [span [Text label; show (sortable key) (SortIcon sorting key)]]) service_columns)];
    Elem "tbody" [] (List.map (service_row health) rows)]]).

(** [x ? 1 : 0.35] of a bar against the selected value. *)
Definition opacity (selected : option string) (name : string) : string :=
  match some_text selected with
  | None => "1"
  | Some s => if String.eqb s name then "1" else "0.35"
  end.

Definition timeline_chart (stats : option AuditStats) : html HomeMsg :=
  Elem "Card" [] [
    Elem "p" [] [Text "Events / hour (last 24h) "; span [Text "(click to filter)"]];
    Elem "AreaChart" [] (List.map (fun '(hour, rawHour, count) =>
      Elem "Area" [On "click" (HourClicked rawHour); Attr "hour" hour; Attr "count" (string_of_num count)] [])
      (match stats with Some s => timelineData tz (timeline s) | None => [] end))].

Definition history_chart (projectId : option string) (history : option (list HistoryPoint))
    : html HomeMsg :=
  let points := historyChartData localeDay localeHour (default [] history) in
  Elem "Card" [] [
    Elem "p" [] [Text "Event history (90 days)"];
    match some_text projectId with
    | None => div [Text "Select a project to view 90-day history"]
    | Some _ =>
        if (length points =? 0)%nat then
          div [Elem "p" [] [Text "No history yet for this project"];
               Elem "p" [] [Text "Daily history builds up as events are recorded over time."]]
        else Elem "AreaChart" [] (List.map (fun '(label, events, errors) =>
               Elem "Area" [Attr "label" label; Attr "events" (string_of_num events);
                            Attr "errors" (string_of_num errors)] []) points)
    end].

Definition status_chart (s : Search) (stats : option AuditStats) : html HomeMsg :=
  let data := match stats with Some st => statusData (by_status_class st) | None => [] end in
  let value v := match v with JNum n => locale n | _ => js_string v end in
  Elem "Card" [] [
    Elem "p" [] [Text "Status distribution "; span [Text "(click to filter)"]];
    Elem "BarChart" [] (List.map (fun '(name, v, color) =>
      Elem "Bar" [On "click" (ClassClicked name); Attr "fill" color; Attr "value" (js_string v);
                  Attr "opacity" (opacity (status_class s) name)] []) data);
    div (List.map (fun '(name, v, color) =>
      span [Elem "span" [Attr "background" color] []; Text name; Text ": "; Text (value v)]) data)].

Definition methods_chart (s : Search) (stats : option AuditStats) : html HomeMsg :=
  Elem "Card" [] [
    Elem "p" [] [Text "Methods "; span [Text "(click to filter)"]];
    Elem "BarChart" [] (List.map (fun '(name, v) =>
      Elem "Bar" [On "click" (MethodClicked name);
                  Attr "fill" (default "#64748b" (assoc name METHOD_COLORS));
                  Attr "value" (string_of_num v); Attr "opacity" (opacity (method s) name)] [])
      (methodData stats))].

(** ** The feed *)

Definition feed_header (picker : html PickerMsg) (h : Home) : html HomeMsg :=
  let filtered := hasFilters (search h) in
  div [
    Elem "p" [] [Text "Event Feed"];
    div [
      map_html PickerSent picker;
      show filtered (Elem "Button" [On "click" ClearFiltersClicked] [Elem "X" [] []; Text "Clear"]);
      Elem "Button" [Attr "variant" (if filterOpen h then "secondary" else "outline");
                     On "click" FilterToggled]
        [Elem "Filter" [] []; Text "Filter"; show filtered (span [])];
      div [
        Elem "Button" [Flag "disabled" (exporting h); On "click" ExportToggled]
          [Elem "Download" [] []; Text (if exporting h then "Exporting…" else "Export")];
        show (exportOpen h) (div [
          Elem "button" [On "click" (ExportClicked "csv")] [Text "CSV"];
          Elem "button" [On "click" (ExportClicked "json")] [Text "JSON"]])]]].

(** The quick filter: the environments with the classes of the selected one. *)
Definition environments : list (option string * string * string) :=
  [(None, "All envs", "bg-foreground text-background border-foreground");
   (Some "production", "production", "text-[#34d399] border-[#34d399]/50 bg-[#34d399]/10");
   (Some "staging", "staging", "text-[#60a5fa] border-[#60a5fa]/50 bg-[#60a5fa]/10");
   (Some "development", "development", "text-[#818cf8] border-[#818cf8]/50 bg-[#818cf8]/10");
   (Some "testing", "testing", "text-[#fb923c] border-[#fb923c]/50 bg-[#fb923c]/10");
   (Some "local", "local", "text-muted-foreground border-border/60 bg-muted/30")].

Definition env_filter (selected : option string) : html HomeMsg :=
  div (List.map (fun '(value, label, color) =>
    Elem "button" [On "click" (EnvironmentClicked value);
                   Attr "className" (if decide (selected = value) then color
                     else "text-muted-foreground border-border/40 hover:border-border hover:text-foreground")]
      [Text label]) environments).

Definition panel_input (k : panel_key) (placeholder : string) (value : option string) : html HomeMsg :=
  Elem "Input" [Attr "placeholder" placeholder; Attr "value" (default "" value);
                OnText "change" (FilterTyped k)] [].

Definition filter_panel (s : Search) : html HomeMsg :=
  Elem "Card" [] [div [
    panel_input PService "Service name" (service_name s);
    Elem "select" [Attr "value" (default "" (method s)); OnText "change" (FilterTyped PMethod)]
      (Elem "option" [Attr "value" ""] [Text "All methods"] ::
       List.map (fun m => Elem "option" [Attr "value" m] [Text m]) ["GET"; "POST"; "PUT"; "PATCH"; "DELETE"]);
    panel_input PStatus "Status code (e.g. 404)" (status_code s);
    panel_input PIdentifier "Identifier" (identifier s)]].

Definition feed_columns : list (string * string) :=
  [("timestamp", "Time"); ("status_code", "Status"); ("response_time", "Time(ms)")].

Definition sort_header (s : Search) : html HomeMsg :=
  div (List.map (fun '(col, label) =>
    let isActive := String.eqb (default "timestamp" (sort_by s)) col in
    Elem "button" [On "click" (FeedSorted col); Flag "text-foreground" isActive]
      [Text label;
       show isActive (Elem (match sort_order s with
                            | Some o => if String.eqb o "asc" then "ChevronUp" else "ChevronDown"
                            | None => "ChevronDown"
                            end) [] [])]) feed_columns).

Definition feed_row (e : FeedEvent) : html HomeMsg :=
  let alert := String.eqb (fe_event_type e) "system.alert" in
  Elem "div" [On "click" (EventOpened (fe_id e))] [
    span [Text (localeClock (fe_timestamp e))];
    span [Text (fe_service e)];
    if alert then Elem "Badge" [] [Elem "ShieldAlert" [] []; Text "ALERT"] else method_badge (fe_method e);
    span [Text (fe_path e)];
    show (negb alert)
      (Elem "Badge" [Attr "className" ("text-xs font-mono shrink-0 " +:+ statusColor (fe_status e))]
         [Text (string_of_num (fe_status e))]);
    span [Text (if truthy (JNum (fe_response_time e)) then string_of_num (fe_response_time e) +:+ "ms"
                else "—")]].

Definition event_feed (s : Search) (error : bool) (list : option (list FeedEvent * Z)) : html HomeMsg :=
  if error then
    div [Elem "AlertCircle" [] []; Text "Failed to load events. Check your connection and try again."]
  else
    div [
      sort_header s;
      match list with
      | Some ([], _) => Elem "p" [] [Text "No events found."]
      | _ => Nothing
      end;
      div (List.map feed_row (match list with Some (l, _) => l | None => [] end))].

(** The page.  [picker] is what the time range picker renders, [dialog] the event's
    detail. *)
Definition RouteComponent (picker : html PickerMsg) (dialog : html DialogMsg) (projectId : option string)
    (d : HomeData) (h : Home) : html HomeMsg :=
  let s := search h in
  div [
    header projectId (h_stats d);
    div (List.map metric_card (metric_cards d));
    monitors_banner (h_monitors d);
    orphans_banner (showOrphans h) (h_orphans d);
    services_table (sorting h) (h_stats d) (h_monitors d);
    div [timeline_chart (h_stats d); history_chart projectId (h_history d);
         status_chart s (h_stats d); methods_chart s (h_stats d)];
    div [
      feed_header picker h;
      env_filter (environment h);
      show (filterOpen h) (filter_panel s);
      event_feed s (h_list_error d) (h_list d);
      map_html PageSent (AppPagination (page s) (default 1 (snd <$> h_list d)))];
    map_html DialogSent dialog].

(** With its children: the picker over the range of the URL, which fails with a
    RangeError as [TimeRangePicker] does, and the dialog of the selected event. *)
Definition home_page `{DateFns} (localeTime : string -> string) (picker : Picker)
    (detail : option AuditDetail) (detailLoading revealed : bool) (projectId : option string)
    (d : HomeData) (h : Home) : option (html HomeMsg) :=
  let s := search h in
  p ← TimeRangePicker {| timeRange := time_range s; startDate := start_date s; endDate := end_date s |}
        picker;
  Some (RouteComponent p (EventDetailModal localeTime (selectedEventId h) detailLoading detail revealed)
          projectId d h).
End view.

(** ** What the list asks for *)

Definition home_run (ms : list HomeMsg) (h : Home) : Home := fold_left (fun h m => update m h) ms h.

Lemma update_search m h : search (update m h) = navigated m (search h).
Proof. by destruct m as [| | |[]| | | | | | | | | | | | | | |]. Qed.

(** Every control but the pagination leads to the first page of what it shows. *)
Lemma filters_first_page m h :
  search (update m h) = search h \/ page (search (update m h)) = 1 \/
  exists p, m = PageSent (SetPage p) /\ search (update m h) = with_page p (search h).
Proof.
  rewrite update_search. destruct m as [| | | | |r| | | |[]| | | | | | | | |[p]]; cbn; eauto.
  unfold hour_range. destruct (time_clip r); [| by left]. destruct (time_clip _); [| by left].
  by right; left.
Qed.

(** The member the list reads for a filter other than a date. *)
Definition plain_filter (s : Search) (environment : option string) (k : string) : jsval :=
  default JUndef (assoc k
    [("service_name", jstr_opt (service_name s)); ("method", jstr_opt (method s));
     ("path", jstr_opt (path s)); ("status_code", jstr_opt (status_code s));
     ("status_class", jstr_opt (status_class s)); ("environment", jstr_opt environment);
     ("identifier", jstr_opt (identifier s)); ("sort_by", jstr_opt (sort_by s));
     ("sort_order", jstr_opt (sort_order s))]).

(** The members of the dates. *)
Definition date_filter (s : Search) (now : Z) (k : string) : jsval :=
  if relative_range s then
    match ms ← (r ← time_range s; assoc r TIME_RANGE_MS); Some (to_iso_string (now - ms)) with
    | Some t => if String.eqb k "start_date" then JStr t else JUndef
    | None => JUndef
    end
  else if String.eqb k "start_date" then jstr_opt (start_date s) else jstr_opt (end_date s).

Definition list_obj (s : Search) (projectId environment : option string) (now : Z) : obj :=
  audit_params (page s) limit projectId (resolve_filters (Some (activeFilters s environment)) now).

Lemma list_obj_members s projectId environment now k :
  In k (List.map fst list_audit_fields) ->
  member (Some (list_obj s projectId environment now)) k =
  if existsb (String.eqb k) ["start_date"; "end_date"] then date_filter s now k
  else if String.eqb k "projectId" then key_opt projectId
  else if String.eqb k "page" then JInt (page s)
  else if String.eqb k "limit" then JInt limit
  else plain_filter s environment k.
Proof.
  unfold list_obj, resolve_filters, activeFilters, date_filter, relative_range.
  change (member (Some _) "time_range") with (jstr_opt (time_range s)).
  intros Hk. destruct (time_range s) as [r|]; cbn [jstr_opt jopt some_text];
    [destruct (str_truthy r); cbn [andb]; [destruct (String.eqb r "custom"); cbn [negb];
      [| cbn [mbind option_bind]; destruct (assoc r TIME_RANGE_MS)] |] |];
    repeat destruct Hk as [<- | Hk]; done.
Qed.

Lemma list_params_fields s projectId environment now :
  list_params s projectId environment now =
  set_fields list_audit_fields (Some (list_obj s projectId environment now)).
Proof. unfold list_params. apply search_of_fields. by apply (bool_decide_unpack _); vm_compute. Qed.

Lemma set_fields_ext fields o1 o2 :
  (forall k, In k (List.map fst fields) -> member o1 k = member o2 k) ->
  set_fields fields o1 = set_fields fields o2.
Proof.
  unfold set_fields. induction fields as [|[m k] fields IH]; intros H; [done |]. cbn [omap list_omap fst].
  rewrite (H m) by by left. rewrite IH; [done |]. intros k' Hk. apply H. by right.
Qed.

(** The parameters of the list other than the page and the dates. *)
Definition undated (k : string) : bool :=
  negb (existsb (String.eqb k) ["page"; "start_date"; "end_date"]).

(** A change of the dates and the page leaves the other parameters. *)
Lemma undated_kept s range start end_ projectId env now :
  List.filter (fun kv => undated kv.1) (list_params (with_range range start end_ s) projectId env now) =
  List.filter (fun kv => undated kv.1) (list_params s projectId env now).
Proof.
  rewrite !list_params_fields, !filter_set_fields. apply set_fields_ext. intros k Hk.
  rewrite !list_obj_members by (repeat destruct Hk as [<- | Hk]; cbn; tauto).
  by repeat destruct Hk as [<- | Hk].
Qed.

Lemma time_clip_range t : Z.abs t <= 8640000000000000 -> time_clip (Num t 0) = Some t.
Proof. intros Ht. cbn. rewrite Z.quot_1_r. by rewrite (proj2 (Z.leb_le _ _)) by lia. Qed.

(** A click on the hourly chart: for a point whose hour is a time an hour before
    the end of the dates, the list then asks for the first page of the events from
    that time to an hour after it, with the other filters as they were. *)
Theorem hour_click_selects_hour tz p t h projectId now :
  parse_date tz (tp_hour p) = Some t -> Z.abs t + 3600000 <= 8640000000000000 ->
  exists label rawHour, timelineData tz [p] = [(label, rawHour, tp_count p)] /\
    let params s := list_params s projectId (environment h) now in
    let after := params (search (update (HourClicked rawHour) h)) in
    In ("start_date", to_iso_string t) after /\ In ("end_date", to_iso_string (t + 3600000)) after /\
    In ("page", "1") after /\
    List.filter (fun kv => undated kv.1) after =
    List.filter (fun kv => undated kv.1) (params (search h)).
Proof.
  intros Hp Ht. eexists _, _. split; [reflexivity |]. cbn zeta. rewrite Hp, update_search. cbn [get_time navigated].
  unfold hour_range. rewrite time_clip_range by lia.
  assert (E : num_add (Num t 0) (Num 3600000 0) = Num (t + 3600000) 0)
    by (cbn; f_equal; lia).
  rewrite E, time_clip_range by lia. split_and!; [| | | apply undated_kept];
    rewrite list_params_fields; apply in_set_fields.
  - exists "start_date". rewrite list_obj_members by (cbn; tauto). split; [cbn; tauto |].
    split; [cbn; apply iso_truthy | done].
  - exists "end_date". rewrite list_obj_members by (cbn; tauto). split; [cbn; tauto |].
    split; [cbn; apply iso_truthy | done].
  - exists "page". rewrite list_obj_members by (cbn; tauto). split; [cbn; tauto |]. by split.
Qed.

Lemma hour_click_selects_hour_witness :
  parse_date 0 "2025-01-01T10:00:00Z" = Some 1735725600000 /\
  In ("end_date", "2025-01-01T11:00:00.000Z")
    (list_params (search (update (HourClicked (Num 1735725600000 0))
       (home_initial (setFilter KMethod "GET" no_filters) None))) None None 0).
Proof.
  split; [by vm_compute |].
  destruct (hour_click_selects_hour 0 {| tp_hour := "2025-01-01T10:00:00Z"; tp_count := Num 3 0 |}
    1735725600000 (home_initial (setFilter KMethod "GET" no_filters) None) None 0
    ltac:(by vm_compute) ltac:(lia)) as (label & raw & E & _ & H & _).
  vm_compute in E. injection E as <- <-. exact H.
Defined.

(** ** The filters and the button that clears them *)

(** The ranges a picker of the page can call with. *)
Definition call_ok (c : PickerCall) : Prop :=
  match c with
  | OnRelative r => assoc r TIME_RANGE_MS <> None
  | OnAbsolute a _ => a <> ""
  | OnClear => True
  end.

Definition sendable (m : HomeMsg) : Prop := match m with PickerCalled c => call_ok c | _ => True end.

Lemma iso_ne t : to_iso_string t <> "".
Proof. intros E. pose proof (iso_truthy t) as H. by rewrite E in H. Qed.

(** The picker calls with nothing else, when the relative ranges clicked are known. *)
Lemma picker_calls_ok `{DateFns} p m s :
  (forall r, m = RelativeClicked r -> assoc r TIME_RANGE_MS <> None) ->
  Forall call_ok (TimeRange.update p m s).2.
Proof.
  intros Hm. destruct m; cbn; try constructor; try done.
  - by apply Hm.
  - case_match; [constructor |]. unfold handleApply.
    destruct (buildDate _ (startTimeStr s)) as [t|]; [| constructor]. constructor; [| constructor].
    exact (iso_ne t).
Qed.

(** A range in the URL is a known relative one without dates, or custom with a
    start; without a range there are no dates. *)
Definition range_ok (s : Search) : Prop :=
  match time_range s with
  | None => start_date s = None /\ end_date s = None
  | Some r =>
      (r = "custom" /\ exists d, start_date s = Some d /\ d <> "") \/
      (assoc r TIME_RANGE_MS <> None /\ start_date s = None /\ end_date s = None)
  end.

Lemma range_ok_sent m s : sendable m -> range_ok s -> range_ok (navigated m s).
Proof.
  intros Hm Hs. destruct m as [| | | | |raw| | | |[r|a b|]| | | | | | |[]| |[p]]; try exact Hs; cbn.
  - unfold hour_range. destruct (time_clip raw) as [t|]; [| done]. destruct (time_clip _); [| done].
    left. split; [done |]. eexists. split; [reflexivity | apply iso_ne].
  - by right.
  - left. split; [done |]. by eexists.
  - by split.
  - by split.
Qed.

Lemma range_ok_run ms h :
  Forall sendable ms -> range_ok (search h) -> range_ok (search (home_run ms h)).
Proof.
  unfold home_run. revert h. induction ms as [|m ms IH]; intros h Hm Hh; [done |].
  inversion Hm; subst. cbn. apply IH; [done |]. rewrite update_search. by apply range_ok_sent.
Qed.

(** What selects events when nothing is filtered: the project and the environment. *)
Definition unfiltered (projectId environment : option string) : params :=
  (opt_param "project_id" projectId ++ opt_param "environment" environment)%list.

(** The parameters of the filters that are set are in the request. *)
Lemma filter_sent s projectId environment now k v :
  In k ["service_name"; "method"; "path"; "status_code"; "status_class"; "identifier"] ->
  plain_filter s environment k = JStr v -> str_truthy v = true ->
  In (k, v) (List.filter (fun kv => selects kv.1) (list_params s projectId environment now)).
Proof.
  intros Hk Hv Ht. apply filter_In. split; [| by repeat destruct Hk as [<- | Hk]].
  rewrite list_params_fields. apply in_set_fields. exists k.
  rewrite list_obj_members by (repeat destruct Hk as [<- | Hk]; cbn; tauto).
  split; [repeat destruct Hk as [<- | Hk]; cbn; tauto |].
  by repeat destruct Hk as [<- | Hk]; cbn [existsb String.eqb Ascii.eqb Bool.eqb orb]; try rewrite Hv.
Qed.

Lemma start_sent s projectId environment now v :
  date_filter s now "start_date" = JStr v -> str_truthy v = true ->
  In ("start_date", v) (List.filter (fun kv => selects kv.1) (list_params s projectId environment now)).
Proof.
  intros Hv Ht. apply filter_In. split; [| done]. rewrite list_params_fields. apply in_set_fields.
  exists "start_date". rewrite list_obj_members by (cbn; tauto). split; [cbn; tauto |].
  cbn [existsb String.eqb Ascii.eqb Bool.eqb orb]. by rewrite Hv.
Qed.

Lemma not_unfiltered k v projectId environment (l : params) :
  In (k, v) l -> k <> "project_id" -> k <> "environment" -> l <> unfiltered projectId environment.
Proof.
  intros Hin H1 H2 ->. unfold unfiltered, opt_param in Hin.
  destruct (some_text projectId), (some_text environment); cbn in Hin;
    repeat destruct Hin as [Hin | Hin]; by simplify_eq.
Qed.

(** A range that is set gives the request a start date. *)
Lemma range_sent s now r :
  range_ok s -> time_range s = Some r -> str_truthy r = true ->
  exists v, date_filter s now "start_date" = JStr v /\ str_truthy v = true.
Proof.
  unfold range_ok, date_filter, relative_range. intros Hs E Hr. rewrite E in *. cbn [some_text]. rewrite Hr.
  destruct Hs as [(-> & d & -> & Hd) | (Hk & _)].
  - cbn. exists d. split; [done |]. unfold str_truthy. by destruct (String.eqb_spec d "").
  - destruct (String.eqb_spec r "custom") as [-> | _]; [done |]. cbn [negb mbind option_bind].
    destruct (assoc r TIME_RANGE_MS) as [ms|]; [| done]. eexists. split; [done | apply iso_truthy].
Qed.

Lemma no_range s :
  range_ok s -> some_text (time_range s) = None ->
  some_text (start_date s) = None /\ some_text (end_date s) = None.
Proof.
  unfold range_ok. destruct (time_range s) as [r|]; [| by intros [-> ->]].
  unfold some_text at 1. destruct (str_truthy r) eqn:E; [done |].
  assert (r = "") as -> by (unfold str_truthy in E; by destruct (String.eqb_spec r "")).
  by intros [[? _] | [? _]].
Qed.

Lemma some_text_filter o v : some_text o = Some v -> jstr_opt o = JStr v /\ str_truthy v = true.
Proof. destruct o as [s|]; cbn; [| done]. destruct (str_truthy s) eqn:E; [| done]. by intros [= ->]. Qed.

Lemma unset_filter o : some_text o = None -> truthy (jstr_opt o) = false.
Proof. destruct o as [s|]; cbn; [| done]. by destruct (str_truthy s). Qed.

(** The fields that are not set can be left out. *)
Lemma set_fields_keep (P : string -> bool) fields o :
  (forall m k, In (m, k) fields -> P m = false -> truthy (member o m) = false) ->
  set_fields fields o = set_fields (List.filter (fun f => P f.1) fields) o.
Proof.
  unfold set_fields. induction fields as [|[m k] fields IH]; intros H; [done |].
  cbn [omap list_omap List.filter fst]. cbn zeta. rewrite IH by (intros m' k' Hin; apply (H m' k'); by right).
  destruct (P m) eqn:E; [done |]. by rewrite (H m k (or_introl eq_refl) E).
Qed.

Lemma no_filter_sent s projectId environment now :
  hasFilters s = false ->
  List.filter (fun kv => selects kv.1) (list_params s projectId environment now) =
  unfiltered projectId environment.
Proof.
  unfold hasFilters. cbn [existsb]. rewrite !orb_false_iff. intros H.
  assert (Hn : forall o, match some_text o with Some _ => true | None => false end = false ->
    truthy (jstr_opt o) = false) by (intros o Ho; apply unset_filter; by destruct (some_text o)).
  destruct H as (Ht & H1 & H2 & H3 & H4 & H5 & H6 & H7 & H8 & _).
  assert (Hd : forall k, truthy (date_filter s now k) = false).
  { intros k. unfold date_filter, relative_range. destruct (some_text (time_range s)); [done |].
    destruct (String.eqb k "start_date"); by apply Hn. }
  rewrite list_params_fields, filter_set_fields.
  rewrite (set_fields_keep (fun m => existsb (String.eqb m) ["projectId"; "environment"])).
  - change (List.filter _ (List.filter _ list_audit_fields))
      with [("projectId", "project_id"); ("environment", "environment")].
    unfold set_fields, unfiltered, opt_param. cbn [omap list_omap fst snd]. cbn zeta.
    rewrite !list_obj_members by (cbn; tauto). cbn.
    destruct projectId as [[|? ?]|], environment as [[|? ?]|]; reflexivity.
  - intros m k Hin Hm. apply filter_In in Hin as [Hin Hk].
    rewrite list_obj_members by (apply in_map_iff; by exists (m, k)).
    repeat destruct Hin as [[= <- <-] | Hin]; try discriminate Hk; try discriminate Hm;
      cbn [existsb String.eqb Ascii.eqb Bool.eqb orb]; try apply Hd; try (by apply Hn); done.
Qed.

(** C23 Whatever the user does, the URL keeps its range consistent (a relative range
    has no dates, a custom one a start, no range nothing), and the button that
    clears the filters is shown exactly when something narrows the list: without it
    the list asks for the project and the environment alone. *)
Theorem clear_shown_iff_filtered ms h projectId now :
  Forall sendable ms -> range_ok (search h) ->
  let h' := home_run ms h in
  range_ok (search h') /\
  (hasFilters (search h') = false <->
   List.filter (fun kv => selects kv.1) (list_params (search h') projectId (environment h') now) =
   unfiltered projectId (environment h')).
Proof.
  intros Hm Hh h'. assert (Hr : range_ok (search h')) by by apply range_ok_run.
  split; [done |]. split; [apply no_filter_sent |].
  destruct h' as [s env]. cbn [search environment] in *. clear ms h Hm Hh.
  intros E. destruct (hasFilters s) eqn:Hf; [exfalso | done].
  assert (Hno : forall k v, In (k, v) (List.filter (fun kv => selects kv.1) (list_params s projectId env now)) ->
    k <> "project_id" -> k <> "environment" -> False).
  { intros k v Hin H1 H2. by eapply not_unfiltered. }
  destruct (some_text (time_range s)) as [r|] eqn:Hrange.
  { apply some_text_filter in Hrange as [E1 Et]. destruct (time_range s) as [r'|] eqn:Er; [| done].
    injection E1 as ->. destruct (range_sent s now r Hr Er Et) as (v & Hv & Htv).
    exact (Hno _ _ (start_sent s projectId env now v Hv Htv) ltac:(done) ltac:(done)). }
  destruct (no_range s Hr Hrange) as [Ha Hb].
  assert (Hk : forall k o, In k ["service_name"; "method"; "path"; "status_code"; "status_class"; "identifier"] ->
    plain_filter s env k = jstr_opt o -> some_text o = None).
  { intros k o Hin Ho. destruct (some_text o) as [v|] eqn:Ev; [exfalso | done].
    apply some_text_filter in Ev as [Ev Ht]. rewrite Ev in Ho.
    apply (Hno k v); [by apply filter_sent | ..]; by repeat destruct Hin as [<- | Hin]. }
  unfold hasFilters in Hf. cbn [existsb] in Hf. rewrite Hrange, Ha, Hb in Hf.
  rewrite (Hk "service_name" (service_name s)), (Hk "method" (method s)), (Hk "path" (path s)),
    (Hk "status_code" (status_code s)), (Hk "status_class" (status_class s)),
    (Hk "identifier" (identifier s)) in Hf by (by cbn; tauto). done.
Qed.

Lemma clear_shown_iff_filtered_witness :
  let h := home_run [PickerCalled (OnRelative "1h"); HourClicked (Num 1735725600000 0); ClearFiltersClicked;
                     EnvironmentClicked (Some "staging")] (home_initial no_filters None) in
  hasFilters (search h) = false /\
  List.filter (fun kv => selects kv.1) (list_params (search h) (Some "p") (environment h) 0) =
  [("project_id", "p"); ("environment", "staging")].
Proof.
  intros h. split; [by vm_compute |].
  apply (clear_shown_iff_filtered
    [PickerCalled (OnRelative "1h"); HourClicked (Num 1735725600000 0); ClearFiltersClicked;
     EnvironmentClicked (Some "staging")] (home_initial no_filters None) (Some "p") 0);
    [repeat constructor; discriminate | by split | by vm_compute].
Defined.

(** Typing a status code under a selected class of codes keeps the class: the list
    is asked for the 404s among the 5xx (selecting a class clears the code). *)
Example class_and_code :
  let s := search (home_run [ClassClicked "5xx"; FilterTyped PStatus "404"] (home_initial no_filters None)) in
  status_class s = Some "5xx" /\ status_code s = Some "404" /\
  status_code (search (update (ClassClicked "4xx") (home_initial s None))) = None.
Proof. done. Qed.

(** The health of a service: a monitor that is neither up nor down leaves the cell
    empty, and of two monitors of a name the later hides the earlier. *)
Example health_cells :
  texts (health_cell (Some "unknown")) = [] /\ texts (health_cell None) = ["—"] /\
  monitorByService [("api", "down"); ("api", "up")] !! "api" = Some "up".
Proof. done. Qed.

(** ** The page and its picker *)

(** The page renders for every URL: the label of the picker, the one part of it that
    can throw, never formats a date it cannot read. *)
Theorem home_page_renders tz now locale localeDate localeClock localeDay localeHour `{DateFns}
    localeTime picker detail loading revealed projectId d h :
  is_Some (home_page tz now locale localeDate localeClock localeDay localeHour localeTime picker detail
    loading revealed projectId d h).
Proof.
  unfold home_page, TimeRangePicker.
  assert (Hl : forall p, is_Some (customLabel p)).
  { intros p. unfold customLabel, is_custom, isNonQuick.
    destruct (timeRange p) as [r|]; [| by eexists]. cbn [some_text].
    destruct (str_truthy r) eqn:E.
    - destruct (negb (existsb (String.eqb r) QUICK_PRESETS)) eqn:Ex; [by eexists |].
      destruct (String.eqb_spec r "custom") as [-> | _]; [done | by eexists].
    - assert (r = "") as -> by (unfold str_truthy in E; by destruct (String.eqb_spec r "")).
      by eexists. }
  destruct (Hl {| timeRange := time_range (search h); startDate := start_date (search h);
                  endDate := end_date (search h) |}) as [l Hlab].
  unfold customLabel in Hlab |- *. rewrite Hlab. cbn. by eexists.
Qed.

(** The range an hour of the chart selects goes through the picker unchanged: opened
    on it and applied, it leads to the same list, when hours and the local zone are in
    whole minutes and neither end of the hour is a local time that comes twice. *)
Theorem hour_survives_picker `{DateFns} t h picker :
  open picker = false -> (forall d, offset d mod 60000 = 0) -> t mod 60000 = 0 ->
  common_date t -> common_date (t + 3600000) -> once t -> once (t + 3600000) ->
  let after := update (HourClicked (Num t 0)) h in
  let s := search after in
  let props := {| timeRange := time_range s; startDate := start_date s; endDate := end_date s |} in
  let calls := (picker_run props [OpenChanged true; ApplyClicked] picker).2 in
  search (home_run (List.map PickerCalled calls) after) = s.
Proof.
  intros Ho Hz Ht Ha Hb Hoa Hob. cbn zeta. rewrite update_search. cbn [navigated]. unfold hour_range.
  assert (Hr : forall x, common_date x -> Z.abs x <= 8640000000000000)
    by (unfold common_date; intros; lia).
  rewrite time_clip_range by auto.
  assert (E : num_add (Num t 0) (Num 3600000 0) = Num (t + 3600000) 0) by (cbn; f_equal; lia).
  rewrite E, time_clip_range by auto. cbn [with_range time_range start_date end_date].
  assert (Hm : forall x, x mod 60000 = 0 -> once x -> applied x = x).
  { intros x Hx Hx1. assert (minute x = x) as Em
      by (unfold minute, reading; rewrite Z.add_mod, Hx, Hz by lia; cbn; lia).
    assert (steady x) as Hs by (unfold steady; by rewrite Em).
    destruct (applied_spec x Hs) as (_ & E1 & _). rewrite Em in E1. auto. }
  pose proof (apply_opened t (Some (t + 3600000)) (Some "custom") picker Ho Ha
    ltac:(by intros ? [= <-])) as Eo. cbn [fmap option_fmap option_map] in Eo. rewrite Eo. clear Eo.
  change (default t (Some (t + 3600000))) with (t + 3600000).
  rewrite (Hm t Ht Hoa), (Hm (t + 3600000)) by (done || by rewrite Z.add_mod, Ht by lia).
  cbn [List.map home_run fold_left]. unfold home_run. cbn [fold_left]. rewrite !update_search.
  cbn [navigated picker_range]. unfold hour_range. rewrite time_clip_range, E, time_clip_range by auto.
  unfold some_text. rewrite iso_truthy. by destruct (search h).
Qed.

Lemma hour_survives_picker_witness :
  let after := update (HourClicked (Num 1735725600000 0)) (home_initial no_filters None) in
  let s := search after in
  time_range s = Some "custom" /\
  search (home_run (List.map PickerCalled
    (picker_run (H := utc_datefns) {| timeRange := time_range s; startDate := start_date s; endDate := end_date s |}
       [OpenChanged true; ApplyClicked] picker_initial).2) after) = s.
Proof.
  split; [reflexivity |].
  apply (@hour_survives_picker utc_datefns 1735725600000 (home_initial no_filters None) picker_initial);
    [reflexivity | reflexivity | reflexivity | vm_compute; repeat split; discriminate
    | vm_compute; repeat split; discriminate | |]; intros d Hd; unfold reading in Hd; cbn in Hd; lia.
Defined.
