(* ===== verification/Insights.v ===== *)
(** * Insights and retention

    The insights page (routes/app/_layout/insights.tsx), from whose rows the events of
    the overview are opened, and the retention page (settings/retention.tsx).

    A row navigates with an object of search parameters, which the schema of the
    overview (routes/app/_layout/index.tsx) reads.  The schema library is a
    parameter: [Zod] is what the code relies on, that an object whose members fit is
    parsed to those members with the defaults. *)

From S2P Require Import Prelude JsString JsValue JsonParse Numbers Encoding Host Html Session HttpApi ApiContract.
From S2P Require Import Queries Overview Home.

Local Open Scope string_scope.
Local Open Scope Z_scope.

(** ** The search parameters of the overview *)

(** The types the schema uses: [z.number().optional().default(d)], [z.string()
    .optional()] and [z.enum(values).optional()]. *)
Inductive ztype : Type :=
| ZNumberDefault (d : Z)
| ZStringOptional
| ZEnumOptional (values : list string).

Definition searchSchema : list (string * ztype) :=
  [("page", ZNumberDefault 1); ("service_name", ZStringOptional); ("method", ZStringOptional);
   ("path", ZStringOptional); ("status_code", ZStringOptional);
   ("status_class", ZEnumOptional ["2xx"; "3xx"; "4xx"; "5xx"]); ("identifier", ZStringOptional);
   ("time_range", ZEnumOptional ["5m"; "15m"; "30m"; "1h"; "3h"; "6h"; "12h"; "24h"; "3d"; "7d";
                                 "30d"; "custom"]);
   ("start_date", ZStringOptional); ("end_date", ZStringOptional);
   ("sort_by", ZEnumOptional ["timestamp"; "status_code"; "response_time"]);
   ("sort_order", ZEnumOptional ["asc"; "desc"])].

(** Whether a member fits. *)
Definition fits (t : ztype) (v : jsval) : bool :=
  match t, v with
  | _, JUndef => true
  | ZNumberDefault _, JNum (Num _ _) => true
  | ZStringOptional, JStr _ => true
  | ZEnumOptional values, JStr s => existsb (String.eqb s) values
  | _, _ => false
  end.

Definition with_default (t : ztype) (v : jsval) : jsval :=
  match t, v with ZNumberDefault d, JUndef => JInt d | _, _ => v end.

(** [schema.parse]; [None] is its exception. *)
Class Zod := {
  parse_object : list (string * ztype) -> obj -> option obj;
  parse_fits schema o :
    NoDup (List.map fst schema) ->
    forallb (fun f => fits f.2 (obj_get f.1 o)) schema = true ->
    exists o', parse_object schema o = Some o' /\
      forall k t, In (k, t) schema -> obj_get k o' = with_default t (obj_get k o)
}.

(** The parsed object as the page reads it. *)
Definition text_member (k : string) (o : obj) : option string :=
  match obj_get k o with JStr s => Some s | _ => None end.

Definition search_of_obj (o : obj) : Search :=
  {| page := match obj_get "page" o with JNum (Num m 0) => m | _ => 1 end;
     service_name := text_member "service_name" o; method := text_member "method" o;
     path := text_member "path" o; status_code := text_member "status_code" o;
     status_class := text_member "status_class" o; identifier := text_member "identifier" o;
     time_range := text_member "time_range" o; start_date := text_member "start_date" o;
     end_date := text_member "end_date" o; sort_by := text_member "sort_by" o;
     sort_order := text_member "sort_order" o |}.

(** ** The insights page *)

Definition PERIODS : list string := ["7d"; "30d"; "90d"].

Definition METHOD_COLORS : list (string * string) :=
  [("GET", "bg-[#34d399]/20 text-[#34d399] border-[#34d399]/30");
   ("POST", "bg-[#60a5fa]/20 text-[#60a5fa] border-[#60a5fa]/30");
   ("PUT", "bg-[#fbbf24]/20 text-[#fbbf24] border-[#fbbf24]/30");
   ("DELETE", "bg-[#f87171]/20 text-[#f87171] border-[#f87171]/30");
   ("PATCH", "bg-[#c084fc]/20 text-[#c084fc] border-[#c084fc]/30")].

Record TopEndpoint := { te_path : string; te_method : string; te_count : num }.
Record TopUser := { tu_identifier : string; tu_email : string; tu_name : string; tu_count : num }.
Record TopErrorRoute := {
  tr_path : string; tr_method : string; tr_errors : num; tr_total : num; tr_rate : num
}.
Record TopSlowRoute := { ts_path : string; ts_method : string; ts_avg : num }.

Record InsightsResult := {
  top_endpoints : list TopEndpoint;
  top_users : list TopUser;
  top_error_routes : list TopErrorRoute;
  top_slow_routes : list TopSlowRoute
}.

Inductive InsightsMsg : Type :=
| PeriodChosen (p : string)
| RowClicked (filters : obj).

(** [goToEvents]: the search parameters it navigates to /app with. *)
Definition goToEvents (filters prev : obj) : obj :=
  obj_set "page" (JInt 1) (spread prev filters).

(** The filters of a row of each card. *)
Definition endpoint_filters (r : TopEndpoint) : obj :=
  [("method", JStr (te_method r)); ("path", JStr (te_path r))].
Definition user_filters (r : TopUser) : obj := [("identifier", JStr (tu_identifier r))].
Definition error_filters (r : TopErrorRoute) : obj :=
  [("method", JStr (tr_method r)); ("path", JStr (tr_path r))].
Definition slow_filters (r : TopSlowRoute) : obj :=
  [("method", JStr (ts_method r)); ("path", JStr (ts_path r)); ("sort_by", JStr "response_time");
   ("sort_order", JStr "desc")].

Definition MethodBadge (method : string) : html InsightsMsg :=
  Elem "span" [Attr "className" (default "bg-muted text-muted-foreground border-border"
                 (assoc method METHOD_COLORS))] [Text method].

Definition EmptyRow : html InsightsMsg := div [Text "No data for this period"].

Definition RankCard (title icon : string) (children : list (html InsightsMsg)) : html InsightsMsg :=
  Elem "Card" [] [div [Elem icon [] []; Elem "h3" [] [Text title]]; div children].

(** A card over its rows, or the empty row. *)
Definition ranked {A} (rows : list A) (row : nat -> A -> html InsightsMsg) : list (html InsightsMsg) :=
  match rows with [] => [EmptyRow] | _ => imap row rows end.

(** A row with its place, its handler and its title. *)
Definition rank_row (i : nat) (filters : obj) (title : string) (cells : list (html InsightsMsg))
    : html InsightsMsg :=
  Elem "div" [On "click" (RowClicked filters); Attr "title" title]
    (span [Text (string_of_Z (Z.of_nat i + 1))] :: cells).

Section insights.
Context (locale : num -> string).

Definition endpoint_row (i : nat) (r : TopEndpoint) : html InsightsMsg :=
  rank_row i (endpoint_filters r) "View events for this endpoint"
    [MethodBadge (te_method r); span [Text (te_path r)]; span [Text (locale (te_count r))]].

Definition user_row (i : nat) (r : TopUser) : html InsightsMsg :=
  rank_row i (user_filters r) "View events for this user"
    [div [span [Text (if str_truthy (tu_email r) then tu_email r else tu_identifier r)];
          show (str_truthy (tu_email r) && negb (String.eqb (tu_identifier r) (tu_email r)))
            (span [Text (tu_identifier r)])];
     span [Text (locale (tu_count r))]].

Definition error_row (i : nat) (r : TopErrorRoute) : html InsightsMsg :=
  rank_row i (error_filters r) "View error events for this route"
    [MethodBadge (tr_method r); span [Text (tr_path r)];
     div [span [Text (locale (tr_errors r)); Text " err"];
          Elem "Badge" [] [Text (to_fixed 1 (tr_rate r)); Text "%"]]].

Definition slow_row (i : nat) (r : TopSlowRoute) : html InsightsMsg :=
  rank_row i (slow_filters r) "View slowest events for this route"
    [MethodBadge (ts_method r); span [Text (ts_path r)];
     span [Text (locale (math_round (ts_avg r))); Text "ms"]].

Definition InsightsPage (period : string) (isLoading : bool) (data : option InsightsResult)
    : html InsightsMsg :=
  let rows {A} (f : InsightsResult -> list A) : list A := default [] (f <$> data) in
  div [
    div [
      div [Elem "BarChart2" [] []; Elem "h1" [] [Text "Insights"]];
      div (List.map (fun p =>
        Elem "button" [On "click" (PeriodChosen p); Flag "bg-sidebar-accent" (String.eqb period p)]
          [Text p]) PERIODS)];
    if isLoading then div (repeat (Elem "Card" [] []) 4)
    else div [
      RankCard "Top Endpoints by Volume" "TrendingUp" (ranked (rows top_endpoints) endpoint_row);
      RankCard "Top Users by Activity" "Users" (ranked (rows top_users) user_row);
      RankCard "Top Routes by Error Rate" "AlertTriangle" (ranked (rows top_error_routes) error_row);
      RankCard "Top Routes by Response Time" "Clock" (ranked (rows top_slow_routes) slow_row)]].
End insights.

(** A message: the period shown, and the parameters it navigates to. *)
Definition insights_update (m : InsightsMsg) (period : string) (prev : obj) : string * option obj :=
  match m with
  | PeriodChosen p => (p, None)
  | RowClicked filters => (period, Some (goToEvents filters prev))
  end.

Definition insights_query (BASE : string) (projectId environment : option string) (period : string)
    : query := useInsights BASE projectId period environment.

(** ** Opening the events of a row *)

Lemma assoc_key {A} k (v : A) l : assoc k l = Some v -> In k (List.map fst l).
Proof.
  induction l as [|[k' v'] l IH]; cbn; [done |].
  destruct (String.eqb_spec k' k); [by left |]. intros H. right. by apply IH.
Qed.

Lemma spread_lookup k b : forall a,
  NoDup (List.map fst b) ->
  obj_get k (spread a b) = match assoc k b with Some v => v | None => obj_get k a end.
Proof.
  unfold spread. induction b as [|[k' v] b IH]; intros a Hn; [done |]. cbn [fold_left fst snd assoc].
  cbn in Hn. apply NoDup_cons in Hn as [Hk Hn]. rewrite IH by done.
  destruct (String.eqb_spec k' k) as [-> | Hne].
  - destruct (assoc k b) as [v'|] eqn:E; [| apply obj_get_set].
    exfalso. by apply Hk, list_elem_of_In, (assoc_key k v').
  - destruct (assoc k b); [done |]. by apply obj_get_set_ne.
Qed.

(** The filters of the rows of the page. *)
Definition row_filters (d : InsightsResult) (f : obj) : Prop :=
  (exists r, In r (top_endpoints d) /\ f = endpoint_filters r) \/
  (exists r, In r (top_users d) /\ f = user_filters r) \/
  (exists r, In r (top_error_routes d) /\ f = error_filters r) \/
  (exists r, In r (top_slow_routes d) /\ f = slow_filters r).

Lemma schema_keys : NoDup (List.map fst searchSchema).
Proof. by apply (bool_decide_unpack _); vm_compute. Qed.

Lemma landing_fits d f prev :
  row_filters d f -> forallb (fun t => fits t.2 (obj_get t.1 prev)) searchSchema = true ->
  NoDup (List.map fst f) /\
  forallb (fun t => fits t.2 (obj_get t.1 (goToEvents f prev))) searchSchema = true.
Proof.
  intros Hf Hp.
  assert (Hn : NoDup (List.map fst f)).
  { destruct Hf as [(r & _ & ->) | [(r & _ & ->) | [(r & _ & ->) | (r & _ & ->)]]];
      by apply (bool_decide_unpack _); vm_compute. }
  split; [done |]. unfold goToEvents. rewrite forallb_forall in *. intros [k t] Hin. cbn [fst snd].
  destruct (String.eqb_spec k "page") as [-> | Hk].
  - rewrite obj_get_set. by repeat destruct Hin as [[= <- ] | Hin].
  - rewrite obj_get_set_ne, spread_lookup by done. specialize (Hp _ Hin). cbn [fst snd] in Hp.
    destruct Hf as [(r & _ & ->) | [(r & _ & ->) | [(r & _ & ->) | (r & _ & ->)]]];
      (repeat destruct Hin as [[= <- <-] | Hin]); done.
Qed.

(** A text of a search parameter the list filters by is in its request. *)
Lemma parameter_sent o projectId env now k v :
  In k ["method"; "path"; "identifier"; "sort_by"; "sort_order"] ->
  obj_get k o = JStr v -> v <> "" -> In (k, v) (list_params (search_of_obj o) projectId env now).
Proof.
  intros Hk Hv Hne. rewrite list_params_fields. apply in_set_fields. exists k.
  assert (Hl : In (k, k) list_audit_fields) by (repeat destruct Hk as [<- | Hk]; cbn; tauto).
  rewrite list_obj_members by (apply in_map_iff; by exists (k, k)). split; [done |].
  assert (Ht : str_truthy v = true) by (unfold str_truthy; by destruct (String.eqb_spec v "")).
  repeat destruct Hk as [<- | Hk]; try done;
    cbn [existsb String.eqb Ascii.eqb Bool.eqb orb]; unfold plain_filter;
    cbn [assoc String.eqb Ascii.eqb Bool.eqb default search_of_obj method path identifier sort_by sort_order];
    unfold text_member; by rewrite Hv.
Qed.

(** C24 From insights to events: whatever row is clicked, and whatever valid search
    parameters the page has, the overview is opened on the first page of the list
    with every non-empty filter of the row in its request, and the parameters the row
    does not set as they were. *)
Theorem insight_opens_its_events `{Zod} d f prev projectId env now :
  row_filters d f -> forallb (fun t => fits t.2 (obj_get t.1 prev)) searchSchema = true ->
  exists o, parse_object searchSchema (goToEvents f prev) = Some o /\
    page (search_of_obj o) = 1 /\
    (forall k v, In (k, JStr v) f -> v <> "" -> In (k, v) (list_params (search_of_obj o) projectId env now)) /\
    (forall k t, In (k, t) searchSchema -> k <> "page" -> assoc k f = None ->
       text_member k o = text_member k prev).
Proof.
  intros Hf Hp. destruct (landing_fits d f prev Hf Hp) as [Hn Hg].
  destruct (parse_fits searchSchema _ schema_keys Hg) as (o & Ho & Hm). exists o. split; [done |].
  assert (Hs : forall k t, In (k, t) searchSchema -> k <> "page" ->
    obj_get k o = match assoc k f with Some v => v | None => obj_get k prev end).
  { intros k t Hin Hk. rewrite (Hm _ _ Hin). unfold goToEvents.
    rewrite obj_get_set_ne, spread_lookup by done.
    by repeat destruct Hin as [[= <- <-] | Hin]. }
  split_and!.
  - cbn [page search_of_obj]. rewrite (Hm "page" (ZNumberDefault 1)) by by left.
    unfold goToEvents. by rewrite obj_get_set.
  - intros k v Hin Hv.
    destruct Hf as [(r & _ & ->) | [(r & _ & ->) | [(r & _ & ->) | (r & _ & ->)]]];
      (repeat destruct Hin as [[= <- <-] | Hin]); try done;
      (apply parameter_sent; [cbn; tauto | | done]);
      (erewrite Hs; [reflexivity | cbn; tauto | done]).
  - intros k t Hin Hk Ha. unfold text_member. by rewrite (Hs k t), Ha.
Qed.

(** A parser of schemas: it copies the members of the schema. *)
Definition copy_members (schema : list (string * ztype)) (o : obj) : obj :=
  List.map (fun f => (f.1, with_default f.2 (obj_get f.1 o))) schema.

Lemma copy_members_get schema o k t :
  NoDup (List.map fst schema) -> In (k, t) schema ->
  obj_get k (copy_members schema o) = with_default t (obj_get k o).
Proof.
  induction schema as [|[k' t'] schema IH]; [done |]. cbn. intros Hn Hin.
  apply NoDup_cons in Hn as [Hk Hn]. destruct Hin as [[= -> ->] | Hin].
  - by rewrite String.eqb_refl.
  - destruct (String.eqb_spec k' k) as [-> | _]; [| by apply IH].
    exfalso. apply Hk, list_elem_of_In, in_map_iff. by exists (k, t).
Qed.

Definition copying_zod : Zod.
Proof.
  refine {| parse_object := fun schema o => Some (copy_members schema o) |}.
  intros schema o Hn _. eexists. split; [reflexivity |]. intros k t. by apply copy_members_get.
Defined.

Definition demo_insights : InsightsResult :=
  {| top_endpoints := []; top_users := [];
     top_error_routes := [{| tr_path := "/pay"; tr_method := "POST"; tr_errors := Num 3 0;
                             tr_total := Num 9 0; tr_rate := Num 333 1 |}];
     top_slow_routes := [] |}.

Lemma insight_opens_its_events_witness :
  exists o, @parse_object copying_zod searchSchema
      (goToEvents [("method", JStr "POST"); ("path", JStr "/pay")] [("sort_by", JStr "timestamp")]) = Some o /\
    In ("path", "/pay") (list_params (search_of_obj o) None None 0) /\
    text_member "sort_by" o = Some "timestamp".
Proof.
  destruct (@insight_opens_its_events copying_zod demo_insights
    [("method", JStr "POST"); ("path", JStr "/pay")] [("sort_by", JStr "timestamp")] None None 0)
    as (o & Ho & _ & Hv & Hk).
  - right; right; left. eexists. split; [left; reflexivity | reflexivity].
  - reflexivity.
  - exists o. split; [exact Ho |]. split.
    + apply Hv; [right; left; reflexivity | discriminate].
    + refine (Hk "sort_by" (ZEnumOptional ["timestamp"; "status_code"; "response_time"]) _ _ _);
        [cbn; tauto | discriminate | reflexivity].
Defined.

(** The rows of the error rates promise the error events of a route; what they open
    has no filter on the status. *)
Example error_events_unfiltered r :
  obj_get "status_class" (goToEvents (error_filters r) []) = JUndef /\
  obj_get "status_code" (goToEvents (error_filters r) []) = JUndef.
Proof. done. Qed.

(** ** The retention page *)

Record UsageStat := { raw_events : num; hourly_summaries : num; daily_summaries : num }.

(** A figure of the usage, [usage?.f ?? 0]. *)
Definition usage_of (f : UsageStat -> num) (usage : option UsageStat) : num :=
  default (Num 0 0) (f <$> usage).

Definition totalRows (usage : option UsageStat) : num :=
  num_add (num_add (usage_of raw_events usage) (usage_of hourly_summaries usage))
    (usage_of daily_summaries usage).

(** The cards of the usage: label, value, color and icon. *)
Definition usage_cards (usage : option UsageStat) : list (string * num * string * string) :=
  [("Raw events", usage_of raw_events usage, "#818cf8", "Clock");
   ("Hourly summaries", usage_of hourly_summaries usage, "#34d399", "Archive");
   ("Daily summaries", usage_of daily_summaries usage, "#60a5fa", "Archive")].

Record PolicyRow := { pl_env : string; pl_default : string; pl_label : string; pl_unit : string;
                      pl_description : string }.

Definition policy_rows : list PolicyRow :=
  [{| pl_env := "TIERING_RAW_DAYS"; pl_default := "30"; pl_label := "Keep raw events for";
      pl_unit := "days";
      pl_description := "After this period, events are aggregated into hourly summaries and the raw rows are deleted." |};
   {| pl_env := "TIERING_HOURLY_DAYS"; pl_default := "365"; pl_label := "Keep hourly summaries for";
      pl_unit := "days";
      pl_description := "After this period, hourly summaries are aggregated into daily summaries and deleted." |};
   {| pl_env := "TIERING_HOUR"; pl_default := "2"; pl_label := "Run aggregation at hour (UTC)";
      pl_unit := ""; pl_description := "The UTC hour when the nightly tiering job runs." |}].

Definition RetentionPage {Msg} (locale : num -> string) (projectId : option string)
    (usage : option UsageStat) : html Msg :=
  match some_text projectId with
  | None => div [Text "Select a project in the header to view retention settings."]
  | Some _ =>
      div [
        div [Elem "h1" [] [Text "Data Retention"];
             Elem "p" [] [Text "BatAudit automatically tiers old data to keep storage costs low without losing history."]];
        Elem "Card" [] [
          div [Elem "Database" [] []; Elem "h3" [] [Text "Storage Usage"]];
          div (List.map (fun '(label, value, color, icon) =>
            div [Elem "p" [] [Text label]; Elem "p" [Attr "color" color] [Text (locale value)];
                 Elem "p" [] [Text "rows"]]) (usage_cards usage));
          Elem "p" [] [Text "Total rows: "; span [Text (locale (totalRows usage))]]];
        Elem "Card" [] [
          div [Elem "Archive" [] [];
               div [Elem "h3" [] [Text "Tiering Policy"];
                    Elem "p" [] [Text "Configured via environment variables on the Worker service."]]];
          div (List.map (fun row =>
            div [div [div [Elem "p" [] [Text (pl_label row)]; Elem "p" [] [Text (pl_description row)]];
                      div [Elem "code" [] [Text (pl_env row); Text "="; Text (pl_default row)];
                           Elem "p" [] [Text "default: "; Text (pl_default row); Text " ";
                                        Text (pl_unit row)]]]]) policy_rows);
          Elem "p" [] [Text "Daily summaries are kept indefinitely — you always retain statistical history even after raw data is tiered."]]]
  end.
