(* ===== verification/Profiles.v ===== *)
(** * The profiles of the wallboard (routes/app/_layout/settings/wallboard.tsx)

    The list of TV profiles, their activity, and the calls that load, create and
    revoke them; each call is a program that ends in the update it makes of the
    state.  [tz] is the distance of the local time zone from UTC, [now] the time of
    the render, [origin] the origin of the page. *)

From Stdlib Require Import Permutation.
From S2P Require Import Prelude JsString JsValue JsonParse Numbers Dates Encoding Host Html Session HttpApi.
From S2P Require Import Wallboard.

Local Open Scope string_scope.
Local Open Scope Z_scope.

Record WbTokenItem := {
  wb_id : string;
  wb_name : string;
  wb_code : string;
  wb_project : string;
  wb_created_at : string;
  wb_last_used : option string
}.

(** ** Helpers *)

Inductive Activity : Type := Active | Idle | Never.

#[export] Instance activity_eq_dec : EqDecision Activity.
Proof. solve_decision. Defined.

(** A date that cannot be read is never less than an hour ago. *)
Definition getStatus (tz now : Z) (token : WbTokenItem) : Activity :=
  match some_text (wb_last_used token) with
  | None => Never
  | Some ts =>
      match parse_date tz ts with
      | Some t => if now - t <? 60 * 60 * 1000 then Active else Idle
      | None => Idle
      end
  end.

Definition timeAgo (tz now : Z) (ts : option string) : option string :=
  match some_text ts with
  | None => None
  | Some ts =>
      match parse_date tz ts with
      | None => Some "NaNd ago"
      | Some t =>
          let m := (now - t) / 60000 in
          let h := m / 60 in
          Some (if m <? 1 then "just now"
                else if m <? 60 then string_of_Z m +:+ "m ago"
                else if h <? 24 then string_of_Z h +:+ "h ago"
                else string_of_Z (h / 24) +:+ "d ago")
      end
  end.

(** ** State and messages *)

Record Profiles := {
  tokens : list WbTokenItem;
  loading : bool;
  creating : bool;
  name : string;
  error : string
}.

Definition profiles_initial : Profiles :=
  {| tokens := []; loading := true; creating := false; name := ""; error := "" |}.

Definition with_tokens (f : list WbTokenItem -> list WbTokenItem) (s : Profiles) : Profiles :=
  {| tokens := f (tokens s); loading := loading s; creating := creating s; name := name s;
     error := error s |}.
Definition with_loading (b : bool) (s : Profiles) : Profiles :=
  {| tokens := tokens s; loading := b; creating := creating s; name := name s; error := error s |}.
Definition with_creating (b : bool) (s : Profiles) : Profiles :=
  {| tokens := tokens s; loading := loading s; creating := b; name := name s; error := error s |}.
Definition with_name (n : string) (s : Profiles) : Profiles :=
  {| tokens := tokens s; loading := loading s; creating := creating s; name := n; error := error s |}.
Definition with_error (e : string) (s : Profiles) : Profiles :=
  {| tokens := tokens s; loading := loading s; creating := creating s; name := name s; error := e |}.

Inductive ProfileMsg : Type :=
| NameTyped (v : string)
| KeyPressed (key : string)
| CreateClicked
| RevokeClicked (id : string)
| CopyClicked (text : string).

Section calls.
(** [read_items] and [read_item]: the answers of the server as the page takes them. *)
Context (BASE : string) (read_items : jsval -> list WbTokenItem) (read_item : jsval -> WbTokenItem).

(** [load], for the project of its render; it starts by setting [loading]. *)
Definition load_start (s : Profiles) : Profiles := with_loading true s.

Definition load (projectId : option string) : prog (Profiles -> Profiles) :=
  u ← try_catch
    (res ← listWbTokens BASE projectId;
     data ← js_prop res "data";
     mret (with_tokens (fun _ => if nullish data then [] else read_items data)))
    (fun _ => mret (with_error "Failed to load profiles"));
  mret (fun s => with_loading false (u s)).

(** [create], in a render with the name [n]: nothing for a blank one. *)
Definition create_start (s : Profiles) : Profiles := with_creating true (with_error "" s).

Definition create (projectId : option string) (n : string) : option (prog (Profiles -> Profiles)) :=
  if String.eqb (trim n) "" then None
  else Some (
    u ← try_catch
      (tok ← generateWbCode BASE projectId (Some (trim n));
       mret (fun s => with_name "" (with_tokens (cons (read_item tok)) s)))
      (fun _ => mret (with_error "Failed to create profile"));
    mret (fun s => with_creating false (u s))).

(** [handleRevoke] of a card, whose own flag is set meanwhile: what it does to the
    page, or the exception that nothing catches. *)
Definition handleRevoke (id : string) : prog (Profiles -> Profiles) :=
  revokeWbCode BASE id;;
  mret (with_tokens (List.filter (fun t => negb (String.eqb (wb_id t) id)))).
End calls.

(** Whether a message calls [create]. *)
Definition creates (m : ProfileMsg) : bool :=
  match m with
  | CreateClicked => true
  | KeyPressed key => String.eqb key "Enter"
  | _ => false
  end.

(** The update before the call of a message, if it makes one. *)
Definition profile_update (m : ProfileMsg) (s : Profiles) : Profiles :=
  match m with
  | NameTyped v => with_name v s
  | _ => if creates m && negb (String.eqb (trim (name s)) "") then create_start s else s
  end.

(** ** The state of a card *)

(** Its own flags: a revocation runs, and its two buttons have just copied. *)
Record Card := { card_revoking : bool; card_code_copied : bool; card_url_copied : bool }.

Definition card_initial : Card :=
  {| card_revoking := false; card_code_copied := false; card_url_copied := false |}.

(** What happens to it: [RevokeEnded] is the [finally] of [handleRevoke], the timeouts
    come two seconds after a copy; the flag says whether it is the button of the URL. *)
Inductive CardEvent : Type :=
| RevokeStarted | RevokeEnded
| Copied (url : bool) | CopyTimedOut (url : bool).

Definition set_copied (url b : bool) (c : Card) : Card :=
  {| card_revoking := card_revoking c;
     card_code_copied := if url then card_code_copied c else b;
     card_url_copied := if url then b else card_url_copied c |}.

Definition card_update (e : CardEvent) (c : Card) : Card :=
  match e with
  | RevokeStarted =>
      {| card_revoking := true; card_code_copied := card_code_copied c; card_url_copied := card_url_copied c |}
  | RevokeEnded =>
      {| card_revoking := false; card_code_copied := card_code_copied c; card_url_copied := card_url_copied c |}
  | Copied url => set_copied url true c
  | CopyTimedOut url => set_copied url false c
  end.

(** ** The view *)

Definition CopyBtn (copied : bool) (text label : string) : html ProfileMsg :=
  Elem "button" [On "click" (CopyClicked text)]
    (if copied then [Elem "Check" [] []; Text " Copied"] else [Elem "Copy" [] []; Text " "; Text label]).

Section view.
Context (tz now : Z) (origin : string) (cards : string -> Card).

Definition tvUrl (token : WbTokenItem) : string :=
  origin +:+ "/tv" +:+
  (if str_truthy (wb_project token) then "?project_id=" +:+ wb_project token else "").

Definition TokenCard (token : WbTokenItem) : html ProfileMsg :=
  let status := getStatus tz now token in
  let card := cards (wb_id token) in
  Elem "Card" [] [
    Elem "div" [Attr "className" (match status with
      | Active => "bg-green-500" | Idle => "bg-yellow-500/60" | Never => "bg-border" end)] [];
    div [
      div [
        div [Elem (if decide (status = Active) then "MonitorPlay" else "MonitorOff") [] [];
             span [Text (if str_truthy (wb_name token) then wb_name token else "Unnamed profile")];
             show (str_truthy (wb_project token)) (span [Text (wb_project token)])];
        div [
          match status with
          | Active => span [span [span []; span []]; Text "Active"]
          | Idle => span [Elem "Clock" [] []; Text "Idle"]
          | Never => span [Text "Never used"]
          end]];
      div [span [Text (wb_code token)]; CopyBtn (card_code_copied card) (wb_code token) "Copy"];
      div [
        div [
          match some_text (wb_last_used token) with
          | Some ts => Elem "p" [] [Text "Last seen "; Text (default "" (timeAgo tz now (Some ts)))]
          | None => Elem "p" [] [Text "Created ";
                                 Text (default "" (timeAgo tz now (Some (wb_created_at token))))]
          end;
          CopyBtn (card_url_copied card) (tvUrl token) "Copy TV URL"];
        Elem "Button" [On "click" (RevokeClicked (wb_id token)); Flag "disabled" (card_revoking card)]
          (if card_revoking card then [Elem "RefreshCw" [] []]
           else [Elem "Trash2" [] []; Text " Revoke"])]]].

Definition is_active (t : WbTokenItem) : bool := bool_decide (getStatus tz now t = Active).

Definition active (s : Profiles) : list WbTokenItem := List.filter is_active (tokens s).
Definition rest (s : Profiles) : list WbTokenItem :=
  List.filter (fun t => negb (is_active t)) (tokens s).

Definition active_summary (s : Profiles) : html ProfileMsg :=
  let n := length (active s) in
  show (0 <? n)%nat (div [
    span [span []; span []];
    span [Text (string_of_Z (Z.of_nat n)); Text " screen"; Text (if (1 <? n)%nat then "s" else "");
          Text " currently active"];
    span [Text "·"];
    span [Text (String.concat ", "
      (List.map (fun t => if str_truthy (wb_name t) then wb_name t else "Unnamed") (active s)))]]).

Definition WallboardSettingsPage (s : Profiles) : html ProfileMsg :=
  div [
    div [Elem "Tv" [] [];
         div [Elem "h1" [] [Text "Wallboard"];
              Elem "p" [] [Text "Manage TV profiles. Each profile has its own activation code and can run on a different screen."]]];
    active_summary s;
    Elem "Card" [] [
      Elem "p" [] [Text "New profile"];
      div [
        Elem "Input" [Attr "value" (name s); OnText "change" NameTyped; OnText "keydown" KeyPressed] [];
        Elem "Button" [On "click" CreateClicked;
                       Flag "disabled" (creating s || String.eqb (trim (name s)) "")]
          (if creating s then [Elem "RefreshCw" [] []] else [Elem "Plus" [] []; Text " Create"])];
      show (str_truthy (error s)) (Elem "p" [] [Text (error s)])];
    if loading s then Elem "p" [] [Text "Loading…"]
    else if (length (tokens s) =? 0)%nat then
      div [Elem "Tv" [] []; Elem "p" [] [Text "No profiles yet."];
           Elem "p" [] [Text "Create one above to get started."]]
    else div (List.map TokenCard (active s ++ rest s)%list);
    Elem "Card" [] [Elem "p" [] [
      span [Text "How it works"];
      Text "Open "; span [Text origin; Text "/tv"];
      Text " on any screen and enter the activation code. The dashboard refreshes every 30 seconds. Sessions renew automatically — a screen stays locked in for 30 days of inactivity before needing a new code."]]].
End view.

(** ** Properties *)

(** The grid of profiles: every profile once, the screens that were used within
    the hour first, each part in the order of the list; the summary counts the first
    part and is shown when it is not empty. *)
Theorem profiles_grid_spec tz now s :
  (active tz now s ++ rest tz now s)%list ≡ₚ tokens s /\
  active tz now s `sublist_of` tokens s /\ rest tz now s `sublist_of` tokens s /\
  Forall (fun t => getStatus tz now t = Active) (active tz now s) /\
  Forall (fun t => getStatus tz now t <> Active) (rest tz now s) /\
  (active_summary tz now s = Nothing <-> active tz now s = []) /\
  (forall t ts x, wb_last_used t = Some ts -> ts <> "" -> parse_date tz ts = Some x ->
     (getStatus tz now t = Active <-> now - x < 3600000)).
Proof.
  unfold active, rest. split_and!.
  - induction (tokens s) as [|t l IH]; [done |]. cbn. destruct (is_active tz now t); cbn.
    + by constructor.
    + rewrite <- Permutation_middle. by constructor.
  - induction (tokens s) as [|t l IH]; [done |]. cbn. by destruct (is_active tz now t); constructor.
  - induction (tokens s) as [|t l IH]; [done |]. cbn. by destruct (is_active tz now t); constructor.
  - apply List.Forall_forall. intros t [_ Ht]%filter_In. by apply bool_decide_eq_true in Ht.
  - apply List.Forall_forall. intros t [_ Ht]%filter_In. apply negb_true_iff in Ht.
    by apply bool_decide_eq_false in Ht.
  - unfold active_summary, active. by destruct (List.filter _ _).
  - intros t ts x Ht Hne Hx. unfold getStatus. rewrite Ht. unfold some_text, str_truthy.
    destruct (String.eqb_spec ts ""); [done |]. cbn [negb]. rewrite Hx.
    destruct (Z.ltb_spec (now - x) (60 * 60 * 1000)); split; intros; try done; lia.
Qed.

Section runs.
Context `{Host} (BASE : string) (read_items : jsval -> list WbTokenItem)
  (read_item : jsval -> WbTokenItem).

(** The request of a revocation. *)
Definition revoke_request (w : world) (id : string) : request :=
  auth_request (storage w !! TOKEN_KEY)
    (BASE +:+ "/v1/wallboard/token?id=" +:+ encode_uri_component id) (method_init "DELETE").

Definition create_request (w : world) (projectId : option string) (n : string) : request :=
  auth_request (storage w !! TOKEN_KEY) (BASE +:+ "/v1/wallboard/token")
    (json_init "POST" (JObj [("project_id", JStr (default "" projectId)); ("name", JStr (trim n))])).
End runs.

(** Revoking a profile: without an answer, or when the session is over, the call
    fails and the page keeps its cards; every other answer, an error of the server
    too, takes away the cards of that profile and no other. *)
Theorem revoke_profile_spec `{Host} BASE id w :
  match net (trace w) (revoke_request BASE w id) with
  | None => exists w', run (handleRevoke BASE id) w = (Err network_error, w')
  | Some res =>
      if rs_status res =? 401 then
        exists w', run (handleRevoke BASE id) w = (Err (new_error "Unauthorized"), w')
      else
        exists upd w', run (handleRevoke BASE id) w = (Ok upd, w') /\
          forall s, tokens (upd s) = List.filter (fun t => negb (String.eqb (wb_id t) id)) (tokens s) /\
            error (upd s) = error s /\ loading (upd s) = loading s
  end.
Proof.
  unfold handleRevoke, revokeWbCode. rewrite !run_bind, fetchWithAuth_run. unfold do_fetch.
  fold (revoke_request BASE w id).
  destruct (net (trace w) (revoke_request BASE w id)) as [res|]; [| by eexists].
  destruct (rs_status res =? 401); [by eexists |]. eexists _, _. split; [reflexivity |]. done.
Qed.

(** Creating a profile: a blank name does nothing; otherwise one request with the
    project and the trimmed name, and in the end the button is free again: after a
    profile it is the first of the list and the name is cleared, after anything else
    the list and the name are as they were and the message is shown. *)
Theorem create_profile_spec `{Host} BASE read_item projectId n w :
  (create BASE read_item projectId n = None <-> trim n = "") /\
  forall p, create BASE read_item projectId n = Some p ->
  exists upd w', run p w = (Ok upd, w') /\
    (forall s, creating (upd s) = false /\ loading (upd s) = loading s) /\
    (exists tail, trace w' = (trace w ++ EvFetch (create_request BASE w projectId n) :: tail)%list) /\
    match net (trace w) (create_request BASE w projectId n) with
    | Some res =>
        match (if rs_ok res then json_parse (rs_body res) else None) with
        | Some v => forall s, tokens (upd s) = read_item v :: tokens s /\ name (upd s) = "" /\
                              error (upd s) = error s
        | None => forall s, tokens (upd s) = tokens s /\ name (upd s) = name s /\
                            error (upd s) = "Failed to create profile"
        end
    | None => forall s, tokens (upd s) = tokens s /\ name (upd s) = name s /\
                        error (upd s) = "Failed to create profile"
    end.
Proof.
  unfold create. split; [by destruct (String.eqb_spec (trim n) "") |].
  destruct (String.eqb_spec (trim n) ""); [done |]. intros p <-%(inj Some).
  unfold generateWbCode. change (default "" (Some (trim n))) with (trim n). rewrite run_bind, run_try_catch, !run_bind, fetchWithAuth_run.
  unfold do_fetch. fold (create_request BASE w projectId n).
  destruct (net (trace w) (create_request BASE w projectId n)) as [res|].
  - destruct (rs_status res =? 401) eqn:E401.
    + assert (rs_ok res = false) as -> by (unfold rs_ok; apply Z.eqb_eq in E401; by rewrite E401).
      eexists _, _. split; [reflexivity |]. split; [done |]. split; [| done].
      cbn. eexists. by rewrite <- app_assoc.
    + unfold check_ok. destruct (rs_ok res).
      * rewrite run_bind. cbn [run mret prog_ret]. unfold res_json.
        destruct (json_parse (rs_body res)) as [v|];
          (eexists _, _; split; [reflexivity |]; split; [done |]; split; [by eexists | done]).
      * eexists _, _. split; [reflexivity |]. split; [done |]. split; [by eexists | done].
  - eexists _, _. split; [reflexivity |]. split; [done |]. split; [by eexists | done].
Qed.

(** ** Overlapping calls *)

Definition demo_profile (id : string) (last : option string) : WbTokenItem :=
  {| wb_id := id; wb_name := ""; wb_code := "AB12"; wb_project := ""; wb_created_at := "";
     wb_last_used := last |}.

Definition demo_read (v : jsval) : list WbTokenItem :=
  match v with
  | JArr l => List.map (fun x => demo_profile (js_string x) None) l
  | _ => []
  end.

(** A server that answers a list, named by the project, to every request. *)
Definition list_host (id : string) : Host :=
  {| net := fun _ _ => Some (Response 200 (json_text (JObj [("data", JArr [JStr id])])));
     uuid_at := fun _ => "u"; latency := fun _ => 10 |}.

(** The loads of two projects overlap and the first is answered last: the page, not
    loading any more, shows the profiles of the project that is no longer selected. *)
Example stale_profiles :
  let w := World ∅ 0 0 [] in
  exists ua ub,
    (@run (list_host "of-A") _ (load "" demo_read (Some "A")) w).1 = Ok ua /\
    (@run (list_host "of-B") _ (load "" demo_read (Some "B")) w).1 = Ok ub /\
    let s := ua (ub (load_start (load_start profiles_initial))) in
    List.map wb_id (tokens s) = ["of-A"] /\ loading s = false.
Proof.
  eexists _, _. split; [vm_compute; reflexivity |]. split; [vm_compute; reflexivity |].
  by split; vm_compute.
Qed.

(** A failed load followed by a good one leaves the message of the failure. *)
Example message_stays :
  let w := World ∅ 0 0 [] in
  let down := {| net := fun _ _ => None; uuid_at := fun _ => "u"; latency := fun _ => 10 |} in
  exists ua ub,
    (@run down _ (load "" demo_read (Some "A")) w).1 = Ok ua /\
    (@run (list_host "p") _ (load "" demo_read (Some "A")) w).1 = Ok ub /\
    let s := ub (load_start (ua (load_start profiles_initial))) in
    List.map wb_id (tokens s) = ["p"] /\ error s = "Failed to load profiles".
Proof.
  eexists _, _. split; [vm_compute; reflexivity |]. split; [vm_compute; reflexivity |].
  by split; vm_compute.
Qed.

(** While a profile is being created the button is off, the Enter key is not. *)
Example enter_creates_again s :
  trim (name s) <> "" ->
  let s' := profile_update CreateClicked s in
  creating s' = true /\ creates (KeyPressed "Enter") = true /\
  create "" (fun _ => demo_profile "x" None) None (name s') <> None.
Proof.
  intros Hn. unfold profile_update, create. cbn [creates andb].
  rewrite (proj2 (String.eqb_neq _ _) Hn). cbn [negb].
  change (name (create_start s)) with (name s). by rewrite (proj2 (String.eqb_neq _ _) Hn).
Qed.
