(* ===== verification/Ui.v ===== *)
(** * The primitives of the pages (frontend/src/components/ui)

    Badge, Button, Card, Input, Separator, Popover, Tabs, Pagination and Calendar:
    small components that give an element, or a component of [radix-ui] and
    [react-day-picker], its classes and a [data-slot], and pass the rest of their
    properties on.  [chart.tsx] is in [Chart].  [clsx], [tailwind-merge] and [cva] are
    the class [Styles]; what [react-day-picker] does with what [Calendar] gives it is
    not modelled.

    The pages write [Elem "Button" ...] for a component; [expand] is what React makes
    of their trees, every primitive replaced by what it returns, so that a theorem
    about the messages of a page is one about the elements of the document. *)

From S2P Require Import Prelude JsString Html Shell.

Local Open Scope string_scope.

(** ** Classes *)

(** A [ClassValue] of the sources: a string, an absent one ([undefined], [null],
    [false]) or a dictionary. *)
Inductive class_value : Type :=
| CText (s : string)
| CNone
| CDict (l : list (string * bool)).

Definition class_opt (o : option string) : class_value :=
  match o with Some s => CText s | None => CNone end.

(** [c && x] in a list of classes *)
Definition class_if (c : bool) (x : string) : class_value := if c then CText x else CNone.

(** What [cva] is called with, and the variants asked of what it returns. *)
Record cva_config := {
  cva_base : string;
  cva_variants : list (string * list (string * string));
  cva_defaults : list (string * string)
}.

Definition selection : Type := list (string * option string).

Class Styles := {
  clsx : list class_value -> string;
  twMerge : string -> string;
  cva : cva_config -> selection -> option string -> string
}.

(** lib/utils.ts *)
Definition cn `{Styles} (inputs : list class_value) : string := twMerge (clsx inputs).

(** ** Properties of components *)

Record props (Msg : Type) := {
  className : option string;
  rest : list (attr Msg);
  children : list (html Msg)
}.
Arguments className {Msg} p.
Arguments rest {Msg} p.
Arguments children {Msg} p.
Arguments Build_props {Msg} _ _ _.

Definition attr_name {Msg} (a : attr Msg) : string :=
  match a with Attr n _ => n | Flag n _ => n | On e _ => e | OnText e _ => e end.

(** [own {...rest}]: a property given again replaces the first. *)
Definition spread_attrs {Msg} (own rest : list (attr Msg)) : list (attr Msg) :=
  (List.filter (fun a => negb (existsb (fun b => String.eqb (attr_name b) (attr_name a)) rest)) own
   ++ rest)%list.

(** [name={o}]: no attribute when the value is [undefined]. *)
Definition attr_opt {Msg} (name : string) (o : option string) : list (attr Msg) :=
  match o with Some v => [Attr name v] | None => [] end.
Definition flag_opt {Msg} (name : string) (o : option bool) : list (attr Msg) :=
  match o with Some b => [Flag name b] | None => [] end.

Section primitives.
Context `{Styles} {Msg : Type}.
Implicit Types (p : props Msg).

(** The shape of the primitives: an element with a slot, its classes and the rest. *)
Definition slotted (tag slot : string) (own : list (attr Msg)) (classes : list class_value) p : html Msg :=
  Elem tag (spread_attrs (([Attr "data-slot" slot] ++ own) ++
                          [Attr "className" (cn (classes ++ [class_opt (className p)]))]) (rest p))%list
       (children p).

(** One without classes of its own: [className] is among the properties passed on. *)
Definition passed (tag slot : string) p : html Msg :=
  Elem tag (spread_attrs [Attr "data-slot" slot] (attr_opt "className" (className p) ++ rest p)%list)
       (children p).

(** ** badge.tsx *)

Definition badgeVariants : cva_config := {|
  cva_base := "inline-flex items-center justify-center rounded-md border px-2 py-0.5 text-xs font-medium w-fit whitespace-nowrap shrink-0 [&>svg]:size-3 gap-1 [&>svg]:pointer-events-none focus-visible:border-ring focus-visible:ring-ring/50 focus-visible:ring-[3px] aria-invalid:ring-destructive/20 dark:aria-invalid:ring-destructive/40 aria-invalid:border-destructive transition-[color,box-shadow] overflow-hidden";
  cva_variants := [("variant", [
    ("default", "border-transparent bg-primary text-primary-foreground [a&]:hover:bg-primary/90");
    ("secondary", "border-transparent bg-secondary text-secondary-foreground [a&]:hover:bg-secondary/90");
    ("destructive", "border-transparent bg-destructive text-white [a&]:hover:bg-destructive/90 focus-visible:ring-destructive/20 dark:focus-visible:ring-destructive/40 dark:bg-destructive/60");
    ("outline", "text-foreground [a&]:hover:bg-accent [a&]:hover:text-accent-foreground")])];
  cva_defaults := [("variant", "default")] |}.

Definition Badge (variant : option string) (asChild : bool) p : html Msg :=
  slotted (if asChild then "Slot" else "span") "badge" []
    [CText (cva badgeVariants [("variant", variant)] None)] p.

(** ** button.tsx *)

Definition buttonVariants : cva_config := {|
  cva_base := "inline-flex items-center justify-center gap-2 whitespace-nowrap rounded-md text-sm font-medium transition-all disabled:pointer-events-none disabled:opacity-50 [&_svg]:pointer-events-none [&_svg:not([class*='size-'])]:size-4 shrink-0 [&_svg]:shrink-0 outline-none focus-visible:border-ring focus-visible:ring-ring/50 focus-visible:ring-[3px] aria-invalid:ring-destructive/20 dark:aria-invalid:ring-destructive/40 aria-invalid:border-destructive";
  cva_variants := [
    ("variant", [
      ("default", "bg-primary text-primary-foreground shadow-xs hover:bg-primary/90");
      ("destructive", "bg-destructive text-white shadow-xs hover:bg-destructive/90 focus-visible:ring-destructive/20 dark:focus-visible:ring-destructive/40 dark:bg-destructive/60");
      ("outline", "border bg-background shadow-xs hover:bg-accent hover:text-accent-foreground dark:bg-input/30 dark:border-input dark:hover:bg-input/50");
      ("secondary", "bg-secondary text-secondary-foreground shadow-xs hover:bg-secondary/80");
      ("ghost", "hover:bg-accent hover:text-accent-foreground dark:hover:bg-accent/50");
      ("link", "text-primary underline-offset-4 hover:underline")]);
    ("size", [
      ("default", "h-9 px-4 py-2 has-[>svg]:px-3");
      ("sm", "h-8 rounded-md gap-1.5 px-3 has-[>svg]:px-2.5");
      ("lg", "h-10 rounded-md px-6 has-[>svg]:px-4");
      ("icon", "size-9")])];
  cva_defaults := [("variant", "default"); ("size", "default")] |}.

(** [className] is merged by [cva] here. *)
Definition Button (variant size : option string) (asChild : bool) p : html Msg :=
  Elem (if asChild then "Slot" else "button")
    (spread_attrs
      [Attr "data-slot" "button";
       Attr "className" (cn [CText (cva buttonVariants [("variant", variant); ("size", size)] (className p))])]
      (rest p))
    (children p).

(** ** card.tsx *)

Definition Card p : html Msg :=
  slotted "div" "card" [] [CText "bg-card text-card-foreground flex flex-col gap-6 rounded-xl border py-6 shadow-sm"] p.
Definition CardHeader p : html Msg :=
  slotted "div" "card-header" [] [CText "@container/card-header grid auto-rows-min grid-rows-[auto_auto] items-start gap-1.5 px-6 has-data-[slot=card-action]:grid-cols-[1fr_auto] [.border-b]:pb-6"] p.
Definition CardTitle p : html Msg :=
  slotted "div" "card-title" [] [CText "leading-none font-semibold"] p.
Definition CardDescription p : html Msg :=
  slotted "div" "card-description" [] [CText "text-muted-foreground text-sm"] p.
Definition CardAction p : html Msg :=
  slotted "div" "card-action" [] [CText "col-start-2 row-span-2 row-start-1 self-start justify-self-end"] p.
Definition CardContent p : html Msg :=
  slotted "div" "card-content" [] [CText "px-6"] p.
Definition CardFooter p : html Msg :=
  slotted "div" "card-footer" [] [CText "flex items-center px-6 [.border-t]:pt-6"] p.

(** ** input.tsx and separator.tsx *)

Definition Input (type : option string) p : html Msg :=
  Elem "input" (spread_attrs
    (attr_opt "type" type ++
     [Attr "data-slot" "input";
      Attr "className" (cn [
        CText "file:text-foreground placeholder:text-muted-foreground selection:bg-primary selection:text-primary-foreground dark:bg-input/30 border-input flex h-9 w-full min-w-0 rounded-md border bg-transparent px-3 py-1 text-base shadow-xs transition-[color,box-shadow] outline-none file:inline-flex file:h-7 file:border-0 file:bg-transparent file:text-sm file:font-medium disabled:pointer-events-none disabled:cursor-not-allowed disabled:opacity-50 md:text-sm";
        CText "focus-visible:border-ring focus-visible:ring-ring/50 focus-visible:ring-[3px]";
        CText "aria-invalid:ring-destructive/20 dark:aria-invalid:ring-destructive/40 aria-invalid:border-destructive";
        class_opt (className p)])])%list (rest p)) (children p).

Definition Separator (orientation : option string) (decorative : option bool) p : html Msg :=
  slotted "SeparatorPrimitive.Root" "separator"
    [Flag "decorative" (default true decorative); Attr "orientation" (default "horizontal" orientation)]
    [CText "shrink-0 bg-border data-[orientation=horizontal]:h-px data-[orientation=horizontal]:w-full data-[orientation=vertical]:h-full data-[orientation=vertical]:w-px"] p.

(** ** popover.tsx *)

Definition Popover p : html Msg := passed "PopoverPrimitive.Root" "popover" p.
Definition PopoverTrigger p : html Msg := passed "PopoverPrimitive.Trigger" "popover-trigger" p.
Definition PopoverAnchor p : html Msg := passed "PopoverPrimitive.Anchor" "popover-anchor" p.

Definition PopoverContent (align sideOffset : option string) p : html Msg :=
  Elem "PopoverPrimitive.Portal" [] [
    slotted "PopoverPrimitive.Content" "popover-content"
      [Attr "align" (default "center" align); Attr "sideOffset" (default "4" sideOffset)]
      [CText "z-50 w-72 origin-(--radix-popover-content-transform-origin) rounded-md border bg-popover p-4 text-popover-foreground shadow-md outline-hidden data-[side=bottom]:slide-in-from-top-2 data-[side=left]:slide-in-from-right-2 data-[side=right]:slide-in-from-left-2 data-[side=top]:slide-in-from-bottom-2 data-[state=closed]:animate-out data-[state=closed]:fade-out-0 data-[state=closed]:zoom-out-95 data-[state=open]:animate-in data-[state=open]:fade-in-0 data-[state=open]:zoom-in-95"] p].

Definition PopoverHeader p : html Msg := slotted "div" "popover-header" [] [CText "flex flex-col gap-1 text-sm"] p.
Definition PopoverTitle p : html Msg := slotted "div" "popover-title" [] [CText "font-medium"] p.
Definition PopoverDescription p : html Msg :=
  slotted "p" "popover-description" [] [CText "text-muted-foreground"] p.

(** ** tabs.tsx *)

Definition Tabs (orientation : option string) p : html Msg :=
  slotted "TabsPrimitive.Root" "tabs"
    [Attr "data-orientation" (default "horizontal" orientation);
     Attr "orientation" (default "horizontal" orientation)]
    [CText "group/tabs flex gap-2 data-[orientation=horizontal]:flex-col"] p.

Definition tabsListVariants : cva_config := {|
  cva_base := "group/tabs-list inline-flex w-fit items-center justify-center rounded-lg p-[3px] text-muted-foreground group-data-[orientation=horizontal]/tabs:h-9 group-data-[orientation=vertical]/tabs:h-fit group-data-[orientation=vertical]/tabs:flex-col data-[variant=line]:rounded-none";
  cva_variants := [("variant", [("default", "bg-muted"); ("line", "gap-1 bg-transparent")])];
  cva_defaults := [("variant", "default")] |}.

Definition TabsList (variant : option string) p : html Msg :=
  slotted "TabsPrimitive.List" "tabs-list" [Attr "data-variant" (default "default" variant)]
    [CText (cva tabsListVariants [("variant", Some (default "default" variant))] None)] p.

Definition TabsTrigger p : html Msg :=
  slotted "TabsPrimitive.Trigger" "tabs-trigger" [] [
    CText "relative inline-flex h-[calc(100%-1px)] flex-1 items-center justify-center gap-1.5 rounded-md border border-transparent px-2 py-1 text-sm font-medium whitespace-nowrap text-foreground/60 transition-all group-data-[orientation=vertical]/tabs:w-full group-data-[orientation=vertical]/tabs:justify-start hover:text-foreground focus-visible:border-ring focus-visible:ring-[3px] focus-visible:ring-ring/50 focus-visible:outline-1 focus-visible:outline-ring disabled:pointer-events-none disabled:opacity-50 group-data-[variant=default]/tabs-list:data-[state=active]:shadow-sm group-data-[variant=line]/tabs-list:data-[state=active]:shadow-none dark:text-muted-foreground dark:hover:text-foreground [&_svg]:pointer-events-none [&_svg]:shrink-0 [&_svg:not([class*='size-'])]:size-4";
    CText "group-data-[variant=line]/tabs-list:bg-transparent group-data-[variant=line]/tabs-list:data-[state=active]:bg-transparent dark:group-data-[variant=line]/tabs-list:data-[state=active]:border-transparent dark:group-data-[variant=line]/tabs-list:data-[state=active]:bg-transparent";
    CText "data-[state=active]:bg-background data-[state=active]:text-foreground dark:data-[state=active]:border-input dark:data-[state=active]:bg-input/30 dark:data-[state=active]:text-foreground";
    CText "after:absolute after:bg-foreground after:opacity-0 after:transition-opacity group-data-[orientation=horizontal]/tabs:after:inset-x-0 group-data-[orientation=horizontal]/tabs:after:bottom-[-5px] group-data-[orientation=horizontal]/tabs:after:h-0.5 group-data-[orientation=vertical]/tabs:after:inset-y-0 group-data-[orientation=vertical]/tabs:after:-right-1 group-data-[orientation=vertical]/tabs:after:w-0.5 group-data-[variant=line]/tabs-list:data-[state=active]:after:opacity-100"] p.

Definition TabsContent p : html Msg :=
  slotted "TabsPrimitive.Content" "tabs-content" [] [CText "flex-1 outline-none"] p.

(** ** pagination.tsx *)

Definition Pagination p : html Msg :=
  Elem "nav" (spread_attrs
    [Attr "role" "navigation"; Attr "aria-label" "pagination"; Attr "data-slot" "pagination";
     Attr "className" (cn [CText "mx-auto flex w-full justify-center"; class_opt (className p)])]
    (rest p)) (children p).

Definition PaginationContent p : html Msg :=
  slotted "ul" "pagination-content" [] [CText "flex flex-row items-center gap-1"] p.
Definition PaginationItem p : html Msg := passed "li" "pagination-item" p.

Definition PaginationLink (isActive : option bool) (size : option string) p : html Msg :=
  let on := default false isActive in
  Elem "a" (spread_attrs
    (attr_opt "aria-current" (if on then Some "page" else None) ++
     [Attr "data-slot" "pagination-link"] ++ flag_opt "data-active" isActive ++
     [Attr "className" (cn [
        CText (cva buttonVariants [("variant", Some (if on then "outline" else "ghost"));
                                   ("size", Some (default "icon" size))] None);
        class_opt (className p)])])%list (rest p)) (children p).

(** The properties given to the inner link: those of the component after the label,
    the size (which a given one replaces) and the classes; the children are its own. *)
Definition PaginationPrevious (isActive : option bool) (size : option string) p : html Msg :=
  PaginationLink isActive (Some (default "default" size))
    {| className := Some (cn [CText "gap-1 px-2.5 sm:pl-2.5"; class_opt (className p)]);
       rest := spread_attrs [Attr "aria-label" "Go to previous page"] (rest p);
       children := [Elem "ChevronLeftIcon" [] []; span [Text "Previous"]] |}.

Definition PaginationNext (isActive : option bool) (size : option string) p : html Msg :=
  PaginationLink isActive (Some (default "default" size))
    {| className := Some (cn [CText "gap-1 px-2.5 sm:pr-2.5"; class_opt (className p)]);
       rest := spread_attrs [Attr "aria-label" "Go to next page"] (rest p);
       children := [span [Text "Next"]; Elem "ChevronRightIcon" [] []] |}.

Definition PaginationEllipsis p : html Msg :=
  Elem "span" (spread_attrs
    [Flag "aria-hidden" true; Attr "data-slot" "pagination-ellipsis";
     Attr "className" (cn [CText "flex size-9 items-center justify-center"; class_opt (className p)])]
    (rest p)) [Elem "MoreHorizontalIcon" [] []; span [Text "More pages"]].
End primitives.

(** ** The trees of the pages, with the primitives expanded *)

(** Take a property out of a list of properties. *)
Fixpoint take_attr {Msg} (k : string) (l : list (attr Msg)) : option string * list (attr Msg) :=
  match l with
  | [] => (None, [])
  | Attr n v :: l' =>
      let '(o, r) := take_attr k l' in
      if String.eqb n k then (Some (default v o), r) else (o, Attr n v :: r)
  | a :: l' => let '(o, r) := take_attr k l' in (o, a :: r)
  end.

Fixpoint take_flag {Msg} (k : string) (l : list (attr Msg)) : option bool * list (attr Msg) :=
  match l with
  | [] => (None, [])
  | Flag n b :: l' =>
      let '(o, r) := take_flag k l' in
      if String.eqb n k then (Some (default b o), r) else (o, Flag n b :: r)
  | a :: l' => let '(o, r) := take_flag k l' in (o, a :: r)
  end.

Section expand.
Context `{Styles} {Msg : Type}.

(** [{ className, ...props }] *)
Definition props_of (l : list (attr Msg)) (cs : list (html Msg)) : props Msg :=
  let '(c, r) := take_attr "className" l in {| className := c; rest := r; children := cs |}.

(** The components a page may name, each with the properties it destructures. *)
Definition ui_components : list (string * (list (attr Msg) -> list (html Msg) -> html Msg)) := [
  ("Badge", fun l cs =>
      let '(v, l1) := take_attr "variant" l in
      let '(a, l2) := take_flag "asChild" l1 in Badge v (default false a) (props_of l2 cs));
  ("Button", fun l cs =>
      let '(v, l1) := take_attr "variant" l in
      let '(z, l2) := take_attr "size" l1 in
      let '(a, l3) := take_flag "asChild" l2 in Button v z (default false a) (props_of l3 cs));
  ("Card", fun l cs => Card (props_of l cs));
  ("Input", fun l cs => let '(t, l1) := take_attr "type" l in Input t (props_of l1 cs));
  ("Popover", fun l cs => Popover (props_of l cs));
  ("PopoverTrigger", fun l cs => PopoverTrigger (props_of l cs));
  ("PopoverContent", fun l cs =>
      let '(a, l1) := take_attr "align" l in
      let '(o, l2) := take_attr "sideOffset" l1 in PopoverContent a o (props_of l2 cs));
  ("Pagination", fun l cs => Pagination (props_of l cs));
  ("PaginationContent", fun l cs => PaginationContent (props_of l cs));
  ("PaginationItem", fun l cs => PaginationItem (props_of l cs));
  ("PaginationLink", fun l cs =>
      let '(a, l1) := take_flag "isActive" l in
      let '(z, l2) := take_attr "size" l1 in PaginationLink a z (props_of l2 cs));
  ("PaginationPrevious", fun l cs =>
      let '(a, l1) := take_flag "isActive" l in
      let '(z, l2) := take_attr "size" l1 in PaginationPrevious a z (props_of l2 cs));
  ("PaginationNext", fun l cs =>
      let '(a, l1) := take_flag "isActive" l in
      let '(z, l2) := take_attr "size" l1 in PaginationNext a z (props_of l2 cs));
  ("PaginationEllipsis", fun l cs => PaginationEllipsis (props_of l cs))].

(** What an element becomes, its children already expanded. *)
Definition render (tag : string) (l : list (attr Msg)) (cs : list (html Msg)) : html Msg :=
  match assoc tag ui_components with Some f => f l cs | None => Elem tag l cs end.

Fixpoint expand (h : html Msg) : html Msg :=
  match h with
  | Elem tag l cs => render tag l (List.map expand cs)
  | _ => h
  end.
End expand.

(** ** calendar.tsx *)

Section calendar.
Context `{Styles} {Msg : Type}.
Context (defaultClassNames : string -> string).   (** [getDefaultClassNames()] *)
Context (local_date month_short : Z -> string).   (** [toLocaleDateString()], [toLocaleString("default", { month: "short" })] *)

(** What [DayPicker] gives the parts it renders: the properties of the parts the
    component replaces. *)
Record part_props := {
  pt_props : props Msg;
  pt_orientation : option string;
  pt_date : Z;
  pt_modifiers : list (string * bool)
}.

Definition part : Type := part_props -> html Msg.

(** [modifiers.selected && !modifiers.range_start && ...] *)
Definition on (m : list (string * bool)) (k : string) : bool := default false (assoc k m).

Definition selected_single (m : list (string * bool)) : option bool :=
  match assoc "selected" m with
  | Some true => Some (negb (on m "range_start") && negb (on m "range_end") && negb (on m "range_middle"))
  | o => o
  end.

Definition CalendarDayButton : part := fun x =>
  let m := pt_modifiers x in
  Button (Some "ghost") (Some "icon") false
    {| className := Some (cn [
         CText "flex aspect-square size-auto w-full min-w-(--cell-size) flex-col gap-1 leading-none font-normal group-data-[focused=true]/day:relative group-data-[focused=true]/day:z-10 group-data-[focused=true]/day:border-ring group-data-[focused=true]/day:ring-[3px] group-data-[focused=true]/day:ring-ring/50 data-[range-end=true]:rounded-md data-[range-end=true]:rounded-r-md data-[range-end=true]:bg-primary data-[range-end=true]:text-primary-foreground data-[range-middle=true]:rounded-none data-[range-middle=true]:bg-accent data-[range-middle=true]:text-accent-foreground data-[range-start=true]:rounded-md data-[range-start=true]:rounded-l-md data-[range-start=true]:bg-primary data-[range-start=true]:text-primary-foreground data-[selected-single=true]:bg-primary data-[selected-single=true]:text-primary-foreground dark:hover:text-accent-foreground [&>span]:text-xs [&>span]:opacity-70";
         CText (defaultClassNames "day");
         class_opt (className (pt_props x))]);
       rest := spread_attrs
         ([Attr "data-day" (local_date (pt_date x))] ++
          flag_opt "data-selected-single" (selected_single m) ++
          flag_opt "data-range-start" (assoc "range_start" m) ++
          flag_opt "data-range-end" (assoc "range_end" m) ++
          flag_opt "data-range-middle" (assoc "range_middle" m))%list (rest (pt_props x));
       children := children (pt_props x) |}.

(** Its effect, which runs when [modifiers.focused] changes: whether the button is
    focused. *)
Definition focus_effect (modifiers : list (string * bool)) : bool := on modifiers "focused".

Definition CalendarRoot : part := fun x =>
  let p := pt_props x in
  Elem "div" (spread_attrs [Attr "data-slot" "calendar"; Attr "className" (cn [class_opt (className p)])]
                (rest p)) (children p).

Definition Chevron : part := fun x =>
  let p := pt_props x in
  let icon := match pt_orientation x with
              | Some "left" => "ChevronLeftIcon" | Some "right" => "ChevronRightIcon"
              | _ => "ChevronDownIcon" end in
  Elem icon (spread_attrs [Attr "className" (cn [CText "size-4"; class_opt (className p)])] (rest p))
    (children p).

Definition WeekNumber : part := fun x =>
  let p := pt_props x in
  Elem "td" (attr_opt "className" (className p) ++ rest p)%list [div (children p)].

Record CalendarProps := {
  cal_className : option string;
  cal_classNames : list (string * string);
  cal_showOutsideDays : option bool;
  cal_captionLayout : option string;
  cal_buttonVariant : option string;
  cal_formatters : list (string * (Z -> string));
  cal_components : list (string * part);
  cal_showWeekNumber : option bool;
  cal_rest : list (attr Msg)
}.

(** The properties of the [DayPicker] it renders. *)
Record DayPickerProps := {
  dp_showOutsideDays : bool;
  dp_className : string;
  dp_captionLayout : string;
  dp_formatters : list (string * (Z -> string));
  dp_classNames : list (string * string);
  dp_components : list (string * part);
  dp_showWeekNumber : option bool;
  dp_rest : list (attr Msg)
}.

(** The classes of a part: its own, then those of the library. *)
Definition part_class (k : string) (own : list class_value) : string * string :=
  (k, cn (own ++ [CText (defaultClassNames k)])).

Definition nav_button (variant : string) : list class_value :=
  [CText (cva buttonVariants [("variant", Some variant)] None); CText "size-(--cell-size) p-0 select-none aria-disabled:opacity-50"].

Definition calendar_classNames (captionLayout buttonVariant : string) (showWeekNumber : bool)
    : list (string * string) := [
  part_class "root" [CText "w-fit"];
  part_class "months" [CText "relative flex flex-col gap-4 md:flex-row"];
  part_class "month" [CText "flex w-full flex-col gap-4"];
  part_class "nav" [CText "absolute inset-x-0 top-0 flex w-full items-center justify-between gap-1"];
  part_class "button_previous" (nav_button buttonVariant);
  part_class "button_next" (nav_button buttonVariant);
  part_class "month_caption" [CText "flex h-(--cell-size) w-full items-center justify-center px-(--cell-size)"];
  part_class "dropdowns" [CText "flex h-(--cell-size) w-full items-center justify-center gap-1.5 text-sm font-medium"];
  part_class "dropdown_root" [CText "relative rounded-md border border-input shadow-xs has-focus:border-ring has-focus:ring-[3px] has-focus:ring-ring/50"];
  part_class "dropdown" [CText "absolute inset-0 bg-popover opacity-0"];
  part_class "caption_label" [CText "font-medium select-none";
    CText (if String.eqb captionLayout "label" then "text-sm"
           else "flex h-8 items-center gap-1 rounded-md pr-1 pl-2 text-sm [&>svg]:size-3.5 [&>svg]:text-muted-foreground")];
  part_class "month_grid" [CText "w-full border-collapse"];
  part_class "weekdays" [CText "flex"];
  part_class "weekday" [CText "flex-1 rounded-md text-[0.8rem] font-normal text-muted-foreground select-none"];
  part_class "week" [CText "mt-2 flex w-full"];
  part_class "week_number_header" [CText "w-(--cell-size) select-none"];
  part_class "week_number" [CText "text-[0.8rem] text-muted-foreground select-none"];
  part_class "day" [CText "group/day relative aspect-square h-full w-full p-0 text-center select-none [&:last-child[data-selected=true]_button]:rounded-r-md";
    CText (if showWeekNumber then "[&:nth-child(2)[data-selected=true]_button]:rounded-l-md"
           else "[&:first-child[data-selected=true]_button]:rounded-l-md")];
  part_class "range_start" [CText "rounded-l-md bg-accent"];
  part_class "range_middle" [CText "rounded-none"];
  part_class "range_end" [CText "rounded-r-md bg-accent"];
  part_class "today" [CText "rounded-md bg-accent text-accent-foreground data-[selected=true]:rounded-none"];
  part_class "outside" [CText "text-muted-foreground aria-selected:text-muted-foreground"];
  part_class "disabled" [CText "text-muted-foreground opacity-50"];
  part_class "hidden" [CText "invisible"]].

Definition calendar_components : list (string * part) :=
  [("Root", CalendarRoot); ("Chevron", Chevron); ("DayButton", CalendarDayButton);
   ("WeekNumber", WeekNumber)].

Definition Calendar (c : CalendarProps) : DayPickerProps :=
  let captionLayout := default "label" (cal_captionLayout c) in
  {| dp_showOutsideDays := default true (cal_showOutsideDays c);
     dp_className := cn [
       CText "group/calendar bg-background p-3 [--cell-size:--spacing(8)] [[data-slot=card-content]_&]:bg-transparent [[data-slot=popover-content]_&]:bg-transparent";
       CText "rtl:**:[.rdp-button\_next>svg]:rotate-180";
       CText "rtl:**:[.rdp-button\_previous>svg]:rotate-180";
       class_opt (cal_className c)];
     dp_captionLayout := captionLayout;
     dp_formatters := merge [("formatMonthDropdown", month_short)] (cal_formatters c);
     dp_classNames :=
       merge (calendar_classNames captionLayout (default "ghost" (cal_buttonVariant c))
                (default false (cal_showWeekNumber c))) (cal_classNames c);
     dp_components := merge calendar_components (cal_components c);
     dp_showWeekNumber := cal_showWeekNumber c;
     dp_rest := cal_rest c |}.
End calendar.

(** ** What a document does *)

(** The properties of an element that do something: its handlers, those of clicks and those
    that take a text, what it shows of the state, and what keeps it from being used.  The
    others are its looks. *)
Definition live {Msg} (a : attr Msg) : bool :=
  match a with
  | On _ _ | OnText _ _ => true
  | Flag n _ => existsb (String.eqb n) ["disabled"; "required"; "checked"; "readOnly"; "open"]
  | Attr n _ => existsb (String.eqb n) ["value"; "min"; "max"; "step"; "placeholder"; "title"; "href"; "to"; "key"]
  end.

Definition type_of {Msg} (l : list (attr Msg)) : option string := (take_attr "type" l).1.

Definition own_wired {Msg} (l : list (attr Msg)) : list (option string * list (attr Msg)) :=
  match List.filter live l with [] => [] | w => [(type_of l, w)] end.

(** The elements of a tree that do something: for each its type and these properties. *)
Definition wired {Msg} (h : html Msg) : list (option string * list (attr Msg)) :=
  flat_map (fun '(_, attrs) => own_wired attrs) (elements h).

(** ** Lemmas *)

(** An element that does nothing by itself. *)
Definition inert {Msg} (l : list (attr Msg)) : bool :=
  forallb (fun a => negb (live a) && match a with Attr n _ => negb (String.eqb n "type") | _ => true end) l.

Section lemmas.
Context `{Styles} {Msg : Type}.
Implicit Types (l own rest : list (attr Msg)) (p : props Msg).

Lemma wired_elem tag l (cs : list (html Msg)) :
  wired (Elem tag l cs) = (own_wired l ++ flat_map wired cs)%list.
Proof. unfold wired. cbn [elements flat_map]. f_equal. apply flat_map_flat_map. Qed.

(** What can be clicked is what the wired elements say. *)
Lemma clicks_wired (h : html Msg) : clicks h = flat_map (fun w => own_clicks w.2) (wired h).
Proof.
  unfold clicks, wired. rewrite flat_map_flat_map. apply flat_map_ext. intros [tag l].
  transitivity (own_clicks (List.filter live l)); [| unfold own_wired; destruct (List.filter live l);
    cbn [flat_map fst snd]; by rewrite ?app_nil_r].
  unfold own_clicks.
  assert (disabled (List.filter live l) = disabled l) as ->.
  { unfold disabled. induction l as [|a l IH]; [done |]. cbn [List.filter].
    destruct (live a) eqn:E; cbn [existsb]; rewrite IH; [done |].
    destruct a as [n v|n b|e m|e g]; try done.
    destruct (String.eqb_spec n "disabled") as [->|]; [discriminate E | done]. }
  destruct (disabled l); [done |].
  induction l as [|a l IH]; [done |]. cbn [List.filter].
  destruct (live a) eqn:E; [| by destruct a]. cbn. by destruct a; cbn; rewrite ?IH.
Qed.

Lemma type_app own rest :
  type_of (own ++ rest)%list = match type_of rest with Some v => Some v | None => type_of own end.
Proof.
  unfold type_of. induction own as [|a own IH]; cbn; [by destruct (take_attr "type" rest) as [[]] |].
  destruct a as [n v| | |]; repeat destruct (take_attr "type" _) as [? ?]; cbn in *; try done.
  destruct (String.eqb n "type"); cbn; [| done]. rewrite IH. by repeat case_match.
Qed.

Lemma type_inert own : inert own = true -> type_of own = None.
Proof.
  unfold type_of. induction own as [|[n v| | |] own IH]; cbn; [done |..]; intros Hi; bat_simpl;
    try discriminate; specialize (IH ltac:(done)); destruct (take_attr "type" own); cbn in *; subst; try done.
  by destruct (String.eqb_spec n "type").
Qed.

Lemma inert_filter f l : inert l = true -> inert (List.filter f l) = true.
Proof.
  unfold inert. rewrite !forallb_forall. intros Hl x [Hx _]%filter_In. by apply Hl.
Qed.

Lemma live_inert own : inert own = true -> List.filter live own = [].
Proof.
  unfold inert. induction own as [|a own IH]; cbn; [done |]. intros Hi. bat_simpl.
  by destruct (live a); [| apply IH].
Qed.

(** Inert properties before others do not change what an element does. *)
Lemma own_wired_inert own rest :
  inert own = true -> own_wired (own ++ rest)%list = own_wired rest.
Proof.
  intros Hi. unfold own_wired. rewrite List.filter_app, live_inert, type_app, (type_inert own) by done.
  cbn. destruct (List.filter live rest); [done |]. by destruct (type_of rest).
Qed.

Lemma own_wired_spread own rest :
  inert own = true -> own_wired (spread_attrs own rest) = own_wired rest.
Proof. intros Hown. by apply own_wired_inert, inert_filter. Qed.

Lemma take_attr_rest k l :
  (take_attr k l).2 =
  List.filter (fun a => match a with Attr n _ => negb (String.eqb n k) | _ => true end) l.
Proof.
  induction l as [|a l IH]; cbn; [done |].
  destruct a as [n v|n b|e m|e g]; rewrite <- IH; destruct (take_attr k l) as [o r]; cbn; try done.
  by destruct (String.eqb n k).
Qed.

Lemma take_flag_rest k l :
  (take_flag k l).2 =
  List.filter (fun a => match a with Flag n _ => negb (String.eqb n k) | _ => true end) l.
Proof.
  induction l as [|a l IH]; cbn; [done |].
  destruct a as [n v|n b|e m|e g]; rewrite <- IH; destruct (take_flag k l) as [o r]; cbn; try done.
  by destruct (String.eqb n k).
Qed.

(** Dropping properties that do nothing. *)
Section filter.
Context (f : attr Msg -> bool).

Lemma live_filter l :
  (forall a, f a = false -> live a = false) -> List.filter live (List.filter f l) = List.filter live l.
Proof.
  intros Hf. induction l as [|a l IH]; [done |]. cbn [List.filter].
  destruct (f a) eqn:E; cbn [List.filter]; rewrite IH; [done |]. by rewrite Hf.
Qed.

Lemma type_filter l :
  (forall v, f (Attr "type" v) = true) -> type_of (List.filter f l) = type_of l.
Proof.
  intros Hf. unfold type_of. induction l as [|a l IH]; [done |]. cbn [List.filter take_attr].
  destruct (f a) eqn:E; destruct a as [n v| | |]; cbn [take_attr];
    repeat destruct (take_attr "type" _) as [? ?]; cbn in *; subst; try done.
  - by destruct (String.eqb n "type").
  - destruct (String.eqb_spec n "type") as [->|]; [by rewrite Hf in E | done].
Qed.
End filter.

Lemma own_wired_take_attr k l :
  live (Msg := Msg) (Attr k "") = false -> k <> "type" -> own_wired (take_attr k l).2 = own_wired l.
Proof.
  intros Hk Ht. unfold own_wired. rewrite take_attr_rest, live_filter, type_filter; [done | |].
  - intros v. apply negb_true_iff, String.eqb_neq. congruence.
  - intros [n v| | |]; try done. by intros ->%negb_false_iff%String.eqb_eq.
Qed.

Lemma own_wired_take_flag k l :
  live (Msg := Msg) (Flag k true) = false -> own_wired (take_flag k l).2 = own_wired l.
Proof.
  intros Hk. unfold own_wired. rewrite take_flag_rest, live_filter, type_filter; [done.. |].
  intros [|n b| |]; try done. by intros ->%negb_false_iff%String.eqb_eq.
Qed.

Lemma own_wired_props_of l cs : own_wired (rest (props_of l cs)) = own_wired l.
Proof.
  unfold props_of. pose proof (own_wired_take_attr "className" l eq_refl ltac:(done)) as Hl.
  by destruct (take_attr "className" l).
Qed.

Lemma children_props_of l cs : children (props_of l cs) = cs.
Proof. unfold props_of. by destruct (take_attr "className" l). Qed.

Lemma slotted_wired tag slot own classes p :
  inert own = true ->
  wired (slotted tag slot own classes p) = (own_wired (rest p) ++ flat_map wired (children p))%list.
Proof.
  intros Hown. unfold slotted. rewrite wired_elem, own_wired_spread; [done |].
  unfold inert in *. by rewrite !forallb_app, Hown.
Qed.

Lemma passed_wired tag slot p :
  wired (passed tag slot p) = (own_wired (rest p) ++ flat_map wired (children p))%list.
Proof.
  unfold passed. rewrite wired_elem, own_wired_spread, own_wired_inert by done || by destruct (className p).
  done.
Qed.

(** The components whose children are their own: what they are given is dropped. *)
Definition own_children (tag : string) : bool :=
  existsb (String.eqb tag) ["PaginationPrevious"; "PaginationNext"; "PaginationEllipsis"].

(** What a component may be given: those have no other children, and the type of an
    input is a text. *)
Definition given_well (tag : string) (l : list (attr Msg)) (cs : list (html Msg)) : bool :=
  implb (own_children tag) (match cs with [] => true | _ => false end) &&
  forallb (fun a => match a with Attr _ _ => true | _ => negb (String.eqb (attr_name a) "type") end) l.

Fixpoint well_given (h : html Msg) : bool :=
  match h with
  | Elem tag l cs => given_well tag l cs && forallb well_given cs
  | _ => true
  end.

Lemma Button_wired v z a p :
  wired (Button v z a p) = (own_wired (rest p) ++ flat_map wired (children p))%list.
Proof. unfold Button. by rewrite wired_elem, own_wired_spread. Qed.

Lemma PaginationLink_wired a z p :
  wired (PaginationLink a z p) = (own_wired (rest p) ++ flat_map wired (children p))%list.
Proof.
  unfold PaginationLink. rewrite wired_elem, own_wired_spread; [done |].
  by destruct a as [[]|].
Qed.

(** The input takes its type out of the properties and gives it back. *)
Lemma type_taken l : type_of (take_attr "type" l).2 = None.
Proof.
  rewrite take_attr_rest. unfold type_of. induction l as [|[n v| | |] l IH]; cbn [List.filter take_attr]; try done;
    try (destruct (take_attr "type" _); by cbn in *).
  destruct (String.eqb n "type") eqn:E; cbn [negb take_attr]; [done |].
  rewrite E. destruct (take_attr "type" _); by cbn in *.
Qed.

Lemma own_wired_type l :
  own_wired l = match List.filter live (take_attr "type" l).2 with [] => [] | w => [(type_of l, w)] end.
Proof.
  unfold own_wired. rewrite take_attr_rest, live_filter; [done |].
  intros [n v| | |]; try done. by intros ->%negb_false_iff%String.eqb_eq.
Qed.

Lemma Input_wired l cs :
  given_well "Input" l cs = true ->
  wired (let '(t, l1) := take_attr "type" l in Input t (props_of l1 cs)) =
  (own_wired l ++ flat_map wired cs)%list.
Proof.
  intros Hg. cbn in Hg. rewrite own_wired_type. unfold type_of. pose proof (type_taken l) as Ht.
  pose proof (take_attr_rest "type" l) as El.
  destruct (take_attr "type" l) as [t l1]. cbn [fst snd] in *.
  unfold Input. rewrite wired_elem, children_props_of. f_equal.
  pose proof (take_attr_rest "className" l1) as Er. unfold props_of.
  destruct (take_attr "className" l1) as [c r]. cbn [rest className] in *. cbn [snd] in Er.
  assert (List.filter live r = List.filter live l1) as Hl.
  { subst r. apply live_filter. intros [n v| | |]; try done. by intros ->%negb_false_iff%String.eqb_eq. }
  assert (existsb (fun b => String.eqb (attr_name b) "type") r = false) as Hno.
  { apply not_true_iff_false. intros (a & Ha & Hn)%existsb_exists. subst r l1.
    apply filter_In in Ha as [[Ha Ht']%filter_In _]. rewrite forallb_forall in Hg. specialize (Hg a Ha).
    destruct a; cbn in *; by rewrite Hn in *. }
  unfold own_wired, spread_attrs. rewrite (List.filter_app live (List.filter _ _) r), Hl.
  match goal with |- context [(List.filter live ?x ++ _)%list] =>
    assert (List.filter live x = []) as -> by (destruct t; cbn [attr_opt app List.filter attr_name]; repeat (case_match; cbn); reflexivity) end.
  cbn [app]. destruct (List.filter live l1); [done |]. repeat f_equal.
  rewrite type_app. assert (type_of r = None) as -> by
    (subst r; rewrite type_filter; [done |]; done).
  destruct t as [t|]; cbn; rewrite ?Hno; cbn; repeat case_match; done.
Qed.
End lemmas.

Lemma own_wired_nil {Msg} : own_wired (Msg := Msg) [] = [].
Proof. done. Qed.

Create Rewrite HintDb ui.
#[export] Hint Rewrite @wired_elem @Button_wired @PaginationLink_wired @passed_wired
  @own_wired_props_of @children_props_of
  @own_wired_nil @app_nil_l @app_nil_r : ui.
#[export] Hint Rewrite @slotted_wired @own_wired_spread using (by cbn) : ui.

(** Name the results of the destructuring of properties, with what they do. *)
Ltac take_props :=
  repeat match goal with
  | |- context [take_attr ?k ?l] =>
      let H := fresh "Htake" in
      pose proof (own_wired_take_attr k l eq_refl ltac:(discriminate)) as H;
      destruct (take_attr k l); cbn [snd] in H
  | |- context [take_flag ?k ?l] =>
      let H := fresh "Htake" in
      pose proof (own_wired_take_flag k l eq_refl) as H;
      destruct (take_flag k l); cbn [snd] in H
  end.

Section expanded.
Context `{Styles} {Msg : Type}.
Implicit Types (l : list (attr Msg)) (cs : list (html Msg)).

Lemma ui_components_wired :
  Forall (fun '(tag, f) => forall l cs,
    given_well tag l cs = true -> wired (f l cs) = (own_wired l ++ flat_map wired cs)%list)
  (ui_components (Msg := Msg)).
Proof.
  unfold ui_components.
  repeat (apply Forall_cons; split); try apply Forall_nil; try exact I; intros l cs Hcs;
    try exact (Input_wired l cs Hcs);
    apply andb_true_iff in Hcs as [Hcs _]; take_props;
    unfold Badge, Card, Popover, PopoverTrigger, PopoverContent, Pagination, PaginationContent,
      PaginationItem, PaginationPrevious, PaginationNext, PaginationEllipsis.
  all: autorewrite with ui; cbn [rest children flat_map]; autorewrite with ui;
    try congruence.
  all: destruct cs; [| done]; cbn; rewrite ?app_nil_r; congruence.
Qed.

Lemma render_wired tag l cs :
  given_well tag l cs = true ->
  wired (render tag l cs) = (own_wired l ++ flat_map wired cs)%list.
Proof.
  intros Hcs. unfold render. destruct (assoc tag ui_components) as [f|] eqn:E; [| apply wired_elem].
  pose proof ui_components_wired as Hall. rewrite List.Forall_forall in Hall.
  exact (Hall _ (assoc_in _ _ _ E) l cs Hcs).
Qed.

Lemma wired_expand (h : html Msg) : well_given h = true -> wired (expand h) = wired h.
Proof.
  induction h as [s | | tag l cs IH] using html_nested_ind; try done.
  cbn [well_given expand]. intros [Hcs Hall]%andb_true_iff.
  rewrite render_wired, wired_elem.
  - f_equal. clear Hcs. induction cs as [|c cs IHcs]; [done |].
    apply Forall_cons in IH as [Hc IH]. cbn in Hall |- *. apply andb_true_iff in Hall as [H1 H2].
    by rewrite Hc, IHcs.
  - unfold given_well in *. by destruct (own_children tag), cs.
Qed.
End expanded.

(** ** The page marked in the pagination *)

Local Open Scope Z_scope.

(** The messages of the elements a screen reader announces as the current page. *)
Definition current_pages {Msg} (h : html Msg) : list Msg :=
  flat_map (fun '(_, attrs) =>
    if existsb (fun a => match a with
                         | Attr n v => String.eqb n "aria-current" && String.eqb v "page"
                         | _ => false end) attrs
    then own_clicks attrs else []) (elements h).

(** On a page of the list, exactly one link is announced as the current page. *)
Lemma one_current `{Styles} page totalPages :
  1 <= page <= totalPages ->
  current_pages (expand (AppPagination page totalPages)) = [SetPage page].
Proof.
  intros Hp. unfold AppPagination, page_link, Shell.ellipsis.
  cmp_cases; subst; vm_compute; repeat f_equal; lia.
Qed.

Lemma pagination_well_given page totalPages : well_given (AppPagination page totalPages) = true.
Proof. unfold AppPagination, page_link, Shell.ellipsis. cmp_cases; reflexivity. Qed.

(** The pagination in the document: its current page, and the links of its tree. *)
Theorem pagination_current `{Styles} (page totalPages : Z) :
  (1 <= page <= totalPages)%Z ->
  current_pages (expand (AppPagination page totalPages)) = [SetPage page] /\
  clicks (expand (AppPagination page totalPages)) = clicks (AppPagination page totalPages).
Proof.
  intros Hp. split; [by apply one_current |].
  rewrite !clicks_wired, wired_expand; [done | apply pagination_well_given].
Qed.

(** C32 The document does what the tree of a page says: the elements that do something are
    those of the tree, in its order, each with its type and with the same handlers, of
    clicks and of typed texts, the same values, limits and marks (disabled, required),
    so that the theorems about the messages of the pages hold of the elements shown;
    what is clicked is then the same too.  The tree must not give children to the
    components that have their own, nor an input a type that is no text.  The tree of the
    pagination, which alone uses those components, is such a tree, and in the document
    exactly the link of the page shown is announced as the current one. *)
Theorem expand_wired `{Styles} {Msg} (h : html Msg) page totalPages :
  well_given h = true -> 1 <= page <= totalPages ->
  wired (expand h) = wired h /\ clicks (expand h) = clicks h /\
  well_given (AppPagination page totalPages) = true /\
  current_pages (expand (AppPagination page totalPages)) = [SetPage page].
Proof.
  intros Hh Hp. split_and!; [by apply wired_expand | | apply pagination_well_given | by apply one_current].
  by rewrite !clicks_wired, wired_expand.
Qed.

#[local] Instance plain_styles : Styles := {|
  clsx := fun l => join " " (flat_map (fun c => match c with
                                                | CText s => [s] | CNone => []
                                                | CDict d => List.map fst (List.filter snd d) end) l);
  twMerge := fun s => s;
  cva := fun c sel cls => join " " (cva_base c :: match cls with Some x => [x] | None => [] end) |}.

Lemma pagination_current_witness :
  current_pages (expand (AppPagination 3 7)) = [SetPage 3].
Proof. assert (1 <= 3 <= 7) as Hp by lia. exact (proj1 (pagination_current 3 7 Hp)). Defined.

(** A form of a page: what is typed in its input and what its button sends. *)
Lemma expand_wired_witness :
  let h := Elem "Card" [] [
    Elem "Input" [Attr "type" "number"; Attr "value" "3"; OnText "change" Some; Attr "min" "1"; Flag "required" true] [];
    Elem "Button" [Attr "variant" "outline"; On "click" None; Flag "disabled" false] [Text "Save"]] in
  wired (expand h) =
    [(Some "number", [Attr "value" "3"; OnText "change" Some; Attr "min" "1"; Flag "required" true]);
     (None, [On "click" None; Flag "disabled" false])].
Proof.
  assert (1 <= 3 <= 7) as Hp by lia.
  exact (proj1 (expand_wired (Elem "Card" [] [
    Elem "Input" [Attr "type" "number"; Attr "value" "3"; OnText "change" Some; Attr "min" "1"; Flag "required" true] [];
    Elem "Button" [Attr "variant" "outline"; On "click" None; Flag "disabled" false] [Text "Save"]]) 3 7 eq_refl Hp)).
Defined.

(** ** The variants *)

(** The documented result of [cva]: the base, then of every group the class of the
    variant asked for, or of the default one. *)
Definition cva_classes (c : cva_config) (s : selection) : list string :=
  cva_base c :: omap (fun '(g, table) =>
    v ← match assoc g s with Some (Some v) => Some v | _ => assoc g (cva_defaults c) end;
    assoc v table) (cva_variants c).

Section variants.
Context `{Styles} {Msg : Type}.
Hypothesis cva_spec : forall c s cls,
  cva c s cls = clsx (List.map CText (cva_classes c s) ++ [class_opt cls])%list.

(** A button or a badge without a variant is one of the variant [default], and a button
    without a size has the size [default]. *)
Theorem default_variants (a : bool) (p : props Msg) :
  Button None None a p = Button (Some "default") (Some "default") a p /\
  Badge None a p = Badge (Some "default") a p /\
  TabsList None p = TabsList (Some "default") p.
Proof.
  unfold Button, Badge, TabsList. rewrite !cva_spec. done.
Qed.
End variants.

(** ** The calendar *)

Section calendar_laws.
Context `{Styles} {Msg : Type}.
Context (defaultClassNames : string -> string) (local_date month_short : Z -> string).

(** What a page asks of the calendar wins, part by part, over what the component gives,
    which is there for all the rest. *)
Theorem calendar_overrides (c : CalendarProps (Msg := Msg)) k :
  NoDup (List.map fst (cal_classNames c)) -> NoDup (List.map fst (cal_components c)) ->
  let d := Calendar defaultClassNames local_date month_short c in
  assoc k (dp_classNames d) =
    match assoc k (cal_classNames c) with
    | Some v => Some v
    | None => assoc k (calendar_classNames defaultClassNames (default "label" (cal_captionLayout c))
                         (default "ghost" (cal_buttonVariant c)) (default false (cal_showWeekNumber c)))
    end /\
  assoc k (dp_components d) =
    match assoc k (cal_components c) with
    | Some v => Some v
    | None => assoc k (calendar_components defaultClassNames local_date)
    end.
Proof. intros H1 H2. cbn. by rewrite !assoc_merge. Qed.

(** A day marked as selected alone is selected and in no range. *)
Theorem single_not_range m :
  selected_single m = Some true <->
  assoc "selected" m = Some true /\ on m "range_start" = false /\ on m "range_end" = false /\
  on m "range_middle" = false.
Proof.
  unfold selected_single. destruct (assoc "selected" m) as [[]|]; 
    [| by split; [| intros [? _]]..].
  destruct (on m "range_start"), (on m "range_end"), (on m "range_middle"); cbn;
    split; try done; by intros (_ & ? & ? & ?).
Qed.
End calendar_laws.
