(* ===== verification/Chart.v ===== *)
(** * The charts of the primitives (frontend/src/components/ui/chart.tsx)

    The container that gives the configuration of a chart to what it holds, the style
    sheet with a variable for the colour of each series, and what the tooltip and the
    legend show.  [recharts] is not part of the repository: the payloads it gives the
    tooltip and the legend are values of the model, a part of a payload holds no
    functions.  Rendering is an [outcome]: [Err] is an exception thrown while React
    renders.  Unlike in the rest of the development the members an object inherits
    count here, since the code asks [key in config] for keys it takes from the data. *)

From S2P Require Import Prelude JsString JsValue JsonParse Host Html Ui.

Local Open Scope string_scope.
Local Open Scope Z_scope.

(** ** Rendering, with exceptions *)

#[export] Instance outcome_ret : MRet outcome := @Ok.
#[export] Instance outcome_bind : MBind outcome := fun A B f o =>
  match o with Ok a => f a | Err e => Err e end.

(** What React shows of a value among the children. *)
Fixpoint react_child {Msg} (v : jsval) : outcome (html Msg) :=
  match v with
  | JUndef | JNull | JBool _ => Ok Nothing
  | JNum n => Ok (Text (string_of_num n))
  | JStr s => Ok (Text s)
  | JArr l => cs ← mapM react_child l; Ok (Elem "" [] cs)
  | JObj _ => Err (new_error "Objects are not valid as a React child")
  end.

(** A [ReactNode]: a value or an element. *)
Inductive node (Msg : Type) : Type :=
| NVal (v : jsval)
| NElem (h : html Msg).
Arguments NVal {Msg} v.
Arguments NElem {Msg} h.

Definition node_truthy {Msg} (n : node Msg) : bool :=
  match n with NVal v => truthy v | NElem _ => true end.
Definition node_nullish {Msg} (n : node Msg) : bool :=
  match n with NVal v => nullish v | NElem _ => false end.
(** [a ?? b] *)
Definition node_or {Msg} (a b : node Msg) : node Msg := if node_nullish a then b else a.
Definition show_node {Msg} (n : node Msg) : outcome (html Msg) :=
  match n with NVal v => react_child v | NElem h => Ok h end.

(** ** The configuration *)

Definition THEMES : list (string * string) := [("light", ""); ("dark", ".dark")].

Section chart.
Context `{Styles} {Msg : Type}.
Context (locale : num -> string).   (** [toLocaleString()] of a number *)

(** A member of [ChartConfig]; [icon] is what the component renders. *)
Record ChartItem := {
  label : node Msg;
  icon : option (html Msg);
  color : option string;
  theme : option (list (string * string))
}.

Definition ChartConfig : Type := list (string * ChartItem).

(** An inherited member read as an item: none of the properties of one. *)
Definition inherited : ChartItem :=
  {| label := NVal JUndef; icon := None; color := None; theme := None |}.

(** [key in config] *)
Definition in_config (config : ChartConfig) (key : string) : bool :=
  match assoc key config with Some _ => true | None => existsb (String.eqb key) object_prototype end.

(** [config[key]] *)
Definition config_get (config : ChartConfig) (key : string) : option ChartItem :=
  match assoc key config with
  | Some item => Some item
  | None => if existsb (String.eqb key) object_prototype then Some inherited else None
  end.

(** ** The context *)

(** [useChart], from the value of the context. *)
Definition useChart (context : option ChartConfig) : outcome ChartConfig :=
  match context with
  | Some config => Ok config
  | None => Err (new_error "useChart must be used within a <ChartContainer />")
  end.

(** ** The style sheet *)

Definition nl : string := String "010" "".

(** [config.theme ?? config.color], as a condition. *)
Definition coloured (item : ChartItem) : bool :=
  match theme item with Some _ => true | None => match color item with Some c => str_truthy c | None => false end end.

Definition color_of (t : string) (item : ChartItem) : option string :=
  match theme item ≫= assoc t with Some c => Some c | None => color item end.

Definition color_line (t : string) (kv : string * ChartItem) : string :=
  match color_of t kv.2 with
  | Some c => if str_truthy c then "  --color-" +:+ kv.1 +:+ ": " +:+ c +:+ ";" else ""
  | None => ""
  end.

Definition theme_block (id : string) (colorConfig : ChartConfig) (t : string * string) : string :=
  nl +:+ t.2 +:+ " [data-chart=" +:+ id +:+ "] {" +:+ nl +:+
  join nl (List.map (color_line t.1) colorConfig) +:+ nl +:+ "}" +:+ nl.

Definition colorConfig (config : ChartConfig) : ChartConfig :=
  List.filter (fun kv => coloured kv.2) config.

Definition ChartStyle (id : string) (config : ChartConfig) : html Msg :=
  match colorConfig config with
  | [] => Nothing
  | cc => Elem "style" [Attr "dangerouslySetInnerHTML" (join nl (List.map (theme_block id cc) THEMES))] []
  end.

(** ** The container *)

(** [uniqueId] is what [useId] gives; [children] render in the context. *)
Definition chart_id (id : option string) (uniqueId : string) : string :=
  "chart-" +:+ default (join "" (split_on ":" uniqueId)) id.

Definition ChartContainer (id : option string) (uniqueId : string) (config : ChartConfig)
    (initialDimension : option (Z * Z)) (p : props Msg)
    (children : option ChartConfig -> outcome (list (html Msg))) : outcome (html Msg) :=
  let chartId := chart_id id uniqueId in
  let '(w, h) := default (320, 200) initialDimension in
  cs ← children (Some config);
  Ok (Elem "div" (spread_attrs
        [Attr "data-slot" "chart"; Attr "data-chart" chartId;
         Attr "className" (cn [
           CText "flex aspect-video justify-center text-xs [&_.recharts-cartesian-axis-tick_text]:fill-muted-foreground [&_.recharts-cartesian-grid_line[stroke='#ccc']]:stroke-border/50 [&_.recharts-curve.recharts-tooltip-cursor]:stroke-border [&_.recharts-dot[stroke='#fff']]:stroke-transparent [&_.recharts-layer]:outline-hidden [&_.recharts-polar-grid_[stroke='#ccc']]:stroke-border [&_.recharts-radial-bar-background-sector]:fill-muted [&_.recharts-rectangle.recharts-tooltip-cursor]:fill-muted [&_.recharts-reference-line_[stroke='#ccc']]:stroke-border [&_.recharts-sector]:outline-hidden [&_.recharts-sector[stroke='#fff']]:stroke-transparent [&_.recharts-surface]:outline-hidden";
           class_opt (className p)])] (rest p))
      [ChartStyle chartId config;
       Elem "RechartsPrimitive.ResponsiveContainer"
         [Attr "initialDimension.width" (string_of_Z w); Attr "initialDimension.height" (string_of_Z h)] cs]).

(** ** The item of a payload *)

(** The own members of an object. *)
Definition own_member (v : jsval) (k : string) : option jsval :=
  match v with
  | JObj o => assoc k o
  | JArr l => snd <$> find (fun '(i, _) => String.eqb (string_of_Z (Z.of_nat i)) k) (imap pair l)
  | _ => None
  end.

(** [typeof v === "object" && v !== null] *)
Definition is_object (v : jsval) : bool := match v with JObj _ | JArr _ => true | _ => false end.

(** [key in v && typeof v[key] === "string"]: no inherited member is a string. *)
Definition string_member (v : jsval) (k : string) : option string :=
  match own_member v k with Some (JStr s) => Some s | _ => None end.

Definition payload_payload (v : jsval) : option jsval :=
  match own_member v "payload" with Some p => if is_object p then Some p else None | None => None end.

Definition getPayloadConfigFromPayload (config : ChartConfig) (payload : jsval) (key : string)
    : option ChartItem :=
  if negb (is_object payload) then None
  else
    let configLabelKey :=
      match string_member payload key with
      | Some s => s
      | None =>
          match payload_payload payload with
          | Some pp => default key (string_member pp key)
          | None => key
          end
      end in
    if in_config config configLabelKey then config_get config configLabelKey
    else config_get config key.

(** ** The tooltip *)

(** [v?.k] *)
Definition opt_prop (v : jsval) (k : string) : jsval := default JUndef (get_prop v k).

(** [item.k] of an item of the payload, a TypeError on [null] and [undefined]. *)
Definition item_prop (item : jsval) (k : string) : outcome jsval :=
  match get_prop item k with Some v => Ok v | None => Err (type_error k) end.

(** [`${v ?? "value"}`] *)
Definition key_text (v : jsval) : string := js_string (coalesce v (JStr "value")).

Record TooltipProps := {
  active : bool;
  payload : option (list jsval);
  tp_className : option string;
  indicator : option string;
  hideLabel : option bool;
  hideIndicator : option bool;
  tp_label : jsval;
  labelFormatter : option (node Msg -> list jsval -> node Msg);
  labelClassName : option string;
  formatter : option (jsval -> jsval -> jsval -> nat -> jsval -> node Msg);
  tp_color : option string;
  nameKey : option string;
  labelKey : option string
}.

Definition items_of (t : TooltipProps) : list jsval := default [] (payload t).

(** The parameter defaults. *)
Definition indicator_of (t : TooltipProps) : string := default "dot" (indicator t).

(** The value of the label, before it is shown. *)
Definition label_value (config : ChartConfig) (t : TooltipProps) (item : jsval) : node Msg :=
  let key := key_text (coalesce (coalesce (jopt JStr (labelKey t)) (opt_prop item "dataKey"))
                         (opt_prop item "name")) in
  let item_label := match getPayloadConfigFromPayload config item key with
                    | Some c => label c | None => NVal JUndef end in
  match tp_label t with
  | JStr s =>
      if negb (truthy (jopt JStr (labelKey t)))
      then node_or (match config_get config s with Some c => label c | None => NVal JUndef end) (NVal (JStr s))
      else item_label
  | _ => item_label
  end.

Definition label_div (t : TooltipProps) (n : node Msg) : outcome (html Msg) :=
  h ← show_node n;
  Ok (Elem "div" [Attr "className" (cn [CText "font-medium"; class_opt (labelClassName t)])] [h]).

(** [tooltipLabel], rendered where it is shown; [Nothing] is [null]. *)
Definition tooltipLabel (config : ChartConfig) (t : TooltipProps) : outcome (html Msg) :=
  match default false (hideLabel t), items_of t with
  | true, _ | _, [] => Ok Nothing
  | false, item :: _ =>
      let value := label_value config t item in
      match labelFormatter t with
      | Some f => label_div t (f value (items_of t))
      | None => if node_truthy value then label_div t value else Ok Nothing
      end
  end.

Definition nestLabel (t : TooltipProps) : bool :=
  (length (items_of t) =? 1)%nat && negb (String.eqb (indicator_of t) "dot").

(** The items that are shown: those whose [type] is not ["none"]. *)
Fixpoint shown (items : list jsval) : outcome (list jsval) :=
  match items with
  | [] => Ok []
  | i :: l =>
      ty ← item_prop i "type";
      r ← shown l;
      Ok (match ty with JStr s => if String.eqb s "none" then r else i :: r | _ => i :: r end)
  end.

Definition style_var (name : string) (v : jsval) : list (attr Msg) :=
  if nullish v then [] else [Attr name (js_string v)].

Definition indicator_box (t : TooltipProps) (indicatorColor : jsval) : html Msg :=
  let kind k := String.eqb (indicator_of t) k in
  Elem "div" ([Attr "className" (cn [
      CText "shrink-0 rounded-[2px] border-(--color-border) bg-(--color-bg)";
      CDict [("h-2.5 w-2.5", kind "dot"); ("w-1", kind "line");
             ("w-0 border-[1.5px] border-dashed bg-transparent", kind "dashed");
             ("my-0.5", nestLabel t && kind "dashed")]])] ++
    style_var "--color-bg" indicatorColor ++ style_var "--color-border" indicatorColor)%list [].

(** [`${nameKey ?? item.name ?? item.dataKey ?? "value"}`] *)
Definition row_key (t : TooltipProps) (item : jsval) : string :=
  key_text (coalesce (coalesce (jopt JStr (nameKey t)) (opt_prop item "name")) (opt_prop item "dataKey")).

Definition value_text (v : jsval) : string :=
  match v with JNum n => locale n | _ => js_string v end.

Definition undefined (v : jsval) : bool := match v with JUndef => true | _ => false end.

(** A row of the tooltip, its items already known not to be [null]. *)
Definition tooltip_row (config : ChartConfig) (t : TooltipProps) (lbl : outcome (html Msg)) (index : nat) (item : jsval)
    : outcome (html Msg) :=
  let itemConfig := getPayloadConfigFromPayload config item (row_key t item) in
  let indicatorColor := coalesce (coalesce (jopt JStr (tp_color t)) (opt_prop (opt_prop item "payload") "fill"))
                          (opt_prop item "color") in
  let value := opt_prop item "value" in
  let name := opt_prop item "name" in
  let formatted := match formatter t with
                   | Some f => if negb (undefined value) && truthy name
                               then Some (f value name item index (opt_prop item "payload")) else None
                   | None => None
                   end in
  content ←
    match formatted with
    | Some n => h ← show_node n; Ok [h]
    | None =>
        nested ← (if nestLabel t then lbl else Ok Nothing);
        text ← show_node (node_or (match itemConfig with Some c => label c | None => NVal JUndef end) (NVal name));
        Ok [
          match itemConfig ≫= icon with
          | Some i => i
          | None => show (negb (default false (hideIndicator t))) (indicator_box t indicatorColor)
          end;
          Elem "div" [Attr "className" (cn [
            CText "flex flex-1 justify-between leading-none";
            CText (if nestLabel t then "items-end" else "items-center")])] [
            div [nested; span [text]];
            show (negb (nullish value)) (span [Text (value_text value)])]]
    end;
  Ok (Elem "div" [Attr "className" (cn [
        CText "flex w-full flex-wrap items-stretch gap-2 [&>svg]:h-2.5 [&>svg]:w-2.5 [&>svg]:text-muted-foreground";
        class_if (String.eqb (indicator_of t) "dot") "items-center"])] content).

Definition ChartTooltipContent (context : option ChartConfig) (t : TooltipProps) : outcome (html Msg) :=
  config ← useChart context;
  let lbl := tooltipLabel config t in
  if negb (active t) || (length (items_of t) =? 0)%nat then Ok Nothing
  else
    items ← shown (items_of t);
    above ← (if nestLabel t then Ok Nothing else lbl);
    rows ← mapM (fun '(i, item) => tooltip_row config t lbl i item) (imap pair items);
    Ok (Elem "div" [Attr "className" (cn [
          CText "grid min-w-[8rem] items-start gap-1.5 rounded-lg border border-border/50 bg-background px-2.5 py-1.5 text-xs shadow-xl";
          class_opt (tp_className t)])] [
        above;
        div rows]).

(** ** The legend *)

Record LegendProps := {
  lg_className : option string;
  hideIcon : option bool;
  lg_payload : option (list jsval);
  verticalAlign : option string;
  lg_nameKey : option string
}.

Definition legend_entry (config : ChartConfig) (g : LegendProps) (item : jsval) : outcome (html Msg) :=
  let key := key_text (coalesce (jopt JStr (lg_nameKey g)) (opt_prop item "dataKey")) in
  let itemConfig := getPayloadConfigFromPayload config item key in
  text ← show_node (match itemConfig with Some c => label c | None => NVal JUndef end);
  Ok (Elem "div" [Attr "className" (cn [CText "flex items-center gap-1.5 [&>svg]:h-3 [&>svg]:w-3 [&>svg]:text-muted-foreground"])] [
    match itemConfig ≫= icon, default false (hideIcon g) with
    | Some i, false => i
    | _, _ => Elem "div" (style_var "backgroundColor" (opt_prop item "color")) []
    end;
    text]).

Definition ChartLegendContent (context : option ChartConfig) (g : LegendProps) : outcome (html Msg) :=
  config ← useChart context;
  match default [] (lg_payload g) with
  | [] => Ok Nothing
  | l =>
      items ← shown l;
      rows ← mapM (legend_entry config g) items;
      Ok (Elem "div" [Attr "className" (cn [
            CText "flex items-center justify-center gap-4";
            CText (if String.eqb (default "bottom" (verticalAlign g)) "top" then "pb-3" else "pt-3");
            class_opt (lg_className g)])] rows)
  end.
End chart.

(** ** A reader of the style sheet *)

(** The text before and after the first [c]. *)
Fixpoint cut (c : ascii) (s : string) : option (string * string) :=
  match s with
  | "" => None
  | String a s' =>
      if Ascii.eqb a c then Some ("", s')
      else match cut c s' with Some (x, y) => Some (String a x, y) | None => None end
  end.

Fixpoint strip_suffix (s suf : string) : option string :=
  if String.eqb s suf then Some ""
  else match s with "" => None | String a s' => String a <$> strip_suffix s' suf end.

Inductive css_line : Type :=
| Open (selector : string)
| Close
| Var (name value : string)
| Blank.

Definition read_line (s : string) : css_line :=
  match strip_prefix "  --color-" s with
  | Some r =>
      match cut ":" r with
      | Some (k, v) =>
          match strip_prefix " " v ≫= fun v => strip_suffix v ";" with
          | Some c => Var k c | None => Blank end
      | None => Blank
      end
  | None =>
      if String.eqb s "}" then Close
      else match strip_suffix s " {" with Some sel => Open sel | None => Blank end
  end.

(** The rules of the sheet: a selector with its variables. *)
Definition rule : Type := string * list (string * string).

Fixpoint read_rules (lines : list css_line) (current : option rule) : list rule :=
  match lines with
  | [] => []
  | Open sel :: l => read_rules l (Some (sel, []))
  | Var k v :: l => read_rules l (fmap (M := option) (fun r => (r.1, r.2 ++ [(k, v)])%list) current)
  | Close :: l => match current with Some r => r :: read_rules l None | None => read_rules l None end
  | Blank :: l => read_rules l current
  end.

Definition read_sheet (s : string) : list rule :=
  read_rules (List.map read_line (split_on "010" s)) None.

(** ** Lemmas *)

Lemma cut_app c a t : has_char c a = false -> cut c (a +:+ String c t) = Some (a, t).
Proof.
  induction a as [|x a IH]; cbn; intros Ha; [by rewrite Ascii.eqb_refl |]. bat_simpl.
  rewrite IH by done. by rewrite (proj2 (Ascii.eqb_neq x c)).
Qed.

Lemma strip_suffix_eq s suf :
  strip_suffix s suf =
  if String.eqb s suf then Some ""
  else match s with "" => None | String a s' => String a <$> strip_suffix s' suf end.
Proof. by destruct s. Qed.

Lemma strip_suffix_app a suf : strip_suffix (a +:+ suf) suf = Some a.
Proof.
  induction a as [|x a IH]; rewrite strip_suffix_eq; [by cbn; rewrite String.eqb_refl |].
  destruct (String.eqb_spec (String x a +:+ suf) suf) as [E|_]; [| by cbn; rewrite IH].
  apply (f_equal String.length) in E. rewrite length_app_s in E. cbn in E. lia.
Qed.

Lemma join_app_s sep a b :
  a <> [] -> b <> [] -> join sep (a ++ b)%list = join sep a +:+ sep +:+ join sep b.
Proof.
  intros Ha Hb. induction a as [|x a IH]; [done |].
  destruct a as [|y a]; [by destruct b |].
  change (join sep ((x :: y :: a) ++ b)%list) with (x +:+ sep +:+ join sep ((y :: a) ++ b)%list).
  rewrite IH by done. change (join sep (x :: y :: a)) with (x +:+ sep +:+ join sep (y :: a)).
  by rewrite !app_assoc_s.
Qed.

Lemma mapM_outcome_length {A B} (f : A -> outcome B) l r : mapM f l = Ok r -> length r = length l.
Proof.
  revert r. induction l as [|x l IH]; cbn; [by intros r [= <-] |]. intros r.
  destruct (f x) as [y|]; [| done]. cbn. destruct (mapM f l) as [r'|] eqn:E; [| done]. cbn.
  intros [= <-]. cbn. by rewrite (IH r').
Qed.

(** ** Properties *)

Section properties.
Context `{Styles} {Msg : Type}.
Implicit Types (config : ChartConfig (Msg := Msg)).

(** The colour a series is meant to have in a theme: the one of the theme, when the series
    has themes and this one is among them, otherwise its own; an empty one is none. *)
Definition series_colour (t : string) (item : ChartItem (Msg := Msg)) : option string :=
  let some c := if String.eqb c "" then None else Some c in
  match theme item with
  | Some m => match assoc t m with Some c => some c | None => color item ≫= some end
  | None => color item ≫= some
  end.

(** The variables a theme is meant to have: one for each series with a colour in it. *)
Definition theme_vars (t : string) config : list (string * string) :=
  omap (fun kv : string * ChartItem (Msg := Msg) => (fun c => (kv.1, c)) <$> series_colour t kv.2) config.

(** A series that asks for no colour at all. *)
Definition colourless (item : ChartItem (Msg := Msg)) : Prop :=
  theme item = None /\ default "" (color item) = "".

(** Keys, colours and the identifier are on one line, and a key has no colon. *)
Definition plain_key (k : string) : bool := negb (has_char ":" k) && negb (has_char "010" k).
Definition plain_text (s : string) : bool := negb (has_char "010" s).
Definition plain_item (item : ChartItem (Msg := Msg)) : bool :=
  forallb (fun t => match series_colour t.1 item with Some c => plain_text c | None => true end) THEMES.
Definition plain_config config : bool :=
  forallb (fun kv => plain_key kv.1 && plain_item kv.2) config.

Lemma color_of_series t (item : ChartItem (Msg := Msg)) :
  (c ← color_of t item; if str_truthy c then Some c else None) = series_colour t item.
Proof.
  unfold color_of, series_colour. destruct (theme item) as [m|]; cbn [mbind option_bind];
    [destruct (assoc t m) as [c|] |]; try destruct (color item) as [c|]; cbn; try done;
    unfold str_truthy; by destruct (String.eqb c "").
Qed.

Lemma color_line_series t (k : string) (item : ChartItem (Msg := Msg)) :
  (c ← color_of t item; if str_truthy c then Some (k, c) else None) = (fun c => (k, c)) <$> series_colour t item.
Proof.
  rewrite <- color_of_series. destruct (color_of t item) as [c|]; cbn; [by destruct (str_truthy c) | done].
Qed.

Lemma coloured_spec (item : ChartItem (Msg := Msg)) : coloured item = false <-> colourless item.
Proof.
  unfold coloured, colourless, str_truthy. destruct (theme item), (color item) as [c|]; cbn;
    (split; [intros Hc | intros [? ?]]); try done; [| by subst].
  split; [done |]. by apply negb_false_iff, String.eqb_eq in Hc.
Qed.

Lemma colourless_series t (item : ChartItem (Msg := Msg)) : colourless item -> series_colour t item = None.
Proof. unfold series_colour. intros [-> Hc]. by destruct (color item) as [c|]; cbn in *; subst. Qed.

(** Leaving out the series without a colour loses no variable. *)
Lemma colorConfig_vars t config : theme_vars t (colorConfig config) = theme_vars t config.
Proof.
  unfold theme_vars, colorConfig. induction config as [|kv config IH]; [done |]. cbn [List.filter].
  destruct (coloured kv.2) eqn:E; [by cbn; rewrite IH |].
  apply coloured_spec, (colourless_series t) in E. rewrite IH. cbn. by rewrite E.
Qed.

Lemma colorConfig_nil config : colorConfig config = [] <-> Forall (fun kv => colourless kv.2) config.
Proof.
  unfold colorConfig. induction config as [|kv config IH]; [done |]. cbn [List.filter].
  rewrite Forall_cons, <- coloured_spec, <- IH. destruct (coloured kv.2); naive_solver.
Qed.

Lemma read_color_line t k (item : ChartItem (Msg := Msg)) :
  plain_key k = true ->
  read_line (color_line t (k, item)) =
  match (fun c => (k, c)) <$> series_colour t item with Some kv => Var kv.1 kv.2 | None => Blank end.
Proof.
  rewrite <- color_line_series.
  intros [Hk _]%andb_true_iff. apply negb_true_iff in Hk.
  unfold color_line, snd, fst. destruct (color_of t item) as [c|]; [| done]. cbn [mbind option_bind].
  destruct (str_truthy c); [| done]. unfold read_line.
  rewrite strip_prefix_app.
  change (k +:+ ": " +:+ c +:+ ";") with (k +:+ String ":" (" " +:+ c +:+ ";")).
  rewrite cut_app by done. rewrite strip_prefix_app. cbn [mbind option_bind].
  by rewrite strip_suffix_app.
Qed.

Lemma read_color_lines t cc l sel acc :
  forallb (fun kv => plain_key kv.1) cc = true ->
  read_rules (List.map (fun kv : string * ChartItem (Msg := Msg) => read_line (color_line t kv)) cc ++ l)%list
    (Some (sel, acc)) =
  read_rules l (Some (sel, acc ++ theme_vars t cc)%list).
Proof.
  revert acc. induction cc as [|[k item] cc IH]; intros acc Hcc; cbn; [by rewrite app_nil_r |].
  cbn in Hcc. apply andb_true_iff in Hcc as [Hk Hcc].
  rewrite read_color_line by done.
  unfold theme_vars. cbn. destruct (series_colour t item) as [c|]; cbn; rewrite IH by done; [| done].
  by rewrite <- (assoc_L (++)).
Qed.

(** The lines of a theme. *)
Definition block_lines (id : string) config (t : string * string) : list string :=
  (["" ; t.2 +:+ " [data-chart=" +:+ id +:+ "] {"] ++ List.map (color_line t.1) config ++ ["}"; ""])%list.

Lemma theme_block_lines id cc t :
  cc <> [] -> theme_block id cc t = join nl (block_lines id cc t).
Proof.
  intros Hcc. unfold theme_block, block_lines.
  rewrite join_app_s, join_app_s by (try done; by destruct cc). cbn [join].
  by rewrite !app_assoc_s, app_nil_r_s.
Qed.

Lemma block_lines_plain id cc t :
  plain_text id = true -> plain_config cc = true -> In t THEMES ->
  Forall (fun s => has_char "010" s = false) (block_lines id cc t).
Proof.
  intros Hid%negb_true_iff Hcc Ht. unfold block_lines. apply Forall_app_2; [| apply Forall_app_2].
  - repeat constructor. rewrite !has_char_app, Hid. by destruct Ht as [<-|[<-|[]]].
  - unfold plain_config in Hcc. rewrite forallb_forall in Hcc. rewrite List.Forall_forall.
    intros s [[k item] [<- Hin]]%in_map_iff. specialize (Hcc _ Hin). cbn [fst snd] in Hcc.
    apply andb_true_iff in Hcc as [[_ Hk%negb_true_iff]%andb_true_iff Hi].
    unfold plain_item in Hi. rewrite forallb_forall in Hi. specialize (Hi _ Ht).
    unfold color_line, fst, snd. destruct t as [t p]. cbn [fst] in Hi |- *.
    rewrite <- color_of_series in Hi.
    destruct (color_of t item) as [c|]; [| done]. cbn in Hi. destruct (str_truthy c); [| done].
    apply negb_true_iff in Hi. by rewrite !has_char_app, Hk, Hi.
  - by repeat constructor.
Qed.

Lemma read_block id cc t l :
  plain_config cc = true -> In t THEMES ->
  read_rules (List.map read_line (block_lines id cc t) ++ l)%list None =
  (t.2 +:+ " [data-chart=" +:+ id +:+ "]", theme_vars t.1 cc) :: read_rules l None.
Proof.
  intros Hcc Ht. unfold block_lines.
  assert (read_line (t.2 +:+ " [data-chart=" +:+ id +:+ "] {") = Open (t.2 +:+ " [data-chart=" +:+ id +:+ "]"))
    as Hopen.
  { unfold read_line.
    change (t.2 +:+ " [data-chart=" +:+ id +:+ "] {") with (t.2 +:+ " [data-chart=" +:+ id +:+ ("]" +:+ " {")).
    rewrite !app_assoc_s, strip_suffix_app. by destruct Ht as [<-|[<-|[]]]. }
  rewrite !List.map_app, List.map_map. cbn [List.map app]. rewrite Hopen. cbn [read_line strip_prefix].
  cbn [read_rules]. rewrite <- (assoc_L (++)), read_color_lines; [done |].
  unfold plain_config in Hcc. rewrite forallb_forall in Hcc |- *. intros kv Hkv.
  by apply Hcc, andb_true_iff in Hkv as [? _].
Qed.

(** C33 The style sheet of a chart, read line by line: one rule for each theme, on the
    elements with the identifier of the chart, with a variable [--color-key] for exactly
    the series of the configuration that have a colour in that theme ([series_colour]:
    that of the theme, or else their own, when it is not empty), in their order; and no
    style element exactly when no series has a theme or a colour.  (The identifier, the
    keys and the colours are on one line and the keys have no colon.) *)
Theorem chart_style_read id config :
  plain_text id = true -> plain_config config = true ->
  (ChartStyle id config = Nothing <-> Forall (fun kv => colourless kv.2) config) /\
  (~ Forall (fun kv => colourless kv.2) config -> exists css,
     ChartStyle id config = Elem "style" [Attr "dangerouslySetInnerHTML" css] [] /\
     read_sheet css =
       [(" [data-chart=" +:+ id +:+ "]", theme_vars "light" config);
        (".dark [data-chart=" +:+ id +:+ "]", theme_vars "dark" config)]).
Proof.
  intros Hid Hc. rewrite <- colorConfig_nil.
  split; [unfold ChartStyle; by destruct (colorConfig config) |]. intros Hne.
  assert (plain_config (colorConfig config) = true) as Hcc.
  { unfold plain_config, colorConfig in *. rewrite forallb_forall in Hc |- *.
    intros kv [Hin _]%filter_In. by apply Hc. }
  rewrite <- !colorConfig_vars with (config := config).
  unfold ChartStyle. destruct (colorConfig config) as [|kv cc] eqn:E; [done |].
  eexists. split; [done |]. rewrite <- E in *. clear E kv cc.
  cbn [List.map THEMES].
  rewrite !theme_block_lines by done.
  change (join nl [join nl ?x; join nl ?y]) with (join nl x +:+ nl +:+ join nl y).
  rewrite <- join_app_s by done.
  unfold read_sheet. rewrite split_join.
  - rewrite List.map_app, read_block by (done || by left).
    rewrite <- (app_nil_r (List.map read_line (block_lines id _ ("dark", ".dark")))).
    rewrite read_block by (done || by right; left). done.
  - done.
  - apply Forall_app_2; apply block_lines_plain; (done || (by left) || by right; left).
Qed.

(** The key an item of the data is looked up with: the first text among the member of
    that name, the one of its payload, and the key itself. *)
Definition label_key (item : jsval) (key : string) : string :=
  match string_member item key with
  | Some s => s
  | None => match payload_payload item ≫= fun p => string_member p key with Some s => s | None => key end
  end.

Lemma label_key_eq config item key :
  is_object item = true ->
  getPayloadConfigFromPayload config item key =
  if in_config config (label_key item key) then config_get config (label_key item key)
  else config_get config key.
Proof.
  intros Ho. unfold getPayloadConfigFromPayload, label_key. rewrite Ho. cbn [negb].
  destruct (string_member item key); [done |]. destruct (payload_payload item) as [p|]; [| done].
  cbn [mbind option_bind]. by destruct (string_member p key).
Qed.

(** The configuration of an item of the data: that of the series its data names, or of
    its key, and none for anything that is not an object or that is neither; but a
    series with the name of a member every object inherits ([constructor], say) that is
    not configured gets an item without a label or an icon, and not the one of its
    key. *)
Theorem payload_config_spec config item key :
  (is_object item = false -> getPayloadConfigFromPayload config item key = None) /\
  (is_object item = true ->
   let k := label_key item key in
   (forall c, assoc k config = Some c -> getPayloadConfigFromPayload config item key = Some c) /\
   (assoc k config = None -> In k object_prototype ->
      getPayloadConfigFromPayload config item key = Some inherited) /\
   (assoc k config = None -> ~ In k object_prototype -> ~ In key object_prototype ->
      getPayloadConfigFromPayload config item key = assoc key config)).
Proof.
  split; [by intros Ho; unfold getPayloadConfigFromPayload; rewrite Ho |].
  intros Ho k. rewrite label_key_eq by done. fold k. unfold in_config, config_get.
  assert (forall x, existsb (String.eqb x) object_prototype = true <-> In x object_prototype) as Hin.
  { intros x. rewrite existsb_exists. split; [| by exists x; rewrite String.eqb_refl].
    by intros (y & Hy & ->%String.eqb_eq). }
  split_and!.
  - by intros c ->.
  - intros -> Hk%Hin. by rewrite Hk.
  - intros -> Hk Hkey. rewrite <- Hin, not_true_iff_false in Hk, Hkey. rewrite Hk, Hkey.
    by destruct (assoc key config).
Qed.

(** The tooltip and the legend throw outside a container; inside one, what they render
    is what they render from its configuration. *)
Theorem chart_context id uid config dim (p : props Msg) loc (t : TooltipProps (Msg := Msg)) g :
  ChartTooltipContent loc None t = Err (new_error "useChart must be used within a <ChartContainer />") /\
  ChartLegendContent (Msg := Msg) None g = Err (new_error "useChart must be used within a <ChartContainer />") /\
  forall h1 h2,
    ChartTooltipContent loc (Some config) t = Ok h1 ->
    ChartLegendContent (Some config) g = Ok h2 ->
    exists attrs,
      ChartContainer id uid config dim p (fun context =>
        a ← ChartTooltipContent loc context t; b ← ChartLegendContent context g; Ok [a; b]) =
      Ok (Elem "div" attrs
            [ChartStyle (chart_id id uid) config;
             Elem "RechartsPrimitive.ResponsiveContainer"
               [Attr "initialDimension.width" (string_of_Z (default (320, 200) dim).1);
                Attr "initialDimension.height" (string_of_Z (default (320, 200) dim).2)] [h1; h2]]).
Proof.
  split_and!; [done | done |]. intros h1 h2 H1 H2. unfold ChartContainer.
  destruct (default (320, 200) dim) as [w h]. rewrite H1. cbn [mbind outcome_bind]. rewrite H2.
  eexists. done.
Qed.

(** An open tooltip has a row for each item that is shown, and the label once: above
    the rows, or in the only row when the indicator is not a dot. *)
Theorem tooltip_rows loc config (t : TooltipProps (Msg := Msg)) h :
  active t = true -> items_of t <> [] ->
  ChartTooltipContent loc (Some config) t = Ok h ->
  exists cls above rows items,
    h = Elem "div" cls [above; div rows] /\
    shown (items_of t) = Ok items /\ length rows = length items /\
    (if nestLabel t then above = Nothing else tooltipLabel config t = Ok above).
Proof.
  intros Ha Hne. unfold ChartTooltipContent. cbn [useChart mbind outcome_bind]. rewrite Ha.
  replace (length (items_of t) =? 0)%nat with false by (by destruct (items_of t)). cbn [negb orb].
  destruct (shown (items_of t)) as [items|]; [| done]. cbn [mbind outcome_bind].
  destruct (if nestLabel t then Ok Nothing else tooltipLabel config t) as [above|] eqn:El; [| done].
  cbn [mbind outcome_bind].
  destruct (mapM _ (imap pair items)) as [rows|] eqn:Er; [| done]. cbn [mbind outcome_bind].
  intros [= <-]. eexists _, above, rows, items. split_and!; [done | done | |].
  - apply mapM_outcome_length in Er. by rewrite length_imap in Er.
  - destruct (nestLabel t); [by injection El as <- | done].
Qed.
End properties.

(** A chart of two series, one with a colour in each theme. *)
Definition demo_config : ChartConfig (Msg := unit) :=
  [("desktop", {| label := NVal (JStr "Desktop"); icon := None; color := Some "#2563eb"; theme := None |});
   ("mobile", {| label := NVal (JStr "Mobile"); icon := None; color := None;
                 theme := Some [("light", "red"); ("dark", "pink")] |})].

Lemma chart_style_read_witness :
  exists css, ChartStyle "chart-r1" demo_config = Elem "style" [Attr "dangerouslySetInnerHTML" css] [] /\
    read_sheet css =
      [(" [data-chart=chart-r1]", [("desktop", "#2563eb"); ("mobile", "red")]);
       (".dark [data-chart=chart-r1]", [("desktop", "#2563eb"); ("mobile", "pink")])].
Proof.
  assert (~ Forall (fun kv => colourless kv.2) demo_config) as Hne
    by (intros H; apply Forall_cons in H as [[_ H] _]; discriminate H).
  exact (proj2 (chart_style_read "chart-r1" demo_config eq_refl eq_refl) Hne).
Defined.
