(* ===== verification/Routes.v ===== *)
(** * The routes of the dashboard (frontend/src)

    [routeTree.gen.ts], which the router's plugin writes, with the types it declares
    for the links; the options of the route files (under routes), the guards among them;
    [__root.tsx] and [main.tsx].  The router itself is the class [Router]: before it
    renders a route it runs the [beforeLoad] of the route and of its ancestors, the
    root first, and stops at the first redirect. *)

From S2P Require Import Prelude JsString JsValue Host Html Session Shell Ui.

Local Open Scope string_scope.
Local Open Scope Z_scope.

(** ** routeTree.gen.ts *)

(** The argument of [update]; routes refer to each other by the names of the constants,
    the root by [rootRouteImport]. *)
Record Route := {
  r_name : string;
  r_import : string;
  r_id : string;
  r_path : option string;
  r_parent : string
}.

(** An entry of [FileRoutesByPath]. *)
Record FileRouteType := {
  ft_id : string;
  ft_path : string;
  ft_fullPath : string;
  ft_preLoader : string;
  ft_parent : string
}.

Definition AppRoute : Route := {| r_name := "AppRoute"; r_import := "AppRouteImport"; r_id := "/app";
  r_path := Some "/app"; r_parent := "rootRouteImport" |}.
Definition TvRoute : Route := {| r_name := "TvRoute"; r_import := "TvRouteImport"; r_id := "/tv";
  r_path := Some "/tv"; r_parent := "rootRouteImport" |}.
Definition LoginRoute : Route := {| r_name := "LoginRoute"; r_import := "LoginRouteImport"; r_id := "/login";
  r_path := Some "/login"; r_parent := "rootRouteImport" |}.
Definition InviteTokenRoute : Route := {| r_name := "InviteTokenRoute"; r_import := "InviteTokenRouteImport"; r_id := "/invite/$token";
  r_path := Some "/invite/$token"; r_parent := "rootRouteImport" |}.
Definition AppLayoutRoute : Route := {| r_name := "AppLayoutRoute"; r_import := "AppLayoutRouteImport"; r_id := "/_layout";
  r_path := None; r_parent := "AppRoute" |}.
Definition AppLayoutIndexRoute : Route := {| r_name := "AppLayoutIndexRoute"; r_import := "AppLayoutIndexRouteImport"; r_id := "/";
  r_path := Some "/"; r_parent := "AppLayoutRoute" |}.
Definition AppLayoutStudioRoute : Route := {| r_name := "AppLayoutStudioRoute"; r_import := "AppLayoutStudioRouteImport"; r_id := "/studio";
  r_path := Some "/studio"; r_parent := "AppLayoutRoute" |}.
Definition AppLayoutSettingsRoute : Route := {| r_name := "AppLayoutSettingsRoute"; r_import := "AppLayoutSettingsRouteImport"; r_id := "/settings";
  r_path := Some "/settings"; r_parent := "AppLayoutRoute" |}.
Definition AppLayoutSessionsRoute : Route := {| r_name := "AppLayoutSessionsRoute"; r_import := "AppLayoutSessionsRouteImport"; r_id := "/sessions";
  r_path := Some "/sessions"; r_parent := "AppLayoutRoute" |}.
Definition AppLayoutQueryRoute : Route := {| r_name := "AppLayoutQueryRoute"; r_import := "AppLayoutQueryRouteImport"; r_id := "/query";
  r_path := Some "/query"; r_parent := "AppLayoutRoute" |}.
Definition AppLayoutInsightsRoute : Route := {| r_name := "AppLayoutInsightsRoute"; r_import := "AppLayoutInsightsRouteImport"; r_id := "/insights";
  r_path := Some "/insights"; r_parent := "AppLayoutRoute" |}.
Definition AppLayoutAnomaliesRoute : Route := {| r_name := "AppLayoutAnomaliesRoute"; r_import := "AppLayoutAnomaliesRouteImport"; r_id := "/anomalies";
  r_path := Some "/anomalies"; r_parent := "AppLayoutRoute" |}.
Definition AppLayoutSettingsWallboardRoute : Route := {| r_name := "AppLayoutSettingsWallboardRoute"; r_import := "AppLayoutSettingsWallboardRouteImport"; r_id := "/wallboard";
  r_path := Some "/wallboard"; r_parent := "AppLayoutSettingsRoute" |}.
Definition AppLayoutSettingsUsersRoute : Route := {| r_name := "AppLayoutSettingsUsersRoute"; r_import := "AppLayoutSettingsUsersRouteImport"; r_id := "/users";
  r_path := Some "/users"; r_parent := "AppLayoutSettingsRoute" |}.
Definition AppLayoutSettingsRetentionRoute : Route := {| r_name := "AppLayoutSettingsRetentionRoute"; r_import := "AppLayoutSettingsRetentionRouteImport"; r_id := "/retention";
  r_path := Some "/retention"; r_parent := "AppLayoutSettingsRoute" |}.
Definition AppLayoutSettingsNotificationsRoute : Route := {| r_name := "AppLayoutSettingsNotificationsRoute"; r_import := "AppLayoutSettingsNotificationsRouteImport"; r_id := "/notifications";
  r_path := Some "/notifications"; r_parent := "AppLayoutSettingsRoute" |}.
Definition AppLayoutSettingsMembersRoute : Route := {| r_name := "AppLayoutSettingsMembersRoute"; r_import := "AppLayoutSettingsMembersRouteImport"; r_id := "/members";
  r_path := Some "/members"; r_parent := "AppLayoutSettingsRoute" |}.
Definition AppLayoutSettingsHealthcheckRoute : Route := {| r_name := "AppLayoutSettingsHealthcheckRoute"; r_import := "AppLayoutSettingsHealthcheckRouteImport"; r_id := "/healthcheck";
  r_path := Some "/healthcheck"; r_parent := "AppLayoutSettingsRoute" |}.
Definition AppLayoutSettingsApiKeysRoute : Route := {| r_name := "AppLayoutSettingsApiKeysRoute"; r_import := "AppLayoutSettingsApiKeysRouteImport"; r_id := "/api-keys";
  r_path := Some "/api-keys"; r_parent := "AppLayoutSettingsRoute" |}.

Definition routes : list Route :=
  [AppRoute; TvRoute; LoginRoute; InviteTokenRoute; AppLayoutRoute;
   AppLayoutIndexRoute; AppLayoutStudioRoute; AppLayoutSettingsRoute;
   AppLayoutSessionsRoute; AppLayoutQueryRoute; AppLayoutInsightsRoute;
   AppLayoutAnomaliesRoute; AppLayoutSettingsWallboardRoute; AppLayoutSettingsUsersRoute;
   AppLayoutSettingsRetentionRoute; AppLayoutSettingsNotificationsRoute; AppLayoutSettingsMembersRoute;
   AppLayoutSettingsHealthcheckRoute; AppLayoutSettingsApiKeysRoute].

(** The route of each full path. *)
Definition FileRoutesByFullPath : list (string * string) := [
  ("/login", "LoginRoute");
  ("/tv", "TvRoute");
  ("/app", "AppLayoutRouteWithChildren");
  ("/invite/$token", "InviteTokenRoute");
  ("/app/anomalies", "AppLayoutAnomaliesRoute");
  ("/app/insights", "AppLayoutInsightsRoute");
  ("/app/query", "AppLayoutQueryRoute");
  ("/app/sessions", "AppLayoutSessionsRoute");
  ("/app/settings", "AppLayoutSettingsRouteWithChildren");
  ("/app/studio", "AppLayoutStudioRoute");
  ("/app/", "AppLayoutIndexRoute");
  ("/app/settings/api-keys", "AppLayoutSettingsApiKeysRoute");
  ("/app/settings/healthcheck", "AppLayoutSettingsHealthcheckRoute");
  ("/app/settings/members", "AppLayoutSettingsMembersRoute");
  ("/app/settings/notifications", "AppLayoutSettingsNotificationsRoute");
  ("/app/settings/retention", "AppLayoutSettingsRetentionRoute");
  ("/app/settings/users", "AppLayoutSettingsUsersRoute");
  ("/app/settings/wallboard", "AppLayoutSettingsWallboardRoute")].

(** The route of each address a link may have. *)
Definition FileRoutesByTo : list (string * string) := [
  ("/login", "LoginRoute");
  ("/tv", "TvRoute");
  ("/app", "AppLayoutIndexRoute");
  ("/invite/$token", "InviteTokenRoute");
  ("/app/anomalies", "AppLayoutAnomaliesRoute");
  ("/app/insights", "AppLayoutInsightsRoute");
  ("/app/query", "AppLayoutQueryRoute");
  ("/app/sessions", "AppLayoutSessionsRoute");
  ("/app/settings", "AppLayoutSettingsRouteWithChildren");
  ("/app/studio", "AppLayoutStudioRoute");
  ("/app/settings/api-keys", "AppLayoutSettingsApiKeysRoute");
  ("/app/settings/healthcheck", "AppLayoutSettingsHealthcheckRoute");
  ("/app/settings/members", "AppLayoutSettingsMembersRoute");
  ("/app/settings/notifications", "AppLayoutSettingsNotificationsRoute");
  ("/app/settings/retention", "AppLayoutSettingsRetentionRoute");
  ("/app/settings/users", "AppLayoutSettingsUsersRoute");
  ("/app/settings/wallboard", "AppLayoutSettingsWallboardRoute")].

(** The route of each identifier. *)
Definition FileRoutesById : list (string * string) := [
  ("__root__", "rootRouteImport");
  ("/login", "LoginRoute");
  ("/tv", "TvRoute");
  ("/app", "AppRouteWithChildren");
  ("/app/_layout", "AppLayoutRouteWithChildren");
  ("/invite/$token", "InviteTokenRoute");
  ("/app/_layout/anomalies", "AppLayoutAnomaliesRoute");
  ("/app/_layout/insights", "AppLayoutInsightsRoute");
  ("/app/_layout/query", "AppLayoutQueryRoute");
  ("/app/_layout/sessions", "AppLayoutSessionsRoute");
  ("/app/_layout/settings", "AppLayoutSettingsRouteWithChildren");
  ("/app/_layout/studio", "AppLayoutStudioRoute");
  ("/app/_layout/", "AppLayoutIndexRoute");
  ("/app/_layout/settings/api-keys", "AppLayoutSettingsApiKeysRoute");
  ("/app/_layout/settings/healthcheck", "AppLayoutSettingsHealthcheckRoute");
  ("/app/_layout/settings/members", "AppLayoutSettingsMembersRoute");
  ("/app/_layout/settings/notifications", "AppLayoutSettingsNotificationsRoute");
  ("/app/_layout/settings/retention", "AppLayoutSettingsRetentionRoute");
  ("/app/_layout/settings/users", "AppLayoutSettingsUsersRoute");
  ("/app/_layout/settings/wallboard", "AppLayoutSettingsWallboardRoute")].

(** [FileRouteTypes.fullPaths] *)
Definition fullPaths : list string := [
  "/login"; "/tv"; "/app"; "/invite/$token";
  "/app/anomalies"; "/app/insights"; "/app/query"; "/app/sessions";
  "/app/settings"; "/app/studio"; "/app/"; "/app/settings/api-keys";
  "/app/settings/healthcheck"; "/app/settings/members"; "/app/settings/notifications"; "/app/settings/retention";
  "/app/settings/users"; "/app/settings/wallboard"].

(** [FileRouteTypes.to] *)
Definition to_paths : list string := [
  "/login"; "/tv"; "/app"; "/invite/$token";
  "/app/anomalies"; "/app/insights"; "/app/query"; "/app/sessions";
  "/app/settings"; "/app/studio"; "/app/settings/api-keys"; "/app/settings/healthcheck";
  "/app/settings/members"; "/app/settings/notifications"; "/app/settings/retention"; "/app/settings/users";
  "/app/settings/wallboard"].

(** [FileRouteTypes.id] *)
Definition route_ids : list string := [
  "__root__"; "/login"; "/tv"; "/app";
  "/app/_layout"; "/invite/$token"; "/app/_layout/anomalies"; "/app/_layout/insights";
  "/app/_layout/query"; "/app/_layout/sessions"; "/app/_layout/settings"; "/app/_layout/studio";
  "/app/_layout/"; "/app/_layout/settings/api-keys"; "/app/_layout/settings/healthcheck"; "/app/_layout/settings/members";
  "/app/_layout/settings/notifications"; "/app/_layout/settings/retention"; "/app/_layout/settings/users"; "/app/_layout/settings/wallboard"].

(** [FileRoutesByPath]: what the types say of each file route. *)
Definition FileRoutesByPath : list (string * FileRouteType) := [
  ("/app", {| ft_id := "/app"; ft_path := "/app"; ft_fullPath := "/app";
     ft_preLoader := "AppRouteImport"; ft_parent := "rootRouteImport" |});
  ("/tv", {| ft_id := "/tv"; ft_path := "/tv"; ft_fullPath := "/tv";
     ft_preLoader := "TvRouteImport"; ft_parent := "rootRouteImport" |});
  ("/login", {| ft_id := "/login"; ft_path := "/login"; ft_fullPath := "/login";
     ft_preLoader := "LoginRouteImport"; ft_parent := "rootRouteImport" |});
  ("/invite/$token", {| ft_id := "/invite/$token"; ft_path := "/invite/$token"; ft_fullPath := "/invite/$token";
     ft_preLoader := "InviteTokenRouteImport"; ft_parent := "rootRouteImport" |});
  ("/app/_layout", {| ft_id := "/app/_layout"; ft_path := "/app"; ft_fullPath := "/app";
     ft_preLoader := "AppLayoutRouteImport"; ft_parent := "AppRoute" |});
  ("/app/_layout/", {| ft_id := "/app/_layout/"; ft_path := "/"; ft_fullPath := "/app/";
     ft_preLoader := "AppLayoutIndexRouteImport"; ft_parent := "AppLayoutRoute" |});
  ("/app/_layout/studio", {| ft_id := "/app/_layout/studio"; ft_path := "/studio"; ft_fullPath := "/app/studio";
     ft_preLoader := "AppLayoutStudioRouteImport"; ft_parent := "AppLayoutRoute" |});
  ("/app/_layout/settings", {| ft_id := "/app/_layout/settings"; ft_path := "/settings"; ft_fullPath := "/app/settings";
     ft_preLoader := "AppLayoutSettingsRouteImport"; ft_parent := "AppLayoutRoute" |});
  ("/app/_layout/sessions", {| ft_id := "/app/_layout/sessions"; ft_path := "/sessions"; ft_fullPath := "/app/sessions";
     ft_preLoader := "AppLayoutSessionsRouteImport"; ft_parent := "AppLayoutRoute" |});
  ("/app/_layout/query", {| ft_id := "/app/_layout/query"; ft_path := "/query"; ft_fullPath := "/app/query";
     ft_preLoader := "AppLayoutQueryRouteImport"; ft_parent := "AppLayoutRoute" |});
  ("/app/_layout/insights", {| ft_id := "/app/_layout/insights"; ft_path := "/insights"; ft_fullPath := "/app/insights";
     ft_preLoader := "AppLayoutInsightsRouteImport"; ft_parent := "AppLayoutRoute" |});
  ("/app/_layout/anomalies", {| ft_id := "/app/_layout/anomalies"; ft_path := "/anomalies"; ft_fullPath := "/app/anomalies";
     ft_preLoader := "AppLayoutAnomaliesRouteImport"; ft_parent := "AppLayoutRoute" |});
  ("/app/_layout/settings/wallboard", {| ft_id := "/app/_layout/settings/wallboard"; ft_path := "/wallboard"; ft_fullPath := "/app/settings/wallboard";
     ft_preLoader := "AppLayoutSettingsWallboardRouteImport"; ft_parent := "AppLayoutSettingsRoute" |});
  ("/app/_layout/settings/users", {| ft_id := "/app/_layout/settings/users"; ft_path := "/users"; ft_fullPath := "/app/settings/users";
     ft_preLoader := "AppLayoutSettingsUsersRouteImport"; ft_parent := "AppLayoutSettingsRoute" |});
  ("/app/_layout/settings/retention", {| ft_id := "/app/_layout/settings/retention"; ft_path := "/retention"; ft_fullPath := "/app/settings/retention";
     ft_preLoader := "AppLayoutSettingsRetentionRouteImport"; ft_parent := "AppLayoutSettingsRoute" |});
  ("/app/_layout/settings/notifications", {| ft_id := "/app/_layout/settings/notifications"; ft_path := "/notifications"; ft_fullPath := "/app/settings/notifications";
     ft_preLoader := "AppLayoutSettingsNotificationsRouteImport"; ft_parent := "AppLayoutSettingsRoute" |});
  ("/app/_layout/settings/members", {| ft_id := "/app/_layout/settings/members"; ft_path := "/members"; ft_fullPath := "/app/settings/members";
     ft_preLoader := "AppLayoutSettingsMembersRouteImport"; ft_parent := "AppLayoutSettingsRoute" |});
  ("/app/_layout/settings/healthcheck", {| ft_id := "/app/_layout/settings/healthcheck"; ft_path := "/healthcheck"; ft_fullPath := "/app/settings/healthcheck";
     ft_preLoader := "AppLayoutSettingsHealthcheckRouteImport"; ft_parent := "AppLayoutSettingsRoute" |});
  ("/app/_layout/settings/api-keys", {| ft_id := "/app/_layout/settings/api-keys"; ft_path := "/api-keys"; ft_fullPath := "/app/settings/api-keys";
     ft_preLoader := "AppLayoutSettingsApiKeysRouteImport"; ft_parent := "AppLayoutSettingsRoute" |})].

(** The children given to [_addFileChildren], and the constants that hold the result. *)

Definition AppLayoutSettingsRouteChildren : list (string * string) := [
  ("AppLayoutSettingsApiKeysRoute", "AppLayoutSettingsApiKeysRoute");
  ("AppLayoutSettingsHealthcheckRoute", "AppLayoutSettingsHealthcheckRoute");
  ("AppLayoutSettingsMembersRoute", "AppLayoutSettingsMembersRoute");
  ("AppLayoutSettingsNotificationsRoute", "AppLayoutSettingsNotificationsRoute");
  ("AppLayoutSettingsRetentionRoute", "AppLayoutSettingsRetentionRoute");
  ("AppLayoutSettingsUsersRoute", "AppLayoutSettingsUsersRoute");
  ("AppLayoutSettingsWallboardRoute", "AppLayoutSettingsWallboardRoute")].

Definition AppLayoutRouteChildren : list (string * string) := [
  ("AppLayoutAnomaliesRoute", "AppLayoutAnomaliesRoute");
  ("AppLayoutInsightsRoute", "AppLayoutInsightsRoute");
  ("AppLayoutQueryRoute", "AppLayoutQueryRoute");
  ("AppLayoutSessionsRoute", "AppLayoutSessionsRoute");
  ("AppLayoutSettingsRoute", "AppLayoutSettingsRouteWithChildren");
  ("AppLayoutStudioRoute", "AppLayoutStudioRoute");
  ("AppLayoutIndexRoute", "AppLayoutIndexRoute")].

Definition AppRouteChildren : list (string * string) := [
  ("AppLayoutRoute", "AppLayoutRouteWithChildren")].

Definition rootRouteChildren : list (string * string) := [
  ("LoginRoute", "LoginRoute");
  ("TvRoute", "TvRoute");
  ("AppRoute", "AppRouteWithChildren");
  ("InviteTokenRoute", "InviteTokenRoute")].

(** The constants [X._addFileChildren(children)], with [X]. *)
Definition AppLayoutSettingsRouteWithChildren : string * list (string * string) :=
  ("AppLayoutSettingsRoute", AppLayoutSettingsRouteChildren).
Definition AppLayoutRouteWithChildren : string * list (string * string) :=
  ("AppLayoutRoute", AppLayoutRouteChildren).
Definition AppRouteWithChildren : string * list (string * string) := ("AppRoute", AppRouteChildren).
Definition routeTree : string * list (string * string) := ("rootRouteImport", rootRouteChildren).

Definition with_children : list (string * (string * list (string * string))) := [
  ("AppLayoutSettingsRouteWithChildren", AppLayoutSettingsRouteWithChildren);
  ("AppLayoutRouteWithChildren", AppLayoutRouteWithChildren);
  ("AppRouteWithChildren", AppRouteWithChildren);
  ("routeTree", routeTree)].

(** The route a constant holds. *)
Definition base_of (c : string) : string :=
  match assoc c with_children with Some (b, _) => b | None => c end.

(** ** The options of the routes *)

(** settings.tsx: the guard of the settings. *)
Definition settings_beforeLoad : prog (option string) :=
  ok ← isAuthenticated;
  mret (if (ok : bool) then None else Some "/login").

Record RouteOptions := {
  ro_id : string;                                (** the argument of [createFileRoute] *)
  ro_beforeLoad : option (prog (option string));
  ro_validates : bool;                           (** there is a [validateSearch] *)
  ro_component : string
}.

(** The options each file gives its route. *)
Definition layout_options : RouteOptions :=
  {| ro_id := "/app/_layout"; ro_beforeLoad := Some Session.beforeLoad; ro_validates := false; ro_component := "AppLayout" |}.
Definition anomalies_options : RouteOptions :=
  {| ro_id := "/app/_layout/anomalies"; ro_beforeLoad := None; ro_validates := false; ro_component := "AnomaliesPage" |}.
Definition index_options : RouteOptions :=
  {| ro_id := "/app/_layout/"; ro_beforeLoad := None; ro_validates := true; ro_component := "RouteComponent" |}.
Definition insights_options : RouteOptions :=
  {| ro_id := "/app/_layout/insights"; ro_beforeLoad := None; ro_validates := false; ro_component := "InsightsPage" |}.
Definition query_options : RouteOptions :=
  {| ro_id := "/app/_layout/query"; ro_beforeLoad := None; ro_validates := false; ro_component := "QueryPage" |}.
Definition sessions_options : RouteOptions :=
  {| ro_id := "/app/_layout/sessions"; ro_beforeLoad := None; ro_validates := true; ro_component := "SessionsPage" |}.
Definition settings_options : RouteOptions :=
  {| ro_id := "/app/_layout/settings"; ro_beforeLoad := Some settings_beforeLoad; ro_validates := false; ro_component := "Outlet" |}.
Definition api_keys_options : RouteOptions :=
  {| ro_id := "/app/_layout/settings/api-keys"; ro_beforeLoad := None; ro_validates := false; ro_component := "APIKeysPage" |}.
Definition healthcheck_options : RouteOptions :=
  {| ro_id := "/app/_layout/settings/healthcheck"; ro_beforeLoad := None; ro_validates := false; ro_component := "HealthcheckPage" |}.
Definition members_options : RouteOptions :=
  {| ro_id := "/app/_layout/settings/members"; ro_beforeLoad := None; ro_validates := false; ro_component := "MembersPage" |}.
Definition notifications_options : RouteOptions :=
  {| ro_id := "/app/_layout/settings/notifications"; ro_beforeLoad := None; ro_validates := false; ro_component := "NotificationsPage" |}.
Definition retention_options : RouteOptions :=
  {| ro_id := "/app/_layout/settings/retention"; ro_beforeLoad := None; ro_validates := false; ro_component := "RetentionPage" |}.
Definition users_options : RouteOptions :=
  {| ro_id := "/app/_layout/settings/users"; ro_beforeLoad := None; ro_validates := false; ro_component := "UsersPage" |}.
Definition wallboard_options : RouteOptions :=
  {| ro_id := "/app/_layout/settings/wallboard"; ro_beforeLoad := None; ro_validates := false; ro_component := "WallboardSettingsPage" |}.
Definition studio_options : RouteOptions :=
  {| ro_id := "/app/_layout/studio"; ro_beforeLoad := None; ro_validates := false; ro_component := "StudioPage" |}.
Definition token_options : RouteOptions :=
  {| ro_id := "/invite/$token"; ro_beforeLoad := None; ro_validates := false; ro_component := "InvitePage" |}.
Definition login_options : RouteOptions :=
  {| ro_id := "/login"; ro_beforeLoad := None; ro_validates := false; ro_component := "LoginPage" |}.
Definition tv_options : RouteOptions :=
  {| ro_id := "/tv"; ro_beforeLoad := None; ro_validates := true; ro_component := "TVPage" |}.

Definition options : list RouteOptions :=
  [layout_options; anomalies_options; index_options; insights_options;
   query_options; sessions_options; settings_options; api_keys_options;
   healthcheck_options; members_options; notifications_options; retention_options;
   users_options; wallboard_options; studio_options; token_options;
   login_options; tv_options].

(** ** The tree *)

Definition route_of (name : string) : option Route :=
  find (fun r => String.eqb (r_name r) name) routes.

(** A route with its ancestors, the outermost first; the tree is four deep. *)
Fixpoint chain (fuel : nat) (name : string) : list Route :=
  match fuel, route_of name with
  | S n, Some r => (chain n (r_parent r) ++ [r])%list
  | _, _ => []
  end.

Definition depth : nat := 4.
Definition ancestors (name : string) : list Route := chain depth name.

Definition full_id (name : string) : string := join "" (List.map r_id (ancestors name)).
Definition full_path (name : string) : string :=
  join "" (List.map (fun r => default "" (r_path r)) (ancestors name)).

Definition options_of (name : string) : option RouteOptions :=
  find (fun o => String.eqb (ro_id o) (full_id name)) options.

(** The guards met on the way to a route. *)
Definition guards (name : string) : list (prog (option string)) :=
  omap (fun r => options_of (r_name r) ≫= ro_beforeLoad) (ancestors name).

(** ** The router *)

Class Router := {
  before_loads : list (prog (option string)) -> prog (option string);
  before_loads_nil : forall `{Host} w, run (before_loads []) w = (Ok None, w);
  before_loads_cons : forall `{Host} g gs w,
    run (before_loads (g :: gs)) w =
    match run g w with
    | (Ok None, w') => run (before_loads gs) w'
    | (Ok (Some to), w') => (Ok (Some to), w')
    | (Err e, w') => (Err e, w')
    end
}.

(** Where opening a route leads instead, if anywhere. *)
Definition open_route `{Router} (name : string) : prog (option string) := before_loads (guards name).

(** ** __root.tsx and main.tsx *)

(** The component of the root around the page. *)
Definition root_component (outlet : html unit) : html unit :=
  Elem "" [] [
    Elem "QueryClientProvider" [] [Elem "ProjectProvider" [] [Elem "EnvironmentProvider" [] [outlet]]];
    Elem "TanStackRouterDevtools" [] []].

(** [classList.add(c)] throws for the empty string and for a space. *)
Definition classList_add (c : string) (classes : list string) : prog (list string) :=
  if String.eqb c "" then Throw (JSError "SyntaxError" "The token provided must not be empty")
  else if negb (all_chars (fun a => negb (is_ws a)) c)
  then Throw (JSError "InvalidCharacterError" "The token provided contains HTML space characters")
  else mret (class_add c classes).

(** The theme of the document before the first render. *)
Definition sync_theme (classes : list string) : prog (list string) :=
  t ← get_item "bataudit-theme";
  classList_add (default "dark" t) classes.

(** The bootstrap: whether the application is rendered, from the content of the element
    [root], and the classes of the document. *)
Definition main (root : option string) (classes : list string) : prog (bool * list string) :=
  classes' ← sync_theme classes;
  match root with
  | None => Throw (type_error "innerHTML")
  | Some innerHTML => mret (negb (str_truthy innerHTML), classes')
  end.

(** ** Lemmas *)

(** The children of a route. *)
Definition children_of (name : string) : list (string * string) :=
  match find (fun kv => String.eqb kv.2.1 name) with_children with
  | Some (_, (_, cs)) => cs | None => [] end.

(** The address without the slash of an index. *)
Definition address (path : string) : string :=
  if String.eqb path "/" then path
  else match assoc path [("/app/", "/app")] with Some p => p | None => path end.

(** The application is what is below its layout. *)
Definition in_app (name : string) : bool :=
  existsb (fun r => String.eqb (r_name r) "AppLayoutRoute") (ancestors name).

(** A user with a token that has not expired. *)
Definition signed_in `{Host} (w : world) : bool :=
  match some_text (storage w !! TOKEN_KEY) with Some _ => negb (expired w) | None => false end.

(** What a guard leaves of the session. *)
Definition after_guard `{Host} (w : world) : world :=
  match some_text (storage w !! TOKEN_KEY) with
  | Some _ => if expired w then cleared w else w
  | None => w
  end.

Lemma beforeLoad_run `{Host} w :
  run Session.beforeLoad w = (Ok (if signed_in w then None else Some "/login"), after_guard w).
Proof.
  unfold Session.beforeLoad, signed_in, after_guard. rewrite run_bind, isAuthenticated_run.
  destruct (some_text _); [| done]. by destruct (expired w).
Qed.

Lemma signed_in_guard `{Host} w : signed_in w = true -> after_guard w = w.
Proof.
  unfold signed_in, after_guard. destruct (some_text _); [| done]. by destruct (expired w).
Qed.

(** A list of copies of the guard. *)
Lemma run_guards `{Host} `{Router} gs w :
  Forall (fun g => g = Session.beforeLoad) gs -> gs <> [] ->
  run (before_loads gs) w = (Ok (if signed_in w then None else Some "/login"), after_guard w).
Proof.
  intros Hgs. induction Hgs as [|g gs -> Hgs IH]; [done |]. intros _.
  rewrite before_loads_cons, beforeLoad_run. destruct (signed_in w) eqn:E; [| done].
  rewrite signed_in_guard by done. destruct gs as [|g gs]; [apply before_loads_nil |].
  rewrite IH by done. by rewrite ?E, signed_in_guard.
Qed.

(** The guards of the routes: those of the application have the guard of the layout, the
    settings twice, and the others none. *)
Lemma guards_in_app r :
  In r routes ->
  if in_app (r_name r)
  then guards (r_name r) <> [] /\ Forall (fun g => g = Session.beforeLoad) (guards (r_name r))
  else guards (r_name r) = [].
Proof.
  intros Hr. repeat (destruct Hr as [<- | Hr];
    [cbv -[Session.beforeLoad settings_beforeLoad]; first [done | split; [done | by repeat constructor]] |]).
  done.
Qed.

(** ** Properties *)

(** C11 Who reaches which page: every route below [/app/_layout] opens for a user with a
    token that has not expired, and leads to the login page for anybody else, whose
    stale session is removed; the guard of the settings, run after that of the layout,
    changes nothing.  The role of the user plays no part: the settings too, which the
    documentation reserves for owners and admins, open for every such token.  All other
    routes open for everybody and leave the session alone, and those with a page of
    their own are the login, the wallboard and the invitations. *)
Theorem app_guarded `{Host} `{Router} r w :
  In r routes ->
  run (open_route (r_name r)) w =
    (if in_app (r_name r)
     then (Ok (if signed_in w then None else Some "/login"), after_guard w)
     else (Ok None, w)) /\
  (in_app (r_name r) = false -> options_of (r_name r) <> None ->
     In (full_path (r_name r)) ["/tv"; "/login"; "/invite/$token"]).
Proof.
  intros Hr. pose proof (guards_in_app r Hr) as Hg. unfold open_route. split.
  - destruct (in_app (r_name r)).
    + destruct Hg as [Hne Hall]. by apply run_guards.
    + rewrite Hg. apply before_loads_nil.
  - repeat (destruct Hr as [<- | Hr]; [cbv -[Session.beforeLoad settings_beforeLoad]; intros Ha Ho;
      first [discriminate Ha | by destruct Ho | by auto] |]). done.
Qed.

(** The demonstration of a router: the guards in their order. *)
Fixpoint run_all (gs : list (prog (option string))) : prog (option string) :=
  match gs with
  | [] => mret None
  | g :: gs' => r ← g; match r with None => run_all gs' | Some to => mret (Some to) end
  end.

#[local] Program Instance serial_router : Router := {| before_loads := run_all |}.
Next Obligation. done. Qed.
Next Obligation.
  intros H g gs w. cbn [run_all]. rewrite run_bind. by destruct (run g w) as [[[to|]|e] w'].
Qed.

Lemma app_guarded_witness :
  In AppLayoutSettingsUsersRoute routes /\
  @run demo_host _ (open_route "AppLayoutSettingsUsersRoute") (World ∅ 0 0 []) =
    (Ok (Some "/login"), World ∅ 0 0 []).
Proof.
  assert (In AppLayoutSettingsUsersRoute routes) as Hr by (vm_compute; tauto).
  split; [exact Hr |].
  exact (proj1 (@app_guarded demo_host _ AppLayoutSettingsUsersRoute (World ∅ 0 0 []) Hr)).
Defined.

(** Logging out closes the application: from the state it leaves, whatever the server
    answered, every route of the application leads to the login page. *)
Theorem logout_closes_app `{Host} `{Router} BASE r w to w' :
  In r routes -> in_app (r_name r) = true ->
  run (handleLogout BASE) w = (Ok to, w') ->
  to = "/login" /\ run (open_route (r_name r)) w' = (Ok (Some "/login"), w').
Proof.
  intros Hr Ha Hrun. unfold handleLogout in Hrun. rewrite run_bind, run_try_catch in Hrun.
  assert (exists w1, (Ok to, w') = (Ok "/login", cleared w1)) as [w1 [= -> ->]].
  { destruct (run (HttpApi.logout BASE) w) as [[[] | e] w1]; cbn [run mret prog_ret] in Hrun;
      rewrite run_bind, clearAuth_run in Hrun; by exists w1. }
  split; [done |]. pose proof (guards_in_app r Hr) as Hg. rewrite Ha in Hg. destruct Hg as [Hne Hall].
  unfold open_route. rewrite run_guards by done.
  destruct (cleared_lookup w1) as (Ht & _ & _). unfold signed_in, after_guard. by rewrite Ht.
Qed.

(** What a child table has is a route whose parent is its owner. *)
Definition child_ok (owner : string) (kv : string * string) : bool :=
  String.eqb (base_of kv.2) kv.1 &&
  match route_of kv.1 with Some r => String.eqb (r_parent r) owner | None => false end.

(** A route agrees with its entries in the declared types and with the table of its
    parent. *)
Definition route_ok (r : Route) : bool :=
  let id := full_id (r_name r) in
  match assoc id FileRoutesByPath with
  | Some ft =>
      String.eqb (ft_id ft) id && String.eqb (ft_fullPath ft) (full_path (r_name r)) &&
      String.eqb (ft_preLoader ft) (r_import r) && String.eqb (ft_parent ft) (r_parent r) &&
      match r_path r with Some p => String.eqb (ft_path ft) p | None => true end
  | None => false
  end &&
  match assoc id FileRoutesById with Some c => String.eqb (base_of c) (r_name r) | None => false end &&
  match assoc (r_name r) (children_of (r_parent r)) with Some _ => true | None => false end.

(** The generated file is of one mind: every route is the one its identifier, its full
    path, its parent and the type declarations say, the tables of children are exactly
    the parents' side of the routes, the addresses a link may have are the full paths
    (an index without its slash), and each route but [/app], which has no file, is given
    its options by the file that names its identifier. *)
Theorem routes_consistent :
  forallb route_ok routes = true /\
  forallb (fun '(_, (owner, cs)) => forallb (child_ok owner) cs) with_children = true /\
  fullPaths = List.map fst FileRoutesByFullPath /\ to_paths = List.map fst FileRoutesByTo /\
  route_ids = List.map fst FileRoutesById /\
  forallb (fun '(p, c) => String.eqb (full_path (base_of c)) p) FileRoutesByFullPath = true /\
  forallb (fun '(p, c) => String.eqb (address (full_path (base_of c))) p) FileRoutesByTo = true /\
  forallb (fun r => match options_of (r_name r) with
                    | Some _ => true | None => String.eqb (r_name r) "AppRoute" end) routes = true /\
  forallb (fun o => existsb (fun r => String.eqb (full_id (r_name r)) (ro_id o)) routes) options = true.
Proof. split_and!; by cbv -[Session.beforeLoad settings_beforeLoad]. Qed.

Lemma all_known l :
  forallb (fun x => existsb (String.eqb x) to_paths) l = true -> Forall (fun to => In to to_paths) l.
Proof.
  rewrite forallb_forall, List.Forall_forall. intros Hl x Hx.
  apply Hl, existsb_exists in Hx as (y & Hy & ->%String.eqb_eq). done.
Qed.

(** No link of the frame leads out of the tree, for any user and on any page, and neither
    do the addresses the code navigates to by itself. *)
Theorem links_in_tree pathname user :
  Forall (fun to => In to to_paths) (links (Sidebar pathname user)) /\
  Forall (fun to => In to to_paths) ["/login"; "/app"; "/tv"; "/app/anomalies"].
Proof.
  split; apply all_known; [| done]. unfold Sidebar, SettingsNav.
  by destruct (inSettings pathname), (has_role user "owner"), (has_role user "admin").
Qed.

(** The sidebar links to the settings, but the settings have no page of their own: below
    their outlet there is no index, so the address shows an empty page. *)
Theorem settings_without_index :
  In "/app/settings" (flat_map links MainNav) /\
  ro_component settings_options = "Outlet" /\
  options_of "AppLayoutSettingsRoute" = Some settings_options /\
  forallb (fun '(c, _) => match route_of c with
                          | Some r => negb (String.eqb (default "" (r_path r)) "/") | None => true end)
    (children_of "AppLayoutSettingsRoute") = true /\
  existsb (fun '(c, _) => match route_of c with
                          | Some r => String.eqb (default "" (r_path r)) "/" | None => false end)
    (children_of "AppLayoutRoute") = true.
Proof. split_and!; [vm_compute; tauto | done..]. Qed.

(** The theme survives a reload: what the theme button stores is the class the bootstrap
    gives to the new document, and a page without a stored theme is dark.  An empty
    theme, which nothing of the dashboard stores, stops the bootstrap. *)
Theorem theme_survives_reload `{Host} classes w :
  let '(o, w1) := run (toggleTheme classes) w in
  exists next classes', o = Ok (next, classes') /\
    run (main (Some "") []) w1 = (Ok (true, [next]), w1) /\
    (storage w !! STORAGE_KEY = None -> run (main (Some "") []) w = (Ok (true, ["dark"]), w)) /\
    (storage w !! STORAGE_KEY = Some "" -> exists e, run (main (Some "") []) w = (Err e, w)).
Proof.
  unfold toggleTheme. rewrite run_bind. unfold getStoredTheme. rewrite run_bind. cbn [run get_item mret prog_ret].
  set (next := if String.eqb _ "dark" then "light" else "dark").
  assert (next = "light" \/ next = "dark") as Hnext.
  { unfold next. destruct (String.eqb _ "dark"); tauto. }
  unfold applyTheme. rewrite run_bind, run_bind. cbn [run set_item mret prog_ret].
  eexists next, _. split; [done |]. unfold main, sync_theme. split_and!.
  - rewrite run_bind, run_bind. cbn [run get_item with_storage storage].
    rewrite lookup_insert_eq. by destruct Hnext as [-> | ->].
  - intros Hs. rewrite run_bind, run_bind. cbn [run get_item]. fold STORAGE_KEY. by rewrite Hs.
  - intros Hs. rewrite run_bind, run_bind. cbn [run get_item]. fold STORAGE_KEY. rewrite Hs. by eexists.
Qed.
