(* ===== verification/Worker.v ===== *)
(** * The service worker (frontend/public/sw.js)

    What the browser shows for a push of the server, and where a click on it leads.  A
    handler is an [outcome]: [Err] is what it throws.  The windows are those
    [clients.matchAll] finds, in its order. *)

From S2P Require Import Prelude JsString JsValue JsonParse Host Ui Chart Session Routes.

Local Open Scope string_scope.
Local Open Scope Z_scope.

(** ** The push *)

Definition DEFAULT_URL : jsval := JStr "/app/anomalies".

(** The arguments of [showNotification]: a text argument is converted to a string, the
    data is kept as it is. *)
Record Notification := {
  title : string;
  body : string;
  icon : string;
  badge : string;
  data_url : jsval;
  requireInteraction : bool
}.

(** [event.data.json()], with the [catch] that wraps the text. *)
Definition push_data (text : string) : jsval :=
  match json_parse text with
  | Some v => v
  | None => JObj [("title", JStr "BatAudit Alert"); ("body", JStr text); ("url", DEFAULT_URL)]
  end.

(** The handler of [push]: the notification it shows, if any. *)
Definition on_push (event_data : option string) : outcome (option Notification) :=
  match event_data with
  | None => Ok None
  | Some text =>
      let data := push_data text in
      t ← item_prop data "title";
      b ← item_prop data "body";
      u ← item_prop data "url";
      Ok (Some {| title := js_string (coalesce t (JStr "BatAudit Alert"));
                  body := js_string (coalesce b (JStr ""));
                  icon := "/favicon.ico"; badge := "/favicon.ico";
                  data_url := coalesce u DEFAULT_URL;
                  requireInteraction := true |})
  end.

(** ** The click *)

Record WindowClient := { client_url : string; can_focus : bool (** ['focus' in client] *) }.

(** [s.includes(t)] *)
Fixpoint includes (s t : string) : bool :=
  starts_with s t || match s with "" => false | String _ s' => includes s' t end.

Inductive click_effect : Type :=
| Focus (index : nat)
| OpenWindow (url : string)
| NoWindow.

Fixpoint first_window (url : string) (i : nat) (l : list WindowClient) : option nat :=
  match l with
  | [] => None
  | c :: l' => if includes (client_url c) url && can_focus c then Some i else first_window url (S i) l'
  end.

(** The handler of [notificationclick], which closes the notification first;
    [can_open] is that [clients.openWindow] is there. *)
Definition on_click (notification_data : option jsval) (windows : list WindowClient) (can_open : bool)
    : click_effect :=
  let url := js_string (coalesce (opt_prop (default JUndef notification_data) "url") DEFAULT_URL) in
  match first_window url 0 windows with
  | Some i => Focus i
  | None => if can_open then OpenWindow url else NoWindow
  end.

(** The [data] of a notification this worker showed. *)
Definition shown_data (n : Notification) : option jsval := Some (JObj [("url", data_url n)]).

(** ** Properties *)

Lemma includes_spec s t : includes s t = true <-> exists a b, s = a +:+ t +:+ b.
Proof.
  split.
  - induction s as [|c s IH]; cbn [includes]; intros [Hp | Hr]%orb_true_iff; try done.
    + apply starts_with_spec in Hp as [b Hb]. by exists "", b.
    + apply starts_with_spec in Hp as [b Hb]. by exists "", b.
    + destruct (IH Hr) as (a & b & ->). by exists (String c a), b.
  - intros (a & b & ->). induction a as [|c a IH].
    + cbn [String.append]. destruct (t +:+ b) eqn:E; cbn [includes]; rewrite <- E, starts_with_app; done.
    + cbn. by rewrite IH, orb_true_r.
Qed.

Lemma first_window_spec url i l :
  match first_window url i l with
  | Some j => exists k c, j = (i + k)%nat /\ l !! k = Some c /\ includes (client_url c) url = true /\
      can_focus c = true /\
      (forall k' c', (k' < k)%nat -> l !! k' = Some c' -> includes (client_url c') url && can_focus c' = false)
  | None => forall c, In c l -> includes (client_url c) url && can_focus c = false
  end.
Proof.
  revert i. induction l as [|c l IH]; intros i; cbn [first_window]; [done |].
  destruct (includes (client_url c) url && can_focus c) eqn:E.
  - apply andb_true_iff in E as [E1 E2]. exists 0%nat, c. split_and!; [lia | done | done | done | lia].
  - specialize (IH (S i)). destruct (first_window url (S i) l) as [j|].
    + destruct IH as (k & c' & -> & Hk & Hu & Hf & Hall). exists (S k), c'.
      split_and!; [lia | done | done | done |].
      intros [|k'] c'' Hlt Hl; cbn in Hl; [by injection Hl as <- | by apply (Hall k'); [lia |]].
    + intros c' [<- | Hc]; [done | by apply IH].
Qed.

(** No text of JSON stands for [undefined]. *)
Lemma parse_atom_defined s v r : parse_atom s = Some (v, r) -> v <> JUndef.
Proof.
  unfold parse_atom. destruct s as [|a s]; [done |].
  repeat (case_match; [match goal with |- context [?x ≫= _] => destruct x as [p|] end; cbn;
    [try destruct p; by intros [= <- <-] | done] |]).
  destruct (span_s num_char (String a s)) as [t r']. destruct (parse_num t); cbn; [| done].
  by intros [= <- <-].
Qed.

Lemma parse_value_defined fuel s v r : parse_value fuel s = Some (v, r) -> v <> JUndef.
Proof.
  destruct fuel as [|fuel]; cbn [parse_value]; [done |].
  destruct (next s) as [[a s1]|]; [| done]. cbn [mbind option_bind].
  destruct (Ascii.eqb a "["); [| destruct (Ascii.eqb a "{"); [| apply parse_atom_defined]].
  all: destruct (next s1) as [[b r1]|]; [| done]; cbn [mbind option_bind];
    case_match; [by intros [= <- <-] |];
    match goal with |- context [?x ≫= _] => destruct x as [[]|] end;
      cbn; [by intros [= <- <-] | done].
Qed.

Lemma json_parse_defined text : json_parse text <> Some JUndef.
Proof.
  unfold json_parse. destruct (parse_value _ text) as [[v r]|] eqn:E; cbn; [| done].
  apply parse_value_defined in E. case_match; congruence.
Qed.

(** C31 A push is shown: whatever the server sends, a text of JSON or not, gives exactly one
    notification, which has an address, unless it is the text [null], for which the
    handler throws and nothing is shown.  A click on it focuses the first window that can
    be focused whose address contains the one of the push, and opens that address when
    there is none; an address that was not given is that of the alerts, a page of the
    application. *)
Theorem push_and_click text windows can_open :
  (json_parse text = Some JNull -> exists e, on_push (Some text) = Err e) /\
  (json_parse text <> Some JNull -> exists n, on_push (Some text) = Ok (Some n) /\
     nullish (data_url n) = false /\
     match on_click (shown_data n) windows can_open with
     | Focus i => exists c, windows !! i = Some c /\ can_focus c = true /\
         includes (client_url c) (js_string (data_url n)) = true
     | OpenWindow u => u = js_string (data_url n) /\ can_open = true /\
         forall c, In c windows -> includes (client_url c) u && can_focus c = false
     | NoWindow => can_open = false
     end) /\
  In (js_string DEFAULT_URL) to_paths.
Proof.
  split_and!; [| | vm_compute; tauto].
  - intros Ht. unfold on_push, push_data. rewrite Ht. by eexists.
  - intros Ht. unfold on_push, item_prop.
    assert (forall k, exists v, get_prop (push_data text) k = Some v) as Hprop.
    { intros k. unfold push_data. pose proof (json_parse_defined text).
      destruct (json_parse text) as [[]|]; cbn; by (done || eexists). }
    destruct (Hprop "title") as [ti ->], (Hprop "body") as [bo ->], (Hprop "url") as [u ->].
    eexists. split; [done |]. split.
    { cbn [data_url]. unfold coalesce. by destruct (nullish u) eqn:E. }
    cbn [data_url shown_data]. unfold on_click. cbn [default opt_prop get_prop obj_get String.eqb].
    set (url := js_string _). assert (url = js_string (coalesce u DEFAULT_URL)) as <-.
    { unfold url, coalesce, opt_prop. cbn. by destruct (nullish u) eqn:E; cbn; rewrite ?E. }
    pose proof (first_window_spec url 0 windows) as Hw.
    destruct (first_window url 0 windows) as [j|]; [| by destruct can_open].
    destruct Hw as (k & c & -> & Hk & Hu & Hf & _). by exists c.
Qed.

Lemma push_and_click_witness :
  json_parse "BatAudit Alert" <> Some JNull /\
  exists n, on_push (Some "BatAudit Alert") = Ok (Some n).
Proof.
  assert (json_parse "BatAudit Alert" <> Some JNull) as Ht by (vm_compute; discriminate).
  split; [exact Ht |].
  destruct (proj1 (proj2 (push_and_click "BatAudit Alert" [] true)) Ht) as (n & Hn & _).
  exists n. exact Hn.
Defined.
