(* ===== verification/Loop.v ===== *)
(** * The event loop

    [Host.run] executes a program alone.  Here programs share a world: [advance] runs
    one up to the point where it suspends, a request or a timer, with the synchronous
    operations in between made at once, as in JavaScript nothing else runs meanwhile.
    Systems of several programs are step relations over [advance] ([Pairing]). *)

From S2P Require Import Prelude JsString JsValue JsonParse Host Session ApiContract.

Local Open Scope string_scope.

Section advance.
Context `{Host}.

Fixpoint advance {A} (p : prog A) (w : world) : prog A * world :=
  match p with
  | Now k => advance (k (clock w)) w
  | Uuid k => advance (k (uuid_at (drawn w))) (draw w)
  | GetItem key k => advance (k (storage w !! key)) w
  | SetItem key v k => advance k (with_storage <[key := v]> w)
  | RemoveItem key k => advance k (with_storage (delete key) w)
  | Navigate url k => advance k (log (EvNavigate url) w)
  | _ => (p, w)
  end.

(** A program that waits, or has ended. *)
Definition at_rest {A} (p : prog A) : bool :=
  match p with Ret _ | Throw _ | Fetch _ _ | Sleep _ _ => true | _ => false end.

Lemma advance_at_rest {A} (p : prog A) w : at_rest (advance p w).1 = true.
Proof. revert w. induction p; intros w; cbn; auto. Qed.

Lemma advance_id {A} (p : prog A) w : at_rest p = true -> advance p w = (p, w).
Proof. by destruct p. Qed.

(** The order of the operations of one program is that of [run]. *)
Lemma run_advance {A} (p : prog A) w : run p w = run (advance p w).1 (advance p w).2.
Proof. revert w. induction p; intros w; cbn [advance]; cbn [run]; try done; auto. Qed.

(** *** Laws *)

Lemma advance_fold_leaves {A B} (p : prog A) (f : outcome A -> prog B) w :
  advance (fold_leaves p f) w =
  let '(q, w') := advance p w in
  match q with
  | Ret a => advance (f (Ok a)) w'
  | Throw e => advance (f (Err e)) w'
  | _ => (fold_leaves q f, w')
  end.
Proof. revert w. induction p; intros w; cbn; try done; auto. Qed.

Lemma advance_bind {A B} (p : prog A) (f : A -> prog B) w :
  advance (p ≫= f) w =
  let '(q, w') := advance p w in
  match q with
  | Ret a => advance (f a) w'
  | Throw e => (Throw e, w')
  | _ => (q ≫= f, w')
  end.
Proof.
  unfold mbind, prog_bind. rewrite advance_fold_leaves. by destruct (advance p w) as [[] w'].
Qed.

Lemma advance_of_outcome {A} (o : outcome A) w : advance (of_outcome o) w = (of_outcome o, w).
Proof. by destruct o. Qed.
End advance.

(** Programs that neither suspend nor throw run to their end at once. *)
Lemma advance_sync `{Host} {A B} (p : prog A) (f : A -> prog B) w a w' :
  advance p w = (Ret a, w') -> advance (p ≫= f) w = advance (f a) w'.
Proof. intros Hp. by rewrite advance_bind, Hp. Qed.

(** ** Calls in flight *)

(** The history of a page: the requests and their answers. *)
Inductive happened : Type :=
| Asked (rq : request)
| Answered (rq : request) (r : option response).

(** What a program that suspends has just asked for. *)
Definition asked {A} (p : prog A) : list happened :=
  match p with Fetch rq _ => [Asked rq] | _ => [] end.

Definition ended {A} (p : prog A) : bool :=
  match p with Ret _ | Throw _ => true | _ => false end.

Lemma asked_cases {A} (q : prog A) :
  asked q = [] \/ exists rq, asked q = [Asked rq] /\ exists k, q = Fetch rq k.
Proof. destruct q as [| |rq k| | | | | | |]; cbn; eauto 6. Qed.

Lemma asked_ended {A} (q : prog A) : ended q = true -> asked q = [].
Proof. by destruct q. Qed.

(** Whatever is said of each credential in a history: [known] of what came before it. *)
Definition sound_by (known : list happened -> string -> Prop) (h : list happened) : Prop :=
  forall h1 rq h2 v, h = (h1 ++ Asked rq :: h2)%list ->
    header_get "Authorization" (rq_headers rq) = Some v ->
    exists x, v = "Bearer " +:+ x /\ known h1 x.

Lemma sound_by_nil known : sound_by known [].
Proof. by intros [|? ?]. Qed.

Lemma sound_by_snoc known h e :
  sound_by known h ->
  (forall rq v, e = Asked rq -> header_get "Authorization" (rq_headers rq) = Some v ->
     exists x, v = "Bearer " +:+ x /\ known h x) ->
  sound_by known (h ++ [e])%list.
Proof.
  intros Hs He h1 rq h2 v Heq Hv. destruct h2 as [|e' h2 _] using rev_ind.
  - apply app_inj_tail in Heq as [-> ->]. by apply (He rq).
  - rewrite app_comm_cons, app_assoc in Heq. apply app_inj_tail in Heq as [-> _]. by eapply Hs.
Qed.

Lemma advance_trace `{Host} {A} (p : prog A) w : exists l, trace (advance p w).2 = (trace w ++ l)%list.
Proof.
  revert w. induction p as [| | | |k IH|k IH|key k IH|key v k IH|key k IH|url k IH]; intros w;
    try (exists []; by rewrite app_nil_r); cbn [advance]; try apply IH.
  - destruct (IH (uuid_at (drawn w)) (draw w)) as [l ->]. by exists l.
  - destruct (IH (with_storage <[key := v]> w)) as [l ->]. by exists l.
  - destruct (IH (with_storage (delete key) w)) as [l ->]. by exists l.
  - destruct (IH (log (EvNavigate url) w)) as [l ->]. cbn. eexists. by rewrite <- app_assoc.
Qed.

(** A program that neither asks nor waits does all it does at once. *)
Lemma sync_advance `{Host} {A} (p : prog A) w :
  length (trace (run p w).2) = length (trace w) ->
  advance p w = (of_outcome (run p w).1, (run p w).2).
Proof.
  intros Hp. rewrite run_advance in Hp |- *.
  pose proof (advance_at_rest p w) as Hr. destruct (advance_trace p w) as [l Hl].
  destruct (advance p w) as [q w1]. cbn [fst snd] in *.
  apply (f_equal length) in Hl. rewrite length_app in Hl.
  destruct q as [a|e|rq k|ms k| | | | | |]; try done; exfalso; cbn [run do_fetch] in Hp.
  - destruct (run_trace_grows (k (net (trace w1) rq)) (tick (latency (trace w1)) (log (EvFetch rq) w1)))
      as [l2 Hl2]. rewrite Hl2 in Hp. cbn in Hp. rewrite !length_app in Hp. cbn in Hp. lia.
  - destruct (run_trace_grows k (tick ms (log (EvSleep ms) w1))) as [l2 Hl2]. rewrite Hl2 in Hp.
    cbn in Hp. rewrite !length_app in Hp. cbn in Hp. lia.
Qed.

(** A program that leaves the world as it is has only to compute. *)
Lemma quiet_advance `{Host} {A} (p : prog A) w :
  quiet p -> exists q, advance p w = (q, w) /\ ended q = true.
Proof.
  intros Hp. rewrite sync_advance by by rewrite Hp. rewrite Hp. eexists. split; [done |].
  by destruct (run p w).1.
Qed.

(** ** The calls of the dashboard *)

(** A call up to its request, and what each answer makes of it. *)
Definition call_advance {A} (session : bool) (rq : option string -> request) (p : prog A) : Prop :=
  exists k, forall (h : Host) w,
    advance p w = (Fetch (rq (storage w !! TOKEN_KEY)) k, w) /\
    forall r w', match r with
      | None => advance (k r) w' = (Throw network_error, w')
      | Some res =>
          if session && (rs_status res =? 401)%Z
          then advance (k r) w' = (Throw (new_error "Unauthorized"), log (EvNavigate "/login") (cleared w'))
          else exists q, advance (k r) w' = (q, w') /\ ended q = true
      end.

(** The credential of a call: the stored token, or none. *)
Definition session_header (session : bool) (rq : option string -> request) : Prop :=
  forall t v, header_get "Authorization" (rq_headers (rq t)) = Some v ->
    session = true /\ exists x, some_text t = Some x /\ v = "Bearer " +:+ x.

Lemma auth_call_advance {A} url init (k : response -> prog A) :
  (forall r, quiet (k r)) ->
  call_advance true (fun t => auth_request t url init) (fetchWithAuth url init ≫= k).
Proof.
  intros Hk. eexists. intros h w. split; [done |]. intros [res|] w'; [| done].
  cbn [andb]. unfold mbind. cbn. destruct (rs_status res =? 401)%Z; [done |]. cbn. by apply quiet_advance.
Qed.

Lemma void_call_advance session rq (p : prog unit) :
  call_advance session rq p -> call_advance session rq (void p).
Proof.
  unfold void. intros [k Hk]. exists (fun r => k r;; mret JUndef). intros h w. destruct (Hk h w) as [Hp Hr]. split.
  - by rewrite advance_bind, Hp.
  - intros r w'. rewrite advance_bind. specialize (Hr r w'). destruct r as [res|]; [| by rewrite Hr].
    destruct (session && (rs_status res =? 401)%Z); [by rewrite Hr |].
    destruct Hr as (q & -> & Hq). destruct q; try done; by eexists.
Qed.

Lemma plain_call_advance {A} rq (k : response -> prog A) :
  (forall r, quiet (k r)) -> call_advance false (fun _ => rq) (fetch rq ≫= k).
Proof.
  intros Hk. eexists. intros h w. split; [done |]. intros [res|] w'; [| done].
  cbn [andb]. unfold mbind. cbn. by apply quiet_advance.
Qed.

(** A call with its request. *)
Definition api_call {A} (p : prog A) : Prop :=
  exists session rq, call_advance session rq p /\ session_header session rq.

Section forms.
Context {A} (p : prog A).

Lemma auth_form url init k :
  p = fetchWithAuth url init ≫= k -> (forall r, quiet (k r)) ->
  (ai_headers init = [] \/ ai_headers init = json_headers) -> api_call p.
Proof.
  intros -> Hk Hh. exists true, (fun t => auth_request t url init). split; [by apply auth_call_advance |].
  intros t v. cbn [rq_headers auth_request]. unfold bearer.
  destruct (some_text t) as [x|], Hh as [-> | ->]; cbn; try done; intros [= <-]; eauto.
Qed.

Lemma plain_form rq k :
  p = fetch rq ≫= k -> (forall r, quiet (k r)) ->
  header_get "Authorization" (rq_headers rq) = None -> api_call p.
Proof.
  intros -> Hk Hh. exists false, (fun _ => rq). split; [by apply plain_call_advance |].
  intros t v Hv. by rewrite Hh in Hv.
Qed.
End forms.

Lemma void_form (p : prog unit) : api_call p -> api_call (void p).
Proof. intros (s & rq & Hc & Hh). exists s, rq. by split; [apply void_call_advance |]. Qed.

(** Every call of the dashboard ([ApiContract.perform]) is one. *)
Lemma perform_api_call BASE c : api_call (perform BASE c).
Proof.
  destruct c; cbn [perform]; try apply void_form;
    first [eapply auth_form; [reflexivity | quiet_tac | by (left + right)]
          | eapply plain_form; [reflexivity | quiet_tac | done]].
Qed.
