(* ===== verification/Pairing.v ===== *)
(** * The pairing of a television, with its calls in flight (http/wallboard.ts, routes/tv.tsx)

    The data calls of the wallboard poll every thirty seconds, each renews the access
    token by itself when it must, and none is cancelled when the viewer disconnects: the
    calls share the storage with each other, with the activation of a new code and with
    the button Disconnect.  The page is a transition system over the event loop of
    [Loop]: [act] is what can happen, [do] what it does, and a call is what is left of
    its program ([Wallboard]).  The server answers every request in any way, at any
    time, or not at all. *)

From stdpp Require Import relations.
From S2P Require Import Prelude JsString JsValue JsonParse Numbers Host Session HttpApi Wallboard Tv Loop.

Local Open Scope string_scope.
Local Open Scope Z_scope.
Local Set Warnings "-register-all".

(** ** The page *)

Inductive call : Type := Data | Activation | Mount.

Definition call_eqb (a b : call) : bool :=
  match a, b with Data, Data | Activation, Activation | Mount, Mount => true | _, _ => false end.

Record thread := Thread { th_call : call; th_left : prog jsval }.

Record live := Live {
  lw : world;
  threads : gmap nat thread;
  fresh_id : nat;
  authenticated : bool;
  hist : list happened
}.

Inductive act : Type :=
| Poll (path : string) (projectId environment : option string) (msg : string)  (** a query of the dashboard *)
| Enter (code : string)              (** the activation form *)
| Reload                             (** the page is opened, or opened again *)
| Reply (i : nat) (r : option response)
| Settle (i : nat)                   (** the promise of a call that has ended *)
| Disconnect
| Wait (ms : Z).

Section pairing.
Context `{Host} (BASE : string).

(** The effect of the mount: whether the page becomes authenticated. *)
Definition mount : prog jsval :=
  tokens ← getWbTokens;
  now ← date_now;
  if match some_text (access tokens) with Some _ => num_lt (Num now 0) (expiresAt tokens) | None => false end
  then mret (JBool true)
  else refreshAccessToken BASE.

(** A call starts and runs up to its first request. *)
Definition launch (c : call) (p : prog jsval) (s : live) : live :=
  let '(q, w) := advance p (lw s) in
  Live w (<[fresh_id s := Thread c q]> (threads s)) (S (fresh_id s)) (authenticated s)
    (hist s ++ asked q).

(** What the page does with the result of a call. *)
Definition settled_auth (t : thread) (auth : bool) : bool :=
  match th_call t, th_left t with
  | Activation, Ret _ => true
  | Mount, Ret v => auth || truthy v
  | _, _ => auth
  end.

Definition set_world (w : world) (s : live) : live :=
  Live w (threads s) (fresh_id s) (authenticated s) (hist s).
Definition set_auth (b : bool) (s : live) : live :=
  Live (lw s) (threads s) (fresh_id s) b (hist s).

Definition do (a : act) (s : live) : option live :=
  match a with
  | Poll path projectId environment msg =>
      if authenticated s then Some (launch Data (wb_get BASE path projectId environment msg) s) else None
  | Enter code => if authenticated s then None else Some (launch Activation (activate BASE code) s)
  | Reload => Some (launch Mount mount (Live (lw s) ∅ (fresh_id s) false (hist s)))
  | Reply i r =>
      match threads s !! i with
      | Some (Thread c (Fetch rq k)) =>
          let '(q, w) := advance (k r) (lw s) in
          Some (Live w (<[i := Thread c q]> (threads s)) (fresh_id s) (authenticated s)
                  (hist s ++ Answered rq r :: asked q))
      | _ => None
      end
  | Settle i =>
      match threads s !! i with
      | Some t =>
          if ended (th_left t)
          then Some (Live (lw s) (delete i (threads s)) (fresh_id s) (settled_auth t (authenticated s)) (hist s))
          else None
      | None => None
      end
  | Disconnect =>
      if authenticated s then Some (set_auth false (set_world (advance clearWbTokens (lw s)).2 s)) else None
  | Wait ms => if 0 <=? ms then Some (set_world (tick ms (lw s)) s) else None
  end.

Definition step (ok : act -> Prop) (s s' : live) : Prop := exists a, ok a /\ do a s = Some s'.

(** A sequence of acts, for the demonstrations. *)
Fixpoint acts (l : list act) (s : live) : option live :=
  match l with [] => Some s | a :: l' => s' ← do a s; acts l' s' end.
End pairing.

(** ** What a call may still do *)

Section shapes.
Context `{Host} (BASE : string).

(** What an answer does to the tokens. *)
Inductive effect : Type :=
| Keep
| Clear
| Save (a r p e n : jsval).

Definition apply_effect (f : effect) (w : world) : world :=
  match f with Keep => w | Clear => wb_cleared w | Save a r p e n => wb_saved a r p e n w end.

(** The tokens an answer gives. *)
Definition given_as (m : string) (r : option response) : option jsval :=
  match r with
  | Some res => if rs_ok res then data ← json_parse (rs_body res); get_prop data m else None
  | None => None
  end.
Definition given : option response -> option jsval := given_as "access_token".

(** A request of the renewal, and one for data with the token [a]. *)
Definition activation_request (code : string) : request :=
  {| rq_url := BASE +:+ "/v1/wallboard/activate"; rq_method := "POST"; rq_headers := json_headers;
     rq_body := Some (json_text (JObj [("code", JStr code)])) |}.
Definition activates (rq : request) : Prop := exists code, rq = activation_request code.
Definition renews (rq : request) : Prop := exists token, rq = refresh_request BASE token.
Definition asks_data (rq : request) (a : jsval) : Prop := exists path qs, rq = wb_request BASE path qs a.

(** The effects an answer to a call may have: only a refused renewal clears, only an
    activation brings a refresh token, and what is saved is what was given. *)
Definition allowed (c : call) (rq : request) (r : option response) (f : effect) : Prop :=
  match f with
  | Keep => True
  | Clear => c <> Activation /\ renews rq /\ exists res, r = Some res /\ rs_ok res = false
  | Save a t _ _ _ => 
      given r = Some a /\
      (c = Activation /\ activates rq /\ given_as "refresh_token" r = Some t \/ renews rq /\ truthy t = false)
  end.

(** What may be asked for right after an answer: data, with the token just saved. *)
Definition follows (f : effect) (q : prog jsval) : Prop :=
  match q with
  | Fetch rq _ => exists a t p e n, f = Save a t p e n /\ truthy a = true /\ asks_data rq a
  | _ => True
  end.

(** [thread_ok c n q]: what is left of a call, which asks at most [n] times more. *)
Inductive thread_ok (c : call) : nat -> prog jsval -> Prop :=
| ok_ended n p : ended p = true -> thread_ok c n p
| ok_asking n rq k :
    (forall r w, exists f q, advance (k r) w = (q, apply_effect f w) /\
       allowed c rq r f /\ follows f q /\ thread_ok c n q) ->
    thread_ok c (S n) (Fetch rq k).

Lemma thread_ok_S c n q : thread_ok c n q -> thread_ok c (S n) q.
Proof.
  revert q. induction n as [|n IH]; intros q Hq; inversion Hq as [m p Hp | m rq k Hk]; subst;
    [by apply ok_ended.. |].
  apply ok_asking. intros r w. destruct (Hk r w) as (f & q' & ? & ? & ? & ?). exists f, q'. eauto.
Qed.

(** *** The programs *)

Lemma advance_saveTokens a r p e n w : advance (saveTokens a r p e n) w = (Ret tt, wb_saved a r p e n w).
Proof. unfold saveTokens, wb_saved. by destruct (truthy r), n. Qed.

(** What an answer to the renewal does, and how the renewal ends. *)
Definition refresh_answer (r : option response) : outcome jsval * effect :=
  match r with
  | None => (Err network_error, Keep)
  | Some res =>
      if rs_ok res then
        match json_parse (rs_body res) with
        | None => (Err syntax_error, Keep)
        | Some data =>
            match get_prop data "access_token", get_prop data "project_id", get_prop data "expires_in" with
            | Some a, Some p, Some e => (Ok a, Save a JNull (coalesce p (JStr "")) e JUndef)
            | _, _, _ => (Err (type_error "access_token"), Keep)
            end
        end
      else (Ok JNull, Clear)
  end.

Definition after_refresh (r : option response) : prog jsval :=
  res ← (match r with Some x => Ret x | None => Throw network_error end);
  if negb (rs_ok res) then clearWbTokens;; mret JNull
  else
    data ← res_json res;
    a ← js_prop data "access_token";
    p ← js_prop data "project_id";
    e ← js_prop data "expires_in";
    saveTokens a JNull (coalesce p (JStr "")) e JUndef;;
    js_prop data "access_token".

Lemma refresh_advance w :
  advance (refreshAccessToken BASE) w =
  match some_text (refresh (tokens_of (storage w))) with
  | None => (Ret JNull, w)
  | Some token => (Fetch (refresh_request BASE token) after_refresh, w)
  end.
Proof.
  unfold refreshAccessToken. rewrite (advance_sync _ _ w (tokens_of (storage w)) w) by done.
  by destruct (some_text _).
Qed.

Lemma after_refresh_advance r w :
  advance (after_refresh r) w =
  (of_outcome (refresh_answer r).1, apply_effect (refresh_answer r).2 w).
Proof.
  unfold after_refresh, refresh_answer. destruct r as [res|]; [| done].
  rewrite (advance_sync _ _ w res w) by done. destruct (rs_ok res); cbn [negb]; [| done].
  rewrite advance_bind. unfold res_json. destruct (json_parse (rs_body res)) as [data|]; [| done].
  cbn [advance]. unfold js_prop. destruct data as [| |b|n|s|l|o]; cbn [get_prop]; try done.
  all: rewrite advance_bind; cbn [advance]; rewrite advance_bind; cbn [advance]; rewrite advance_bind;
    cbn [advance]; by rewrite advance_bind, advance_saveTokens.
Qed.

Lemma refresh_answer_allowed c rq r :
  c <> Activation -> renews rq -> allowed c rq r (refresh_answer r).2.
Proof.
  intros Hc Hrq. unfold refresh_answer, allowed, given, given_as. destruct r as [res|]; [| done].
  destruct (rs_ok res) eqn:E; [| by split_and!; eauto].
  destruct (json_parse (rs_body res)) as [data|]; [| done]. cbn [mbind option_bind].
  destruct data as [| |b|n|s|l|o]; cbn [get_prop snd]; try done; (split; [done | by right]).
Qed.

(** *** The three calls *)

(** What a call asks for first. *)
Definition starts (c : call) (w : world) (q : prog jsval) : Prop :=
  match q with
  | Fetch rq _ =>
      (exists token, some_text (refresh (tokens_of (storage w))) = Some token /\ rq = refresh_request BASE token) \/
      (exists a, access (tokens_of (storage w)) = Some a /\ asks_data rq (JStr a)) \/
      (c = Activation /\ activates rq)
  | _ => True
  end.

Lemma mount_ok w : exists q, advance (mount BASE) w = (q, w) /\ thread_ok Mount 1 q /\ starts Mount w q.
Proof.
  unfold mount. rewrite (advance_sync _ _ w (tokens_of (storage w)) w) by done.
  rewrite (advance_sync _ _ w (clock w) w) by done. case_match.
  - eexists. split_and!; [done | by constructor | done].
  - rewrite refresh_advance. destruct (some_text (refresh _)) as [token|] eqn:E.
    + eexists. split_and!; [done | | by left; exists token]. apply ok_asking. intros r w'.
      exists (refresh_answer r).2, (of_outcome (refresh_answer r).1). split_and!.
      * apply after_refresh_advance.
      * apply refresh_answer_allowed; [done | by exists token].
      * by destruct (refresh_answer r).1.
      * constructor. by destruct (refresh_answer r).1.
    + eexists. split_and!; [done | by constructor | done].
Qed.

(** The end of a data call, after its answer. *)
Definition read_data (msg : string) (res : response) : prog jsval := check_ok res msg;; res_json res.

Lemma ask_ok c path qs msg a w :
  exists q, advance (fetch (wb_request BASE path qs a) ≫= read_data msg) w = (q, w) /\
    thread_ok c 1 q /\ match q with Fetch rq _ => asks_data rq a | _ => True end.
Proof.
  eexists. split_and!; [done | | by exists path, qs]. apply ok_asking. intros r w'.
  destruct r as [res|]; cbn.
  - unfold read_data, check_ok. destruct (rs_ok res); cbn; [unfold res_json; destruct (json_parse _) |];
      eexists Keep, _; (split_and!; [done | done | done | by constructor]).
  - eexists Keep, _. split_and!; [done | done | done | by constructor].
Qed.

(** What follows the renewal in a data call: the check of the new token and the request. *)
Definition check_token (renewed : jsval) : prog jsval :=
  if truthy renewed then mret renewed else Throw (new_error "unauthenticated").
Definition request_data (path qs : string) (access : jsval) : prog response :=
  fetch (wb_request BASE path qs access).
Definition use_token (path qs msg : string) (renewed : jsval) : prog jsval :=
  (check_token renewed ≫= request_data path qs) ≫= read_data msg.
Definition renewing (path qs msg : string) (r : option response) : prog jsval :=
  ((after_refresh r ≫= check_token) ≫= request_data path qs) ≫= read_data msg.

Lemma use_token_ok path qs msg a w :
  exists q, advance (use_token path qs msg a) w = (q, w) /\ thread_ok Data 1 q /\
    match q with Fetch rq _ => truthy a = true /\ asks_data rq a | _ => True end.
Proof.
  unfold use_token, check_token. destruct (truthy a).
  - destruct (ask_ok Data path qs msg a w) as (q & Hq & Hok & Hr). exists q.
    split_and!; [done | done | by destruct q].
  - eexists. split_and!; [done | by constructor | done].
Qed.

(** A data call, its binds in order. *)
Lemma wb_get_advance path projectId environment msg w :
  let t := tokens_of (storage w) in
  let qs := wb_query (wb_search projectId environment) in
  advance (wb_get BASE path projectId environment msg) w =
  if must_renew t (clock w) then
    match some_text (refresh t) with
    | None => (Throw (new_error "unauthenticated"), w)
    | Some token => (Fetch (refresh_request BASE token) (renewing path qs msg), w)
    end
  else advance (fetch (wb_request BASE path qs (jstr_opt (access t))) ≫= read_data msg) w.
Proof.
  cbn zeta. unfold wb_get, wbFetch. rewrite advance_bind.
  rewrite (advance_sync _ _ w (tokens_of (storage w)) w) by done.
  rewrite (advance_sync _ _ w (clock w) w) by done. destruct (must_renew _ _); [| done].
  rewrite advance_bind, advance_bind, refresh_advance. by destruct (some_text _).
Qed.

Lemma renewing_advance path qs msg r w :
  advance (renewing path qs msg r) w =
  match (refresh_answer r).1 with
  | Ok a => advance (use_token path qs msg a) (apply_effect (refresh_answer r).2 w)
  | Err e => (Throw e, apply_effect (refresh_answer r).2 w)
  end.
Proof.
  unfold renewing, use_token. rewrite !advance_bind, after_refresh_advance.
  destruct (refresh_answer r).1 as [a|e]; cbn [of_outcome]; [| done].
  rewrite !advance_bind. unfold check_token. by destruct (truthy a).
Qed.

(** A renewal that ends with a token has saved it. *)
Lemma refresh_answer_saves r a :
  (refresh_answer r).1 = Ok a -> truthy a = true ->
  exists p e, (refresh_answer r).2 = Save a JNull p e JUndef.
Proof.
  unfold refresh_answer. destruct r as [res|]; [| done]. destruct (rs_ok res); [| by intros [= <-] ?].
  destruct (json_parse (rs_body res)) as [data|]; [| done].
  destruct (get_prop data "access_token"), (get_prop data "project_id"), (get_prop data "expires_in");
    try done. intros [= ->] _. eauto.
Qed.

Lemma data_ok path projectId environment msg w :
  exists q, advance (wb_get BASE path projectId environment msg) w = (q, w) /\
    thread_ok Data 2 q /\ starts Data w q.
Proof.
  rewrite wb_get_advance. destruct (must_renew _ _) eqn:Em.
  - destruct (some_text (refresh _)) as [token|] eqn:E.
    + eexists. split_and!; [done | | by left; exists token]. apply ok_asking. intros r w'.
      rewrite renewing_advance. exists (refresh_answer r).2.
      pose proof (refresh_answer_allowed Data (refresh_request BASE token) r ltac:(done) ltac:(by exists token)).
      destruct (refresh_answer r).1 as [a|e] eqn:Ea.
      * destruct (use_token_ok path (wb_query (wb_search projectId environment)) msg a
          (apply_effect (refresh_answer r).2 w')) as (q & -> & Hok & Hr).
        exists q. split_and!; [done | done | | done]. destruct q; try done. destruct Hr as [Ht Hr].
        destruct (refresh_answer_saves r a Ea Ht) as (p & e & ->). by exists a, JNull, p, e, JUndef.
      * eexists. split_and!; [done | done | done | by constructor].
    + eexists. split_and!; [done | by constructor | done].
  - unfold must_renew in Em. destruct (access (tokens_of (storage w))) as [a|] eqn:Ha; [| done].
    destruct (ask_ok Data path (wb_query (wb_search projectId environment)) msg (JStr a) w)
      as (q & Hq & Hok & Hr). exists q. split_and!; [done | | ].
    + by apply thread_ok_S.
    + destruct q; try done. right. left. by exists a.
Qed.

Definition after_activate (r : option response) : prog jsval :=
  res ← (match r with Some x => Ret x | None => Throw network_error end);
  check_ok res "Invalid or expired code";;
  data ← res_json res;
  a ← js_prop data "access_token";
  t ← js_prop data "refresh_token";
  p ← js_prop data "project_id";
  e ← js_prop data "expires_in";
  n ← js_prop data "profile_name";
  saveTokens a t (coalesce p (JStr "")) e (coalesce n (JStr ""));;
  mret data.

Lemma activate_advance code w :
  advance (activate BASE code) w = (Fetch (activation_request code) after_activate, w).
Proof. done. Qed.

(** An answer to the activation changes nothing or saves what it gives. *)
Lemma after_activate_advance r w :
  (exists e, advance (after_activate r) w = (Throw e, w)) \/
  (exists a t p e n v, given r = Some a /\ given_as "refresh_token" r = Some t /\
     advance (after_activate r) w = (Ret v, wb_saved a t p e n w)).
Proof.
  unfold after_activate, given, given_as. destruct r as [res|]; [| left; by eexists].
  rewrite (advance_sync _ _ w res w) by done. unfold check_ok.
  destruct (rs_ok res); [| left; by eexists]. rewrite advance_bind. cbn [advance mret prog_ret].
  rewrite advance_bind. unfold res_json. destruct (json_parse (rs_body res)) as [data|]; [| left; by eexists].
  cbn [advance mbind option_bind]. unfold js_prop.
  destruct data as [| |b|n|s|l|o]; cbn [get_prop]; try (left; by eexists).
  all: right; eexists _, _, _, _, _, _; split; [done |]; split; [done |]; do 5 (rewrite advance_bind; cbn [advance]);
    by rewrite advance_bind, advance_saveTokens.
Qed.

Lemma activation_ok code w :
  exists q, advance (activate BASE code) w = (q, w) /\ thread_ok Activation 1 q /\ starts Activation w q.
Proof.
  rewrite activate_advance. eexists. split_and!; [done | | by right; right; split; [| exists code]].
  apply ok_asking. intros r w'.
  destruct (after_activate_advance r w') as [[e ->] | (a & t & p & e & n & v & Hg & Hg' & ->)].
  - eexists Keep, _. split_and!; [done | done | done | by constructor].
  - eexists (Save a t p e n), _. split_and!; [done | | done | by constructor].
    split; [done |]. left. split_and!; [done | by exists code | done].
Qed.
End shapes.

(** ** The steps, by what they do to the tokens *)

Section steps.
Context `{Host} (BASE : string).
Implicit Types (s : live).

Definition enters (a : act) : Prop := match a with Enter _ => True | _ => False end.

Definition sends_code (a : act) (q : prog jsval) : Prop :=
  exists code k, a = Enter code /\ q = Fetch (activation_request BASE code) k.

Lemma sends_code_enters a q : sends_code a q -> enters a.
Proof. by intros (code & k & -> & _). Qed.

Inductive moves (a : act) (s s' : live) : Prop :=
| moves_launch c q n T :
    thread_ok BASE c n q -> starts BASE c (lw s) q -> (c = Activation -> sends_code a q) ->
    (T = threads s \/ T = ∅) -> lw s' = lw s -> hist s' = (hist s ++ asked q)%list ->
    threads s' = <[fresh_id s := Thread c q]> T -> moves a s s'
| moves_reply i c rq k r f q n :
    threads s !! i = Some (Thread c (Fetch rq k)) -> thread_ok BASE c n q ->
    allowed BASE c rq r f -> follows BASE f q -> lw s' = apply_effect f (lw s) ->
    hist s' = (hist s ++ Answered rq r :: asked q)%list ->
    threads s' = <[i := Thread c q]> (threads s) -> moves a s s'
| moves_quiet :
    storage (lw s') = storage (lw s) -> hist s' = hist s -> threads s' ⊆ threads s -> moves a s s'
| moves_clear :
    a = Disconnect -> lw s' = wb_cleared (lw s) -> hist s' = hist s -> threads s' = threads s ->
    moves a s s'.

(** Every call in flight is one of the three. *)
Definition calls_ok s : Prop :=
  map_Forall (fun _ t => exists n, thread_ok BASE (th_call t) n (th_left t)) (threads s).

Lemma launch_moves a c p s q n :
  advance p (lw s) = (q, lw s) -> thread_ok BASE c n q -> starts BASE c (lw s) q ->
  (c = Activation -> sends_code a q) -> moves a s (launch c p s).
Proof.
  intros Hq Hok Hst Ha. unfold launch. rewrite Hq. by eapply (moves_launch _ _ _ c q n (threads s)); eauto.
Qed.

Lemma do_moves a s s' : calls_ok s -> do BASE a s = Some s' -> moves a s s'.
Proof.
  intros Hs. destruct a as [path pid env msg|code| |i r|i| |ms]; cbn [do].
  - destruct (authenticated s); [| done]. intros [= <-].
    destruct (data_ok BASE path pid env msg (lw s)) as (q & Hq & Hok & Hst). by eapply launch_moves.
  - destruct (authenticated s); [done |]. intros [= <-].
    destruct (activation_ok BASE code (lw s)) as (q & Hq & Hok & Hst). eapply launch_moves; try done.
    intros _. rewrite activate_advance in Hq. injection Hq as <-. by eexists code, _.
  - intros [= <-]. destruct (mount_ok BASE (lw s)) as (q & Hq & Hok & Hst).
    unfold launch. cbn [lw]. rewrite Hq. by eapply (moves_launch _ _ _ Mount q 1 ∅); eauto.
  - destruct (threads s !! i) as [[c q0]|] eqn:Ei; [| done]. destruct q0 as [| |rq k| | | | | | |]; try done.
    destruct (Hs i _ Ei) as [n Hok]. cbn in Hok.
    inversion Hok as [m p Hp | m rq' k' Hk]; simplify_eq/=.
    destruct (Hk r (lw s)) as (f & q & Hq & Hal & Hfo & Hq'). rewrite Hq. intros [= <-].
    by eapply (moves_reply _ _ _ i c rq k r f q m).
  - destruct (threads s !! i) as [t|] eqn:Ei; [| done]. destruct (ended (th_left t)); [| done].
    intros [= <-]. apply moves_quiet; cbn; [done | done | apply delete_subseteq].
  - destruct (authenticated s); [| done]. intros [= <-]. by apply moves_clear.
  - destruct (0 <=? ms); [| done]. intros [= <-]. by apply moves_quiet.
Qed.

Lemma moves_calls_ok a s s' : moves a s s' -> calls_ok s -> calls_ok s'.
Proof.
  unfold calls_ok. intros Hm Hs.
  destruct Hm as [c q n T Hok _ _ HT _ _ -> | i c rq k r f q n Hi Hok _ _ _ _ -> | _ _ Hsub | _ _ _ ->].
  - apply map_Forall_insert_2; [by exists n |]. by destruct HT as [-> | ->]; [| apply map_Forall_empty].
  - by apply map_Forall_insert_2; [exists n |].
  - intros i t Hi. apply (Hs i). by eapply lookup_weaken.
  - done.
Qed.

(** An invariant of the moves holds wherever the page gets, from a state with the
    calls as they are. *)
Lemma live_invariant (ok : act -> Prop) (P : live -> Prop) s s' :
  (forall a s1 s2, ok a -> calls_ok s1 -> moves a s1 s2 -> P s1 -> P s2) ->
  calls_ok s -> P s -> rtc (step BASE ok) s s' -> calls_ok s' /\ P s'.
Proof.
  intros HP Hc Hs Hrtc. induction Hrtc as [| s s1 s' (a & Ha & Hdo) Hrtc IH]; [done |].
  pose proof (do_moves a s s1 Hc Hdo) as Hm. apply IH; [by eapply moves_calls_ok | by eapply HP].
Qed.
End steps.

(** ** Properties *)

Section properties.
Context `{Host} (BASE : string).
Implicit Types (s : live) (h : list happened).

(** A new page: nothing was asked, nothing is in flight. *)
Definition opened s : Prop := threads s = ∅ /\ hist s = [].

(** What the device can show the server. *)
Inductive credential : Type :=
| AccessToken (x : string)
| RefreshToken (x : string)
| PairingCode (x : string).

(** What a server reads in the body of a request. *)
Definition body_value (rq : request) : option jsval := t ← rq_body rq; json_parse t.

(** The credential of a request as a server reads it: that of a request for data is in its
    header, the others have theirs in the body and no header. *)
Definition shows (rq : request) (k : credential) : Prop :=
  match k with
  | AccessToken x =>
      header_get "Authorization" (rq_headers rq) = Some ("Bearer " +:+ x) /\ rq_body rq = None
  | RefreshToken x =>
      rq_url rq = BASE +:+ "/v1/wallboard/refresh" /\ rq_method rq = "POST" /\
      header_get "Authorization" (rq_headers rq) = None /\
      body_value rq = Some (JObj [("refresh_token", JStr x)])
  | PairingCode x =>
      rq_url rq = BASE +:+ "/v1/wallboard/activate" /\ rq_method rq = "POST" /\
      header_get "Authorization" (rq_headers rq) = None /\
      body_value rq = Some (JObj [("code", JStr x)])
  end.

(** What the device has come to know: the tokens [t0] it had, the access tokens the server
    gave in answer to a renewal or an activation, the refresh tokens it gave in answer
    to an activation, and the codes that were entered. *)
Definition known (t0 : WbTokens) (l : list act) h (k : credential) : Prop :=
  match k with
  | AccessToken x =>
      access t0 = Some x \/
      exists rq r a, In (Answered rq r) h /\ (renews BASE rq \/ activates BASE rq) /\
        given_as "access_token" r = Some a /\ x = js_string a
  | RefreshToken x =>
      refresh t0 = Some x \/
      exists rq r t, In (Answered rq r) h /\ activates BASE rq /\
        given_as "refresh_token" r = Some t /\ x = js_string t
  | PairingCode x => In (Enter x) l
  end.

(** Every request shows a credential that was known when it was sent. *)
Definition sound (t0 : WbTokens) (l : list act) h : Prop :=
  forall h1 rq h2, h = (h1 ++ Asked rq :: h2)%list -> exists k, shows rq k /\ known t0 l h1 k.

Lemma known_grows t0 l l' h h' k : known t0 l h k -> known t0 (l ++ l')%list (h ++ h')%list k.
Proof.
  destruct k as [x|x|x]; cbn.
  - intros [-> | (rq & r & a & Hin & ?)]; [by left |]. right. exists rq, r, a.
    by split; [apply in_or_app; left |].
  - intros [-> | (rq & r & a & Hin & ?)]; [by left |]. right. exists rq, r, a.
    by split; [apply in_or_app; left |].
  - intros Hin. by apply in_or_app; left.
Qed.

Lemma sound_later t0 l l' h : sound t0 l h -> sound t0 (l ++ l')%list h.
Proof.
  intros Hs h1 rq h2 Hh. destruct (Hs h1 rq h2 Hh) as (k & Hk & Hn). exists k. split; [done |].
  rewrite <- (app_nil_r h1). by apply known_grows.
Qed.

Lemma sound_snoc t0 l h e :
  sound t0 l h -> (forall rq, e = Asked rq -> exists k, shows rq k /\ known t0 l h k) -> sound t0 l (h ++ [e])%list.
Proof.
  intros Hs He h1 rq h2 Heq. destruct h2 as [|e' h2 _] using rev_ind.
  - apply app_inj_tail in Heq as [-> ->]. by apply He.
  - rewrite app_comm_cons, app_assoc in Heq. apply app_inj_tail in Heq as [-> _]. by eapply Hs.
Qed.

Lemma sound_request t0 l h (q : prog jsval) :
  sound t0 l h -> (forall rq k, q = Fetch rq k -> exists c, shows rq c /\ known t0 l h c) ->
  sound t0 l (h ++ asked q)%list.
Proof.
  intros Hs Hq. destruct (asked_cases q) as [-> | (rq & -> & k & ->)]; [by rewrite app_nil_r |].
  apply sound_snoc; [done |]. intros rq' [= <-]. by eapply Hq.
Qed.

(** The three kinds of requests. *)
Lemma data_shows rq a : asks_data BASE rq a -> shows rq (AccessToken (js_string a)).
Proof. by intros (path & qs & ->). Qed.

Lemma refresh_shows token : shows (refresh_request BASE token) (RefreshToken token).
Proof. split_and!; [done.. | by apply json_parse_stringify]. Qed.

Lemma activation_shows code : shows (activation_request BASE code) (PairingCode code).
Proof. split_and!; [done.. | by apply json_parse_stringify]. Qed.

Lemma cleared_tokens w : access (tokens_of (storage (wb_cleared w))) = None /\
  refresh (tokens_of (storage (wb_cleared w))) = None.
Proof. unfold wb_cleared, tokens_of. cbn [storage with_storage access refresh]. split; storage_tac. Qed.

Definition credentials (t0 : WbTokens) (l : list act) s : Prop :=
  let t := tokens_of (storage (lw s)) in
  (forall x, access t = Some x -> known t0 l (hist s) (AccessToken x)) /\
  (forall x, refresh t = Some x -> known t0 l (hist s) (RefreshToken x)) /\
  sound t0 l (hist s).

(** The tokens after an answer are known with it. *)
Lemma tokens_answered t0 l c rq r f h w :
  allowed BASE c rq r f ->
  (forall x, access (tokens_of (storage w)) = Some x -> known t0 l h (AccessToken x)) ->
  (forall x, refresh (tokens_of (storage w)) = Some x -> known t0 l h (RefreshToken x)) ->
  let t := tokens_of (storage (apply_effect f w)) in
  let h' := (h ++ [Answered rq r])%list in
  (forall x, access t = Some x -> known t0 l h' (AccessToken x)) /\
  (forall x, refresh t = Some x -> known t0 l h' (RefreshToken x)).
Proof.
  intros Hal Ha Hr. cbn zeta.
  assert (In (Answered rq r) (h ++ [Answered rq r])%list) as Hin by (apply in_or_app; by right; left).
  assert (forall k, known t0 l h k -> known t0 l (h ++ [Answered rq r])%list k) as Hg
    by (intros k Hk; rewrite <- (app_nil_r l); by apply known_grows).
  destruct f as [| |a t p e n]; cbn [apply_effect].
  - by split; intros x Hx; apply Hg; auto.
  - destruct (cleared_tokens w) as [-> ->]. done.
  - rewrite wb_saved_tokens. cbn [access refresh]. destruct Hal as [Hga Hc]. split.
    + intros x [= <-]. right. exists rq, r, a. split_and!; [done | tauto | done | done].
    + intros x. destruct Hc as [(_ & Hact & Ht) | [_ ->]]; [| intros Hx; by apply Hg, Hr].
      destruct (truthy t); [| intros Hx; by apply Hg, Hr]. intros [= <-]. right. by exists rq, r, t.
Qed.

Lemma credentials_moves t0 l a s s' :
  moves BASE a s s' -> credentials t0 l s -> credentials t0 (l ++ [a])%list s'.
Proof.
  intros Hm (Ha & Hr & Hs). unfold credentials. cbn zeta.
  assert (forall h k, known t0 l h k -> known t0 (l ++ [a])%list h k) as Hg
    by (intros h k Hk; rewrite <- (app_nil_r h); by apply known_grows).
  destruct Hm as [c q n T Hok Hst Hc _ Hw -> _ | i c rq k r f q n _ _ Hal Hfo Hw -> _ | -> -> _ | _ -> -> _].
  - rewrite Hw. split_and!; [intros x Hx; apply known_grows; auto.. |].
    apply sound_request; [by apply sound_later |]. intros rq k ->.
    destruct Hst as [(token & Ht & ->) | [(x & Hx & Hd) | [-> _]]].
    + exists (RefreshToken token). split; [apply refresh_shows |]. apply Hg, Hr.
      unfold some_text in Ht. destruct (refresh _) as [tok|]; [| done]. destruct (str_truthy tok); congruence.
    + exists (AccessToken x). split; [by apply (data_shows _ (JStr x)) | by apply Hg, Ha].
    + destruct (Hc eq_refl) as (code & k' & -> & [= -> _]). exists (PairingCode code).
      split; [apply activation_shows |]. apply in_or_app. by right; left.
  - destruct (tokens_answered t0 l c rq r f (hist s) (lw s) Hal Ha Hr) as [Ha' Hr'].
    rewrite Hw. change (Answered rq r :: asked q) with ([Answered rq r] ++ asked q)%list. rewrite app_assoc.
    split_and!; [intros x Hx; apply known_grows; auto.. |].
    apply sound_request; [by apply sound_later, sound_snoc |]. intros rq' k' ->.
    destruct Hfo as (a' & t & p & e & n' & -> & _ & Hd). exists (AccessToken (js_string a')).
    split; [by apply data_shows |]. apply Hg, Ha'. cbn [apply_effect]. by rewrite wb_saved_tokens.
  - split_and!; [intros x Hx; apply Hg; auto.. | by apply sound_later].
  - destruct (cleared_tokens (lw s)) as [-> ->]. split_and!; [done | done | by apply sound_later].
Qed.

Lemma credentials_acts t0 l1 s :
  forall l s', calls_ok BASE s -> credentials t0 l1 s -> acts BASE l s = Some s' ->
  credentials t0 (l1 ++ l)%list s'.
Proof.
  intros l. revert l1 s. induction l as [|a l IH]; intros l1 s s' Hc Hk; cbn [acts].
  - intros [= <-]. by rewrite app_nil_r.
  - destruct (do BASE a s) as [s1|] eqn:E; [| done]. intros Hl. apply (do_moves BASE) in E; [| done].
    change (a :: l) with ([a] ++ l)%list. rewrite app_assoc.
    eapply IH; [by eapply moves_calls_ok | by eapply credentials_moves | done].
Qed.

Lemma opened_calls_ok s : opened s -> calls_ok BASE s.
Proof. intros [Ht _]. unfold calls_ok. rewrite Ht. apply map_Forall_empty. Qed.

Lemma reachable_calls_ok ok s s' : calls_ok BASE s -> rtc (step BASE ok) s s' -> calls_ok BASE s'.
Proof. intros Hs Hr. by destruct (live_invariant BASE ok (fun _ => True) s s'). Qed.

(** C18 The credentials of the television: however its calls, the activations, the reloads and
    the button interleave, and whatever the server answers, every request shows the
    server exactly one credential that the device knew when it was sent, as the server
    reads it: in the header an access token it had when the page was opened or was given in an
    earlier answer to a renewal or an activation; in the body of a renewal a refresh
    token it had or was given in an earlier answer to an activation; in the body of an
    activation a code that was entered. *)
Theorem credentials_known s l s' :
  opened s -> acts BASE l s = Some s' -> sound (tokens_of (storage (lw s))) l (hist s').
Proof.
  intros Ho Hl. apply (credentials_acts _ [] s l s'); [by apply opened_calls_ok | | done].
  destruct Ho as [_ Hh]. split_and!; [by left | by left |]. rewrite Hh. by intros [|? ?].
Qed.

(** A call that waits for an answer. *)
Definition waiting (c : call) s : Prop :=
  exists i rq k, threads s !! i = Some (Thread c (Fetch rq k)).

Lemma waiting_insert c i c' q T s :
  threads s = <[i := Thread c' q]> T -> waiting c s ->
  (c = c' /\ exists rq k, q = Fetch rq k) \/ exists j rq k, T !! j = Some (Thread c (Fetch rq k)).
Proof.
  intros Ht (j & rq & k & Hj). rewrite Ht in Hj.
  destruct (decide (i = j)) as [->|Hne].
  - rewrite lookup_insert_eq in Hj. left. injection Hj as -> ->. eauto.
  - rewrite lookup_insert_ne in Hj by done. right. eauto.
Qed.

(** After a disconnect: no refresh token, no activation in flight, and since then only
    data was asked for. *)
Definition unpaired h s : Prop :=
  refresh (tokens_of (storage (lw s))) = None /\ ~ waiting Activation s /\
  exists h', hist s = (h ++ h')%list /\ forall rq, In (Asked rq) h' -> exists a, asks_data BASE rq a.

Lemma unpaired_moves h a s s' : ~ enters a -> moves BASE a s s' -> unpaired h s -> unpaired h s'.
Proof.
  intros Ha Hm (Hr & Hw & h' & Hh & Hask). unfold unpaired.
  destruct Hm as [c q n T Hok Hst Hc HT -> -> Ht | i c rq k r f q n Hi _ Hal Hfo -> -> Ht
                 | Hst -> Hsub | _ -> -> Ht].
  - split_and!; [done | |].
    + intros [[<- _] | (j & rq & k & Hj)]%(waiting_insert _ _ _ _ _ _ Ht); [by eapply Ha, sends_code_enters, Hc |].
      destruct HT as [-> | ->]; [apply Hw; by exists j, rq, k | done].
    + exists (h' ++ asked q)%list. rewrite Hh, app_assoc. split; [done |].
      intros rq [Hin | Hin]%in_app_or; [by apply Hask |]. destruct q; try done. destruct Hin as [[= ->] | []].
      destruct Hst as [(tok & E & _) | [(x & _ & Hd) | [Hact _]]];
        [by rewrite Hr in E | by exists (JStr x) | by destruct Ha; eapply sends_code_enters, Hc].
  - assert (c <> Activation) as Hc by (intros ->; apply Hw; by exists i, rq, k).
    split_and!.
    + destruct f as [| |a' t p e n']; cbn [apply_effect]; [done | apply cleared_tokens |].
      rewrite wb_saved_tokens. cbn [refresh]. destruct Hal as [_ [[? _] | [_ ->]]]; done.
    + intros [[<- _] | (j & rq' & k' & Hj)]%(waiting_insert _ _ _ _ _ _ Ht); [done |].
      apply Hw. by exists j, rq', k'.
    + exists (h' ++ Answered rq r :: asked q)%list. rewrite Hh, app_assoc. split; [done |].
      intros rq' [Hin | [Hin | Hin]]%in_app_or; [by apply Hask | done |].
      destruct q; try done. destruct Hin as [[= ->] | []].
      destruct Hfo as (a' & t & p & e & n' & _ & _ & Hd). by exists a'.
  - rewrite Hst. split_and!; [done | | by exists h']. intros (i & rq & k & Hi). apply Hw.
    exists i, rq, k. by eapply lookup_weaken.
  - split_and!; [apply cleared_tokens | | by exists h']. intros (i & rq & k & Hi). apply Hw.
    exists i, rq, k. by rewrite <- Ht.
Qed.

(** After a disconnect with nothing in flight: no token, no call waits, nothing asked. *)
Definition silent h s : Prop :=
  access (tokens_of (storage (lw s))) = None /\ refresh (tokens_of (storage (lw s))) = None /\
  map_Forall (fun _ t => ended (th_left t) = true) (threads s) /\ hist s = h.

Lemma silent_moves h a s s' : ~ enters a -> moves BASE a s s' -> silent h s -> silent h s'.
Proof.
  intros Ha Hm (Hx & Hr & Hall & Hh). unfold silent.
  destruct Hm as [c q n T Hok Hst Hc HT -> -> -> | i c rq k r f q n Hi _ Hal Hfo -> -> Ht
                 | Hst -> Hsub | _ -> -> ->].
  - assert (ended q = true) as Hq.
    { inversion Hok as [m p Hp | m rq k Hk]; subst; [done |]. exfalso.
      destruct Hst as [(tok & E & _) | [(x & E & _) | [Hact _]]];
        [by rewrite Hr in E | by rewrite Hx in E | by eapply Ha, sends_code_enters, Hc]. }
    split_and!; [done | done | | by destruct q; try done; rewrite app_nil_r].
    apply map_Forall_insert_2; [done |]. by destruct HT as [-> | ->]; [| apply map_Forall_empty].
  - by specialize (Hall i _ Hi).
  - rewrite Hst. split_and!; try done. intros i t Hi. apply (Hall i). by eapply lookup_weaken.
  - destruct (cleared_tokens (lw s)). by split_and!.
Qed.

(** C19 What Disconnect achieves.  As long as no code is entered again (and none is being
    activated): the device has no refresh token and asks for no renewal or activation
    again, only for data; and when nothing was in flight the device has no token at all
    and sends nothing to the server, whatever else is done on the page.  (With a renewal
    in flight the access token comes back, [late_renewal].) *)
Theorem disconnect_spec s0 s s1 s' :
  opened s0 -> rtc (step BASE (fun _ => True)) s0 s -> ~ waiting Activation s ->
  do BASE Disconnect s = Some s1 ->
  rtc (step BASE (fun a => ~ enters a)) s1 s' ->
  (refresh (tokens_of (storage (lw s'))) = None /\
   exists h, hist s' = (hist s ++ h)%list /\ forall rq, In (Asked rq) h -> exists a, asks_data BASE rq a) /\
  (map_Forall (fun _ t => ended (th_left t) = true) (threads s) ->
   access (tokens_of (storage (lw s'))) = None /\ hist s' = hist s).
Proof.
  intros Ho Hr Hw Hd Hr'. pose proof (reachable_calls_ok _ _ _ (opened_calls_ok _ Ho) Hr) as Hc.
  cbn [do] in Hd. destruct (authenticated s); [| done]. injection Hd as <-.
  set (s1 := set_auth _ _) in *. assert (calls_ok BASE s1) as Hc1 by done.
  destruct (cleared_tokens (lw s)) as [Hca Hcr]. split.
  - destruct (live_invariant BASE _ (unpaired (hist s)) s1 s' (fun a x y Ha _ Hm => unpaired_moves _ a x y Ha Hm) Hc1)
      as (_ & H1 & _ & H2); [| done | done].
    split_and!; [done | done |]. exists []. split; [by rewrite app_nil_r | done].
  - intros Hall.
    destruct (live_invariant BASE _ (silent (hist s)) s1 s' (fun a x y Ha _ Hm => silent_moves _ a x y Ha Hm) Hc1)
      as (_ & H1 & _ & _ & H2); [| done | done].
    by split_and!.
Qed.
End properties.

(** ** Demonstrations *)

Lemma acts_rtc `{Host} BASE l s s' : acts BASE l s = Some s' -> rtc (step BASE (fun _ => True)) s s'.
Proof.
  revert s. induction l as [|a l IH]; intros s; cbn [acts]; [by intros [= ->] |].
  destruct (do BASE a s) as [s1|] eqn:E; [| done]. intros Hl.
  eapply rtc_l; [by exists a | by apply IH].
Qed.

Definition new_page : live := Live (World ∅ 1000000 0 []) ∅ 0 false [].

(** The answers to an activation and to a renewal. *)
Definition pair_answer (a t p : string) : option response :=
  Some (Response 200 (json_text (JObj [("access_token", JStr a); ("refresh_token", JStr t);
    ("project_id", JStr p); ("expires_in", JInt 600); ("profile_name", JStr "Hall")]))).
Definition renew_answer (a p : string) : option response :=
  Some (Response 200 (json_text (JObj [("access_token", JStr a); ("project_id", JStr p);
    ("expires_in", JInt 600)]))).
Definition refusal : option response := Some (Response 401 "{}").

(** A television is paired; six minutes later a poll renews its token, and the viewer
    disconnects before the answer. *)
Definition paired : list act := [Enter "BAT-1"; Reply 0 (pair_answer "A1" "R1" "hall"); Settle 0].
Definition renewing_then_gone : list act :=
  (paired ++ [Wait 400000; Poll "/v1/wallboard/summary" None None "Failed to fetch summary"; Disconnect])%list.

(** What is left of the tokens, and whether the page is authenticated. *)
Definition outcome_of (s : option live) : option (option string * option string * option string * bool) :=
  (fun s => let t := tokens_of (storage (lw s)) in
            (access t, refresh t, projectId t, authenticated s)) <$> s.

(** The answer to a renewal that was in flight when the viewer disconnected is still
    stored: the page, opened again, is signed in.  When another code was entered in the
    meantime the answer replaces its access token and its project by those of the old
    pairing; and if the server refuses the old refresh token, the new pairing is wiped
    from the storage while the page still shows the dashboard. *)
Theorem late_renewal `{Host} :
  let again := (renewing_then_gone ++ [Enter "BAT-2"; Reply 2 (pair_answer "B1" "R2" "lab"); Settle 2])%list in
  outcome_of (acts "" renewing_then_gone new_page) = Some (None, None, None, false) /\
  outcome_of (acts "" (renewing_then_gone ++ [Reply 1 (renew_answer "A2" "hall"); Reload; Settle 2]) new_page) =
    Some (Some "A2", None, Some "hall", true) /\
  outcome_of (acts "" again new_page) = Some (Some "B1", Some "R2", Some "lab", true) /\
  outcome_of (acts "" (again ++ [Reply 1 (renew_answer "A2" "hall")]) new_page) =
    Some (Some "A2", Some "R2", Some "hall", true) /\
  outcome_of (acts "" (again ++ [Reply 1 refusal]) new_page) = Some (None, None, None, true).
Proof. cbn zeta. split_and!; vm_compute; reflexivity. Qed.

Definition demo_paired : live := default new_page (acts (H := demo_host) "" paired new_page).

Lemma disconnect_spec_witness :
  exists s1, do (H := demo_host) "" Disconnect demo_paired = Some s1 /\
    refresh (tokens_of (storage (lw s1))) = None /\ hist s1 = hist demo_paired.
Proof.
  assert (acts (H := demo_host) "" paired new_page = Some demo_paired) as Hp by reflexivity.
  assert (threads demo_paired = ∅) as Ht by (vm_compute; reflexivity).
  assert (~ waiting Activation demo_paired) as Hw.
  { intros (i & rq & k & Hi). rewrite Ht in Hi. discriminate. }
  assert (exists s1, do (H := demo_host) "" Disconnect demo_paired = Some s1) as [s1 Hs1]
    by (eexists; reflexivity).
  exists s1. split; [exact Hs1 |].
  destruct (@disconnect_spec demo_host "" new_page demo_paired s1 s1 (conj eq_refl eq_refl)
    (acts_rtc "" paired _ _ Hp) Hw Hs1 (rtc_refl _ _)) as [[Hr _] Hq].
  split; [exact Hr |]. apply Hq. rewrite Ht. apply map_Forall_empty.
Defined.

(** The code entered, the renewal with the refresh token of the activation. *)
Lemma credentials_known_witness :
  let l := (paired ++ [Wait 400000; Poll "/v1/wallboard/summary" None None "Failed to fetch summary"])%list in
  exists s', acts (H := demo_host) "" l new_page = Some s' /\
    sound "" (tokens_of ∅) l (hist s') /\ length (hist s') = 3%nat.
Proof.
  cbn zeta. set (l := (paired ++ _)%list).
  assert (exists s', acts (H := demo_host) "" l new_page = Some s') as [s' Hl] by (eexists; reflexivity).
  exists s'. split; [exact Hl |]. split.
  - exact (@credentials_known demo_host "" new_page l s' (conj eq_refl eq_refl) Hl).
  - apply (f_equal (fun o => match o with Some s => length (hist s) | None => 0%nat end)) in Hl.
    rewrite <- Hl. vm_compute. reflexivity.
Defined.
