(* ===== verification/Tab.v ===== *)
(** * A tab of the dashboard, with its calls in flight

    The session ([Session]), the calls ([HttpApi]), the cache of the queries ([Queries],
    http/query-client.ts), the login page and the logout button of the header ([Shell])
    put together as a transition system over the event loop of [Loop].  The calls share
    the stored session; none is cancelled by a logout, which is a navigation inside the
    page and keeps the cache, while an answer 401 loads the login page anew.  A handler may
    make one call after another, each by what the one before gave ([handler]; saving and
    deleting a report of the studio do).  Of React Query only this is used: an answer is
    cached under the key of its query, and a query with the same key is shown what is
    cached; a refetch or a retry is one more act of a page that is shown. *)

From stdpp Require Import relations.
From S2P Require Import Prelude JsString JsValue JsonParse Host Session HttpApi ApiContract Queries Shell Routes Loop.
From S2P Require Studio.

Local Open Scope string_scope.
Local Open Scope Z_scope.

(** ** The tab *)

Inductive Page : Type := LoginPage | AppPage.

(** A handler that awaits one call after another: what it does next depends on how the
    call before ended. *)
Inductive handler : Type :=
| Finish (o : outcome jsval)
| Then (c : ApiContract.call) (next : outcome jsval -> handler).

Inductive kind : Type :=
| KQuery (key : list jsval)
| KHandler
| KLogin
| KLogout.

Record flight := Flight { fl_kind : kind; fl_left : prog jsval }.

Record tab := Tab {
  tw : world;
  flights : gmap nat flight;
  next_flight : nat;
  page : Page;
  cache : list (list jsval * jsval);   (** newest first *)
  events : list happened
}.

Inductive act : Type :=
| Ask (key : list jsval) (c : ApiContract.call)   (** a page asks for data, or changes some *)
| Handle (h : handler)                            (** a button whose handler makes several calls *)
| SignIn (email password : string)                (** the login form *)
| SignOut                                         (** the logout button *)
| Open                                            (** the application is opened, or opened again *)
| Go                                              (** a link or the back button, to a page of the layout *)
| Reply (i : nat) (r : option response)
| Settle (i : nat)                                (** the promise of a call that has ended *)
| Wait (ms : Z).

Section tab.
Context `{Host} (BASE : string).

(** The try block of [handleSubmit] of login.tsx, up to the navigation. *)
Definition sign_in (email password : string) : prog jsval :=
  data ← login BASE email password;
  token ← js_prop data "token";
  user ← js_prop data "user";
  setAuth (js_string token) user;;
  mret data.

Fixpoint handler_prog (h : handler) : prog jsval :=
  match h with
  | Finish o => of_outcome o
  | Then c next => fold_leaves (perform BASE c) (fun o => handler_prog (next o))
  end.

Definition launch (k : kind) (p : prog jsval) (s : tab) : tab :=
  let '(q, w) := advance p (tw s) in
  Tab w (<[next_flight s := Flight k q]> (flights s)) (S (next_flight s)) (page s) (cache s)
    (events s ++ asked q).

(** A document that has just been loaded: nothing in flight, nothing cached. *)
Definition fresh (w : world) (p : Page) (n : nat) (h : list happened) : tab := Tab w ∅ n p [] h.

(** The browser has been told to load another document. *)
Definition left_page (w w' : world) : bool := (length (trace w) <? length (trace w'))%nat.

(** What the page does with a call that has ended: a query is cached, a sign-in goes to
    the application, and a logout, however it ends, to the login page without a session. *)
Definition settle (f : flight) (s : tab) : tab :=
  match fl_kind f, fl_left f with
  | KQuery key, Ret v => Tab (tw s) (flights s) (next_flight s) (page s) ((key, v) :: cache s) (events s)
  | KLogin, Ret _ => Tab (tw s) (flights s) (next_flight s) AppPage (cache s) (events s)
  | KLogout, _ => Tab (advance clearAuth (tw s)).2 (flights s) (next_flight s) LoginPage (cache s) (events s)
  | _, _ => s
  end.

Definition do (a : act) (s : tab) : option tab :=
  match a with
  | Ask key c => match page s with AppPage => Some (launch (KQuery key) (perform BASE c) s) | _ => None end
  | Handle h => match page s with AppPage => Some (launch KHandler (handler_prog h) s) | _ => None end
  | SignIn e p => match page s with LoginPage => Some (launch KLogin (sign_in e p) s) | _ => None end
  | SignOut => match page s with AppPage => Some (launch KLogout (void (logout BASE)) s) | _ => None end
  | Open =>
      let '(q, w) := advance beforeLoad (tw s) in
      Some (fresh w (match q with Ret None => AppPage | _ => LoginPage end) (next_flight s) (events s))
  | Go =>
      let '(q, w) := advance beforeLoad (tw s) in
      Some (Tab w (flights s) (next_flight s) (match q with Ret None => AppPage | _ => LoginPage end)
              (cache s) (events s))
  | Reply i r =>
      match flights s !! i with
      | Some (Flight k (Fetch rq c)) =>
          let '(q, w) := advance (c r) (tw s) in
          let h := (events s ++ Answered rq r :: asked q)%list in
          Some (if left_page (tw s) w then fresh w LoginPage (next_flight s) h
                else Tab w (<[i := Flight k q]> (flights s)) (next_flight s) (page s) (cache s) h)
      | _ => None
      end
  | Settle i =>
      match flights s !! i with
      | Some f =>
          if ended (fl_left f)
          then Some (settle f (Tab (tw s) (delete i (flights s)) (next_flight s) (page s) (cache s) (events s)))
          else None
      | None => None
      end
  | Wait ms =>
      if 0 <=? ms
      then Some (Tab (tick ms (tw s)) (flights s) (next_flight s) (page s) (cache s) (events s))
      else None
  end.

(** The handlers of the studio that ask again after an answer: [save], which writes the
    report and then loads the list, and [handleDeleteReport]. *)
Definition studio_save (st : Studio.StudioState) : handler :=
  Then (match some_text (Studio.reportId st) with
        | Some id => CUpdateReport id (JObj (Studio.report_body st))
        | None => CCreateReport (JObj (("project_id", jstr_opt (Studio.project st)) :: Studio.report_body st))
        end)
    (fun o => match o with
      | Ok v =>
          match some_text (Studio.reportId st), get_prop v "id" with
          | None, None => Finish (Ok JUndef)
          | _, _ => Then (CListReports (Studio.project st)) (fun _ => Finish (Ok JUndef))
          end
      | Err e => Finish (Ok JUndef)
      end).

Definition studio_delete (st : Studio.StudioState) : handler :=
  match some_text (Studio.reportId st) with
  | Some rid =>
      Then (CDeleteReport rid) (fun o => match o with
        | Ok _ => Then (CListReports (Studio.project st)) (fun _ => Finish (Ok JUndef))
        | Err e => Finish (Err e)
        end)
  | None => Finish (Ok JUndef)
  end.

Definition step (ok : act -> Prop) (s s' : tab) : Prop := exists a, ok a /\ do a s = Some s'.

Fixpoint acts (l : list act) (s : tab) : option tab :=
  match l with [] => Some s | a :: l' => s' ← do a s; acts l' s' end.
End tab.

(** What a query with the key [key] is shown. *)
Definition shown (s : tab) (key : list jsval) (v : jsval) : Prop :=
  exists key', In (key', v) (cache s) /\ same_key key' key.

(** They do to the world what the programs of [Studio] do, against any host. *)
Lemma loadList_world `{Host} BASE p w :
  (run (Studio.loadList BASE p) w).2 = (run (listReports BASE p) w).2.
Proof.
  unfold Studio.loadList. rewrite run_try_catch, run_bind. by destruct (run (listReports BASE p) w) as [[] ?].
Qed.

Lemma studio_save_world `{Host} BASE st w :
  (run (handler_prog BASE (studio_save st)) w).2 = (run (Studio.save BASE st) w).2.
Proof.
  unfold studio_save, Studio.save, Studio.save_write. cbn [handler_prog]. rewrite run_fold_leaves, run_try_catch, run_bind.
  destruct (some_text (Studio.reportId st)) as [id|]; cbn [perform]; unfold void; rewrite !run_bind.
  - destruct (run (updateReport BASE id _) w) as [[u | e] w1]; cbn [run mret prog_ret]; [| done].
    destruct (get_prop JUndef "id"); cbn [handler_prog perform]; rewrite run_fold_leaves, run_bind;
      pose proof (loadList_world BASE (Studio.project st) w1) as Hl;
      destruct (Studio.loadList_run BASE (Studio.project st) w1) as (us & w2 & E & _); rewrite E in Hl |- *;
      destruct (run (listReports _ _) w1) as [o w3]; cbn in Hl |- *; congruence.
  - destruct (run (createReport BASE _) w) as [[v | e] w1]; cbn [run mret prog_ret]; [| done].
    unfold js_prop. destruct (get_prop v "id") as [x|]; rewrite ?run_bind; cbn [run mret prog_ret handler_prog of_outcome];
      [| done]. cbn [perform]. rewrite run_fold_leaves, run_bind.
    pose proof (loadList_world BASE (Studio.project st) w1) as Hl.
    destruct (Studio.loadList_run BASE (Studio.project st) w1) as (us & w2 & E & _). rewrite E in Hl |- *.
    destruct (run (listReports _ _) w1) as [o w3]. cbn in Hl |- *. congruence.
Qed.

Lemma studio_delete_world `{Host} BASE st w :
  (run (handler_prog BASE (studio_delete st)) w).2 = (run (Studio.handleDeleteReport BASE true st) w).2.
Proof.
  unfold studio_delete, Studio.handleDeleteReport. destruct (some_text (Studio.reportId st)) as [id|]; [| done].
  cbn [handler_prog perform negb]. unfold void. rewrite run_fold_leaves, !run_bind.
  destruct (run (deleteReport BASE id) w) as [[u | e] w1]; cbn [run mret prog_ret handler_prog perform]; [| done].
  rewrite run_fold_leaves, run_bind.
  pose proof (loadList_world BASE (Studio.project st) w1) as Hl.
  destruct (Studio.loadList_run BASE (Studio.project st) w1) as (us & w2 & E & _). rewrite E in Hl |- *.
  destruct (run (listReports _ _) w1) as [o w3]. cbn in Hl |- *. congruence.
Qed.

(** ** What a call may do *)

Section flights.
Context `{Host} (BASE : string).
Implicit Types (s : tab).

(** The token an answer to the sign-in gives. *)
Definition given_token (r : option response) : option jsval :=
  match r with
  | Some res => if rs_ok res then data ← json_parse (rs_body res); get_prop data "token" else None
  | None => None
  end.

Definition login_request (email password : string) : request :=
  {| rq_url := BASE +:+ "/v1/auth/login"; rq_method := "POST"; rq_headers := json_headers;
     rq_body := Some (json_text (JObj [("email", JStr email); ("password", JStr password)])) |}.
Definition signs_in (rq : request) : Prop := exists email password, rq = login_request email password.

(** The world after an answer to a call: as it was, with the session of the sign-in, or
    without a session and on the way to the login page. *)
Inductive reaction (k : kind) (rq : request) (r : option response) (w : world) : world -> Prop :=
| reaction_none : reaction k rq r w w
| reaction_signed token user :
    k = KLogin -> signs_in rq -> given_token r = Some token ->
    reaction k rq r w (advance (setAuth (js_string token) user) w).2
| reaction_refused res :
    k <> KLogin -> r = Some res -> rs_status res = 401 ->
    reaction k rq r w (log (EvNavigate "/login") (cleared w)).

(** The credential of a request is the stored token. *)
Definition credential_of (w : world) (q : prog jsval) : Prop :=
  match q with
  | Fetch rq _ => forall v, header_get "Authorization" (rq_headers rq) = Some v ->
      exists x, some_text (storage w !! TOKEN_KEY) = Some x /\ v = "Bearer " +:+ x
  | _ => True
  end.

(** A call in flight: each answer makes one of these reactions and then ends the call or,
    in a handler, leads to the next request, with the token stored by then. *)
Inductive flight_ok (k : kind) : prog jsval -> Prop :=
| flight_ended q : ended q = true -> flight_ok k q
| flight_asks rq c :
    (forall r w, flight_ok k (advance (c r) w).1) ->
    (forall r w, let '(q, w') := advance (c r) w in
       (k <> KHandler -> ended q = true) /\ credential_of w' q /\ reaction k rq r w w') ->
    flight_ok k (Fetch rq c).

Lemma flight_asking k rq c :
  (forall r w, exists q w', advance (c r) w = (q, w') /\ flight_ok k q /\
     (k <> KHandler -> ended q = true) /\ credential_of w' q /\ reaction k rq r w w') ->
  flight_ok k (Fetch rq c).
Proof.
  intros Hc. apply flight_asks; intros r w; by destruct (Hc r w) as (q & w' & -> & ? & ?).
Qed.

Lemma credential_ended w q : ended q = true -> credential_of w q.
Proof. by destruct q. Qed.

(** A call, and then whatever is made of its outcome. *)
Lemma api_then_ok p k w (f : outcome jsval -> prog jsval) :
  api_call p -> k <> KLogin ->
  (forall o w, exists q, advance (f o) w = (q, w) /\ flight_ok k q /\
     (k <> KHandler -> ended q = true) /\ credential_of w q) ->
  exists q, advance (fold_leaves p f) w = (q, w) /\ flight_ok k q /\ credential_of w q.
Proof.
  intros (session & rq & [c Hc] & Hh) Hk Hf. destruct (Hc _ w) as [Hp _]. rewrite advance_fold_leaves, Hp.
  eexists. split_and!; [reflexivity | |].
  - apply flight_asking. intros r w'. destruct (Hc _ w) as [_ Hr]. specialize (Hr r w').
    rewrite advance_fold_leaves.
    destruct r as [res|].
    2: { rewrite Hr. destruct (Hf (Err network_error) w') as (q & -> & H1 & H2 & H3).
         eexists _, _. split_and!; [done.. | constructor]. }
    destruct (session && (rs_status res =? 401)) eqn:E.
    + apply andb_true_iff in E as [_ E%Z.eqb_eq]. rewrite Hr.
      destruct (Hf (Err (new_error "Unauthorized")) (log (EvNavigate "/login") (cleared w')))
        as (q & -> & H1 & H2 & H3).
      eexists _, _. split_and!; [done.. |]. by eapply reaction_refused.
    + destruct Hr as (q0 & -> & Hq).
      destruct q0 as [a|e| | | | | | | |]; try done;
        [destruct (Hf (Ok a) w') as (q & -> & H1 & H2 & H3) | destruct (Hf (Err e) w') as (q & -> & H1 & H2 & H3)];
        (eexists _, _; split_and!; [done.. | constructor]).
  - intros v Hv. destruct (Hh _ _ Hv) as (_ & x & Hx & ->). by exists x.
Qed.

Lemma api_call_ok p k w :
  api_call p -> k <> KLogin ->
  exists q, advance p w = (q, w) /\ flight_ok k q /\ credential_of w q.
Proof.
  intros (session & rq & [c Hc] & Hh) Hk. destruct (Hc _ w) as [Hp _]. rewrite Hp.
  eexists. split_and!; [done | |].
  - apply flight_asking. intros r w'. destruct (Hc _ w) as [_ Hr]. specialize (Hr r w').
    destruct r as [res|]; [| by eexists _, _; split_and!; [done | by constructor | done | done | constructor]].
    destruct (session && (rs_status res =? 401)) eqn:E.
    + apply andb_true_iff in E as [_ E%Z.eqb_eq]. eexists _, _.
      split_and!; [done | by constructor | done | done |]. by eapply reaction_refused.
    + destruct Hr as (q & -> & Hq). eexists _, _.
      split_and!; [done | by constructor | done | by apply credential_ended | constructor].
  - intros v Hv. destruct (Hh _ _ Hv) as (_ & x & Hx & ->). by exists x.
Qed.

Lemma handler_ok h w :
  exists q, advance (handler_prog BASE h) w = (q, w) /\ flight_ok KHandler q /\ credential_of w q.
Proof.
  revert w. induction h as [o | c next IH]; intros w; cbn [handler_prog].
  - exists (of_outcome o). rewrite advance_of_outcome. by destruct o; split_and!; try done; constructor.
  - apply api_then_ok; [apply perform_api_call | done |]. intros o w'.
    destruct (IH o w') as (q & -> & H1 & H2). by exists q.
Qed.

(** The sign-in, after its answer. *)
Definition after_login (r : option response) : prog jsval :=
  data ← (res ← (match r with Some x => Ret x | None => Throw network_error end);
          if negb (rs_ok res) then Throw (new_error "Invalid credentials") else res_json res);
  token ← js_prop data "token";
  user ← js_prop data "user";
  setAuth (js_string token) user;;
  mret data.

Lemma sign_in_advance email password w :
  advance (sign_in BASE email password) w = (Fetch (login_request email password) after_login, w).
Proof. done. Qed.

Lemma after_login_advance rq r w :
  signs_in rq ->
  exists q w', advance (after_login r) w = (q, w') /\ ended q = true /\ reaction KLogin rq r w w'.
Proof.
  intros Hrq. unfold after_login. rewrite advance_bind, advance_bind.
  destruct r as [res|]; cbn [advance]; [| by eexists _, _; split_and!; [done | done | constructor]].
  destruct (rs_ok res) eqn:Eo; cbn [negb advance]; [| by eexists _, _; split_and!; [done | done | constructor]].
  unfold res_json. destruct (json_parse (rs_body res)) as [data|] eqn:Ej; cbn [advance];
    [| by eexists _, _; split_and!; [done | done | constructor]].
  unfold js_prop. rewrite advance_bind. destruct (get_prop data "token") as [t|] eqn:Et; cbn [advance];
    [| by eexists _, _; split_and!; [done | done | constructor]].
  rewrite advance_bind. destruct (get_prop data "user") as [u|]; cbn [advance];
    [| by eexists _, _; split_and!; [done | done | constructor]].
  rewrite advance_bind. eexists _, _. split_and!; [done | done |].
  apply (reaction_signed KLogin rq (Some res) w t u); [done | done |]. unfold given_token. by rewrite Eo, Ej.
Qed.

Lemma sign_in_ok email password w :
  exists q, advance (sign_in BASE email password) w = (q, w) /\ flight_ok KLogin q /\ credential_of w q.
Proof.
  rewrite sign_in_advance. eexists. split_and!; [done | | done].
  apply flight_asking. intros r w'.
  destruct (after_login_advance (login_request email password) r w') as (q & w2 & Ha & Hq & Hr);
    [by exists email, password |].
  eexists _, _. split_and!; [exact Ha | by constructor | done | by apply credential_ended | exact Hr].
Qed.
End flights.

(** ** The steps *)

Section steps.
Context `{Host} (BASE : string).
Implicit Types (s : tab).

Definition signs (a : act) : Prop := match a with SignIn _ _ => True | _ => False end.

(** The guard, in one go. *)
Definition guarded (w : world) : option string * world :=
  match advance beforeLoad w with (Ret o, w') => (o, w') | (_, w') => (Some "/login", w') end.

Inductive moves (a : act) s : tab -> Prop :=
| moves_launch k q :
    flight_ok BASE k q -> credential_of (tw s) q -> (k = KLogin -> signs a) ->
    (k <> KLogin -> page s = AppPage) ->
    moves a s (Tab (tw s) (<[next_flight s := Flight k q]> (flights s)) (S (next_flight s)) (page s)
                 (cache s) (events s ++ asked q))
| moves_stay i k rq c r q w :
    flights s !! i = Some (Flight k (Fetch rq c)) -> flight_ok BASE k q ->
    (k <> KHandler -> ended q = true) -> credential_of w q -> reaction BASE k rq r (tw s) w ->
    left_page (tw s) w = false ->
    moves a s (Tab w (<[i := Flight k q]> (flights s)) (next_flight s) (page s) (cache s)
                 (events s ++ Answered rq r :: asked q))
| moves_leave i k rq c r q w :
    flights s !! i = Some (Flight k (Fetch rq c)) -> (k <> KHandler -> ended q = true) ->
    credential_of w q -> reaction BASE k rq r (tw s) w -> left_page (tw s) w = true ->
    moves a s (fresh w LoginPage (next_flight s) (events s ++ Answered rq r :: asked q))
| moves_settle i f :
    flights s !! i = Some f -> ended (fl_left f) = true ->
    moves a s (settle f (Tab (tw s) (delete i (flights s)) (next_flight s) (page s) (cache s) (events s)))
| moves_open :
    moves a s (fresh (guarded (tw s)).2
                 (match (guarded (tw s)).1 with None => AppPage | Some _ => LoginPage end)
                 (next_flight s) (events s))
| moves_go :
    moves a s (Tab (guarded (tw s)).2 (flights s) (next_flight s)
                 (match (guarded (tw s)).1 with None => AppPage | Some _ => LoginPage end)
                 (cache s) (events s))
| moves_wait ms :
    moves a s (Tab (tick ms (tw s)) (flights s) (next_flight s) (page s) (cache s) (events s)).

Definition flights_ok s : Prop := map_Forall (fun _ f => flight_ok BASE (fl_kind f) (fl_left f)) (flights s).

Lemma tab_do_moves a s s' : flights_ok s -> do BASE a s = Some s' -> moves a s s'.
Proof.
  intros Hs. destruct a as [key c|h|e p| | | |i r|i|ms]; cbn [do].
  - destruct (page s) eqn:Ep; [done |]. intros [= <-]. unfold launch.
    destruct (api_call_ok BASE _ (KQuery key) (tw s) (perform_api_call BASE c) ltac:(done)) as (q & -> & Hq & Hc).
    by apply moves_launch.
  - destruct (page s) eqn:Ep; [done |]. intros [= <-]. unfold launch.
    destruct (handler_ok BASE h (tw s)) as (q & -> & Hq & Hc). by apply moves_launch.
  - destruct (page s) eqn:Ep; [| done]. intros [= <-]. unfold launch.
    destruct (sign_in_ok BASE e p (tw s)) as (q & -> & Hq & Hc). by apply moves_launch.
  - destruct (page s) eqn:Ep; [done |]. intros [= <-]. unfold launch.
    destruct (api_call_ok BASE _ KLogout (tw s) (perform_api_call BASE CLogout) ltac:(done)) as (q & Hl & Hq & Hc).
    cbn [perform] in Hl. rewrite Hl. by apply moves_launch.
  - pose proof (moves_open Open s) as Hm. unfold guarded in Hm.
    pose proof (advance_at_rest beforeLoad (tw s)) as Hr.
    destruct (advance beforeLoad (tw s)) as [[o|e| | | | | | | |] w]; try done; by intros [= <-].
  - pose proof (moves_go Go s) as Hm. unfold guarded in Hm.
    pose proof (advance_at_rest beforeLoad (tw s)) as Hr.
    destruct (advance beforeLoad (tw s)) as [[o|e| | | | | | | |] w]; try done; by intros [= <-].
  - destruct (flights s !! i) as [[k q0]|] eqn:Ei; [| done]. destruct q0 as [| |rq c| | | | | | |]; try done.
    pose proof (Hs i _ Ei) as Hok. cbn in Hok. inversion Hok as [|rq' c' Hf Hc]; simplify_eq/=.
    specialize (Hf r (tw s)). specialize (Hc r (tw s)). destruct (advance (c r) (tw s)) as [q w].
    cbn [fst] in Hf. destruct Hc as (Hend & Hcr & Hre). intros [= <-].
    destruct (left_page (tw s) w) eqn:El; [by eapply moves_leave | by eapply moves_stay].
  - destruct (flights s !! i) as [f|] eqn:Ei; [| done]. destruct (ended (fl_left f)) eqn:Ef; [| done].
    intros [= <-]. by eapply moves_settle.
  - destruct (0 <=? ms); [| done]. intros [= <-]. by constructor.
Qed.

Lemma moves_flights_ok a s s' : moves a s s' -> flights_ok s -> flights_ok s'.
Proof.
  unfold flights_ok. intros Hm Hs.
  destruct Hm as [k q Hq _ _ _ | i k rq c r q w Hi Hq _ _ _ _ | i k rq c r q w _ _ _ _ _ | i f Hi Hf | | | ms];
    cbn [flights fresh]; try apply map_Forall_empty; try done.
  - by apply map_Forall_insert_2.
  - by apply map_Forall_insert_2.
  - assert (map_Forall (fun _ f => flight_ok BASE (fl_kind f) (fl_left f)) (delete i (flights s)))
      as Hd by by apply map_Forall_delete.
    unfold settle. by destruct (fl_kind f), (fl_left f).
Qed.

(** An invariant of the moves holds wherever the tab gets. *)
Lemma tab_invariant (ok : act -> Prop) (P : tab -> Prop) s s' :
  (forall a s1 s2, ok a -> moves a s1 s2 -> P s1 -> P s2) ->
  flights_ok s -> P s -> rtc (step BASE ok) s s' -> flights_ok s' /\ P s'.
Proof.
  intros HP Hc Hs Hr. induction Hr as [| s s1 s' (a & Ha & Hdo) Hr IH]; [done |].
  pose proof (tab_do_moves a s s1 Hc Hdo) as Hm. apply IH; [by eapply moves_flights_ok | by eapply HP].
Qed.

(** The guard of the layout, as in [Routes]. *)
Lemma guarded_eq w : guarded w = (if signed_in w then None else Some "/login", after_guard w).
Proof.
  unfold guarded. rewrite sync_advance; rewrite beforeLoad_run; [done |]. cbn [snd].
  unfold after_guard. destruct (some_text _); [| done]. by destruct (expired w).
Qed.

Lemma after_guard_token w : storage (after_guard w) !! TOKEN_KEY = storage w !! TOKEN_KEY \/
  storage (after_guard w) !! TOKEN_KEY = None.
Proof.
  unfold after_guard. destruct (some_text _); [| by left]. destruct (expired w); [| by left].
  right. by destruct (cleared_lookup w).
Qed.

Lemma advance_clearAuth w : advance clearAuth w = (Ret tt, cleared w).
Proof. done. Qed.

Lemma cleared_token w : storage (cleared w) !! TOKEN_KEY = None.
Proof. by destruct (cleared_lookup w). Qed.

Lemma setAuth_token t u w : storage (advance (setAuth t u) w).2 !! TOKEN_KEY = Some t.
Proof.
  cbn. by rewrite lookup_insert_ne, lookup_insert_eq by done.
Qed.
End steps.

(** ** Properties *)

Section properties.
Context `{Host} (BASE : string).
Implicit Types (s : tab) (h : list happened).

Definition opened s : Prop := flights s = ∅ /\ events s = [] /\ cache s = [].

(** The tokens the tab has come to know: the stored one, and those of the sign-ins. *)
Definition known (initial : option string) h (x : string) : Prop :=
  initial = Some x \/
  exists rq r token, In (Answered rq r) h /\ signs_in BASE rq /\ given_token r = Some token /\
    x = js_string token.

Definition credentials (initial : option string) s : Prop :=
  (forall x, storage (tw s) !! TOKEN_KEY = Some x -> known initial (events s) x) /\
  sound_by (known initial) (events s).

Lemma tab_known_app initial h h' x : known initial h x -> known initial (h ++ h')%list x.
Proof.
  intros [-> | (rq & r & t & Hin & ?)]; [by left |]. right. exists rq, r, t.
  by split; [apply in_or_app; left |].
Qed.

(** After an answer: what is stored is known. *)
Lemma reaction_token initial k rq r w w' h :
  reaction BASE k rq r w w' ->
  (forall x, storage w !! TOKEN_KEY = Some x -> known initial h x) ->
  forall x, storage w' !! TOKEN_KEY = Some x -> known initial (h ++ [Answered rq r])%list x.
Proof.
  intros Hre Hk x. destruct Hre as [| token user -> Hs Hg | res _ _ _].
  - intros Hx. by apply tab_known_app, Hk.
  - rewrite setAuth_token. intros [= <-]. right. exists rq, r, token.
    split_and!; [apply in_or_app; by right; left | done..].
  - cbn [log storage]. by rewrite cleared_token.
Qed.

Lemma answer_split h e l : (h ++ e :: l)%list = ((h ++ [e]) ++ l)%list.
Proof. by rewrite <- app_assoc. Qed.

Lemma stored_known w q initial h rq c v :
  credential_of w q -> q = Fetch rq c -> (forall x, storage w !! TOKEN_KEY = Some x -> known initial h x) ->
  header_get "Authorization" (rq_headers rq) = Some v -> exists x, v = "Bearer " +:+ x /\ known initial h x.
Proof.
  intros Hc -> Hk Hv. destruct (Hc v Hv) as (x & Hx & ->). exists x. split; [done |]. apply Hk.
  unfold some_text in Hx. repeat case_match; congruence.
Qed.

(** What is asked next, after the history [h]. *)
Lemma sound_asked initial h w q :
  sound_by (known initial) h -> credential_of w q ->
  (forall x, storage w !! TOKEN_KEY = Some x -> known initial h x) ->
  sound_by (known initial) (h ++ asked q)%list.
Proof.
  intros Hs Hc Hk. destruct (asked_cases q) as [-> | (rq & -> & c & Hq)]; [by rewrite app_nil_r |].
  apply sound_by_snoc; [done |]. intros rq' v [= <-] Hv. by eapply stored_known.
Qed.

Lemma sound_answer initial h k rq r w w' q :
  sound_by (known initial) h -> (forall x, storage w !! TOKEN_KEY = Some x -> known initial h x) ->
  reaction BASE k rq r w w' -> credential_of w' q ->
  sound_by (known initial) (h ++ Answered rq r :: asked q)%list.
Proof.
  intros Hs Hk Hre Hc. rewrite answer_split. apply (sound_asked _ _ w'); [by apply sound_by_snoc | done |]. by eapply reaction_token.
Qed.

Lemma answer_known initial h k rq r w w' (q : prog jsval) :
  (forall x, storage w !! TOKEN_KEY = Some x -> known initial h x) -> reaction BASE k rq r w w' ->
  forall x, storage w' !! TOKEN_KEY = Some x -> known initial (h ++ Answered rq r :: asked q)%list x.
Proof.
  intros Hk Hre x Hx. rewrite answer_split. apply tab_known_app. by eapply reaction_token.
Qed.

Lemma settle_token f s : storage (tw (settle f s)) !! TOKEN_KEY = storage (tw s) !! TOKEN_KEY \/
  storage (tw (settle f s)) !! TOKEN_KEY = None.
Proof.
  unfold settle. destruct (fl_kind f), (fl_left f); try (by left);
    right; cbn [tw]; rewrite advance_clearAuth; apply cleared_token.
Qed.




Lemma settle_events f s : events (settle f s) = events s.
Proof. unfold settle. by destruct (fl_kind f), (fl_left f). Qed.

Lemma tab_credentials_moves initial a s s' : moves BASE a s s' -> credentials initial s -> credentials initial s'.
Proof.
  intros Hm [Hk Hs]. unfold credentials.
  destruct Hm as [k q Hq Hc _ _ | i k rq c r q w Hi Hq _ Hc Hre _ | i k rq c r q w _ _ Hc Hre _ | i f Hi Hf | | | ms];
    cbn [tw events fresh].
  - split; [intros x Hx; by apply tab_known_app, Hk | by apply (sound_asked _ _ (tw s))].
  - split; [by eapply answer_known | by eapply sound_answer].
  - split; [by eapply answer_known | by eapply sound_answer].
  - rewrite settle_events. cbn [events]. split; [| done]. intros x Hx.
    match type of Hx with context [settle f ?t] => destruct (settle_token f t) as [E | E] end;
      rewrite E in Hx; [by apply Hk | done].
  - rewrite guarded_eq. cbn [snd]. split; [| done]. intros x Hx.
    destruct (after_guard_token (tw s)) as [E | E]; rewrite E in Hx; [by apply Hk | done].
  - rewrite guarded_eq. cbn [snd]. split; [| done]. intros x Hx.
    destruct (after_guard_token (tw s)) as [E | E]; rewrite E in Hx; [by apply Hk | done].
  - done.
Qed.

Lemma opened_flights_ok s : opened s -> flights_ok BASE s.
Proof. intros (Hf & _). unfold flights_ok. rewrite Hf. apply map_Forall_empty. Qed.

(** C8 The credentials of the tab: however the calls, sign-ins, logouts and reloads
    interleave, and whatever the server answers, a request carries a token only if it was
    stored when the tab was opened or given by an earlier answer to a sign-in. *)
Theorem tab_credentials s s' :
  opened s -> rtc (step BASE (fun _ => True)) s s' ->
  sound_by (known (storage (tw s) !! TOKEN_KEY)) (events s').
Proof.
  intros Ho Hr. eapply (tab_invariant BASE _ (credentials (storage (tw s) !! TOKEN_KEY)) s s');
    [| by apply opened_flights_ok | | done].
  - intros a s1 s2 _ Hm. by apply (tab_credentials_moves _ a s1).
  - unfold credentials. destruct Ho as (_ & -> & _). split; [by left | apply sound_by_nil].
Qed.








End properties.

(** ** Demonstrations *)

Lemma tab_acts_rtc `{Host} BASE l s s' : acts BASE l s = Some s' -> rtc (step BASE (fun _ => True)) s s'.
Proof.
  revert s. induction l as [|a l IH]; intros s; cbn [acts]; [by intros [= ->] |].
  destruct (do BASE a s) as [s1|] eqn:E; [| done]. intros Hl.
  eapply rtc_l; [by exists a | by apply IH].
Qed.

Definition new_tab : tab := fresh (World ∅ 1000000 0 []) LoginPage 0 [].

Definition login_answer (token : string) : option response :=
  Some (Response 200 (json_text (JObj [("token", JStr token);
    ("user", JObj [("id", JStr token); ("name", JStr token)])]))).
Definition projects_answer (name : string) : option response :=
  Some (Response 200 (json_text (JObj [("data", JArr [JObj [("name", JStr name)]])]))).

Definition projects : list jsval := q_key (useProjects "").

(** Ada signs in; she looks at her projects; she logs out while another call of hers is in
    flight; Bob signs in, in the same tab. *)
Definition ada : list act :=
  [SignIn "ada@x" "pw"; Reply 0 (login_answer "ada"); Settle 0;
   Ask projects CListProjects; Reply 1 (projects_answer "secret"); Settle 1;
   Ask projects CListProjects; SignOut; Reply 3 (Some (Response 204 "")); Settle 3].
Definition bob : list act := [SignIn "bob@x" "pw"; Reply 4 (login_answer "bob"); Settle 4].

(** The token, the page, and the cached projects. *)
Definition seen (s : option tab) : option (option string * Page * list jsval) :=
  (fun s => (storage (tw s) !! TOKEN_KEY, page s, List.map snd (cache s))) <$> s.

(** The logout keeps the cache: Bob, who has asked for nothing, is shown the projects
    cached for Ada, since the key of a query does not name the user.  And the answer to a
    call of Ada's, when it is 401, signs Bob out. *)
Theorem cache_outlives_session `{Host} :
  let secret := JArr [JObj [("name", JStr "secret")]] in
  seen (acts "" ada new_tab) = Some (None, LoginPage, [secret]) /\
  seen (acts "" (ada ++ bob) new_tab) = Some (Some "bob", AppPage, [secret]) /\
  seen (acts "" (ada ++ bob ++ [Reply 2 (Some (Response 401 "{}"))]) new_tab) = Some (None, LoginPage, []) /\
  (forall s, acts "" (ada ++ bob) new_tab = Some s -> shown s projects secret).
Proof.
  cbn zeta. assert (seen (acts "" (ada ++ bob) new_tab) =
    Some (Some "bob", AppPage, [JArr [JObj [("name", JStr "secret")]]])) as Hab by (vm_compute; reflexivity).
  split_and!; [vm_compute; reflexivity | exact Hab | vm_compute; reflexivity |].
  intros s Hs. assert (cache s = [(projects, JArr [JObj [("name", JStr "secret")]])]) as Hc.
  { assert (cache <$> acts "" (ada ++ bob) new_tab = Some [(projects, JArr [JObj [("name", JStr "secret")]])])
      as E by (vm_compute; reflexivity). rewrite Hs in E. by injection E. }
  exists projects. rewrite Hc. split; [by left | done].
Qed.


(** A run that can be made makes the tab it makes. *)
Lemma some_default {A} (d : A) (o : option A) :
  match o with Some _ => true | None => false end = true -> o = Some (default d o).
Proof. by destruct o. Qed.

Definition demo_bob : tab := default new_tab (acts (H := demo_host) "" (ada ++ bob) new_tab).

Lemma tab_credentials_witness :
  opened new_tab /\ acts (H := demo_host) "" (ada ++ bob) new_tab = Some demo_bob /\
  sound_by (known "" None) (events demo_bob).
Proof.
  assert (opened new_tab) as Ho by (split; [reflexivity | split; reflexivity]).
  assert (acts (H := demo_host) "" (ada ++ bob) new_tab = Some demo_bob) as Hs
    by (apply some_default; vm_compute; reflexivity).
  split; [exact Ho | split; [exact Hs |]].
  exact (@tab_credentials demo_host "" new_tab demo_bob Ho (tab_acts_rtc "" (ada ++ bob) _ _ Hs)).
Defined.







