(* ===== verification/MockApp.v ===== *)
(** * The mock application (mock-app)

    An Express server with the Node SDK installed (server.js) and the scripts that send
    it requests (scenarios).  Express is a class: how it matches a path, what its body
    parser gives, what it answers when no route does; its laws are what its documentation
    says of plain paths and of JSON bodies.  The console is left out. *)

From S2P Require Import Prelude JsString JsValue JsonParse Dates Host Transport NodeSdk.

Local Open Scope string_scope.
Local Open Scope Z_scope.

(** ** The environment *)

(** [process.env.K || d] *)
Definition env_or (env : string -> option string) (k d : string) : string :=
  match env k with Some v => if str_truthy v then v else d | None => d end.

(** [parseInt(s, 10)]; [None] is [NaN]. *)
Definition parseInt (s : string) : option Z :=
  let '(neg, t) := match trim_left s with
                   | String "-" t => (true, t) | String "+" t => (false, t) | t => (false, t) end in
  n ← parse_digits (span_s is_digit t).1;
  Some (if neg : bool then - n else n).

(** ** Answers *)

(** What is given to [res.json], when it is called; [JUndef] also stands for a function,
    of which JSON has no text either. *)
Record answer := { an_status : Z; an_json : option jsval }.

Definition json (v : jsval) : outcome answer := Ok {| an_status := 200; an_json := Some v |}.
Definition status_json (s : Z) (v : jsval) : outcome answer := Ok {| an_status := s; an_json := Some v |}.
Definition status_send (s : Z) : outcome answer := Ok {| an_status := s; an_json := None |}.

(** ** Express *)

(** A path in the form the routes are written in. *)
Definition plain_char (a : ascii) : bool :=
  ascii_in 97 122 a || ascii_in 48 57 a || Ascii.eqb a "/" || Ascii.eqb a "_" || Ascii.eqb a "-".
Definition plain_path (path : string) : bool :=
  starts_with path "/" && all_chars plain_char path && negb (ends_with path "/").

(** A pattern against a path, by segments. *)
Fixpoint match_segments (pattern path : list string) : option obj :=
  match pattern, path with
  | [], [] => Some []
  | String ":" name :: pattern', s :: path' =>
      if String.eqb s "" then None
      else rest ← match_segments pattern' path'; Some ((name, JStr s) :: rest)
  | p :: pattern', s :: path' => if String.eqb p s then match_segments pattern' path' else None
  | _, _ => None
  end.

Definition is_body (v : option jsval) : bool :=
  match v with Some (JObj _) | Some (JArr _) => true | _ => false end.

Class Express := {
  match_path : string -> string -> option obj;
  express_json : obj -> option string -> outcome jsval;    (** [express.json()], from the headers and the body *)
  unrouted : string -> string -> answer;
  match_plain pattern path : plain_path path = true ->
    match_path pattern path = match_segments (split_on "/" pattern) (split_on "/" path);
  json_none headers : express_json headers None = Ok (JObj []);
  json_body headers text : obj_get "content-type" headers = JStr "application/json" ->
    (0 < String.length text <= 1000)%nat -> is_body (json_parse text) = true ->
    express_json headers (Some text) = Ok (default JUndef (json_parse text));
  json_refused headers text : obj_get "content-type" headers = JStr "application/json" ->
    (0 < String.length text)%nat -> is_body (json_parse text) = false ->
    exists name msg, express_json headers (Some text) = Err (JSError name msg)
}.

(** ** server.js *)

Section server.
Context (env : string -> option string).

Definition server_apiKey : string := env_or env "API_KEY" "bat_demo_key".
Definition server_writerUrl : string := env_or env "WRITER_URL" "http://localhost:8081".

(** [req.headers[k] || d], for a header, which is a string when it is there. *)
Definition header_or (headers : obj) (k : string) (d : option string) : option string :=
  match obj_get k headers with JStr v => if str_truthy v then Some v else d | _ => d end.

(** The function given as [getUser]. *)
Definition getUser (headers : obj) : BatAuditRequestData :=
  {| identifier := header_or headers "x-user-id" (Some "anonymous");
     userEmail := header_or headers "x-user-email" None;
     userName := header_or headers "x-user-name" None;
     userRoles := None; userType := None; tenantId := None |}.

(** The argument of [createExpressMiddleware]: a configuration, and [getUser], which is no
    member of one ([BatAuditConfig]) and which the middleware does not read. *)
Record middleware_argument := {
  ma_config : BatAuditConfig;
  ma_getUser : obj -> BatAuditRequestData
}.

Definition middleware_options : middleware_argument := {|
  ma_config := {| apiKey := server_apiKey; serviceName := "mock-app"; writerUrl := server_writerUrl;
                  environment := Absent; captureBody := Absent; captureResponseBody := Absent |};
  ma_getUser := getUser |}.
End server.

(** *** The routes *)

Definition handler : Type := obj -> jsval -> outcome answer.

Definition alice : jsval := JObj [("id", JStr "usr_001"); ("name", JStr "Alice")].
Definition bob : jsval := JObj [("id", JStr "usr_002"); ("name", JStr "Bob")].

(** The own members of a value, as a spread sees them. *)
Definition members (v : jsval) : obj :=
  match v with
  | JObj o => o
  | JArr l => imap (fun i x => (string_of_Z (Z.of_nat i), x)) l
  | _ => []
  end.

(** [users[id]]; [None] is [undefined]. *)
Definition user_at (id : string) : option jsval :=
  match assoc id [("usr_001", alice); ("usr_002", bob)] with
  | Some u => Some u
  | None => if String.eqb id "__proto__" then Some (JObj [])
            else if existsb (String.eqb id) object_prototype then Some JUndef else None
  end.

Definition get_health : handler := fun _ _ => json (JObj [("status", JStr "ok")]).
Definition get_users : handler := fun _ _ => json (JArr [alice; bob]).
Definition get_user : handler := fun params _ =>
  match user_at (js_string (obj_get "id" params)) with
  | None => status_json 404 (JObj [("error", JStr "User not found")])
  | Some user => json user
  end.
Definition post_users : handler := fun _ body =>
  status_json 201 (JObj (spread [("id", JStr "usr_new")] (members body))).
Definition put_user : handler := fun params body =>
  json (JObj (spread [("id", obj_get "id" params)] (members body))).
Definition delete_user : handler := fun _ _ => status_send 204.
Definition post_login : handler := fun _ body =>
  match get_prop body "password" with
  | None => Err (type_error "password")
  | Some (JStr "wrong") => status_json 401 (JObj [("error", JStr "Invalid credentials")])
  | Some _ => json (JObj [("token", JStr "mock-jwt-token"); ("userId", JStr "usr_001")])
  end.
Definition get_orders : handler := fun _ _ =>
  json (JArr [JObj [("id", JStr "ord_001"); ("total", JNum (Num 9999 2))]]).
Definition post_orders : handler := fun _ _ =>
  status_json 201 (JObj [("id", JStr "ord_new"); ("status", JStr "pending")]).
Definition get_crash : handler := fun _ _ => Err (new_error "Intentional crash for testing").

Definition routes : list (string * string * handler) := [
  ("GET", "/health", get_health);
  ("GET", "/users", get_users);
  ("GET", "/users/:id", get_user);
  ("POST", "/users", post_users);
  ("PUT", "/users/:id", put_user);
  ("DELETE", "/users/:id", delete_user);
  ("POST", "/login", post_login);
  ("GET", "/orders", get_orders);
  ("POST", "/orders", post_orders);
  ("GET", "/crash", get_crash)].

Definition error_handler (err : thrown) : answer :=
  {| an_status := 500;
     an_json := Some (JObj [("error", match err with
                                      | JSError _ m => JStr m
                                      | JSValue v => default JUndef (get_prop v "message") end)]) |}.

(** The first route that matches, with its parameters. *)
Fixpoint find_route (matcher : string -> string -> option obj) (method path : string)
    (l : list (string * string * handler)) : option (obj * handler) :=
  match l with
  | [] => None
  | (m, pattern, h) :: l' =>
      if String.eqb m method
      then match matcher pattern path with
           | Some params => Some (params, h)
           | None => find_route matcher method path l'
           end
      else find_route matcher method path l'
  end.

(** A handler's answer, or that of the error handler. *)
Definition caught (o : outcome answer) : answer := match o with Ok a => a | Err e => error_handler e end.

(** *** A request through the server *)

Record incoming := {
  h_method : string;
  h_path : string;
  h_headers : obj;
  h_query : obj;
  h_body : option string;
  h_ip : option string
}.

Section serve.
Context `{Express} (env : string -> option string).

Definition dispatch (r : incoming) (body : jsval) : obj * answer :=
  match find_route match_path (h_method r) (h_path r) routes with
  | Some (params, h) => (params, caught (h params body))
  | None => ([], unrouted (h_method r) (h_path r))
  end.

(** The request as the middleware holds it; nothing sets [req.bataudit]. *)
Definition express_request (r : incoming) (body : jsval) (params : obj) : ExpressRequest :=
  {| er_method := h_method r; er_path := h_path r; er_headers := h_headers r; er_query := h_query r;
     er_params := params; er_body := body; er_ip := h_ip r; er_socket := None; er_bataudit := None |}.

(** [express.json()], then the middleware, then the routes and the error handler: the
    answer, and the events given to [client.send]. *)
Definition serve (r : incoming) : prog (answer * list obj) :=
  let config := ma_config (middleware_options env) in
  match express_json (h_headers r) (h_body r) with
  | Err e => mret (error_handler e, [])
  | Ok body =>
      '(cl, _) ← express_enter config (express_request r body []);
      let '(params, a) := dispatch r body in
      let cl' := (express_jsons cl (option_list (an_json a))).1 in
      event ← express_finish config cl' (express_request r body params) (an_status a);
      mret (a, [event])
  end.

(** The answer alone. *)
Definition answer_to (r : incoming) : answer :=
  match express_json (h_headers r) (h_body r) with
  | Err e => error_handler e
  | Ok body => (dispatch r body).2
  end.
End serve.

(** ** The scenarios *)

(** [for (const x of l) ...], with what the body gives. *)
Fixpoint for_each {A B} (f : A -> prog B) (l : list A) : prog (list B) :=
  match l with
  | [] => mret []
  | x :: l' => y ← f x; ys ← for_each f l'; mret (y :: ys)
  end.

Record scenario_request := { sr_method : string; sr_path : string; sr_body : option jsval }.

Definition sr (m p : string) : scenario_request := {| sr_method := m; sr_path := p; sr_body := None |}.
Definition sr_with (m p : string) (body : obj) : scenario_request :=
  {| sr_method := m; sr_path := p; sr_body := Some (JObj body) |}.

(** The request of a script, with the headers of its user. *)
Definition request_of (BASE : string) (headers : list (string * string)) (r : scenario_request) : request :=
  {| rq_url := BASE +:+ sr_path r; rq_method := sr_method r; rq_headers := headers;
     rq_body := json_text <$> sr_body r |}.

(** *** normal.js: a failure of the network ends the script. *)

Definition normal_requests : list scenario_request := [
  sr "GET" "/health";
  sr "GET" "/users";
  sr "GET" "/users/usr_001";
  sr_with "POST" "/users" [("name", JStr "Charlie"); ("email", JStr "charlie@test.com")];
  sr_with "PUT" "/users/usr_001" [("name", JStr "Alice Updated")];
  sr "DELETE" "/users/usr_002";
  sr "GET" "/orders";
  sr_with "POST" "/orders" [("product", JStr "SKU-001"); ("qty", JInt 2)]].

Definition normal_headers : list (string * string) :=
  [("Content-Type", "application/json"); ("X-User-Id", "usr_001"); ("X-User-Email", "alice@acme.com")].

Definition normal_run (BASE : string) : prog (list Z) :=
  for_each (fun r => res ← fetch (request_of BASE normal_headers r); mret (rs_status res)) normal_requests.

(** *** errors.js: a failure of the network is caught; [None] is its line. *)

Definition errors_requests : list scenario_request := [
  sr "GET" "/users/not-found-id";
  sr "GET" "/users/also-not-found";
  sr_with "POST" "/login" [("email", JStr "x@x.com"); ("password", JStr "wrong")];
  sr_with "POST" "/login" [("email", JStr "y@y.com"); ("password", JStr "wrong")];
  sr "GET" "/crash";
  sr "GET" "/crash";
  sr "GET" "/crash"].

Definition errors_headers : list (string * string) :=
  [("Content-Type", "application/json"); ("X-User-Id", "usr_002")].

Definition errors_one (BASE : string) (r : scenario_request) : prog (option Z) :=
  try_catch (res ← fetch (request_of BASE errors_headers r); mret (Some (rs_status res))) (fun _ => mret None).

Definition errors_run (BASE : string) : prog (list (option Z)) :=
  for_each (errors_one BASE) errors_requests.

(** *** users.js: every user asks for every path. *)

Record mock_user := { mu_id : string; mu_email : string; mu_name : string; mu_roles : list string }.

Definition mock_users : list mock_user := [
  {| mu_id := "usr_001"; mu_email := "alice@acme.com"; mu_name := "Alice"; mu_roles := ["admin"; "viewer"] |};
  {| mu_id := "usr_002"; mu_email := "bob@acme.com"; mu_name := "Bob"; mu_roles := ["viewer"] |};
  {| mu_id := "usr_003"; mu_email := "carol@acme.com"; mu_name := "Carol"; mu_roles := ["editor"] |};
  {| mu_id := "usr_004"; mu_email := "dave@partner.io"; mu_name := "Dave"; mu_roles := ["viewer"] |};
  {| mu_id := "svc_001"; mu_email := "service@internal"; mu_name := "Service"; mu_roles := ["service-account"] |}].

Definition user_paths : list string := ["/users"; "/users/usr_001"; "/orders"; "/health"].

Definition user_headers (u : mock_user) : list (string * string) :=
  [("X-User-Id", mu_id u); ("X-User-Email", mu_email u); ("X-User-Name", mu_name u)].

Definition users_run (BASE : string) : prog (list (list Z)) :=
  for_each (fun u =>
    for_each (fun path => res ← fetch (request_of BASE (user_headers u) (sr "GET" path)); mret (rs_status res))
      user_paths) mock_users.

(** *** lambda.js *)

Definition lambda_config (env : string -> option string) : BatAuditConfig :=
  {| apiKey := server_apiKey env; serviceName := "mock-lambda"; writerUrl := server_writerUrl env;
     environment := Absent; captureBody := Absent; captureResponseBody := Absent |}.

Definition normal_handler (_ : jsval) : prog jsval :=
  sleep_ms 50;;
  mret (JObj [("statusCode", JInt 200); ("body", JStr (json_text (JObj [("ok", JBool true)])))]).

Definition crash_handler (_ : jsval) : prog jsval :=
  sleep_ms 20;;
  Throw (new_error "Simulated Lambda handler crash").

(** The two functions given as [getAuditData]. *)
Definition lambda_data (path : string) (event : jsval) (_ : option jsval) (_ : option thrown)
    : outcome (option obj) :=
  match get_prop event "userId" with
  | None => Err (type_error "userId")
  | Some userId => Ok (Some [("identifier", js_or userId (JStr "lambda-user"));
                             ("path", JStr path); ("method", JStr "POST")])
  end.

(** *** load.js *)

Definition load_paths : list scenario_request := [
  sr "GET" "/health";
  sr "GET" "/users";
  sr "GET" "/users/usr_001";
  sr_with "POST" "/login" [("email", JStr "alice@acme.com"); ("password", JStr "correct")];
  sr "GET" "/orders";
  sr "GET" "/users/ghost";
  sr "GET" "/crash"].

Definition load_users : list string := ["usr_001"; "usr_002"; "usr_003"; "usr_004"; "svc_001"].

(** [parseInt(process.env.K || d, 10)] *)
Definition env_int (env : string -> option string) (k d : string) : option Z := parseInt (env_or env k d).

Definition TOTAL (env : string -> option string) : option Z := env_int env "REQUESTS" "500".
Definition CONCURRENCY (env : string -> option string) : option Z := env_int env "CONCURRENCY" "20".
Definition DELAY_MS (env : string -> option string) : option Z := env_int env "DELAY_MS" "0".

Record counters := { sent : Z; ok : Z; errors : Z }.

(** What the end of one request does to the counters. *)
Definition tally (r : option response) (c : counters) : counters :=
  match r with
  | Some res =>
      if rs_status res <? 500 then {| sent := sent c + 1; ok := ok c + 1; errors := errors c |}
      else {| sent := sent c + 1; ok := ok c; errors := errors c + 1 |}
  | None => {| sent := sent c + 1; ok := ok c; errors := errors c + 1 |}
  end.

(** [sendOne], with the path and the user it has drawn: the answer it counts. *)
Definition send_one (BASE : string) (r : scenario_request) (user : string) : prog (option response) :=
  try_catch (res ← fetch (request_of BASE [("Content-Type", "application/json"); ("X-User-Id", user)] r);
             mret (Some res)) (fun _ => mret None).

(** Arithmetic of numbers that may be [NaN]. *)
Definition num2 (f : Z -> Z -> Z) (a b : option Z) : option Z := x ← a; y ← b; Some (f x y).
Definition less (a b : option Z) : bool :=
  match a, b with Some x, Some y => x <? y | _, _ => false end.

(** [Array.from({ length })] *)
Definition array_length (length : option Z) : nat := Z.to_nat (default 0 length).

(** The sizes of the batches of the loop from [i] on, without the waits between them;
    [None] when the fuel has run out. *)
Fixpoint load_batches (fuel : nat) (i total concurrency : option Z) : option (list nat) :=
  match fuel with
  | O => None
  | S n =>
      if less i total then
        let batch := num2 Z.min concurrency (num2 Z.sub total i) in
        rest ← load_batches n (num2 Z.add i concurrency) total concurrency;
        Some (array_length batch :: rest)
      else Some []
  end.

(** The counters at the end: the answers of a batch are counted in any order. *)
Definition counted (answers : list (option response)) : counters :=
  fold_left (fun c r => tally r c) answers {| sent := 0; ok := 0; errors := 0 |}.

(** ** The server behind the network *)

Section network.
Context `{Express}.

(** What the server gets of a request without a query. *)
Definition received (BASE : string) (rq : request) : option incoming :=
  path ← strip_prefix BASE (rq_url rq);
  Some {| h_method := rq_method rq; h_path := path;
          h_headers := List.map (fun '(k, v) => (to_lower k, JStr v)) (rq_headers rq);
          h_query := []; h_body := rq_body rq; h_ip := Some "::1" |}.

Definition app_response (a : answer) : response :=
  Response (an_status a) (match an_json a with Some v => default "" (stringify v) | None => "" end).

(** The network when [BASE] is the address of the server. *)
Definition app_net (BASE : string) (rq : request) : option response :=
  app_response <$> (answer_to <$> received BASE rq).
End network.

(** ** The events of the server *)

Section audited.
Context `{Express} `{Host} (env : string -> option string).

(** C35 Every request whose body can be parsed is answered as if there were no middleware and
    gives exactly one event, with the method, path and status of the answer and without
    bodies; a request that [express.json()] refuses is answered by the error handler and
    gives none.  The event names nobody: the option [getUser] of server.js is not read by
    the middleware, so that a request with a user in its headers, whom [getUser] names, is
    recorded as anonymous. *)
Theorem mock_audited (r : incoming) w :
  exists events w',
    run (serve env r) w = (Ok (answer_to r, events), w') /\
    (forall e, express_json (h_headers r) (h_body r) = Err e ->
       events = [] /\ answer_to r = error_handler e) /\
    (forall body, express_json (h_headers r) (h_body r) = Ok body -> exists event,
       events = [event] /\
       obj_get "method" event = JStr (h_method r) /\
       obj_get "path" event = JStr (h_path r) /\
       obj_get "status_code" event = JInt (an_status (answer_to r)) /\
       obj_get "service_name" event = JStr "mock-app" /\
       obj_get "environment" event = JStr "prod" /\
       obj_get "request_body" event = JUndef /\ obj_get "response_body" event = JUndef /\
       (forall user, user <> "" -> obj_get "x-user-id" (h_headers r) = JStr user ->
          identifier (ma_getUser (middleware_options env) (h_headers r)) = Some user) /\
       obj_get "identifier" event = JStr "anonymous" /\
       obj_get "user_email" event = JUndef /\ obj_get "user_name" event = JUndef).
Proof.
  unfold serve, answer_to. destruct (express_json _ _) as [body|e]; [| eexists [], w; split_and!; try done; by intros ? [= <-]].
  rewrite run_bind, express_enter_run. destruct (request_id_of _ w) as [id w'].
  destruct (dispatch r body) as [params a] eqn:Ed.
  match goal with |- context [express_jsons ?cl ?l] => destruct (express_jsons_spec cl l) as [_ ->] end.
  eexists _, w'. split; [rewrite run_bind; reflexivity |]. split; [done |]. intros b [= <-].
  eexists. split; [reflexivity |]. split_and!; try reflexivity.
  intros user Hu Hh. cbn. unfold header_or. rewrite Hh. unfold str_truthy.
  by destruct (String.eqb_spec user "").
Qed.
End audited.

(** ** The answers to the scenarios *)

Lemma find_route_ext m1 m2 method path l :
  (forall pattern, m1 pattern path = m2 pattern path) ->
  find_route m1 method path l = find_route m2 method path l.
Proof.
  intros Hm. induction l as [|[[m pattern] h] l IH]; cbn; [done |]. rewrite Hm.
  destruct (String.eqb m method), (m2 pattern path); auto.
Qed.

(** The answer to a request with a plain path that a route matches, with a body of JSON or
    without one. *)
Definition plain_answer (r : scenario_request) : option answer :=
  if plain_path (sr_path r) then
    '(params, h) ← find_route (fun p s => match_segments (split_on "/" p) (split_on "/" s))
                     (sr_method r) (sr_path r) routes;
    Some (caught (h params (default (JObj []) (sr_body r))))
  else None.

Definition plain_body (r : scenario_request) : bool :=
  match sr_body r with
  | None => true
  | Some v => json_ok v && is_body (Some v) && (0 <? String.length (json_text v))%nat &&
              (String.length (json_text v) <=? 1000)%nat
  end.

(** The headers as the server sees them. *)
Definition header_obj (headers : list (string * string)) : obj :=
  List.map (fun '(k, v) => (to_lower k, JStr v)) headers.

Definition sends_json (headers : list (string * string)) : bool :=
  match obj_get "content-type" (header_obj headers) with JStr v => String.eqb v "application/json" | _ => false end.

(** A request with such a path and body that a route answers. *)
Definition plain_request (headers : list (string * string)) (r : scenario_request) : bool :=
  plain_body r && (match sr_body r with None => true | Some _ => sends_json headers end) &&
  match plain_answer r with Some _ => true | None => false end.

(** The status of its answer. *)
Definition plain_status (r : scenario_request) : Z :=
  match plain_answer r with Some a => an_status a | None => 0 end.

Section answers.
Context `{Express}.

Lemma app_net_answer BASE headers r :
  plain_request headers r = true ->
  exists a, plain_answer r = Some a /\ app_net BASE (request_of BASE headers r) = Some (app_response a).
Proof.
  unfold plain_request. intros [[Hb Hh]%andb_true_iff Ha]%andb_true_iff.
  destruct (plain_answer r) as [a|] eqn:E; [| done]. exists a. split; [done |]. unfold plain_answer in E. destruct (plain_path (sr_path r)) eqn:Hp; [| done].
  unfold app_net, received. cbn [rq_url request_of]. rewrite strip_prefix_app. cbn [mbind option_bind fmap option_fmap option_map].
  do 2 f_equal. unfold answer_to. cbn [h_headers h_body rq_headers rq_body request_of].
  fold (header_obj headers).
  assert (express_json (header_obj headers) (json_text <$> sr_body r) =
    Ok (default (JObj []) (sr_body r))) as ->.
  { unfold plain_body in Hb. destruct (sr_body r) as [v|]; [| apply json_none]. cbn [fmap option_fmap option_map default].
    unfold sends_json in Hh. destruct (obj_get _ (header_obj headers)) eqn:Hc; try done.
    apply String.eqb_eq in Hh as ->. rewrite !andb_true_iff, Nat.ltb_lt, Nat.leb_le in Hb.
    destruct Hb as [[[Hok Hv] Hl1] Hl2]. pose proof (json_parse_stringify v Hok) as Hj.
    rewrite json_body; [by rewrite Hj | done | done | by rewrite Hj]. }
  unfold dispatch. cbn [h_method h_path rq_method request_of].
  rewrite (find_route_ext _ (fun p s => match_segments (split_on "/" p) (split_on "/" s)))
    by (intros pattern; by apply match_plain).
  destruct (find_route _ _ _ _) as [[params h]|]; [| done]. cbn in E. by injection E as <-.
Qed.
End answers.

(** A loop whose body gives [g x] whatever happened before gives all of them. *)
Lemma for_each_run `{Host} {A B} (f : A -> prog B) (g : A -> B) l w :
  (forall x w, In x l -> (run (f x) w).1 = Ok (g x)) ->
  (run (for_each f l) w).1 = Ok (List.map g l).
Proof.
  revert w. induction l as [|x l IH]; intros w Hf; [done |]. cbn [for_each]. rewrite run_bind.
  pose proof (Hf x w (or_introl eq_refl)) as Hx. destruct (run (f x) w) as [o w1]. cbn in Hx. subst o.
  rewrite run_bind. specialize (IH w1 (fun y w' Hy => Hf y w' (or_intror Hy))).
  destruct (run (for_each f l) w1) as [o w2]. cbn in IH. by subst o.
Qed.

(** A script against the server reads the status of the answer. *)
Lemma fetch_status `{Express} `{Host} {B} BASE headers r (k : response -> prog B) w :
  (forall tr rq, net tr rq = app_net BASE rq) -> plain_request headers r = true ->
  exists res w', rs_status res = plain_status r /\
    run (fetch (request_of BASE headers r) ≫= k) w = run (k res) w'.
Proof.
  intros Hnet Hr. destruct (app_net_answer BASE headers r Hr) as (a & Ha & Hn).
  exists (app_response a). eexists. split; [unfold plain_status; by rewrite Ha |].
  rewrite run_bind. cbn [fetch run do_fetch]. rewrite Hnet, Hn. reflexivity.
Qed.

(** What the scenarios show against the server, at whatever address it is: the normal one
    succeeds, with 201 for what is created and 204 for what is deleted; the errors are two
    of 404, 401 twice and three of 500; every user gets everything. *)
Theorem scenario_statuses `{Express} `{Host} BASE w :
  (forall tr rq, net tr rq = app_net BASE rq) ->
  (run (normal_run BASE) w).1 = Ok [200; 200; 200; 201; 200; 204; 200; 201] /\
  (run (errors_run BASE) w).1 = Ok (List.map Some [404; 404; 401; 401; 500; 500; 500]) /\
  (run (users_run BASE) w).1 = Ok (repeat [200; 200; 200; 200] 5).
Proof.
  intros Hnet. split_and!.
  - refine (for_each_run _ plain_status normal_requests w _). intros r w' Hr.
    destruct (fetch_status (B := Z) BASE normal_headers r (fun res => mret (rs_status res)) w' Hnet)
      as (res & w2 & <- & ->); [| done].
    revert r Hr. apply forallb_forall. by vm_compute.
  - refine (for_each_run _ (fun r => Some (plain_status r)) errors_requests w _). intros r w' Hr.
    unfold errors_one. rewrite run_try_catch.
    destruct (fetch_status (B := option Z) BASE errors_headers r (fun res => mret (Some (rs_status res))) w' Hnet)
      as (res & w2 & <- & ->); [| done].
    revert r Hr. apply forallb_forall. by vm_compute.
  - refine (for_each_run _ (fun _ => List.map (fun p => plain_status (sr "GET" p)) user_paths) mock_users w _).
    intros u w' _. apply (for_each_run _ (fun p => plain_status (sr "GET" p))). intros p w2 Hp.
    destruct (fetch_status (B := Z) BASE (user_headers u) (sr "GET" p) (fun res => mret (rs_status res)) w2 Hnet)
      as (res & w3 & <- & ->); [| done].
    pose proof (proj1 (forallb_forall (fun p => plain_request (user_headers u) (sr "GET" p)) user_paths)
      ltac:(by vm_compute)) as Hall. exact (Hall p Hp).
Qed.

(** ** The scenarios when the network fails *)

Section failures.
Context `{Host} (BASE : string).
Implicit Types (w : world).

(** A loop whose body makes one request and then goes on or throws. *)
Lemma for_each_requests {A B} (f : A -> prog B) (rq : A -> request) l w :
  (forall x w, exists w1, trace w1 = (trace w ++ [EvFetch (rq x)])%list /\
     ((exists y, run (f x) w = (Ok y, w1)) \/ run (f x) w = (Err network_error, w1))) ->
  exists o w1 n, run (for_each f l) w = (o, w1) /\
    trace w1 = (trace w ++ List.map (fun x => EvFetch (rq x)) (take n l))%list /\
    ((exists ys, o = Ok ys /\ n = length l /\ length ys = n) \/
     (o = Err network_error /\ (0 < n <= length l)%nat)).
Proof.
  intros Hf. revert w. induction l as [|x l IH]; intros w.
  - exists (Ok []), w, 0%nat. split_and!; [done | by rewrite app_nil_r | left]. by exists [].
  - destruct (Hf x w) as (w1 & Ht & Hr). cbn [for_each]. rewrite run_bind.
    destruct Hr as [[y ->] | ->].
    + rewrite run_bind. destruct (IH w1) as (o & w2 & n & -> & Ht2 & Ho).
      rewrite Ht, <- app_assoc in Ht2.
      destruct Ho as [(ys & -> & -> & Hys) | [-> Hn]].
      * exists (Ok (y :: ys)), w2, (length (x :: l)). split_and!; [done | exact Ht2 | left].
        exists (y :: ys). split_and!; [done | done | cbn; lia].
      * exists (Err network_error), w2, (S n). split_and!; [done | exact Ht2 | right]. split; [done | cbn; lia].
    + exists (Err network_error), w1, 1%nat. split_and!; [done | by rewrite Ht | right]. split; [done | cbn; lia].
Qed.

(** The errors scenario sends all its requests in order, whatever fails, and has a line for
    each; the normal scenario sends its requests in order up to the first that fails, and
    ends then with the failure of the network. *)
Theorem scenarios_on_a_network w :
  (exists lines w1, run (errors_run BASE) w = (Ok lines, w1) /\ length lines = length errors_requests /\
     trace w1 = (trace w ++ List.map (fun r => EvFetch (request_of BASE errors_headers r)) errors_requests)%list) /\
  (exists o w1 n, run (normal_run BASE) w = (o, w1) /\
     trace w1 = (trace w ++ List.map (fun r => EvFetch (request_of BASE normal_headers r))
                              (take n normal_requests))%list /\
     ((exists lines, o = Ok lines /\ n = length normal_requests /\ length lines = n) \/
      (o = Err network_error /\ (0 < n <= length normal_requests)%nat))).
Proof.
  split.
  - destruct (for_each_requests (errors_one BASE) (request_of BASE errors_headers) errors_requests w)
      as (o & w1 & n & Hr & Ht & Ho).
    { intros r w'. unfold errors_one. rewrite run_try_catch, run_bind. cbn [fetch run do_fetch].
      destruct (net _ _); cbn; (eexists; split; [| left; by eexists]); done. }
    destruct Ho as [(ys & -> & -> & Hys) | [-> _]].
    + exists ys, w1. rewrite firstn_all in Ht. split_and!; done.
    + exfalso. assert (forall l w, exists ys w', run (for_each (errors_one BASE) l) w = (Ok ys, w')) as Hok.
      { clear. induction l as [|r l IH]; intros w; [by exists [], w |]. cbn [for_each].
        rewrite run_bind. unfold errors_one at 1. rewrite run_try_catch, run_bind. cbn [fetch run do_fetch].
        destruct (net _ _); cbn [run mret prog_ret]; rewrite run_bind;
          match goal with |- context [run (for_each _ l) ?u] => destruct (IH u) as (ys & w' & ->) end;
          by eexists _, w'. }
      destruct (Hok errors_requests w) as (ys & w' & Hy). unfold errors_run in Hr. rewrite Hy in Hr. done.
  - apply for_each_requests. intros r w'. rewrite run_bind. cbn [fetch run do_fetch].
    destruct (net _ _); cbn; eexists; (split; [| first [left; by eexists | by right]]); done.
Qed.
End failures.

(** ** lambda.js *)

(** The two invocations, whatever the writer answers: the first returns its result, the
    second fails with its error, and before either ends the event of the invocation has
    been handed to the client, with the path and the user of the invocation and the status
    200 or, with the message of the error, 500. *)
Theorem lambda_scenario `{Host} env w s o s' (crash : bool) id user :
  user <> "" ->
  wrap_invoke (lambda_config env) (if crash then crash_handler else normal_handler)
    (Some (lambda_data (if crash then "/lambda/crash" else "/lambda/normal")))
    (JObj [("id", JStr id); ("userId", JStr user)]) w s o s' ->
  o = (if crash then Err (new_error "Simulated Lambda handler crash")
       else Ok (JObj [("statusCode", JInt 200); ("body", JStr (json_text (JObj [("ok", JBool true)])))])) /\
  exists event,
    let client := constructor (lambda_config env) in
    rtc (system_step client) (send client event s) s' /\ flush_done (flush (send client event s)) s' /\
    obj_get "path" event = JStr (if crash then "/lambda/crash" else "/lambda/normal") /\
    obj_get "identifier" event = JStr user /\
    obj_get "service_name" event = JStr "mock-lambda" /\
    obj_get "status_code" event = JInt (if crash then 500 else 200) /\
    obj_get "response_time" event = JInt (if crash then 20 else 50) /\
    obj_get "error_message" event = (if crash then JStr "Simulated Lambda handler crash" else JUndef).
Proof.
  intros Hu Hi.
  assert (str_truthy user = true) as Ht by (unfold str_truthy; by destruct (String.eqb_spec user "")).
  inversion Hi as [o' w1 e w2 Hh He | o' w1 event w2 s1 Hh He Hstep Hflush]; subst; clear Hi;
    destruct crash; cbn [run sleep_ms mbind prog_bind fold_leaves crash_handler normal_handler mret prog_ret] in Hh;
    injection Hh as <- <-; rewrite lambda_event_run in He;
    cbn [audit_data lambda_data get_prop obj_get String.eqb] in He; try discriminate.
  all: cbn in He; unfold js_or in He; cbn [truthy] in He; rewrite Ht in He; injection He as <- <-.
  all: (split; [done |]); eexists; split; [exact Hstep |]; split; [exact Hflush |].
  all: cbn; rewrite ?Z.add_simpl_l; split_and!; try reflexivity; f_equal; f_equal; lia.
Qed.

(** ** load.js *)

(** [sendOne] never fails: it ends with what the network gave. *)
Lemma send_one_run `{Host} BASE r user w :
  (run (send_one BASE r user) w).1 =
  Ok (net (trace w) (request_of BASE [("Content-Type", "application/json"); ("X-User-Id", user)] r)).
Proof. unfold send_one. rewrite run_try_catch, run_bind. cbn [fetch run do_fetch]. by destruct (net _ _). Qed.

Lemma fold_tally l c :
  let d := fold_left (fun c r => tally r c) l c in
  sent d = sent c + Z.of_nat (length l) /\
  ok d = ok c + Z.of_nat (length (List.filter (fun r => match r with
                                                     | Some res => rs_status res <? 500 | None => false end) l)) /\
  ok d + errors d - ok c - errors c = Z.of_nat (length l).
Proof.
  revert c. induction l as [|r l IH]; intros c; cbn [fold_left length List.filter]; [lia |].
  destruct (IH (tally r c)) as (E1 & E2 & E3). rewrite E1, E2. unfold tally in *.
  destruct r as [res|]; [destruct (rs_status res <? 500) |]; cbn [sent ok errors length] in *; lia.
Qed.

(** The loop from [i] on, with a positive concurrency. *)
Lemma load_batches_run fuel i total c :
  1 <= c -> (Z.to_nat (total - i) < fuel)%nat ->
  exists l, load_batches fuel (Some i) (Some total) (Some c) = Some l /\
    Z.of_nat (list_sum l) = Z.max 0 (total - i) /\
    Forall (fun b => 1 <= Z.of_nat b <= c) l /\
    Z.of_nat (length l) = (Z.max 0 (total - i) + c - 1) / c.
Proof.
  intros Hc. revert i. induction fuel as [|fuel IH]; intros i Hf; [lia |].
  cbn [load_batches less]. destruct (Z.ltb_spec i total) as [Hlt | Hge].
  - destruct (IH (i + c)) as (l & Hl & Hs & Hb & Hn); [lia |].
    cbn [num2 mbind option_bind]. rewrite Hl. cbn [mbind option_bind].
    eexists. split; [done |]. unfold array_length. cbn [default from_option id length]. unfold id.
    split_and!.
    + match goal with |- context [list_sum (?b :: l)] => change (list_sum (b :: l)) with (b + list_sum l)%nat end.
      lia.
    + constructor; [lia | done].
    + rewrite Nat2Z.inj_succ, Hn. replace (Z.max 0 (total - i) + c - 1) with (total - i - 1 + 1 * c) by lia.
      rewrite Z.div_add by lia. destruct (Z.le_gt_cases (total - i) c).
      * replace (Z.max 0 (total - (i + c)) + c - 1) with (c - 1) by lia.
        rewrite !Z.div_small by lia. lia.
      * replace (Z.max 0 (total - (i + c)) + c - 1) with (total - i - 1) by lia. lia.
  - exists []. split_and!; [done | cbn; lia | constructor |]. cbn [length].
    rewrite Z.max_l, Z.div_small by lia. done.
Qed.

Lemma load_batches_stuck fuel i total c :
  c <= 0 -> i < total -> load_batches fuel (Some i) (Some total) (Some c) = None.
Proof.
  intros Hc. revert i. induction fuel as [|fuel IH]; intros i Hi; [done |].
  cbn [load_batches less]. rewrite (proj2 (Z.ltb_lt _ _)) by done. cbn [num2 mbind option_bind].
  by rewrite IH by lia.
Qed.

(** C36 The load scenario.  With a concurrency of at least one it ends, after as many batches
    as the total takes, each of at most the concurrency, having sent exactly the total,
    every request counted once as answered below 500 or as an error, in whatever order the
    answers of a batch come.  With a concurrency of zero or less it never ends, and with
    one that is not a number it ends without a request. *)
Theorem load_scenario total c :
  0 <= total ->
  (1 <= c -> exists l, load_batches (S (Z.to_nat total)) (Some 0) (Some total) (Some c) = Some l /\
     Z.of_nat (length l) = (total + c - 1) / c /\ Forall (fun b => 1 <= Z.of_nat b <= c) l /\
     forall answers, length answers = list_sum l ->
       sent (counted answers) = total /\ ok (counted answers) + errors (counted answers) = total /\
       ok (counted answers) = Z.of_nat (length (List.filter
         (fun r => match r with Some res => rs_status res <? 500 | None => false end) answers))) /\
  (c <= 0 -> 0 < total -> forall fuel, load_batches fuel (Some 0) (Some total) (Some c) = None) /\
  (exists l, load_batches 2 (Some 0) (Some total) None = Some l /\ list_sum l = 0%nat).
Proof.
  intros Ht. split_and!.
  - intros Hc. destruct (load_batches_run (S (Z.to_nat total)) 0 total c Hc ltac:(lia)) as (l & Hl & Hs & Hb & Hn).
    rewrite Z.sub_0_r, Z.max_r in * by lia. exists l. split_and!; try done. intros answers Ha. unfold counted.
    destruct (fold_tally answers {| sent := 0; ok := 0; errors := 0 |}) as (E1 & E2 & E3).
    cbn [sent ok errors] in *. rewrite E1. split_and!; lia.
  - intros Hc Hp fuel. by apply load_batches_stuck.
  - cbn [load_batches less]. destruct (0 <? total); by eexists.
Qed.

(** ** Demonstrations *)

(** A server that matches plain paths only. *)
#[local] Instance plain_express : Express := {|
  match_path pattern path := match_segments (split_on "/" pattern) (split_on "/" path);
  express_json headers body :=
    match body with
    | None => Ok (JObj [])
    | Some t => if is_body (json_parse t) then Ok (default JUndef (json_parse t)) else Err syntax_error
    end;
  unrouted _ _ := {| an_status := 404; an_json := None |};
  match_plain _ _ _ := eq_refl;
  json_none _ := eq_refl;
  json_body _ text _ _ E := f_equal (fun b : bool =>
    if b then Ok (default JUndef (json_parse text)) else Err syntax_error) E;
  json_refused _ text _ _ E := ex_intro _ "SyntaxError" (ex_intro _ "JSON.parse" (f_equal (fun b : bool =>
    if b then Ok (default JUndef (json_parse text)) else Err syntax_error) E))
|}.

Definition local_base : string := "http://localhost:3000".

(** The network that leads to the server. *)
Definition app_host : Host :=
  {| net := fun _ rq => app_net local_base rq; uuid_at := fun _ => "u"; latency := fun _ => 5 |}.

Lemma scenario_statuses_witness :
  (forall tr rq, @net app_host tr rq = app_net local_base rq) /\
  (@run app_host _ (errors_run local_base) start_world).1 =
    Ok (List.map Some [404; 404; 401; 401; 500; 500; 500]).
Proof.
  assert (forall tr rq, @net app_host tr rq = app_net local_base rq) as Hn by reflexivity.
  split; [exact Hn |].
  exact (proj1 (proj2 (@scenario_statuses plain_express app_host local_base start_world Hn))).
Defined.

Lemma load_scenario_witness :
  0 <= 5 /\ exists l, load_batches 6 (Some 0) (Some 5) (Some 2) = Some l /\ Z.of_nat (length l) = 3.
Proof.
  assert (0 <= 5) as Ht by lia. split; [exact Ht |].
  destruct (proj1 (load_scenario 5 2 Ht) ltac:(lia)) as (l & Hl & Hn & _).
  exists l. split; [exact Hl | exact Hn].
Defined.

(** A user named after a member of every object is found. *)
Definition user_request (id : string) : incoming :=
  {| h_method := "GET"; h_path := "/users/" +:+ id; h_headers := [("x-user-id", JStr "usr_001")];
     h_query := []; h_body := None; h_ip := Some "::1" |}.

Example inherited_user :
  an_status (answer_to (user_request "usr_009")) = 404 /\
  an_status (answer_to (user_request "constructor")) = 200.
Proof. by vm_compute. Qed.

(** A body that is not JSON is answered with 500, without an event. *)
Example refused_body env :
  let r := {| h_method := "POST"; h_path := "/users"; h_headers := [("content-type", JStr "application/json")];
              h_query := []; h_body := Some "{"; h_ip := None |} in
  an_status (answer_to r) = 500 /\
  (@run app_host _ (serve env r) start_world).1 = Ok (answer_to r, []).
Proof. by vm_compute. Qed.

(** The environment of the load scenario. *)
Example load_defaults :
  TOTAL (fun _ => None) = Some 500 /\ CONCURRENCY (fun _ => Some "0") = Some 0 /\
  CONCURRENCY (fun _ => Some "many") = None /\ DELAY_MS (fun _ => Some " -5x") = Some (-5).
Proof. by vm_compute. Qed.
