(* ===== verification/Correlation.v ===== *)
(** * The two SDKs together: one identifier for a request

    A page with the browser SDK calls a server with the Node SDK.  Each side sends an
    event of its own to the writer, and the reader reports as an orphan an event of a
    browser that no event of a server shares its identifier with
    (internal/audit/repository.go).  Here the request the interceptors of [BrowserSdk] put
    on the network is the one the hooks of [NodeSdk] find. *)

From S2P Require Import Prelude JsString JsValue Host NodeSdk BrowserSdk.

Local Open Scope string_scope.
Local Open Scope Z_scope.

(** ** On the wire *)

(** A header as Node gives it: the values under the name, in whatever case, without the
    white space around them and joined. *)
Definition received_header (name : string) (h : list (string * string)) : option string :=
  match List.filter (fun kv => String.eqb (to_lower kv.1) name) h with
  | [] => None
  | l => Some (join ", " (List.map (fun kv => normalize_value kv.2) l))
  end.

Definition incoming_id (h : list (string * string)) : jsval :=
  jopt JStr (received_header "x-request-id" h).

(** The events of a server for a request with the headers [h]: of the Express middleware,
    and of the Fastify plugin; the request may have changed between the hooks. *)
Inductive served (h : list (string * string)) : obj -> Prop :=
| by_express `{Host} config req req' bodies status w w1 w2 w3 cl header event :
    obj_get "x-request-id" (er_headers req) = incoming_id h ->
    run (express_enter config req) w = (Ok (cl, header), w1) ->
    run (express_finish config (express_jsons cl bodies).1 req' status) w2 = (Ok event, w3) ->
    served h event
| by_fastify `{Host} config req r1 payload status elapsed w w1 w2 w3 header event :
    obj_get "x-request-id" (fr_headers req) = incoming_id h ->
    run (onRequest req) w = (Ok (r1, header), w1) ->
    run (onResponse config (onSend config r1 payload).1 status elapsed) w2 = (Ok event, w3) ->
    served h event.

(** ** In the store *)

(** What the store keeps of an event, as far as orphans are concerned: [clean] is what the
    writer makes of a text (internal/audit/sanitizer.go), [assigned] the identifier it gives
    an event without one; an event without a source is one of a server. *)
Record row := { source : string; request_id : string }.

Section store.
Context (clean : string -> string).

Definition row_of (assigned : string) (event : obj) : row :=
  {| source := match obj_get "source" event with
               | JStr s => if String.eqb s "" then "backend" else s | _ => "backend" end;
     request_id := match obj_get "request_id" event with
                   | JStr s => if String.eqb (clean s) "" then assigned else clean s | _ => assigned end |}.
End store.

(** The condition of [GetOrphans]. *)
Definition orphan (audits : list row) (r : row) : bool :=
  String.eqb (source r) "browser" && negb (String.eqb (request_id r) "") &&
  negb (existsb (fun a => String.eqb (source a) "backend" && String.eqb (request_id a) (request_id r) &&
                          negb (String.eqb (request_id a) "")) audits).

(** ** Lemmas *)

(** The server records the identifier it was sent. *)
Lemma served_id h id event :
  received_header "x-request-id" h = Some id -> served h event ->
  obj_get "request_id" event = JStr id /\ obj_get "source" event = JUndef.
Proof.
  intros Hid Hs. destruct Hs as [H config req req' bodies status w w1 w2 w3 cl header event Hh He Hf
                 | H config req r1 payload status elapsed w w1 w2 w3 header event Hh He Hf];
    unfold incoming_id in Hh; rewrite Hid in Hh.
  - rewrite express_enter_run in He. unfold request_id_of in He. rewrite Hh in He. injection He as <- _ _.
    destruct (express_jsons_spec {| ec_startTime := clock w; ec_requestId := id; ec_responseBody := JUndef;
      ec_json_patched := ex_captureResponseBody config |} bodies) as [_ E]. cbn [jopt] in Hf. rewrite E in Hf.
    injection Hf as <- _. done.
  - unfold onRequest in He. rewrite Hh in He. injection He as <- _ _.
    unfold onSend in Hf. destruct (fa_captureResponseBody config); injection Hf as <- _; done.
Qed.

(** Names in lower case, each once: what a [Headers] object holds. *)
Definition names_ok (h : headers) : Prop :=
  Forall (fun kv => to_lower kv.1 = kv.1) h /\ NoDup (List.map fst h).

Lemma to_lower_char_idem a : to_lower_char (to_lower_char a) = to_lower_char a.
Proof.
  assert (forallb (fun a => Ascii.eqb (to_lower_char (to_lower_char a)) (to_lower_char a))
    (List.map ascii_of_nat (seq 0 256)) = true) as Hall by (vm_compute; reflexivity).
  rewrite forallb_forall in Hall. apply Ascii.eqb_eq, Hall, in_map_iff. exists (nat_of_ascii a).
  split; [apply ascii_nat_embedding |]. apply in_seq. pose proof (nat_ascii_bounded a). lia.
Qed.

Lemma to_lower_idem s : to_lower (to_lower s) = to_lower s.
Proof.
  unfold to_lower. induction s as [|a s IH]; cbn [map_string]; [done |]. by rewrite to_lower_char_idem, IH.
Qed.

Lemma headers_put_fst n v h x :
  In x (List.map fst (headers_put n v h)) <-> x = to_lower n \/ In x (List.map fst h).
Proof.
  induction h as [|[m u] h IH]; cbn; [intuition congruence |].
  destruct (String.eqb_spec m (to_lower n)) as [->|]; cbn; [intuition congruence |].
  rewrite IH. intuition congruence.
Qed.

Lemma headers_put_ok n v h : names_ok h -> names_ok (headers_put n v h).
Proof.
  intros [Hl Hn]. split.
  - induction h as [|[m u] h IH]; cbn.
    + constructor; [apply to_lower_idem | done].
    + apply Forall_cons in Hl as [Hm Hl]. apply NoDup_cons in Hn as [_ Hn].
      destruct (String.eqb m (to_lower n)); constructor; auto.
  - induction h as [|[m u] h IH]; cbn; [repeat constructor; set_solver |].
    apply Forall_cons in Hl as [Hm Hl]. cbn in Hn. apply NoDup_cons in Hn as [Hx Hn].
    destruct (String.eqb_spec m (to_lower n)) as [->|Hne]; cbn; apply NoDup_cons; (split; [|auto]).
    + done.
    + rewrite list_elem_of_In in Hx |- *. rewrite headers_put_fst. tauto.
Qed.

Lemma headers_append_ok l : forall h h',
  names_ok h -> fold_left (fun h kv => h ← h; headers_append h kv) l (Some h) = Some h' -> names_ok h'.
Proof.
  induction l as [|kv l IH]; intros h h' Hh E; [by injection E as <- |]. cbn in E.
  unfold headers_append in E at 2. destruct (token_ok kv.1 && value_ok kv.2).
  - eapply IH; [| exact E]. by apply headers_put_ok.
  - by rewrite headers_append_none in E.
Qed.

Lemma new_Headers_ok init h :
  init_ok init -> new_Headers (i ← init; i_headers i) = Some h -> names_ok h.
Proof.
  unfold init_ok. destruct (i ← init; i_headers i) as [[h'|l|l]|]; cbn [new_Headers].
  - intros (? & ? & _) [= <-]. by split.
  - intros _. apply headers_append_ok. by repeat constructor.
  - intros _. apply headers_append_ok. by repeat constructor.
  - intros _ [= <-]. by repeat constructor.
Qed.

(** After [set] the name has exactly the value set. *)
Lemma headers_put_filter n v h :
  names_ok h ->
  List.filter (fun kv => String.eqb (to_lower kv.1) (to_lower n)) (headers_put n v h) = [(to_lower n, v)].
Proof.
  intros [Hl Hn]. induction h as [|[m u] h IH]; cbn; [by rewrite to_lower_idem, String.eqb_refl |].
  apply Forall_cons in Hl as [Hm Hl]. cbn in Hn, Hm. apply NoDup_cons in Hn as [Hx Hn].
  destruct (String.eqb_spec m (to_lower n)) as [->|Hne]; cbn.
  - rewrite to_lower_idem, String.eqb_refl. f_equal.
    assert (forall l, Forall (fun kv : string * string => to_lower kv.1 = kv.1) l ->
      ~ In (to_lower n) (List.map fst l) ->
      List.filter (fun kv => String.eqb (to_lower kv.1) (to_lower n)) l = []) as Hnone.
    { clear. induction l as [|[m u] l IH]; [done |]. intros [Hm Hl]%Forall_cons Hi. cbn in Hi, Hm |- *.
      rewrite Hm. destruct (String.eqb_spec m (to_lower n)); [tauto | apply IH; tauto]. }
    apply Hnone; [done | by rewrite <- list_elem_of_In].
  - rewrite Hm. destruct (String.eqb_spec m (to_lower n)); [done | auto].
Qed.

Lemma filter_comm {A} (f g : A -> bool) l : List.filter f (List.filter g l) = List.filter g (List.filter f l).
Proof.
  induction l as [|x l IH]; cbn; [done |].
  destruct (g x) eqn:Eg, (f x) eqn:Ef; cbn; rewrite ?Eg, ?Ef; congruence.
Qed.

Lemma intercepted_request `{WebPlatform} input init h rq :
  native_request input (with_headers init h) = Some rq ->
  rq_headers rq = List.filter (fun kv => header_allowed (request_mode input init) kv.1 kv.2) h.
Proof.
  unfold native_request. change (i ← with_headers init h; i_headers i) with (Some (HHeaders h)).
  replace (request_mode input (with_headers init h)) with (request_mode input init) by (by destruct init).
  cbn [new_Headers mbind option_bind].
  destruct input; cbn -[request_ok request_mode]; by destruct (request_ok _ _ _); intros [= <-].
Qed.

(** What the server receives of an intercepted [fetch]. *)
Lemma received_fetch `{WebPlatform} input init id h rq :
  init_ok init -> normalize_value id = id -> intercepted_headers init id = Some h ->
  native_request input (with_headers init h) = Some rq ->
  received_header "x-request-id" (rq_headers rq) =
  if String.eqb (request_mode input init) "no-cors" then None else Some id.
Proof.
  intros Hi Hid Hh Hrq. unfold intercepted_headers in Hh.
  destruct (new_Headers (i ← init; i_headers i)) as [h0|] eqn:E; [| done]. cbn in Hh. unfold headers_set in Hh.
  destruct (token_ok _ && value_ok id); [| done]. injection Hh as <-.
  pose proof (headers_put_filter "X-Request-ID" (normalize_value id) h0 (new_Headers_ok init h0 Hi E)) as Hf.
  unfold received_header. rewrite (intercepted_request _ _ _ _ Hrq).
  change "x-request-id" with (to_lower "X-Request-ID"). rewrite filter_comm, Hf, Hid. cbn [List.filter fst snd].
  change (to_lower "X-Request-ID") with "x-request-id". rewrite request_id_allowed.
  destruct (String.eqb _ _); cbn [negb List.map snd join]; [done |]. by rewrite Hid.
Qed.

(** What the server receives of an intercepted [XMLHttpRequest]: the values the page has set
    under the name itself come first. *)
Lemma received_xhr h id :
  received_header "x-request-id" (h ++ [("X-Request-ID", id)])%list =
  Some (match received_header "x-request-id" h with Some v => v +:+ ", " +:+ normalize_value id | None => normalize_value id end).
Proof.
  unfold received_header. rewrite List.filter_app. cbn [List.filter fst].
  change (String.eqb (to_lower "X-Request-ID") "x-request-id") with true. cbn iota.
  destruct (List.filter _ h) as [|kv l]; [done |]. cbn [app]. f_equal. revert kv.
  induction l as [|kv' l IH]; intros kv; [done |]. cbn [app List.map] in IH |- *.
  change (join ", " (normalize_value kv.2 :: normalize_value kv'.2 :: ?r)) with (normalize_value kv.2 +:+ ", " +:+ join ", " (normalize_value kv'.2 :: r)).
  by rewrite IH, !app_assoc_s.
Qed.

Lemma received_none h :
  Forall (fun kv => to_lower kv.1 <> "x-request-id") h -> received_header "x-request-id" h = None.
Proof.
  intros Hh. unfold received_header. induction Hh as [|kv l Hkv Hl IH]; [done |]. cbn [List.filter].
  by destruct (String.eqb_spec (to_lower kv.1) "x-request-id").
Qed.

Lemma orphan_matched audits r a :
  In a audits -> source a = "backend" -> request_id a = request_id r -> orphan audits r = false.
Proof.
  intros Hin Hs Hid. unfold orphan. destruct (String.eqb_spec (request_id r) "") as [->|Hne]; [by rewrite andb_false_r |].
  rewrite andb_false_iff. right. apply negb_false_iff, existsb_exists. exists a. split; [done |].
  rewrite Hs, Hid, !String.eqb_refl. by destruct (String.eqb_spec (request_id r) "").
Qed.

Lemma orphan_unmatched audits id :
  id <> "" -> (forall x, In x audits -> source x = "backend" -> request_id x <> id) ->
  orphan audits {| source := "browser"; request_id := id |} = true.
Proof.
  intros Hne Hnone. unfold orphan. cbn [source request_id]. destruct (String.eqb_spec id ""); [done |]. cbn.
  apply negb_true_iff, not_true_is_false.
  intros (x & Hx & [[Hs%String.eqb_eq Hid%String.eqb_eq]%andb_true_iff _]%andb_true_iff)%existsb_exists.
  by apply (Hnone x Hx Hs).
Qed.

Lemma server_row clean h id assigned event :
  received_header "x-request-id" h = Some id -> served h event -> clean id <> "" ->
  row_of clean assigned event = {| source := "backend"; request_id := clean id |}.
Proof.
  intros Hr Hs Hne. destruct (served_id _ _ _ Hr Hs) as [E1 E2]. unfold row_of. rewrite E1, E2.
  by destruct (String.eqb_spec (clean id) "").
Qed.

Lemma browser_row clean id assigned event :
  obj_get "request_id" event = JStr id -> obj_get "source" event = JStr "browser" -> clean id <> "" ->
  row_of clean assigned event = {| source := "browser"; request_id := clean id |}.
Proof.
  intros E1 E2 Hne. unfold row_of. rewrite E1, E2. by destruct (String.eqb_spec (clean id) "").
Qed.

(** ** Properties *)

Section properties.
Context `{Host} `{WebPlatform} (clean : string -> string).

(** C7 A request a page makes with [fetch], whatever way it gives valid headers, and
    X-BatAudit-Skip among them or not, sends one event, and at most one request (none when
    the platform refuses it).  Unless its mode is [no-cors], the event of any instrumented
    server that gets the request carries the identifier of the page's event, and once it is
    stored the reader matches the two, whatever else it stores.  In the mode [no-cors] the
    platform drops the header, and no identifier reaches the server.  If no stored event of
    a server has the identifier, the reader reports the request as an orphan.  (The
    identifier, the caller's own or a new one, is one that is kept on the way: without
    white space around it, and with something left by the writer.) *)
Theorem fetch_correlated c writerOrigin user_then input init w h :
  init_ok init -> starts_with (input_url input) writerOrigin = false ->
  intercepted_headers init (fetch_id init w).1 = Some h ->
  normalize_value (fetch_id init w).1 = (fetch_id init w).1 -> clean (fetch_id init w).1 <> "" ->
  exists o event w' sent,
    run (batAuditFetch c writerOrigin native_fetch user_then input init) w = (Ok (o, [event]), w') /\
    trace w' = (trace w ++ List.map EvFetch sent)%list /\ (length sent <= 1)%nat /\
    (request_mode input init = "no-cors" ->
       Forall (fun rq => received_header "x-request-id" (rq_headers rq) = None) sent) /\
    forall audits a, let r := row_of clean a event in
      (request_mode input init <> "no-cors" ->
       forall rq server_event a', In rq sent -> served (rq_headers rq) server_event ->
         In (row_of clean a' server_event) audits -> orphan audits r = false) /\
      ((forall x, In x audits -> source x = "backend" -> request_id x <> clean (fetch_id init w).1) ->
       orphan audits r = true).
Proof.
  intros Hi Hw Hh Ht Hne. pose proof (batAuditFetch_trace c writerOrigin user_then input init w h Hw Hh) as Htr.
  rewrite batAuditFetch_run, Hw in Htr |- *. destruct (fetch_id init w) as [id w1]. cbn [fst snd] in *.
  rewrite Hh in Htr |- *. destruct (run (native_fetch _ _) w1) as [o w2]. cbn [snd] in Htr.
  eexists o, _, w2, (option_list (native_request input (with_headers init h))).
  split; [reflexivity |]. pose proof (fun rq => received_fetch input init id h rq Hi Ht Hh) as Hr.
  destruct (native_request _ _) as [rq|]; cbn [option_list List.map];
    (split; [by rewrite ?app_nil_r |]); (split; [cbn; lia |]).
  - specialize (Hr rq eq_refl). split.
    + intros E. rewrite E in Hr. by repeat constructor.
    + intros audits a. cbn zeta. rewrite (browser_row clean id) by done. split.
      * intros Hm rq' es a' [<- | []] Hs Hin. apply (orphan_matched _ _ _ Hin);
          destruct (String.eqb_spec (request_mode input init) "no-cors"); try done;
          by rewrite (server_row clean _ id a' es Hr Hs Hne).
      * intros Hnone. by apply orphan_unmatched.
  - split; [constructor |]. intros audits a. cbn zeta. rewrite (browser_row clean id) by done. split; [done |].
    intros Hnone. by apply orphan_unmatched.
Qed.

(** The same for an [XMLHttpRequest] on which the page has set no X-Request-ID. *)
Theorem xhr_correlated c status x x' w w1 w2 :
  _bat_skip x = false -> x_listeners x = 0%nat ->
  Forall (fun kv => to_lower kv.1 <> "x-request-id") (x_headers x) ->
  run (xhr_send x) w = (Ok x', w1) ->
  let id := "bat-" +:+ uuid_at (drawn w) in
  normalize_value id = id -> clean id <> "" ->
  exists event,
    run (xhr_loadend c status x') w2 = (Ok [event], w2) /\
    forall audits a server_event a', served (x_headers x') server_event ->
      In (row_of clean a' server_event) audits -> orphan audits (row_of clean a event) = false.
Proof.
  intros Hsk Hl Hx Hs id Ht Hne. unfold xhr_send in Hs. rewrite Hsk in Hs. cbn in Hs. injection Hs as <- <-.
  rewrite xhr_loadend_run. cbn [x_listeners x_headers]. rewrite Hl. cbn [repeat].
  eexists. split; [done |]. intros audits a es a' He Hin.
  pose proof (received_xhr (x_headers x) id) as Hr. rewrite (received_none _ Hx), Ht in Hr.
  apply (orphan_matched _ _ _ Hin); rewrite (server_row clean _ id a' es Hr He Hne); [done |].
  by rewrite (browser_row clean id).
Qed.

(** When the page has set an X-Request-ID of its own, the two values are joined on the way
    while the event has the second: stored as they are, the event of the page is an orphan
    next to the event of the server that answered it. *)
Theorem xhr_own_id_orphan c status x x' w w1 w2 server_event a a' :
  _bat_skip x = false -> x_listeners x = 0%nat ->
  received_header "x-request-id" (x_headers x) <> None ->
  run (xhr_send x) w = (Ok x', w1) -> served (x_headers x') server_event ->
  normalize_value ("bat-" +:+ uuid_at (drawn w)) = "bat-" +:+ uuid_at (drawn w) ->
  let stored := row_of (fun s => s) in
  exists event,
    run (xhr_loadend c status x') w2 = (Ok [event], w2) /\
    orphan [stored a event; stored a' server_event] (stored a event) = true.
Proof.
  intros Hsk Hl Hx Hs He Ht stored. unfold xhr_send in Hs. rewrite Hsk in Hs. cbn in Hs. injection Hs as <- <-.
  rewrite xhr_loadend_run. cbn [x_listeners x_headers] in *. rewrite Hl. cbn [repeat].
  eexists. split; [done |]. pose proof (received_xhr (x_headers x) ("bat-" +:+ uuid_at (drawn w))) as Hr.
  destruct (received_header _ (x_headers x)) as [v|]; [| done]. rewrite Ht in Hr. unfold stored.
  assert (v +:+ ", " +:+ "bat-" +:+ uuid_at (drawn w) <> "") as Hne by (by destruct v).
  rewrite (server_row (fun s => s) _ _ a' _ Hr He Hne), (browser_row (fun s => s) ("bat-" +:+ uuid_at (drawn w))) by done.
  apply orphan_unmatched; [done |]. intros y [<- | [<- | []]]; [done |]. intros _. cbn [request_id]. intros Heq.
  apply (f_equal String.length) in Heq. rewrite length_app_s in Heq. cbn in Heq. lia.
Qed.
End properties.

(** ** Demonstrations *)

Definition pay_init : option request_init :=
  Some {| i_method := Some "post"; i_headers := Some (HRecord [("Accept", "text/html")]); i_body := None;
          i_mode := None |}.

Definition pay_request : ExpressRequest :=
  {| er_method := "POST"; er_path := "/api/pay"; er_headers := [("x-request-id", JStr "bat-u")];
     er_query := []; er_params := []; er_body := JNull; er_ip := None; er_socket := None; er_bataudit := None |}.

Definition pay_closure : ExpressClosure :=
  {| ec_startTime := 1000; ec_requestId := "bat-u"; ec_responseBody := JUndef; ec_json_patched := false |}.

(** A request that reaches a server whose answer is lost: no orphan once the server's event
    is stored, an orphan before. *)
Lemma fetch_correlated_witness :
  exists o event w' rq server_event,
    run (H := BrowserSdk.dead_host) (@batAuditFetch demo_web (BrowserSdk.constructor (BrowserSdk.demo_config "http://w"))
      "http://w" (@native_fetch demo_web) anonymous (InString "/api/pay") pay_init)
      BrowserSdk.start_world = (Ok (o, [event]), w') /\
    trace w' = [EvFetch rq] /\ served (rq_headers rq) server_event /\
    orphan [row_of (fun s => s) "" event; row_of (fun s => s) "" server_event]
      (row_of (fun s => s) "" event) = false /\
    orphan [row_of (fun s => s) "" event] (row_of (fun s => s) "" event) = true.
Proof.
  assert (exists e, run (H := NodeSdk.dead_host) (express_finish NodeSdk.demo_config pay_closure pay_request 200)
    NodeSdk.start_world = (Ok e, NodeSdk.start_world)) as [e He] by (eexists; reflexivity).
  destruct (@fetch_correlated BrowserSdk.dead_host demo_web (fun s => s)
    (BrowserSdk.constructor (BrowserSdk.demo_config "http://w")) "http://w" anonymous (InString "/api/pay") pay_init
    BrowserSdk.start_world [("accept", "text/html"); ("x-request-id", "bat-u")] I eq_refl eq_refl eq_refl
    ltac:(vm_compute; discriminate)) as (o & event & w' & sent & Hrun & Htr & _ & _ & Hall).
  assert (sent = [Request "/api/pay" "POST" [("accept", "text/html"); ("x-request-id", "bat-u")] None]) as ->.
  { vm_compute in Hrun. injection Hrun as <- <- <-. vm_compute in Htr.
    destruct sent as [|rq [|rq' sent]]; try discriminate Htr. by injection Htr as <-. }
  exists o, event, w', (Request "/api/pay" "POST" [("accept", "text/html"); ("x-request-id", "bat-u")] None), e.
  assert (served [("accept", "text/html"); ("x-request-id", "bat-u")] e) as Hs.
  { eapply (@by_express _ NodeSdk.dead_host NodeSdk.demo_config pay_request pay_request [] 200
      NodeSdk.start_world NodeSdk.start_world NodeSdk.start_world NodeSdk.start_world pay_closure);
      [reflexivity | reflexivity | exact He]. }
  split_and!; [exact Hrun | exact Htr | exact Hs | |].
  - refine (proj1 (Hall _ "") _ _ e "" (or_introl eq_refl) Hs _); [discriminate | right; by left].
  - apply (proj2 (Hall [row_of (fun s => s) "" event] "")).
    intros a [<- | []]. vm_compute in Hrun. injection Hrun as <- <- <-. vm_compute. discriminate.
Defined.

(** A page that sets its own identifier on an [XMLHttpRequest], and the Express server that
    answers it. *)
Definition own_id_xhr : InstrumentedXHR :=
  {| _bat_method := Some "GET"; _bat_url := Some "/api"; _bat_skip := false; _bat_request_id := None;
     _bat_start_time := None; x_headers := [("X-Request-Id", "checkout-7")]; x_listeners := 0 |}.

Definition sent_xhr : InstrumentedXHR :=
  {| _bat_method := Some "GET"; _bat_url := Some "/api"; _bat_skip := false; _bat_request_id := Some "bat-u";
     _bat_start_time := Some 1000; x_headers := [("X-Request-Id", "checkout-7"); ("X-Request-ID", "bat-u")];
     x_listeners := 1 |}.

Definition api_request : ExpressRequest :=
  {| er_method := "GET"; er_path := "/api"; er_headers := [("x-request-id", JStr "checkout-7, bat-u")];
     er_query := []; er_params := []; er_body := JNull; er_ip := None; er_socket := None; er_bataudit := None |}.

Definition api_closure : ExpressClosure :=
  {| ec_startTime := 1000; ec_requestId := "checkout-7, bat-u"; ec_responseBody := JUndef; ec_json_patched := false |}.

Example own_id_orphan :
  exists event server_event,
    served (x_headers sent_xhr) server_event /\
    orphan [row_of (fun s => s) "" event; row_of (fun s => s) "" server_event]
      (row_of (fun s => s) "" event) = true.
Proof.
  assert (exists e, run (H := NodeSdk.dead_host) (express_finish NodeSdk.demo_config api_closure api_request 200)
    NodeSdk.start_world = (Ok e, NodeSdk.start_world)) as [e He] by (eexists; reflexivity).
  assert (served (x_headers sent_xhr) e) as Hs.
  { eapply (@by_express _ NodeSdk.dead_host NodeSdk.demo_config api_request api_request [] 200
      NodeSdk.start_world NodeSdk.start_world NodeSdk.start_world NodeSdk.start_world api_closure);
      [reflexivity | reflexivity | exact He]. }
  destruct (@xhr_own_id_orphan BrowserSdk.dead_host demo_web
    (BrowserSdk.constructor (BrowserSdk.demo_config "http://w")) 200 own_id_xhr sent_xhr BrowserSdk.start_world
    (draw BrowserSdk.start_world) BrowserSdk.start_world e "" "" eq_refl eq_refl ltac:(vm_compute; discriminate)
    eq_refl Hs eq_refl) as (ev & _ & Ho).
  exists ev, e. split; [exact Hs | exact Ho].
Qed.
